(* ===== verification/_CoqProject ===== *)
-Q . S2P
Prelude.v
RingBuffer.v
RtList.v
Kservice.v
KernelTypes.v
Scheduler.v
Object.v
Timer.v
Thread.v
TimerRun.v
IpcList.v
Sem.v
Mutex.v
Event.v
Mailbox.v
MessageQueue.v
ThreadLife.v
ThreadEnd.v
Boot.v
Mempool.v
Completion.v
DataQueue.v
WaitQueue.v
WorkQueue.v
