(* ===== verification/Prelude.v ===== *)
(** * The RT-Thread kernel of the U2RX_cc SDK

    A model of the kernel core of this repository (src/kernel, derived from
    RT-Thread 3.1.3) in the configuration of src/out/rtconfig/rtconfig.h: one
    processor, 256 priorities, 100 ticks a second, software timers, heap,
    semaphores, mutexes, events, mailboxes and message queues, thread locks and
    idle hooks on; SMP, signals, modules and power management off.

    ** How the program is modelled

    Data structures that stand alone (the ring buffer, the linked lists, the
    string routines) are pure functions on their memory.  Everything that shares
    kernel objects is a function of the state monad [K] over [kstate]
    ([KernelTypes]), one definition per C function, in the order of its
    statements; [None] is a stop in RT_ASSERT, in the endless loop of the
    stack check, or an access outside an array.  Integers are [Z], cut to their
    width where the C code stores them ([u8], [u16], [u32], [swrap]).
    Interrupt disabling has no effect of its own: a routine is one step; where
    the C code enables interrupts in the middle of a routine and the order
    matters (message queues, soft timers) the model has a definition per
    section.  [rt_schedule] changes [rt_current_thread]; the code of a routine
    behind a wait is a definition of its own, with the suffix [_after], that
    runs when its thread runs again.

    ** Files

    - [Prelude]: machine integers, list indexing, tactics (this file).
    - [RingBuffer]: utilities/ringbuffer.c.  It refines a bounded queue of bytes.
    - [RtList]: the lists of include/rtservice.h on a heap of nodes; a list of
      pointers [represents] a list of nodes.  Later files use the list of nodes.
    - [Kservice]: __rt_ffs and the string and memory routines of src/kservice.c.
    - [KernelTypes]: the structures of include/rtdef.h, the state, the monad and
      its proof rules.
    - [Scheduler]: src/scheduler.c, with the invariant [sched_ok] between the
      ready lists, the two-level bitmap, the states and the priorities.
    - [Object]: src/object.c.  - [Timer], [TimerRun]: src/timer.c, the sleeping
      routines of src/thread.c and src/clock.c, with the invariant [timers_ok].
    - [Thread]: suspension, resumption, priority and yield of src/thread.c, with
      the invariant [core_ok] of the kernel core.
    - [IpcList], [Sem], [Mutex], [Event], [Mailbox], [MessageQueue]: src/ipc.c,
      an invariant per kind of object, the queues as refinements of abstract
      queues.
    - [ThreadLife], [ThreadEnd]: creation, start, exit and deletion of threads
      (src/thread.c), src/idle.c, the first stack frame (platform/cpu/armv6/stack.c).
    - [Boot]: the kernel part of platform/startup/os_startup.c.

    ** What the theorems show

    Every operation keeps [core_ok] ([rtthread_startup_boots] establishes it):
    each thread is in the list its state says, the bitmap says which ready lists
    are not empty, and every running thread timer belongs to a suspended thread.
    On top of it: the scheduler picks the first thread of the highest priority;
    yields are fair; sleeping threads wake at their tick; semaphores hand
    permits over in order; mutexes have one owner, which inherits the priority
    of its waiters; events serve the waiting threads in list order; mailboxes and
    message queues are bounded queues, the latter under every interleaving of
    their sections; threads that start are ready and threads that end leave
    nothing behind.  Error returns and their lack of effect are part of the
    statements.  Several theorems document defects; they are listed with the
    findings of the manifest.

    ** Fuel

    Loops that are not structural take fuel, and the theorems say how much is
    enough: the length of the waiting list for [rt_ipc_list_resume_all] and
    [rt_event_send], the number of expired timers plus one for
    [rt_timer_check], the number of threads taken plus one for
    [rt_defunct_execute].

    ** Not modelled

    The memory allocators (the heap is [rt_malloc], which gives fresh addresses
    or fails), devices, memory pools, the shell, file systems, network,
    drivers, applications, vendored libraries, rt_kprintf, hooks other than the
    idle hooks, the singly linked lists, the SMP variants; the machine code of
    context switches and of the interrupt entry. *)
From Stdlib Require Export ZArith Lia Bool.
From stdpp Require Export base option gmap numbers list.

Local Open Scope Z_scope.

(** * Machine integers *)

Declare Scope mach_scope.
Delimit Scope mach_scope with mach.

(** [wrap w z]: the value an unsigned [w]-bit object holds after [z] is stored in it. *)
Definition wrap (w z : Z) : Z := z mod 2 ^ w.

(** [swrap w z]: the value a two's complement [w]-bit object holds after [z] is stored in it. *)
Definition swrap (w z : Z) : Z := (z + 2 ^ (w - 1)) mod 2 ^ w - 2 ^ (w - 1).

Abbreviation u8 := (wrap 8).
Abbreviation u16 := (wrap 16).
Abbreviation u32 := (wrap 32).
Abbreviation i32 := (swrap 32).

Lemma wrap_range w z : 0 <= w -> 0 <= wrap w z < 2 ^ w.
Proof. intros. unfold wrap. apply Z.mod_pos_bound. lia. Qed.

Lemma wrap_small w z : 0 <= z < 2 ^ w -> wrap w z = z.
Proof. intros. unfold wrap. by apply Z.mod_small. Qed.

Lemma wrap_wrap w z : wrap w (wrap w z) = wrap w z.
Proof. unfold wrap. apply Zmod_mod. Qed.

Lemma swrap_small w z : 0 < w -> - 2 ^ (w - 1) <= z < 2 ^ (w - 1) -> swrap w z = z.
Proof.
  intros Hw Hz. unfold swrap.
  assert (2 ^ w = 2 * 2 ^ (w - 1)) as E.
  { replace w with (Z.succ (w - 1)) at 1 by lia. rewrite Z.pow_succ_r; lia. }
  rewrite Z.mod_small; lia.
Qed.

(** * Lists indexed by integers *)

Abbreviation zlen l := (Z.of_nat (length l)).

(** [znth l i]: the element of [l] at the integer index [i], 0 outside. *)
Definition znth (l : list Z) (i : Z) : Z := nth (Z.to_nat i) l 0.

(** [memcpy dst d src s n] copies [n] bytes from [src + s] to [dst + d]; [None]
    when either range leaves its buffer. *)
Definition memcpy (dst : list Z) (d : Z) (src : list Z) (s n : Z) : option (list Z) :=
  if (0 <=? n) && (0 <=? d) && (d + n <=? zlen dst) && (0 <=? s) && (s + n <=? zlen src)
  then Some (take (Z.to_nat d) dst
             ++ take (Z.to_nat n) (drop (Z.to_nat s) src)
             ++ drop (Z.to_nat (d + n)) dst)
  else None.

(** [zset l i v]: the array store [l[i] = v]; [None] when out of bounds. *)
Definition zset (l : list Z) (i v : Z) : option (list Z) :=
  if (0 <=? i) && (i <? zlen l) then Some (<[Z.to_nat i := v]> l) else None.

(** [zget l i]: the array load [l[i]]; [None] when out of bounds. *)
Definition zget (l : list Z) (i : Z) : option Z :=
  if (0 <=? i) && (i <? zlen l) then l !! Z.to_nat i else None.

#[global] Arguments memcpy : simpl never.
#[global] Arguments zset : simpl never.
#[global] Arguments zget : simpl never.
#[global] Arguments wrap : simpl never.
#[global] Arguments swrap : simpl never.

Lemma znth_take l n i :
  0 <= i < n -> znth (take (Z.to_nat n) l) i = znth l i.
Proof.
  intros H. unfold znth. rewrite !nth_lookup, lookup_take.
  rewrite decide_True by lia. done.
Qed.

Lemma znth_app l k i :
  0 <= i -> znth (l ++ k) i = if i <? zlen l then znth l i else znth k (i - zlen l).
Proof.
  intros H. unfold znth. destruct (Z.ltb_spec i (zlen l)).
  - rewrite app_nth1 by lia. done.
  - rewrite app_nth2 by lia. f_equal. lia.
Qed.

Lemma znth_drop l n i : 0 <= i -> 0 <= n -> znth (drop (Z.to_nat n) l) i = znth l (n + i).
Proof.
  intros. unfold znth. rewrite !nth_lookup, lookup_drop. do 2 f_equal. lia.
Qed.

Lemma znth_cons x l i : znth (x :: l) i = if i <=? 0 then x else znth l (i - 1).
Proof.
  unfold znth. destruct (Z.leb_spec i 0).
  - replace (Z.to_nat i) with O by lia. done.
  - replace (Z.to_nat i) with (S (Z.to_nat (i - 1))) by lia. done.
Qed.

Lemma zlen_nonneg {A} (l : list A) : 0 <= zlen l.
Proof. lia. Qed.

Lemma list_eq_znth (l k : list Z) :
  zlen l = zlen k -> (forall i, 0 <= i < zlen l -> znth l i = znth k i) -> l = k.
Proof.
  intros Hl H. apply (nth_ext _ _ 0 0); [lia |].
  intros n Hn. specialize (H (Z.of_nat n)). unfold znth in H.
  rewrite Nat2Z.id in H. apply H. lia.
Qed.

Lemma memcpy_Some dst d src s n :
  0 <= n -> 0 <= d -> d + n <= zlen dst -> 0 <= s -> s + n <= zlen src ->
  exists dst', memcpy dst d src s n = Some dst' /\ zlen dst' = zlen dst /\
    forall i, 0 <= i -> znth dst' i =
      if (d <=? i) && (i <? d + n) then znth src (s + (i - d)) else znth dst i.
Proof.
  intros. unfold memcpy.
  replace ((0 <=? n) && (0 <=? d) && (d + n <=? zlen dst) && (0 <=? s) && (s + n <=? zlen src))
    with true by lia.
  eexists. split; [reflexivity |]. split.
  - rewrite !length_app, !length_take, !length_drop. lia.
  - intros i Hi.
    rewrite znth_app by lia. rewrite length_take.
    destruct (Z.ltb_spec i (Z.of_nat (Z.to_nat d `min` length dst))).
    + rewrite znth_take by lia. replace ((d <=? i) && (i <? d + n)) with false by lia. done.
    + rewrite znth_app by lia. rewrite length_take, length_drop.
      destruct (Z.ltb_spec (i - Z.of_nat (Z.to_nat d `min` length dst))
                 (Z.of_nat (Z.to_nat n `min` (length src - Z.to_nat s)))).
      * rewrite znth_take, znth_drop by lia.
        replace ((d <=? i) && (i <? d + n)) with true by lia. f_equal. lia.
      * rewrite znth_drop by lia.
        replace ((d <=? i) && (i <? d + n)) with false by lia. f_equal. lia.
Qed.

Lemma zset_Some l i v :
  0 <= i < zlen l ->
  exists l', zset l i v = Some l' /\ zlen l' = zlen l /\
    forall j, 0 <= j -> znth l' j = if j =? i then v else znth l j.
Proof.
  intros H. unfold zset. replace ((0 <=? i) && (i <? zlen l)) with true by lia.
  eexists. split; [reflexivity |]. split; [rewrite length_insert; lia |].
  intros j Hj. unfold znth. rewrite !nth_lookup.
  destruct (Z.eqb_spec j i) as [-> | Hn].
  - rewrite list_lookup_insert_eq by lia. done.
  - rewrite list_lookup_insert_ne by lia. done.
Qed.

Lemma zget_Some l i : 0 <= i < zlen l -> zget l i = Some (znth l i).
Proof.
  intros H. unfold zget, znth. replace ((0 <=? i) && (i <? zlen l)) with true by lia.
  destruct (l !! Z.to_nat i) as [x|] eqn:E.
  - rewrite nth_lookup, E. done.
  - apply lookup_ge_None in E. lia.
Qed.

(** * Automation *)

(** Case analysis on the integer comparisons of the goal. *)
Ltac zcases :=
  repeat match goal with
  | |- context [Z.ltb ?a ?b] => destruct (Z.ltb_spec a b)
  | |- context [Z.leb ?a ?b] => destruct (Z.leb_spec a b)
  | |- context [Z.eqb ?a ?b] => destruct (Z.eqb_spec a b)
  end; simpl.

Create HintDb rtt discriminated.
