(* ===== verification/RingBuffer.v ===== *)
(** * Ring buffer: [src/kernel/utilities/ringbuffer.c]

    Byte ring buffer with a mirror bit.  Every operation of the C file is a
    definition of the same name; an operation returns [None] when one of its
    [memcpy] calls or array accesses leaves its buffer, or when [RT_ASSERT]
    fails.  The [contents] of a buffer is the list of bytes from the read to
    the write position; the theorems relate every operation to that list. *)

From S2P Require Import Prelude.

Local Open Scope Z_scope.

Module RingBuffer.

Definition RT_ALIGN_SIZE : Z := 4.

(** [RT_ALIGN_DOWN(size, align)] *)
Definition RT_ALIGN_DOWN (size align : Z) : Z := Z.land size (Z.lnot (align - 1)).

Record rt_ringbuffer := RingBuf {
  buffer_ptr : list Z;
  read_mirror : Z;   (* 1-bit field *)
  read_index : Z;    (* 15-bit field *)
  write_mirror : Z;  (* 1-bit field *)
  write_index : Z;   (* 15-bit field *)
  buffer_size : Z    (* rt_int16_t *)
}.

Inductive rt_ringbuffer_state :=
  | RT_RINGBUFFER_EMPTY
  | RT_RINGBUFFER_FULL
  | RT_RINGBUFFER_HALFFULL.

Definition set_buf (rb : rt_ringbuffer) (b : list Z) : rt_ringbuffer :=
  RingBuf b (read_mirror rb) (read_index rb) (write_mirror rb) (write_index rb) (buffer_size rb).

Definition set_write (rb : rt_ringbuffer) (m i : Z) : rt_ringbuffer :=
  RingBuf (buffer_ptr rb) (read_mirror rb) (read_index rb) (wrap 1 m) (wrap 15 i) (buffer_size rb).

Definition set_read (rb : rt_ringbuffer) (m i : Z) : rt_ringbuffer :=
  RingBuf (buffer_ptr rb) (wrap 1 m) (wrap 15 i) (write_mirror rb) (write_index rb) (buffer_size rb).

Definition rt_ringbuffer_status (rb : rt_ringbuffer) : rt_ringbuffer_state :=
  if read_index rb =? write_index rb then
    if read_mirror rb =? write_mirror rb then RT_RINGBUFFER_EMPTY else RT_RINGBUFFER_FULL
  else RT_RINGBUFFER_HALFFULL.

Definition rt_ringbuffer_data_len (rb : rt_ringbuffer) : Z :=
  match rt_ringbuffer_status rb with
  | RT_RINGBUFFER_EMPTY => 0
  | RT_RINGBUFFER_FULL => u32 (buffer_size rb)
  | RT_RINGBUFFER_HALFFULL =>
      if read_index rb <? write_index rb
      then u32 (write_index rb - read_index rb)
      else u32 (buffer_size rb - (read_index rb - write_index rb))
  end.

(** [rt_ringbuffer_space_len(rb)]: an [rt_size_t] subtraction *)
Definition rt_ringbuffer_space_len (rb : rt_ringbuffer) : Z :=
  u32 (buffer_size rb - rt_ringbuffer_data_len rb).

Definition rt_ringbuffer_get_size (rb : rt_ringbuffer) : Z := u16 (buffer_size rb).

Definition rt_ringbuffer_init (pool : list Z) (size : Z) : option rt_ringbuffer :=
  if 0 <? size
  then Some (RingBuf pool 0 0 0 0 (swrap 16 (RT_ALIGN_DOWN size RT_ALIGN_SIZE)))
  else None.

Definition rt_ringbuffer_reset (rb : rt_ringbuffer) : rt_ringbuffer :=
  set_write (set_read rb 0 0) 0 0.

Definition rt_ringbuffer_put (rb : rt_ringbuffer) (ptr : list Z) (length : Z)
  : option (Z * rt_ringbuffer) :=
  let size := u16 (rt_ringbuffer_space_len rb) in
  if size =? 0 then Some (0, rb)
  else
    let length := if size <? length then size else length in
    if length <? buffer_size rb - write_index rb then
      b ← memcpy (buffer_ptr rb) (write_index rb) ptr 0 length;
      Some (length, set_write (set_buf rb b) (write_mirror rb) (write_index rb + length))
    else
      let n := buffer_size rb - write_index rb in
      b1 ← memcpy (buffer_ptr rb) (write_index rb) ptr 0 n;
      b2 ← memcpy b1 0 ptr n (length - n);
      Some (length, set_write (set_buf rb b2) (Z.lnot (write_mirror rb)) (length - n)).

Definition rt_ringbuffer_put_force (rb : rt_ringbuffer) (ptr : list Z) (length : Z)
  : option (Z * rt_ringbuffer) :=
  let space_length := u16 (rt_ringbuffer_space_len rb) in
  let '(ptr, length) :=
    if buffer_size rb <? length
    then (drop (Z.to_nat (length - buffer_size rb)) ptr, u16 (buffer_size rb))
    else (ptr, length) in
  if length <? buffer_size rb - write_index rb then
    b ← memcpy (buffer_ptr rb) (write_index rb) ptr 0 length;
    let rb := set_write (set_buf rb b) (write_mirror rb) (write_index rb + length) in
    let rb := if space_length <? length
              then set_read rb (read_mirror rb) (write_index rb) else rb in
    Some (length, rb)
  else
    let n := buffer_size rb - write_index rb in
    b1 ← memcpy (buffer_ptr rb) (write_index rb) ptr 0 n;
    b2 ← memcpy b1 0 ptr n (length - n);
    let rb := set_write (set_buf rb b2) (Z.lnot (write_mirror rb)) (length - n) in
    let rb := if space_length <? length
              then set_read rb (Z.lnot (read_mirror rb)) (write_index rb) else rb in
    Some (length, rb).

(** [ptr] is the destination buffer; the result holds its new bytes. *)
Definition rt_ringbuffer_get (rb : rt_ringbuffer) (ptr : list Z) (length : Z)
  : option (Z * list Z * rt_ringbuffer) :=
  let size := rt_ringbuffer_data_len rb in
  if size =? 0 then Some (0, ptr, rb)
  else
    let length := if size <? length then u16 size else length in
    if length <? buffer_size rb - read_index rb then
      p ← memcpy ptr 0 (buffer_ptr rb) (read_index rb) length;
      Some (length, p, set_read rb (read_mirror rb) (read_index rb + length))
    else
      let n := buffer_size rb - read_index rb in
      p1 ← memcpy ptr 0 (buffer_ptr rb) (read_index rb) n;
      p2 ← memcpy p1 n (buffer_ptr rb) 0 (length - n);
      Some (length, p2, set_read rb (Z.lnot (read_mirror rb)) (length - n)).

Definition rt_ringbuffer_putchar (rb : rt_ringbuffer) (ch : Z) : option (Z * rt_ringbuffer) :=
  if rt_ringbuffer_space_len rb =? 0 then Some (0, rb)
  else
    b ← zset (buffer_ptr rb) (write_index rb) ch;
    let rb := set_buf rb b in
    if write_index rb =? buffer_size rb - 1
    then Some (1, set_write rb (Z.lnot (write_mirror rb)) 0)
    else Some (1, set_write rb (write_mirror rb) (write_index rb + 1)).

Definition rt_ringbuffer_putchar_force (rb : rt_ringbuffer) (ch : Z)
  : option (Z * rt_ringbuffer) :=
  let old_state := rt_ringbuffer_status rb in
  b ← zset (buffer_ptr rb) (write_index rb) ch;
  let rb := set_buf rb b in
  if write_index rb =? buffer_size rb - 1 then
    let rb := set_write rb (Z.lnot (write_mirror rb)) 0 in
    match old_state with
    | RT_RINGBUFFER_FULL => Some (1, set_read rb (Z.lnot (read_mirror rb)) (write_index rb))
    | _ => Some (1, rb)
    end
  else
    let rb := set_write rb (write_mirror rb) (write_index rb + 1) in
    match old_state with
    | RT_RINGBUFFER_FULL => Some (1, set_read rb (read_mirror rb) (write_index rb))
    | _ => Some (1, rb)
    end.

Definition rt_ringbuffer_getchar (rb : rt_ringbuffer) : option (Z * option Z * rt_ringbuffer) :=
  if rt_ringbuffer_data_len rb =? 0 then Some (0, None, rb)
  else
    ch ← zget (buffer_ptr rb) (read_index rb);
    if read_index rb =? buffer_size rb - 1
    then Some (1, Some ch, set_read rb (Z.lnot (read_mirror rb)) 0)
    else Some (1, Some ch, set_read rb (read_mirror rb) (read_index rb + 1)).

(** [rt_malloc] is a parameter: [malloc sz] is the block it returns, [None] for
    [RT_NULL].  The two allocations of the C function are [malloc] at two sizes. *)
Definition rt_ringbuffer_create (sizeof_rb : Z) (malloc : Z -> option (list Z)) (size : Z)
  : option (option rt_ringbuffer) :=
  if 0 <? size then
    let size := u16 (RT_ALIGN_DOWN size RT_ALIGN_SIZE) in
    match malloc sizeof_rb with
    | None => Some None
    | Some _ =>
        match malloc size with
        | None => Some None
        | Some pool => rb ← rt_ringbuffer_init pool (swrap 16 size); Some (Some rb)
        end
    end
  else None.

(** ** Abstraction: the bytes stored, oldest first *)

Definition rb_pos (rb : rt_ringbuffer) (i : Z) : Z :=
  if read_index rb + i <? buffer_size rb then read_index rb + i
  else read_index rb + i - buffer_size rb.

Definition contents (rb : rt_ringbuffer) : list Z :=
  map (fun i => znth (buffer_ptr rb) (rb_pos rb (Z.of_nat i)))
      (seq 0 (Z.to_nat (rt_ringbuffer_data_len rb))).

(** Well-formed: indices inside a non-empty pool, the write position at most
    one lap ahead of the read position. *)
Record wf (rb : rt_ringbuffer) : Prop := {
  wf_size : 0 < buffer_size rb < 2 ^ 15;
  wf_pool : buffer_size rb <= zlen (buffer_ptr rb);
  wf_read : 0 <= read_index rb < buffer_size rb;
  wf_write : 0 <= write_index rb < buffer_size rb;
  wf_rm : read_mirror rb = 0 \/ read_mirror rb = 1;
  wf_wm : write_mirror rb = 0 \/ write_mirror rb = 1;
  wf_lap : if read_mirror rb =? write_mirror rb
           then read_index rb <= write_index rb
           else write_index rb <= read_index rb
}.

(** ** Lemmas on the abstraction *)

#[local] Arguments contents : simpl never.
#[local] Arguments rt_ringbuffer_data_len : simpl never.
#[local] Arguments rt_ringbuffer_status : simpl never.

Lemma mirror_flip m : m = 0 \/ m = 1 -> wrap 1 (Z.lnot m) = 1 - m.
Proof. intros [-> | ->]; reflexivity. Qed.

Lemma mirror_same m : m = 0 \/ m = 1 -> wrap 1 m = m.
Proof. intros [-> | ->]; reflexivity. Qed.

Lemma data_len_wf rb : wf rb ->
  rt_ringbuffer_data_len rb =
    (if read_mirror rb =? write_mirror rb then write_index rb - read_index rb
     else buffer_size rb - (read_index rb - write_index rb)) /\
  0 <= rt_ringbuffer_data_len rb <= buffer_size rb.
Proof.
  intros [? ? ? ? ? ? Hlap].
  unfold rt_ringbuffer_data_len, rt_ringbuffer_status.
  destruct (Z.eqb_spec (read_mirror rb) (write_mirror rb)),
    (Z.eqb_spec (read_index rb) (write_index rb)); zcases; try lia;
    rewrite !wrap_small; lia.
Qed.

Lemma space_len_wf rb : wf rb ->
  rt_ringbuffer_space_len rb = buffer_size rb - rt_ringbuffer_data_len rb /\
  u16 (rt_ringbuffer_space_len rb) = rt_ringbuffer_space_len rb.
Proof.
  intros H. pose proof (data_len_wf rb H) as [_ ?]. destruct H.
  unfold rt_ringbuffer_space_len. rewrite !wrap_small; lia.
Qed.

Lemma zlen_contents rb : wf rb -> zlen (contents rb) = rt_ringbuffer_data_len rb.
Proof.
  intros H. pose proof (data_len_wf rb H). unfold contents. rewrite length_map, length_seq. lia.
Qed.

Lemma znth_contents rb i :
  0 <= i < rt_ringbuffer_data_len rb ->
  znth (contents rb) i = znth (buffer_ptr rb) (rb_pos rb i).
Proof.
  intros H. unfold contents, znth at 1. rewrite nth_lookup, list_lookup_fmap.
  rewrite lookup_seq_lt by lia. simpl. rewrite Z2Nat.id by lia. done.
Qed.

Lemma contents_eq rb l : wf rb ->
  zlen l = rt_ringbuffer_data_len rb ->
  (forall i, 0 <= i < zlen l -> znth l i = znth (buffer_ptr rb) (rb_pos rb i)) ->
  contents rb = l.
Proof.
  intros Hwf Hl H. apply list_eq_znth; rewrite zlen_contents by done; [done |].
  intros i Hi. rewrite znth_contents by done. symmetry. apply H. lia.
Qed.

(** Unfolds a well-formed buffer into its fields and splits on the lap. *)
Ltac wf_cases :=
  repeat match goal with H : wf _ |- _ => destruct H end;
  repeat match goal with H : (?m = 0 \/ ?m = 1) |- _ => destruct H as [-> | ->] end;
  simpl in *.

(** Discharges a [wf] obligation field by field. *)
Ltac wf_solve := split; simpl; repeat case_match; lia.

(** The write position moved forward by [n] bytes that fit in the free space:
    the shared post-condition of every non-overwriting store. *)
Lemma write_spec buf rm r wm w size b n m' w' data :
  let rb := RingBuf buf rm r wm w size in
  wf rb -> 0 < n <= size - rt_ringbuffer_data_len rb ->
  zlen b = zlen buf -> zlen data = n ->
  w' = (if w + n <? size then w + n else w + n - size) ->
  m' = (if w + n <? size then wm else 1 - wm) ->
  (forall i, 0 <= i < size -> znth b i =
    if (w <=? i) && (i <? w + n) then znth data (i - w)
    else if i <? w + n - size then znth data (i + size - w)
    else znth buf i) ->
  let rb' := RingBuf b rm r m' w' size in
  wf rb' /\ contents rb' = contents rb ++ data.
Proof.
  intros rb Hwf Hn Hb Hd Hw' Hm' Hbuf rb'.
  pose proof (data_len_wf rb Hwf) as [Hlen Hlen'].
  pose proof (zlen_contents rb Hwf) as Hcl.
  pose proof (fun i => znth_contents rb i) as Hcn.
  assert (wf rb') as Hwf'.
  { destruct Hwf as [? ? ? ? [Hr | Hr] [Hw | Hw] Hlap]; simpl in *; subst;
      split; simpl in *; zcases; lia. }
  split; [done |].
  pose proof (data_len_wf rb' Hwf') as [Hlen2 _].
  assert (rt_ringbuffer_data_len rb' = rt_ringbuffer_data_len rb + n) as E.
  { rewrite Hlen2, Hlen.
    destruct Hwf as [? ? ? ? [Hr | Hr] [Hw | Hw] Hlap]; simpl in *; subst; simpl in *; zcases; lia. }
  apply contents_eq; [done | |].
  - rewrite length_app, Nat2Z.inj_add. lia.
  - intros i. rewrite length_app, Nat2Z.inj_add. intros Hi.
    rewrite znth_app, Hcl by lia.
    destruct Hwf as [? ? ? ? Hrm Hwm Hlap]. simpl in *.
    rewrite Hbuf by (unfold rb_pos; simpl; zcases; lia).
    destruct (Z.ltb_spec i (rt_ringbuffer_data_len rb)) as [Hlt | Hge].
    + rewrite Hcn by lia. unfold rb_pos. simpl.
      destruct Hrm as [Hr | Hr], Hwm as [Hw | Hw]; subst rm wm; simpl in *;
        zcases; try reflexivity; try lia; f_equal; lia.
    + unfold rb_pos. simpl.
      destruct Hrm as [Hr | Hr], Hwm as [Hw | Hw]; subst rm wm; simpl in *;
        zcases; try lia; f_equal; lia.
Qed.

(** The overwriting store: [n] bytes pushed into a buffer whose read and write
    mirrors differ, past its free space, leave it full with its newest bytes. *)
Lemma overwrite_spec buf rm r wm w size b n rm' m' w' data :
  let rb := RingBuf buf rm r wm w size in
  wf rb -> rm <> wm -> size - rt_ringbuffer_data_len rb < n <= size ->
  zlen b = zlen buf -> zlen data = n ->
  w' = (if w + n <? size then w + n else w + n - size) ->
  m' = (if w + n <? size then wm else 1 - wm) ->
  rm' = (if w + n <? size then rm else 1 - rm) ->
  (forall i, 0 <= i < size -> znth b i =
    if (w <=? i) && (i <? w + n) then znth data (i - w)
    else if i <? w + n - size then znth data (i + size - w)
    else znth buf i) ->
  let rb' := RingBuf b rm' w' m' w' size in
  wf rb' /\
  contents rb' = drop (Z.to_nat (rt_ringbuffer_data_len rb + n - size)) (contents rb ++ data).
Proof.
  intros rb Hwf Hne Hn Hb Hd Hw' Hm' Hrm' Hbuf rb'.
  assert ((w + n < size /\ w' = w + n /\ m' = wm /\ rm' = rm) \/
          (size <= w + n /\ w' = w + n - size /\ m' = 1 - wm /\ rm' = 1 - rm)) as Hcase
    by (revert Hw' Hm' Hrm'; zcases; lia).
  clear Hw' Hm' Hrm'.
  pose proof (data_len_wf rb Hwf) as [Hlen Hlen'].
  pose proof (zlen_contents rb Hwf) as Hcl.
  pose proof (fun i => znth_contents rb i) as Hcn.
  assert (wf rb') as Hwf'.
  { destruct Hwf as [? ? ? ? [Hr | Hr] [Hw | Hw] Hlap],
      Hcase as [(? & -> & -> & ->) | (? & -> & -> & ->)]; simpl in *; subst;
      split; simpl in *; zcases; lia. }
  split; [done |].
  pose proof (data_len_wf rb' Hwf') as [Hlen2 _].
  assert (rt_ringbuffer_data_len rb' = size) as E.
  { rewrite Hlen2.
    destruct Hwf as [? ? ? ? [Hr | Hr] [Hw | Hw] Hlap],
      Hcase as [(? & -> & -> & ->) | (? & -> & -> & ->)];
      simpl in *; subst; simpl in *; zcases; lia. }
  apply contents_eq; [done | |].
  - rewrite length_drop, length_app. lia.
  - intros i. rewrite length_drop, length_app. intros Hi.
    rewrite znth_drop, znth_app, Hcl by lia.
    destruct Hwf as [? ? ? ? Hrm Hwm Hlap]. simpl in *.
    pose proof (wf_read _ Hwf') as Hw''. simpl in Hw''.
    rewrite Hbuf by (unfold rb_pos; simpl; zcases; lia).
    destruct (Z.ltb_spec (rt_ringbuffer_data_len rb + n - size + i) (rt_ringbuffer_data_len rb))
      as [Hlt | Hge].
    + rewrite Hcn by lia. unfold rb_pos. simpl.
      destruct Hrm as [Hr | Hr], Hwm as [Hw | Hw]; subst rm wm; simpl in *; try lia;
        zcases; try reflexivity; try lia; f_equal; lia.
    + unfold rb_pos. simpl.
      destruct Hrm as [Hr | Hr], Hwm as [Hw | Hw]; subst rm wm; simpl in *; try lia;
        zcases; try lia; f_equal; lia.
Qed.

(** What the one or two [memcpy] calls of a store leave in the pool. *)
Lemma store_near buf w size ptr n :
  0 <= n -> 0 <= w -> size <= zlen buf -> n < size - w -> n <= zlen ptr ->
  exists b, memcpy buf w ptr 0 n = Some b /\ zlen b = zlen buf /\
    forall i, 0 <= i < size -> znth b i =
      if (w <=? i) && (i <? w + n) then znth (take (Z.to_nat n) ptr) (i - w)
      else if i <? w + n - size then znth (take (Z.to_nat n) ptr) (i + size - w)
      else znth buf i.
Proof.
  intros. destruct (memcpy_Some buf w ptr 0 n) as (b & -> & Hb & Hz); try lia.
  exists b. split; [done |]. split; [done |]. intros i Hi. rewrite Hz by lia.
  zcases; try rewrite znth_take by lia; simpl; try reflexivity; lia.
Qed.

Lemma store_far buf w size ptr n :
  0 <= w < size -> size <= zlen buf -> size - w <= n <= size -> n <= zlen ptr ->
  exists b1 b, memcpy buf w ptr 0 (size - w) = Some b1 /\
    memcpy b1 0 ptr (size - w) (n - (size - w)) = Some b /\ zlen b = zlen buf /\
    forall i, 0 <= i < size -> znth b i =
      if (w <=? i) && (i <? w + n) then znth (take (Z.to_nat n) ptr) (i - w)
      else if i <? w + n - size then znth (take (Z.to_nat n) ptr) (i + size - w)
      else znth buf i.
Proof.
  intros. destruct (memcpy_Some buf w ptr 0 (size - w)) as (b1 & Hb1 & Hl1 & Hz1); try lia.
  destruct (memcpy_Some b1 0 ptr (size - w) (n - (size - w))) as (b & Hb & Hl & Hz); try lia.
  exists b1, b. split; [done |]. split; [done |]. split; [lia |].
  intros i Hi. rewrite Hz by lia. zcases; simpl; try lia;
    rewrite ?znth_take, ?Hz1 by lia; zcases; try lia; try reflexivity; f_equal; lia.
Qed.

(** Rewrites the bit-field stores of the code, inside their ranges. *)
Ltac fields :=
  rewrite ?wrap_wrap, ?mirror_flip, ?mirror_same by lia; rewrite ?(wrap_small 15) by lia.

(** ** Operations that never overwrite *)

Lemma rt_ringbuffer_put_spec rb ptr length : wf rb ->
  0 <= length < 2 ^ 16 -> length <= zlen ptr ->
  let n := Z.min length (buffer_size rb - rt_ringbuffer_data_len rb) in
  exists rb', rt_ringbuffer_put rb ptr length = Some (n, rb') /\
    wf rb' /\ buffer_size rb' = buffer_size rb /\
    contents rb' = contents rb ++ take (Z.to_nat n) ptr.
Proof.
  intros Hwf Hl Hp n. pose proof (space_len_wf rb Hwf) as [Es Eu].
  pose proof (data_len_wf rb Hwf) as [_ Hr]. unfold rt_ringbuffer_put. rewrite Eu, Es.
  destruct (Z.eqb_spec (buffer_size rb - rt_ringbuffer_data_len rb) 0) as [E | E].
  { exists rb. replace n with 0 by lia. rewrite take_0, app_nil_r. done. }
  replace (if _ <? length then _ else length) with n by (subst n; zcases; lia).
  destruct rb as [buf rm r wm w size]. cbn [buffer_size write_index buffer_ptr] in *.
  pose proof Hwf as [Hsz Hpool ? ? ? ? ?]; simpl in *.
  destruct (Z.leb_spec n 0) as [Hz | Hz].
  { replace n with 0 by lia. replace (0 <? size - w) with true by lia.
    destruct (memcpy_Some buf w ptr 0 0) as (b & Hb & Hbl & Hbz); try lia. rewrite Hb. simpl.
    assert (b = buf) as ->.
    { apply list_eq_znth; [done |]. intros i Hi. rewrite Hbz by lia. zcases; lia || reflexivity. }
    eexists. split; [reflexivity |]. unfold set_write, set_buf; simpl. fields.
    rewrite Z.add_0_r, app_nil_r. done. }
  destruct (Z.ltb_spec n (size - w)).
  - destruct (store_near buf w size ptr n) as (b & -> & Hb & Hbuf); try lia. simpl.
    eexists. split; [reflexivity |]. unfold set_write, set_buf; simpl. fields.
    edestruct (write_spec buf rm r wm w size b n wm (w + n) (take (Z.to_nat n) ptr));
      eauto; rewrite ?length_take; try lia; zcases; lia.
  - destruct (store_far buf w size ptr n) as (b1 & b & Hb1 & Hb2 & Hb & Hbuf); try lia.
    rewrite Hb1. simpl. rewrite Hb2. simpl.
    eexists. split; [reflexivity |]. unfold set_write, set_buf; simpl. fields.
    edestruct (write_spec buf rm r wm w size b n (1 - wm) (n - (size - w)) (take (Z.to_nat n) ptr));
      eauto; rewrite ?length_take; try lia; zcases; lia.
Qed.

Lemma rt_ringbuffer_putchar_spec rb ch : wf rb ->
  let full := rt_ringbuffer_data_len rb =? buffer_size rb in
  exists rb', rt_ringbuffer_putchar rb ch = Some (if full then 0 else 1, rb') /\
    wf rb' /\ buffer_size rb' = buffer_size rb /\
    contents rb' = if full then contents rb else contents rb ++ [ch].
Proof.
  intros Hwf full. pose proof (space_len_wf rb Hwf) as [Es _].
  pose proof (data_len_wf rb Hwf) as [_ Hr]. unfold rt_ringbuffer_putchar. rewrite Es.
  replace (_ - _ =? 0) with full by (subst full; zcases; lia).
  destruct full eqn:Ef; subst full; [exists rb; done |]. apply Z.eqb_neq in Ef.
  destruct rb as [buf rm r wm w size]. cbn [buffer_size write_index buffer_ptr] in *.
  pose proof Hwf as [Hsz Hpool ? ? ? ? ?]; simpl in *.
  destruct (zset_Some buf w ch) as (b & -> & Hb & Hbz); [lia |]. simpl.
  assert (forall i, 0 <= i < size -> znth b i =
    if (w <=? i) && (i <? w + 1) then znth [ch] (i - w)
    else if i <? w + 1 - size then znth [ch] (i + size - w) else znth buf i) as Hbuf.
  { intros i Hi. rewrite Hbz by lia. rewrite !znth_cons. zcases; lia || reflexivity. }
  destruct (Z.eqb_spec w (size - 1)); eexists; (split; [reflexivity |]);
    unfold set_write, set_buf; simpl; fields.
  - edestruct (write_spec buf rm r wm w size b 1 (1 - wm) 0 [ch]); eauto; try lia; zcases; lia.
  - edestruct (write_spec buf rm r wm w size b 1 wm (w + 1) [ch]); eauto; try lia; zcases; lia.
Qed.

(** The read position moved forward over [n] stored bytes. *)
Lemma read_spec buf rm r wm w size n rm' r' :
  let rb := RingBuf buf rm r wm w size in
  wf rb -> 0 <= n <= rt_ringbuffer_data_len rb ->
  r' = (if r + n <? size then r + n else r + n - size) ->
  rm' = (if r + n <? size then rm else 1 - rm) ->
  let rb' := RingBuf buf rm' r' wm w size in
  wf rb' /\ contents rb' = drop (Z.to_nat n) (contents rb).
Proof.
  intros rb Hwf Hn Hr' Hrm' rb'.
  assert ((r + n < size /\ r' = r + n /\ rm' = rm) \/
          (size <= r + n /\ r' = r + n - size /\ rm' = 1 - rm)) as Hcase
    by (revert Hr' Hrm'; zcases; lia).
  clear Hr' Hrm'.
  pose proof (data_len_wf rb Hwf) as [Hlen Hlen'].
  pose proof (zlen_contents rb Hwf) as Hcl.
  pose proof (fun i => znth_contents rb i) as Hcn.
  assert (wf rb' /\ rt_ringbuffer_data_len rb' = rt_ringbuffer_data_len rb - n) as [Hwf' E].
  { rewrite Hlen in Hn |- *.
    assert (wf rb') as Hwf'.
    { destruct Hwf as [? ? ? ? [Hr | Hr] [Hw | Hw] Hlap],
        Hcase as [(? & -> & ->) | (? & -> & ->)]; simpl in *; subst;
        split; simpl in *; zcases; lia. }
    split; [done |]. rewrite (proj1 (data_len_wf rb' Hwf')).
    destruct Hwf as [? ? ? ? [Hr | Hr] [Hw | Hw] Hlap],
      Hcase as [(? & -> & ->) | (? & -> & ->)]; simpl in *; subst; simpl in *; zcases; lia. }
  split; [done |]. apply contents_eq; [done | |].
  - rewrite length_drop. lia.
  - intros i. rewrite length_drop. intros Hi.
    rewrite znth_drop, Hcn by lia. unfold rb_pos; simpl.
    destruct Hwf as [? ? ? ? ? ? ?]; simpl in *. zcases; f_equal; lia.
Qed.

(** What the one or two [memcpy] calls of a load deliver. *)
Lemma load_near rb ptr n : wf rb -> 0 <= n <= rt_ringbuffer_data_len rb ->
  n < buffer_size rb - read_index rb -> n <= zlen ptr ->
  memcpy ptr 0 (buffer_ptr rb) (read_index rb) n =
    Some (take (Z.to_nat n) (contents rb) ++ drop (Z.to_nat n) ptr).
Proof.
  intros Hwf Hn Hs Hp. pose proof (zlen_contents rb Hwf) as Hcl. pose proof (data_len_wf rb Hwf).
  destruct Hwf. destruct (memcpy_Some ptr 0 (buffer_ptr rb) (read_index rb) n)
    as (b & -> & Hb & Hz); try lia.
  f_equal. apply list_eq_znth.
  - rewrite length_app, length_take, length_drop. lia.
  - intros i Hi. rewrite Hz, znth_app, length_take by lia.
    replace (Z.of_nat (Z.to_nat n `min` length (contents rb))) with n by lia.
    zcases; try lia; rewrite ?znth_take, ?znth_contents, ?znth_drop by lia;
      try (unfold rb_pos; zcases; try lia); f_equal; lia.
Qed.

Lemma load_far rb ptr n : wf rb ->
  buffer_size rb - read_index rb <= n <= rt_ringbuffer_data_len rb -> n <= zlen ptr ->
  exists p1, memcpy ptr 0 (buffer_ptr rb) (read_index rb) (buffer_size rb - read_index rb) = Some p1 /\
  memcpy p1 (buffer_size rb - read_index rb) (buffer_ptr rb) 0
    (n - (buffer_size rb - read_index rb)) =
    Some (take (Z.to_nat n) (contents rb) ++ drop (Z.to_nat n) ptr).
Proof.
  intros Hwf Hn Hp. pose proof (zlen_contents rb Hwf) as Hcl. pose proof (data_len_wf rb Hwf).
  destruct Hwf.
  destruct (memcpy_Some ptr 0 (buffer_ptr rb) (read_index rb) (buffer_size rb - read_index rb))
    as (p1 & -> & Hb1 & Hz1); try lia. exists p1. split; [done |].
  destruct (memcpy_Some p1 (buffer_size rb - read_index rb) (buffer_ptr rb) 0
    (n - (buffer_size rb - read_index rb))) as (b & -> & Hb & Hz); try lia.
  f_equal. apply list_eq_znth.
  - rewrite length_app, length_take, length_drop. lia.
  - intros i Hi. rewrite Hz, znth_app, length_take by lia.
    replace (Z.of_nat (Z.to_nat n `min` length (contents rb))) with n by lia.
    zcases; try lia; rewrite ?Hz1, ?znth_take, ?znth_contents, ?znth_drop by lia;
      zcases; try lia; try (unfold rb_pos; zcases; try lia); f_equal; lia.
Qed.

Lemma rt_ringbuffer_get_spec rb ptr length : wf rb -> 0 <= length < 2 ^ 16 ->
  length <= zlen ptr ->
  let n := Z.min length (rt_ringbuffer_data_len rb) in
  exists rb', rt_ringbuffer_get rb ptr length =
      Some (n, take (Z.to_nat n) (contents rb) ++ drop (Z.to_nat n) ptr, rb') /\
    wf rb' /\ buffer_size rb' = buffer_size rb /\
    contents rb' = drop (Z.to_nat n) (contents rb).
Proof.
  intros Hwf Hl Hp n. pose proof (data_len_wf rb Hwf) as [_ Hr]. unfold rt_ringbuffer_get.
  destruct (Z.eqb_spec (rt_ringbuffer_data_len rb) 0) as [E | E].
  { exists rb. replace n with 0 by lia. done. }
  replace (if _ <? length then _ else length) with n
    by (subst n; pose proof (wf_size _ Hwf); zcases; rewrite ?wrap_small by lia; lia).
  pose proof (wf_size _ Hwf). pose proof (wf_read _ Hwf). pose proof (wf_rm _ Hwf).
  destruct (Z.ltb_spec n (buffer_size rb - read_index rb)).
  - rewrite load_near by (done || lia). simpl.
    eexists. split; [reflexivity |]. destruct rb as [buf rm r wm w size].
    unfold set_read; simpl in *. fields.
    destruct (read_spec buf rm r wm w size n rm (r + n)); try done; try lia; zcases; lia.
  - destruct (load_far rb ptr n) as (p1 & E1 & E2); try done; try lia.
    rewrite E1. simpl. rewrite E2. simpl. eexists. split; [reflexivity |].
    destruct rb as [buf rm r wm w size]. unfold set_read; simpl in *. fields.
    destruct (read_spec buf rm r wm w size n (1 - rm) (n - (size - r)));
      try done; try lia; zcases; lia.
Qed.

Lemma rt_ringbuffer_getchar_spec rb : wf rb ->
  exists rb', rt_ringbuffer_getchar rb =
      Some (if contents rb is [] then 0 else 1, head (contents rb), rb') /\
    wf rb' /\ buffer_size rb' = buffer_size rb /\ contents rb' = tail (contents rb).
Proof.
  intros Hwf. pose proof (data_len_wf rb Hwf) as [_ Hr]. pose proof (zlen_contents rb Hwf) as Hcl.
  unfold rt_ringbuffer_getchar.
  destruct (Z.eqb_spec (rt_ringbuffer_data_len rb) 0) as [E | E].
  { exists rb. destruct (contents rb); [done | simpl in Hcl; lia]. }
  pose proof (wf_size _ Hwf). pose proof (wf_read _ Hwf). pose proof (wf_rm _ Hwf).
  pose proof (wf_pool _ Hwf).
  rewrite zget_Some by lia. simpl.
  assert (contents rb = znth (buffer_ptr rb) (read_index rb) :: tail (contents rb)) as Ec.
  { pose proof (znth_contents rb 0 ltac:(lia)) as Hz. unfold rb_pos in Hz.
    rewrite Z.add_0_r in Hz. replace (read_index rb <? buffer_size rb) with true in Hz by lia.
    destruct (contents rb); [simpl in Hcl; lia |]. simpl. f_equal. exact Hz. }
  assert (tail (contents rb) = drop (Z.to_nat 1) (contents rb)) as Et by (rewrite Ec; done).
  assert ((if contents rb is [] then 0 else 1) = 1 /\
    head (contents rb) = Some (znth (buffer_ptr rb) (read_index rb))) as [-> ->] by (rewrite Ec; done).
  rewrite Et. clear Ec Et.
  destruct rb as [buf rm r wm w size]. simpl in *.
  destruct (Z.eqb_spec r (size - 1)); eexists; (split; [reflexivity |]);
    unfold set_read; simpl; fields.
  - destruct (read_spec buf rm r wm w size 1 (1 - rm) 0); try done; try lia; zcases; lia.
  - destruct (read_spec buf rm r wm w size 1 rm (r + 1)); try done; try lia; zcases; lia.
Qed.

(** ** Operations that overwrite *)

(** The newest [cap] elements of a list. *)
Definition newest (cap : Z) (l : list Z) : list Z := drop (Z.to_nat (zlen l - cap)) l.

Lemma newest_all cap l : zlen l <= cap -> newest cap l = l.
Proof. intros. unfold newest. replace (Z.to_nat _) with O by lia. done. Qed.

Lemma rt_ringbuffer_putchar_force_spec rb ch : wf rb ->
  exists rb', rt_ringbuffer_putchar_force rb ch = Some (1, rb') /\
    wf rb' /\ buffer_size rb' = buffer_size rb /\
    contents rb' = newest (buffer_size rb) (contents rb ++ [ch]).
Proof.
  intros Hwf. pose proof (data_len_wf rb Hwf) as [Hlen Hr].
  pose proof (zlen_contents rb Hwf) as Hcl.
  destruct rb as [buf rm r wm w size]. unfold rt_ringbuffer_putchar_force.
  pose proof Hwf as [Hsz Hpool ? ? ? ? Hlap]; simpl in *.
  destruct (zset_Some buf w ch) as (b & -> & Hb & Hbz); [lia |]. simpl.
  assert (forall i, 0 <= i < size -> znth b i =
    if (w <=? i) && (i <? w + 1) then znth [ch] (i - w)
    else if i <? w + 1 - size then znth [ch] (i + size - w) else znth buf i) as Hbuf.
  { intros i Hi. rewrite Hbz by lia. rewrite !znth_cons. zcases; lia || reflexivity. }
  assert ((rt_ringbuffer_status (RingBuf buf rm r wm w size) = RT_RINGBUFFER_FULL /\
           rm <> wm /\ r = w /\ rt_ringbuffer_data_len (RingBuf buf rm r wm w size) = size) \/
          (rt_ringbuffer_status (RingBuf buf rm r wm w size) <> RT_RINGBUFFER_FULL /\
           rt_ringbuffer_data_len (RingBuf buf rm r wm w size) < size))
    as [(-> & Hne & Hrw & Hd) | (Hst & Hd)].
  { revert Hlen Hlap. unfold rt_ringbuffer_status; simpl.
    destruct (Z.eqb_spec r w), (Z.eqb_spec rm wm); intros; [right | left | right | right];
      repeat split; try discriminate; lia. }
  - unfold newest. rewrite length_app, Nat2Z.inj_add, Hcl.
    destruct (Z.eqb_spec w (size - 1)); eexists; (split; [reflexivity |]);
      unfold set_write, set_read, set_buf; simpl; fields.
    + destruct (overwrite_spec buf rm r wm w size b 1 (1 - rm) (1 - wm) 0 [ch]);
        try done; try lia; zcases; lia.
    + destruct (overwrite_spec buf rm r wm w size b 1 rm wm (w + 1) [ch]);
        try done; try lia; zcases; lia.
  - rewrite newest_all by (rewrite length_app; simpl; lia).
    destruct (Z.eqb_spec w (size - 1)); eexists;
      (split; [destruct (rt_ringbuffer_status _); [reflexivity | done | reflexivity] |]);
      unfold set_write, set_buf; simpl; fields.
    + destruct (write_spec buf rm r wm w size b 1 (1 - wm) 0 [ch]);
        try done; try lia; zcases; lia.
    + destruct (write_spec buf rm r wm w size b 1 wm (w + 1) [ch]);
        try done; try lia; zcases; lia.
Qed.

(** The part of [ptr] that [rt_ringbuffer_put_force] stores. *)
Definition force_data (rb : rt_ringbuffer) (ptr : list Z) (length : Z) : list Z :=
  newest (buffer_size rb) (take (Z.to_nat length) ptr).

(** The store of [rt_ringbuffer_put_force], with its tail of [ptr] already chosen. *)
Lemma put_force_core buf rm r wm w size data (rb := RingBuf buf rm r wm w size) : wf rb ->
  let n := zlen data in
  let space := size - rt_ringbuffer_data_len rb in
  n <= size -> (rm <> wm \/ n <= space) ->
  exists rb',
    (if n <? size - w then
       b ← memcpy buf w data 0 n;
       let rb1 := set_write (set_buf rb b) wm (w + n) in
       let rb2 := if space <? n then set_read rb1 rm (write_index rb1) else rb1 in
       Some (n, rb2)
     else
       b1 ← memcpy buf w data 0 (size - w);
       b2 ← memcpy b1 0 data (size - w) (n - (size - w));
       let rb1 := set_write (set_buf rb b2) (Z.lnot wm) (n - (size - w)) in
       let rb2 := if space <? n then set_read rb1 (Z.lnot rm) (write_index rb1) else rb1 in
       Some (n, rb2)) = Some (n, rb') /\
    wf rb' /\ buffer_size rb' = size /\ contents rb' = newest size (contents rb ++ data).
Proof.
  intros Hwf n space Hn Hsafe.
  pose proof (data_len_wf rb Hwf) as [Hlen Hr]. pose proof (zlen_contents rb Hwf) as Hcl.
  pose proof Hwf as [Hsz Hpool ? ? ? ? Hlap]; simpl in *.
  assert (take (Z.to_nat n) data = data) as Etk by (apply take_ge; lia).
  destruct (Z.ltb_spec space n) as [Hov | Hfit].
  - unfold newest. rewrite length_app, Nat2Z.inj_add, Hcl. fold n.
    destruct (Z.ltb_spec n (size - w)).
    + destruct (store_near buf w size data n) as (b & -> & Hb & Hbuf); try lia. simpl.
      rewrite Etk in Hbuf. eexists. split; [reflexivity |].
      unfold set_write, set_read, set_buf; simpl. fields.
      destruct (overwrite_spec buf rm r wm w size b n rm wm (w + n) data);
        try done; try lia; zcases; lia.
    + destruct (store_far buf w size data n) as (b1 & b & Hb1 & Hb2 & Hb & Hbuf); try lia.
      rewrite Hb1. simpl. rewrite Hb2. simpl.
      rewrite Etk in Hbuf. eexists. split; [reflexivity |].
      unfold set_write, set_read, set_buf; simpl. fields.
      destruct (overwrite_spec buf rm r wm w size b n (1 - rm) (1 - wm) (n - (size - w)) data);
        try done; try lia; zcases; lia.
  - rewrite newest_all by (rewrite length_app; lia).
    destruct (Z.leb_spec n 0).
    { assert (data = []) as -> by (destruct data; [done | simpl in *; lia]).
      subst n. simpl. change (Z.of_nat 0) with 0. replace (0 <? size - w) with true by lia.
      destruct (memcpy_Some buf w [] 0 0) as (b & -> & Hb & Hbz); try (simpl; lia). simpl.
      assert (b = buf) as ->.
      { apply list_eq_znth; [done |]. intros i Hi. rewrite Hbz by lia. zcases; lia || reflexivity. }
      eexists. split; [reflexivity |]. unfold set_write, set_buf; simpl. fields.
      rewrite Z.add_0_r, app_nil_r. done. }
    destruct (Z.ltb_spec n (size - w)).
    + destruct (store_near buf w size data n) as (b & -> & Hb & Hbuf); try lia. simpl.
      rewrite Etk in Hbuf. eexists. split; [reflexivity |].
      unfold set_write, set_buf; simpl. fields.
      destruct (write_spec buf rm r wm w size b n wm (w + n) data);
        try done; try lia; zcases; lia.
    + destruct (store_far buf w size data n) as (b1 & b & Hb1 & Hb2 & Hb & Hbuf); try lia.
      rewrite Hb1. simpl. rewrite Hb2. simpl.
      rewrite Etk in Hbuf. eexists. split; [reflexivity |].
      unfold set_write, set_buf; simpl. fields.
      destruct (write_spec buf rm r wm w size b n (1 - wm) (n - (size - w)) data);
        try done; try lia; zcases; lia.
Qed.

(** ** Theorems *)

(** [rt_ringbuffer_put_force] on a well-formed buffer, when the
    mirrors differ or the data fits, never faults, reports the number of bytes
    stored and leaves the newest [buffer_size] bytes of "old contents then data". *)
Theorem rt_ringbuffer_put_force_correct rb ptr length : wf rb ->
  0 <= length < 2 ^ 16 -> zlen ptr = length ->
  (read_mirror rb <> write_mirror rb \/
   Z.min length (buffer_size rb) <= buffer_size rb - rt_ringbuffer_data_len rb) ->
  exists rb', rt_ringbuffer_put_force rb ptr length =
      Some (Z.min length (buffer_size rb), rb') /\
    wf rb' /\ buffer_size rb' = buffer_size rb /\
    contents rb' = newest (buffer_size rb) (contents rb ++ force_data rb ptr length).
Proof.
  intros Hwf Hl Hp Hsafe. pose proof (space_len_wf rb Hwf) as [Es Eu].
  pose proof (wf_size _ Hwf) as Hsz. unfold rt_ringbuffer_put_force, force_data.
  rewrite Eu, Es.
  assert (take (Z.to_nat length) ptr = ptr) as -> by (apply take_ge; lia).
  destruct rb as [buf rm r wm w size]; simpl in *.
  destruct (Z.ltb_spec size length) as [Hc | Hc].
  - rewrite (wrap_small 16) by lia. replace (Z.min length size) with size by lia.
    unfold newest at 2. rewrite Hp.
    pose proof (put_force_core buf rm r wm w size (drop (Z.to_nat (length - size)) ptr) Hwf) as H.
    rewrite length_drop in H.
    replace (Z.of_nat (List.length ptr - Z.to_nat (length - size))) with size in H by lia.
    apply H; lia.
  - replace (Z.min length size) with length by lia.
    rewrite (newest_all size ptr) by lia.
    pose proof (put_force_core buf rm r wm w size ptr Hwf) as H. rewrite Hp in H.
    apply H; lia.
Qed.

(** When the read and write positions are on the same side of the mirror
    and the data does not fit in the free space, [rt_ringbuffer_put_force]
    flips both mirrors: it reports success and leaves an EMPTY buffer. *)
Theorem rt_ringbuffer_put_force_drops_everything rb ptr length : wf rb ->
  0 <= length < 2 ^ 16 -> zlen ptr = length ->
  read_mirror rb = write_mirror rb ->
  buffer_size rb - rt_ringbuffer_data_len rb < Z.min length (buffer_size rb) ->
  exists rb', rt_ringbuffer_put_force rb ptr length =
      Some (Z.min length (buffer_size rb), rb') /\
    rt_ringbuffer_status rb' = RT_RINGBUFFER_EMPTY /\ contents rb' = [].
Proof.
  intros Hwf Hl Hp Hm Hov. pose proof (space_len_wf rb Hwf) as [Es Eu].
  pose proof (data_len_wf rb Hwf) as [Hlen Hr]. rewrite Hm, Z.eqb_refl in Hlen.
  pose proof Hwf as [Hsz Hpool ? ? ? ? Hlap].
  unfold rt_ringbuffer_put_force. rewrite Eu, Es.
  destruct rb as [buf rm r wm w size]; simpl in *. subst wm.
  assert (exists d, (if size <? length then (drop (Z.to_nat (length - size)) ptr, u16 size)
    else (ptr, length)) = (d, Z.min length size) /\ zlen d = Z.min length size) as (d & -> & Hd).
  { destruct (Z.ltb_spec size length); eexists; (split; [f_equal |]);
      rewrite ?(wrap_small 16), ?length_drop by lia; lia. }
  replace (Z.min length size <? size - w) with false by (zcases; lia).
  destruct (store_far buf w size d (Z.min length size)) as (b1 & b & Hb1 & Hb2 & _); try lia.
  rewrite Hb1. simpl. rewrite Hb2. simpl.
  replace (size - _ <? Z.min length size) with true by (zcases; lia).
  eexists. split; [reflexivity |]. unfold set_read, set_write, set_buf; simpl.
  unfold contents, rt_ringbuffer_data_len, rt_ringbuffer_status; simpl.
  rewrite wrap_wrap, !Z.eqb_refl. done.
Qed.

(** *** The buffer as a bounded byte queue *)

Inductive rb_op :=
  | OpPut (data : list Z)
  | OpGet (room : list Z)
  | OpPutchar (ch : Z)
  | OpPutcharForce (ch : Z)
  | OpGetchar
  | OpReset
  | OpLen.

(** One operation of the C file: its return value, the bytes it delivers, the
    new buffer. *)
Definition rb_exec (o : rb_op) (rb : rt_ringbuffer) : option (Z * list Z * rt_ringbuffer) :=
  match o with
  | OpPut data => '(n, rb) ← rt_ringbuffer_put rb data (zlen data); Some (n, [], rb)
  | OpGet room =>
      '(n, out, rb) ← rt_ringbuffer_get rb room (zlen room); Some (n, take (Z.to_nat n) out, rb)
  | OpPutchar ch => '(n, rb) ← rt_ringbuffer_putchar rb ch; Some (n, [], rb)
  | OpPutcharForce ch => '(n, rb) ← rt_ringbuffer_putchar_force rb ch; Some (n, [], rb)
  | OpGetchar => '(n, c, rb) ← rt_ringbuffer_getchar rb; Some (n, option_list c, rb)
  | OpReset => Some (0, [], rt_ringbuffer_reset rb)
  | OpLen => Some (rt_ringbuffer_data_len rb, [], rb)
  end.

(** The same operation on the abstract queue of capacity [cap]. *)
Definition queue_exec (cap : Z) (o : rb_op) (q : list Z) : Z * list Z * list Z :=
  match o with
  | OpPut data =>
      let n := Z.min (zlen data) (cap - zlen q) in (n, [], q ++ take (Z.to_nat n) data)
  | OpGet room =>
      let n := Z.min (zlen room) (zlen q) in (n, take (Z.to_nat n) q, drop (Z.to_nat n) q)
  | OpPutchar ch => if zlen q =? cap then (0, [], q) else (1, [], q ++ [ch])
  | OpPutcharForce ch => (1, [], newest cap (q ++ [ch]))
  | OpGetchar => match q with [] => (0, [], []) | c :: q => (1, [c], q) end
  | OpReset => (0, [], [])
  | OpLen => (zlen q, [], q)
  end.

(** Lengths are [rt_uint16_t] arguments. *)
Definition op_ok (o : rb_op) : Prop :=
  match o with OpPut l | OpGet l => zlen l < 2 ^ 16 | _ => True end.

Fixpoint rb_run (os : list rb_op) (rb : rt_ringbuffer) : option (list (Z * list Z)) :=
  match os with
  | [] => Some []
  | o :: os =>
      '(n, out, rb) ← rb_exec o rb;
      rest ← rb_run os rb; Some ((n, out) :: rest)
  end.

Fixpoint queue_run (cap : Z) (os : list rb_op) (q : list Z) : list (Z * list Z) :=
  match os with
  | [] => []
  | o :: os => let '(n, out, q) := queue_exec cap o q in (n, out) :: queue_run cap os q
  end.

Lemma rb_exec_refines o rb : wf rb -> op_ok o ->
  exists n out rb', rb_exec o rb = Some (n, out, rb') /\ wf rb' /\
    buffer_size rb' = buffer_size rb /\
    queue_exec (buffer_size rb) o (contents rb) = (n, out, contents rb').
Proof.
  intros Hwf Ho. pose proof (zlen_contents rb Hwf) as Hc.
  destruct o as [data | room | ch | ch | | |]; simpl in Ho |- *.
  - destruct (rt_ringbuffer_put_spec rb data (zlen data) Hwf) as (rb' & -> & ? & ? & E);
      [lia | lia |]. simpl. rewrite Hc, <- E. eauto 8.
  - destruct (rt_ringbuffer_get_spec rb room (zlen room) Hwf) as (rb' & -> & ? & ? & E);
      [lia | lia |]. simpl. rewrite Hc, <- E. eexists _, _, rb'.
    split; [reflexivity |]. split; [done |]. split; [done |]. f_equal. f_equal.
    rewrite take_app_le by (rewrite length_take; lia). rewrite take_take. f_equal. lia.
  - destruct (rt_ringbuffer_putchar_spec rb ch Hwf) as (rb' & -> & ? & ? & E). simpl.
    rewrite Hc. revert E. destruct (_ =? _); intros <-; eauto 8.
  - destruct (rt_ringbuffer_putchar_force_spec rb ch Hwf) as (rb' & -> & ? & ? & E). simpl.
    rewrite <- E. eauto 8.
  - destruct (rt_ringbuffer_getchar_spec rb Hwf) as (rb' & -> & ? & ? & E). simpl.
    revert E. destruct (contents rb) as [| c q]; simpl; intros E;
      eexists _, _, rb'; rewrite E; done.
  - eexists _, _, (rt_ringbuffer_reset rb). split; [done |].
    destruct rb, Hwf; simpl in *. unfold rt_ringbuffer_reset, set_write, set_read; simpl.
    change (wrap 1 0) with 0. change (wrap 15 0) with 0. split; [split; simpl; lia |]. done.
  - rewrite Hc. eauto 8.
Qed.

(** C1: any sequence of put, get, putchar, putchar_force, getchar, reset and
    data_len calls on a well-formed buffer runs without leaving the pool and
    returns exactly what a FIFO byte queue of capacity [buffer_size] returns. *)
Theorem rt_ringbuffer_refines_queue os rb : wf rb -> Forall op_ok os ->
  rb_run os rb = Some (queue_run (buffer_size rb) os (contents rb)).
Proof.
  intros Hwf Hos. revert rb Hwf. induction Hos as [| o os Ho Hos IH]; intros rb Hwf; [done |].
  destruct (rb_exec_refines o rb Hwf Ho) as (n & out & rb' & E & Hwf' & Hs & Eq).
  simpl. rewrite E, Eq. simpl. rewrite (IH rb' Hwf'), Hs. done.
Qed.

Definition rb8 : rt_ringbuffer := RingBuf [1; 2; 3; 4; 5; 6; 7; 8] 0 6 1 2 8.

Lemma rb8_wf : wf rb8.
Proof. split; simpl; lia. Defined.

Definition rb8_ops : list rb_op :=
  [OpPut [11; 12; 13]; OpPutcharForce 14; OpPutcharForce 15; OpGet [0; 0; 0]; OpGetchar; OpLen].

Lemma rt_ringbuffer_refines_queue_witness :
  rb_run rb8_ops rb8 = Some (queue_run 8 rb8_ops (contents rb8)) /\
  queue_run 8 rb8_ops (contents rb8) =
    [(3, []); (1, []); (1, []); (3, [8; 1; 2]); (1, [11]); (4, [])].
Proof.
  split; [| vm_compute; reflexivity].
  apply (rt_ringbuffer_refines_queue rb8_ops rb8); [apply rb8_wf |].
  repeat constructor; simpl; lia.
Defined.

Lemma rt_ringbuffer_put_force_correct_witness :
  exists rb', rt_ringbuffer_put_force rb8 [21; 22; 23; 24; 25; 26] 6 = Some (6, rb') /\
    contents rb' = [1; 2; 21; 22; 23; 24; 25; 26].
Proof.
  destruct (rt_ringbuffer_put_force_correct rb8 [21; 22; 23; 24; 25; 26] 6)
    as (rb' & E & _ & _ & Ec); [apply rb8_wf | lia | reflexivity | left; simpl; lia |].
  exists rb'. split; [exact E |]. rewrite Ec. vm_compute. reflexivity.
Defined.

Definition rb8_same : rt_ringbuffer := RingBuf [1; 2; 3; 4; 5; 6; 7; 8] 0 2 0 6 8.

Lemma rt_ringbuffer_put_force_drops_everything_witness :
  contents rb8_same = [3; 4; 5; 6] /\
  exists rb', rt_ringbuffer_put_force rb8_same [21; 22; 23; 24; 25; 26] 6 = Some (6, rb') /\
    contents rb' = [].
Proof.
  split; [vm_compute; reflexivity |].
  destruct (rt_ringbuffer_put_force_drops_everything rb8_same [21; 22; 23; 24; 25; 26] 6)
    as (rb' & E & _ & Ec); [split; simpl; lia | lia | reflexivity | reflexivity | vm_compute; reflexivity |].
  exists rb'. split; [exact E | exact Ec].
Defined.

End RingBuffer.
