(* ===== verification/RtList.v ===== *)
(** * Intrusive doubly linked lists: [src/kernel/include/rtservice.h]

    The kernel links its objects with circular doubly linked lists whose nodes
    live inside the objects.  This file models the C functions on a heap of
    nodes ([next], [prev]), pointer write by pointer write, and shows that on
    heaps that represent disjoint circular lists they act as the list functions
    of [ListQ] that the kernel model uses: append, prepend, insert before a
    node, delete a node. *)

From S2P Require Import Prelude.

Module RtList.

(** A node address; a node is its two pointer fields. *)
Abbreviation loc := nat.

Record rt_list_node := Node { next : loc; prev : loc }.

Abbreviation heap := (gmap loc rt_list_node).

Definition get_next (h : heap) (p : loc) : option loc := next <$> h !! p.
Definition get_prev (h : heap) (p : loc) : option loc := prev <$> h !! p.

Definition set_next (h : heap) (p v : loc) : option heap :=
  n ← h !! p; Some (<[p := Node v (prev n)]> h).
Definition set_prev (h : heap) (p v : loc) : option heap :=
  n ← h !! p; Some (<[p := Node (next n) v]> h).

(** [l->next = l->prev = l] *)
Definition rt_list_init (h : heap) (l : loc) : option heap :=
  h ← set_prev h l l; set_next h l l.

Definition rt_list_insert_after (h : heap) (l n : loc) : option heap :=
  ln ← get_next h l; h ← set_prev h ln n;
  ln ← get_next h l; h ← set_next h n ln;
  h ← set_next h l n;
  set_prev h n l.

Definition rt_list_insert_before (h : heap) (l n : loc) : option heap :=
  lp ← get_prev h l; h ← set_next h lp n;
  lp ← get_prev h l; h ← set_prev h n lp;
  h ← set_prev h l n;
  set_next h n l.

Definition rt_list_remove (h : heap) (n : loc) : option heap :=
  nn ← get_next h n; np ← get_prev h n; h ← set_prev h nn np;
  np ← get_prev h n; nn ← get_next h n; h ← set_next h np nn;
  h ← set_prev h n n; set_next h n n.

Definition rt_list_isempty (h : heap) (l : loc) : option bool :=
  ln ← get_next h l; Some (bool_decide (ln = l)).

(** The counting loop of [rt_list_len]: [p] is the cursor, [fuel] bounds the
    number of nodes. *)
Fixpoint rt_list_len_loop (fuel : nat) (h : heap) (l p : loc) (len : nat) : option nat :=
  match fuel with
  | O => None
  | S fuel =>
      pn ← get_next h p;
      if bool_decide (pn = l) then Some len else rt_list_len_loop fuel h l pn (S len)
  end.

Definition rt_list_len (fuel : nat) (h : heap) (l : loc) : option nat :=
  rt_list_len_loop fuel h l l 0.

(** ** The list functions the kernel model uses *)

Module ListQ.

Section ops.
Context {A : Type} `{EqDecision A}.

Definition remove (n : A) (q : list A) : list A := filter (fun x => x <> n) q.
Definition push_back (q : list A) (n : A) : list A := q ++ [n].
Definition push_front (q : list A) (n : A) : list A := n :: q.

(** Insert [n] before the first [x] of the list. *)
Fixpoint insert_before (x n : A) (q : list A) : list A :=
  match q with
  | [] => [n]
  | y :: q => if decide (y = x) then n :: y :: q else y :: insert_before x n q
  end.

Lemma elem_remove (t u : A) q : u ∈ remove t q <-> u <> t /\ u ∈ q.
Proof. unfold remove. by rewrite list_elem_of_filter. Qed.

Lemma remove_id (t : A) q : t ∉ q -> remove t q = q.
Proof.
  unfold remove. induction q as [| x q IH]; intros H; [done |].
  rewrite filter_cons_True by set_solver. rewrite IH by set_solver. done.
Qed.

Lemma remove_head (t : A) q : t ∉ q -> remove t (t :: q) = q.
Proof. intros H. unfold remove. rewrite filter_cons_False by auto. by apply remove_id. Qed.

Lemma remove_nodup (t : A) q : NoDup q -> NoDup (remove t q).
Proof. apply NoDup_filter. Qed.

End ops.

End ListQ.

(** ** Circular lists in a heap *)

(** [links h a ns b]: following [next] from [a] visits [ns] and ends at [b];
    the [prev] fields mirror it. *)
Fixpoint links (h : heap) (a : loc) (ns : list loc) (b : loc) : Prop :=
  match ns with
  | [] => get_next h a = Some b /\ get_prev h b = Some a
  | n :: ns => get_next h a = Some n /\ get_prev h n = Some a /\ links h n ns b
  end.

(** [dlist h l xs]: the list with head [l] holds the nodes [xs] in order. *)
Definition dlist (h : heap) (l : loc) (xs : list loc) : Prop :=
  NoDup (l :: xs) /\ links h l xs l.

(** [represents h m]: [m] maps every list head to the nodes it links; the lists
    are disjoint.  A node that is in no list is a head whose list is empty, as
    [rt_list_init] and [rt_list_remove] leave it. *)
Record represents (h : heap) (m : gmap loc (list loc)) : Prop := {
  repr_list : forall l xs, m !! l = Some xs -> dlist h l xs;
  repr_disj : forall l k xs ys x, m !! l = Some xs -> m !! k = Some ys ->
    x ∈ l :: xs -> x ∈ k :: ys -> l = k
}.

(** ** Heap lemmas *)

Lemma set_next_spec h p v : is_Some (h !! p) ->
  exists h', set_next h p v = Some h' /\
    (forall q, get_next h' q = if decide (q = p) then Some v else get_next h q) /\
    (forall q, get_prev h' q = get_prev h q) /\
    (forall q, is_Some (h' !! q) <-> is_Some (h !! q)).
Proof.
  intros [n Hn]. unfold set_next. rewrite Hn. simpl. eexists. split; [reflexivity |].
  unfold get_next, get_prev. repeat split; intros; repeat (case_decide; subst); simplify_map_eq;
    eauto; destruct (decide (p = q)); subst; simplify_map_eq; eauto.
Qed.

Lemma set_prev_spec h p v : is_Some (h !! p) ->
  exists h', set_prev h p v = Some h' /\
    (forall q, get_prev h' q = if decide (q = p) then Some v else get_prev h q) /\
    (forall q, get_next h' q = get_next h q) /\
    (forall q, is_Some (h' !! q) <-> is_Some (h !! q)).
Proof.
  intros [n Hn]. unfold set_prev. rewrite Hn. simpl. eexists. split; [reflexivity |].
  unfold get_next, get_prev. repeat split; intros; repeat (case_decide; subst); simplify_map_eq;
    eauto; destruct (decide (p = q)); subst; simplify_map_eq; eauto.
Qed.

Lemma get_next_alloc h p v : get_next h p = Some v -> is_Some (h !! p).
Proof. unfold get_next. destruct (h !! p); [eauto | done]. Qed.
Lemma get_prev_alloc h p v : get_prev h p = Some v -> is_Some (h !! p).
Proof. unfold get_prev. destruct (h !! p); [eauto | done]. Qed.

(** Runs one pointer write of the goal. *)
Ltac alloc_solve :=
  repeat match goal with
  | H : get_next _ _ = Some _ |- _ => apply get_next_alloc in H
  | H : get_prev _ _ = Some _ |- _ => apply get_prev_alloc in H
  end; naive_solver.

Ltac heap_step :=
  match goal with
  | |- context [set_next ?h ?p ?v] =>
      let h' := fresh "h" in let E := fresh "E" in
      destruct (set_next_spec h p v) as (h' & E & ? & ? & ?);
      [ alloc_solve | rewrite E; simpl ]
  | |- context [set_prev ?h ?p ?v] =>
      let h' := fresh "h" in let E := fresh "E" in
      destruct (set_prev_spec h p v) as (h' & E & ? & ? & ?);
      [ alloc_solve | rewrite E; simpl ]
  end.

(** Pointer fields after [rt_list_insert_before(l, n)], [p] being the old predecessor. *)
Lemma insert_before_fields h l n p :
  get_prev h l = Some p -> is_Some (h !! p) -> is_Some (h !! n) -> n <> l -> n <> p ->
  exists h', rt_list_insert_before h l n = Some h' /\
    (forall q, get_next h' q =
       if decide (q = n) then Some l else if decide (q = p) then Some n else get_next h q) /\
    (forall q, get_prev h' q =
       if decide (q = l) then Some n else if decide (q = n) then Some p else get_prev h q).
Proof.
  intros Hp Hpa Hna Hnl Hnp. unfold rt_list_insert_before. rewrite Hp. simpl.
  heap_step. replace (get_prev h0 l) with (Some p) by congruence. simpl.
  do 3 heap_step.
  eexists. split; [reflexivity |]. split; intros q;
    repeat match goal with H : forall q, _ = _ |- _ => rewrite H; clear H end;
    repeat case_decide; subst; congruence.
Qed.

(** Pointer fields after [rt_list_insert_after(l, n)], [p] being the old successor. *)
Lemma insert_after_fields h l n p :
  get_next h l = Some p -> is_Some (h !! p) -> is_Some (h !! n) -> n <> l -> n <> p ->
  exists h', rt_list_insert_after h l n = Some h' /\
    (forall q, get_next h' q =
       if decide (q = l) then Some n else if decide (q = n) then Some p else get_next h q) /\
    (forall q, get_prev h' q =
       if decide (q = n) then Some l else if decide (q = p) then Some n else get_prev h q).
Proof.
  intros Hp Hpa Hna Hnl Hnp. unfold rt_list_insert_after. rewrite Hp. simpl.
  heap_step. replace (get_next h0 l) with (Some p) by congruence. simpl.
  do 3 heap_step.
  eexists. split; [reflexivity |]. split; intros q;
    repeat match goal with H : forall q, _ = _ |- _ => rewrite H; clear H end;
    repeat case_decide; subst; congruence.
Qed.

(** Pointer fields after [rt_list_remove(n)], [p] and [s] being its neighbours. *)
Lemma remove_fields h n p s :
  get_prev h n = Some p -> get_next h n = Some s -> is_Some (h !! p) -> is_Some (h !! s) ->
  (s = n <-> p = n) ->
  exists h', rt_list_remove h n = Some h' /\
    (forall q, get_next h' q =
       if decide (q = n) then Some n else if decide (q = p) then Some s else get_next h q) /\
    (forall q, get_prev h' q =
       if decide (q = n) then Some n else if decide (q = s) then Some p else get_prev h q).
Proof.
  intros Hp Hs Hpa Hsa Hsn. unfold rt_list_remove. rewrite Hp, Hs. simpl.
  heap_step.
  replace (get_prev h0 n) with (Some p) by (rewrite H; case_decide; naive_solver congruence). simpl.
  replace (get_next h0 n) with (Some s) by congruence. simpl.
  do 3 heap_step.
  eexists. split; [reflexivity |]. split; intros q;
    repeat match goal with H : forall q, _ = _ |- _ => rewrite H; clear H end;
    repeat case_decide; subst; naive_solver congruence.
Qed.

(** ** Lemmas on [links] *)

Lemma links_app h a xs n ys b :
  links h a (xs ++ n :: ys) b <-> links h a xs n /\ links h n ys b.
Proof. revert a. induction xs as [| x xs IH]; intros a; simpl; [tauto | rewrite IH; tauto]. Qed.

Lemma links_ext h h' a ns b :
  links h a ns b ->
  (forall q, q ∈ a :: ns -> get_next h' q = get_next h q) ->
  (forall q, q ∈ b :: ns -> get_prev h' q = get_prev h q) ->
  links h' a ns b.
Proof.
  revert a. induction ns as [| n ns IH]; intros a Hl Hn Hp; simpl in *.
  - rewrite Hn, Hp by set_solver. done.
  - rewrite Hn, Hp by set_solver. destruct Hl as (? & ? & ?). split; [done |]. split; [done |].
    apply IH; [done | |]; intros; [apply Hn | apply Hp]; set_solver.
Qed.

(** The predecessor of [b] in a segment from [a]. *)
Definition seg_last (a : loc) (ns : list loc) : loc := List.last ns a.

Lemma seg_last_in a ns : seg_last a ns ∈ a :: ns.
Proof.
  unfold seg_last. revert a. induction ns as [| n ns IH]; intros a; [set_solver |].
  destruct ns as [| m ns]; [set_solver |]. specialize (IH a). set_solver.
Qed.

Lemma seg_last_cons a n ns : seg_last a (n :: ns) = seg_last n ns.
Proof.
  unfold seg_last. revert a n. induction ns as [| m ns IH]; intros a n; [done |].
  change (List.last (n :: m :: ns) a) with (List.last (m :: ns) a).
  rewrite (IH a m), <- (IH n m). done.
Qed.

Lemma links_last h a ns b : links h a ns b ->
  get_prev h b = Some (seg_last a ns) /\ get_next h (seg_last a ns) = Some b.
Proof.
  revert a. induction ns as [| n ns IH]; intros a Hl; [split; apply Hl |].
  rewrite seg_last_cons. apply IH, Hl.
Qed.

Lemma links_head h a ns b : links h a ns b ->
  get_next h a = Some (hd b ns) /\ get_prev h (hd b ns) = Some a.
Proof. destruct ns; simpl; tauto. Qed.

(** A segment whose last link is redirected from [b] to [c]. *)
Lemma links_retarget h h' a ns b c :
  links h a ns b -> NoDup (a :: ns) -> b ∉ ns -> c ∉ ns ->
  get_next h' (seg_last a ns) = Some c -> get_prev h' c = Some (seg_last a ns) ->
  (forall q, q ∈ a :: ns -> q <> seg_last a ns -> get_next h' q = get_next h q) ->
  (forall q, q ∈ ns -> get_prev h' q = get_prev h q) ->
  links h' a ns c.
Proof.
  revert a. induction ns as [| n ns IH]; intros a Hl Hnd Hb Hc Hn Hp Hne Hpe; [done |].
  rewrite seg_last_cons in *. simpl in Hl |- *. destruct Hl as (Hl1 & Hl2 & Hl3).
  apply NoDup_cons in Hnd as [Ha Hnd].
  split; [rewrite Hne; [done | set_solver | intros ->; apply Ha, seg_last_in] |].
  split; [rewrite Hpe; [done | set_solver] |].
  apply IH; try done; try set_solver.
Qed.

Definition links_tail (h : heap) (bs : list loc) (l : loc) : Prop :=
  match bs with [] => True | b :: bs => links h b bs l end.

(** Membership goals, without the pointer equations. *)
Ltac mem_solver :=
  repeat match goal with
  | H : forall q : loc, get_next _ _ = _ |- _ => clear H
  | H : forall q : loc, get_prev _ _ = _ |- _ => clear H
  | H : _ = seg_last _ _ |- _ => clear H
  | H : _ = hd _ _ |- _ => clear H
  | H : links _ _ _ _ |- _ => clear H
  | H : links_tail _ _ _ |- _ => clear H
  end; set_solver.

Lemma links_split h l xs ys :
  links h l (xs ++ ys) l <-> links h l xs (hd l ys) /\ links_tail h ys l.
Proof. destruct ys as [| y ys]; simpl; [rewrite app_nil_r; tauto | apply links_app]. Qed.

Lemma links_cons h l ys n :
  links h n ys l <-> get_next h n = Some (hd l ys) /\ get_prev h (hd l ys) = Some n /\
                     links_tail h ys l.
Proof. destruct ys; simpl; tauto. Qed.

Lemma nodup_insert (l n : loc) xs ys :
  NoDup (l :: xs ++ ys) -> n ∉ l :: xs ++ ys -> NoDup (l :: xs ++ n :: ys).
Proof.
  intros Hnd Hn. apply NoDup_cons in Hnd as [Hl Hnd]. apply NoDup_app in Hnd as (Hx & Hd & Hy).
  apply NoDup_cons. split; [mem_solver |]. apply NoDup_app.
  split; [done |]. split; [mem_solver |]. apply NoDup_cons. split; [mem_solver | done].
Qed.

(** [n], outside the list, linked between [xs] and [ys]: what both insertions do. *)
Lemma links_insert h h' l xs ys n p t : p = seg_last l xs -> t = hd l ys ->
  NoDup (l :: xs ++ ys) -> n ∉ l :: xs ++ ys -> links h l (xs ++ ys) l ->
  (forall q, get_next h' q =
     if decide (q = n) then Some t else if decide (q = p) then Some n else get_next h q) ->
  (forall q, get_prev h' q =
     if decide (q = t) then Some n else if decide (q = n) then Some p else get_prev h q) ->
  links h' l (xs ++ n :: ys) l.
Proof.
  intros Ep Et Hnd Hn Hl Hnx Hpv. apply links_split in Hl as [Hl1 Hl2].
  pose proof (seg_last_in l xs) as Hp. rewrite <- Ep in Hp.
  assert (t ∈ l :: ys) as Ht by (rewrite Et; destruct ys; mem_solver).
  apply NoDup_cons in Hnd as [Hll Hnd]. apply NoDup_app in Hnd as (Hndx & Hdis & Hndy).
  assert (n <> p /\ n <> t) as [Hnp Hnt] by (split; intros ->; mem_solver).
  apply links_app. split.
  - eapply links_retarget; try exact Hl1; rewrite <- ?Ep.
    + apply NoDup_cons. mem_solver.
    + rewrite <- Et. intros Hin. destruct ys; simpl in *; mem_solver.
    + mem_solver.
    + rewrite Hnx. repeat case_decide; congruence.
    + rewrite Hpv. repeat case_decide; congruence.
    + intros q Hq Hqp. rewrite Hnx. repeat case_decide; mem_solver.
    + intros q Hq. rewrite Hpv. repeat case_decide; try done; subst q.
      * exfalso. destruct ys; simpl in *; mem_solver.
      * mem_solver.
  - apply links_cons. rewrite <- Et, Hnx, Hpv.
    split; [case_decide; done |]. split; [case_decide; done |].
    destruct ys as [| y ys]; [done |]. simpl in *. subst t.
    apply NoDup_cons in Hndy as [Hy _].
    assert (p ∉ y :: ys) by mem_solver. assert (n ∉ y :: ys) by mem_solver.
    assert (n ∉ l :: ys) by mem_solver. assert (y ∉ l :: ys) by mem_solver.
    eapply links_ext; [exact Hl2 | |]; intros q Hq; [rewrite Hnx | rewrite Hpv];
      rewrite !decide_False by (intros ->; contradiction); done.
Qed.

(** Removing the node between [xs] and [ys]. *)
Lemma links_remove h h' l xs ys n p s : p = seg_last l xs -> s = hd l ys ->
  NoDup (l :: xs ++ n :: ys) -> links h l (xs ++ n :: ys) l ->
  (forall q, get_next h' q =
     if decide (q = n) then Some n else if decide (q = p) then Some s else get_next h q) ->
  (forall q, get_prev h' q =
     if decide (q = n) then Some n else if decide (q = s) then Some p else get_prev h q) ->
  links h' l (xs ++ ys) l.
Proof.
  intros Ep Es Hnd Hl Hnx Hpv. apply links_app in Hl as [Hl1 Hl2]. apply links_cons in Hl2 as (_ & _ & Hl2).
  pose proof (seg_last_in l xs) as Hp. rewrite <- Ep in Hp.
  assert (s ∈ l :: ys) as Hs by (rewrite Es; destruct ys; mem_solver).
  apply NoDup_cons in Hnd as [Hll Hnd]. apply NoDup_app in Hnd as (Hndx & Hdis & Hndy).
  apply NoDup_cons in Hndy as [Hny Hndy].
  assert (n <> p /\ n <> s) as [Hnp Hns] by (split; intros ->; mem_solver).
  apply links_split. rewrite <- Es. split.
  - eapply links_retarget; try exact Hl1; rewrite <- ?Ep.
    + apply NoDup_cons. mem_solver.
    + mem_solver.
    + mem_solver.
    + rewrite Hnx. repeat case_decide; congruence.
    + rewrite Hpv. repeat case_decide; congruence.
    + intros q Hq Hqp. rewrite Hnx. repeat case_decide; mem_solver.
    + intros q Hq. rewrite Hpv. repeat case_decide; try done; subst q; exfalso; mem_solver.
  - destruct ys as [| y ys]; [done |]. simpl in *. subst s.
    apply NoDup_cons in Hndy as [Hy _].
    assert (p ∉ y :: ys) by mem_solver. assert (n ∉ y :: ys) by mem_solver.
    assert (n ∉ l :: ys) by mem_solver. assert (y ∉ l :: ys) by mem_solver.
    eapply links_ext; [exact Hl2 | |]; intros q Hq; [rewrite Hnx | rewrite Hpv];
      rewrite !decide_False by (intros ->; contradiction); done.
Qed.

(** ** The lists of a heap *)

Lemma represents_nodup h m l xs : represents h m -> m !! l = Some xs -> NoDup (l :: xs).
Proof. intros H Hl. apply (repr_list h m H l xs Hl). Qed.

Lemma represents_links h m l xs : represents h m -> m !! l = Some xs -> links h l xs l.
Proof. intros H Hl. apply (repr_list h m H l xs Hl). Qed.

(** Lists other than [l] and [n] keep their nodes out of reach of the writes to [l] and [n]. *)
Lemma dlist_frame h h' m l n xs k ys :
  represents h m -> m !! l = Some xs -> m !! k = Some ys -> k <> l ->
  (forall q, q ∉ l :: xs -> q <> n -> get_next h' q = get_next h q /\ get_prev h' q = get_prev h q) ->
  n ∉ k :: ys -> dlist h' k ys.
Proof.
  intros Hr Hl Hk Hne Hfr Hn. destruct (repr_list h m Hr k ys Hk) as [Hnd Hlk]. split; [done |].
  assert (forall q, q ∈ k :: ys -> q ∉ l :: xs /\ q <> n).
  { intros q Hq. split; [| intros ->; done]. intros Hq'. apply Hne.
    exact (repr_disj h m Hr k l ys xs q Hk Hl Hq Hq'). }
  eapply links_ext; [exact Hlk | |]; intros q Hq; apply Hfr; naive_solver.
Qed.

(** The representation after a node [n], alone so far, is linked into list [l]. *)
Lemma represents_insert h h' m l xs ys n p t : p = seg_last l xs -> t = hd l ys ->
  represents h m -> m !! l = Some (xs ++ ys) -> m !! n = Some [] -> n <> l ->
  (forall q, get_next h' q =
     if decide (q = n) then Some t else if decide (q = p) then Some n else get_next h q) ->
  (forall q, get_prev h' q =
     if decide (q = t) then Some n else if decide (q = n) then Some p else get_prev h q) ->
  represents h' (<[l := xs ++ n :: ys]> (delete n m)).
Proof.
  intros Ep Et Hr Hl Hn Hnl Hnx Hpv.
  pose proof (represents_nodup _ _ _ _ Hr Hl) as Hnd.
  assert (n ∉ l :: xs ++ ys) as Hout.
  { intros Hin. apply Hnl. eapply (repr_disj h m Hr n l [] _ n); eauto. mem_solver. }
  assert (p ∈ l :: xs ++ ys /\ t ∈ l :: xs ++ ys) as [Hp Ht].
  { split; [pose proof (seg_last_in l xs) as Hp; rewrite <- Ep in Hp; mem_solver |
      rewrite Et; destruct ys; mem_solver]. }
  split.
  - intros k zs Hk. apply lookup_insert_Some in Hk as [[<- <-] | [Hne Hk]].
    + split; [| eapply links_insert; eauto using represents_links].
      apply nodup_insert; done.
    + apply lookup_delete_Some in Hk as [Hnk Hk].
      eapply (dlist_frame h h' m l n); eauto.
      * intros q Hq Hqn. rewrite Hnx, Hpv. repeat case_decide; subst; done.
      * intros Hin. apply Hnk. eapply (repr_disj h m Hr n k [] zs n); eauto. mem_solver.
  - intros k1 k2 z1 z2 x Hk1 Hk2 Hx1 Hx2.
    rewrite lookup_insert_Some, lookup_delete_Some in Hk1, Hk2.
    destruct Hk1 as [[<- <-] | (? & ? & Hk1)], Hk2 as [[<- <-] | (? & ? & Hk2)]; [done | | |];
      [destruct (decide (x = n)) as [-> | ] .. |].
    + exfalso. apply H0. eapply (repr_disj h m Hr n k2 [] z2 n); eauto. mem_solver.
    + eapply (repr_disj h m Hr l k2 _ z2 x); eauto. mem_solver.
    + exfalso. apply H0. eapply (repr_disj h m Hr n k1 [] z1 n); eauto. mem_solver.
    + eapply (repr_disj h m Hr k1 l z1 _ x); eauto. mem_solver.
    + eapply (repr_disj h m Hr); eauto.
Qed.

Lemma nodup_middle (l n : loc) xs ys :
  NoDup (l :: xs ++ n :: ys) -> NoDup (l :: xs ++ ys) /\ n ∉ l :: xs ++ ys.
Proof.
  intros Hnd. apply NoDup_cons in Hnd as [Hl Hnd]. apply NoDup_app in Hnd as (Hx & Hd & Hy).
  apply NoDup_cons in Hy as [Hn Hy]. split.
  - apply NoDup_cons. split; [mem_solver |]. apply NoDup_app.
    split; [done |]. split; [mem_solver | done].
  - mem_solver.
Qed.

(** The representation after node [n] is unlinked from list [l]. *)
Lemma represents_remove h h' m l xs ys n p s : p = seg_last l xs -> s = hd l ys ->
  represents h m -> m !! l = Some (xs ++ n :: ys) ->
  (forall q, get_next h' q =
     if decide (q = n) then Some n else if decide (q = p) then Some s else get_next h q) ->
  (forall q, get_prev h' q =
     if decide (q = n) then Some n else if decide (q = s) then Some p else get_prev h q) ->
  represents h' (<[n := []]> (<[l := xs ++ ys]> m)).
Proof.
  intros Ep Es Hr Hl Hnx Hpv.
  pose proof (represents_nodup _ _ _ _ Hr Hl) as Hnd.
  destruct (nodup_middle _ _ _ _ Hnd) as [Hnd' Hn].
  assert (p ∈ l :: xs ++ ys /\ s ∈ l :: xs ++ ys) as [Hp Hs].
  { split; [pose proof (seg_last_in l xs) as Hp; rewrite <- Ep in Hp; mem_solver |
      rewrite Es; destruct ys; mem_solver]. }
  assert (forall k zs, m !! k = Some zs -> n ∈ k :: zs -> k = l) as Honly.
  { intros k zs Hk Hin. eapply (repr_disj h m Hr k l); eauto. mem_solver. }
  split.
  - intros k zs Hk. apply lookup_insert_Some in Hk as [[<- <-] | [Hnk Hk]].
    + split; [apply NoDup_singleton |]. simpl. rewrite Hnx, Hpv, !decide_True by done. done.
    + apply lookup_insert_Some in Hk as [[<- <-] | [Hlk Hk]].
      * split; [done |]. eapply links_remove; eauto using represents_links.
      * eapply (dlist_frame h h' m l n); eauto.
        -- intros q Hq Hqn. rewrite Hnx, Hpv. repeat case_decide; subst; mem_solver.
        -- intros Hin. apply Hlk. symmetry. eauto.
  - intros k1 k2 z1 z2 x Hk1 Hk2 Hx1 Hx2.
    assert (forall k z, <[n:=[]]> (<[l:=xs ++ ys]> m) !! k = Some z -> x ∈ k :: z ->
      (k = n /\ x = n) \/ (x <> n /\ exists z', m !! k = Some z' /\ x ∈ k :: z')) as Hcase.
    { intros k z Hk Hx. apply lookup_insert_Some in Hk as [[<- <-] | [Hnk Hk]]; [left; mem_solver |].
      right. apply lookup_insert_Some in Hk as [[<- <-] | [Hlk Hk]].
      - split; [intros ->; mem_solver |]. eexists. split; [exact Hl |]. mem_solver.
      - split; [intros -> | eauto]. apply Hlk. symmetry. eauto. }
    destruct (Hcase k1 z1 Hk1 Hx1) as [[-> ->] | (Hxn & z1' & Hm1 & Hx1')],
      (Hcase k2 z2 Hk2 Hx2) as [[-> ?] | (Hxn' & z2' & Hm2 & Hx2')]; try done.
    exact (repr_disj h m Hr k1 k2 z1' z2' x Hm1 Hm2 Hx1' Hx2').
Qed.

Lemma represents_alloc h m l xs q : represents h m -> m !! l = Some xs -> q ∈ l :: xs ->
  is_Some (h !! q).
Proof.
  intros Hr Hl Hq. apply represents_links with (h := h) in Hl; [| done].
  apply elem_of_cons in Hq as [-> | Hq].
  - destruct (links_head _ _ _ _ Hl) as [E _]. by eapply get_next_alloc.
  - apply list_elem_of_split in Hq as (ys & zs & ->). apply links_app in Hl as [Hl _].
    destruct (links_last _ _ _ _ Hl) as [E _]. by eapply get_prev_alloc.
Qed.

(** ** Theorems *)

(** C40: on a heap of disjoint circular lists, [rt_list_insert_before] at a node
    (or at the head) of a list and [rt_list_insert_after] at the node before it
    both link a free node [n] at exactly that place, and change no other list. *)
Theorem rt_list_insert_represents h m l xs ys n :
  represents h m -> m !! l = Some (xs ++ ys) -> m !! n = Some [] -> n <> l ->
  let m' := <[l := xs ++ n :: ys]> (delete n m) in
  (exists h', rt_list_insert_before h (hd l ys) n = Some h' /\ represents h' m') /\
  (exists h', rt_list_insert_after h (seg_last l xs) n = Some h' /\ represents h' m').
Proof.
  intros Hr Hl Hn Hnl m'.
  pose proof (represents_links _ _ _ _ Hr Hl) as Hlk. apply links_split in Hlk as [Hlk _].
  destruct (links_last _ _ _ _ Hlk) as [Hprev Hnext].
  assert (hd l ys ∈ l :: xs ++ ys /\ seg_last l xs ∈ l :: xs ++ ys) as [Ht Hp].
  { split; [destruct ys; simpl; mem_solver | pose proof (seg_last_in l xs); mem_solver]. }
  assert (n ∉ l :: xs ++ ys) as Hout.
  { intros Hin. apply Hnl. eapply (repr_disj h m Hr n l [] _ n); eauto. mem_solver. }
  assert (is_Some (h !! n)) by (eapply represents_alloc; eauto; mem_solver).
  assert (n <> hd l ys /\ n <> seg_last l xs) as [Hnt Hnp] by (split; intros ->; done).
  split.
  - destruct (insert_before_fields h (hd l ys) n (seg_last l xs)) as (h' & E & Hnx & Hpv);
      eauto using represents_alloc.
    exists h'. split; [done |]. eapply represents_insert; eauto.
  - destruct (insert_after_fields h (seg_last l xs) n (hd l ys)) as (h' & E & Hnx & Hpv);
      eauto using represents_alloc.
    exists h'. split; [done |]. eapply represents_insert; eauto.
    + intros q. rewrite Hnx. repeat case_decide; congruence.
    + intros q. rewrite Hpv. repeat case_decide; congruence.
Qed.

(** [rt_list_remove] takes a linked node out of the list it is in, leaves it
    self-linked, and is the identity on a node that is in no list. *)
Theorem rt_list_remove_represents h m l xs ys n :
  represents h m ->
  (m !! l = Some (xs ++ n :: ys) ->
     exists h', rt_list_remove h n = Some h' /\
                represents h' (<[n := []]> (<[l := xs ++ ys]> m))) /\
  (m !! n = Some [] -> exists h', rt_list_remove h n = Some h' /\ represents h' m).
Proof.
  intros Hr. split.
  - intros Hl. pose proof (represents_links _ _ _ _ Hr Hl) as Hlk.
    destruct (nodup_middle _ _ _ _ (represents_nodup _ _ _ _ Hr Hl)) as [_ Hn].
    apply links_app in Hlk as [Hl1 Hl2].
    destruct (links_last _ _ _ _ Hl1) as [Hp _]. destruct (links_head _ _ _ _ Hl2) as [Hs _].
    assert (hd l ys ∈ l :: xs ++ ys /\ seg_last l xs ∈ l :: xs ++ ys) as [Ht' Hp'].
    { split; [destruct ys; simpl; mem_solver | pose proof (seg_last_in l xs); mem_solver]. }
    destruct (remove_fields h n (seg_last l xs) (hd l ys)) as (h' & E & Hnx & Hpv); try done.
    + eapply represents_alloc; eauto. mem_solver.
    + eapply represents_alloc; eauto. mem_solver.
    + split; intros Heq; exfalso; apply Hn; rewrite <- Heq; done.
    + exists h'. split; [done |]. eapply represents_remove; eauto.
  - intros Hn. destruct (represents_links _ _ _ _ Hr Hn) as [Hs Hp].
    destruct (remove_fields h n n n) as (h' & E & Hnx & Hpv); try done;
      try (eapply represents_alloc; eauto; mem_solver).
    exists h'. split; [done |]. destruct Hr as [Hrl Hrd]. split; [| done].
    intros k zs Hk. destruct (Hrl k zs Hk) as [Hnd Hlk]. split; [done |].
    eapply links_ext; [exact Hlk | |]; intros q _; [rewrite Hnx | rewrite Hpv];
      repeat case_decide; congruence.
Qed.

Lemma len_loop_spec h l ys x len fuel :
  links h x ys l -> l ∉ ys -> length ys < fuel ->
  rt_list_len_loop fuel h l x len = Some (len + length ys).
Proof.
  revert x len fuel. induction ys as [| y ys IH]; intros x len [| fuel] Hl Hn Hf; simpl in *;
    try lia.
  - destruct Hl as [-> _]. simpl. rewrite bool_decide_true by done. f_equal. lia.
  - destruct Hl as (-> & _ & Hl). simpl. rewrite bool_decide_false by mem_solver.
    rewrite IH by (done || mem_solver || lia). f_equal. lia.
Qed.

(** [rt_list_len] terminates on a represented list and counts its nodes, and
    [rt_list_isempty] holds exactly of the empty list. *)
Theorem rt_list_len_isempty_spec h m l xs fuel :
  represents h m -> m !! l = Some xs -> length xs < fuel ->
  rt_list_len fuel h l = Some (length xs) /\
  rt_list_isempty h l = Some (bool_decide (xs = [])).
Proof.
  intros Hr Hl Hf. pose proof (represents_nodup _ _ _ _ Hr Hl) as Hnd.
  apply NoDup_cons in Hnd as [Hn _]. pose proof (represents_links _ _ _ _ Hr Hl) as Hlk. split.
  - unfold rt_list_len. rewrite (len_loop_spec _ _ xs) by (done || lia). done.
  - unfold rt_list_isempty. destruct (links_head _ _ _ _ Hlk) as [-> _]. simpl. f_equal.
    apply bool_decide_ext. destruct xs; simpl; [done |]. split; [intros -> | done]. mem_solver.
Qed.

(** ** Witnesses: list 1 holds the nodes 3 and 4, node 5 is free *)

Definition heap_example : heap :=
  {[1 := Node 3 4; 3 := Node 4 1; 4 := Node 1 3; 5 := Node 5 5]}.
Definition lists_example : gmap loc (list loc) := {[1 := [3; 4]; 5 := []]}.

Lemma heap_example_repr : represents heap_example lists_example.
Proof.
  assert (forall l xs, lists_example !! l = Some xs -> (l = 1 /\ xs = [3; 4]) \/ (l = 5 /\ xs = []))
    as Hc.
  { intros l xs H. unfold lists_example in H.
    apply lookup_insert_Some in H as [[<- <-] | [_ H]]; [left; done |].
    apply lookup_singleton_Some in H as [<- <-]. right; done. }
  split.
  - intros l xs H. apply Hc in H as [[-> ->] | [-> ->]].
    + split; [apply (bool_decide_unpack _); reflexivity | repeat split].
    + split; [apply (bool_decide_unpack _); reflexivity | split; reflexivity].
  - intros l k xs ys x Hl Hk. apply Hc in Hl as [[-> ->] | [-> ->]], Hk as [[-> ->] | [-> ->]];
      try done; set_solver.
Defined.

Lemma rt_list_insert_represents_witness :
  (exists h', rt_list_insert_before heap_example 4 5 = Some h' /\
     represents h' (<[1 := [3; 5; 4]]> (delete 5 lists_example))) /\
  (exists h', rt_list_insert_after heap_example 3 5 = Some h' /\
     represents h' (<[1 := [3; 5; 4]]> (delete 5 lists_example))).
Proof.
  apply (rt_list_insert_represents heap_example lists_example 1 [3] [4] 5);
    [apply heap_example_repr | reflexivity | reflexivity | done].
Defined.

Lemma rt_list_remove_represents_witness :
  exists h', rt_list_remove heap_example 3 = Some h' /\
    represents h' (<[3 := []]> (<[1 := [4]]> lists_example)).
Proof.
  destruct (rt_list_remove_represents heap_example lists_example 1 [] [4] 3 heap_example_repr)
    as [H _]. apply H. reflexivity.
Defined.

Lemma rt_list_len_isempty_spec_witness :
  rt_list_len 3 heap_example 1 = Some 2 /\ rt_list_isempty heap_example 1 = Some false.
Proof.
  apply (rt_list_len_isempty_spec heap_example lists_example 1 [3; 4] 3);
    [apply heap_example_repr | reflexivity | simpl; lia].
Defined.

End RtList.
