(* ===== verification/Kservice.v ===== *)
(** * Kernel services: [src/kernel/src/kservice.c]

    The find-first-set routine of the scheduler and the string and memory
    routines that the object system and the IPC objects call.  A buffer is a
    list of byte values and a pointer an index into it; a routine returns
    [None] when it reads or writes outside a buffer.  Loops that count down run
    on that count; [rt_strlen] runs on the size of its buffer, past which every
    read faults. [char] is unsigned on the target. *)

From S2P Require Import Prelude.

Local Open Scope Z_scope.

Module Kservice.

(** ** [__rt_ffs] *)

Definition __lowest_bit_bitmap : list Z :=
  [ 0; 0; 1; 0; 2; 0; 1; 0; 3; 0; 1; 0; 2; 0; 1; 0;
    4; 0; 1; 0; 2; 0; 1; 0; 3; 0; 1; 0; 2; 0; 1; 0;
    5; 0; 1; 0; 2; 0; 1; 0; 3; 0; 1; 0; 2; 0; 1; 0;
    4; 0; 1; 0; 2; 0; 1; 0; 3; 0; 1; 0; 2; 0; 1; 0;
    6; 0; 1; 0; 2; 0; 1; 0; 3; 0; 1; 0; 2; 0; 1; 0;
    4; 0; 1; 0; 2; 0; 1; 0; 3; 0; 1; 0; 2; 0; 1; 0;
    5; 0; 1; 0; 2; 0; 1; 0; 3; 0; 1; 0; 2; 0; 1; 0;
    4; 0; 1; 0; 2; 0; 1; 0; 3; 0; 1; 0; 2; 0; 1; 0;
    7; 0; 1; 0; 2; 0; 1; 0; 3; 0; 1; 0; 2; 0; 1; 0;
    4; 0; 1; 0; 2; 0; 1; 0; 3; 0; 1; 0; 2; 0; 1; 0;
    5; 0; 1; 0; 2; 0; 1; 0; 3; 0; 1; 0; 2; 0; 1; 0;
    4; 0; 1; 0; 2; 0; 1; 0; 3; 0; 1; 0; 2; 0; 1; 0;
    6; 0; 1; 0; 2; 0; 1; 0; 3; 0; 1; 0; 2; 0; 1; 0;
    4; 0; 1; 0; 2; 0; 1; 0; 3; 0; 1; 0; 2; 0; 1; 0;
    5; 0; 1; 0; 2; 0; 1; 0; 3; 0; 1; 0; 2; 0; 1; 0;
    4; 0; 1; 0; 2; 0; 1; 0; 3; 0; 1; 0; 2; 0; 1; 0 ].

(** [value] is the 32-bit pattern of the argument. *)
Definition __rt_ffs (value : Z) : Z :=
  if value =? 0 then 0
  else if negb (Z.land value 0xff =? 0)
  then znth __lowest_bit_bitmap (Z.land value 0xff) + 1
  else if negb (Z.land value 0xff00 =? 0)
  then znth __lowest_bit_bitmap (Z.shiftr (Z.land value 0xff00) 8) + 9
  else if negb (Z.land value 0xff0000 =? 0)
  then znth __lowest_bit_bitmap (Z.shiftr (Z.land value 0xff0000) 16) + 17
  else znth __lowest_bit_bitmap (Z.shiftr (Z.land value 0xff000000) 24) + 25.

(** ** String and memory routines *)

(** [while (--n != 0) *d++ = 0;] with [n] bytes left to pad. *)
Fixpoint strncpy_pad (n : nat) (dst : list Z) (d : Z) : option (list Z) :=
  match n with
  | O => Some dst
  | S n => dst ← zset dst d 0; strncpy_pad n dst (d + 1)
  end.

Fixpoint strncpy_loop (n : nat) (dst : list Z) (d : Z) (src : list Z) (s : Z)
  : option (list Z) :=
  match n with
  | O => Some dst
  | S n =>
      c ← zget src s;
      dst ← zset dst d c;
      if c =? 0 then strncpy_pad n dst (d + 1)
      else strncpy_loop n dst (d + 1) src (s + 1)
  end.

Definition rt_strncpy (dst src : list Z) (n : nat) : option (list Z) :=
  strncpy_loop n dst 0 src 0.

Fixpoint strncmp_loop (count : nat) (cs : list Z) (i : Z) (ct : list Z) (res : Z) : option Z :=
  match count with
  | O => Some res
  | S count =>
      a ← zget cs i; b ← zget ct i;
      let res := swrap 8 (a - b) in
      if negb (res =? 0) || (a =? 0) then Some res
      else strncmp_loop count cs (i + 1) ct res
  end.

Definition rt_strncmp (cs ct : list Z) (count : nat) : option Z := strncmp_loop count cs 0 ct 0.

Fixpoint strlen_loop (fuel : nat) (s : list Z) (sc : Z) : option Z :=
  match fuel with
  | O => None
  | S fuel => c ← zget s sc; if c =? 0 then Some sc else strlen_loop fuel s (sc + 1)
  end.

Definition rt_strlen (s : list Z) : option Z := strlen_loop (S (length s)) s 0.

Fixpoint strnlen_loop (fuel : nat) (s : list Z) (sc maxlen : Z) : option Z :=
  match fuel with
  | O => None
  | S fuel =>
      c ← zget s sc;
      if negb (c =? 0) && (sc <? maxlen) then strnlen_loop fuel s (sc + 1) maxlen else Some sc
  end.

Definition rt_strnlen (s : list Z) (maxlen : Z) : option Z := strnlen_loop (S (length s)) s 0 maxlen.

Definition rt_strlcpy (dest src : list Z) (size : Z) : option (Z * list Z) :=
  ret ← rt_strlen src;
  if negb (size =? 0) then
    let len := if size <=? ret then size - 1 else ret in
    dest ← memcpy dest 0 src 0 len;
    dest ← zset dest len 0;
    Some (ret, dest)
  else Some (ret, dest).

Fixpoint memcmp_loop (count : nat) (cs : list Z) (i : Z) (ct : list Z) (res : Z) : option Z :=
  match count with
  | O => Some res
  | S count =>
      a ← zget cs i; b ← zget ct i;
      let res := a - b in
      if negb (res =? 0) then Some res else memcmp_loop count cs (i + 1) ct res
  end.

Definition rt_memcmp (cs ct : list Z) (count : nat) : option Z := memcmp_loop count cs 0 ct 0.

(** The two loops of [rt_memmove], inside one memory [mem] that holds both areas. *)
Fixpoint memmove_back (n : nat) (mem : list Z) (tmp s : Z) : option (list Z) :=
  match n with
  | O => Some mem
  | S n => c ← zget mem (s - 1); mem ← zset mem (tmp - 1) c; memmove_back n mem (tmp - 1) (s - 1)
  end.

Fixpoint memmove_fwd (n : nat) (mem : list Z) (tmp s : Z) : option (list Z) :=
  match n with
  | O => Some mem
  | S n => c ← zget mem s; mem ← zset mem tmp c; memmove_fwd n mem (tmp + 1) (s + 1)
  end.

Definition rt_memmove (mem : list Z) (dest src : Z) (n : nat) : option (list Z) :=
  if (src <? dest) && (dest <? src + Z.of_nat n)
  then memmove_back n mem (dest + Z.of_nat n) (src + Z.of_nat n)
  else memmove_fwd n mem dest src.

(** ** Find first set *)

(** Position of the lowest set bit below [n], counted from 1; 0 when there is none. *)
Fixpoint ffs_ref (n : nat) (i v : Z) : Z :=
  match n with
  | O => 0
  | S n => if Z.testbit v i then i + 1 else ffs_ref n (i + 1) v
  end.

Lemma lowest_bit_table_correct :
  forallb (fun v => znth __lowest_bit_bitmap (Z.of_nat v) + 1 =? ffs_ref 8 0 (Z.of_nat v))
    (seq 1 255) = true.
Proof. vm_compute. reflexivity. Qed.

Lemma ffs_ref_spec n i v : 0 <= i ->
  (ffs_ref n i v = 0 /\ (forall j, i <= j < i + Z.of_nat n -> Z.testbit v j = false)) \/
  (exists k, ffs_ref n i v = k + 1 /\ i <= k < i + Z.of_nat n /\ Z.testbit v k = true /\
     forall j, i <= j < k -> Z.testbit v j = false).
Proof.
  revert i. induction n as [| n IH]; intros i Hi; simpl; [left; split; [done | lia] |].
  destruct (Z.testbit v i) eqn:E.
  - right. exists i. repeat split; lia || done.
  - destruct (IH (i + 1)) as [[H1 H2] | (k & H1 & H2 & H3 & H4)]; [lia | left | right].
    + split; [done |]. intros j Hj. destruct (decide (j = i)) as [-> |]; [done | apply H2; lia].
    + exists k. split; [done |]. split; [lia |]. split; [done |].
      intros j Hj. destruct (decide (j = i)) as [-> |]; [done | apply H4; lia].
Qed.

(** The lowest set bit of a byte. *)
Lemma table_byte v : 0 < v < 256 ->
  exists k, znth __lowest_bit_bitmap v = k /\ 0 <= k < 8 /\ Z.testbit v k = true /\
    forall j, 0 <= j < k -> Z.testbit v j = false.
Proof.
  intros Hv. pose proof lowest_bit_table_correct as H. rewrite forallb_forall in H.
  specialize (H (Z.to_nat v)). rewrite Z2Nat.id in H by lia.
  assert (In (Z.to_nat v) (seq 1 255)) as Hin by (apply in_seq; lia).
  apply H in Hin. apply Z.eqb_eq in Hin.
  destruct (ffs_ref_spec 8 0 v) as [[E Hz] | (k & E & Hk & Hb & Hl)]; [lia | |].
  - exfalso. assert (v = 0); [| lia]. apply Z.bits_inj'. intros j Hj. rewrite Z.bits_0.
    destruct (Z.ltb_spec j 8); [apply Hz; lia |].
    apply Z.bits_above_log2; [lia |]. apply Z.log2_lt_pow2; [lia |].
    apply Z.lt_le_trans with (2 ^ 8); [lia | apply Z.pow_le_mono_r; lia].
  - exists k. split; [lia |]. split; [lia |]. split; [done |]. intros j Hj. apply Hl. lia.
Qed.

(** The byte of [v] at bit position [s]. *)
Lemma byte_at v s j : 0 <= s -> 0 <= j < 8 ->
  Z.testbit (Z.shiftr (Z.land v (Z.shiftl 255 s)) s) j = Z.testbit v (s + j).
Proof.
  intros. rewrite Z.shiftr_spec, Z.land_spec, Z.shiftl_spec by lia.
  replace (j + s - s) with j by lia.
  change 255 with (Z.ones 8). rewrite Z.ones_spec_low by lia.
  rewrite andb_true_r. f_equal. lia.
Qed.

Lemma byte_range v s : 0 <= s -> 0 <= Z.shiftr (Z.land v (Z.shiftl 255 s)) s < 256.
Proof.
  intros. rewrite Z.shiftr_land, Z.shiftr_shiftl_l by lia. rewrite Z.sub_diag, Z.shiftl_0_r.
  change 255 with (Z.ones 8). rewrite Z.land_ones by lia. apply Z.mod_pos_bound. lia.
Qed.

Lemma byte_zero v s : 0 <= s -> (Z.land v (Z.shiftl 255 s) =? 0) = true ->
  forall j, s <= j < s + 8 -> Z.testbit v j = false.
Proof.
  intros Hs H j Hj. apply Z.eqb_eq in H. pose proof (byte_at v s (j - s)) as E.
  rewrite H, Z.shiftr_0_l, Z.bits_0 in E. replace (s + (j - s)) with j in E by lia.
  symmetry. apply E; lia.
Qed.

Lemma byte_nonzero v s : 0 <= s -> (Z.land v (Z.shiftl 255 s) =? 0) = false ->
  0 < Z.shiftr (Z.land v (Z.shiftl 255 s)) s.
Proof.
  intros Hs H. apply Z.eqb_neq in H. pose proof (byte_range v s Hs) as Hr.
  destruct (decide (Z.shiftr (Z.land v (Z.shiftl 255 s)) s = 0)) as [E |]; [| lia].
  exfalso. apply H. apply Z.bits_inj'. intros j Hj. rewrite Z.bits_0, Z.land_spec, Z.shiftl_spec by lia.
  destruct (Z.ltb_spec j s); [rewrite (Z.testbit_neg_r 255) by lia; apply andb_false_r |].
  change 255 with (Z.ones 8). destruct (Z.ltb_spec (j - s) 8).
  - pose proof (byte_at v s (j - s) Hs) as E'. rewrite E, Z.bits_0 in E'.
    replace (s + (j - s)) with j in E' by lia. rewrite <- E' by lia. done.
  - rewrite Z.ones_spec_high by lia. apply andb_false_r.
Qed.

(** The table lookup of one byte answers for the whole word when the bytes
    below it are zero. *)
Lemma ffs_byte v s : 0 <= s -> (Z.land v (Z.shiftl 255 s) =? 0) = false ->
  (forall j, 0 <= j < s -> Z.testbit v j = false) ->
  exists k, znth __lowest_bit_bitmap (Z.shiftr (Z.land v (Z.shiftl 255 s)) s) + s = k /\
    s <= k < s + 8 /\ Z.testbit v k = true /\ forall j, 0 <= j < k -> Z.testbit v j = false.
Proof.
  intros Hs Hnz Hlow.
  destruct (table_byte (Z.shiftr (Z.land v (Z.shiftl 255 s)) s)) as (k & -> & Hk & Hb & Hl).
  { pose proof (byte_nonzero v s Hs Hnz). pose proof (byte_range v s Hs). lia. }
  exists (k + s). split; [lia |]. split; [lia |]. rewrite byte_at in Hb by lia.
  split; [rewrite Z.add_comm; done |]. intros j Hj. destruct (Z.ltb_spec j s); [apply Hlow; lia |].
  specialize (Hl (j - s)). rewrite byte_at in Hl by lia.
  replace (s + (j - s)) with j in Hl by lia. apply Hl. lia.
Qed.

Lemma below_add v s t : (forall j, 0 <= j < s -> Z.testbit v j = false) ->
  (forall j, s <= j < t -> Z.testbit v j = false) -> forall j, 0 <= j < t -> Z.testbit v j = false.
Proof. intros H1 H2 j Hj. destruct (Z.ltb_spec j s); [apply H1 | apply H2]; lia. Qed.

Lemma word_zero v : 0 <= v < 2 ^ 32 -> (forall j, 0 <= j < 32 -> Z.testbit v j = false) -> v = 0.
Proof.
  intros Hv H. apply Z.bits_inj'. intros j Hj. rewrite Z.bits_0.
  destruct (Z.ltb_spec j 32); [apply H; lia |].
  destruct (decide (v = 0)) as [-> |]; [apply Z.bits_0 |].
  apply Z.bits_above_log2; [lia |]. apply Z.log2_lt_pow2; [lia |].
  apply Z.lt_le_trans with (2 ^ 32); [lia | apply Z.pow_le_mono_r; lia].
Qed.

Lemma land_byte0 v : Z.land v 255 = Z.shiftr (Z.land v (Z.shiftl 255 0)) 0.
Proof. done. Qed.

Lemma ffs_least_bit v : 0 <= v < 2 ^ 32 -> v <> 0 ->
  exists k, __rt_ffs v = k + 1 /\ 0 <= k < 32 /\ Z.testbit v k = true /\
    forall j, 0 <= j < k -> Z.testbit v j = false.
Proof.
  intros Hv Hnz. unfold __rt_ffs. rewrite (proj2 (Z.eqb_neq v 0)) by done.
  change 0xff with (Z.shiftl 0xff 0).
  change 0xff00 with (Z.shiftl 255 8). change 0xff0000 with (Z.shiftl 255 16).
  change 0xff000000 with (Z.shiftl 255 24).
  replace (znth __lowest_bit_bitmap (Z.land v (Z.shiftl 255 0)))
    with (znth __lowest_bit_bitmap (Z.shiftr (Z.land v (Z.shiftl 255 0)) 0)) by done.
  assert (forall j, 0 <= j < 0 -> Z.testbit v j = false) as L0 by (intros; lia).
  destruct (Z.land v (Z.shiftl 255 0) =? 0) eqn:E0; simpl negb; cbv iota;
    [| destruct (ffs_byte v 0 ltac:(lia) E0 L0) as (k & Hk & ? & ? & ?); exists k; split; [lia |]; split; [lia |]; split; done].
  pose proof (below_add v 0 8 L0 (byte_zero v 0 ltac:(lia) E0)) as L8.
  destruct (Z.land v (Z.shiftl 255 8) =? 0) eqn:E8; simpl negb; cbv iota;
    [| destruct (ffs_byte v 8 ltac:(lia) E8 L8) as (k & Hk & ? & ? & ?); exists k; split; [lia |]; split; [lia |]; split; done].
  pose proof (below_add v 8 16 L8 (byte_zero v 8 ltac:(lia) E8)) as L16.
  destruct (Z.land v (Z.shiftl 255 16) =? 0) eqn:E16; simpl negb; cbv iota;
    [| destruct (ffs_byte v 16 ltac:(lia) E16 L16) as (k & Hk & ? & ? & ?); exists k; split; [lia |]; split; [lia |]; split; done].
  pose proof (below_add v 16 24 L16 (byte_zero v 16 ltac:(lia) E16)) as L24.
  destruct (Z.land v (Z.shiftl 255 24) =? 0) eqn:E24.
  - exfalso. apply Hnz, word_zero; [done |]. exact (below_add v 24 32 L24 (byte_zero v 24 ltac:(lia) E24)).
  - destruct (ffs_byte v 24 ltac:(lia) E24 L24) as (k & Hk & ? & ? & ?). exists k. split; [lia |]. split; [lia |]. split; done.
Qed.

(** On a non-zero 32-bit value [__rt_ffs] is one plus the index of the least
    significant set bit, and it is 0 on 0. *)
Theorem __rt_ffs_least_bit v : 0 <= v < 2 ^ 32 ->
  __rt_ffs 0 = 0 /\
  (v <> 0 -> exists k, __rt_ffs v = k + 1 /\ 0 <= k < 32 /\ Z.testbit v k = true /\
     forall j, 0 <= j < k -> Z.testbit v j = false).
Proof. intros Hv. split; [done |]. by apply ffs_least_bit. Qed.

(** ** Strings and memory areas *)

(** The C string held in the first [n] bytes of a buffer. *)
Fixpoint cname (n : nat) (s : list Z) : list Z :=
  match n, s with
  | S n, c :: s => if c =? 0 then [] else c :: cname n s
  | _, _ => []
  end.

Definition bytes (l : list Z) : Prop := Forall (fun c => 0 <= c < 256) l.

(** Reading [s] as a string of at most [n] bytes stays inside the buffer: it
    is long enough or holds a terminating zero. *)
Definition readable (n : nat) (s : list Z) : Prop := (n <= length s)%nat \/ 0 ∈ s.

Lemma readable_S n i s : readable (S n) (drop i s) ->
  exists a, s !! i = Some a /\ drop i s = a :: drop (S i) s /\
    (a <> 0 -> readable n (drop (S i) s)).
Proof.
  intros H. destruct (s !! i) as [a |] eqn:E.
  - exists a. pose proof (drop_S s a i E) as Hd. split; [done |]. split; [done |]. intros Ha.
    rewrite Hd in H. destruct H as [H | H]; [left; simpl in H; lia | right].
    apply elem_of_cons in H as [|]; [congruence | done].
  - apply lookup_ge_None in E. rewrite drop_ge in H by lia. destruct H as [H | H]; [simpl in H; lia |].
    by apply elem_of_nil in H.
Qed.

Lemma zget_nat l k x : l !! k = Some x -> zget l (Z.of_nat k) = Some x.
Proof.
  intros H. pose proof (lookup_lt_Some _ _ _ H). unfold zget.
  replace ((0 <=? Z.of_nat k) && (Z.of_nat k <? zlen l)) with true by lia.
  by rewrite Nat2Z.id.
Qed.

Lemma zset_nat l k v : (k < length l)%nat -> zset l (Z.of_nat k) v = Some (<[k := v]> l).
Proof.
  intros H. unfold zset. replace ((0 <=? Z.of_nat k) && (Z.of_nat k <? zlen l)) with true by lia.
  by rewrite Nat2Z.id.
Qed.

Lemma byte_diff a b : 0 <= a < 256 -> 0 <= b < 256 -> (swrap 8 (a - b) =? 0) = (a =? b).
Proof.
  intros. unfold swrap. change (2 ^ (8 - 1)) with 128. change (2 ^ 8) with 256.
  destruct (Z.eqb_spec a b) as [-> |]; [rewrite Z.sub_diag; done |]. apply Z.eqb_neq.
  destruct (Z.ltb_spec (a - b) (-128)).
  - rewrite <- (Z.mod_add _ 1 256), Z.mod_small by lia. lia.
  - destruct (Z.ltb_spec (a - b) 128); [rewrite Z.mod_small by lia; lia |].
    rewrite <- (Z.mod_add _ (-1) 256), Z.mod_small by lia. lia.
Qed.

Lemma strncmp_loop_spec n i cs ct res :
  bytes cs -> bytes ct -> readable n (drop i cs) -> readable n (drop i ct) ->
  (n = O -> res = 0) ->
  exists r, strncmp_loop n cs (Z.of_nat i) ct res = Some r /\
    (r = 0 <-> cname n (drop i cs) = cname n (drop i ct)).
Proof.
  intros Hb1 Hb2. revert i res.
  induction n as [| n IH]; intros i res H1 H2 Hres; [exists res; simpl; naive_solver |].
  destruct (readable_S _ _ _ H1) as (a & Ha & -> & Hra).
  destruct (readable_S _ _ _ H2) as (b & Hb & -> & Hrb).
  simpl. rewrite (zget_nat _ _ _ Ha), (zget_nat _ _ _ Hb). simpl.
  assert (0 <= a < 256 /\ 0 <= b < 256) as [Ra Rb].
  { split; [apply (Forall_lookup_1 _ _ _ _ Hb1 Ha) | apply (Forall_lookup_1 _ _ _ _ Hb2 Hb)]. }
  pose proof (byte_diff a b Ra Rb) as Hd. rewrite Hd.
  destruct (Z.eqb_spec a b) as [-> | Hne]; simpl.
  - destruct (Z.eqb_spec b 0) as [-> |]; simpl; [exists 0; rewrite Z.sub_diag; done |].
    replace (Z.of_nat i + 1) with (Z.of_nat (S i)) by lia.
    destruct (IH (S i) (swrap 8 (b - b))) as (r & -> & Hr); [auto | auto | rewrite Z.sub_diag; done |].
    exists r. split; [done |]. rewrite Hr. split; congruence.
  - eexists. split; [reflexivity |]. split; [intros E; rewrite E in Hd; done |].
    destruct (Z.eqb_spec a 0), (Z.eqb_spec b 0); try congruence.
Qed.

Lemma strncmp_spec cs ct count :
  bytes cs -> bytes ct -> readable count cs -> readable count ct ->
  exists r, rt_strncmp cs ct count = Some r /\ (r = 0 <-> cname count cs = cname count ct).
Proof. intros. apply (strncmp_loop_spec count 0 cs ct 0); done. Qed.

(** When both strings are readable over [count] bytes, [rt_strncmp] reads inside
    them and answers 0 exactly when the C strings agree over [count] bytes; the
    signed-char truncation of the difference does not affect that answer. *)
Theorem rt_strncmp_zero_iff cs ct count :
  bytes cs -> bytes ct -> readable count cs -> readable count ct ->
  exists r, rt_strncmp cs ct count = Some r /\ (r = 0 <-> cname count cs = cname count ct).
Proof. apply strncmp_spec. Qed.

(** A store extends the prefix already written. *)
Lemma insert_prefix (dst : list Z) i n v : (i < length dst)%nat ->
  take (S i) (<[i:=v]> dst) = take i dst ++ [v] /\
  drop (S i + n) (<[i:=v]> dst) = drop (i + S n) dst.
Proof.
  intros H. rewrite insert_take_drop by lia. split.
  - rewrite take_app_ge, length_take_le by (rewrite ?length_take; lia).
    replace (S i - i)%nat with 1%nat by lia. simpl. rewrite take_0. done.
  - rewrite drop_app_ge, length_take_le by (rewrite ?length_take; lia).
    replace (S i + n - i)%nat with (S n) by lia. simpl. rewrite drop_drop. f_equal. lia.
Qed.

Lemma strncpy_pad_spec n i dst : (i + n <= length dst)%nat ->
  strncpy_pad n dst (Z.of_nat i) = Some (take i dst ++ replicate n 0 ++ drop (i + n) dst).
Proof.
  revert i dst. induction n as [| n IH]; intros i dst H; simpl.
  - rewrite Nat.add_0_r, take_drop. done.
  - rewrite zset_nat by lia. simpl. replace (Z.of_nat i + 1) with (Z.of_nat (S i)) by lia.
    rewrite IH by (rewrite length_insert; lia).
    destruct (insert_prefix dst i n 0) as [-> ->]; [lia |]. rewrite <- app_assoc. done.
Qed.

Lemma strncpy_loop_spec n i dst src :
  (i + n <= length dst)%nat -> readable n (drop i src) ->
  strncpy_loop n dst (Z.of_nat i) src (Z.of_nat i) =
    Some (take i dst ++ cname n (drop i src)
      ++ replicate (n - length (cname n (drop i src))) 0 ++ drop (i + n) dst).
Proof.
  revert i dst. induction n as [| n IH]; intros i dst H Hs.
  - simpl. rewrite Nat.add_0_r, take_drop. done.
  - destruct (readable_S _ _ _ Hs) as (a & Ha & -> & Hra). simpl.
    rewrite (zget_nat _ _ _ Ha). simpl.
    rewrite zset_nat by lia. simpl. replace (Z.of_nat i + 1) with (Z.of_nat (S i)) by lia.
    destruct (insert_prefix dst i n a) as [Et Ed]; [lia |].
    destruct (Z.eqb_spec a 0) as [-> |]; simpl.
    + rewrite strncpy_pad_spec by (rewrite length_insert; lia).
      rewrite Et, Ed, <- app_assoc. done.
    + rewrite IH by (rewrite ?length_insert; auto; lia). rewrite Et, Ed, <- app_assoc. done.
Qed.

Lemma cname_length n s : (length (cname n s) <= n)%nat.
Proof.
  revert s. induction n as [| n IH]; intros [| c s]; simpl; try lia.
  destruct (c =? 0); simpl; [lia |]. specialize (IH s). lia.
Qed.

Lemma cname_padded n s k : cname n (cname n s ++ replicate (n - length (cname n s)) 0 ++ k) = cname n s.
Proof.
  revert s. induction n as [| n IH]; intros [| c s]; simpl; try done.
  destruct (Z.eqb_spec c 0); simpl; [done |]. rewrite (proj2 (Z.eqb_neq c 0)) by done. by rewrite IH.
Qed.

Lemma cname_bytes n s : bytes s -> bytes (cname n s).
Proof.
  revert s. induction n as [| n IH]; intros [| c s] H; simpl; try constructor.
  apply Forall_cons in H as [Hc H]. destruct (c =? 0); constructor; [done | by apply IH].
Qed.

(** [rt_strncpy] writes exactly the first [n] bytes of the destination: the C
    string of the source, cut at [n], then zeros; the copy compares equal to the
    source under [rt_strncmp] over [n] bytes. *)
Theorem rt_strncpy_roundtrip dst src n :
  bytes dst -> bytes src -> (n <= length dst)%nat -> readable n src ->
  exists dst', rt_strncpy dst src n = Some dst' /\
    dst' = cname n src ++ replicate (n - length (cname n src)) 0 ++ drop n dst /\
    rt_strncmp dst' src n = Some 0.
Proof.
  intros Hd Hs Hn Hr. eexists. split; [| split; [reflexivity |]].
  - unfold rt_strncpy. apply (strncpy_loop_spec n 0 dst src); [lia | done].
  - edestruct (strncmp_loop_spec n 0
      (cname n src ++ replicate (n - length (cname n src)) 0 ++ drop n dst) src 0)
      as (r & E & Hr0); try done.
    + apply Forall_app. split; [by apply cname_bytes |]. apply Forall_app.
      split; [apply Forall_replicate; lia | by apply Forall_drop].
    + left. rewrite drop_0, !length_app, length_replicate, length_drop. pose proof (cname_length n src). lia.
    + unfold rt_strncmp. rewrite !drop_0, cname_padded in Hr0.
      rewrite (proj2 Hr0 eq_refl) in E. exact E.
Qed.

(** One backward or forward step extends the part of [mem] already moved. *)
Lemma memmove_back_spec n mem d s :
  (s < d)%nat -> (d + n <= length mem)%nat ->
  exists mem', memmove_back n mem (Z.of_nat (d + n)) (Z.of_nat (s + n)) = Some mem' /\
    length mem' = length mem /\
    forall j, mem' !! j = if decide (d <= j < d + n)%nat then mem !! (s + (j - d))%nat else mem !! j.
Proof.
  revert mem. induction n as [| n IH]; intros mem Hlt Hl.
  - exists mem. simpl. split; [done |]. split; [done |]. intros j. case_decide; [lia | done].
  - simpl. destruct (lookup_lt_is_Some_2 mem (s + n)%nat) as [c Hc]; [lia |].
    replace (Z.of_nat (s + S n) - 1) with (Z.of_nat (s + n)) by lia.
    replace (Z.of_nat (d + S n) - 1) with (Z.of_nat (d + n)) by lia.
    rewrite (zget_nat _ _ _ Hc). simpl. rewrite zset_nat by lia. simpl.
    destruct (IH (<[(d + n)%nat := c]> mem)) as (mem' & E & Hlen & Hj); [lia | rewrite length_insert; lia |].
    exists mem'. split; [exact E |]. rewrite length_insert in Hlen. split; [done |].
    intros j. rewrite Hj.
    destruct (decide (j = d + n)%nat) as [-> |].
    + rewrite decide_False, decide_True by lia. rewrite list_lookup_insert_eq by lia.
      rewrite <- Hc. f_equal. lia.
    + repeat case_decide; try lia; rewrite list_lookup_insert_ne by lia; done.
Qed.

Lemma memmove_fwd_spec n mem d s :
  (d <= s \/ s + n <= d)%nat -> (s + n <= length mem)%nat -> (d + n <= length mem)%nat ->
  exists mem', memmove_fwd n mem (Z.of_nat d) (Z.of_nat s) = Some mem' /\
    length mem' = length mem /\
    forall j, mem' !! j = if decide (d <= j < d + n)%nat then mem !! (s + (j - d))%nat else mem !! j.
Proof.
  revert mem d s. induction n as [| n IH]; intros mem d s Hov Hs Hl.
  - exists mem. simpl. split; [done |]. split; [done |]. intros j. case_decide; [lia | done].
  - simpl. destruct (lookup_lt_is_Some_2 mem s) as [c Hc]; [lia |].
    rewrite (zget_nat _ _ _ Hc). simpl. rewrite zset_nat by lia. simpl.
    replace (Z.of_nat d + 1) with (Z.of_nat (S d)) by lia.
    replace (Z.of_nat s + 1) with (Z.of_nat (S s)) by lia.
    destruct (IH (<[d := c]> mem) (S d) (S s)) as (mem' & E & Hlen & Hj);
      [lia | rewrite length_insert; lia | rewrite length_insert; lia |].
    exists mem'. split; [exact E |]. rewrite length_insert in Hlen. split; [done |].
    intros j. rewrite Hj.
    destruct (decide (j = d)) as [-> |].
    + rewrite decide_False, decide_True by lia. rewrite list_lookup_insert_eq by lia.
      rewrite <- Hc. f_equal. lia.
    + repeat case_decide; try lia; rewrite list_lookup_insert_ne by lia; f_equal; lia.
Qed.

(** [rt_memmove] moves [n] bytes correctly for every placement of the two areas,
    overlapping either way: the destination receives the bytes the source held
    before the call, and no other byte changes. *)
Theorem rt_memmove_overlap mem dest src n :
  (dest + n <= length mem)%nat -> (src + n <= length mem)%nat ->
  rt_memmove mem (Z.of_nat dest) (Z.of_nat src) n =
  memcpy mem (Z.of_nat dest) mem (Z.of_nat src) (Z.of_nat n).
Proof.
  intros Hd Hs.
  assert (exists mem', rt_memmove mem (Z.of_nat dest) (Z.of_nat src) n = Some mem' /\
    length mem' = length mem /\
    forall j, mem' !! j = if decide (dest <= j < dest + n)%nat
      then mem !! (src + (j - dest))%nat else mem !! j) as (mem' & E & Hlen & Hj).
  { unfold rt_memmove. destruct (_ && _) eqn:Eb.
    - rewrite <- !Nat2Z.inj_add. apply memmove_back_spec; lia.
    - apply memmove_fwd_spec; lia. }
  rewrite E. destruct (memcpy_Some mem (Z.of_nat dest) mem (Z.of_nat src) (Z.of_nat n))
    as (mem2 & -> & Hlen2 & Hj2); try lia.
  f_equal. apply list_eq_znth; [lia |]. intros i Hi. rewrite Hj2 by lia.
  unfold znth. rewrite !nth_lookup, Hj. case_decide.
  - replace ((Z.of_nat dest <=? i) && (i <? Z.of_nat dest + Z.of_nat n)) with true by lia.
    do 2 f_equal. lia.
  - replace ((Z.of_nat dest <=? i) && (i <? Z.of_nat dest + Z.of_nat n)) with false by lia. done.
Qed.

Lemma strnlen_over s i fuel :
  (length s < fuel + i)%nat -> Forall (fun c => c <> 0) s -> (i <= length s)%nat ->
  strnlen_loop fuel s (Z.of_nat i) (zlen s) = None.
Proof.
  intros Hf Hnz. revert i Hf. induction fuel as [| fuel IH]; intros i Hf Hi; [done |]. simpl.
  destruct (s !! i) as [c |] eqn:E.
  - rewrite (zget_nat _ _ _ E). simpl. pose proof (lookup_lt_Some _ _ _ E).
    pose proof (Forall_lookup_1 _ _ _ _ Hnz E).
    rewrite (proj2 (Z.eqb_neq c 0)) by done. replace (Z.of_nat i <? zlen s) with true by lia. simpl.
    replace (Z.of_nat i + 1) with (Z.of_nat (S i)) by lia. apply IH; lia.
  - apply lookup_ge_None in E. unfold zget.
    replace ((0 <=? Z.of_nat i) && (Z.of_nat i <? zlen s)) with false by lia. done.
Qed.

Lemma strnlen_loop_spec fuel i s maxlen :
  (length s < fuel + i)%nat -> Z.of_nat i <= maxlen -> 0 ∈ drop i s ->
  strnlen_loop fuel s (Z.of_nat i) maxlen =
    Some (Z.of_nat (i + length (cname (Z.to_nat (maxlen - Z.of_nat i)) (drop i s)))).
Proof.
  revert i. induction fuel as [| fuel IH]; intros i Hf Hm H0.
  - rewrite drop_ge in H0 by lia. by apply elem_of_nil in H0.
  - destruct (readable_S 0 i s) as (c & Hc & Hd & _); [by right |].
    simpl. rewrite (zget_nat _ _ _ Hc). simpl.
    rewrite Hd in H0 |- *. destruct (Z.ltb_spec (Z.of_nat i) maxlen).
    + replace (Z.to_nat (maxlen - Z.of_nat i)) with (S (Z.to_nat (maxlen - Z.of_nat (S i)))) by lia.
      simpl. destruct (Z.eqb_spec c 0) as [-> |]; simpl; [f_equal; lia |].
      replace (Z.of_nat i + 1) with (Z.of_nat (S i)) by lia. rewrite IH; [f_equal; lia | lia | lia |].
      apply elem_of_cons in H0 as [|]; [congruence | done].
    + rewrite andb_false_r. replace (Z.to_nat (maxlen - Z.of_nat i)) with O by lia. simpl. f_equal. lia.
Qed.

(** The bound of [rt_strnlen] is tested after the byte is read: on a buffer
    of exactly [maxlen] non-zero bytes it reads the byte past the end, although its
    comment promises never to look beyond [s + maxlen]; with a terminator
    inside the buffer the result is the length of the string, at most [maxlen]. *)
Theorem rt_strnlen_overread s maxlen :
  (Forall (fun c => c <> 0) s -> maxlen = zlen s -> rt_strnlen s maxlen = None) /\
  (0 <= maxlen -> 0 ∈ s ->
     rt_strnlen s maxlen = Some (Z.of_nat (length (cname (Z.to_nat maxlen) s)))).
Proof.
  split.
  - intros Hnz ->. apply (strnlen_over _ 0); [lia | done | lia].
  - intros Hm H0. unfold rt_strnlen. rewrite (strnlen_loop_spec _ 0 s maxlen); [| lia | lia | done].
    rewrite drop_0, Z.sub_0_r. done.
Qed.

Lemma strlen_loop_spec fuel i s :
  (length s < fuel + i)%nat -> 0 ∈ drop i s ->
  strlen_loop fuel s (Z.of_nat i) =
    Some (Z.of_nat (i + length (cname (length (drop i s)) (drop i s)))).
Proof.
  revert i. induction fuel as [| fuel IH]; intros i Hf H0.
  - rewrite drop_ge in H0 by lia. by apply elem_of_nil in H0.
  - destruct (readable_S 0 i s) as (c & Hc & Hd & _); [by right |].
    simpl. rewrite (zget_nat _ _ _ Hc). simpl. rewrite Hd in H0 |- *. simpl.
    destruct (Z.eqb_spec c 0) as [-> |]; simpl; [f_equal; lia |].
    replace (Z.of_nat i + 1) with (Z.of_nat (S i)) by lia. rewrite IH; [f_equal; lia | lia |].
    apply elem_of_cons in H0 as [|]; [congruence | done].
Qed.

(** The string of a buffer is its prefix before the first zero. *)
Lemma cname_take n s :
  cname n s = take (n `min` length (cname (length s) s)) s.
Proof.
  revert n. induction s as [| c s IH]; intros [| n]; simpl; try done.
  destruct (c =? 0); simpl; [by rewrite ?Nat.min_0_r |]. rewrite IH. done.
Qed.

Lemma cname_prefix len s k d :
  (len <= length (cname (length s) s))%nat -> cname (S len + k) (take len s ++ 0 :: d) = take len s.
Proof.
  revert len k. induction s as [| c s IH]; intros [| len] k H; simpl in *; try done; try lia.
  destruct (c =? 0) eqn:E; simpl in *; [lia |]. rewrite ?E. f_equal. apply (IH len k). lia.
Qed.

(** [rt_strlcpy] returns the length of the source string and, for a non-zero
    [size], leaves in the destination the source string cut to [size - 1] bytes and
    terminated, whatever the source length: it never writes past [size] bytes. *)
Theorem rt_strlcpy_bounded dest src size :
  0 < size <= zlen dest -> 0 ∈ src ->
  exists dest', rt_strlcpy dest src size = Some (Z.of_nat (length (cname (length src) src)), dest') /\
    drop (Z.to_nat size) dest' = drop (Z.to_nat size) dest /\
    cname (length dest') dest' = cname (Z.to_nat (size - 1)) src.
Proof.
  intros Hs H0. unfold rt_strlcpy, rt_strlen.
  rewrite (strlen_loop_spec _ 0 src) by (rewrite ?drop_0; first [lia | done]). rewrite drop_0. simpl.
  set (L := length (cname (length src) src)).
  assert (L <= length src)%nat as HL by apply cname_length.
  replace (size =? 0) with false by lia. simpl.
  set (len := if size <=? Z.of_nat L then size - 1 else Z.of_nat L).
  assert (len = Z.of_nat (Z.to_nat (size - 1) `min` L)) as Hlen.
  { unfold len. destruct (Z.leb_spec size (Z.of_nat L)); lia. }
  rewrite Hlen. set (k := (Z.to_nat (size - 1) `min` L)%nat) in *.
  unfold memcpy. replace (_ && _) with true by lia. rewrite !Nat2Z.id. simpl.
  change (Z.to_nat 0) with O. rewrite drop_0, Z.add_0_l, Nat2Z.id.
  rewrite zset_nat by (rewrite length_app, length_take, length_drop; lia). simpl.
  eexists. split; [reflexivity |].
  assert (length (take k src) = k) as Hk by (rewrite length_take; lia).
  rewrite insert_app_r_alt, Hk by lia.
  rewrite Nat.sub_diag. destruct (drop k dest) as [| x d] eqn:Ed;
    [apply (f_equal length) in Ed; rewrite length_drop in Ed; simpl in Ed; lia |]. simpl.
  assert (d = drop (S k) dest) as -> by (replace (S k) with (k + 1)%nat by lia; rewrite <- (drop_drop dest 1 k), Ed; done).
  split.
  - rewrite drop_app_ge, Hk by lia.
    destruct (Z.to_nat size - k)%nat eqn:En; [lia |]. simpl. rewrite drop_drop. f_equal. lia.
  - rewrite length_app, Hk. simpl.
    rewrite Nat.add_succ_r, <- Nat.add_succ_l, cname_prefix by lia.
    rewrite (cname_take (Z.to_nat (size - 1))). done.
Qed.

(** ** Witnesses *)

Lemma __rt_ffs_least_bit_witness : __rt_ffs 0 = 0 /\ __rt_ffs 0x28000 = 16.
Proof.
  destruct (__rt_ffs_least_bit 0x28000 ltac:(lia)) as [H0 H]. split; [exact H0 |].
  destruct (H ltac:(lia)) as (k & -> & Hk & Hb & Hl). pose proof (Hl 15) as E.
  assert (15 < k -> False) by (intros; assert (0 <= 15 < k) as L by lia; apply E in L; discriminate).
  assert (k <> 0 /\ k <> 1 /\ k <> 2 /\ k <> 3 /\ k <> 4 /\ k <> 5 /\ k <> 6 /\ k <> 7 /\ k <> 8 /\ k <> 9 /\
    k <> 10 /\ k <> 11 /\ k <> 12 /\ k <> 13 /\ k <> 14) by (repeat split; intros ->; discriminate).
  lia.
Defined.

Lemma rt_strncmp_zero_iff_witness :
  exists r, rt_strncmp [116; 49; 0; 7] [116; 49; 0] 16 = Some r /\
    (r = 0 <-> cname 16 [116; 49; 0; 7] = cname 16 [116; 49; 0]).
Proof.
  apply rt_strncmp_zero_iff.
  - repeat constructor; discriminate.
  - repeat constructor; discriminate.
  - right. do 2 apply list_elem_of_further. apply list_elem_of_here.
  - right. do 2 apply list_elem_of_further. apply list_elem_of_here.
Defined.

Lemma rt_strncpy_roundtrip_witness :
  exists dst', rt_strncpy [1; 2; 3; 4; 5] [116; 49; 0] 4 = Some dst' /\
    dst' = [116; 49; 0; 0; 5] /\ rt_strncmp dst' [116; 49; 0] 4 = Some 0.
Proof.
  apply (rt_strncpy_roundtrip [1; 2; 3; 4; 5] [116; 49; 0] 4).
  - repeat constructor; discriminate.
  - repeat constructor; discriminate.
  - simpl. lia.
  - right. do 2 apply list_elem_of_further. apply list_elem_of_here.
Defined.

Lemma rt_memmove_overlap_witness :
  rt_memmove [1; 2; 3; 4; 5] 1 0 3 = Some [1; 1; 2; 3; 5].
Proof. etransitivity; [apply (rt_memmove_overlap [1; 2; 3; 4; 5] 1 0 3); simpl; lia | reflexivity]. Defined.

Lemma rt_strnlen_overread_witness :
  rt_strnlen [65; 66; 67] 3 = None /\ rt_strnlen [65; 66; 0] 8 = Some 2.
Proof.
  split.
  - apply (rt_strnlen_overread [65; 66; 67] 3); [repeat constructor; discriminate | reflexivity].
  - apply (rt_strnlen_overread [65; 66; 0] 8); [lia |].
    do 2 apply list_elem_of_further. apply list_elem_of_here.
Defined.

Lemma rt_strlcpy_bounded_witness :
  exists dest', rt_strlcpy [9; 9; 9; 9] [65; 66; 67; 68; 0] 3 = Some (4, dest') /\
    drop 3 dest' = [9] /\ cname (length dest') dest' = [65; 66].
Proof.
  apply (rt_strlcpy_bounded [9; 9; 9; 9] [65; 66; 67; 68; 0] 3); [simpl; lia |].
  do 4 apply list_elem_of_further. apply list_elem_of_here.
Defined.

End Kservice.
