(* ===== verification/KernelTypes.v ===== *)
(** * Kernel data: [src/kernel/include/rtdef.h]

    The constants and structures of the kernel, and the state of the kernel
    core: the object containers of object.c, the ready queues of scheduler.c,
    the timer lists of timer.c, the tick of clock.c, the defunct list of idle.c
    and the objects of ipc.c.  A routine is a function of the state monad [K];
    it answers [None] where the program stops in [RT_ASSERT], in the stack
    overflow loop of the scheduler, or reads outside an array.

    Memory is a total map from object addresses to field values: like the C
    program, a routine can be given an address where no object lives; the
    [type] field tells.  The lists that link [tlist] nodes are given by their
    heads, in order ([RtList] relates them to the pointer structure). *)

From S2P Require Import Prelude.

Local Open Scope Z_scope.

(** ** Constants *)

Definition RT_NAME_MAX : nat := 16.
Definition RT_THREAD_PRIORITY_MAX : Z := 256.
Definition RT_TICK_MAX : Z := 0xffffffff.
Definition RT_TICK_PER_SECOND : Z := 100.
Definition RT_TIMER_SKIP_LIST_LEVEL : nat := 1.
Definition RT_TIMER_SKIP_LIST_MASK : Z := 0x3.

Definition RT_EOK : Z := 0.
Definition RT_ERROR : Z := 1.
Definition RT_ETIMEOUT : Z := 2.
Definition RT_EFULL : Z := 3.
Definition RT_EEMPTY : Z := 4.
Definition RT_ENOMEM : Z := 5.
Definition RT_EBUSY : Z := 7.
Definition RT_EINTR : Z := 9.

(** [enum rt_object_class_type] *)
Definition RT_Object_Class_Null : Z := 0.
Definition RT_Object_Class_Thread : Z := 1.
Definition RT_Object_Class_Semaphore : Z := 2.
Definition RT_Object_Class_Mutex : Z := 3.
Definition RT_Object_Class_Event : Z := 4.
Definition RT_Object_Class_MailBox : Z := 5.
Definition RT_Object_Class_MessageQueue : Z := 6.
Definition RT_Object_Class_MemHeap : Z := 7.
Definition RT_Object_Class_MemPool : Z := 8.
Definition RT_Object_Class_Device : Z := 9.
Definition RT_Object_Class_Timer : Z := 10.
Definition RT_Object_Class_Unknown : Z := 12.
Definition RT_Object_Class_Static : Z := 0x80.

Definition RT_TIMER_FLAG_DEACTIVATED : Z := 0x0.
Definition RT_TIMER_FLAG_ACTIVATED : Z := 0x1.
Definition RT_TIMER_FLAG_ONE_SHOT : Z := 0x0.
Definition RT_TIMER_FLAG_PERIODIC : Z := 0x2.
Definition RT_TIMER_FLAG_SOFT_TIMER : Z := 0x4.

Definition RT_THREAD_INIT : Z := 0.
Definition RT_THREAD_READY : Z := 1.
Definition RT_THREAD_SUSPEND : Z := 2.
Definition RT_THREAD_RUNNING : Z := 3.
Definition RT_THREAD_CLOSE : Z := 4.
Definition RT_THREAD_STAT_MASK : Z := 7.

Definition RT_IPC_FLAG_FIFO : Z := 0.
Definition RT_IPC_FLAG_PRIO : Z := 1.
Definition RT_IPC_CMD_RESET : Z := 1.

Definition RT_EVENT_FLAG_AND : Z := 1.
Definition RT_EVENT_FLAG_OR : Z := 2.
Definition RT_EVENT_FLAG_CLEAR : Z := 4.

(** [b & flag] tested as a C condition *)
Definition flag_set (b flag : Z) : bool := negb (Z.land b flag =? 0).

(** [b & ~flag] on a [w]-bit object *)
Definition clear_bits (w b flag : Z) : Z := wrap w (Z.land b (Z.lnot flag)).

(** [RT_ALIGN(size, RT_ALIGN_SIZE)] and [RT_ALIGN_DOWN(size, RT_ALIGN_SIZE)] on a
    32-bit size *)
Definition RT_ALIGN4 (size : Z) : Z := Z.land (u32 (size + 4 - 1)) (Z.lnot 3).
Definition RT_ALIGN_DOWN4 (size : Z) : Z := Z.land size (Z.lnot 3).

(** ** Addresses *)

(** An object address: an object of its own, or the [thread_timer] field of a thread. *)
Inductive ptr :=
  | Obj (n : nat)
  | ThreadTimer (t : nat).

(** The heads of the lists that link [tlist] nodes: the ready list of a
    priority, [suspend_thread] and [suspend_sender_thread] of an IPC object, the
    defunct list. *)
Inductive lhead :=
  | LReady (p : Z)
  | LSuspend (n : nat)
  | LSender (n : nat)
  | LDefunct.

#[export] Instance ptr_eq_dec : EqDecision ptr.
Proof. solve_decision. Defined.
#[export] Instance lhead_eq_dec : EqDecision lhead.
Proof. solve_decision. Defined.

(** Timeout functions: [rt_thread_timeout], or a function of a driver or application. *)
Inductive timeout_fn :=
  | FnThreadTimeout
  | FnUser (f : Z).

(** ** Structures *)

Record rt_object := Object {
  o_name : list Z;  (* RT_NAME_MAX bytes *)
  o_type : Z;  (* rt_uint8_t, 0 when the object is not initialised *)
  o_flag : Z  (* rt_uint8_t *)
}.

Definition set_o_name (v : list Z) (r : rt_object) : rt_object :=
  Object v (o_type r) (o_flag r).
Definition set_o_type (v : Z) (r : rt_object) : rt_object :=
  Object (o_name r) v (o_flag r).
Definition set_o_flag (v : Z) (r : rt_object) : rt_object :=
  Object (o_name r) (o_type r) v.

Record rt_timer := Timer {
  tm_timeout_func : timeout_fn;
  tm_parameter : Z;
  tm_init_tick : Z;
  tm_timeout_tick : Z
}.

Definition set_tm_timeout_func (v : timeout_fn) (r : rt_timer) : rt_timer :=
  Timer v (tm_parameter r) (tm_init_tick r) (tm_timeout_tick r).
Definition set_tm_parameter (v : Z) (r : rt_timer) : rt_timer :=
  Timer (tm_timeout_func r) v (tm_init_tick r) (tm_timeout_tick r).
Definition set_tm_init_tick (v : Z) (r : rt_timer) : rt_timer :=
  Timer (tm_timeout_func r) (tm_parameter r) v (tm_timeout_tick r).
Definition set_tm_timeout_tick (v : Z) (r : rt_timer) : rt_timer :=
  Timer (tm_timeout_func r) (tm_parameter r) (tm_init_tick r) v.

Record rt_thread := Thread {
  th_entry : Z;
  th_parameter : Z;
  th_sp : Z;
  th_stack_addr : Z;
  th_stack_size : Z;
  th_guard : Z;  (* the byte at stack_addr *)
  th_error : Z;  (* rt_err_t *)
  th_stat : Z;  (* rt_uint8_t *)
  th_current_priority : Z;  (* rt_uint8_t *)
  th_init_priority : Z;  (* rt_uint8_t *)
  th_number : Z;  (* rt_uint8_t *)
  th_high_mask : Z;  (* rt_uint8_t *)
  th_number_mask : Z;  (* rt_uint32_t *)
  th_event_set : Z;  (* rt_uint32_t *)
  th_event_info : Z;  (* rt_uint8_t *)
  th_init_tick : Z;  (* rt_ubase_t *)
  th_remaining_tick : Z;  (* rt_ubase_t *)
  th_cleanup : option Z;  (* cleanup function *)
  th_lock : option nat;  (* the semaphore of the thread *)
  th_total_ticks : Z;
  th_enter_times : Z;
  th_user_data : Z
}.

Definition set_th_entry (v : Z) (r : rt_thread) : rt_thread :=
  Thread v (th_parameter r) (th_sp r) (th_stack_addr r) (th_stack_size r) (th_guard r) (th_error r) (th_stat r) (th_current_priority r) (th_init_priority r) (th_number r) (th_high_mask r) (th_number_mask r) (th_event_set r) (th_event_info r) (th_init_tick r) (th_remaining_tick r) (th_cleanup r) (th_lock r) (th_total_ticks r) (th_enter_times r) (th_user_data r).
Definition set_th_parameter (v : Z) (r : rt_thread) : rt_thread :=
  Thread (th_entry r) v (th_sp r) (th_stack_addr r) (th_stack_size r) (th_guard r) (th_error r) (th_stat r) (th_current_priority r) (th_init_priority r) (th_number r) (th_high_mask r) (th_number_mask r) (th_event_set r) (th_event_info r) (th_init_tick r) (th_remaining_tick r) (th_cleanup r) (th_lock r) (th_total_ticks r) (th_enter_times r) (th_user_data r).
Definition set_th_sp (v : Z) (r : rt_thread) : rt_thread :=
  Thread (th_entry r) (th_parameter r) v (th_stack_addr r) (th_stack_size r) (th_guard r) (th_error r) (th_stat r) (th_current_priority r) (th_init_priority r) (th_number r) (th_high_mask r) (th_number_mask r) (th_event_set r) (th_event_info r) (th_init_tick r) (th_remaining_tick r) (th_cleanup r) (th_lock r) (th_total_ticks r) (th_enter_times r) (th_user_data r).
Definition set_th_stack_addr (v : Z) (r : rt_thread) : rt_thread :=
  Thread (th_entry r) (th_parameter r) (th_sp r) v (th_stack_size r) (th_guard r) (th_error r) (th_stat r) (th_current_priority r) (th_init_priority r) (th_number r) (th_high_mask r) (th_number_mask r) (th_event_set r) (th_event_info r) (th_init_tick r) (th_remaining_tick r) (th_cleanup r) (th_lock r) (th_total_ticks r) (th_enter_times r) (th_user_data r).
Definition set_th_stack_size (v : Z) (r : rt_thread) : rt_thread :=
  Thread (th_entry r) (th_parameter r) (th_sp r) (th_stack_addr r) v (th_guard r) (th_error r) (th_stat r) (th_current_priority r) (th_init_priority r) (th_number r) (th_high_mask r) (th_number_mask r) (th_event_set r) (th_event_info r) (th_init_tick r) (th_remaining_tick r) (th_cleanup r) (th_lock r) (th_total_ticks r) (th_enter_times r) (th_user_data r).
Definition set_th_guard (v : Z) (r : rt_thread) : rt_thread :=
  Thread (th_entry r) (th_parameter r) (th_sp r) (th_stack_addr r) (th_stack_size r) v (th_error r) (th_stat r) (th_current_priority r) (th_init_priority r) (th_number r) (th_high_mask r) (th_number_mask r) (th_event_set r) (th_event_info r) (th_init_tick r) (th_remaining_tick r) (th_cleanup r) (th_lock r) (th_total_ticks r) (th_enter_times r) (th_user_data r).
Definition set_th_error (v : Z) (r : rt_thread) : rt_thread :=
  Thread (th_entry r) (th_parameter r) (th_sp r) (th_stack_addr r) (th_stack_size r) (th_guard r) v (th_stat r) (th_current_priority r) (th_init_priority r) (th_number r) (th_high_mask r) (th_number_mask r) (th_event_set r) (th_event_info r) (th_init_tick r) (th_remaining_tick r) (th_cleanup r) (th_lock r) (th_total_ticks r) (th_enter_times r) (th_user_data r).
Definition set_th_stat (v : Z) (r : rt_thread) : rt_thread :=
  Thread (th_entry r) (th_parameter r) (th_sp r) (th_stack_addr r) (th_stack_size r) (th_guard r) (th_error r) v (th_current_priority r) (th_init_priority r) (th_number r) (th_high_mask r) (th_number_mask r) (th_event_set r) (th_event_info r) (th_init_tick r) (th_remaining_tick r) (th_cleanup r) (th_lock r) (th_total_ticks r) (th_enter_times r) (th_user_data r).
Definition set_th_current_priority (v : Z) (r : rt_thread) : rt_thread :=
  Thread (th_entry r) (th_parameter r) (th_sp r) (th_stack_addr r) (th_stack_size r) (th_guard r) (th_error r) (th_stat r) v (th_init_priority r) (th_number r) (th_high_mask r) (th_number_mask r) (th_event_set r) (th_event_info r) (th_init_tick r) (th_remaining_tick r) (th_cleanup r) (th_lock r) (th_total_ticks r) (th_enter_times r) (th_user_data r).
Definition set_th_init_priority (v : Z) (r : rt_thread) : rt_thread :=
  Thread (th_entry r) (th_parameter r) (th_sp r) (th_stack_addr r) (th_stack_size r) (th_guard r) (th_error r) (th_stat r) (th_current_priority r) v (th_number r) (th_high_mask r) (th_number_mask r) (th_event_set r) (th_event_info r) (th_init_tick r) (th_remaining_tick r) (th_cleanup r) (th_lock r) (th_total_ticks r) (th_enter_times r) (th_user_data r).
Definition set_th_number (v : Z) (r : rt_thread) : rt_thread :=
  Thread (th_entry r) (th_parameter r) (th_sp r) (th_stack_addr r) (th_stack_size r) (th_guard r) (th_error r) (th_stat r) (th_current_priority r) (th_init_priority r) v (th_high_mask r) (th_number_mask r) (th_event_set r) (th_event_info r) (th_init_tick r) (th_remaining_tick r) (th_cleanup r) (th_lock r) (th_total_ticks r) (th_enter_times r) (th_user_data r).
Definition set_th_high_mask (v : Z) (r : rt_thread) : rt_thread :=
  Thread (th_entry r) (th_parameter r) (th_sp r) (th_stack_addr r) (th_stack_size r) (th_guard r) (th_error r) (th_stat r) (th_current_priority r) (th_init_priority r) (th_number r) v (th_number_mask r) (th_event_set r) (th_event_info r) (th_init_tick r) (th_remaining_tick r) (th_cleanup r) (th_lock r) (th_total_ticks r) (th_enter_times r) (th_user_data r).
Definition set_th_number_mask (v : Z) (r : rt_thread) : rt_thread :=
  Thread (th_entry r) (th_parameter r) (th_sp r) (th_stack_addr r) (th_stack_size r) (th_guard r) (th_error r) (th_stat r) (th_current_priority r) (th_init_priority r) (th_number r) (th_high_mask r) v (th_event_set r) (th_event_info r) (th_init_tick r) (th_remaining_tick r) (th_cleanup r) (th_lock r) (th_total_ticks r) (th_enter_times r) (th_user_data r).
Definition set_th_event_set (v : Z) (r : rt_thread) : rt_thread :=
  Thread (th_entry r) (th_parameter r) (th_sp r) (th_stack_addr r) (th_stack_size r) (th_guard r) (th_error r) (th_stat r) (th_current_priority r) (th_init_priority r) (th_number r) (th_high_mask r) (th_number_mask r) v (th_event_info r) (th_init_tick r) (th_remaining_tick r) (th_cleanup r) (th_lock r) (th_total_ticks r) (th_enter_times r) (th_user_data r).
Definition set_th_event_info (v : Z) (r : rt_thread) : rt_thread :=
  Thread (th_entry r) (th_parameter r) (th_sp r) (th_stack_addr r) (th_stack_size r) (th_guard r) (th_error r) (th_stat r) (th_current_priority r) (th_init_priority r) (th_number r) (th_high_mask r) (th_number_mask r) (th_event_set r) v (th_init_tick r) (th_remaining_tick r) (th_cleanup r) (th_lock r) (th_total_ticks r) (th_enter_times r) (th_user_data r).
Definition set_th_init_tick (v : Z) (r : rt_thread) : rt_thread :=
  Thread (th_entry r) (th_parameter r) (th_sp r) (th_stack_addr r) (th_stack_size r) (th_guard r) (th_error r) (th_stat r) (th_current_priority r) (th_init_priority r) (th_number r) (th_high_mask r) (th_number_mask r) (th_event_set r) (th_event_info r) v (th_remaining_tick r) (th_cleanup r) (th_lock r) (th_total_ticks r) (th_enter_times r) (th_user_data r).
Definition set_th_remaining_tick (v : Z) (r : rt_thread) : rt_thread :=
  Thread (th_entry r) (th_parameter r) (th_sp r) (th_stack_addr r) (th_stack_size r) (th_guard r) (th_error r) (th_stat r) (th_current_priority r) (th_init_priority r) (th_number r) (th_high_mask r) (th_number_mask r) (th_event_set r) (th_event_info r) (th_init_tick r) v (th_cleanup r) (th_lock r) (th_total_ticks r) (th_enter_times r) (th_user_data r).
Definition set_th_cleanup (v : option Z) (r : rt_thread) : rt_thread :=
  Thread (th_entry r) (th_parameter r) (th_sp r) (th_stack_addr r) (th_stack_size r) (th_guard r) (th_error r) (th_stat r) (th_current_priority r) (th_init_priority r) (th_number r) (th_high_mask r) (th_number_mask r) (th_event_set r) (th_event_info r) (th_init_tick r) (th_remaining_tick r) v (th_lock r) (th_total_ticks r) (th_enter_times r) (th_user_data r).
Definition set_th_lock (v : option nat) (r : rt_thread) : rt_thread :=
  Thread (th_entry r) (th_parameter r) (th_sp r) (th_stack_addr r) (th_stack_size r) (th_guard r) (th_error r) (th_stat r) (th_current_priority r) (th_init_priority r) (th_number r) (th_high_mask r) (th_number_mask r) (th_event_set r) (th_event_info r) (th_init_tick r) (th_remaining_tick r) (th_cleanup r) v (th_total_ticks r) (th_enter_times r) (th_user_data r).
Definition set_th_total_ticks (v : Z) (r : rt_thread) : rt_thread :=
  Thread (th_entry r) (th_parameter r) (th_sp r) (th_stack_addr r) (th_stack_size r) (th_guard r) (th_error r) (th_stat r) (th_current_priority r) (th_init_priority r) (th_number r) (th_high_mask r) (th_number_mask r) (th_event_set r) (th_event_info r) (th_init_tick r) (th_remaining_tick r) (th_cleanup r) (th_lock r) v (th_enter_times r) (th_user_data r).
Definition set_th_enter_times (v : Z) (r : rt_thread) : rt_thread :=
  Thread (th_entry r) (th_parameter r) (th_sp r) (th_stack_addr r) (th_stack_size r) (th_guard r) (th_error r) (th_stat r) (th_current_priority r) (th_init_priority r) (th_number r) (th_high_mask r) (th_number_mask r) (th_event_set r) (th_event_info r) (th_init_tick r) (th_remaining_tick r) (th_cleanup r) (th_lock r) (th_total_ticks r) v (th_user_data r).
Definition set_th_user_data (v : Z) (r : rt_thread) : rt_thread :=
  Thread (th_entry r) (th_parameter r) (th_sp r) (th_stack_addr r) (th_stack_size r) (th_guard r) (th_error r) (th_stat r) (th_current_priority r) (th_init_priority r) (th_number r) (th_high_mask r) (th_number_mask r) (th_event_set r) (th_event_info r) (th_init_tick r) (th_remaining_tick r) (th_cleanup r) (th_lock r) (th_total_ticks r) (th_enter_times r) v.

Record rt_mutex := Mutex {
  mx_value : Z;  (* rt_uint16_t *)
  mx_original_priority : Z;  (* rt_uint8_t *)
  mx_hold : Z;  (* rt_uint8_t *)
  mx_owner : option nat
}.

Definition set_mx_value (v : Z) (r : rt_mutex) : rt_mutex :=
  Mutex v (mx_original_priority r) (mx_hold r) (mx_owner r).
Definition set_mx_original_priority (v : Z) (r : rt_mutex) : rt_mutex :=
  Mutex (mx_value r) v (mx_hold r) (mx_owner r).
Definition set_mx_hold (v : Z) (r : rt_mutex) : rt_mutex :=
  Mutex (mx_value r) (mx_original_priority r) v (mx_owner r).
Definition set_mx_owner (v : option nat) (r : rt_mutex) : rt_mutex :=
  Mutex (mx_value r) (mx_original_priority r) (mx_hold r) v.

Record rt_mailbox := Mailbox {
  mb_msg_pool : list Z;  (* words of the pool *)
  mb_size : Z;  (* rt_uint16_t *)
  mb_entry : Z;  (* rt_uint16_t *)
  mb_in_offset : Z;  (* rt_uint16_t *)
  mb_out_offset : Z  (* rt_uint16_t *)
}.

Definition set_mb_msg_pool (v : list Z) (r : rt_mailbox) : rt_mailbox :=
  Mailbox v (mb_size r) (mb_entry r) (mb_in_offset r) (mb_out_offset r).
Definition set_mb_size (v : Z) (r : rt_mailbox) : rt_mailbox :=
  Mailbox (mb_msg_pool r) v (mb_entry r) (mb_in_offset r) (mb_out_offset r).
Definition set_mb_entry (v : Z) (r : rt_mailbox) : rt_mailbox :=
  Mailbox (mb_msg_pool r) (mb_size r) v (mb_in_offset r) (mb_out_offset r).
Definition set_mb_in_offset (v : Z) (r : rt_mailbox) : rt_mailbox :=
  Mailbox (mb_msg_pool r) (mb_size r) (mb_entry r) v (mb_out_offset r).
Definition set_mb_out_offset (v : Z) (r : rt_mailbox) : rt_mailbox :=
  Mailbox (mb_msg_pool r) (mb_size r) (mb_entry r) (mb_in_offset r) v.

Record rt_messagequeue := MessageQueue {
  mq_next : nat -> option nat;  (* next field of each message block *)
  mq_data : nat -> list Z;  (* bytes after each header *)
  mq_msg_size : Z;  (* rt_uint16_t *)
  mq_max_msgs : Z;  (* rt_uint16_t *)
  mq_entry : Z;  (* rt_uint16_t *)
  mq_queue_head : option nat;
  mq_queue_tail : option nat;
  mq_queue_free : option nat
}.

Definition set_mq_next (v : nat -> option nat) (r : rt_messagequeue) : rt_messagequeue :=
  MessageQueue v (mq_data r) (mq_msg_size r) (mq_max_msgs r) (mq_entry r) (mq_queue_head r) (mq_queue_tail r) (mq_queue_free r).
Definition set_mq_data (v : nat -> list Z) (r : rt_messagequeue) : rt_messagequeue :=
  MessageQueue (mq_next r) v (mq_msg_size r) (mq_max_msgs r) (mq_entry r) (mq_queue_head r) (mq_queue_tail r) (mq_queue_free r).
Definition set_mq_msg_size (v : Z) (r : rt_messagequeue) : rt_messagequeue :=
  MessageQueue (mq_next r) (mq_data r) v (mq_max_msgs r) (mq_entry r) (mq_queue_head r) (mq_queue_tail r) (mq_queue_free r).
Definition set_mq_max_msgs (v : Z) (r : rt_messagequeue) : rt_messagequeue :=
  MessageQueue (mq_next r) (mq_data r) (mq_msg_size r) v (mq_entry r) (mq_queue_head r) (mq_queue_tail r) (mq_queue_free r).
Definition set_mq_entry (v : Z) (r : rt_messagequeue) : rt_messagequeue :=
  MessageQueue (mq_next r) (mq_data r) (mq_msg_size r) (mq_max_msgs r) v (mq_queue_head r) (mq_queue_tail r) (mq_queue_free r).
Definition set_mq_queue_head (v : option nat) (r : rt_messagequeue) : rt_messagequeue :=
  MessageQueue (mq_next r) (mq_data r) (mq_msg_size r) (mq_max_msgs r) (mq_entry r) v (mq_queue_tail r) (mq_queue_free r).
Definition set_mq_queue_tail (v : option nat) (r : rt_messagequeue) : rt_messagequeue :=
  MessageQueue (mq_next r) (mq_data r) (mq_msg_size r) (mq_max_msgs r) (mq_entry r) (mq_queue_head r) v (mq_queue_free r).
Definition set_mq_queue_free (v : option nat) (r : rt_messagequeue) : rt_messagequeue :=
  MessageQueue (mq_next r) (mq_data r) (mq_msg_size r) (mq_max_msgs r) (mq_entry r) (mq_queue_head r) (mq_queue_tail r) v.

(** A word of memory: an address, or the pointer to a memory pool that an
    allocated block carries. *)
Inductive word :=
  | WAddr (a : Z)
  | WPool (m : nat).

Record rt_mempool := Mempool {
  mp_size : Z;  (* rt_size_t *)
  mp_block_size : Z;  (* rt_size_t *)
  mp_start_address : Z;
  mp_block_list : Z;  (* address of the first free block, 0 when there is none *)
  mp_block_total_count : Z;
  mp_block_free_count : Z;
  mp_suspend_thread_count : Z
}.

Definition set_mp_size (v : Z) (r : rt_mempool) : rt_mempool :=
  Mempool v (mp_block_size r) (mp_start_address r) (mp_block_list r) (mp_block_total_count r) (mp_block_free_count r) (mp_suspend_thread_count r).
Definition set_mp_block_size (v : Z) (r : rt_mempool) : rt_mempool :=
  Mempool (mp_size r) v (mp_start_address r) (mp_block_list r) (mp_block_total_count r) (mp_block_free_count r) (mp_suspend_thread_count r).
Definition set_mp_start_address (v : Z) (r : rt_mempool) : rt_mempool :=
  Mempool (mp_size r) (mp_block_size r) v (mp_block_list r) (mp_block_total_count r) (mp_block_free_count r) (mp_suspend_thread_count r).
Definition set_mp_block_list (v : Z) (r : rt_mempool) : rt_mempool :=
  Mempool (mp_size r) (mp_block_size r) (mp_start_address r) v (mp_block_total_count r) (mp_block_free_count r) (mp_suspend_thread_count r).
Definition set_mp_block_total_count (v : Z) (r : rt_mempool) : rt_mempool :=
  Mempool (mp_size r) (mp_block_size r) (mp_start_address r) (mp_block_list r) v (mp_block_free_count r) (mp_suspend_thread_count r).
Definition set_mp_block_free_count (v : Z) (r : rt_mempool) : rt_mempool :=
  Mempool (mp_size r) (mp_block_size r) (mp_start_address r) (mp_block_list r) (mp_block_total_count r) v (mp_suspend_thread_count r).
Definition set_mp_suspend_thread_count (v : Z) (r : rt_mempool) : rt_mempool :=
  Mempool (mp_size r) (mp_block_size r) (mp_start_address r) (mp_block_list r) (mp_block_total_count r) (mp_block_free_count r) v.

(** [struct rt_memheap_item]; a null pointer is 0. *)
Record rt_memheap_item := MemheapItem {
  mi_magic : Z;  (* rt_uint32_t *)
  mi_pool_ptr : nat;
  mi_next : Z;
  mi_prev : Z;
  mi_next_free : Z;
  mi_prev_free : Z
}.

Definition set_mi_magic (v : Z) (r : rt_memheap_item) : rt_memheap_item :=
  MemheapItem v (mi_pool_ptr r) (mi_next r) (mi_prev r) (mi_next_free r) (mi_prev_free r).
Definition set_mi_pool_ptr (v : nat) (r : rt_memheap_item) : rt_memheap_item :=
  MemheapItem (mi_magic r) v (mi_next r) (mi_prev r) (mi_next_free r) (mi_prev_free r).
Definition set_mi_next (v : Z) (r : rt_memheap_item) : rt_memheap_item :=
  MemheapItem (mi_magic r) (mi_pool_ptr r) v (mi_prev r) (mi_next_free r) (mi_prev_free r).
Definition set_mi_prev (v : Z) (r : rt_memheap_item) : rt_memheap_item :=
  MemheapItem (mi_magic r) (mi_pool_ptr r) (mi_next r) v (mi_next_free r) (mi_prev_free r).
Definition set_mi_next_free (v : Z) (r : rt_memheap_item) : rt_memheap_item :=
  MemheapItem (mi_magic r) (mi_pool_ptr r) (mi_next r) (mi_prev r) v (mi_prev_free r).
Definition set_mi_prev_free (v : Z) (r : rt_memheap_item) : rt_memheap_item :=
  MemheapItem (mi_magic r) (mi_pool_ptr r) (mi_next r) (mi_prev r) (mi_next_free r) v.

(** [struct rt_memheap]; the addresses of its [free_header] and its [lock] are
    parameters of the operations. *)
Record rt_memheap := Memheap {
  mh_start_addr : Z;
  mh_pool_size : Z;  (* rt_uint32_t *)
  mh_available_size : Z;  (* rt_uint32_t *)
  mh_max_used_size : Z;  (* rt_uint32_t *)
  mh_block_list : Z;
  mh_free_list : Z
}.

Definition set_mh_start_addr (v : Z) (r : rt_memheap) : rt_memheap :=
  Memheap v (mh_pool_size r) (mh_available_size r) (mh_max_used_size r) (mh_block_list r) (mh_free_list r).
Definition set_mh_pool_size (v : Z) (r : rt_memheap) : rt_memheap :=
  Memheap (mh_start_addr r) v (mh_available_size r) (mh_max_used_size r) (mh_block_list r) (mh_free_list r).
Definition set_mh_available_size (v : Z) (r : rt_memheap) : rt_memheap :=
  Memheap (mh_start_addr r) (mh_pool_size r) v (mh_max_used_size r) (mh_block_list r) (mh_free_list r).
Definition set_mh_max_used_size (v : Z) (r : rt_memheap) : rt_memheap :=
  Memheap (mh_start_addr r) (mh_pool_size r) (mh_available_size r) v (mh_block_list r) (mh_free_list r).
Definition set_mh_block_list (v : Z) (r : rt_memheap) : rt_memheap :=
  Memheap (mh_start_addr r) (mh_pool_size r) (mh_available_size r) (mh_max_used_size r) v (mh_free_list r).
Definition set_mh_free_list (v : Z) (r : rt_memheap) : rt_memheap :=
  Memheap (mh_start_addr r) (mh_pool_size r) (mh_available_size r) (mh_max_used_size r) (mh_block_list r) v.

(** [dq_items] is the array of [struct rt_data_item]: data pointer and size. *)
Record rt_data_queue := DataQueue {
  dq_size : Z;  (* rt_uint16_t *)
  dq_lwm : Z;  (* rt_uint16_t *)
  dq_get_index : Z;  (* rt_uint16_t *)
  dq_put_index : Z;  (* rt_uint16_t *)
  dq_items : list (Z * Z);
  dq_evt_notify : option Z
}.

Definition set_dq_size (v : Z) (r : rt_data_queue) : rt_data_queue :=
  DataQueue v (dq_lwm r) (dq_get_index r) (dq_put_index r) (dq_items r) (dq_evt_notify r).
Definition set_dq_lwm (v : Z) (r : rt_data_queue) : rt_data_queue :=
  DataQueue (dq_size r) v (dq_get_index r) (dq_put_index r) (dq_items r) (dq_evt_notify r).
Definition set_dq_get_index (v : Z) (r : rt_data_queue) : rt_data_queue :=
  DataQueue (dq_size r) (dq_lwm r) v (dq_put_index r) (dq_items r) (dq_evt_notify r).
Definition set_dq_put_index (v : Z) (r : rt_data_queue) : rt_data_queue :=
  DataQueue (dq_size r) (dq_lwm r) (dq_get_index r) v (dq_items r) (dq_evt_notify r).
Definition set_dq_items (v : list (Z * Z)) (r : rt_data_queue) : rt_data_queue :=
  DataQueue (dq_size r) (dq_lwm r) (dq_get_index r) (dq_put_index r) v (dq_evt_notify r).
Definition set_dq_evt_notify (v : option Z) (r : rt_data_queue) : rt_data_queue :=
  DataQueue (dq_size r) (dq_lwm r) (dq_get_index r) (dq_put_index r) (dq_items r) v.

Record rt_wqueue_node := WqueueNode {
  wn_polling_thread : nat;
  wn_wakeup : option Z;  (* None: __wqueue_default_wake *)
  wn_key : Z  (* rt_uint32_t *)
}.

Definition set_wn_polling_thread (v : nat) (r : rt_wqueue_node) : rt_wqueue_node :=
  WqueueNode v (wn_wakeup r) (wn_key r).
Definition set_wn_wakeup (v : option Z) (r : rt_wqueue_node) : rt_wqueue_node :=
  WqueueNode (wn_polling_thread r) v (wn_key r).
Definition set_wn_key (v : Z) (r : rt_wqueue_node) : rt_wqueue_node :=
  WqueueNode (wn_polling_thread r) (wn_wakeup r) v.

Record rt_wqueue := Wqueue {
  wq_flag : Z;  (* rt_uint32_t *)
  wq_waiting_list : list nat  (* wait nodes *)
}.

Definition set_wq_flag (v : Z) (r : rt_wqueue) : rt_wqueue :=
  Wqueue v (wq_waiting_list r).
Definition set_wq_waiting_list (v : list nat) (r : rt_wqueue) : rt_wqueue :=
  Wqueue (wq_flag r) v.

Record rt_workqueue := Workqueue {
  wk_work_list : list nat;  (* works *)
  wk_work_current : option nat;
  wk_work_thread : nat
}.

Definition set_wk_work_list (v : list nat) (r : rt_workqueue) : rt_workqueue :=
  Workqueue v (wk_work_current r) (wk_work_thread r).
Definition set_wk_work_current (v : option nat) (r : rt_workqueue) : rt_workqueue :=
  Workqueue (wk_work_list r) v (wk_work_thread r).
Definition set_wk_work_thread (v : nat) (r : rt_workqueue) : rt_workqueue :=
  Workqueue (wk_work_list r) (wk_work_current r) v.

(** The objects of the components above the kernel core. *)
Record xstate := XState {
  x_word : Z -> word;  (* words of memory *)
  x_mp : nat -> rt_mempool;
  x_item : Z -> rt_memheap_item;
  x_mh : nat -> rt_memheap;
  x_cpl : nat -> Z;  (* completion flag, rt_uint32_t *)
  x_dq : nat -> rt_data_queue;
  x_wnode : nat -> rt_wqueue_node;
  x_wq : nat -> rt_wqueue;
  x_wk : nat -> rt_workqueue
}.

Definition set_x_word (v : Z -> word) (r : xstate) : xstate :=
  XState v (x_mp r) (x_item r) (x_mh r) (x_cpl r) (x_dq r) (x_wnode r) (x_wq r) (x_wk r).
Definition set_x_mp (v : nat -> rt_mempool) (r : xstate) : xstate :=
  XState (x_word r) v (x_item r) (x_mh r) (x_cpl r) (x_dq r) (x_wnode r) (x_wq r) (x_wk r).
Definition set_x_item (v : Z -> rt_memheap_item) (r : xstate) : xstate :=
  XState (x_word r) (x_mp r) v (x_mh r) (x_cpl r) (x_dq r) (x_wnode r) (x_wq r) (x_wk r).
Definition set_x_mh (v : nat -> rt_memheap) (r : xstate) : xstate :=
  XState (x_word r) (x_mp r) (x_item r) v (x_cpl r) (x_dq r) (x_wnode r) (x_wq r) (x_wk r).
Definition set_x_cpl (v : nat -> Z) (r : xstate) : xstate :=
  XState (x_word r) (x_mp r) (x_item r) (x_mh r) v (x_dq r) (x_wnode r) (x_wq r) (x_wk r).
Definition set_x_dq (v : nat -> rt_data_queue) (r : xstate) : xstate :=
  XState (x_word r) (x_mp r) (x_item r) (x_mh r) (x_cpl r) v (x_wnode r) (x_wq r) (x_wk r).
Definition set_x_wnode (v : nat -> rt_wqueue_node) (r : xstate) : xstate :=
  XState (x_word r) (x_mp r) (x_item r) (x_mh r) (x_cpl r) (x_dq r) v (x_wq r) (x_wk r).
Definition set_x_wq (v : nat -> rt_wqueue) (r : xstate) : xstate :=
  XState (x_word r) (x_mp r) (x_item r) (x_mh r) (x_cpl r) (x_dq r) (x_wnode r) v (x_wk r).
Definition set_x_wk (v : nat -> rt_workqueue) (r : xstate) : xstate :=
  XState (x_word r) (x_mp r) (x_item r) (x_mh r) (x_cpl r) (x_dq r) (x_wnode r) (x_wq r) v.

(** The kernel state. *)
Record kstate := KState {
  k_obj : ptr -> rt_object;
  k_cont : Z -> list ptr;  (* object_list of each container *)
  k_thr : nat -> rt_thread;
  k_tmr : ptr -> rt_timer;
  k_sem : nat -> Z;  (* semaphore value, rt_uint16_t *)
  k_mtx : nat -> rt_mutex;
  k_evt : nat -> Z;  (* event set, rt_uint32_t *)
  k_mb : nat -> rt_mailbox;
  k_mq : nat -> rt_messagequeue;
  k_lists : lhead -> list nat;  (* lists that link tlist nodes *)
  k_ready_table : list Z;  (* rt_thread_ready_table *)
  k_ready_group : Z;  (* rt_thread_ready_priority_group *)
  k_current : option nat;  (* rt_current_thread *)
  k_current_priority : Z;  (* rt_current_priority *)
  k_lock_nest : Z;  (* rt_scheduler_lock_nest, rt_int16_t *)
  k_interrupt_nest : Z;  (* rt_interrupt_nest *)
  k_tick : Z;  (* rt_tick *)
  k_tick_uptime : Z;  (* rt_tick_uptime *)
  k_timer_list : list (list ptr);  (* rt_timer_list: the row[] lists *)
  k_soft_timer_list : list (list ptr);  (* rt_soft_timer_list *)
  k_random_nr : Z;  (* random_nr of rt_timer_start *)
  k_pts : Z;  (* hardware time stamp *)
  k_idl_total_ticks : Z;  (* __idl_total_ticks *)
  k_prev_calc_ticks : Z;  (* __prev_calc_ticks *)
  k_next : nat;  (* address of the next allocation *)
  k_oom : nat -> bool;  (* which allocations fail *)
  k_ext : xstate  (* the components above the core *)
}.

Definition set_k_obj (v : ptr -> rt_object) (r : kstate) : kstate :=
  KState v (k_cont r) (k_thr r) (k_tmr r) (k_sem r) (k_mtx r) (k_evt r) (k_mb r) (k_mq r) (k_lists r) (k_ready_table r) (k_ready_group r) (k_current r) (k_current_priority r) (k_lock_nest r) (k_interrupt_nest r) (k_tick r) (k_tick_uptime r) (k_timer_list r) (k_soft_timer_list r) (k_random_nr r) (k_pts r) (k_idl_total_ticks r) (k_prev_calc_ticks r) (k_next r) (k_oom r) (k_ext r).
Definition set_k_cont (v : Z -> list ptr) (r : kstate) : kstate :=
  KState (k_obj r) v (k_thr r) (k_tmr r) (k_sem r) (k_mtx r) (k_evt r) (k_mb r) (k_mq r) (k_lists r) (k_ready_table r) (k_ready_group r) (k_current r) (k_current_priority r) (k_lock_nest r) (k_interrupt_nest r) (k_tick r) (k_tick_uptime r) (k_timer_list r) (k_soft_timer_list r) (k_random_nr r) (k_pts r) (k_idl_total_ticks r) (k_prev_calc_ticks r) (k_next r) (k_oom r) (k_ext r).
Definition set_k_thr (v : nat -> rt_thread) (r : kstate) : kstate :=
  KState (k_obj r) (k_cont r) v (k_tmr r) (k_sem r) (k_mtx r) (k_evt r) (k_mb r) (k_mq r) (k_lists r) (k_ready_table r) (k_ready_group r) (k_current r) (k_current_priority r) (k_lock_nest r) (k_interrupt_nest r) (k_tick r) (k_tick_uptime r) (k_timer_list r) (k_soft_timer_list r) (k_random_nr r) (k_pts r) (k_idl_total_ticks r) (k_prev_calc_ticks r) (k_next r) (k_oom r) (k_ext r).
Definition set_k_tmr (v : ptr -> rt_timer) (r : kstate) : kstate :=
  KState (k_obj r) (k_cont r) (k_thr r) v (k_sem r) (k_mtx r) (k_evt r) (k_mb r) (k_mq r) (k_lists r) (k_ready_table r) (k_ready_group r) (k_current r) (k_current_priority r) (k_lock_nest r) (k_interrupt_nest r) (k_tick r) (k_tick_uptime r) (k_timer_list r) (k_soft_timer_list r) (k_random_nr r) (k_pts r) (k_idl_total_ticks r) (k_prev_calc_ticks r) (k_next r) (k_oom r) (k_ext r).
Definition set_k_sem (v : nat -> Z) (r : kstate) : kstate :=
  KState (k_obj r) (k_cont r) (k_thr r) (k_tmr r) v (k_mtx r) (k_evt r) (k_mb r) (k_mq r) (k_lists r) (k_ready_table r) (k_ready_group r) (k_current r) (k_current_priority r) (k_lock_nest r) (k_interrupt_nest r) (k_tick r) (k_tick_uptime r) (k_timer_list r) (k_soft_timer_list r) (k_random_nr r) (k_pts r) (k_idl_total_ticks r) (k_prev_calc_ticks r) (k_next r) (k_oom r) (k_ext r).
Definition set_k_mtx (v : nat -> rt_mutex) (r : kstate) : kstate :=
  KState (k_obj r) (k_cont r) (k_thr r) (k_tmr r) (k_sem r) v (k_evt r) (k_mb r) (k_mq r) (k_lists r) (k_ready_table r) (k_ready_group r) (k_current r) (k_current_priority r) (k_lock_nest r) (k_interrupt_nest r) (k_tick r) (k_tick_uptime r) (k_timer_list r) (k_soft_timer_list r) (k_random_nr r) (k_pts r) (k_idl_total_ticks r) (k_prev_calc_ticks r) (k_next r) (k_oom r) (k_ext r).
Definition set_k_evt (v : nat -> Z) (r : kstate) : kstate :=
  KState (k_obj r) (k_cont r) (k_thr r) (k_tmr r) (k_sem r) (k_mtx r) v (k_mb r) (k_mq r) (k_lists r) (k_ready_table r) (k_ready_group r) (k_current r) (k_current_priority r) (k_lock_nest r) (k_interrupt_nest r) (k_tick r) (k_tick_uptime r) (k_timer_list r) (k_soft_timer_list r) (k_random_nr r) (k_pts r) (k_idl_total_ticks r) (k_prev_calc_ticks r) (k_next r) (k_oom r) (k_ext r).
Definition set_k_mb (v : nat -> rt_mailbox) (r : kstate) : kstate :=
  KState (k_obj r) (k_cont r) (k_thr r) (k_tmr r) (k_sem r) (k_mtx r) (k_evt r) v (k_mq r) (k_lists r) (k_ready_table r) (k_ready_group r) (k_current r) (k_current_priority r) (k_lock_nest r) (k_interrupt_nest r) (k_tick r) (k_tick_uptime r) (k_timer_list r) (k_soft_timer_list r) (k_random_nr r) (k_pts r) (k_idl_total_ticks r) (k_prev_calc_ticks r) (k_next r) (k_oom r) (k_ext r).
Definition set_k_mq (v : nat -> rt_messagequeue) (r : kstate) : kstate :=
  KState (k_obj r) (k_cont r) (k_thr r) (k_tmr r) (k_sem r) (k_mtx r) (k_evt r) (k_mb r) v (k_lists r) (k_ready_table r) (k_ready_group r) (k_current r) (k_current_priority r) (k_lock_nest r) (k_interrupt_nest r) (k_tick r) (k_tick_uptime r) (k_timer_list r) (k_soft_timer_list r) (k_random_nr r) (k_pts r) (k_idl_total_ticks r) (k_prev_calc_ticks r) (k_next r) (k_oom r) (k_ext r).
Definition set_k_lists (v : lhead -> list nat) (r : kstate) : kstate :=
  KState (k_obj r) (k_cont r) (k_thr r) (k_tmr r) (k_sem r) (k_mtx r) (k_evt r) (k_mb r) (k_mq r) v (k_ready_table r) (k_ready_group r) (k_current r) (k_current_priority r) (k_lock_nest r) (k_interrupt_nest r) (k_tick r) (k_tick_uptime r) (k_timer_list r) (k_soft_timer_list r) (k_random_nr r) (k_pts r) (k_idl_total_ticks r) (k_prev_calc_ticks r) (k_next r) (k_oom r) (k_ext r).
Definition set_k_ready_table (v : list Z) (r : kstate) : kstate :=
  KState (k_obj r) (k_cont r) (k_thr r) (k_tmr r) (k_sem r) (k_mtx r) (k_evt r) (k_mb r) (k_mq r) (k_lists r) v (k_ready_group r) (k_current r) (k_current_priority r) (k_lock_nest r) (k_interrupt_nest r) (k_tick r) (k_tick_uptime r) (k_timer_list r) (k_soft_timer_list r) (k_random_nr r) (k_pts r) (k_idl_total_ticks r) (k_prev_calc_ticks r) (k_next r) (k_oom r) (k_ext r).
Definition set_k_ready_group (v : Z) (r : kstate) : kstate :=
  KState (k_obj r) (k_cont r) (k_thr r) (k_tmr r) (k_sem r) (k_mtx r) (k_evt r) (k_mb r) (k_mq r) (k_lists r) (k_ready_table r) v (k_current r) (k_current_priority r) (k_lock_nest r) (k_interrupt_nest r) (k_tick r) (k_tick_uptime r) (k_timer_list r) (k_soft_timer_list r) (k_random_nr r) (k_pts r) (k_idl_total_ticks r) (k_prev_calc_ticks r) (k_next r) (k_oom r) (k_ext r).
Definition set_k_current (v : option nat) (r : kstate) : kstate :=
  KState (k_obj r) (k_cont r) (k_thr r) (k_tmr r) (k_sem r) (k_mtx r) (k_evt r) (k_mb r) (k_mq r) (k_lists r) (k_ready_table r) (k_ready_group r) v (k_current_priority r) (k_lock_nest r) (k_interrupt_nest r) (k_tick r) (k_tick_uptime r) (k_timer_list r) (k_soft_timer_list r) (k_random_nr r) (k_pts r) (k_idl_total_ticks r) (k_prev_calc_ticks r) (k_next r) (k_oom r) (k_ext r).
Definition set_k_current_priority (v : Z) (r : kstate) : kstate :=
  KState (k_obj r) (k_cont r) (k_thr r) (k_tmr r) (k_sem r) (k_mtx r) (k_evt r) (k_mb r) (k_mq r) (k_lists r) (k_ready_table r) (k_ready_group r) (k_current r) v (k_lock_nest r) (k_interrupt_nest r) (k_tick r) (k_tick_uptime r) (k_timer_list r) (k_soft_timer_list r) (k_random_nr r) (k_pts r) (k_idl_total_ticks r) (k_prev_calc_ticks r) (k_next r) (k_oom r) (k_ext r).
Definition set_k_lock_nest (v : Z) (r : kstate) : kstate :=
  KState (k_obj r) (k_cont r) (k_thr r) (k_tmr r) (k_sem r) (k_mtx r) (k_evt r) (k_mb r) (k_mq r) (k_lists r) (k_ready_table r) (k_ready_group r) (k_current r) (k_current_priority r) v (k_interrupt_nest r) (k_tick r) (k_tick_uptime r) (k_timer_list r) (k_soft_timer_list r) (k_random_nr r) (k_pts r) (k_idl_total_ticks r) (k_prev_calc_ticks r) (k_next r) (k_oom r) (k_ext r).
Definition set_k_interrupt_nest (v : Z) (r : kstate) : kstate :=
  KState (k_obj r) (k_cont r) (k_thr r) (k_tmr r) (k_sem r) (k_mtx r) (k_evt r) (k_mb r) (k_mq r) (k_lists r) (k_ready_table r) (k_ready_group r) (k_current r) (k_current_priority r) (k_lock_nest r) v (k_tick r) (k_tick_uptime r) (k_timer_list r) (k_soft_timer_list r) (k_random_nr r) (k_pts r) (k_idl_total_ticks r) (k_prev_calc_ticks r) (k_next r) (k_oom r) (k_ext r).
Definition set_k_tick (v : Z) (r : kstate) : kstate :=
  KState (k_obj r) (k_cont r) (k_thr r) (k_tmr r) (k_sem r) (k_mtx r) (k_evt r) (k_mb r) (k_mq r) (k_lists r) (k_ready_table r) (k_ready_group r) (k_current r) (k_current_priority r) (k_lock_nest r) (k_interrupt_nest r) v (k_tick_uptime r) (k_timer_list r) (k_soft_timer_list r) (k_random_nr r) (k_pts r) (k_idl_total_ticks r) (k_prev_calc_ticks r) (k_next r) (k_oom r) (k_ext r).
Definition set_k_tick_uptime (v : Z) (r : kstate) : kstate :=
  KState (k_obj r) (k_cont r) (k_thr r) (k_tmr r) (k_sem r) (k_mtx r) (k_evt r) (k_mb r) (k_mq r) (k_lists r) (k_ready_table r) (k_ready_group r) (k_current r) (k_current_priority r) (k_lock_nest r) (k_interrupt_nest r) (k_tick r) v (k_timer_list r) (k_soft_timer_list r) (k_random_nr r) (k_pts r) (k_idl_total_ticks r) (k_prev_calc_ticks r) (k_next r) (k_oom r) (k_ext r).
Definition set_k_timer_list (v : list (list ptr)) (r : kstate) : kstate :=
  KState (k_obj r) (k_cont r) (k_thr r) (k_tmr r) (k_sem r) (k_mtx r) (k_evt r) (k_mb r) (k_mq r) (k_lists r) (k_ready_table r) (k_ready_group r) (k_current r) (k_current_priority r) (k_lock_nest r) (k_interrupt_nest r) (k_tick r) (k_tick_uptime r) v (k_soft_timer_list r) (k_random_nr r) (k_pts r) (k_idl_total_ticks r) (k_prev_calc_ticks r) (k_next r) (k_oom r) (k_ext r).
Definition set_k_soft_timer_list (v : list (list ptr)) (r : kstate) : kstate :=
  KState (k_obj r) (k_cont r) (k_thr r) (k_tmr r) (k_sem r) (k_mtx r) (k_evt r) (k_mb r) (k_mq r) (k_lists r) (k_ready_table r) (k_ready_group r) (k_current r) (k_current_priority r) (k_lock_nest r) (k_interrupt_nest r) (k_tick r) (k_tick_uptime r) (k_timer_list r) v (k_random_nr r) (k_pts r) (k_idl_total_ticks r) (k_prev_calc_ticks r) (k_next r) (k_oom r) (k_ext r).
Definition set_k_random_nr (v : Z) (r : kstate) : kstate :=
  KState (k_obj r) (k_cont r) (k_thr r) (k_tmr r) (k_sem r) (k_mtx r) (k_evt r) (k_mb r) (k_mq r) (k_lists r) (k_ready_table r) (k_ready_group r) (k_current r) (k_current_priority r) (k_lock_nest r) (k_interrupt_nest r) (k_tick r) (k_tick_uptime r) (k_timer_list r) (k_soft_timer_list r) v (k_pts r) (k_idl_total_ticks r) (k_prev_calc_ticks r) (k_next r) (k_oom r) (k_ext r).
Definition set_k_pts (v : Z) (r : kstate) : kstate :=
  KState (k_obj r) (k_cont r) (k_thr r) (k_tmr r) (k_sem r) (k_mtx r) (k_evt r) (k_mb r) (k_mq r) (k_lists r) (k_ready_table r) (k_ready_group r) (k_current r) (k_current_priority r) (k_lock_nest r) (k_interrupt_nest r) (k_tick r) (k_tick_uptime r) (k_timer_list r) (k_soft_timer_list r) (k_random_nr r) v (k_idl_total_ticks r) (k_prev_calc_ticks r) (k_next r) (k_oom r) (k_ext r).
Definition set_k_idl_total_ticks (v : Z) (r : kstate) : kstate :=
  KState (k_obj r) (k_cont r) (k_thr r) (k_tmr r) (k_sem r) (k_mtx r) (k_evt r) (k_mb r) (k_mq r) (k_lists r) (k_ready_table r) (k_ready_group r) (k_current r) (k_current_priority r) (k_lock_nest r) (k_interrupt_nest r) (k_tick r) (k_tick_uptime r) (k_timer_list r) (k_soft_timer_list r) (k_random_nr r) (k_pts r) v (k_prev_calc_ticks r) (k_next r) (k_oom r) (k_ext r).
Definition set_k_prev_calc_ticks (v : Z) (r : kstate) : kstate :=
  KState (k_obj r) (k_cont r) (k_thr r) (k_tmr r) (k_sem r) (k_mtx r) (k_evt r) (k_mb r) (k_mq r) (k_lists r) (k_ready_table r) (k_ready_group r) (k_current r) (k_current_priority r) (k_lock_nest r) (k_interrupt_nest r) (k_tick r) (k_tick_uptime r) (k_timer_list r) (k_soft_timer_list r) (k_random_nr r) (k_pts r) (k_idl_total_ticks r) v (k_next r) (k_oom r) (k_ext r).
Definition set_k_next (v : nat) (r : kstate) : kstate :=
  KState (k_obj r) (k_cont r) (k_thr r) (k_tmr r) (k_sem r) (k_mtx r) (k_evt r) (k_mb r) (k_mq r) (k_lists r) (k_ready_table r) (k_ready_group r) (k_current r) (k_current_priority r) (k_lock_nest r) (k_interrupt_nest r) (k_tick r) (k_tick_uptime r) (k_timer_list r) (k_soft_timer_list r) (k_random_nr r) (k_pts r) (k_idl_total_ticks r) (k_prev_calc_ticks r) v (k_oom r) (k_ext r).
Definition set_k_oom (v : nat -> bool) (r : kstate) : kstate :=
  KState (k_obj r) (k_cont r) (k_thr r) (k_tmr r) (k_sem r) (k_mtx r) (k_evt r) (k_mb r) (k_mq r) (k_lists r) (k_ready_table r) (k_ready_group r) (k_current r) (k_current_priority r) (k_lock_nest r) (k_interrupt_nest r) (k_tick r) (k_tick_uptime r) (k_timer_list r) (k_soft_timer_list r) (k_random_nr r) (k_pts r) (k_idl_total_ticks r) (k_prev_calc_ticks r) (k_next r) v (k_ext r).
Definition set_k_ext (v : xstate) (r : kstate) : kstate :=
  KState (k_obj r) (k_cont r) (k_thr r) (k_tmr r) (k_sem r) (k_mtx r) (k_evt r) (k_mb r) (k_mq r) (k_lists r) (k_ready_table r) (k_ready_group r) (k_current r) (k_current_priority r) (k_lock_nest r) (k_interrupt_nest r) (k_tick r) (k_tick_uptime r) (k_timer_list r) (k_soft_timer_list r) (k_random_nr r) (k_pts r) (k_idl_total_ticks r) (k_prev_calc_ticks r) (k_next r) (k_oom r) v.


(** ** Map update *)

Definition fupd {A B} `{EqDecision A} (a : A) (b : B) (f : A -> B) : A -> B :=
  fun x => if decide (x = a) then b else f x.

Lemma fupd_eq {A B} `{EqDecision A} (a : A) (b : B) f : fupd a b f a = b.
Proof. unfold fupd. by rewrite decide_True. Qed.

Lemma fupd_ne {A B} `{EqDecision A} (a x : A) (b : B) f : x <> a -> fupd a b f x = f x.
Proof. intros. unfold fupd. by rewrite decide_False. Qed.

Definition alter_thr (t : nat) (g : rt_thread -> rt_thread) (s : kstate) : kstate :=
  set_k_thr (fupd t (g (k_thr s t)) (k_thr s)) s.
Definition alter_obj (p : ptr) (g : rt_object -> rt_object) (s : kstate) : kstate :=
  set_k_obj (fupd p (g (k_obj s p)) (k_obj s)) s.
Definition alter_tmr (p : ptr) (g : rt_timer -> rt_timer) (s : kstate) : kstate :=
  set_k_tmr (fupd p (g (k_tmr s p)) (k_tmr s)) s.
Definition alter_list (h : lhead) (g : list nat -> list nat) (s : kstate) : kstate :=
  set_k_lists (fupd h (g (k_lists s h)) (k_lists s)) s.
Definition alter_mtx (m : nat) (g : rt_mutex -> rt_mutex) (s : kstate) : kstate :=
  set_k_mtx (fupd m (g (k_mtx s m)) (k_mtx s)) s.
Definition alter_mb (m : nat) (g : rt_mailbox -> rt_mailbox) (s : kstate) : kstate :=
  set_k_mb (fupd m (g (k_mb s m)) (k_mb s)) s.
Definition alter_mq (m : nat) (g : rt_messagequeue -> rt_messagequeue) (s : kstate) : kstate :=
  set_k_mq (fupd m (g (k_mq s m)) (k_mq s)) s.

(** The components above the core. *)
Definition alter_ext (g : xstate -> xstate) (s : kstate) : kstate := set_k_ext (g (k_ext s)) s.
Definition alter_mp (m : nat) (g : rt_mempool -> rt_mempool) : kstate -> kstate :=
  alter_ext (fun x => set_x_mp (fupd m (g (x_mp x m)) (x_mp x)) x).
Definition alter_mh (m : nat) (g : rt_memheap -> rt_memheap) : kstate -> kstate :=
  alter_ext (fun x => set_x_mh (fupd m (g (x_mh x m)) (x_mh x)) x).
Definition alter_dq (m : nat) (g : rt_data_queue -> rt_data_queue) : kstate -> kstate :=
  alter_ext (fun x => set_x_dq (fupd m (g (x_dq x m)) (x_dq x)) x).
Definition alter_wq (m : nat) (g : rt_wqueue -> rt_wqueue) : kstate -> kstate :=
  alter_ext (fun x => set_x_wq (fupd m (g (x_wq x m)) (x_wq x)) x).
Definition alter_wk (m : nat) (g : rt_workqueue -> rt_workqueue) : kstate -> kstate :=
  alter_ext (fun x => set_x_wk (fupd m (g (x_wk x m)) (x_wk x)) x).

(** All of it zero. *)
Definition ext_zero : xstate :=
  XState (fun _ => WAddr 0) (fun _ => Mempool 0 0 0 0 0 0 0) (fun _ => MemheapItem 0 0 0 0 0 0)
    (fun _ => Memheap 0 0 0 0 0 0) (fun _ => 0) (fun _ => DataQueue 0 0 0 0 [] None)
    (fun _ => WqueueNode 0 None 0) (fun _ => Wqueue 0 []) (fun _ => Workqueue [] None 0).

(** ** The monad of kernel routines *)

Definition K (A : Type) : Type := kstate -> option (A * kstate).

#[export] Instance K_ret : MRet K := fun A a s => Some (a, s).
#[export] Instance K_bind : MBind K := fun A B f m s =>
  match m s with Some (a, s') => f a s' | None => None end.

Definition gets {A} (f : kstate -> A) : K A := fun s => Some (f s, s).
Definition modify (f : kstate -> kstate) : K unit := fun s => Some (tt, f s).
Definition fail {A} : K A := fun _ => None.
Definition RT_ASSERT (b : bool) : K unit := fun s => if b then Some (tt, s) else None.
Definition lift {A} (o : option A) : K A := fun s => match o with Some a => Some (a, s) | None => None end.
Definition skip : K unit := fun s => Some (tt, s).

(** [RT_ASSERT] applied to an expression that reads the state. *)
Definition assert_s (f : kstate -> bool) : K unit := b ← gets f; RT_ASSERT b.

(** [RT_DEBUG_NOT_IN_INTERRUPT] and [RT_DEBUG_IN_THREAD_CONTEXT] of rtdebug.h *)
Definition RT_DEBUG_NOT_IN_INTERRUPT : K unit := assert_s (fun s => k_interrupt_nest s =? 0).
Definition RT_DEBUG_IN_THREAD_CONTEXT : K unit :=
  assert_s (fun s => match k_current s with Some _ => true | None => false end);;
  RT_DEBUG_NOT_IN_INTERRUPT.

(** ** Reasoning about routines *)

(** [wp m s Q]: [m] completes from [s] and its result and final state satisfy [Q]. *)
Definition wp {A} (m : K A) (s : kstate) (Q : A -> kstate -> Prop) : Prop :=
  match m s with Some (a, s') => Q a s' | None => False end.

(** [wlp m s Q]: if [m] completes from [s], its result and final state satisfy [Q]. *)
Definition wlp {A} (m : K A) (s : kstate) (Q : A -> kstate -> Prop) : Prop :=
  match m s with Some (a, s') => Q a s' | None => True end.

(** [keeps P m]: [m] preserves the predicate [P]. *)
Definition keeps {A} (P : kstate -> Prop) (m : K A) : Prop :=
  forall s, P s -> wlp m s (fun _ s' => P s').

Section wp_rules.
Context {A B : Type}.
Implicit Types (m : K A) (f : A -> K B) (s : kstate).

Lemma run_bind m f s a s' : m s = Some (a, s') -> (x ← m; f x) s = f a s'.
Proof. intros E. unfold mbind, K_bind. by rewrite E. Qed.

Lemma wp_run m s Q : wp m s Q <-> exists a s', m s = Some (a, s') /\ Q a s'.
Proof. unfold wp. destruct (m s) as [[a s'] |]; naive_solver. Qed.

Lemma wp_bind m f s Q : wp m s (fun a s' => wp (f a) s' Q) -> wp (x ← m; f x) s Q.
Proof. unfold wp, mbind, K_bind. by destruct (m s) as [[a s'] |]. Qed.

Lemma wlp_bind m f s Q : wlp m s (fun a s' => wlp (f a) s' Q) -> wlp (x ← m; f x) s Q.
Proof. unfold wlp, mbind, K_bind. by destruct (m s) as [[a s'] |]. Qed.

Lemma wp_mono m s (Q R : A -> kstate -> Prop) :
  wp m s Q -> (forall a s', Q a s' -> R a s') -> wp m s R.
Proof. unfold wp. destruct (m s) as [[a s'] |]; auto. Qed.

Lemma wlp_mono m s (Q R : A -> kstate -> Prop) :
  wlp m s Q -> (forall a s', Q a s' -> R a s') -> wlp m s R.
Proof. unfold wlp. destruct (m s) as [[a s'] |]; auto. Qed.

Lemma wp_wlp m s Q : wp m s Q -> wlp m s Q.
Proof. unfold wp, wlp. by destruct (m s) as [[a s'] |]. Qed.

Lemma keeps_bind P m f : keeps P m -> (forall a, keeps P (f a)) -> keeps P (x ← m; f x).
Proof.
  intros Hm Hf s Hs. apply wlp_bind. eapply wlp_mono; [by apply Hm |].
  intros a s' H. by apply Hf.
Qed.

End wp_rules.

(** Equations of the monad, and the tactic that runs a routine with them. *)
Lemma bind_gets {A B} (g : kstate -> A) (f : A -> K B) s : (x ← gets g; f x) s = f (g s) s.
Proof. done. Qed.
Lemma bind_modify {B} g (f : unit -> K B) s : (x ← modify g; f x) s = f tt (g s).
Proof. done. Qed.
Lemma bind_mret {A B} (a : A) (f : A -> K B) s : (x ← mret a; f x) s = f a s.
Proof. done. Qed.
Lemma bind_skip {B} (f : unit -> K B) s : (x ← skip; f x) s = f tt s.
Proof. done. Qed.
Lemma bind_lift {A B} (a : A) (f : A -> K B) s : (x ← lift (Some a); f x) s = f a s.
Proof. done. Qed.
Lemma bind_assert {B} (f : unit -> K B) s : (x ← RT_ASSERT true; f x) s = f tt s.
Proof. done. Qed.
Lemma bind_assert_s {B} g (f : unit -> K B) s : g s = true -> (x ← assert_s g; f x) s = f tt s.
Proof. intros E. unfold assert_s. unfold mbind, K_bind, gets, RT_ASSERT. by rewrite E. Qed.
Lemma bind_assoc {A B C} (m : K A) (g : A -> K B) (f : B -> K C) s :
  (y ← (x ← m; g x); f y) s = (x ← m; y ← g x; f y) s.
Proof. unfold mbind, K_bind. by destruct (m s) as [[a s'] |]. Qed.

Ltac krun1 :=
  first [ rewrite bind_gets | rewrite bind_modify | rewrite bind_mret | rewrite bind_skip
        | rewrite bind_lift | rewrite bind_assert | rewrite bind_assoc ]; cbv beta.
Ltac krun := repeat krun1.

Section wlp_steps.
Context {A B C : Type}.
Implicit Types (Q : B -> kstate -> Prop) (s : kstate).

Lemma wlp_gets (g : kstate -> A) (f : A -> K B) s Q : wlp (f (g s)) s Q -> wlp (x ← gets g; f x) s Q.
Proof. done. Qed.
Lemma wlp_modify g (f : unit -> K B) s Q : wlp (f tt) (g s) Q -> wlp (x ← modify g; f x) s Q.
Proof. done. Qed.
Lemma wlp_ret (a : A) (f : A -> K B) s Q : wlp (f a) s Q -> wlp (x ← mret a; f x) s Q.
Proof. done. Qed.
Lemma wlp_skip (f : unit -> K B) s Q : wlp (f tt) s Q -> wlp (x ← skip; f x) s Q.
Proof. done. Qed.
Lemma wlp_lift (o : option A) (f : A -> K B) s Q :
  (forall a, o = Some a -> wlp (f a) s Q) -> wlp (x ← lift o; f x) s Q.
Proof. intros H. destruct o as [a |]; [exact (H a eq_refl) | exact I]. Qed.
Lemma wlp_assert b (f : unit -> K B) s Q : (b = true -> wlp (f tt) s Q) -> wlp (x ← RT_ASSERT b; f x) s Q.
Proof. intros H. destruct b; [exact (H eq_refl) | exact I]. Qed.
Lemma wlp_assert_s g (f : unit -> K B) s Q :
  (g s = true -> wlp (f tt) s Q) -> wlp (x ← assert_s g; f x) s Q.
Proof. intros H. unfold wlp, assert_s, mbind, K_bind, gets, RT_ASSERT. destruct (g s); [exact (H eq_refl) | exact I]. Qed.
Lemma wlp_assoc (m : K A) (g : A -> K C) (f : C -> K B) s Q :
  wlp (x ← m; y ← g x; f y) s Q -> wlp (y ← (x ← m; g x); f y) s Q.
Proof. unfold wlp. by rewrite bind_assoc. Qed.
Lemma wlp_call (m : K A) (f : A -> K B) s (R : A -> kstate -> Prop) Q :
  wlp m s R -> (forall a s', R a s' -> wlp (f a) s' Q) -> wlp (x ← m; f x) s Q.
Proof. intros Hm Hf. apply wlp_bind. eapply wlp_mono; eauto. Qed.

End wlp_steps.

(** One step of a [wlp] goal that needs no lemma. *)
Ltac wstep1 :=
  lazymatch goal with
  | |- wlp (gets _ ≫= _) _ _ => apply wlp_gets
  | |- wlp (modify _ ≫= _) _ _ => apply wlp_modify
  | |- wlp (mret _ ≫= _) _ _ => apply wlp_ret
  | |- wlp (skip ≫= _) _ _ => apply wlp_skip
  | |- wlp (lift _ ≫= _) _ _ => apply wlp_lift; intros
  | |- wlp (RT_ASSERT _ ≫= _) _ _ => apply wlp_assert; intros
  | |- wlp (assert_s _ ≫= _) _ _ => apply wlp_assert_s; intros
  | |- wlp ((_ ≫= _) ≫= _) _ _ => apply wlp_assoc
  end; cbv beta.
Ltac wstep := repeat wstep1.

Lemma keeps_gets {A} P (f : kstate -> A) : keeps P (gets f).
Proof. by intros s. Qed.
Lemma keeps_ret {A} P (a : A) : keeps P (mret a).
Proof. by intros s. Qed.
Lemma keeps_fail {A} P : keeps P (@fail A).
Proof. by intros s. Qed.
Lemma keeps_skip P : keeps P skip.
Proof. by intros s. Qed.
Lemma keeps_assert P b : keeps P (RT_ASSERT b).
Proof. intros s H. unfold wlp, RT_ASSERT. by destruct b. Qed.
Lemma keeps_assert_s P f : keeps P (assert_s f).
Proof. apply keeps_bind; [apply keeps_gets | intros; apply keeps_assert]. Qed.
Lemma keeps_lift {A} P (o : option A) : keeps P (lift o).
Proof. intros s H. unfold wlp, lift. by destruct o. Qed.
Lemma keeps_modify (P : kstate -> Prop) f : (forall s, P s -> P (f s)) -> keeps P (modify f).
Proof. intros H s Hs. apply H, Hs. Qed.

#[export] Hint Resolve keeps_gets keeps_ret keeps_fail keeps_skip keeps_assert keeps_assert_s
  keeps_lift : rtt.
