(* ===== verification/Scheduler.v ===== *)
(** * Scheduler: [src/kernel/src/scheduler.c], uniprocessor configuration

    The ready queues (256 priorities, two-level bitmap), the choice of the
    thread to run and the scheduler lock.  [rt_schedule] changes
    [rt_current_thread]; the code of a routine behind it runs when the thread
    that called it is current again.

    The invariant [sched_ok] ties the lists, the state and priority of every
    thread and the bitmap together; [sched_ok_but t] is the same with thread
    [t] taken out, the state in the middle of every operation that moves a
    thread from one list to another. *)

From S2P Require Import Prelude KernelTypes Kservice RtList.
Import Kservice.

Local Open Scope Z_scope.

Module Scheduler.

Abbreviation lremove := RtList.ListQ.remove.
Abbreviation push_back := RtList.ListQ.push_back.

(** ** Operations *)

Definition th_state (s : kstate) (t : nat) : Z := Z.land (th_stat (k_thr s t)) RT_THREAD_STAT_MASK.

(** [rt_list_remove(&(thread->tlist))]: the node leaves the list it is in. *)
Definition tlist_remove (t : nat) : K unit :=
  modify (fun s => set_k_lists (fun h => lremove t (k_lists s h)) s).

(** [rt_list_insert_before(head, &(thread->tlist))] *)
Definition tlist_append (h : lhead) (t : nat) : K unit :=
  modify (alter_list h (fun q => push_back q t)).

(** [rt_list_entry(head->next, struct rt_thread, tlist)]; on an empty list the
    head itself would be taken for a thread. *)
Definition tlist_first (h : lhead) : K nat :=
  q ← gets (fun s => k_lists s h); lift (head q).

Definition stack_overflow (th : rt_thread) : bool :=
  negb (th_guard th =? 35) || (th_sp th <=? th_stack_addr th)
  || (u32 (th_stack_addr th + th_stack_size th) <? th_sp th).

(** On overflow the routine loops for ever with interrupts off. *)
Definition _rt_scheduler_stack_check (t : nat) : K unit :=
  th ← gets (fun s => k_thr s t); RT_ASSERT (negb (stack_overflow th)).

Definition _scheduler_get_highest_priority_thread : K (nat * Z) :=
  group ← gets k_ready_group;
  table ← gets k_ready_table;
  let number := u32 (__rt_ffs group - 1) in
  row ← lift (zget table number);
  let highest_ready_priority := u32 (Z.shiftl number 3 + __rt_ffs row - 1) in
  RT_ASSERT (highest_ready_priority <? RT_THREAD_PRIORITY_MAX);;
  t ← tlist_first (LReady highest_ready_priority);
  mret (t, highest_ready_priority).

Definition rt_system_scheduler_init : K unit :=
  modify (fun s =>
    set_k_ready_table (replicate 32 0) (set_k_ready_group 0 (set_k_current None
      (set_k_current_priority (u8 (RT_THREAD_PRIORITY_MAX - 1))
        (set_k_lists (fun h => match h with LReady _ => [] | _ => k_lists s h end)
          (set_k_lock_nest 0 s)))))).

(** [rt_hw_context_switch_to] resumes the chosen thread. *)
Definition rt_system_scheduler_start : K unit :=
  '(t, _) ← _scheduler_get_highest_priority_thread; modify (set_k_current (Some t)).

(** The switch from [from] to [t]: the idle time accounting around it. *)
Definition schedule_switch (from t : nat) (prio : Z) : K unit :=
  modify (set_k_current_priority (u8 prio));;
  modify (set_k_current (Some t));;
  fp ← gets (fun s => th_current_priority (k_thr s from));
  (if fp =? RT_THREAD_PRIORITY_MAX - 1
   then modify (fun s => set_k_idl_total_ticks
     (u32 (k_idl_total_ticks s + (k_pts s - k_prev_calc_ticks s))) s)
   else skip);;
  tp ← gets (fun s => th_current_priority (k_thr s t));
  (if tp =? RT_THREAD_PRIORITY_MAX - 1
   then modify (fun s => set_k_prev_calc_ticks (u32 (k_pts s)) s) else skip);;
  _rt_scheduler_stack_check t.

Definition rt_schedule : K unit :=
  nest ← gets k_lock_nest;
  if nest =? 0 then
    '(t, highest_ready_priority) ← _scheduler_get_highest_priority_thread;
    cur ← gets k_current;
    if decide (cur = Some t) then skip
    else from ← lift cur; schedule_switch from t highest_ready_priority
  else skip.

Definition rt_schedule_insert_thread (t : nat) : K unit :=
  modify (alter_thr t (fun th => set_th_stat
    (Z.lor RT_THREAD_READY (clear_bits 8 (th_stat th) RT_THREAD_STAT_MASK)) th));;
  th ← gets (fun s => k_thr s t);
  tlist_append (LReady (th_current_priority th)) t;;
  table ← gets k_ready_table;
  row ← lift (zget table (th_number th));
  table ← lift (zset table (th_number th) (Z.lor row (th_high_mask th)));
  modify (set_k_ready_table table);;
  modify (fun s => set_k_ready_group (Z.lor (k_ready_group s) (th_number_mask th)) s).

Definition rt_schedule_remove_thread (t : nat) : K unit :=
  tlist_remove t;;
  th ← gets (fun s => k_thr s t);
  q ← gets (fun s => k_lists s (LReady (th_current_priority th)));
  match q with
  | [] =>
      table ← gets k_ready_table;
      row ← lift (zget table (th_number th));
      let row := clear_bits 8 row (th_high_mask th) in
      table ← lift (zset table (th_number th) row);
      modify (set_k_ready_table table);;
      if row =? 0 then
        modify (fun s => set_k_ready_group (clear_bits 32 (k_ready_group s) (th_number_mask th)) s)
      else skip
  | _ => skip
  end.

(** [rt_scheduler_lock_nest] is an [rt_int16_t]. *)
Definition rt_enter_critical : K unit :=
  modify (fun s => set_k_lock_nest (swrap 16 (k_lock_nest s + 1)) s).

Definition rt_exit_critical : K unit :=
  modify (fun s => set_k_lock_nest (swrap 16 (k_lock_nest s - 1)) s);;
  nest ← gets k_lock_nest;
  if nest <=? 0 then
    modify (set_k_lock_nest 0);;
    cur ← gets k_current;
    match cur with Some _ => rt_schedule | None => skip end
  else skip.

Definition rt_critical_level : K Z := gets (fun s => u16 (k_lock_nest s)).

(** [rt_cpuload_get]: ticks since the last call ([total], [idle]); [last] is
    [__sys_total_ticks], whose new value is returned too. *)
Definition rt_cpuload_get (last : Z) : K (Z * Z * Z) :=
  pts ← gets k_pts; idle ← gets k_idl_total_ticks;
  modify (set_k_idl_total_ticks 0);;
  mret (u32 (u32 pts - last), idle, u32 pts).

(** ** The invariant *)

(** The priority attributes [rt_thread_startup] and [rt_thread_control] compute. *)
Record masks_ok (th : rt_thread) : Prop := {
  mk_prio : 0 <= th_current_priority th < 256;
  mk_number : th_number th = Z.shiftr (th_current_priority th) 3;
  mk_number_mask : th_number_mask th = Z.shiftl 1 (th_number th);
  mk_high_mask : th_high_mask th = Z.shiftl 1 (Z.land (th_current_priority th) 0x07)
}.

(** What being in the list of head [h] says about a thread. *)
Definition list_state (s : kstate) (h : lhead) (t : nat) : Prop :=
  match h with
  | LReady p => th_state s t = RT_THREAD_READY /\ th_current_priority (k_thr s t) = p
  | LSuspend _ | LSender _ => th_state s t = RT_THREAD_SUSPEND
  | LDefunct => th_state s t = RT_THREAD_CLOSE
  end.

Definition schedulable (s : kstate) (t : nat) : Prop :=
  th_state s t = RT_THREAD_READY \/ th_state s t = RT_THREAD_SUSPEND.

(** The lists against the threads, thread [x] left out. *)
Record threads_ok (x : option nat) (s : kstate) : Prop := {
  th_out : forall t h, x = Some t -> t ∉ k_lists s h;
  th_nodup : forall h, NoDup (k_lists s h);
  th_disj : forall h k t, t ∈ k_lists s h -> t ∈ k_lists s k -> h = k;
  th_listed : forall h t, t ∈ k_lists s h -> list_state s h t;
  th_ready : forall t, Some t <> x -> th_state s t = RT_THREAD_READY ->
    t ∈ k_lists s (LReady (th_current_priority (k_thr s t)));
  th_masks : forall t, Some t <> x -> schedulable s t -> masks_ok (k_thr s t);
  th_stack : forall t, Some t <> x -> schedulable s t -> stack_overflow (k_thr s t) = false
}.

(** The bitmap against the ready lists. *)
Record bitmap_ok (s : kstate) : Prop := {
  bm_len : zlen (k_ready_table s) = 32;
  bm_byte : forall i, 0 <= i < 32 -> 0 <= znth (k_ready_table s) i < 256;
  bm_group_range : 0 <= k_ready_group s < 2 ^ 32;
  bm_group : forall i, 0 <= i < 32 ->
    Z.testbit (k_ready_group s) i = negb (znth (k_ready_table s) i =? 0);
  bm_bit : forall p, 0 <= p < 256 ->
    Z.testbit (znth (k_ready_table s) (Z.shiftr p 3)) (Z.land p 7)
      = negb (bool_decide (k_lists s (LReady p) = []))
}.

Definition sched_ok_but (x : option nat) (s : kstate) : Prop := threads_ok x s /\ bitmap_ok s.
Abbreviation sched_ok := (sched_ok_but None).

(** ** Frame lemmas *)

Lemma sched_frame x s s' :
  sched_ok_but x s -> k_thr s' = k_thr s -> k_lists s' = k_lists s ->
  k_ready_table s' = k_ready_table s -> k_ready_group s' = k_ready_group s ->
  sched_ok_but x s'.
Proof.
  intros [[] []] E1 E2 E3 E4. unfold list_state, schedulable, th_state in *.
  split; constructor; unfold list_state, schedulable, th_state in *;
    rewrite ?E1, ?E2, ?E3, ?E4; auto.
Qed.

(** A change of thread fields the scheduler does not look at. *)
Definition sched_same (f : rt_thread -> rt_thread) : Prop := forall th,
  th_stat (f th) = th_stat th /\ th_current_priority (f th) = th_current_priority th /\
  th_number (f th) = th_number th /\ th_number_mask (f th) = th_number_mask th /\
  th_high_mask (f th) = th_high_mask th /\ stack_overflow (f th) = stack_overflow th.

Lemma alter_thr_lookup t u f s :
  k_thr (alter_thr t f s) u = if decide (u = t) then f (k_thr s t) else k_thr s u.
Proof. done. Qed.

Lemma masks_same f th : sched_same f -> masks_ok th -> masks_ok (f th).
Proof. intros H []. destruct (H th) as (? & ? & ? & ? & ? & ?). split; congruence. Qed.

Lemma alter_thr_same x t f s : sched_same f -> sched_ok_but x s -> sched_ok_but x (alter_thr t f s).
Proof.
  intros Hf [[] []]. destruct (Hf (k_thr s t)) as (E1 & E2 & E3 & E4 & E5 & E6).
  assert (forall u, th_state (alter_thr t f s) u = th_state s u) as Est.
  { intros u. unfold th_state. rewrite alter_thr_lookup. case_decide; subst; congruence. }
  assert (forall u, th_current_priority (k_thr (alter_thr t f s) u) = th_current_priority (k_thr s u))
    as Epr.
  { intros u. rewrite alter_thr_lookup. case_decide; subst; congruence. }
  split; constructor; try done; unfold list_state, schedulable in *.
  - intros h u Hu. specialize (th_listed0 h u Hu). destruct h; rewrite ?Est, ?Epr; done.
  - intros u Hu. rewrite Est, Epr. auto.
  - intros u Hu. rewrite Est. intros Hs. rewrite alter_thr_lookup.
    case_decide; subst; [apply masks_same; auto | auto].
  - intros u Hu. rewrite Est. intros Hs. rewrite alter_thr_lookup.
    case_decide; subst; [rewrite E6; auto | auto].
Qed.

(** Any change to the thread that is left out. *)
Lemma alter_thr_out t f s : sched_ok_but (Some t) s -> sched_ok_but (Some t) (alter_thr t f s).
Proof.
  intros [[] []].
  assert (forall u, u <> t -> th_state (alter_thr t f s) u = th_state s u /\
    k_thr (alter_thr t f s) u = k_thr s u) as E.
  { intros u Hu. unfold th_state. rewrite alter_thr_lookup, decide_False by done. done. }
  assert (forall u h, u ∈ k_lists s h -> u <> t) as Hne.
  { intros u h Hu ->. by apply (th_out0 t h). }
  split; constructor; try done.
  - intros h u Hu. specialize (th_listed0 h u Hu). unfold list_state in *.
    destruct (E u (Hne u h Hu)) as [-> ->]. done.
  - intros u Hu. assert (u <> t) as Hn by congruence. destruct (E u Hn) as [-> ->]. auto.
  - intros u Hu. assert (u <> t) as Hn by congruence. unfold schedulable.
    destruct (E u Hn) as [-> ->]. auto.
  - intros u Hu. assert (u <> t) as Hn by congruence. unfold schedulable.
    destruct (E u Hn) as [-> ->]. auto.
Qed.

(** ** Bit arithmetic *)

Lemma prio_split p : 0 <= p < 256 ->
  0 <= Z.shiftr p 3 < 32 /\ 0 <= Z.land p 7 < 8 /\ p = 8 * Z.shiftr p 3 + Z.land p 7.
Proof.
  intros H. rewrite Z.shiftr_div_pow2 by lia. change 7 with (Z.ones 3). rewrite Z.land_ones by lia.
  change (2 ^ 3) with 8. pose proof (Z.div_mod p 8). pose proof (Z.mod_pos_bound p 8). lia.
Qed.

Lemma prio_inj p q : 0 <= p < 256 -> 0 <= q < 256 ->
  Z.shiftr p 3 = Z.shiftr q 3 -> Z.land p 7 = Z.land q 7 -> p = q.
Proof. intros Hp Hq E1 E2. pose proof (prio_split p Hp). pose proof (prio_split q Hq). lia. Qed.

Lemma prio_join n b : 0 <= n < 32 -> 0 <= b < 8 ->
  0 <= 8 * n + b < 256 /\ Z.shiftr (8 * n + b) 3 = n /\ Z.land (8 * n + b) 7 = b.
Proof.
  intros Hn Hb. rewrite Z.shiftr_div_pow2 by lia. change 7 with (Z.ones 3).
  rewrite Z.land_ones by lia. change (2 ^ 3) with 8. split; [lia |].
  rewrite (Z.mul_comm 8 n), Z.div_add_l, Z.div_small by lia. split; [lia |].
  rewrite Z.add_comm, Z.mod_add, Z.mod_small by lia. done.
Qed.

Lemma testbit_one i j : 0 <= i -> 0 <= j -> Z.testbit (Z.shiftl 1 i) j = (j =? i).
Proof. intros. rewrite Z.shiftl_1_l, Z.pow2_bits_eqb by lia. apply Z.eqb_sym. Qed.

Lemma clear_bits_range w b f : 0 <= w -> 0 <= clear_bits w b f < 2 ^ w.
Proof. apply wrap_range. Qed.

Lemma clear_bits_spec w b f i : 0 <= i < w ->
  Z.testbit (clear_bits w b f) i = Z.testbit b i && negb (Z.testbit f i).
Proof.
  intros H. unfold clear_bits, wrap. rewrite Z.mod_pow2_bits_low by lia.
  rewrite Z.land_spec, Z.lnot_spec by lia. done.
Qed.

Lemma lor_range w a b : 0 <= w -> 0 <= a < 2 ^ w -> 0 <= b < 2 ^ w -> 0 <= Z.lor a b < 2 ^ w.
Proof.
  intros Hw Ha Hb. split; [apply Z.lor_nonneg; lia |].
  destruct (decide (Z.lor a b = 0)) as [-> |]; [lia |].
  assert (0 <= Z.lor a b) by (apply Z.lor_nonneg; lia).
  apply Z.log2_lt_pow2; [lia |]. rewrite Z.log2_lor by lia.
  apply Z.max_lub_lt.
  - destruct (decide (a = 0)) as [-> |]; [simpl; destruct (decide (w = 0)); [subst; simpl in *; assert (b = 0) by lia; subst; done | lia] |].
    apply Z.log2_lt_pow2; lia.
  - destruct (decide (b = 0)) as [-> |]; [simpl; destruct (decide (w = 0)); [subst; simpl in *; assert (a = 0) by lia; subst; done | lia] |].
    apply Z.log2_lt_pow2; lia.
Qed.

Lemma one_range w i : 0 <= i < w -> 0 <= Z.shiftl 1 i < 2 ^ w.
Proof. intros. rewrite Z.shiftl_1_l. split; [apply Z.pow_nonneg; lia | apply Z.pow_lt_mono_r; lia]. Qed.

Lemma nonzero_bit z i : Z.testbit z i = true -> z <> 0.
Proof. intros H ->. rewrite Z.bits_0 in H. done. Qed.

Lemma byte_eq_zero z : 0 <= z < 256 -> (forall i, 0 <= i < 8 -> Z.testbit z i = false) -> z = 0.
Proof.
  intros Hz H. apply Z.bits_inj'. intros i Hi. rewrite Z.bits_0.
  destruct (Z.ltb_spec i 8); [apply H; lia |].
  destruct (decide (z = 0)) as [-> |]; [apply Z.bits_0 |].
  apply Z.bits_above_log2; [lia |]. apply Z.log2_lt_pow2; [lia |].
  apply Z.lt_le_trans with (2 ^ 8); [lia | apply Z.pow_le_mono_r; lia].
Qed.

(** ** The bitmap *)

Abbreviation ready_nil L p := (bool_decide (L (LReady p) = [])).

(** The bitmap after a queue became non-empty. *)
Lemma bitmap_set s s' p tb :
  bitmap_ok s -> 0 <= p < 256 -> k_lists s' (LReady p) <> [] ->
  (forall q, 0 <= q < 256 -> q <> p -> ready_nil (k_lists s') q = ready_nil (k_lists s) q) ->
  zset (k_ready_table s) (Z.shiftr p 3)
    (Z.lor (znth (k_ready_table s) (Z.shiftr p 3)) (Z.shiftl 1 (Z.land p 7))) = Some tb ->
  k_ready_table s' = tb ->
  k_ready_group s' = Z.lor (k_ready_group s) (Z.shiftl 1 (Z.shiftr p 3)) ->
  bitmap_ok s'.
Proof.
  intros [] Hp Hne Hoth Etb Et Eg. destruct (prio_split p Hp) as (Hn & Hb & Ep).
  destruct (zset_Some (k_ready_table s) (Z.shiftr p 3)
    (Z.lor (znth (k_ready_table s) (Z.shiftr p 3)) (Z.shiftl 1 (Z.land p 7))))
    as (tb' & E' & Hl & Hi); [lia |].
  rewrite E' in Etb. injection Etb as ->. subst tb. split.
  - lia.
  - intros i Hir. rewrite Hi by lia. zcases; [| auto].
    apply (lor_range 8); [lia | apply bm_byte0; lia | apply one_range; lia].
  - rewrite Eg. apply lor_range; [lia | done | apply one_range; lia].
  - intros i Hir. rewrite Eg, Z.lor_spec, testbit_one, Hi, bm_group0 by lia.
    destruct (Z.eqb_spec i (Z.shiftr p 3)).
    + rewrite orb_true_r. symmetry. apply negb_true_iff, Z.eqb_neq, (nonzero_bit _ (Z.land p 7)).
      rewrite Z.lor_spec, testbit_one, Z.eqb_refl by lia. apply orb_true_r.
    + apply orb_false_r.
  - intros q Hq. destruct (prio_split q Hq) as (? & ? & ?). rewrite Hi by lia.
    destruct (decide (q = p)) as [-> | Hqp].
    + rewrite Z.eqb_refl, Z.lor_spec, testbit_one, Z.eqb_refl, orb_true_r by lia.
      rewrite bool_decide_false by done. done.
    + rewrite Hoth by done. rewrite <- bm_bit0 by done. zcases; [| done].
      rewrite Z.lor_spec, testbit_one by lia. zcases; [| rewrite orb_false_r; congruence].
      exfalso. apply Hqp. apply prio_inj; lia.
Qed.

(** The bitmap after a queue became empty: the row bit is cleared and, when the
    row is 0, the group bit too. *)
Lemma bitmap_clear s s' p tb :
  bitmap_ok s -> 0 <= p < 256 -> k_lists s' (LReady p) = [] ->
  (forall q, 0 <= q < 256 -> q <> p -> ready_nil (k_lists s') q = ready_nil (k_lists s) q) ->
  let row := clear_bits 8 (znth (k_ready_table s) (Z.shiftr p 3)) (Z.shiftl 1 (Z.land p 7)) in
  zset (k_ready_table s) (Z.shiftr p 3) row = Some tb ->
  k_ready_table s' = tb ->
  k_ready_group s' = (if row =? 0 then clear_bits 32 (k_ready_group s) (Z.shiftl 1 (Z.shiftr p 3))
                      else k_ready_group s) ->
  bitmap_ok s'.
Proof.
  intros [] Hp Hne Hoth row Etb Et Eg. destruct (prio_split p Hp) as (Hn & Hb & Ep).
  destruct (zset_Some (k_ready_table s) (Z.shiftr p 3) row) as (tb' & E' & Hl & Hi); [lia |].
  rewrite E' in Etb. injection Etb as ->. subst tb. 
  assert (0 <= row < 256) as Hrow by (apply (clear_bits_range 8); lia).
  assert (forall b, 0 <= b < 8 -> Z.testbit row b =
    Z.testbit (znth (k_ready_table s) (Z.shiftr p 3)) b && negb (b =? Z.land p 7)) as Hrb.
  { intros b Hbr. unfold row. rewrite clear_bits_spec, testbit_one by lia. done. }
  split.
  - lia.
  - intros i Hir. rewrite Hi by lia. zcases; auto.
  - rewrite Eg. destruct (row =? 0); [apply (clear_bits_range 32); lia | done].
  - intros i Hir. rewrite Eg, Hi by lia. destruct (Z.eqb_spec i (Z.shiftr p 3)) as [-> | Hne'].
    + destruct (Z.eqb_spec row 0) as [E0 | E0].
      * rewrite clear_bits_spec, testbit_one, Z.eqb_refl by lia. apply andb_false_r.
      * rewrite bm_group0 by lia. apply negb_true_iff, Z.eqb_neq. intros E. apply E0. unfold row.
        rewrite E. unfold clear_bits. rewrite Z.land_0_l. done.
    + rewrite <- bm_group0 by lia. destruct (row =? 0); [| done].
      rewrite clear_bits_spec, testbit_one by lia. zcases; [lia | apply andb_true_r].
  - intros q Hq. destruct (prio_split q Hq) as (? & ? & ?). rewrite Hi by lia.
    destruct (decide (q = p)) as [-> | Hqp].
    + rewrite Z.eqb_refl, Hrb, Z.eqb_refl by lia. rewrite bool_decide_true by done. apply andb_false_r.
    + rewrite Hoth by done. rewrite <- bm_bit0 by done. zcases; [| done].
      rewrite Hrb by lia. zcases; [exfalso; apply Hqp; apply prio_inj; lia |].
      rewrite andb_true_r. congruence.
Qed.

(** The bitmap does not change with the emptiness of no queue. *)
Lemma bitmap_same s s' :
  bitmap_ok s -> k_ready_table s' = k_ready_table s -> k_ready_group s' = k_ready_group s ->
  (forall q, 0 <= q < 256 -> ready_nil (k_lists s') q = ready_nil (k_lists s) q) -> bitmap_ok s'.
Proof.
  intros [] E1 E2 Hq. split; rewrite ?E1, ?E2; auto. intros p Hp. rewrite Hq by done. auto.
Qed.

(** ** Moving a thread between lists *)

Abbreviation elem_lremove := RtList.ListQ.elem_remove.
Abbreviation lremove_id := RtList.ListQ.remove_id.
Abbreviation lremove_head := RtList.ListQ.remove_head.
Abbreviation lremove_nodup := RtList.ListQ.remove_nodup.

(** Thread [t] unlinked: it is left out from now on. *)
Lemma threads_unlink t s s' :
  threads_ok None s -> k_thr s' = k_thr s ->
  (forall h, k_lists s' h = lremove t (k_lists s h)) -> threads_ok (Some t) s'.
Proof.
  intros [] Et El. split.
  - intros u h [= ->]. rewrite El, elem_lremove. tauto.
  - intros h. rewrite El. by apply lremove_nodup.
  - intros h k u. rewrite !El, !elem_lremove. naive_solver.
  - intros h u. rewrite El, elem_lremove. intros [_ Hu]. specialize (th_listed0 h u Hu).
    unfold list_state, th_state in *. by rewrite Et.
  - intros u Hu. unfold th_state. rewrite Et, El, elem_lremove. intros Hs.
    split; [congruence | by apply th_ready0].
  - intros u Hu. unfold schedulable, th_state. rewrite Et. by apply th_masks0.
  - intros u Hu. unfold schedulable, th_state. rewrite Et. by apply th_stack0.
Qed.

(** Thread [t], left out so far, linked somewhere in the list [h]. *)
Lemma threads_link t h s s' :
  threads_ok (Some t) s -> k_thr s' = k_thr s ->
  k_lists s' h ≡ₚ t :: k_lists s h -> (forall k, k <> h -> k_lists s' k = k_lists s k) ->
  list_state s h t -> (schedulable s t -> masks_ok (k_thr s t)) ->
  (schedulable s t -> stack_overflow (k_thr s t) = false) ->
  threads_ok None s'.
Proof.
  intros [] Et Eh Eo Hst Hm Hs.
  assert (forall k u, u ∈ k_lists s' k <-> (u = t /\ k = h) \/ u ∈ k_lists s k) as Hin.
  { intros k u. destruct (decide (k = h)) as [-> |]; [rewrite Eh; set_solver | rewrite Eo by done; tauto]. }
  split.
  - done.
  - intros k. destruct (decide (k = h)) as [-> |]; [| rewrite Eo by done; auto].
    rewrite Eh. constructor; [by apply th_out0 | auto].
  - intros k l u. rewrite !Hin. intros [[-> ->] | Hk] [[? ->] | Hl]; try done; subst; eauto;
      exfalso; by eapply th_out0.
  - intros k u. rewrite Hin. intros [[-> ->] | Hk]; unfold list_state, th_state in *; rewrite Et; [done |].
    exact (th_listed0 k u Hk).
  - intros u _. unfold th_state. rewrite Et, Hin. intros Hu.
    destruct (decide (u = t)) as [-> |]; [left | right; apply th_ready0; [congruence | done]].
    split; [done |]. destruct h; simpl in Hst; unfold th_state in Hst.
    + destruct Hst as [_ ->]. done.
    + rewrite Hu in Hst. done.
    + rewrite Hu in Hst. done.
    + rewrite Hu in Hst. done.
  - intros u _. unfold schedulable, th_state. rewrite Et. intros Hu.
    destruct (decide (u = t)) as [-> |]; [by apply Hm | apply th_masks0; [congruence | done]].
  - intros u _. unfold schedulable, th_state. rewrite Et. intros Hu.
    destruct (decide (u = t)) as [-> |]; [by apply Hs | apply th_stack0; [congruence | done]].
Qed.

(** A thread that is not ready may stay out of every list. *)
Lemma sched_release t s :
  sched_ok_but (Some t) s -> th_state s t <> RT_THREAD_READY ->
  (schedulable s t -> masks_ok (k_thr s t) /\ stack_overflow (k_thr s t) = false) -> sched_ok s.
Proof.
  intros [[] Hb] Hn Hs. split; [| done]. split; try done.
  - intros u _ Hu. apply th_ready0; [congruence | done].
  - intros u _ Hu. destruct (decide (u = t)) as [-> |]; [by apply Hs | apply th_masks0; [congruence | done]].
  - intros u _ Hu. destruct (decide (u = t)) as [-> |]; [by apply Hs | apply th_stack0; [congruence | done]].
Qed.

(** Linking into a list that is not a ready list. *)
Lemma sched_link t h s s' :
  sched_ok_but (Some t) s -> k_thr s' = k_thr s ->
  k_ready_table s' = k_ready_table s -> k_ready_group s' = k_ready_group s ->
  k_lists s' h ≡ₚ t :: k_lists s h -> (forall k, k <> h -> k_lists s' k = k_lists s k) ->
  (forall p, h <> LReady p) ->
  list_state s h t -> (schedulable s t -> masks_ok (k_thr s t) /\ stack_overflow (k_thr s t) = false) ->
  sched_ok s'.
Proof.
  intros [Ht Hb] E1 E2 E3 Eh Eo Hr Hst Hm. split.
  - eapply threads_link; eauto; intros H; apply Hm; done.
  - eapply bitmap_same; eauto. intros q _. rewrite Eo; [done |]. intros E. by apply (Hr q).
Qed.

(** Unlinking a thread that is not in a ready list. *)
Lemma sched_unlink t s :
  sched_ok s -> th_state s t <> RT_THREAD_READY ->
  sched_ok_but (Some t) (set_k_lists (fun h => lremove t (k_lists s h)) s).
Proof.
  intros [Ht Hb] Hn. split; [eapply threads_unlink; eauto |].
  eapply bitmap_same; eauto. intros q _. simpl. rewrite lremove_id; [done |].
  intros Hin. apply (th_listed _ _ Ht) in Hin. by destruct Hin.
Qed.

(** The other ready lists do not hold the thread. *)
Lemma ready_only t s q :
  threads_ok None s -> q <> th_current_priority (k_thr s t) -> lremove t (k_lists s (LReady q)) = k_lists s (LReady q).
Proof.
  intros Ht Hq. apply lremove_id. intros Hin. apply (th_listed _ _ Ht) in Hin.
  destruct Hin as [_ E]. congruence.
Qed.

(** ** The two queue operations *)

Lemma remove_thread_spec t s :
  sched_ok s -> masks_ok (k_thr s t) ->
  exists T G, let s' := set_k_ready_group G (set_k_ready_table T
      (set_k_lists (fun h => lremove t (k_lists s h)) s)) in
    rt_schedule_remove_thread t s = Some (tt, s') /\ sched_ok_but (Some t) s'.
Proof.
  intros [Ht Hb] Hm. destruct Hm as [Hp En Enm Ehm].
  set (p := th_current_priority (k_thr s t)) in *. destruct (prio_split p Hp) as (Hn & Hbt & _).
  unfold rt_schedule_remove_thread, tlist_remove.
  assert (forall T G, threads_ok (Some t) (set_k_ready_group G (set_k_ready_table T
      (set_k_lists (fun h => lremove t (k_lists s h)) s)))) as Hth.
  { intros T G. eapply threads_unlink; eauto. }
  assert (forall q, 0 <= q < 256 -> q <> p ->
    ready_nil (fun h => lremove t (k_lists s h)) q = ready_nil (k_lists s) q) as Hoth.
  { intros q _ Hq. by rewrite (ready_only t s q Ht Hq). }
  krun. change (th_current_priority (k_thr _ t)) with p.
  change (k_lists _ (LReady p)) with (lremove t (k_lists s (LReady p))).
  destruct (lremove t (k_lists s (LReady p))) as [| x q] eqn:Eq.
  - set (s1 := set_k_lists _ s). krun. change (k_thr s1 t) with (k_thr s t). rewrite En.
    rewrite zget_Some by (change (k_ready_table s1) with (k_ready_table s); rewrite (bm_len _ Hb); lia).
    krun. rewrite Ehm. fold p. change (k_ready_table s1) with (k_ready_table s).
    destruct (zset_Some (k_ready_table s) (Z.shiftr p 3)
      (clear_bits 8 (znth (k_ready_table s) (Z.shiftr p 3)) (Z.shiftl 1 (Z.land p 7))))
      as (tb & Etb & _); [rewrite (bm_len _ Hb); lia |].
    rewrite Etb. krun.
    rewrite Enm, En. fold p.
    exists tb, (if clear_bits 8 (znth (k_ready_table s) (Z.shiftr p 3)) (Z.shiftl 1 (Z.land p 7)) =? 0
      then clear_bits 32 (k_ready_group s) (Z.shiftl 1 (Z.shiftr p 3)) else k_ready_group s).
    destruct (_ =? 0) eqn:E0; (split; [reflexivity |]; split; [apply Hth |]).
    + eapply (bitmap_clear s _ p); [done | done | exact Eq | exact Hoth | exact Etb | done |].
      by rewrite E0.
    + eapply (bitmap_clear s _ p); [done | done | exact Eq | exact Hoth | exact Etb | done |].
      by rewrite E0.
  - exists (k_ready_table s), (k_ready_group s).
    split; [by destruct s |]. split; [apply Hth |].
    eapply bitmap_same; eauto. intros r Hr. simpl. destruct (decide (r = p)) as [-> |]; [| by apply Hoth].
    rewrite Eq. rewrite !bool_decide_false; [done | | done]. intros E. rewrite E in Eq. done.
Qed.

(** [stat = c | (stat & ~RT_THREAD_STAT_MASK)] sets the state and keeps the flags. *)
Lemma stat_set c b : 0 <= c < 8 ->
  Z.land (Z.lor c (clear_bits 8 b RT_THREAD_STAT_MASK)) RT_THREAD_STAT_MASK = c.
Proof.
  intros Hc. apply Z.bits_inj'. intros i Hi. rewrite Z.land_spec, Z.lor_spec.
  change RT_THREAD_STAT_MASK with (Z.ones 3). destruct (Z.ltb_spec i 3).
  - rewrite clear_bits_spec, Z.ones_spec_low by lia. simpl.
    by rewrite andb_false_r, orb_false_r, andb_true_r.
  - rewrite Z.ones_spec_high, andb_false_r by lia. symmetry.
    destruct (decide (c = 0)) as [-> |]; [apply Z.bits_0 |].
    apply Z.bits_above_log2; [lia |]. apply Z.log2_lt_pow2; [lia |].
    apply Z.lt_le_trans with (2 ^ 3); [lia | apply Z.pow_le_mono_r; lia].
Qed.

Definition set_state (c : Z) (th : rt_thread) : rt_thread :=
  set_th_stat (Z.lor c (clear_bits 8 (th_stat th) RT_THREAD_STAT_MASK)) th.

Lemma set_state_state c t s : 0 <= c < 8 -> th_state (alter_thr t (set_state c) s) t = c.
Proof. intros H. unfold th_state. rewrite alter_thr_lookup, decide_True by done. by apply stat_set. Qed.

Lemma insert_thread_spec t s :
  sched_ok_but (Some t) s -> masks_ok (k_thr s t) -> stack_overflow (k_thr s t) = false ->
  exists T G, let s' := set_k_ready_group G (set_k_ready_table T
      (alter_list (LReady (th_current_priority (k_thr s t))) (fun q => push_back q t)
        (alter_thr t (set_state RT_THREAD_READY) s))) in
    rt_schedule_insert_thread t s = Some (tt, s') /\ sched_ok s'.
Proof.
  intros Hok Hm Hst. pose proof Hok as [_ Hb].
  apply (alter_thr_out t (set_state RT_THREAD_READY)) in Hok as [Ht _].
  set (s1 := alter_thr t (set_state RT_THREAD_READY) s) in *.
  assert (k_thr s1 t = set_state RT_THREAD_READY (k_thr s t)) as E1.
  { unfold s1. rewrite alter_thr_lookup. by rewrite decide_True. }
  destruct Hm as [Hp En Enm Ehm]. set (p := th_current_priority (k_thr s t)) in *.
  destruct (prio_split p Hp) as (Hn & Hbt & _).
  destruct (zset_Some (k_ready_table s) (Z.shiftr p 3)
    (Z.lor (znth (k_ready_table s) (Z.shiftr p 3)) (Z.shiftl 1 (Z.land p 7))))
    as (tb & Etb & _); [rewrite (bm_len _ Hb); lia |].
  exists tb, (Z.lor (k_ready_group s) (Z.shiftl 1 (Z.shiftr p 3))). intros s'. split.
  - unfold rt_schedule_insert_thread, tlist_append. krun. fold (set_state RT_THREAD_READY). fold s1.
    rewrite E1. simpl th_current_priority. simpl th_number. simpl th_high_mask. simpl th_number_mask.
    fold p. rewrite En. change (k_ready_table (alter_list _ _ s1)) with (k_ready_table s).
    rewrite zget_Some by (rewrite (bm_len _ Hb); lia). krun. rewrite Ehm, Etb. krun.
    unfold modify. rewrite Enm, En. reflexivity.
  - assert (forall h, k_lists s' h = if decide (h = LReady p) then push_back (k_lists s (LReady p)) t else k_lists s h)
      as El by done.
    split.
    + eapply (threads_link t (LReady p) s1); [done | done | | | | |].
      * rewrite El, decide_True by done. unfold push_back. rewrite Permutation_app_comm. done.
      * intros k Hk. rewrite El, decide_False by done. done.
      * split; [by apply set_state_state | rewrite E1; done].
      * intros _. rewrite E1. by split.
      * intros _. rewrite E1. done.
    + eapply (bitmap_set s s' p tb); try done.
      * rewrite El, decide_True by done. unfold push_back. by destruct (k_lists s (LReady p)).
      * intros q _ Hq. rewrite El, decide_False by congruence. done.
Qed.

(** ** The choice of the thread to run *)

(** [t] is the first thread of the non-empty ready list of the smallest priority number. *)
Definition highest_ready (s : kstate) (t : nat) (p : Z) : Prop :=
  0 <= p < 256 /\ (exists q, k_lists s (LReady p) = t :: q) /\
  forall r, 0 <= r < p -> k_lists s (LReady r) = [].

Lemma ready_bit_nil s p : bitmap_ok s -> 0 <= p < 256 ->
  (Z.testbit (znth (k_ready_table s) (Z.shiftr p 3)) (Z.land p 7) = false <-> k_lists s (LReady p) = []).
Proof. intros Hb Hp. rewrite (bm_bit _ Hb) by done. rewrite negb_false_iff, bool_decide_eq_true. done. Qed.

Lemma ffs_pos v n : 0 <= v < 2 ^ n -> n <= 32 -> v <> 0 ->
  let k := __rt_ffs v - 1 in
  0 <= k < n /\ Z.testbit v k = true /\ forall j, 0 <= j < k -> Z.testbit v j = false.
Proof.
  intros Hv Hn Hz. assert (2 ^ n <= 2 ^ 32) by (apply Z.pow_le_mono_r; lia).
  destruct (ffs_least_bit v) as (k & E & Hk & Hb & Hl); [lia | done |].
  intros k'. unfold k'. rewrite E. replace (k + 1 - 1) with k by lia. split; [| done].
  split; [lia |]. destruct (Z.ltb_spec k n); [done |].
  rewrite Z.bits_above_log2 in Hb; [done | lia |].
  assert (0 < n \/ n <= 0) as [|] by lia.
  - apply Z.lt_le_trans with n; [apply Z.log2_lt_pow2; lia | done].
  - destruct (decide (n = 0)) as [-> |]; [simpl in Hv; lia | rewrite Z.pow_neg_r in Hv by lia; lia].
Qed.

Lemma get_highest_spec s :
  bitmap_ok s -> (exists p, 0 <= p < 256 /\ k_lists s (LReady p) <> []) ->
  exists t p, _scheduler_get_highest_priority_thread s = Some ((t, p), s) /\ highest_ready s t p.
Proof.
  intros Hb (p0 & Hp0 & Hne).
  assert (forall p, 0 <= p < 256 -> k_lists s (LReady p) <> [] ->
    znth (k_ready_table s) (Z.shiftr p 3) <> 0) as Hrow.
  { intros p Hp Hl E. apply Hl, ready_bit_nil; [done.. |]. rewrite E. apply Z.bits_0. }
  destruct (prio_split p0 Hp0) as (Hn0 & Hb0 & _).
  destruct (ffs_pos (k_ready_group s) 32) as (Hn & Hgb & Hgl); [apply (bm_group_range _ Hb) | lia | |].
  { apply (nonzero_bit _ (Z.shiftr p0 3)). rewrite (bm_group _ Hb) by lia.
    apply negb_true_iff, Z.eqb_neq. auto. }
  set (n := __rt_ffs (k_ready_group s) - 1) in *.
  rewrite (bm_group _ Hb) in Hgb by done. apply negb_true_iff, Z.eqb_neq in Hgb.
  destruct (ffs_pos (znth (k_ready_table s) n) 8) as (Hm & Hrb & Hrl);
    [apply (bm_byte _ Hb); lia | lia | done |].
  set (m := __rt_ffs (znth (k_ready_table s) n) - 1) in *.
  destruct (prio_join n m Hn Hm) as (Hp & E1 & E2). set (p := 8 * n + m) in *.
  assert (k_lists s (LReady p) <> []) as Hlp.
  { intros E. apply ready_bit_nil in E; [| done | done]. rewrite E1, E2 in E. congruence. }
  destruct (k_lists s (LReady p)) as [| t q] eqn:Eq; [done |].
  exists t, p. split.
  - unfold _scheduler_get_highest_priority_thread, tlist_first. krun. fold n.
    rewrite (wrap_small 32) by lia. rewrite zget_Some by (rewrite (bm_len _ Hb); lia). krun.
    replace (Z.shiftl n 3 + __rt_ffs (znth (k_ready_table s) n) - 1) with p
      by (unfold p; rewrite Z.shiftl_mul_pow2 by lia; lia).
    rewrite (wrap_small 32) by lia. replace (p <? RT_THREAD_PRIORITY_MAX) with true
      by (unfold RT_THREAD_PRIORITY_MAX; lia). krun. rewrite Eq. simpl. krun. done.
  - split; [done |]. split; [eauto |]. intros r Hr. destruct (prio_split r) as (Hrn & Hrm & Er); [lia |].
    apply ready_bit_nil; [done | lia |]. destruct (Z.eqb_spec (Z.shiftr r 3) n) as [E | E].
    + rewrite E. apply Hrl. lia.
    + assert (Z.shiftr r 3 < n) as Hlt by lia. specialize (Hgl (Z.shiftr r 3) ltac:(lia)).
      rewrite (bm_group _ Hb), negb_false_iff, Z.eqb_eq in Hgl by done. rewrite Hgl. apply Z.bits_0.
Qed.

(** All that a switch changes: the current thread, its priority and the idle accounting. *)
Definition switched (s s' : kstate) : Prop :=
  exists c p i v, s' = set_k_current c (set_k_current_priority p
    (set_k_idl_total_ticks i (set_k_prev_calc_ticks v s))).

Lemma switched_intro s s' :
  s' = set_k_current (k_current s') (set_k_current_priority (k_current_priority s')
    (set_k_idl_total_ticks (k_idl_total_ticks s') (set_k_prev_calc_ticks (k_prev_calc_ticks s') s))) ->
  switched s s'.
Proof. intros E. by do 4 eexists. Qed.

Lemma switched_refl s : switched s s.
Proof.
  exists (k_current s), (k_current_priority s), (k_idl_total_ticks s), (k_prev_calc_ticks s).
  by destruct s.
Qed.

Lemma switched_sched x s s' : switched s s' -> sched_ok_but x s -> sched_ok_but x s'.
Proof. intros (c & p & i & v & ->) H. by eapply sched_frame. Qed.

Lemma schedule_switch_eq from t p s :
  stack_overflow (k_thr s t) = false ->
  exists s', schedule_switch from t p s = Some (tt, s') /\ switched s s' /\
    k_current s' = Some t /\ k_current_priority s' = u8 p.
Proof.
  intros Hst. unfold schedule_switch, _rt_scheduler_stack_check. krun.
  destruct (_ =? RT_THREAD_PRIORITY_MAX - 1); krun; destruct (_ =? RT_THREAD_PRIORITY_MAX - 1); krun;
    unfold RT_ASSERT; simpl; rewrite Hst; simpl; eexists; (split; [reflexivity |]);
    (split; [apply switched_intro; by destruct s | done]).
Qed.

Lemma schedule_switch_frame from t p s : wlp (schedule_switch from t p) s (fun _ s' => switched s s').
Proof.
  unfold schedule_switch, _rt_scheduler_stack_check, wlp. krun.
  destruct (_ =? RT_THREAD_PRIORITY_MAX - 1); krun; destruct (_ =? RT_THREAD_PRIORITY_MAX - 1); krun;
    unfold RT_ASSERT; destruct (negb _); try done;
    apply switched_intro; by destruct s.
Qed.

Lemma get_highest_frame s : wlp _scheduler_get_highest_priority_thread s (fun _ s' => s' = s).
Proof.
  unfold wlp, _scheduler_get_highest_priority_thread, tlist_first. krun.
  destruct (zget _ _); [| done]. krun. destruct (_ <? _); [| done]. krun.
  by destruct (head _).
Qed.

Lemma rt_schedule_frame s : wlp rt_schedule s (fun _ s' => switched s s').
Proof.
  unfold rt_schedule. wstep. destruct (k_lock_nest s =? 0); [| apply switched_refl].
  eapply wlp_call; [apply get_highest_frame |]. intros [t p] ? ->. wstep.
  destruct (decide _); [apply switched_refl |]. wstep. apply schedule_switch_frame.
Qed.

Lemma rt_schedule_spec s c :
  sched_ok s -> k_lock_nest s = 0 -> k_current s = Some c ->
  (exists p, 0 <= p < 256 /\ k_lists s (LReady p) <> []) ->
  exists t p s', rt_schedule s = Some (tt, s') /\ highest_ready s t p /\ k_current s' = Some t /\
    switched s s' /\ (t <> c -> k_current_priority s' = p) /\ (t = c -> s' = s).
Proof.
  intros [Ht Hb] Hn Hc Hr. destruct (get_highest_spec s Hb Hr) as (t & p & E & Hh).
  exists t, p. pose proof Hh as (Hp & (q & Hq) & _).
  assert (stack_overflow (k_thr s t) = false) as Hst.
  { apply (th_stack _ _ Ht); [done |]. left.
    apply (th_listed _ _ Ht (LReady p)). rewrite Hq. apply list_elem_of_here. }
  unfold rt_schedule. krun. rewrite Hn. simpl (0 =? 0). cbv iota. rewrite (run_bind _ _ _ _ _ E). krun.
  rewrite Hc. case_decide as Hd.
  - injection Hd as ->. exists s. repeat split; try done; [apply Hh.. | apply switched_refl].
  - simpl. krun. destruct (schedule_switch_eq c t p s Hst) as (s' & -> & Hsw & Ec & Ep).
    exists s'. split; [done |]. split; [done |]. split; [done |]. split; [done |].
    split; [intros _; rewrite Ep; apply wrap_small; lia | congruence].
Qed.

Lemma rt_exit_critical_frame s :
  wlp rt_exit_critical s (fun _ s' => exists n, switched (set_k_lock_nest n s) s').
Proof.
  unfold rt_exit_critical, wlp. krun. destruct (_ <=? 0).
  - krun. simpl. destruct (k_current s) as [c |] eqn:Ec.
    + pose proof (rt_schedule_frame (set_k_lock_nest 0 (set_k_lock_nest (swrap 16 (k_lock_nest s - 1)) s))) as H.
      unfold wlp in H. destruct (rt_schedule _) as [[? s'] |]; [| done]. exists 0. exact H.
    + exists 0. apply switched_refl.
  - eexists. apply switched_refl.
Qed.

Lemma keeps_sched_schedule x : keeps (sched_ok_but x) rt_schedule.
Proof.
  intros s H. eapply wlp_mono; [apply rt_schedule_frame |]. intros ? s' Hs.
  eapply switched_sched; [exact Hs | done].
Qed.

Lemma keeps_sched_enter x : keeps (sched_ok_but x) rt_enter_critical.
Proof. intros s H. by eapply sched_frame. Qed.

Lemma keeps_sched_exit x : keeps (sched_ok_but x) rt_exit_critical.
Proof.
  intros s H. eapply wlp_mono; [apply rt_exit_critical_frame |]. intros ? s' (n & Hs).
  eapply switched_sched; [exact Hs |]. by eapply sched_frame.
Qed.

(** Balanced locking of the scheduler leaves the state as it was, switch apart. *)
Lemma critical_nest n : 0 <= n < 32767 -> swrap 16 (swrap 16 (n + 1) - 1) = n.
Proof. intros. rewrite (swrap_small 16 (n + 1)) by lia. rewrite swrap_small; lia. Qed.

(** ** Theorems *)

(** C2: with consistent queues, the scheduler unlocked and some thread ready,
    [rt_schedule] makes current the first thread of the ready list of the
    highest priority: no ready thread has a higher priority and no thread of
    that priority became ready before it; queues and threads are untouched. *)
Theorem rt_schedule_picks_highest s c :
  sched_ok s -> k_lock_nest s = 0 -> k_current s = Some c ->
  (exists p, 0 <= p < 256 /\ k_lists s (LReady p) <> []) ->
  exists t p s', rt_schedule s = Some (tt, s') /\ k_current s' = Some t /\
    head (k_lists s (LReady p)) = Some t /\
    (forall u, th_state s u = RT_THREAD_READY -> p <= th_current_priority (k_thr s u)) /\
    k_lists s' = k_lists s /\ k_thr s' = k_thr s /\ sched_ok s'.
Proof.
  intros Hok Hn Hc Hr. destruct (rt_schedule_spec s c Hok Hn Hc Hr)
    as (t & p & s' & E & (Hp & (q & Hq) & Hmin) & Hcur & Hsw & _).
  exists t, p, s'. split; [done |]. split; [done |]. split; [by rewrite Hq |].
  split; [| split; [by destruct Hsw as (? & ? & ? & ? & ->) |]].
  - intros u Hu. destruct Hok as [Ht _]. pose proof (th_ready _ _ Ht u) as Hin.
    destruct (th_masks _ _ Ht u) as [Hup _ _ _]; [done | by left |].
    destruct (Z.leb_spec p (th_current_priority (k_thr s u))); [done |].
    specialize (Hin ltac:(done) Hu). rewrite Hmin in Hin by lia. by apply elem_of_nil in Hin.
  - split; [by destruct Hsw as (? & ? & ? & ? & ->) | by eapply switched_sched].
Qed.

(** C3: the two-level bitmap follows the ready lists: on a consistent state,
    [rt_schedule_remove_thread] unlinks the thread and, put back by
    [rt_schedule_insert_thread], the thread is the last of the ready list of its
    priority in a state that is consistent again; neither routine can leave
    the bitmap arrays. *)
Theorem rt_schedule_requeue s t :
  sched_ok s -> schedulable s t ->
  exists s1 s2, rt_schedule_remove_thread t s = Some (tt, s1) /\
    (forall h, k_lists s1 h = lremove t (k_lists s h)) /\ bitmap_ok s1 /\
    rt_schedule_insert_thread t s1 = Some (tt, s2) /\ sched_ok s2 /\
    th_state s2 t = RT_THREAD_READY /\
    k_lists s2 (LReady (th_current_priority (k_thr s t)))
      = lremove t (k_lists s (LReady (th_current_priority (k_thr s t)))) ++ [t].
Proof.
  intros Hok Hs. pose proof Hok as [Ht _].
  pose proof (th_masks _ _ Ht t ltac:(done) Hs) as Hm.
  destruct (remove_thread_spec t s Hok Hm) as (T & G & E1 & Hok1). cbv zeta in *.
  set (s1 := set_k_ready_group G _) in *.
  destruct (insert_thread_spec t s1) as (T' & G' & E2 & Hok2); [done | done | by apply (th_stack _ _ Ht) |].
  exists s1. eexists. split; [exact E1 |]. split; [done |]. split; [apply Hok1 |].
  split; [exact E2 |]. split; [exact Hok2 |]. split.
  - by apply set_state_state.
  - simpl. rewrite fupd_eq. done.
Qed.

(** ** A small system, for the witnesses

    Thread 0 is the idle thread, 1 the timer thread (priority 8, suspended),
    2 (current) and 3 have priority 10, 4 priority 20; the objects 10 to 14 are a
    semaphore, a mutex, an event, a mailbox and a message queue, 15 a timer. *)

Definition run {A} (m : K A) (s : kstate) : kstate :=
  match m s with Some (_, s') => s' | None => s end.

Definition example_thread (prio stat : Z) : rt_thread :=
  Thread 0 0 2000 1000 4096 35 0 stat prio prio (Z.shiftr prio 3) (Z.shiftl 1 (Z.land prio 0x07))
    (Z.shiftl 1 (Z.shiftr prio 3)) 0 0 10 10 None None 0 0 0.

Definition example_prio (t : nat) : Z :=
  match t with 0%nat => 255 | 1%nat => 8 | 2%nat | 3%nat => 10 | _ => 20 end.

Definition example_type (p : ptr) : Z :=
  match p with
  | Obj 10 => 0x82 | Obj 11 => 0x83 | Obj 12 => 0x84 | Obj 13 => 0x85 | Obj 14 => 0x86
  | Obj 15 => 0x8A | Obj _ => 0x81 | ThreadTimer _ => 0x8A
  end.

Definition example_cont (c : Z) : list ptr :=
  if c =? 1 then map Obj [0; 1; 2; 3; 4]%nat else if c =? 2 then [Obj 10] else if c =? 3 then [Obj 11]
  else if c =? 4 then [Obj 12] else if c =? 5 then [Obj 13] else if c =? 6 then [Obj 14]
  else if c =? 10 then Obj 15 :: map ThreadTimer [0; 1; 2; 3; 4]%nat else [].

Definition example0 : kstate :=
  KState (fun p => Object (replicate RT_NAME_MAX 0) (example_type p) (if decide (p = Obj 11) then 1 else 0))
    example_cont (fun t => example_thread (example_prio t) (if decide (t = 1%nat) then 2 else 0))
    (fun p => match p with ThreadTimer t => Timer FnThreadTimeout (Z.of_nat t) 0 0
                      | Obj _ => Timer (FnUser 0) 0 10 0 end)
    (fun _ => 0) (fun _ => Mutex 1 0xff 0 None) (fun _ => 0)
    (fun _ => Mailbox [0; 0] 2 0 0 0)
    (fun _ => MessageQueue (fun _ => None) (fun _ => [0; 0; 0; 0]) 4 2 0 None None None)
    (fun _ => []) (replicate 32 0) 0 (Some 2%nat) 10 0 0 100 100 [[]] [[]] 0 0 0 0 100 (fun _ => false) ext_zero.

Lemma sched_hold t s : sched_ok s -> (forall h, t ∉ k_lists s h) -> sched_ok_but (Some t) s.
Proof.
  intros [[] Hb] Ht. split; [| done]. split; try done.
  - intros u h [= ->]. apply Ht.
  - intros u _. auto.
  - intros u _. auto.
  - intros u _. auto.
Qed.

Lemma insert_run_ok t s :
  sched_ok s -> (forall h, t ∉ k_lists s h) -> masks_ok (k_thr s t) ->
  stack_overflow (k_thr s t) = false -> sched_ok (run (rt_schedule_insert_thread t) s).
Proof.
  intros Hok Ht Hm Hs. destruct (insert_thread_spec t s) as (T & G & E & H); [by apply sched_hold | done | done |].
  unfold run. by rewrite E.
Qed.

Lemma znth_zeros n i : znth (replicate n 0) i = 0.
Proof.
  unfold znth. rewrite nth_lookup. destruct (_ !! _) eqn:E; [| done].
  by apply lookup_replicate in E as [-> _].
Qed.

Lemma example0_ok : sched_ok example0.
Proof.
  assert (forall i, znth (k_ready_table example0) i = 0) as Hz by (intros; apply (znth_zeros 32)).
  split; split; try done.
  - intros. constructor.
  - intros h k t H. by apply elem_of_nil in H.
  - intros h t H. by apply elem_of_nil in H.
  - intros t _. unfold th_state. simpl. case_decide; done.
  - intros t _ _. unfold example_thread. split; simpl; try done.
    destruct t as [| [| [| [| ]]]]; simpl; lia.
  - intros i Hi. rewrite Hz. lia.
  - intros i Hi. by rewrite Hz, Z.bits_0.
  - intros p Hp. by rewrite Hz, Z.bits_0.
Qed.

Definition example : kstate :=
  run (rt_schedule_insert_thread 4) (run (rt_schedule_insert_thread 3)
    (run (rt_schedule_insert_thread 2) (run (rt_schedule_insert_thread 0) example0))).

Lemma example_masks t c : masks_ok (example_thread (example_prio t) c).
Proof. split; try done. destruct t as [| [| [| [| ]]]]; simpl; lia. Qed.

(** One more thread in the example. *)
Ltac add_thread :=
  match goal with |- sched_ok (run (rt_schedule_insert_thread ?t) ?s) =>
    refine (insert_run_ok t s _ _ _ _);
    [| intros h; simpl; unfold fupd; repeat (case_decide; subst; simpl); set_solver
     | exact (example_masks _ 0) | reflexivity]
  end.

Lemma example_ok : sched_ok example.
Proof. unfold example. do 4 add_thread. apply example0_ok. Qed.

(** ** Witnesses *)

Lemma rt_schedule_picks_highest_witness :
  exists t p s', rt_schedule example = Some (tt, s') /\ k_current s' = Some t /\
    head (k_lists example (LReady p)) = Some t /\
    (forall u, th_state example u = RT_THREAD_READY -> p <= th_current_priority (k_thr example u)) /\
    k_lists s' = k_lists example /\ k_thr s' = k_thr example /\ sched_ok s'.
Proof.
  apply (rt_schedule_picks_highest example 2);
    [apply example_ok | reflexivity | reflexivity | exists 10; split; [lia | discriminate]].
Defined.

Lemma rt_schedule_requeue_witness :
  exists s1 s2, rt_schedule_remove_thread 2 example = Some (tt, s1) /\
    (forall h, k_lists s1 h = lremove 2%nat (k_lists example h)) /\ bitmap_ok s1 /\
    rt_schedule_insert_thread 2 s1 = Some (tt, s2) /\ sched_ok s2 /\
    th_state s2 2 = RT_THREAD_READY /\ k_lists s2 (LReady 10) = [3; 2]%nat.
Proof.
  apply (rt_schedule_requeue example 2); [apply example_ok | left; reflexivity].
Defined.

End Scheduler.
