(* ===== verification/Object.v ===== *)
(** * Object system: [src/kernel/src/object.c]

    Every kernel object is linked, most recent first, in the container of its
    class; a static object carries [RT_Object_Class_Static] in its type.  The
    heap is seen through [rt_malloc]: it answers a fresh address, or fails when
    the state says so; freed addresses are not given out again. *)

From S2P Require Import Prelude KernelTypes Kservice RtList Scheduler.
Import Kservice Scheduler.

Local Open Scope Z_scope.

Module KObject.

(** ** Operations *)

(** The classes of [rt_object_container], in its order. *)
Definition rt_object_container : list Z :=
  [ RT_Object_Class_Thread; RT_Object_Class_Semaphore; RT_Object_Class_Mutex;
    RT_Object_Class_Event; RT_Object_Class_MailBox; RT_Object_Class_MessageQueue;
    RT_Object_Class_MemHeap; RT_Object_Class_MemPool; RT_Object_Class_Device;
    RT_Object_Class_Timer ].

(** The entry of the class [type], as its index. *)
Fixpoint get_information_loop (index : nat) (cs : list Z) (type : Z) : option nat :=
  match cs with
  | [] => None
  | c :: cs => if c =? type then Some index else get_information_loop (S index) cs type
  end.

Definition rt_object_get_information (type : Z) : option nat :=
  get_information_loop 0 rt_object_container type.

Definition has_container (type : Z) : bool :=
  match rt_object_get_information type with Some _ => true | None => false end.

Definition rt_object_get_length (type : Z) : K Z :=
  if has_container type then gets (fun s => Z.of_nat (length (k_cont s type))) else mret 0.

(** The result and the pointers stored in the caller's array. *)
Definition rt_object_get_pointers (type maxlen : Z) : K (Z * list ptr) :=
  if maxlen <=? 0 then mret (0, [])
  else if has_container type then
    gets (fun s => let ps := take (Z.to_nat maxlen) (k_cont s type) in (Z.of_nat (length ps), ps))
  else mret (0, []).

Definition rt_object_get_type (p : ptr) (s : kstate) : Z :=
  clear_bits 8 (o_type (k_obj s p)) RT_Object_Class_Static.

Definition rt_object_is_systemobject (p : ptr) (s : kstate) : bool :=
  flag_set (o_type (k_obj s p)) RT_Object_Class_Static.

(** [RT_ASSERT(rt_object_get_type(object) == type)] *)
Definition assert_type (p : ptr) (type : Z) : K unit :=
  assert_s (fun s => rt_object_get_type p s =? type).

(** [rt_strncpy(object->name, name, RT_NAME_MAX)] *)
Definition set_name (p : ptr) (name : list Z) : K unit :=
  dst ← gets (fun s => o_name (k_obj s p));
  dst ← lift (rt_strncpy dst name RT_NAME_MAX);
  modify (alter_obj p (set_o_name dst)).

(** [rt_list_insert_after(&(information->object_list), &(object->list))] *)
Definition container_insert (type : Z) (p : ptr) : K unit :=
  modify (fun s => set_k_cont (fupd type (p :: k_cont s type) (k_cont s)) s).

(** [rt_list_remove(&(object->list))] *)
Definition container_remove (p : ptr) : K unit :=
  modify (fun s => set_k_cont (fun c => RtList.ListQ.remove p (k_cont s c)) s).

(** The check against re-initialisation. *)
Fixpoint init_check_loop (l : list ptr) (p : ptr) : K unit :=
  match l with
  | [] => skip
  | obj :: l => RT_ASSERT (negb (bool_decide (obj = p)));; init_check_loop l p
  end.

Definition rt_object_init (p : ptr) (type : Z) (name : list Z) : K unit :=
  RT_ASSERT (has_container type);;
  rt_enter_critical;;
  l ← gets (fun s => k_cont s type);
  init_check_loop l p;;
  rt_exit_critical;;
  modify (alter_obj p (set_o_type (Z.lor type RT_Object_Class_Static)));;
  set_name p name;;
  container_insert type p.

Definition rt_object_detach (p : ptr) : K unit :=
  modify (alter_obj p (set_o_type 0));;
  container_remove p.

(** [RT_KERNEL_MALLOC] *)
Definition rt_malloc : K (option nat) :=
  n ← gets k_next;
  oom ← gets k_oom;
  modify (set_k_next (S n));;
  mret (if oom n : bool then None else Some n).

Definition zero_thread : rt_thread :=
  Thread 0 0 0 0 0 0 0 0 0 0 0 0 0 0 0 0 0 None None 0 0 0.

(** [rt_memset(object, 0x0, information->object_size)]: whatever its class, the
    fields of the object are 0, the timer inside a thread included. *)
Definition zero_object (n : nat) (s : kstate) : kstate :=
  let object := Object (replicate RT_NAME_MAX 0) 0 0 in
  let timer := Timer (FnUser 0) 0 0 0 in
  set_k_obj (fupd (ThreadTimer n) object (fupd (Obj n) object (k_obj s)))
  (set_k_thr (fupd n zero_thread (k_thr s))
  (set_k_tmr (fupd (ThreadTimer n) timer (fupd (Obj n) timer (k_tmr s)))
  (set_k_sem (fupd n 0 (k_sem s))
  (set_k_mtx (fupd n (Mutex 0 0 0 None) (k_mtx s))
  (set_k_evt (fupd n 0 (k_evt s))
  (set_k_mb (fupd n (Mailbox [] 0 0 0 0) (k_mb s))
  (set_k_mq (fupd n (MessageQueue (fun _ => None) (fun _ => []) 0 0 0 None None None) (k_mq s))
  (alter_mp n (fun _ => Mempool 0 0 0 0 0 0 0) s)))))))).

Definition rt_object_allocate (type : Z) (name : list Z) : K (option nat) :=
  RT_DEBUG_NOT_IN_INTERRUPT;;
  RT_ASSERT (has_container type);;
  object ← rt_malloc;
  match object with
  | None => mret None
  | Some n =>
      modify (zero_object n);;
      modify (alter_obj (Obj n) (set_o_type type));;
      modify (alter_obj (Obj n) (set_o_flag 0));;
      set_name (Obj n) name;;
      container_insert type (Obj n);;
      mret (Some n)
  end.

(** [RT_KERNEL_FREE] has no effect on the state modelled. *)
Definition rt_object_delete (p : ptr) : K unit :=
  assert_s (fun s => negb (rt_object_is_systemobject p s));;
  modify (alter_obj p (set_o_type 0));;
  container_remove p.

Fixpoint find_loop (l : list ptr) (name : list Z) : K (option ptr) :=
  match l with
  | [] => rt_exit_critical;; mret None
  | p :: l =>
      nm ← gets (fun s => o_name (k_obj s p));
      c ← lift (rt_strncmp nm name RT_NAME_MAX);
      if c =? 0 then rt_exit_critical;; mret (Some p) else find_loop l name
  end.

Definition rt_object_find (name : option (list Z)) (type : Z) : K (option ptr) :=
  match name with
  | None => mret None
  | Some name =>
      if RT_Object_Class_Unknown <? type then mret None
      else
        RT_DEBUG_NOT_IN_INTERRUPT;;
        rt_enter_critical;;
        RT_ASSERT (has_container type);;
        l ← gets (fun s => k_cont s type);
        find_loop l name
  end.

(** ** Critical sections that switch to nobody *)

(** The scheduler has not started, or the current thread is the one it would choose. *)
Definition settled (s : kstate) : Prop :=
  k_current s = None \/
  (sched_ok s /\ exists c p, k_current s = Some c /\ highest_ready s c p).

Lemma highest_ready_fun s t p u q : highest_ready s t p -> highest_ready s u q -> t = u /\ p = q.
Proof.
  intros (Hp & (l & Hl) & Hm) (Hq & (k & Hk) & Hn).
  assert (p = q) as ->.
  { destruct (Z.lt_trichotomy p q) as [H | [H | H]]; [| done |].
    - rewrite Hn in Hl by lia. done.
    - rewrite Hm in Hk by lia. done. }
  split; [congruence | done].
Qed.

Lemma rt_schedule_settled s :
  settled s -> is_Some (k_current s) -> k_lock_nest s = 0 -> rt_schedule s = Some (tt, s).
Proof.
  intros [E | (Hok & c & p & Hc & Hh)] Hs Hn; [rewrite E in Hs; by destruct Hs |].
  destruct (rt_schedule_spec s c Hok Hn Hc) as (t & q & s' & E & Hh' & _ & _ & _ & Heq).
  { pose proof Hh as (Hp & (l & Hl) & _). exists p. split; [done |]. rewrite Hl. done. }
  destruct (highest_ready_fun _ _ _ _ _ Hh Hh') as [-> ->]. by rewrite E, Heq.
Qed.

Lemma set_lock_nest_id s n : k_lock_nest s = n -> set_k_lock_nest n s = s.
Proof. intros <-. by destruct s. Qed.

Lemma exit_critical_settled s :
  settled s -> 0 <= k_lock_nest s < 32767 ->
  rt_exit_critical (set_k_lock_nest (swrap 16 (k_lock_nest s + 1)) s) = Some (tt, s).
Proof.
  intros Hs Hn. unfold rt_exit_critical. krun.
  set (s1 := set_k_lock_nest _ s). set (s2 := set_k_lock_nest _ s1).
  assert (s2 = s) as ->.
  { unfold s2. change (k_lock_nest s1) with (swrap 16 (k_lock_nest s + 1)).
    rewrite critical_nest by done. by destruct s. }
  destruct (Z.leb_spec (k_lock_nest s) 0); [| done].
  krun. rewrite (set_lock_nest_id s 0) by lia.
  destruct (k_current s) as [c |] eqn:Ec; [| done].
  apply rt_schedule_settled; [done | eauto | lia].
Qed.

(** ** Containers *)

Lemma has_container_spec type : has_container type = true <-> In type rt_object_container.
Proof.
  unfold has_container, rt_object_get_information.
  assert (forall cs i, (exists k, get_information_loop i cs type = Some k) <-> In type cs) as H.
  { induction cs as [| c cs IH]; intros i; simpl; [split; [by intros [? ?] | done] |].
    destruct (Z.eqb_spec c type); [naive_solver |]. rewrite IH. naive_solver. }
  rewrite <- (H rt_object_container 0%nat). destruct (get_information_loop _ _ _); naive_solver.
Qed.

Lemma init_check_ok l p s : p ∉ l -> init_check_loop l p s = Some (tt, s).
Proof.
  induction l as [| q l IH]; intros H; [done |]. simpl. rewrite bool_decide_false by set_solver. simpl.
  krun. apply IH. set_solver.
Qed.

(** The first object of [l] whose name agrees with [name] over [RT_NAME_MAX] bytes. *)
Definition first_named (s : kstate) (name : list Z) (l : list ptr) : option ptr :=
  head (filter (fun p => cname RT_NAME_MAX (o_name (k_obj s p)) = cname RT_NAME_MAX name) l).

Definition names_ok (s : kstate) (l : list ptr) : Prop :=
  forall p, p ∈ l -> bytes (o_name (k_obj s p)) /\ length (o_name (k_obj s p)) = RT_NAME_MAX.

Lemma find_loop_spec s s1 l name :
  (forall p, k_obj s1 p = k_obj s p) -> rt_exit_critical s1 = Some (tt, s) ->
  names_ok s l -> bytes name -> readable RT_NAME_MAX name ->
  find_loop l name s1 = Some (first_named s name l, s).
Proof.
  intros Hobj Hexit Hl Hb Hr. induction l as [| p l IH].
  - simpl. rewrite (run_bind _ _ _ _ _ Hexit). done.
  - simpl. krun. rewrite Hobj. destruct (Hl p) as [Hpb Hpl]; [apply list_elem_of_here |].
    destruct (strncmp_spec (o_name (k_obj s p)) name RT_NAME_MAX) as (r & E & Hr0);
      [done | done | left; lia | done |].
    rewrite E. krun. unfold first_named. destruct (Z.eqb_spec r 0) as [Hz | Hz].
    + rewrite filter_cons_True by (by apply Hr0). rewrite (run_bind _ _ _ _ _ Hexit). done.
    + rewrite filter_cons_False by (intros H; by apply Hz, Hr0). apply IH.
      intros q Hq. apply Hl. by apply list_elem_of_further.
Qed.

(** The name field after [rt_strncpy(object->name, name, RT_NAME_MAX)]. *)
Definition padded_name (name old : list Z) : list Z :=
  cname RT_NAME_MAX name ++ replicate (RT_NAME_MAX - length (cname RT_NAME_MAX name)) 0
    ++ drop RT_NAME_MAX old.

Lemma padded_cname name old : cname RT_NAME_MAX (padded_name name old) = cname RT_NAME_MAX name.
Proof. apply cname_padded. Qed.

Lemma padded_ok name old : bytes name -> length old = RT_NAME_MAX ->
  bytes (padded_name name old) /\ length (padded_name name old) = RT_NAME_MAX.
Proof.
  intros Hn Hl. unfold padded_name. rewrite drop_ge by lia. rewrite app_nil_r. split.
  - apply Forall_app. split; [by apply cname_bytes | apply Forall_replicate; lia].
  - rewrite length_app, length_replicate. pose proof (cname_length RT_NAME_MAX name). lia.
Qed.

Lemma set_name_spec p name s :
  length (o_name (k_obj s p)) = RT_NAME_MAX -> readable RT_NAME_MAX name ->
  set_name p name s =
    Some (tt, alter_obj p (set_o_name (padded_name name (o_name (k_obj s p)))) s).
Proof.
  intros Hl Hr. unfold set_name. krun. unfold rt_strncpy.
  rewrite (strncpy_loop_spec RT_NAME_MAX 0) by (rewrite ?drop_0; (lia || done)). done.
Qed.

(** Registration of a static object. *)
Lemma rt_object_init_spec p type name s :
  In type rt_object_container -> settled s -> 0 <= k_lock_nest s < 32767 ->
  p ∉ k_cont s type -> length (o_name (k_obj s p)) = RT_NAME_MAX -> readable RT_NAME_MAX name ->
  exists s', rt_object_init p type name s = Some (tt, s') /\
    k_cont s' = fupd type (p :: k_cont s type) (k_cont s) /\
    (forall q, k_obj s' q = if decide (q = p)
       then Object (padded_name name (o_name (k_obj s p))) (Z.lor type RT_Object_Class_Static) (o_flag (k_obj s p))
       else k_obj s q) /\
    s' = set_k_cont (k_cont s') (set_k_obj (k_obj s') s).
Proof.
  intros Ht Hs Hn Hp Hl Hr. unfold rt_object_init. apply has_container_spec in Ht. rewrite Ht. krun.
  unfold rt_enter_critical. krun.
  rewrite (run_bind _ _ _ _ _ (init_check_ok _ p _ Hp)).
  rewrite (run_bind _ _ _ _ _ (exit_critical_settled s Hs Hn)). krun.
  set (s0 := alter_obj p _ s).
  assert (o_name (k_obj s0 p) = o_name (k_obj s p)) as E0 by (simpl; by rewrite fupd_eq).
  rewrite (run_bind _ _ _ tt _ (set_name_spec p name s0 ltac:(congruence) Hr)).
  eexists. split; [reflexivity |]. split; [done |]. split; [| done].
  intros q. simpl. rewrite !fupd_eq. unfold fupd. by repeat case_decide.
Qed.

(** ** Theorems *)

(** In a settled thread context [rt_object_find] returns the most recently
    registered object of the class whose name agrees over [RT_NAME_MAX]
    bytes, or NULL when there is none, and changes nothing. *)
Theorem rt_object_find_first name type s :
  In type rt_object_container -> k_interrupt_nest s = 0 -> settled s ->
  0 <= k_lock_nest s < 32767 -> names_ok s (k_cont s type) ->
  bytes name -> readable RT_NAME_MAX name ->
  rt_object_find (Some name) type s = Some (first_named s name (k_cont s type), s).
Proof.
  intros Ht Hi Hs Hn Hl Hb Hr. unfold rt_object_find.
  replace (RT_Object_Class_Unknown <? type) with false
    by (unfold rt_object_container in Ht; simpl in Ht; unfold RT_Object_Class_Unknown; naive_solver).
  unfold RT_DEBUG_NOT_IN_INTERRUPT. rewrite bind_assert_s by (rewrite Hi; done).
  unfold rt_enter_critical. krun. apply has_container_spec in Ht. rewrite Ht. krun.
  apply find_loop_spec; try done. by apply exit_critical_settled.
Qed.


(** ** Witnesses *)

Lemma example_settled : settled example.
Proof.
  right. split; [apply example_ok |]. exists 2%nat, 10. split; [done |]. split; [lia |].
  split; [by exists [3%nat] |]. intros r Hr. simpl. unfold fupd.
  repeat (case_decide as He; [injection He as ->; lia | clear He]). done.
Qed.

Lemma rt_object_find_first_witness :
  rt_object_find (Some [0]) 2 example = Some (Some (Obj 10), example).
Proof.
  etransitivity; [apply rt_object_find_first |].
  - simpl. tauto.
  - reflexivity.
  - apply example_settled.
  - simpl. lia.
  - intros p Hp. split; [| reflexivity]. apply Forall_replicate. lia.
  - repeat constructor; lia.
  - right. apply list_elem_of_here.
  - reflexivity.
Defined.


End KObject.
