(* ===== verification/Timer.v ===== *)
(** * Timers, part 1: [src/kernel/src/timer.c]

    Initialisation, the ordered (skip) lists of running timers, stop, control,
    detach, create and delete.  [rt_timer_start] and the two checks, which call
    thread routines, are in [TimerRun]; here is the insertion they share.  A
    timer list is its rows, [RT_TIMER_SKIP_LIST_LEVEL] of them. *)

From Stdlib Require Import Sorted.
From S2P Require Import Prelude KernelTypes Kservice RtList Scheduler Object.
Import Scheduler KObject.

Local Open Scope Z_scope.

Module Timer.

Abbreviation premove := RtList.ListQ.remove.

(** ** Operations *)

(** The row nodes of a new timer are linked to themselves: it is in no row. *)
Definition _rt_timer_init (p : ptr) (timeout : timeout_fn) (parameter time flag : Z) : K unit :=
  modify (alter_obj p (set_o_flag (u8 flag)));;
  modify (alter_obj p (fun o => set_o_flag (clear_bits 8 (o_flag o) RT_TIMER_FLAG_ACTIVATED) o));;
  modify (alter_tmr p (fun _ => Timer timeout parameter time 0)).

(** [timer_list] is one of the two lists. *)
Definition rt_timer_list_next_timeout (timer_list : kstate -> list (list ptr)) : K Z :=
  rows ← gets timer_list;
  row ← lift (rows !! (RT_TIMER_SKIP_LIST_LEVEL - 1)%nat);
  match row with
  | [] => mret RT_TICK_MAX
  | t :: _ => gets (fun s => tm_timeout_tick (k_tmr s t))
  end.

(** [rt_list_remove(&timer->row[i])] for every row, whichever list they are linked in. *)
Definition _rt_timer_remove (p : ptr) : K unit :=
  modify (fun s => set_k_timer_list (map (premove p) (k_timer_list s))
    (set_k_soft_timer_list (map (premove p) (k_soft_timer_list s)) s)).

Definition timer_flag_clear (p : ptr) (flag : Z) : K unit :=
  modify (alter_obj p (fun o => set_o_flag (clear_bits 8 (o_flag o) flag) o)).
Definition timer_flag_set (p : ptr) (flag : Z) : K unit :=
  modify (alter_obj p (fun o => set_o_flag (Z.lor (o_flag o) flag) o)).

Definition rt_timer_init (p : ptr) (name : list Z) (timeout : timeout_fn) (parameter time flag : Z)
  : K unit :=
  rt_object_init p RT_Object_Class_Timer name;;
  _rt_timer_init p timeout parameter time flag.

Definition rt_timer_detach (p : ptr) : K Z :=
  ty ← gets (rt_object_get_type p);
  if ty =? 0 then mret RT_EOK
  else
    assert_type p RT_Object_Class_Timer;;
    assert_s (rt_object_is_systemobject p);;
    _rt_timer_remove p;;
    timer_flag_clear p RT_TIMER_FLAG_ACTIVATED;;
    rt_object_detach p;;
    mret RT_EOK.

Definition rt_timer_create (name : list Z) (timeout : timeout_fn) (parameter time flag : Z)
  : K (option nat) :=
  timer ← rt_object_allocate RT_Object_Class_Timer name;
  match timer with
  | None => mret None
  | Some n => _rt_timer_init (Obj n) timeout parameter time flag;; mret (Some n)
  end.

Definition rt_timer_delete (p : ptr) : K Z :=
  assert_type p RT_Object_Class_Timer;;
  assert_s (fun s => negb (rt_object_is_systemobject p s));;
  _rt_timer_remove p;;
  timer_flag_clear p RT_TIMER_FLAG_ACTIVATED;;
  rt_object_delete p;;
  mret RT_EOK.

Definition timer_active (p : ptr) (s : kstate) : bool :=
  flag_set (o_flag (k_obj s p)) RT_TIMER_FLAG_ACTIVATED.

Definition rt_timer_stop (p : ptr) : K Z :=
  assert_type p RT_Object_Class_Timer;;
  active ← gets (timer_active p);
  if negb active then mret (- RT_ERROR)
  else
    _rt_timer_remove p;;
    timer_flag_clear p RT_TIMER_FLAG_ACTIVATED;;
    mret RT_EOK.

Inductive timer_cmd :=
  | RT_TIMER_CTRL_SET_TIME (tick : Z)
  | RT_TIMER_CTRL_GET_TIME
  | RT_TIMER_CTRL_SET_ONESHOT
  | RT_TIMER_CTRL_SET_PERIODIC
  | RT_TIMER_CTRL_GET_STATE
  | RT_TIMER_CTRL_OTHER.

(** The result and the value stored through [arg]. *)
Definition rt_timer_control (p : ptr) (cmd : timer_cmd) : K (Z * option Z) :=
  assert_type p RT_Object_Class_Timer;;
  match cmd with
  | RT_TIMER_CTRL_GET_TIME => v ← gets (fun s => tm_init_tick (k_tmr s p)); mret (RT_EOK, Some v)
  | RT_TIMER_CTRL_SET_TIME tick => modify (alter_tmr p (set_tm_init_tick (u32 tick)));; mret (RT_EOK, None)
  | RT_TIMER_CTRL_SET_ONESHOT => timer_flag_clear p RT_TIMER_FLAG_PERIODIC;; mret (RT_EOK, None)
  | RT_TIMER_CTRL_SET_PERIODIC => timer_flag_set p RT_TIMER_FLAG_PERIODIC;; mret (RT_EOK, None)
  | RT_TIMER_CTRL_GET_STATE =>
      a ← gets (timer_active p);
      mret (RT_EOK, Some (if a : bool then RT_TIMER_FLAG_ACTIVATED else RT_TIMER_FLAG_DEACTIVATED))
  | RT_TIMER_CTRL_OTHER => mret (RT_EOK, None)
  end.

(** ** The ordered insertion of [rt_timer_start] *)

(** The inner loop over one row: [head] is [row_head[row_lvl]] ([None] the list
    head), [rest] the nodes behind it. *)
Fixpoint row_scan (tick : ptr -> Z) (timeout : Z) (head : option ptr) (rest : list ptr) : option ptr :=
  match rest with
  | [] => head
  | t :: rest =>
      if u32 (tick t - timeout) =? 0 then row_scan tick timeout (Some t) rest
      else if u32 (tick t - timeout) <? RT_TICK_MAX / 2 then head
      else row_scan tick timeout (Some t) rest
  end.

(** The nodes of a row behind a node. *)
Fixpoint behind (x : ptr) (row : list ptr) : list ptr :=
  match row with [] => [] | y :: row => if decide (y = x) then row else behind x row end.

Definition row_rest (head : option ptr) (row : list ptr) : list ptr :=
  match head with None => row | Some x => behind x row end.

(** [row_head[]]: every row is scanned from the same timer as the row above ended at. *)
Fixpoint row_heads (tick : ptr -> Z) (timeout : Z) (head : option ptr) (rows : list (list ptr))
  : list (option ptr) :=
  match rows with
  | [] => []
  | row :: rows =>
      let h := row_scan tick timeout head (row_rest head row) in
      h :: row_heads tick timeout h rows
  end.

(** [rt_list_insert_after] *)
Fixpoint insert_behind (x n : ptr) (row : list ptr) : list ptr :=
  match row with
  | [] => [n]
  | y :: row => if decide (y = x) then y :: n :: row else y :: insert_behind x n row
  end.

Definition row_insert (head : option ptr) (n : ptr) (row : list ptr) : list ptr :=
  match head with None => n :: row | Some x => insert_behind x n row end.

(** The rows above the last, from the bottom up, as long as the counter bits are 0. *)
Fixpoint insert_upper (tst_nr : Z) (n : ptr) (ups : list (option ptr * list ptr)) : list (list ptr) :=
  match ups with
  | [] => []
  | (h, row) :: rest =>
      if Z.land tst_nr RT_TIMER_SKIP_LIST_MASK =? 0
      then row_insert h n row
           :: insert_upper (Z.shiftr tst_nr (Z.shiftr (RT_TIMER_SKIP_LIST_MASK + 1) 1)) n rest
      else row :: map snd rest
  end.

Definition skip_insert (tick : ptr -> Z) (timeout tst_nr : Z) (n : ptr) (rows : list (list ptr))
  : list (list ptr) :=
  match rev (combine (row_heads tick timeout None rows) rows) with
  | [] => []
  | (h, row) :: ups => rev (row_insert h n row :: insert_upper tst_nr n ups)
  end.

(** [rt_timer_start] up to the wake-up of the timer thread. *)
Definition timer_link (p : ptr) : K unit :=
  _rt_timer_remove p;;
  timer_flag_clear p RT_TIMER_FLAG_ACTIVATED;;
  it ← gets (fun s => tm_init_tick (k_tmr s p));
  RT_ASSERT (it <? RT_TICK_MAX / 2);;
  now ← gets k_tick;
  modify (alter_tmr p (set_tm_timeout_tick (u32 (now + it))));;
  tick ← gets (fun s q => tm_timeout_tick (k_tmr s q));
  modify (fun s => set_k_random_nr (u32 (k_random_nr s + 1)) s);;
  tst_nr ← gets k_random_nr;
  soft ← gets (fun s => flag_set (o_flag (k_obj s p)) RT_TIMER_FLAG_SOFT_TIMER);
  (if soft : bool
   then modify (fun s => set_k_soft_timer_list (skip_insert tick (tick p) tst_nr p (k_soft_timer_list s)) s)
   else modify (fun s => set_k_timer_list (skip_insert tick (tick p) tst_nr p (k_timer_list s)) s));;
  timer_flag_set p RT_TIMER_FLAG_ACTIVATED.

Definition rt_system_timer_init : K unit :=
  modify (set_k_timer_list (replicate RT_TIMER_SKIP_LIST_LEVEL [])).

Definition rt_timer_next_timeout_tick : K Z := rt_timer_list_next_timeout k_timer_list.

(** ** Lemmas on the insertion *)

Lemma last_cons {A} (x y : A) q : List.last (y :: q) x = List.last q y.
Proof.
  revert x y. induction q as [| z q IH]; intros x y; [done |].
  change (List.last (z :: q) x = List.last (z :: q) y). by rewrite !IH.
Qed.

Lemma last_elem {A} (x : A) q : List.last q x ∈ x :: q.
Proof.
  revert x. induction q as [| y q IH]; intros x; [apply list_elem_of_here |].
  rewrite last_cons. apply list_elem_of_further, IH.
Qed.

Section insertion.
Variables (tick : ptr -> Z) (timeout : Z).

(** The timer expires strictly later than [timeout], in the half-range order. *)
Definition later (t : ptr) : bool :=
  negb (u32 (tick t - timeout) =? 0) && (u32 (tick t - timeout) <? RT_TICK_MAX / 2).

Fixpoint not_later_prefix (row : list ptr) : list ptr :=
  match row with [] => [] | t :: row => if later t then [] else t :: not_later_prefix row end.

Fixpoint later_suffix (row : list ptr) : list ptr :=
  match row with [] => [] | t :: row' => if later t then row else later_suffix row' end.

Lemma prefix_suffix row : row = not_later_prefix row ++ later_suffix row.
Proof. induction row as [| t row IH]; simpl; [done |]. destruct (later t); simpl; congruence. Qed.

Lemma prefix_not_later row : Forall (fun t => later t = false) (not_later_prefix row).
Proof. induction row as [| t row IH]; simpl; [done |]. destruct (later t) eqn:E; constructor; done. Qed.

Lemma suffix_head row t q : later_suffix row = t :: q -> later t = true.
Proof.
  induction row as [| u row IH]; simpl; [done |]. destruct (later u) eqn:E; [congruence | done].
Qed.

Lemma row_scan_last head row :
  row_scan tick timeout head row =
    match not_later_prefix row with [] => head | t :: q => Some (List.last q t) end.
Proof.
  revert head. induction row as [| t row IH]; intros head; cbn [row_scan not_later_prefix]; [done |].
  unfold later. destruct (u32 (tick t - timeout) =? 0); cbn [negb andb].
  - rewrite IH. destruct (not_later_prefix row) as [| u q]; [done |]. by rewrite last_cons.
  - destruct (_ <? _); [done |]. rewrite IH. destruct (not_later_prefix row) as [| u q]; [done |].
    by rewrite last_cons.
Qed.

Lemma insert_behind_last n u q l :
  NoDup (u :: q) -> insert_behind (List.last q u) n ((u :: q) ++ l) = (u :: q) ++ n :: l.
Proof.
  revert u. induction q as [| v q IH]; intros u Hnd; simpl.
  - by rewrite decide_True.
  - apply NoDup_cons in Hnd as [Hu Hnd].
    change (match q with [] => v | _ :: _ => List.last q u end) with (List.last (v :: q) u).
    rewrite last_cons. rewrite decide_False.
    + f_equal. by apply IH.
    + intros ->. apply Hu, last_elem.
Qed.

(** The new timer goes behind the longest prefix of timers that are not later. *)
Lemma row_insert_spec n row :
  NoDup row ->
  row_insert (row_scan tick timeout None row) n row = not_later_prefix row ++ n :: later_suffix row.
Proof.
  intros Hnd. rewrite row_scan_last.
  pose proof (prefix_suffix row) as E. destruct (not_later_prefix row) as [| u q] eqn:Ep.
  - simpl in *. by rewrite <- E.
  - rewrite E at 1. simpl row_insert. apply insert_behind_last.
    rewrite E in Hnd. by apply NoDup_app in Hnd as [? _].
Qed.

(** Relative to a base tick [b] from which every timer is less than half the
    range away, "later" is a comparison of distances. *)
Lemma later_dist b t :
  u32 (tick t - b) < RT_TICK_MAX / 2 -> u32 (timeout - b) < RT_TICK_MAX / 2 ->
  later t = (u32 (timeout - b) <? u32 (tick t - b)).
Proof.
  intros H1 H2. unfold later.
  replace (u32 (tick t - timeout)) with (u32 (u32 (tick t - b) - u32 (timeout - b))).
  2: { unfold wrap. rewrite <- Zminus_mod. f_equal. lia. }
  pose proof (wrap_range 32 (tick t - b) ltac:(lia)). pose proof (wrap_range 32 (timeout - b) ltac:(lia)).
  revert H1 H2. change (RT_TICK_MAX / 2) with 2147483647. change (2 ^ 32) with 4294967296 in *.
  intros H1 H2. set (x := u32 (tick t - b)) in *. set (y := u32 (timeout - b)) in *.
  destruct (Z.ltb_spec y x).
  - rewrite (wrap_small 32) by (change (2 ^ 32) with 4294967296; lia). zcases; lia.
  - destruct (Z.eqb_spec x y) as [-> |]; [rewrite Z.sub_diag; done |].
    assert (u32 (x - y) = x - y + 4294967296) as ->.
    { unfold wrap. change (2 ^ 32) with 4294967296. rewrite <- (Z.mod_add _ 1) by lia.
      apply Z.mod_small. lia. }
    zcases; lia.
Qed.

End insertion.

Lemma split_ext tick tick' timeout row : (forall q, tick q = tick' q) ->
  not_later_prefix tick timeout row = not_later_prefix tick' timeout row /\
  later_suffix tick timeout row = later_suffix tick' timeout row.
Proof.
  intros H. induction row as [| x l [IH1 IH2]]; simpl; [done |].
  replace (later tick' timeout x) with (later tick timeout x) by (unfold later; by rewrite H).
  rewrite IH1, IH2. done.
Qed.

Lemma skip_insert_one tick timeout tst n row :
  NoDup row ->
  skip_insert tick timeout tst n [row] =
    [not_later_prefix tick timeout row ++ n :: later_suffix tick timeout row].
Proof. intros. unfold skip_insert. simpl. by rewrite row_insert_spec. Qed.

(** Expiry order: distance from the base tick [b]. *)
Definition dist (b : Z) (s : kstate) (t : ptr) : Z := u32 (tm_timeout_tick (k_tmr s t) - b).

Definition expiry_sorted (b : Z) (s : kstate) (row : list ptr) : Prop :=
  StronglySorted (fun t u => dist b s t <= dist b s u) row /\
  Forall (fun t => dist b s t < RT_TICK_MAX / 2) row.

Lemma sorted_split {A} (R : A -> A -> Prop) l1 l2 :
  StronglySorted R (l1 ++ l2) <->
  StronglySorted R l1 /\ StronglySorted R l2 /\ Forall (fun x => Forall (R x) l2) l1.
Proof.
  induction l1 as [| x l1 IH]; simpl.
  - split; [intros H; repeat split; [constructor | done | constructor] | tauto].
  - split.
    + intros H. inversion_clear H as [| ? ? H1 H2]. apply IH in H1 as (? & ? & ?).
      apply Forall_app in H2 as [? ?]. repeat split; try done; constructor; done.
    + intros (H1 & H2 & H3). inversion_clear H1. inversion_clear H3. constructor.
      * apply IH. done.
      * apply Forall_app. done.
Qed.

(** ** The invariant *)

Definition hard (s : kstate) : list ptr := concat (k_timer_list s).
Definition soft (s : kstate) : list ptr := concat (k_soft_timer_list s).

(** Running timers are registered and typed; a thread timer runs only while its
    thread is suspended, is activated, calls [rt_thread_timeout] on that
    thread and is a one-shot hard timer. *)
Record timers_ok (s : kstate) : Prop := {
  tk_hard : exists row, k_timer_list s = [row];
  tk_soft : exists row, k_soft_timer_list s = [row];
  tk_nodup : NoDup (hard s) /\ NoDup (soft s);
  tk_reg : forall p, p ∈ hard s \/ p ∈ soft s ->
    p ∈ k_cont s RT_Object_Class_Timer /\ rt_object_get_type p s = RT_Object_Class_Timer;
  tk_thread : forall t, ThreadTimer t ∈ hard s -> th_state s t = RT_THREAD_SUSPEND;
  tk_active : forall t, ThreadTimer t ∈ hard s -> timer_active (ThreadTimer t) s = true;
  tk_nosoft : forall t, ThreadTimer t ∉ soft s;
  tk_fn : forall t, rt_object_get_type (ThreadTimer t) s = RT_Object_Class_Timer ->
    tm_timeout_func (k_tmr s (ThreadTimer t)) = FnThreadTimeout /\
    tm_parameter (k_tmr s (ThreadTimer t)) = Z.of_nat t /\
    flag_set (o_flag (k_obj s (ThreadTimer t))) RT_TIMER_FLAG_SOFT_TIMER = false /\
    flag_set (o_flag (k_obj s (ThreadTimer t))) RT_TIMER_FLAG_PERIODIC = false
}.

(** What thread, timer and scheduler routines leave alone. *)
Record core_frame (s s' : kstate) : Prop := {
  cf_cont : k_cont s' = k_cont s;
  cf_type : forall p, o_type (k_obj s' p) = o_type (k_obj s p);
  cf_name : forall p, o_name (k_obj s' p) = o_name (k_obj s p);
  cf_flag : forall n, o_flag (k_obj s' (Obj n)) = o_flag (k_obj s (Obj n));
  cf_sem : k_sem s' = k_sem s;
  cf_mtx : k_mtx s' = k_mtx s;
  cf_evt : k_evt s' = k_evt s;
  cf_mb : k_mb s' = k_mb s;
  cf_mq : k_mq s' = k_mq s;
  cf_lock : k_lock_nest s' = k_lock_nest s;
  cf_irq : k_interrupt_nest s' = k_interrupt_nest s;
  cf_tick : k_tick s' = k_tick s;
  cf_next : k_next s' = k_next s;
  cf_oom : k_oom s' = k_oom s;
  cf_ext : k_ext s' = k_ext s
}.

Lemma core_frame_refl s : core_frame s s.
Proof. by split. Qed.

Lemma core_frame_trans s1 s2 s3 : core_frame s1 s2 -> core_frame s2 s3 -> core_frame s1 s3.
Proof. intros [] []. split; intros; congruence. Qed.

Lemma switched_core s s' : switched s s' -> core_frame s s'.
Proof. intros (? & ? & ? & ? & ->). by split. Qed.

Lemma core_get_type s s' p : core_frame s s' -> rt_object_get_type p s' = rt_object_get_type p s.
Proof. intros H. unfold rt_object_get_type. by rewrite (cf_type _ _ H). Qed.

Lemma timers_frame s s' :
  timers_ok s -> k_timer_list s' = k_timer_list s -> k_soft_timer_list s' = k_soft_timer_list s ->
  k_cont s' = k_cont s -> k_obj s' = k_obj s ->
  (forall t, tm_timeout_func (k_tmr s' (ThreadTimer t)) = tm_timeout_func (k_tmr s (ThreadTimer t)) /\
     tm_parameter (k_tmr s' (ThreadTimer t)) = tm_parameter (k_tmr s (ThreadTimer t))) ->
  (forall t, ThreadTimer t ∈ hard s -> th_state s t = RT_THREAD_SUSPEND -> th_state s' t = RT_THREAD_SUSPEND) ->
  timers_ok s'.
Proof.
  intros [] E1 E2 E3 E4 E5 E6. unfold hard, soft, rt_object_get_type, timer_active in *.
  split; unfold hard, soft, rt_object_get_type, timer_active; rewrite ?E1, ?E2, ?E3, ?E4; auto.
  intros t Ht. destruct (E5 t) as [-> ->]. auto.
Qed.

Lemma switched_timers s s' : switched s s' -> timers_ok s -> timers_ok s'.
Proof. intros (? & ? & ? & ? & ->) H. by eapply timers_frame. Qed.

(** ** Taking a timer out of the lists *)

(** The state after [_rt_timer_remove] and the reset of the ACTIVATED flag. *)
Definition timer_unlinked (p : ptr) (s : kstate) : kstate :=
  alter_obj p (fun o => set_o_flag (clear_bits 8 (o_flag o) RT_TIMER_FLAG_ACTIVATED) o)
    (set_k_timer_list (map (premove p) (k_timer_list s))
      (set_k_soft_timer_list (map (premove p) (k_soft_timer_list s)) s)).

Lemma concat_premove (p : ptr) (rows : list (list ptr)) : concat (map (premove p) rows) = premove p (concat rows).
Proof.
  induction rows as [| r rows IH]; simpl; [done |]. rewrite IH. unfold premove.
  by rewrite filter_app.
Qed.

Lemma hard_unlinked p s : hard (timer_unlinked p s) = premove p (hard s).
Proof. apply concat_premove. Qed.
Lemma soft_unlinked p s : soft (timer_unlinked p s) = premove p (soft s).
Proof. apply concat_premove. Qed.

(** Clearing a timer flag leaves the other flags. *)
Lemma flag_clear_other b f g : Z.land f g = 0 -> 0 <= g < 256 ->
  flag_set (clear_bits 8 b f) g = flag_set b g.
Proof.
  intros Hd Hg. unfold flag_set. f_equal. f_equal. apply Z.bits_inj'. intros i Hi.
  rewrite !Z.land_spec. destruct (Z.ltb_spec i 8).
  - rewrite clear_bits_spec by lia. destruct (Z.testbit g i) eqn:E; [| by rewrite !andb_false_r].
    assert (Z.testbit f i = false) as ->; [| by rewrite andb_true_r].
    assert (Z.testbit (Z.land f g) i = false) as H' by (rewrite Hd; apply Z.bits_0).
    rewrite Z.land_spec, E, andb_true_r in H'. done.
  - assert (Z.testbit g i = false) as ->; [| by rewrite !andb_false_r].
    destruct (decide (g = 0)) as [-> |]; [apply Z.bits_0 |].
    apply Z.bits_above_log2; [lia |]. apply Z.log2_lt_pow2; [lia |].
    apply Z.lt_le_trans with (2 ^ 8); [lia | apply Z.pow_le_mono_r; lia].
Qed.

Lemma timers_unlinked p s : timers_ok s -> timers_ok (timer_unlinked p s).
Proof.
  intros [Hh Hs Hnd Hreg Hth Hac Hns Hfn].
  assert (forall q, o_type (k_obj (timer_unlinked p s) q) = o_type (k_obj s q)) as Et.
  { intros q. simpl. unfold fupd. case_decide; by subst. }
  split.
  - destruct Hh as [row E]. simpl. rewrite E. simpl. eauto.
  - destruct Hs as [row E]. simpl. rewrite E. simpl. eauto.
  - rewrite hard_unlinked, soft_unlinked. destruct Hnd. split; by apply RtList.ListQ.remove_nodup.
  - intros q Hq. rewrite hard_unlinked, soft_unlinked, !RtList.ListQ.elem_remove in Hq.
    unfold rt_object_get_type. rewrite Et. apply Hreg. tauto.
  - intros t Ht. rewrite hard_unlinked, RtList.ListQ.elem_remove in Ht. apply Hth. tauto.
  - intros t Ht. rewrite hard_unlinked, RtList.ListQ.elem_remove in Ht.
    unfold timer_active. simpl. rewrite fupd_ne by tauto. apply Hac. tauto.
  - intros t Ht. rewrite soft_unlinked, RtList.ListQ.elem_remove in Ht. exact (Hns t (proj2 Ht)).
  - intros t Ht. unfold rt_object_get_type in Ht. rewrite Et in Ht. destruct (Hfn t Ht) as (? & ? & ? & ?).
    split; [done |]. split; [done |]. simpl. unfold fupd. case_decide as Hd; [| done]. subst p. simpl.
    split; by rewrite flag_clear_other.
Qed.

Lemma core_unlinked t s : core_frame s (timer_unlinked (ThreadTimer t) s).
Proof. split; try done; intros q; simpl; unfold fupd; case_decide; by subst. Qed.

(** [rt_timer_stop] on the timer of a thread. *)
Lemma thread_timer_stop_spec t s :
  timers_ok s -> rt_object_get_type (ThreadTimer t) s = RT_Object_Class_Timer ->
  exists r s', rt_timer_stop (ThreadTimer t) s = Some (r, s') /\
    timers_ok s' /\ ThreadTimer t ∉ hard s' /\ core_frame s s' /\
    s' = set_k_timer_list (k_timer_list s') (set_k_soft_timer_list (k_soft_timer_list s')
           (set_k_obj (k_obj s') s)).
Proof.
  intros Hok Ht. unfold rt_timer_stop, assert_type. rewrite bind_assert_s by (rewrite Ht; done). krun.
  destruct (timer_active (ThreadTimer t) s) eqn:Ea; simpl negb; cbv iota.
  - unfold _rt_timer_remove, timer_flag_clear. krun. do 2 eexists. split; [reflexivity |].
    split; [by apply (timers_unlinked (ThreadTimer t)) |]. split; [| split; [apply core_unlinked | done]].
    intros Hin. change (ThreadTimer t ∈ hard (timer_unlinked (ThreadTimer t) s)) in Hin.
    rewrite hard_unlinked, RtList.ListQ.elem_remove in Hin. tauto.
  - do 2 eexists. split; [reflexivity |]. split; [done |]. split; [| split; [apply core_frame_refl | by destruct s]].
    intros Hin. rewrite (tk_active _ Hok) in Ea by done. done.
Qed.

(** ** Starting a timer *)

Definition is_soft (p : ptr) (s : kstate) : bool := flag_set (o_flag (k_obj s p)) RT_TIMER_FLAG_SOFT_TIMER.

(** The timeout ticks after [rt_timer_start] computed the one of [p]. *)
Definition new_tick (p : ptr) (s : kstate) : ptr -> Z :=
  fun q => tm_timeout_tick (fupd p
    (set_tm_timeout_tick (u32 (k_tick s + tm_init_tick (k_tmr s p))) (k_tmr s p)) (k_tmr s) q).

Lemma new_tick_eq p s q :
  new_tick p s q = if decide (q = p) then u32 (k_tick s + tm_init_tick (k_tmr s p)) else tm_timeout_tick (k_tmr s q).
Proof. unfold new_tick, fupd. by case_decide. Qed.

Lemma set_flag_active b : flag_set (Z.lor b RT_TIMER_FLAG_ACTIVATED) RT_TIMER_FLAG_ACTIVATED = true.
Proof.
  unfold flag_set. apply negb_true_iff, Z.eqb_neq, (nonzero_bit _ 0).
  by rewrite Z.land_spec, Z.lor_spec, orb_true_r.
Qed.

Lemma set_flag_other b g : Z.land RT_TIMER_FLAG_ACTIVATED g = 0 ->
  flag_set (Z.lor b RT_TIMER_FLAG_ACTIVATED) g = flag_set b g.
Proof.
  intros H. unfold flag_set. rewrite Z.land_lor_distr_l, H, Z.lor_0_r. done.
Qed.

(** [timer_link]: the timer is linked, in the list its flag selects, between the
    timers that are not later and the later ones. *)
Lemma timer_link_spec p s hrow srow :
  k_timer_list s = [hrow] -> k_soft_timer_list s = [srow] -> NoDup hrow -> NoDup srow ->
  tm_init_tick (k_tmr s p) < RT_TICK_MAX / 2 ->
  let tick := new_tick p s in
  let ins row := not_later_prefix tick (tick p) row ++ p :: later_suffix tick (tick p) row in
  exists s', timer_link p s = Some (tt, s') /\
    k_timer_list s' = [if is_soft p s then premove p hrow else ins (premove p hrow)] /\
    k_soft_timer_list s' = [if is_soft p s then ins (premove p srow) else premove p srow] /\
    (forall q, tm_timeout_tick (k_tmr s' q) = tick q) /\
    (forall q, tm_timeout_func (k_tmr s' q) = tm_timeout_func (k_tmr s q) /\
       tm_parameter (k_tmr s' q) = tm_parameter (k_tmr s q) /\
       tm_init_tick (k_tmr s' q) = tm_init_tick (k_tmr s q)) /\
    (forall q, k_obj s' q = if decide (q = p)
       then set_o_flag (Z.lor (clear_bits 8 (o_flag (k_obj s p)) RT_TIMER_FLAG_ACTIVATED)
                          RT_TIMER_FLAG_ACTIVATED) (k_obj s p) else k_obj s q) /\
    s' = set_k_timer_list (k_timer_list s') (set_k_soft_timer_list (k_soft_timer_list s')
           (set_k_obj (k_obj s') (set_k_tmr (k_tmr s') (set_k_random_nr (k_random_nr s') s)))).
Proof.
  intros Eh Es Hnh Hns Hit tick ins. unfold timer_link, _rt_timer_remove, timer_flag_clear, timer_flag_set.
  krun. simpl (tm_init_tick _). replace (tm_init_tick (k_tmr s p) <? RT_TICK_MAX / 2) with true by lia. krun.
  assert (forall r, NoDup r -> NoDup (premove p r)) as Hrm by (intros; by apply RtList.ListQ.remove_nodup).
  simpl (flag_set _ _). rewrite !fupd_eq. simpl (o_flag _).
  rewrite flag_clear_other by (unfold RT_TIMER_FLAG_SOFT_TIMER; done || lia).
  fold (is_soft p s).
  destruct (is_soft p s) eqn:Esoft; krun; (eexists; split; [reflexivity |]); cbn [k_timer_list k_soft_timer_list
    alter_obj alter_tmr set_k_obj set_k_tmr set_k_timer_list set_k_soft_timer_list set_k_random_nr];
    rewrite ?Eh, ?Es; cbn [map].
  - split; [done |]. split.
    { etransitivity; [apply skip_insert_one; by apply Hrm |]. done. }
    split; [done |]. split; [| split; [| done]]; intros q; simpl; unfold fupd; by repeat (case_decide; subst; simpl).
  - split.
    { etransitivity; [apply skip_insert_one; by apply Hrm |]. done. }
    split; [done |].
    split; [done |]. split; [| split; [| done]]; intros q; simpl; unfold fupd; by repeat (case_decide; subst; simpl).
Qed.

Lemma ins_perm tick timeout (p : ptr) row :
  not_later_prefix tick timeout row ++ p :: later_suffix tick timeout row ≡ₚ p :: row.
Proof. rewrite <- Permutation_middle. by rewrite <- prefix_suffix. Qed.

Lemma premove_perm_nodup (p : ptr) row : NoDup row -> NoDup (p :: premove p row).
Proof.
  intros H. constructor; [rewrite RtList.ListQ.elem_remove; tauto | by apply RtList.ListQ.remove_nodup].
Qed.

(** [rt_timer_start] on a registered timer keeps the timer invariant; a thread
    timer may be started when its thread is suspended. *)
Lemma timer_link_ok p s :
  timers_ok s -> p ∈ k_cont s RT_Object_Class_Timer ->
  rt_object_get_type p s = RT_Object_Class_Timer ->
  (forall t, p = ThreadTimer t -> th_state s t = RT_THREAD_SUSPEND) ->
  tm_init_tick (k_tmr s p) < RT_TICK_MAX / 2 ->
  exists s', timer_link p s = Some (tt, s') /\ timers_ok s' /\
    (forall t, p = ThreadTimer t -> core_frame s s') /\ k_lists s' = k_lists s /\ k_thr s' = k_thr s /\
    k_ready_table s' = k_ready_table s /\ k_ready_group s' = k_ready_group s /\
    k_current s' = k_current s /\
    (forall q, q ∈ hard s' \/ q ∈ soft s' -> q = p \/ q ∈ hard s \/ q ∈ soft s).
Proof.
  intros [[hrow Eh] [srow Es] [Hnh Hns] Hreg Hth Hac Hnsoft Hfn] Hp Hty Hsus Hit.
  unfold hard, soft in Hnh, Hns. rewrite Eh in Hnh. rewrite Es in Hns. simpl in Hnh, Hns.
  rewrite app_nil_r in Hnh, Hns.
  destruct (timer_link_spec p s hrow srow Eh Es Hnh Hns Hit)
    as (s' & E & Eh' & Es' & _ & Efn & Eobj & Efr). cbv zeta in *.
  assert (forall q, o_type (k_obj s' q) = o_type (k_obj s q)) as Ety.
  { intros q. rewrite Eobj. case_decide; by subst. }
  assert (hard s = hrow /\ soft s = srow) as [Ehs Ess].
  { unfold hard, soft. rewrite Eh, Es. simpl. by rewrite !app_nil_r. }
  assert (forall q, q ∈ hard s' <-> (is_soft p s = false /\ q = p) \/ (q <> p /\ q ∈ hrow)) as Hhin.
  { intros q. unfold hard. rewrite Eh'. simpl. rewrite app_nil_r. destruct (is_soft p s).
    - rewrite RtList.ListQ.elem_remove. naive_solver.
    - rewrite ins_perm, elem_of_cons, RtList.ListQ.elem_remove. destruct (decide (q = p)); naive_solver. }
  assert (forall q, q ∈ soft s' <-> (is_soft p s = true /\ q = p) \/ (q <> p /\ q ∈ srow)) as Hsin.
  { intros q. unfold soft. rewrite Es'. simpl. rewrite app_nil_r. destruct (is_soft p s).
    - rewrite ins_perm, elem_of_cons, RtList.ListQ.elem_remove. destruct (decide (q = p)); naive_solver.
    - rewrite RtList.ListQ.elem_remove. naive_solver. }
  assert (forall t, p = ThreadTimer t -> is_soft p s = false) as Hpsoft.
  { intros t ->. by apply Hfn. }
  exists s'. split; [done |].
  assert (timers_ok s') as Hok'.
  { split.
    - eauto.
    - eauto.
    - unfold hard, soft. rewrite Eh', Es'. simpl. rewrite !app_nil_r.
      destruct (is_soft p s); rewrite ins_perm; split;
        by (apply RtList.ListQ.remove_nodup || apply premove_perm_nodup).
    - intros q Hq. unfold rt_object_get_type. rewrite Ety, Efr. simpl. rewrite Hhin, Hsin in Hq.
      destruct (decide (q = p)) as [-> | Hne]; [done |]. apply Hreg. rewrite Ehs, Ess. naive_solver.
    - intros t Ht. apply Hhin in Ht. rewrite Efr. unfold th_state. simpl.
      destruct Ht as [[_ Ht] | [_ Ht]]; [by apply Hsus | apply Hth; by rewrite Ehs].
    - intros t Ht. unfold timer_active. rewrite Eobj. case_decide as Hd; [apply set_flag_active |].
      apply Hac. rewrite Ehs. apply Hhin in Ht. naive_solver.
    - intros t Ht. apply Hsin in Ht as [[Hb Ht] | [_ Ht]].
      + rewrite (Hpsoft t) in Hb by done. done.
      + apply (Hnsoft t). by rewrite Ess.
    - intros t Ht. unfold rt_object_get_type in Ht. rewrite Ety in Ht.
      destruct (Hfn t Ht) as (? & ? & ? & ?), (Efn (ThreadTimer t)) as (-> & -> & _).
      split; [done |]. split; [done |]. rewrite Eobj. case_decide as Hd; [| done]. subst p. simpl.
      split; rewrite set_flag_other by done; by rewrite flag_clear_other. }
  split; [done |]. split.
  { intros t ->. rewrite Efr. split; try done; intros q; simpl; rewrite Eobj; by repeat (case_decide; subst). }
  repeat split; try (rewrite Efr; done). intros q. rewrite Hhin, Hsin, Ehs, Ess. naive_solver.
Qed.

(** ** Theorems *)

Lemma dist_sorted_ins b s s' p row :
  let tick := fun q => tm_timeout_tick (k_tmr s' q) in
  (forall q, q ∈ row -> tick q = tm_timeout_tick (k_tmr s q)) -> expiry_sorted b s row ->
  dist b s' p < RT_TICK_MAX / 2 ->
  let l1 := not_later_prefix tick (tick p) row in
  let l2 := later_suffix tick (tick p) row in
  row = l1 ++ l2 /\ Forall (fun q => dist b s' q <= dist b s' p) l1 /\
  Forall (fun q => dist b s' p < dist b s' q) l2 /\ expiry_sorted b s' (l1 ++ p :: l2).
Proof.
  intros tick Htick [Hs Hf] Hp l1 l2. assert (row = l1 ++ l2) as E by apply prefix_suffix.
  split; [done |].
  assert (forall q, q ∈ row -> dist b s' q = dist b s q) as Hd.
  { intros q Hq. unfold dist. rewrite <- (Htick q Hq). done. }
  assert (forall q, q ∈ row -> later tick (tick p) q = (dist b s' p <? dist b s' q)) as Hl.
  { intros q Hq. apply (later_dist tick (tick p) b q); [| done].
    change (u32 (tick q - b)) with (dist b s' q). rewrite Hd by done.
    rewrite Forall_forall in Hf. by apply Hf. }
  assert (Forall (fun q => dist b s' q <= dist b s' p) l1) as H1.
  { rewrite Forall_forall. intros q Hq. pose proof (prefix_not_later tick (tick p) row) as H.
    rewrite Forall_forall in H. specialize (H q Hq). rewrite Hl in H by (rewrite E; set_solver). lia. }
  assert (StronglySorted (fun t u => dist b s' t <= dist b s' u) row) as Hs'.
  { clear -Hs Hd. induction Hs as [| x l Hs IH Hx]; constructor.
    - apply IH. intros q Hq. apply Hd. set_solver.
    - rewrite Forall_forall in Hx |- *. intros q Hq. rewrite !Hd by set_solver. by apply Hx. }
  assert (Forall (fun q => dist b s' p < dist b s' q) l2) as H2.
  { rewrite E in Hs'. apply sorted_split in Hs' as (_ & Hs2 & _).
    destruct l2 as [| x l] eqn:El; [constructor |].
    assert (dist b s' p < dist b s' x) as Hx.
    { pose proof (suffix_head tick (tick p) row x l El) as H. rewrite Hl in H; [lia |].
      rewrite E. set_solver. }
    inversion_clear Hs2 as [| ? ? _ Hxl]. constructor; [done |].
    rewrite Forall_forall in Hxl |- *. intros q Hq. specialize (Hxl q Hq). simpl in Hxl. lia. }
  split; [done |]. split; [done |]. rewrite E in Hs'. apply sorted_split in Hs' as (Hs1 & Hs2 & H12).
  split.
  - apply sorted_split. split; [done |]. split.
    + constructor; [done |]. rewrite Forall_forall in H2 |- *. intros q Hq. specialize (H2 q Hq). simpl in H2. lia.
    + rewrite Forall_forall in H12, H1 |- *. intros q Hq. constructor; [by apply H1 | by apply H12].
  - apply Forall_app. rewrite E in Hf, Hd. apply Forall_app in Hf as [Hf1 Hf2].
    rewrite Forall_forall in Hf1, Hf2. split; [| constructor; [done |]];
      rewrite Forall_forall; intros q Hq; rewrite Hd by set_solver; auto.
Qed.

Lemma sorted_remove b s p row : expiry_sorted b s row -> expiry_sorted b s (premove p row).
Proof.
  intros [Hs Hf]. split.
  - unfold premove. clear Hf. induction Hs as [| x l Hs IH Hx]; [constructor |].
    destruct (decide (x = p)) as [-> |]; [rewrite filter_cons_False by auto; done |].
    rewrite filter_cons_True by done. constructor; [done |].
    rewrite Forall_forall in Hx |- *. intros q Hq. apply list_elem_of_filter in Hq as [_ Hq]. by apply Hx.
  - rewrite Forall_forall in Hf |- *. intros q Hq. apply RtList.ListQ.elem_remove in Hq as [_ Hq]. by apply Hf.
Qed.

(** C29: starting a hard timer on a list in expiry order (measured from a base
    tick [b], so that the wrap of the tick counter does not matter) re-arms
    it at the current tick plus its period, links it behind every timer that
    expires before it or at the same tick and before every later one, and the
    list stays in expiry order with no other timer moved. *)
Theorem rt_timer_start_sorted p s row b :
  k_timer_list s = [row] -> (exists srow, k_soft_timer_list s = [srow] /\ NoDup srow) -> NoDup row ->
  is_soft p s = false -> tm_init_tick (k_tmr s p) < RT_TICK_MAX / 2 ->
  expiry_sorted b s row -> u32 (k_tick s + tm_init_tick (k_tmr s p) - b) < RT_TICK_MAX / 2 ->
  exists s' l1 l2, timer_link p s = Some (tt, s') /\
    premove p row = l1 ++ l2 /\ k_timer_list s' = [l1 ++ p :: l2] /\
    tm_timeout_tick (k_tmr s' p) = u32 (k_tick s + tm_init_tick (k_tmr s p)) /\
    Forall (fun q => dist b s' q <= dist b s' p) l1 /\
    Forall (fun q => dist b s' p < dist b s' q) l2 /\
    expiry_sorted b s' (l1 ++ p :: l2) /\ timer_active p s' = true.
Proof.
  intros Eh (srow & Es & Hns) Hnh Hsoft Hit Hsort Hrange.
  destruct (timer_link_spec p s row srow Eh Es Hnh Hns Hit)
    as (s' & E & Eh' & _ & Etick & _ & Eobj & _). cbv zeta in *. rewrite Hsoft in Eh'.
  assert (tm_timeout_tick (k_tmr s' p) = u32 (k_tick s + tm_init_tick (k_tmr s p))) as Ep.
  { rewrite Etick, new_tick_eq. by rewrite decide_True. }
  destruct (dist_sorted_ins b s s' p (premove p row)) as (H1 & H2 & H3 & H4).
  - intros q Hq. apply RtList.ListQ.elem_remove in Hq as [Hq _]. rewrite Etick, new_tick_eq.
    by rewrite decide_False.
  - by apply sorted_remove.
  - unfold dist. rewrite Ep. unfold wrap in *. rewrite Zminus_mod_idemp_l. done.
  - do 3 eexists. split; [exact E |]. split; [exact H1 |]. split; [| split; [done |]].
    + rewrite Eh'. destruct (split_ext (new_tick p s) (fun q => tm_timeout_tick (k_tmr s' q))
        (new_tick p s p) (premove p row)) as [-> ->]; [by intros q; rewrite Etick |].
      by rewrite <- (Etick p).
    + split; [done |]. split; [done |]. split; [done |].
      unfold timer_active. rewrite Eobj, decide_True by done. apply set_flag_active.
Qed.

(** ** Witness: two timers run, the new one ties with the first; the tick counter wraps *)

Definition example_timers : kstate :=
  set_k_tick 4294967290 (set_k_timer_list [[ThreadTimer 5; ThreadTimer 6]]
    (set_k_tmr (fun p => match p with
       | ThreadTimer 5 => Timer FnThreadTimeout 5 10 4
       | ThreadTimer 6 => Timer FnThreadTimeout 6 20 14
       | _ => Timer (FnUser 0) 0 10 0
       end) example)).

Lemma rt_timer_start_sorted_witness :
  exists s' l1 l2, timer_link (Obj 15) example_timers = Some (tt, s') /\
    [ThreadTimer 5; ThreadTimer 6] = l1 ++ l2 /\ k_timer_list s' = [l1 ++ Obj 15 :: l2] /\
    tm_timeout_tick (k_tmr s' (Obj 15)) = 4 /\
    Forall (fun q => dist 4294967290 s' q <= dist 4294967290 s' (Obj 15)) l1 /\
    Forall (fun q => dist 4294967290 s' (Obj 15) < dist 4294967290 s' q) l2 /\
    expiry_sorted 4294967290 s' (l1 ++ Obj 15 :: l2) /\ timer_active (Obj 15) s' = true.
Proof.
  apply (rt_timer_start_sorted (Obj 15) example_timers [ThreadTimer 5; ThreadTimer 6] 4294967290).
  - reflexivity.
  - exists []. split; [reflexivity | constructor].
  - apply (bool_decide_unpack _). reflexivity.
  - reflexivity.
  - reflexivity.
  - split.
    + repeat constructor. unfold dist. vm_compute. discriminate.
    + repeat constructor.
  - reflexivity.
Defined.

End Timer.
