(* ===== verification/Thread.v ===== *)
(** * Threads, part 1: [src/kernel/src/thread.c]

    Suspension, resumption, time-out, priority change and yield: the
    operations that move threads between the ready queues and the waiting
    lists.  Creation and deletion are in [ThreadLife]. *)

From S2P Require Import Prelude KernelTypes Kservice RtList Scheduler Object Timer.
Import Scheduler KObject Timer.

Local Open Scope Z_scope.

Module Thread.

(** ** Operations *)

Definition rt_thread_self : K (option nat) := gets k_current.

(** [thread->stat = c | (thread->stat & ~RT_THREAD_STAT_MASK)] *)
Definition change_state (t : nat) (c : Z) : K unit := modify (alter_thr t (set_state c)).

Definition rt_thread_suspend (t : nat) : K Z :=
  assert_type (Obj t) RT_Object_Class_Thread;;
  stat ← gets (fun s => th_state s t);
  if negb (stat =? RT_THREAD_READY) && negb (stat =? RT_THREAD_RUNNING) then mret (- RT_ERROR)
  else
    (if stat =? RT_THREAD_RUNNING then assert_s (fun s => bool_decide (k_current s = Some t)) else skip);;
    rt_schedule_remove_thread t;;
    change_state t RT_THREAD_SUSPEND;;
    _ ← rt_timer_stop (ThreadTimer t);
    mret RT_EOK.

Definition rt_thread_resume (t : nat) : K Z :=
  assert_type (Obj t) RT_Object_Class_Thread;;
  stat ← gets (fun s => th_state s t);
  if negb (stat =? RT_THREAD_SUSPEND) then mret (- RT_ERROR)
  else
    tlist_remove t;;
    _ ← rt_timer_stop (ThreadTimer t);
    rt_schedule_insert_thread t;;
    mret RT_EOK.

(** The timeout function of thread timers. *)
Definition rt_thread_timeout (parameter : Z) : K unit :=
  let t := Z.to_nat parameter in
  assert_s (fun s => th_state s t =? RT_THREAD_SUSPEND);;
  assert_type (Obj t) RT_Object_Class_Thread;;
  modify (alter_thr t (set_th_error RT_ETIMEOUT));;
  tlist_remove t;;
  rt_schedule_insert_thread t;;
  rt_schedule.

(** [thread->current_priority = prio], with the attributes computed from it. *)
Definition set_priority (prio : Z) (th : rt_thread) : rt_thread :=
  let prio := u8 prio in
  let number := Z.shiftr prio 3 in
  set_th_current_priority prio (set_th_number number
    (set_th_number_mask (u32 (Z.shiftl 1 number))
      (set_th_high_mask (u8 (Z.shiftl 1 (Z.land prio 0x07))) th))).

(** The [RT_THREAD_CTRL_CHANGE_PRIORITY] command of [rt_thread_control]. *)
Definition thread_change_priority (t : nat) (prio : Z) : K unit :=
  assert_type (Obj t) RT_Object_Class_Thread;;
  stat ← gets (fun s => th_state s t);
  if stat =? RT_THREAD_READY then
    rt_schedule_remove_thread t;;
    modify (alter_thr t (set_priority prio));;
    rt_schedule_insert_thread t
  else modify (alter_thr t (set_priority prio)).

(** [thread->tlist.next != thread->tlist.prev] holds of a linked node when its
    list has another node. *)
Definition rt_thread_yield : K Z :=
  cur ← gets k_current;
  t ← lift cur;
  stat ← gets (fun s => th_state s t);
  prio ← gets (fun s => th_current_priority (k_thr s t));
  q ← gets (fun s => k_lists s (LReady prio));
  if (stat =? RT_THREAD_READY) && (1 <? zlen q) then
    tlist_remove t;;
    tlist_append (LReady prio) t;;
    rt_schedule;;
    mret RT_EOK
  else mret RT_EOK.

Fixpoint thread_find_loop (l : list ptr) (name : list Z) (leave : K unit) : K (option ptr) :=
  match l with
  | [] => leave;; mret None
  | p :: l =>
      nm ← gets (fun s => o_name (k_obj s p));
      c ← lift (Kservice.rt_strncmp nm name RT_NAME_MAX);
      if c =? 0 then leave;; mret (Some p) else thread_find_loop l name leave
  end.

(** [if (rt_thread_self() != RT_NULL) rt_exit_critical();] *)
Definition self_exit_critical : K unit :=
  self ← rt_thread_self; match self with Some _ => rt_exit_critical | None => skip end.

Definition rt_thread_find (name : list Z) : K (option ptr) :=
  self ← rt_thread_self;
  match self with Some _ => rt_enter_critical | None => skip end;;
  RT_ASSERT (has_container RT_Object_Class_Thread);;
  l ← gets (fun s => k_cont s RT_Object_Class_Thread);
  thread_find_loop l name self_exit_critical.

(** The address of the [lock] field of the current thread, as the thread. *)
Definition rt_thread_get_sem_lock : K (option nat) := rt_thread_self.

(** ** The invariant of the kernel core *)

(** A schedulable thread is a registered thread object with a registered timer. *)
Definition live_ok (s : kstate) : Prop := forall t, schedulable s t ->
  rt_object_get_type (Obj t) s = RT_Object_Class_Thread /\
  rt_object_get_type (ThreadTimer t) s = RT_Object_Class_Timer /\
  ThreadTimer t ∈ k_cont s RT_Object_Class_Timer.

(** The invariant, with thread [x] left out of the queues. *)
Record core_ok_but (x : option nat) (s : kstate) : Prop := {
  co_sched : sched_ok_but x s;
  co_timers : timers_ok s;
  co_live : live_ok s
}.
Abbreviation core_ok := (core_ok_but None).

Lemma live_frame s s' : live_ok s -> core_frame s s' ->
  (forall t, schedulable s' t -> schedulable s t) -> live_ok s'.
Proof.
  intros H Hf Hs t Ht. rewrite !(core_get_type _ _ _ Hf), (cf_cont _ _ Hf). by apply H, Hs.
Qed.

Lemma switched_core_ok x s s' : switched s s' -> core_ok_but x s -> core_ok_but x s'.
Proof.
  intros Hsw [H1 H2 H3]. split; [by eapply switched_sched | by eapply switched_timers |].
  eapply live_frame; [done | by apply switched_core |]. by destruct Hsw as (? & ? & ? & ? & ->).
Qed.

Lemma keeps_core_schedule x : keeps (core_ok_but x) rt_schedule.
Proof.
  intros s H. eapply wlp_mono; [apply rt_schedule_frame |]. intros ? s' Hs.
  eapply switched_core_ok; [exact Hs | done].
Qed.

(** Thread fields that neither the scheduler nor the timers look at. *)
Lemma core_alter_same x t f s : sched_same f -> core_ok_but x s -> core_ok_but x (alter_thr t f s).
Proof.
  intros Hf [H1 H2 H3]. destruct (Hf (k_thr s t)) as (E & _).
  assert (forall u, th_state (alter_thr t f s) u = th_state s u) as Est.
  { intros u. unfold th_state. rewrite alter_thr_lookup. case_decide; subst; congruence. }
  split; [by apply alter_thr_same | |].
  - eapply timers_frame; try done. intros u _. by rewrite Est.
  - eapply live_frame; [done | by split |]. intros u. unfold schedulable. by rewrite Est.
Qed.

Lemma same_error e : sched_same (set_th_error e).
Proof. by intros []. Qed.
Lemma same_event_set e : sched_same (set_th_event_set e).
Proof. by intros []. Qed.
Lemma same_event_info e : sched_same (set_th_event_info e).
Proof. by intros []. Qed.
Lemma same_remaining e : sched_same (set_th_remaining_tick e).
Proof. by intros []. Qed.

#[export] Hint Resolve same_error same_event_set same_event_info same_remaining : rtt.

(** ** Specifications *)

Lemma set_state_masks c th : masks_ok th -> masks_ok (set_state c th).
Proof. by intros []. Qed.

Lemma set_state_stack c th : stack_overflow (set_state c th) = stack_overflow th.
Proof. done. Qed.

Lemma state_alter_ne s t u f : u <> t -> th_state (alter_thr t f s) u = th_state s u.
Proof. intros H. unfold th_state. by rewrite alter_thr_lookup, decide_False. Qed.

(** The effect of [rt_thread_suspend] on a ready thread. *)
Record suspended (t : nat) (s s' : kstate) : Prop := {
  su_lists : forall h, k_lists s' h = lremove t (k_lists s h);
  su_self : k_thr s' t = set_state RT_THREAD_SUSPEND (k_thr s t);
  su_other : forall u, u <> t -> k_thr s' u = k_thr s u;
  su_frame : core_frame s s';
  su_timer : ThreadTimer t ∉ hard s';
  su_tmr : k_tmr s' = k_tmr s;
  su_current : k_current s' = k_current s
}.

Lemma thread_suspend_spec t s :
  core_ok s -> th_state s t = RT_THREAD_READY ->
  exists s', rt_thread_suspend t s = Some (RT_EOK, s') /\ core_ok_but (Some t) s' /\
    suspended t s s' /\ th_state s' t = RT_THREAD_SUSPEND.
Proof.
  intros [Hs Ht Hl] Hst. destruct (Hl t) as (Hty & Htt & Htc); [by left |].
  unfold rt_thread_suspend, assert_type. rewrite bind_assert_s by (rewrite Hty; done). krun.
  rewrite Hst. change (RT_THREAD_READY =? RT_THREAD_READY) with true. cbn [negb andb]. change (RT_THREAD_READY =? RT_THREAD_RUNNING) with false. cbv iota. krun.
  pose proof (th_masks _ _ (proj1 Hs) t ltac:(done) ltac:(by left)) as Hm.
  destruct (remove_thread_spec t s Hs Hm) as (T & G & E & Hok). cbv zeta in *.
  rewrite (run_bind _ _ _ _ _ E). unfold change_state. krun.
  set (s1 := set_k_ready_group G _) in *. set (s2 := alter_thr t (set_state RT_THREAD_SUSPEND) s1).
  assert (th_state s2 t = RT_THREAD_SUSPEND) as Hst2 by (by apply set_state_state).
  assert (timers_ok s2) as Ht2.
  { eapply timers_frame; try done. intros u Hu Hsu. destruct (decide (u = t)) as [-> |]; [done |].
    unfold s2. by rewrite state_alter_ne. }
  destruct (thread_timer_stop_spec t s2 Ht2 Htt) as (r & s3 & E3 & Ht3 & Hno & Hf3 & Es3).
  rewrite (run_bind _ _ _ _ _ E3).
  assert (forall u, th_state s3 u = th_state s2 u) as Est3 by (rewrite Es3; done).
  exists s3. split; [done |].
  assert (core_frame s s3) as Hf by (eapply core_frame_trans; [| exact Hf3]; by split).
  split; [split |].
  - rewrite Es3. eapply sched_frame; [by apply (alter_thr_out t (set_state RT_THREAD_SUSPEND)) | done..].
  - done.
  - eapply live_frame; [done | done |]. intros u. unfold schedulable. rewrite Est3.
    destruct (decide (u = t)) as [-> |]; [rewrite Hst; tauto |]. unfold s2. by rewrite state_alter_ne.
  - split; [| by rewrite Est3]. split; try (rewrite Es3; done); try done.
    + rewrite Es3. simpl. by rewrite fupd_eq.
    + intros u Hu. rewrite Es3. simpl. by rewrite fupd_ne.
Qed.

(** The thread alone, in no list. *)
Lemma thread_suspend_core t s :
  core_ok s -> th_state s t = RT_THREAD_READY ->
  exists s', rt_thread_suspend t s = Some (RT_EOK, s') /\ core_ok s' /\ suspended t s s' /\
    th_state s' t = RT_THREAD_SUSPEND.
Proof.
  intros Hok Hst. destruct (thread_suspend_spec t s Hok Hst) as (s1 & E1 & [H1 H2 H3] & Hsu & Hst1).
  exists s1. split; [done |]. split; [| done]. split; [| done..]. eapply sched_release; [exact H1 | by rewrite Hst1 |].
  intros _. rewrite (su_self _ _ _ Hsu). destruct Hok as [[Ht _] _ _]. split.
  - apply set_state_masks, (th_masks _ _ Ht); [done | by left].
  - rewrite set_state_stack. apply (th_stack _ _ Ht); [done | by left].
Qed.

(** The effect of making a thread ready. *)
Record made_ready (t : nat) (f : rt_thread -> rt_thread) (s s' : kstate) : Prop := {
  mr_lists : forall h, k_lists s' h =
    if decide (h = LReady (th_current_priority (k_thr s t))) then lremove t (k_lists s h) ++ [t]
    else lremove t (k_lists s h);
  mr_self : k_thr s' t = set_state RT_THREAD_READY (f (k_thr s t));
  mr_other : forall u, u <> t -> k_thr s' u = k_thr s u;
  mr_frame : core_frame s s';
  mr_tmr : k_tmr s' = k_tmr s;
  mr_timer : ThreadTimer t ∉ hard s';
  mr_current : k_current s' = k_current s
}.

Lemma made_ready_state t f s s' u : made_ready t f s s' ->
  th_state s' u = if decide (u = t) then RT_THREAD_READY else th_state s u.
Proof.
  intros H. unfold th_state. case_decide as Hu.
  - subst. rewrite (mr_self _ _ _ _ H). by apply stat_set.
  - by rewrite (mr_other _ _ _ _ H).
Qed.

Lemma hard_eq s s' : k_timer_list s' = k_timer_list s -> hard s' = hard s.
Proof. intros E. unfold hard. by rewrite E. Qed.

(** Inserting a thread that is linked nowhere and whose timer does not run. *)
Lemma insert_core_spec t s :
  sched_ok_but (Some t) s -> timers_ok s -> live_ok s -> schedulable s t ->
  masks_ok (k_thr s t) -> stack_overflow (k_thr s t) = false -> ThreadTimer t ∉ hard s ->
  exists s', rt_schedule_insert_thread t s = Some (tt, s') /\ core_ok s' /\
    k_lists s' = k_lists (alter_list (LReady (th_current_priority (k_thr s t))) (fun q => push_back q t) s) /\
    k_thr s' = fupd t (set_state RT_THREAD_READY (k_thr s t)) (k_thr s) /\
    core_frame s s' /\ k_tmr s' = k_tmr s /\ k_timer_list s' = k_timer_list s /\ k_current s' = k_current s.
Proof.
  intros Hs Ht Hl Hsc Hm Hst Hno. destruct (insert_thread_spec t s Hs Hm Hst) as (T & G & E & Hok).
  cbv zeta in *. eexists. split; [exact E |]. split; [| by repeat split].
  split; [exact Hok | |].
  - eapply timers_frame; try done. intros u Hu Hsu. assert (u <> t) by (intros ->; done).
    unfold th_state. simpl. by rewrite fupd_ne.
  - eapply live_frame; [done | by split |]. intros u. destruct (decide (u = t)) as [-> |]; [done |].
    unfold schedulable, th_state. simpl. by rewrite fupd_ne.
Qed.

Lemma thread_resume_spec t s :
  core_ok s -> th_state s t = RT_THREAD_SUSPEND ->
  exists s', rt_thread_resume t s = Some (RT_EOK, s') /\ core_ok s' /\ made_ready t id s s'.
Proof.
  intros [Hs Ht Hl] Hst. destruct (Hl t) as (Hty & Htt & Htc); [by right |].
  unfold rt_thread_resume, assert_type. rewrite bind_assert_s by (rewrite Hty; done). krun.
  rewrite Hst. change (RT_THREAD_SUSPEND =? RT_THREAD_SUSPEND) with true. cbn [negb]. unfold tlist_remove. krun.
  set (s1 := set_k_lists _ s).
  assert (sched_ok_but (Some t) s1) as Hs1 by (apply sched_unlink; [done | by rewrite Hst]).
  assert (timers_ok s1) as Ht1 by (by eapply timers_frame).
  destruct (thread_timer_stop_spec t s1 Ht1 Htt) as (r & s2 & E2 & Ht2 & Hno & Hf2 & Es2).
  rewrite (run_bind _ _ _ _ _ E2).
  assert (k_thr s2 = k_thr s) as Ethr by (rewrite Es2; done).
  pose proof (th_masks _ _ (proj1 Hs) t ltac:(done) ltac:(by right)) as Hm.
  pose proof (th_stack _ _ (proj1 Hs) t ltac:(done) ltac:(by right)) as Hso.
  assert (core_frame s s2) as Hf by (eapply core_frame_trans; [| exact Hf2]; by split).
  destruct (insert_core_spec t s2) as (s3 & E3 & Hok3 & El & Eth & Hf3 & Etm & Ehd & Ecur).
  - rewrite Es2. by eapply sched_frame.
  - done.
  - eapply live_frame; [done | exact Hf |]. intros u. unfold schedulable, th_state. by rewrite Ethr.
  - right. unfold th_state. by rewrite Ethr.
  - by rewrite Ethr.
  - by rewrite Ethr.
  - done.
  - rewrite (run_bind _ _ _ _ _ E3). exists s3. split; [done |]. split; [done |]. split.
    + intros h. rewrite El, Ethr, Es2. simpl. unfold fupd, push_back. case_decide; by subst.
    + rewrite Eth, fupd_eq, Ethr. done.
    + intros u Hu. by rewrite Eth, fupd_ne, Ethr.
    + by eapply core_frame_trans.
    + by rewrite Etm, Es2.
    + by rewrite (hard_eq _ _ Ehd).
    + by rewrite Ecur, Es2.
Qed.

(** Scheduling is possible when some thread is ready. *)
Definition some_ready (s : kstate) : Prop := exists p, 0 <= p < 256 /\ k_lists s (LReady p) <> [].

Lemma rt_schedule_total s :
  sched_ok s -> is_Some (k_current s) -> some_ready s ->
  exists s', rt_schedule s = Some (tt, s') /\ switched s s' /\ is_Some (k_current s').
Proof.
  intros Hok [c Hc] Hr. destruct (decide (k_lock_nest s = 0)) as [Hn | Hn].
  - destruct (rt_schedule_spec s c Hok Hn Hc Hr) as (t & p & s' & E & _ & Hc' & Hsw & _).
    exists s'. split; [done |]. split; [done |]. rewrite Hc'. eauto.
  - exists s. unfold rt_schedule. krun. rewrite (proj2 (Z.eqb_neq _ _) Hn).
    split; [done |]. split; [apply switched_refl |]. rewrite Hc. eauto.
Qed.

Lemma ready_some_ready s t : sched_ok s -> th_state s t = RT_THREAD_READY -> some_ready s.
Proof.
  intros [Ht _] Hst. exists (th_current_priority (k_thr s t)).
  split; [apply mk_prio, (th_masks _ _ Ht); [done | by left] |].
  intros E. pose proof (th_ready _ _ Ht t ltac:(done) Hst) as H. rewrite E in H. by apply elem_of_nil in H.
Qed.

Lemma made_ready_switched_ok t f s s1 : core_ok s1 -> made_ready t f s s1 -> is_Some (k_current s) ->
  exists s', rt_schedule s1 = Some (tt, s') /\ switched s1 s' /\ core_ok s' /\ is_Some (k_current s').
Proof.
  intros Hok Hm Hc. destruct (rt_schedule_total s1) as (s' & E & Hsw & Hc').
  - apply Hok.
  - by rewrite (mr_current _ _ _ _ Hm).
  - apply (ready_some_ready _ t); [apply Hok |]. rewrite (made_ready_state _ _ _ _ _ Hm).
    by rewrite decide_True.
  - exists s'. split; [done |]. split; [done |]. split; [by eapply switched_core_ok | done].
Qed.

(** The components above the core do not matter to it. *)
Lemma core_ext x e s : core_ok_but x s -> core_ok_but x (set_k_ext e s).
Proof. intros [H1 H2 H3]. split; [by eapply sched_frame | by eapply timers_frame | exact H3]. Qed.

Lemma schedule_core s :
  core_ok s -> is_Some (k_current s) -> some_ready s ->
  exists s', rt_schedule s = Some (tt, s') /\ core_ok s' /\ switched s s' /\ is_Some (k_current s').
Proof.
  intros Hok Hc Hr. destruct (rt_schedule_total s) as (s' & E & Hsw & Hc'); [apply Hok | done | done |].
  exists s'. split; [done |]. split; [by eapply switched_core_ok | done].
Qed.

Lemma thread_resume_ready t s : core_ok s -> th_state s t = RT_THREAD_READY -> rt_thread_resume t s = Some (- RT_ERROR, s).
Proof.
  intros Hok Hst. destruct (co_live _ _ Hok t) as (Hty & _); [by left |].
  unfold rt_thread_resume, assert_type. rewrite bind_assert_s by (exact (proj2 (Z.eqb_eq _ _) Hty)). krun. by rewrite Hst.
Qed.

Lemma thread_timeout_spec t s :
  core_ok s -> th_state s t = RT_THREAD_SUSPEND -> ThreadTimer t ∉ hard s -> is_Some (k_current s) ->
  exists s1 s', rt_thread_timeout (Z.of_nat t) s = Some (tt, s') /\ core_ok s' /\
    made_ready t (set_th_error RT_ETIMEOUT) s s1 /\ switched s1 s' /\ is_Some (k_current s') /\
    k_timer_list s1 = k_timer_list s.
Proof.
  intros [Hs Ht Hl] Hst Hno Hc. destruct (Hl t) as (Hty & Htt & Htc); [by right |].
  unfold rt_thread_timeout. rewrite Nat2Z.id. rewrite bind_assert_s by (rewrite Hst; done).
  unfold assert_type. rewrite bind_assert_s by (rewrite Hty; done). unfold tlist_remove. krun.
  set (s0 := alter_thr t (set_th_error RT_ETIMEOUT) s).
  assert (core_ok s0) as [Hs0 Ht0 Hl0] by (apply core_alter_same; [apply same_error | done]).
  assert (th_state s0 t = RT_THREAD_SUSPEND) as Hst0.
  { unfold th_state, s0. rewrite alter_thr_lookup, decide_True by done. exact Hst. }
  set (s1 := set_k_lists _ s0).
  destruct (insert_core_spec t s1) as (s3 & E3 & Hok3 & El & Eth & Hf3 & Etm & Ehd & Ecur).
  - apply sched_unlink; [done | by rewrite Hst0].
  - by eapply timers_frame.
  - eapply live_frame; [done | by split | done].
  - by right.
  - by apply (th_masks _ _ (proj1 Hs0)); [| right].
  - by apply (th_stack _ _ (proj1 Hs0)); [| right].
  - done.
  - rewrite (run_bind _ _ _ _ _ E3).
    assert (made_ready t (set_th_error RT_ETIMEOUT) s s3) as Hm.
    { split.
      - intros h. assert (th_current_priority (k_thr s1 t) = th_current_priority (k_thr s t)) as Ep
          by (simpl; by rewrite fupd_eq).
        rewrite El, Ep. simpl. unfold fupd, push_back. case_decide; by subst.
      - rewrite Eth, fupd_eq. simpl. by rewrite fupd_eq.
      - intros u Hu. rewrite Eth, fupd_ne by done. simpl. by rewrite fupd_ne.
      - eapply core_frame_trans; [| exact Hf3]. by split.
      - by rewrite Etm.
      - by rewrite (hard_eq _ _ Ehd).
      - by rewrite Ecur. }
    destruct (made_ready_switched_ok _ _ _ _ Hok3 Hm Hc) as (s' & E' & Hsw & Hok' & Hc').
    exists s3, s'. done.
Qed.

(** ** Priority change *)

Lemma set_priority_masks prio th : masks_ok (set_priority prio th) /\
  th_current_priority (set_priority prio th) = u8 prio.
Proof.
  pose proof (wrap_range 8 prio ltac:(lia)) as Hp. change (2 ^ 8) with 256 in Hp.
  destruct (prio_split (u8 prio) Hp) as (Hn & Hb & _).
  split; [| done]. split; simpl; try done.
  - apply wrap_small. apply one_range. lia.
  - apply wrap_small. apply one_range. lia.
Qed.

Definition reprioritized (t : nat) (prio : Z) (s s' : kstate) : Prop :=
  (forall h, k_lists s' h =
    if decide (th_state s t = RT_THREAD_READY) then
      if decide (h = LReady (u8 prio)) then lremove t (k_lists s h) ++ [t] else lremove t (k_lists s h)
    else k_lists s h) /\
  (forall u, th_state s' u = th_state s u) /\
  (forall u, th_error (k_thr s' u) = th_error (k_thr s u)) /\
  (forall u, th_current_priority (k_thr s' u) =
    if decide (u = t) then u8 prio else th_current_priority (k_thr s u)) /\
  core_frame s s' /\ k_current s' = k_current s /\ k_tmr s' = k_tmr s /\ hard s' = hard s.

Lemma set_state_same_state c t s u : th_state s t = c -> 0 <= c < 8 ->
  th_state (alter_thr t (set_state c) s) u = th_state s u.
Proof.
  intros H Hc. destruct (decide (u = t)) as [-> |]; [by rewrite set_state_state | by rewrite state_alter_ne].
Qed.

Lemma change_priority_spec t prio s :
  core_ok s -> rt_object_get_type (Obj t) s = RT_Object_Class_Thread ->
  exists s', thread_change_priority t prio s = Some (tt, s') /\ core_ok s' /\ reprioritized t prio s s'.
Proof.
  intros [Hs Ht Hl] Hty. unfold thread_change_priority, assert_type.
  rewrite bind_assert_s by (rewrite Hty; done). krun.
  destruct (set_priority_masks prio (k_thr s t)) as [Hm Hp].
  destruct (Z.eqb_spec (th_state s t) RT_THREAD_READY) as [Hst | Hst].
  - pose proof (th_masks _ _ (proj1 Hs) t ltac:(done) ltac:(by left)) as Hm0.
    destruct (remove_thread_spec t s Hs Hm0) as (T & G & E & Hok). cbv zeta in *.
    rewrite (run_bind _ _ _ _ _ E). krun. set (s1 := set_k_ready_group G _) in *.
    set (s2 := alter_thr t (set_priority prio) s1).
    assert (k_thr s2 t = set_priority prio (k_thr s t)) as E2.
    { unfold s2. by rewrite alter_thr_lookup, decide_True. }
    assert (forall u, th_state s2 u = th_state s u) as Est2.
    { intros u. destruct (decide (u = t)) as [-> |]; [| unfold s2; by rewrite state_alter_ne].
      unfold th_state. by rewrite E2. }
    destruct (insert_core_spec t s2) as (s3 & E3 & Hok3 & El & Eth & Hf3 & Etm & Ehd & Ecur).
    + by apply alter_thr_out.
    + eapply timers_frame; try done. intros u _. by rewrite Est2.
    + eapply live_frame; [done | by split |]. intros u. unfold schedulable. by rewrite Est2.
    + left. by rewrite Est2.
    + by rewrite E2.
    + rewrite E2. by apply (th_stack _ _ (proj1 Hs)); [| left].
    + intros Hin. pose proof (tk_thread _ Ht t Hin) as H. by rewrite Hst in H.
    + exists s3. split; [done |]. split; [done |]. split.
      { intros h. rewrite El, E2, (decide_True _ _ Hst). simpl. unfold fupd, push_back.
        case_decide; by subst. }
      split.
      { intros u. unfold th_state at 1. rewrite Eth. unfold fupd. case_decide as Hu.
        - subst. rewrite E2. rewrite Hst. by apply stat_set.
        - exact (Est2 u). }
      split.
      { intros u. rewrite Eth. unfold fupd. case_decide as Hu; [subst; by rewrite E2 |].
        unfold s2. rewrite alter_thr_lookup, decide_False by done. done. }
      split.
      { intros u. rewrite Eth. unfold fupd. case_decide as Hu; [subst; by rewrite E2 |].
        unfold s2. rewrite alter_thr_lookup, decide_False by done. done. }
      split; [eapply core_frame_trans; [| exact Hf3]; by split |]. rewrite Ecur, Etm, (hard_eq _ _ Ehd). done.
  - set (s2 := alter_thr t (set_priority prio) s).
    assert (k_thr s2 t = set_priority prio (k_thr s t)) as E2.
    { unfold s2. by rewrite alter_thr_lookup, decide_True. }
    assert (forall u, th_state s2 u = th_state s u) as Est2.
    { intros u. destruct (decide (u = t)) as [-> |]; [| unfold s2; by rewrite state_alter_ne].
      unfold th_state. by rewrite E2. }
    exists s2. split; [done |]. split; [split |].
    + destruct Hs as [[] Hb]. split; [| by eapply bitmap_same]. split; try done.
      * intros h u Hu. specialize (th_listed0 h u Hu). unfold list_state in *.
        destruct h; rewrite ?Est2; try done. destruct th_listed0 as [H1 H2]. split; [done |].
        unfold s2. rewrite alter_thr_lookup, decide_False; [done | intros ->; done].
      * intros u _. rewrite Est2. intros Hu. unfold s2.
        rewrite alter_thr_lookup, decide_False; [by apply th_ready0 | intros ->; done].
      * intros u _. unfold schedulable. rewrite Est2. intros Hu.
        destruct (decide (u = t)) as [-> |]; [by rewrite E2 |].
        unfold s2. rewrite alter_thr_lookup, decide_False by done. by apply th_masks0.
      * intros u _. unfold schedulable. rewrite Est2. intros Hu.
        destruct (decide (u = t)) as [-> |]; [rewrite E2; by apply th_stack0 |].
        unfold s2. rewrite alter_thr_lookup, decide_False by done. by apply th_stack0.
    + eapply timers_frame; try done. intros u _. by rewrite Est2.
    + eapply live_frame; [done | by split |]. intros u. unfold schedulable. by rewrite Est2.
    + split; [intros h; by rewrite decide_False |]. split; [done |].
      split; [| split; [| by repeat split]]; intros u; unfold s2; rewrite alter_thr_lookup; by case_decide; subst.
Qed.

(** ** Yield *)

(** The first thread of a list moved to its end. *)
Definition rot1 (l : list nat) : list nat := match l with [] => [] | t :: q => q ++ [t] end.

(** The current thread [t] heads the highest non-empty ready list. *)
Record runs_first (s : kstate) (p : Z) (l : list nat) : Prop := {
  rf_prio : 0 <= p < 256;
  rf_list : k_lists s (LReady p) = l;
  rf_above : forall r, 0 <= r < p -> k_lists s (LReady r) = [];
  rf_current : k_current s = head l;
  rf_some : is_Some (head l);
  rf_lock : k_lock_nest s = 0
}.

Lemma requeue_core_ok t q p s : core_ok s -> k_lists s (LReady p) = t :: q -> 
  core_ok (alter_list (LReady p) (fun q => push_back q t) (set_k_lists (fun h => lremove t (k_lists s h)) s)).
Proof.
  intros [[Ht Hb] Htm Hl] Hq. set (s1 := set_k_lists _ s).
  assert (t ∈ k_lists s (LReady p)) as Hin by (rewrite Hq; apply list_elem_of_here).
  pose proof (th_listed _ _ Ht _ _ Hin) as [Hst Hp].
  pose proof (th_nodup _ _ Ht (LReady p)) as Hnd. rewrite Hq in Hnd. apply NoDup_cons in Hnd as [Htq Hnd].
  assert (forall h, h <> LReady p -> lremove t (k_lists s h) = k_lists s h) as Ho.
  { intros h Hh. apply lremove_id. intros Hin'. apply Hh. by eapply (th_disj _ _ Ht). }
  split; [split | by eapply timers_frame | by eapply live_frame].
  - eapply (threads_link t (LReady p) s1); [by eapply threads_unlink | done | | | | |].
    + simpl. rewrite fupd_eq. unfold push_back. by rewrite Permutation_app_comm.
    + intros k Hk. simpl. by rewrite fupd_ne.
    + done.
    + intros _. by apply (th_masks _ _ Ht); [| left].
    + intros _. by apply (th_stack _ _ Ht); [| left].
  - eapply bitmap_same; [done | done | done |]. intros r Hr. simpl. unfold fupd.
    case_decide as Hd; [injection Hd as -> | rewrite Ho by done; done].
    rewrite Hq, lremove_head by done. by destruct q.
Qed.

Lemma yield_spec s p t q :
  core_ok s -> runs_first s p (t :: q) ->
  exists s', rt_thread_yield s = Some (RT_EOK, s') /\ core_ok s' /\ runs_first s' p (rot1 (t :: q)) /\
    k_thr s' = k_thr s /\ core_frame s s'.
Proof.
  intros Hok [Hp Hq Habove Hc _ Hlock].
  assert (th_state s t = RT_THREAD_READY /\ th_current_priority (k_thr s t) = p) as [Hst Htp].
  { apply (th_listed _ _ (proj1 (co_sched _ _ Hok)) (LReady p)). rewrite Hq. apply list_elem_of_here. }
  unfold rt_thread_yield. krun. rewrite Hc. change (head (t :: q)) with (Some t). krun. rewrite Hst, Htp, Hq.
  destruct q as [| u r].
  - exists s. split; [done |]. split; [done |]. split; [| by split; [| apply core_frame_refl]].
    by split.
  - replace ((RT_THREAD_READY =? RT_THREAD_READY) && (1 <? zlen (t :: u :: r))) with true
      by (symmetry; apply andb_true_iff; split; [done | apply Z.ltb_lt; cbn [length]; lia]).
    unfold tlist_remove, tlist_append. krun.
    pose proof (requeue_core_ok t (u :: r) p s Hok Hq) as Hok1.
    pose proof (th_nodup _ _ (proj1 (co_sched _ _ Hok)) (LReady p)) as Hnd.
    rewrite Hq in Hnd. apply NoDup_cons in Hnd as [Htq _].
    set (s1 := alter_list _ _ _) in *.
    assert (k_lists s1 (LReady p) = u :: r ++ [t]) as Hq1.
    { simpl. rewrite fupd_eq, Hq, lremove_head by done. done. }
    assert (forall x, 0 <= x < p -> k_lists s1 (LReady x) = []) as Hab1.
    { intros x Hx. simpl. rewrite fupd_ne by (intros [= ->]; lia). rewrite Habove by done. done. }
    destruct (rt_schedule_spec s1 t) as (v & x & s' & E & Hh & Hc' & Hsw & _); [apply Hok1 | done | done | |].
    { exists p. split; [done |]. by rewrite Hq1. }
    assert (highest_ready s1 u p) as Hh1 by (split; [done | split; [eauto | done]]).
    destruct (highest_ready_fun _ _ _ _ _ Hh Hh1) as [-> ->].
    rewrite (run_bind _ _ _ _ _ E). exists s'. split; [done |].
    split; [by eapply switched_core_ok |]. split; [| split].
    + destruct Hsw as (? & ? & ? & ? & ->). split; try done.
    + by destruct Hsw as (? & ? & ? & ? & ->).
    + eapply core_frame_trans; [| by apply switched_core]. by split.
Qed.

Fixpoint yields (n : nat) : K unit :=
  match n with O => skip | S n => _ ← rt_thread_yield; yields n end.

Lemma rot1_rotate l n : Nat.iter n rot1 l = rotate n l.
Proof.
  unfold rotate. induction n as [| n IH]; [by rewrite Nat.Div0.mod_0_l, drop_0, app_nil_r |].
  cbn [Nat.iter nat_rect]. change (nat_rect _ _ _ n) with (Nat.iter n rot1 l). rewrite IH.
  destruct l as [| x l]; [by rewrite !drop_nil, !take_nil |]. set (k := length (x :: l)).
  assert (0 < k)%nat by (unfold k; simpl; lia).
  pose proof (Nat.mod_upper_bound n k ltac:(lia)).
  destruct (drop (n mod k) (x :: l)) as [| y d] eqn:Ed.
  { apply (f_equal length) in Ed. rewrite length_drop in Ed.
    change (length (x :: l)) with k in Ed. change (length []) with O in Ed. lia. }
  change (rot1 ((y :: d) ++ take (n mod k) (x :: l))) with ((d ++ take (n mod k) (x :: l)) ++ [y]).
  assert ((x :: l) !! (n mod k)%nat = Some y) as Hy.
  { rewrite <- (Nat.add_0_r (n mod k)), <- lookup_drop, Ed. done. }
  assert (drop (S (n mod k)) (x :: l) = d) as Ed'.
  { pose proof (drop_S _ _ _ Hy) as H'. rewrite Ed in H'. congruence. }
  destruct (decide (S (n mod k) = k)) as [Hk | Hk].
  - assert (S n mod k = 0)%nat as ->.
    { rewrite <- Nat.add_1_r, <- Nat.Div0.add_mod_idemp_l, Nat.add_1_r, Hk. apply Nat.Div0.mod_same. }
    rewrite drop_0, app_nil_r. rewrite Hk in Ed'. unfold k in Ed'. rewrite drop_all in Ed'. subst d.
    rewrite app_nil_l. rewrite <- (take_S_r _ _ _ Hy), Hk. unfold k. by rewrite take_ge.
  - assert (S n mod k = S (n mod k))%nat as ->.
    { rewrite <- Nat.add_1_r, <- Nat.Div0.add_mod_idemp_l, Nat.add_1_r. apply Nat.mod_small. lia. }
    rewrite Ed', (take_S_r _ _ _ Hy). by rewrite app_assoc.
Qed.

Lemma yields_spec n s p l :
  core_ok s -> runs_first s p l ->
  exists s', yields n s = Some (tt, s') /\ core_ok s' /\ runs_first s' p (Nat.iter n rot1 l).
Proof.
  revert s l. induction n as [| n IH]; intros s l Hok Hr; [by exists s |].
  destruct l as [| t q]; [destruct (rf_some _ _ _ Hr) as [? H]; done |].
  destruct (yield_spec s p t q Hok Hr) as (s1 & E & Hok1 & Hr1 & _).
  destruct (IH s1 _ Hok1 Hr1) as (s2 & E2 & Hok2 & Hr2).
  exists s2. simpl yields. rewrite (run_bind _ _ _ _ _ E). split; [done |]. split; [done |].
  rewrite Nat.iter_succ_r. done.
Qed.

(** ** Theorems *)

(** C35: round robin: when the threads [l] share the highest ready priority and the
    first of them runs, then after any number of [rt_thread_yield] calls,
    each made by the thread that then runs, the call number [n] hands the
    processor to the thread at position [n] modulo the length of [l], so every
    one of them runs again within one round. *)
Theorem rt_thread_yield_round_robin s p l n :
  core_ok s -> runs_first s p l ->
  exists s', yields n s = Some (tt, s') /\ core_ok s' /\
    k_lists s' (LReady p) = rotate n l /\ k_current s' = l !! (n mod length l)%nat.
Proof.
  intros Hok Hr. destruct (yields_spec n s p l Hok Hr) as (s' & E & Hok' & Hr').
  exists s'. split; [done |]. split; [done |]. rewrite rot1_rotate in Hr'.
  split; [apply Hr' |]. rewrite (rf_current _ _ _ Hr'). unfold rotate.
  destruct l as [| t q]; [destruct (rf_some _ _ _ Hr) as [? H]; done |].
  pose proof (Nat.mod_upper_bound n (length (t :: q)) ltac:(simpl; lia)).
  destruct (lookup_lt_is_Some_2 (t :: q) (n mod length (t :: q))%nat) as [y Hy]; [done |].
  by rewrite (drop_S _ _ _ Hy).
Qed.

(** Suspending a ready thread takes it, and no other, out of the ready queue
    and stops its timer; resuming it puts it at the end of the ready list of its
    priority; the kernel invariant holds after both, and both report an error
    and change nothing on a thread in the wrong state. *)
Theorem rt_thread_suspend_resume s t :
  core_ok s -> th_state s t = RT_THREAD_READY ->
  exists s1 s2, rt_thread_suspend t s = Some (RT_EOK, s1) /\ core_ok s1 /\
    th_state s1 t = RT_THREAD_SUSPEND /\ (forall h, t ∉ k_lists s1 h) /\ ThreadTimer t ∉ hard s1 /\
    rt_thread_suspend t s1 = Some (- RT_ERROR, s1) /\
    rt_thread_resume t s1 = Some (RT_EOK, s2) /\ core_ok s2 /\
    rt_thread_resume t s2 = Some (- RT_ERROR, s2) /\
    k_lists s2 (LReady (th_current_priority (k_thr s t)))
      = lremove t (k_lists s (LReady (th_current_priority (k_thr s t)))) ++ [t] /\
    forall h, h <> LReady (th_current_priority (k_thr s t)) -> k_lists s2 h = k_lists s h.
Proof.
  intros Hok Hst. destruct (thread_suspend_core t s Hok Hst) as (s1 & E1 & Hok1' & Hsu & Hst1).
  destruct (thread_resume_spec t s1 Hok1' Hst1) as (s2 & E2 & Hok2 & Hmr).
  assert (th_state s2 t = RT_THREAD_READY) as Hst2.
  { rewrite (made_ready_state _ _ _ _ _ Hmr). by rewrite decide_True. }
  destruct (co_live _ _ Hok1' t) as (Hty & _); [by right |].
  assert (th_current_priority (k_thr s1 t) = th_current_priority (k_thr s t)) as Ep
    by by rewrite (su_self _ _ _ Hsu).
  assert (forall h, t ∉ lremove t (k_lists s h)) as Hno by (intros h; rewrite elem_lremove; tauto).
  exists s1, s2. split; [done |]. split; [done |]. split; [done |].
  split; [intros h; rewrite (su_lists _ _ _ Hsu); apply Hno |]. split; [apply Hsu |].
  split; [unfold rt_thread_suspend, assert_type; rewrite bind_assert_s by (rewrite Hty; done); krun; by rewrite Hst1 |].
  split; [done |]. split; [done |]. split.
  { unfold rt_thread_resume, assert_type.
    rewrite bind_assert_s by (rewrite (core_get_type _ _ _ (mr_frame _ _ _ _ Hmr)), Hty; done).
    krun. by rewrite Hst2. }
  split.
  - rewrite (mr_lists _ _ _ _ Hmr), Ep, decide_True, (su_lists _ _ _ Hsu) by done.
    by rewrite (lremove_id _ _ (Hno _)).
  - intros h Hh. rewrite (mr_lists _ _ _ _ Hmr), Ep, decide_False, (su_lists _ _ _ Hsu) by done.
    rewrite (lremove_id _ _ (Hno _)). apply lremove_id. intros Hin. apply Hh.
    destruct Hok as [[Ht _] _ _]. eapply (th_disj _ _ Ht); [exact Hin | by apply (th_ready _ _ Ht)].
Qed.

(** Changing the priority of a thread keeps the kernel invariant; a ready
    thread moves to the end of the ready list of its new priority; a thread
    that is not ready keeps its place in every list, also in a waiting list
    ordered by priority. *)
Theorem rt_thread_change_priority_spec s t prio :
  core_ok s -> rt_object_get_type (Obj t) s = RT_Object_Class_Thread ->
  exists s', thread_change_priority t prio s = Some (tt, s') /\ core_ok s' /\
    th_current_priority (k_thr s' t) = u8 prio /\
    (forall u, u <> t -> th_current_priority (k_thr s' u) = th_current_priority (k_thr s u)) /\
    (th_state s t = RT_THREAD_READY -> exists q, k_lists s' (LReady (u8 prio)) = q ++ [t] /\ t ∉ q) /\
    (th_state s t <> RT_THREAD_READY -> forall h, k_lists s' h = k_lists s h).
Proof.
  intros Hok Hty. destruct (change_priority_spec t prio s Hok Hty) as (s' & E & Hok' & Hl & _ & _ & Hp & _).
  exists s'. split; [done |]. split; [done |]. split; [by rewrite Hp, decide_True |].
  split; [intros u Hu; by rewrite Hp, decide_False |]. split.
  - intros Hst. exists (lremove t (k_lists s (LReady (u8 prio)))).
    rewrite Hl, !decide_True by done. split; [done |]. rewrite elem_lremove. tauto.
  - intros Hst h. by rewrite Hl, decide_False.
Qed.

(** ** Witnesses *)

Lemma example_core : core_ok example.
Proof.
  split.
  - apply example_ok.
  - split; try (simpl; eauto; done).
    + split; constructor.
    + intros p [H | H]; by apply elem_of_nil in H.
    + intros t H. by apply elem_of_nil in H.
    + intros t H. by apply elem_of_nil in H.
    + intros t H. by apply elem_of_nil in H.
  - intros t Ht. assert (t = 0 \/ t = 1 \/ t = 2 \/ t = 3 \/ t = 4)%nat as Hc.
    { destruct t as [| [| [| [| [| ]]]]]; try lia. destruct Ht; done. }
    assert (ThreadTimer t ∈ map ThreadTimer [0; 1; 2; 3; 4]%nat) as Hin.
    { apply list_elem_of_fmap. exists t. split; [done |].
      rewrite !elem_of_cons. naive_solver. }
    split; [| split; [done | by apply list_elem_of_further]].
    by destruct Hc as [-> | [-> | [-> | [-> | ->]]]].
Qed.

Lemma example_runs : runs_first example 10 [2; 3]%nat.
Proof.
  split; try done; try lia.
  intros r Hr. simpl. unfold fupd.
  repeat (case_decide as He; [injection He as ->; lia | clear He]). done.
Qed.

Lemma rt_thread_yield_round_robin_witness :
  exists s', yields 3 example = Some (tt, s') /\ core_ok s' /\
    k_lists s' (LReady 10) = [3; 2]%nat /\ k_current s' = Some 3%nat.
Proof. apply (rt_thread_yield_round_robin example 10 [2; 3]%nat 3); [apply example_core | apply example_runs]. Defined.

Lemma rt_thread_suspend_resume_witness :
  exists s1 s2, rt_thread_suspend 2 example = Some (RT_EOK, s1) /\ core_ok s1 /\
    th_state s1 2 = RT_THREAD_SUSPEND /\ (forall h, 2%nat ∉ k_lists s1 h) /\ ThreadTimer 2 ∉ hard s1 /\
    rt_thread_suspend 2 s1 = Some (- RT_ERROR, s1) /\
    rt_thread_resume 2 s1 = Some (RT_EOK, s2) /\ core_ok s2 /\
    rt_thread_resume 2 s2 = Some (- RT_ERROR, s2) /\
    k_lists s2 (LReady 10) = [3; 2]%nat /\
    forall h, h <> LReady 10 -> k_lists s2 h = k_lists example h.
Proof. apply (rt_thread_suspend_resume example 2); [apply example_core | reflexivity]. Defined.

Lemma rt_thread_change_priority_spec_witness :
  exists s', thread_change_priority 2 20 example = Some (tt, s') /\ core_ok s' /\
    th_current_priority (k_thr s' 2%nat) = 20 /\
    (forall u, u <> 2%nat -> th_current_priority (k_thr s' u) = th_current_priority (k_thr example u)) /\
    (th_state example 2 = RT_THREAD_READY -> exists q, k_lists s' (LReady 20) = q ++ [2%nat] /\ 2%nat ∉ q) /\
    (th_state example 2 <> RT_THREAD_READY -> forall h, k_lists s' h = k_lists example h).
Proof. apply (rt_thread_change_priority_spec example 2 20); [apply example_core | reflexivity]. Defined.

End Thread.
