(* ===== verification/TimerRun.v ===== *)
(** * Timers, part 2, and the clock: [src/kernel/src/timer.c], [clock.c], the
    sleeping routines of [thread.c]

    [rt_timer_start] with the wake-up of the timer thread, the two checks that
    run expired timers, the tick interrupt and the delays.  The timeout functions
    of drivers and applications are a parameter ([user_timeout]).  The checks
    loop while timers expire; [fuel] bounds the number of timers run, and a
    check that would run on for ever is one that fails for every [fuel]. *)

From Stdlib Require Import Sorted.
From S2P Require Import Prelude KernelTypes Kservice RtList Scheduler Object Timer Thread.
Import Scheduler KObject Timer Thread.

Local Open Scope Z_scope.

Module TimerRun.

(** ** Operations *)

(** [static struct rt_thread timer_thread] *)
Definition timer_thread : nat := 1.

Definition rt_timer_start (p : ptr) : K Z :=
  assert_type p RT_Object_Class_Timer;;
  timer_link p;;
  soft ← gets (is_soft p);
  stat ← gets (fun s => th_state s timer_thread);
  (if soft && negb (stat =? RT_THREAD_READY)
   then _ ← rt_thread_resume timer_thread; rt_schedule else skip);;
  mret RT_EOK.

(** [rt_timer_control(&(thread->thread_timer), RT_TIMER_CTRL_SET_TIME, &tick);
    rt_timer_start(&(thread->thread_timer));] *)
Definition start_thread_timer (t : nat) (tick : Z) : K unit :=
  _ ← rt_timer_control (ThreadTimer t) (RT_TIMER_CTRL_SET_TIME tick);
  _ ← rt_timer_start (ThreadTimer t);
  skip.

(** [rt_thread_sleep], up to [rt_schedule]: what follows it is [rt_thread_sleep_after],
    run by the thread once it is current again. *)
Definition rt_thread_sleep (tick : Z) : K unit :=
  cur ← gets k_current;
  t ← lift cur;
  assert_type (Obj t) RT_Object_Class_Thread;;
  _ ← rt_thread_suspend t;
  start_thread_timer t tick;;
  rt_schedule.

Definition rt_thread_sleep_after (t : nat) : K Z :=
  modify (alter_thr t (fun th => if th_error th =? RT_ETIMEOUT then set_th_error RT_EOK th else th));;
  mret RT_EOK.

Definition rt_thread_delay (tick : Z) : K unit := rt_thread_sleep tick.

(** [true]: the thread sleeps and goes on with [rt_thread_delay_until_after]; the
    second component is the new value of [*tick]. *)
Definition rt_thread_delay_until (tick inc_tick : Z) : K (bool * Z) :=
  cur ← gets k_current;
  t ← lift cur;
  assert_type (Obj t) RT_Object_Class_Thread;;
  cur_tick ← gets k_tick;
  if u32 (cur_tick - tick) <? inc_tick then
    let tick := u32 (tick + inc_tick) in
    let left_tick := u32 (tick - cur_tick) in
    _ ← rt_thread_suspend t;
    start_thread_timer t left_tick;;
    rt_schedule;;
    mret (true, tick)
  else mret (false, cur_tick).

Definition rt_thread_delay_until_after (t : nat) : K Z :=
  modify (alter_thr t (fun th => if th_error th =? - RT_ETIMEOUT then set_th_error RT_EOK th else th));;
  mret RT_EOK.

Definition rt_tick_get : K Z := gets k_tick.
Definition rt_uptime_tick_get : K Z := gets k_tick_uptime.
Definition rt_tick_set (tick : Z) : K unit := modify (set_k_tick (u32 tick)).

(** C division truncates; [ms] is not negative where it is used. *)
Definition rt_tick_from_millisecond (ms : Z) : Z :=
  if ms <? 0 then u32 (-1)
  else u32 (u32 (RT_TICK_PER_SECOND * (ms ÷ 1000))
            + (RT_TICK_PER_SECOND * (Z.rem ms 1000) + 999) ÷ 1000).

Definition rt_tick_get_millisecond : K Z := gets (fun s => u32 (k_tick s * (1000 / RT_TICK_PER_SECOND))).

Definition rt_thread_mdelay (ms : Z) : K unit := rt_thread_sleep (rt_tick_from_millisecond ms).

Section checks.
Variable user_timeout : Z -> Z -> K unit.

(** [t->timeout_func(t->parameter)] *)
Definition call_timeout (p : ptr) : K unit :=
  fn ← gets (fun s => tm_timeout_func (k_tmr s p));
  parameter ← gets (fun s => tm_parameter (k_tmr s p));
  match fn with
  | FnThreadTimeout => rt_thread_timeout parameter
  | FnUser f => user_timeout f parameter
  end.

(** An expired timer: removal, callback, restart or stop.  The result is the
    tick read again after the callback. *)
Definition timer_fire (p : ptr) : K Z :=
  _rt_timer_remove p;;
  call_timeout p;;
  current_tick ← rt_tick_get;
  flag ← gets (fun s => o_flag (k_obj s p));
  timer_flag_clear p RT_TIMER_FLAG_ACTIVATED;;
  (if flag_set flag RT_TIMER_FLAG_PERIODIC && flag_set flag RT_TIMER_FLAG_ACTIVATED
   then _ ← rt_timer_start p; skip
   else skip);;
  mret current_tick.

Definition expired (current_tick : Z) (p : ptr) (s : kstate) : bool :=
  u32 (current_tick - tm_timeout_tick (k_tmr s p)) <? RT_TICK_MAX / 2.

Fixpoint timer_check_loop (fuel : nat) (current_tick : Z) : K unit :=
  match fuel with
  | O => fail
  | S fuel =>
      rows ← gets k_timer_list;
      row ← lift (rows !! (RT_TIMER_SKIP_LIST_LEVEL - 1)%nat);
      match row with
      | [] => skip
      | t :: _ =>
          e ← gets (expired current_tick t);
          if e : bool then current_tick ← timer_fire t; timer_check_loop fuel current_tick else skip
      end
  end.

Definition rt_timer_check (fuel : nat) : K unit :=
  current_tick ← rt_tick_get; timer_check_loop fuel current_tick.

(** [n->next] in the row of soft timers; a node that is in no row is linked to itself. *)
Definition soft_next (n : ptr) (s : kstate) : option ptr :=
  let row := default [] (last (k_soft_timer_list s)) in
  if decide (n ∈ row) then head (behind n row) else Some n.

(** The loop of [rt_soft_timer_check]; the cursor [None] is the list head. *)
Fixpoint soft_timer_check_loop (fuel : nat) (current_tick : Z) (n : option ptr) : K unit :=
  match fuel with
  | O => fail
  | S fuel =>
      match n with
      | None => skip
      | Some t =>
          e ← gets (expired current_tick t);
          if e : bool then
            n ← gets (soft_next t);
            current_tick ← timer_fire t;
            soft_timer_check_loop fuel current_tick n
          else skip
      end
  end.

Definition rt_soft_timer_check (fuel : nat) : K unit :=
  current_tick ← rt_tick_get;
  rows ← gets k_soft_timer_list;
  row ← lift (rows !! (RT_TIMER_SKIP_LIST_LEVEL - 1)%nat);
  soft_timer_check_loop fuel current_tick (head row).

(** One round of [rt_thread_timer_entry] up to the point where the timer thread
    waits, if it does ([true]); then comes [rt_soft_timer_check]. *)
Definition rt_thread_timer_entry : K bool :=
  next_timeout ← rt_timer_list_next_timeout k_soft_timer_list;
  if next_timeout =? RT_TICK_MAX then
    self ← gets k_current;
    t ← lift self;
    _ ← rt_thread_suspend t;
    rt_schedule;;
    mret true
  else
    current_tick ← rt_tick_get;
    if u32 (next_timeout - current_tick) <? RT_TICK_MAX / 2 then
      rt_thread_delay (u32 (next_timeout - current_tick));;
      mret true
    else mret false.

(** The clock interrupt. *)
Definition rt_tick_increase (fuel : nat) : K unit :=
  modify (fun s => set_k_tick (u32 (k_tick s + 1)) (set_k_tick_uptime (wrap 64 (k_tick_uptime s + 1)) s));;
  self ← gets k_current;
  t ← lift self;
  modify (alter_thr t (fun th => set_th_remaining_tick (u32 (th_remaining_tick th - 1)) th));;
  th ← gets (fun s => k_thr s t);
  (if th_remaining_tick th =? 0 then
     modify (alter_thr t (set_th_remaining_tick (th_init_tick th)));;
     _ ← rt_thread_yield; skip
   else skip);;
  rt_timer_check fuel.

End checks.

(** ** Lemmas *)

Lemma premove_rows_id (p : ptr) rows : p ∉ concat rows -> map (premove p) rows = rows.
Proof.
  induction rows as [| r rows IH]; simpl; intros H; [done |].
  rewrite RtList.ListQ.remove_id, IH by set_solver. done.
Qed.

(** Clearing the ACTIVATED flag of a timer that is in no list. *)
Lemma timers_flag_clear p s : timers_ok s -> p ∉ hard s -> p ∉ soft s ->
  timers_ok (alter_obj p (fun o => set_o_flag (clear_bits 8 (o_flag o) RT_TIMER_FLAG_ACTIVATED) o) s).
Proof.
  intros Hok Hh Hs. pose proof (timers_unlinked p s Hok) as H. unfold timer_unlinked in H.
  rewrite !premove_rows_id in H by done. by destruct s.
Qed.

Lemma core_remove_timer p s : core_ok s ->
  core_ok (set_k_timer_list (map (premove p) (k_timer_list s))
    (set_k_soft_timer_list (map (premove p) (k_soft_timer_list s)) s)).
Proof.
  intros [Hs Ht Hl]. set (s1 := set_k_timer_list _ _).
  assert (hard s1 = premove p (hard s)) as Eh by apply concat_premove.
  assert (soft s1 = premove p (soft s)) as Es by apply concat_premove.
  split; [by eapply sched_frame | | by eapply live_frame].
  destruct Ht as [[hr Hh] [sr Hsf] [Hn1 Hn2] Hreg Hth Hac Hns Hfn].
  split; try done.
  - simpl. rewrite Hh. simpl. eauto.
  - simpl. rewrite Hsf. simpl. eauto.
  - rewrite Eh, Es. split; by apply RtList.ListQ.remove_nodup.
  - intros q Hq. rewrite Eh, Es, !RtList.ListQ.elem_remove in Hq. apply Hreg. tauto.
  - intros t Hq. rewrite Eh, RtList.ListQ.elem_remove in Hq. apply Hth. tauto.
  - intros t Hq. rewrite Eh, RtList.ListQ.elem_remove in Hq. apply Hac. tauto.
  - intros t Hq. rewrite Es, RtList.ListQ.elem_remove in Hq. exact (Hns t (proj2 Hq)).
Qed.

Section firing.
Variable user_timeout : Z -> Z -> K unit.

Abbreviation fire := (timer_fire user_timeout).
Abbreviation check_loop := (timer_check_loop user_timeout).

(** The threads [ts] are ready with the time-out error; the others are as before. *)
Definition timed_out (ts : list nat) (s s' : kstate) : Prop :=
  (forall t, t ∈ ts -> th_state s' t = RT_THREAD_READY /\ th_error (k_thr s' t) = RT_ETIMEOUT) /\
  (forall t, t ∉ ts -> k_thr s' t = k_thr s t) /\
  k_tmr s' = k_tmr s /\ k_tick s' = k_tick s /\ is_Some (k_current s').

(** A thread timer fires: the thread becomes ready and the timer stops. *)
Lemma thread_timer_fire t row s :
  core_ok s -> k_timer_list s = [ThreadTimer t :: row] -> is_Some (k_current s) ->
  exists s', fire (ThreadTimer t) s = Some (k_tick s, s') /\ core_ok s' /\
    k_timer_list s' = [row] /\ timed_out [t] s s'.
Proof.
  intros Hok Hrow Hc. unfold timer_fire, _rt_timer_remove. krun.
  pose proof (co_timers _ _ Hok) as Htm.
  assert (ThreadTimer t ∈ hard s) as Hin.
  { unfold hard. rewrite Hrow. simpl. apply list_elem_of_here. }
  pose proof (tk_thread _ Htm t Hin) as Hst.
  destruct (tk_nodup _ Htm) as [Hnd _]. unfold hard in Hnd. rewrite Hrow in Hnd. simpl in Hnd.
  rewrite app_nil_r in Hnd. apply NoDup_cons in Hnd as [Htrow Hnd].
  pose proof (core_remove_timer (ThreadTimer t) s Hok) as Hok1.
  set (s1 := set_k_timer_list _ _) in *.
  assert (k_timer_list s1 = [row]) as Hrow1.
  { change (map (premove (ThreadTimer t)) (k_timer_list s) = [row]). rewrite Hrow. cbn [map].
    by rewrite RtList.ListQ.remove_head. }
  assert (ThreadTimer t ∉ hard s1) as Hno1.
  { unfold hard. rewrite Hrow1. simpl. by rewrite app_nil_r. }
  destruct (tk_fn _ Htm t) as (Hfn & Hpar & _ & Hper); [by apply (tk_reg _ Htm); left |].
  unfold call_timeout. krun.
  change (k_tmr s1) with (k_tmr s). rewrite Hfn, Hpar.
  destruct (thread_timeout_spec t s1 Hok1 Hst Hno1 Hc) as (s2 & s3 & E & Hok3 & Hmr & Hsw & Hc3 & Hl2).
  rewrite (run_bind _ _ _ _ _ E). unfold rt_tick_get, timer_flag_clear. krun.
  assert (k_obj s3 = k_obj s2 /\ k_timer_list s3 = k_timer_list s2 /\ k_soft_timer_list s3 = k_soft_timer_list s2
    /\ k_thr s3 = k_thr s2 /\ k_tmr s3 = k_tmr s2 /\ k_tick s3 = k_tick s2) as (Eo & Etl & Esl & Eth & Etm & Etk)
    by by destruct Hsw as (? & ? & ? & ? & ->).
  assert (k_timer_list s3 = [row]) as Hrow3 by congruence.
  assert (ThreadTimer t ∉ hard s3) as Hno3.
  { unfold hard. rewrite Hrow3. simpl. by rewrite app_nil_r. }
  pose proof (mr_frame _ _ _ _ Hmr) as Hf.
  destruct (tk_fn _ (co_timers _ _ Hok3) t) as (_ & _ & _ & Hper3).
  { unfold rt_object_get_type. rewrite Eo, (cf_type _ _ Hf). by apply (tk_reg _ Htm); left. }
  rewrite Hper3. simpl andb. cbv iota. krun.
  eexists. split; [unfold mret, K_ret; f_equal; f_equal; rewrite Etk, (cf_tick _ _ Hf); done |].
  split; [| split; [exact Hrow3 |]].
  - destruct Hok3 as [H1 H2 H3]. split; [by eapply sched_frame | |].
    + apply timers_flag_clear; [done | done | by apply (tk_nosoft _ H2)].
    + intros u Hu. specialize (H3 u Hu). unfold rt_object_get_type in *.
      assert (forall q, o_type (k_obj (alter_obj (ThreadTimer t) (fun o =>
          set_o_flag (clear_bits 8 (o_flag o) RT_TIMER_FLAG_ACTIVATED) o) s3) q) = o_type (k_obj s3 q)) as Et.
      { intros q. simpl. unfold fupd. by case_decide; subst. }
      rewrite !Et. exact H3.
  - repeat split; simpl.
    + apply list_elem_of_singleton in H as ->. unfold th_state. simpl. rewrite Eth.
      change (th_state s2 t = RT_THREAD_READY). rewrite (made_ready_state _ _ _ _ _ Hmr).
      by rewrite decide_True.
    + apply list_elem_of_singleton in H as ->. rewrite Eth, (mr_self _ _ _ _ Hmr). done.
    + intros u Hu. rewrite Eth, (mr_other _ _ _ _ Hmr); [done |]. intros ->. apply Hu. set_solver.
    + by rewrite Etm, (mr_tmr _ _ _ _ Hmr).
    + by rewrite Etk, (cf_tick _ _ Hf).
    + done.
Qed.

Lemma check_loop_spec ts rest s fuel :
  core_ok s -> k_timer_list s = [map ThreadTimer ts ++ rest] -> is_Some (k_current s) ->
  (forall t, t ∈ ts -> expired (k_tick s) (ThreadTimer t) s = true) ->
  (forall p q, rest = p :: q -> expired (k_tick s) p s = false) ->
  (length ts < fuel)%nat ->
  exists s', check_loop fuel (k_tick s) s = Some (tt, s') /\ core_ok s' /\
    k_timer_list s' = [rest] /\ timed_out ts s s'.
Proof.
  revert s fuel. induction ts as [| t ts IH]; intros s fuel Hok Hrow Hc He Hr Hf.
  - destruct fuel as [| fuel]; [lia |]. simpl. krun. rewrite Hrow. simpl. krun.
    exists s. assert (timed_out [] s s) as Ht by (split; [intros t Ht; by apply elem_of_nil in Ht | by repeat split]).
    destruct rest as [| p q]; [done |]. krun. by rewrite (Hr p q eq_refl).
  - destruct fuel as [| fuel]; [simpl in Hf; lia |]. simpl. krun. rewrite Hrow. simpl. krun.
    rewrite He by apply list_elem_of_here.
    destruct (thread_timer_fire t (map ThreadTimer ts ++ rest) s Hok Hrow Hc)
      as (s1 & E1 & Hok1 & Hrow1 & Hto1 & Hoth1 & Etm1 & Etk1 & Hc1).
    rewrite (run_bind _ _ _ _ _ E1).
    assert (t ∉ ts) as Htn.
    { destruct (tk_nodup _ (co_timers _ _ Hok)) as [Hnd _]. unfold hard in Hnd. rewrite Hrow in Hnd.
      simpl in Hnd. apply NoDup_cons in Hnd as [Hnd _]. intros Hin. apply Hnd.
      rewrite app_nil_r. apply elem_of_app. left. by apply list_elem_of_fmap_2. }
    destruct (IH s1 fuel) as (s2 & E2 & Hok2 & Hrow2 & Hto2 & Hoth2 & Etm2 & Etk2 & Hc2); try done.
    + intros u Hu. unfold expired. rewrite Etm1, Etk1. apply He. set_solver.
    + intros p q Hp. unfold expired. rewrite Etm1, Etk1. by apply (Hr p q).
    + simpl in Hf. lia.
    + rewrite Etk1 in E2. exists s2. split; [done |]. split; [done |]. split; [done |].
      split; [| split; [| by rewrite Etm2, Etk2]].
      * intros u Hu. apply elem_of_cons in Hu as [-> | Hu]; [| by apply Hto2].
        unfold th_state. rewrite Hoth2 by done. apply Hto1. set_solver.
      * intros u Hu. rewrite Hoth2, Hoth1 by set_solver. done.
Qed.

End firing.

(** ** Theorems *)

(** C30: the timer interrupt runs exactly the expired timers: when the hard
    timer list starts with the timers of the threads [ts], all expired, and the
    next one is not, [rt_timer_check] terminates, makes every thread of [ts]
    ready with the error RT_ETIMEOUT, stops their timers, leaves the other
    timers and threads alone and keeps the kernel invariant. *)
Theorem rt_timer_check_fires user_timeout ts rest s fuel :
  core_ok s -> k_timer_list s = [map ThreadTimer ts ++ rest] -> is_Some (k_current s) ->
  (forall t, t ∈ ts -> expired (k_tick s) (ThreadTimer t) s = true) ->
  (forall p q, rest = p :: q -> expired (k_tick s) p s = false) ->
  (length ts < fuel)%nat ->
  exists s', rt_timer_check user_timeout fuel s = Some (tt, s') /\ core_ok s' /\
    k_timer_list s' = [rest] /\ timed_out ts s s'.
Proof. intros. unfold rt_timer_check, rt_tick_get. krun. by apply check_loop_spec. Qed.

(** ** Starting the timer of a suspended thread *)

Lemma timer_control_set_time p tick s :
  rt_object_get_type p s = RT_Object_Class_Timer ->
  rt_timer_control p (RT_TIMER_CTRL_SET_TIME tick) s
    = Some ((RT_EOK, None), alter_tmr p (set_tm_init_tick (u32 tick)) s).
Proof. intros H. unfold rt_timer_control, assert_type. rewrite bind_assert_s by (rewrite H; done). done. Qed.

(** What starting a thread timer changes. *)
Record timer_started (t : nat) (tick : Z) (s s' : kstate) : Prop := {
  ts_lists : k_lists s' = k_lists s;
  ts_thr : k_thr s' = k_thr s;
  ts_current : k_current s' = k_current s;
  ts_frame : core_frame s s';
  ts_linked : ThreadTimer t ∈ hard s';
  ts_tick : tm_timeout_tick (k_tmr s' (ThreadTimer t)) = u32 (k_tick s + u32 tick)
}.

Lemma start_thread_timer_spec x t tick s :
  core_ok_but x s -> th_state s t = RT_THREAD_SUSPEND -> u32 tick < RT_TICK_MAX / 2 ->
  exists s', start_thread_timer t tick s = Some (tt, s') /\ core_ok_but x s' /\ timer_started t tick s s'.
Proof.
  intros [Hs Ht Hl] Hst Htick. destruct (Hl t) as (Hty & Htt & Htc); [by right |].
  unfold start_thread_timer. rewrite (run_bind _ _ _ _ _ (timer_control_set_time _ tick s Htt)).
  set (s1 := alter_tmr _ _ s).
  assert (timers_ok s1) as Ht1.
  { eapply timers_frame; try done. intros u. simpl. unfold fupd. by case_decide as Hd; [injection Hd as -> |]. }
  assert (tm_init_tick (k_tmr s1 (ThreadTimer t)) = u32 tick) as Ei by (simpl; by rewrite fupd_eq).
  unfold rt_timer_start, assert_type. krun. rewrite bind_assert_s by (exact (proj2 (Z.eqb_eq _ _) Htt)).
  destruct Ht1 as [[hr Hh] [sr Hsf] [Hn1 Hn2] Hreg Hth Hac Hns Hfn] eqn:Ht1'. clear Ht1'.
  unfold hard, soft in Hn1, Hn2. rewrite Hh in Hn1. rewrite Hsf in Hn2. simpl in Hn1, Hn2.
  rewrite app_nil_r in Hn1, Hn2.
  destruct (Hfn t Htt) as (_ & _ & Hsoft & _).
  destruct (timer_link_spec (ThreadTimer t) s1 hr sr Hh Hsf Hn1 Hn2) as (s2 & E2 & Eh2 & _ & Etick & _ & Eobj & _);
    [by rewrite Ei |]. cbv zeta in *.
  destruct (timer_link_ok (ThreadTimer t) s1) as (s2' & E2' & Ht2 & Hf2 & El & Eth & Etb & Egr & Ecur & _);
    try done; [by intros u [= <-] | by rewrite Ei |].
  rewrite E2 in E2'. injection E2' as <-.
  krun. rewrite (run_bind _ _ _ _ _ E2). krun.
  assert (is_soft (ThreadTimer t) s1 = false) as Hsoft1 by exact Hsoft.
  assert (is_soft (ThreadTimer t) s2 = false) as Hsoft2.
  { unfold is_soft. rewrite Eobj, decide_True by done. simpl. rewrite set_flag_other by done.
    rewrite flag_clear_other by done. exact Hsoft. }
  rewrite Hsoft2. cbn [andb]. krun. exists s2. split; [done |].
  assert (core_frame s s2) as Hf by (eapply core_frame_trans; [| by apply (Hf2 t)]; by split).
  split; [split |].
  - by eapply sched_frame.
  - done.
  - eapply live_frame; [exact Hl | done |]. intros u. unfold schedulable, th_state. by rewrite Eth.
  - split; try done.
    + unfold hard. rewrite Eh2, Hsoft1. simpl. rewrite app_nil_r, elem_of_app. right. apply list_elem_of_here.
    + rewrite Etick, new_tick_eq, decide_True by done. by rewrite Ei.
Qed.

(** The current thread [t] blocks for [tick] ticks. *)
Lemma rt_thread_sleep_spec t tick s :
  core_ok s -> k_current s = Some t -> th_state s t = RT_THREAD_READY -> k_lock_nest s = 0 ->
  u32 tick < RT_TICK_MAX / 2 -> (exists u, u <> t /\ th_state s u = RT_THREAD_READY) ->
  exists s', rt_thread_sleep tick s = Some (tt, s') /\ core_ok s' /\
    th_state s' t = RT_THREAD_SUSPEND /\ (exists u, k_current s' = Some u /\ u <> t) /\
    ThreadTimer t ∈ hard s' /\ tm_timeout_tick (k_tmr s' (ThreadTimer t)) = u32 (k_tick s + u32 tick).
Proof.
  intros Hok Hc Hst Hlock Htick (u & Hu & Hust). destruct (co_live _ _ Hok t) as (Hty & _); [by left |].
  unfold rt_thread_sleep. krun. rewrite Hc. krun. unfold assert_type.
  rewrite bind_assert_s by (rewrite Hty; done).
  destruct (thread_suspend_core t s Hok Hst) as (s1 & E1 & Hok1 & Hsu & Hst1).
  rewrite (run_bind _ _ _ _ _ E1).
  destruct (start_thread_timer_spec None t tick s1 Hok1 Hst1 Htick) as (s2 & E2 & Hok2 & Hts).
  rewrite (run_bind _ _ _ _ _ E2).
  assert (forall v, th_state s2 v = th_state s1 v) as Est2 by (intros v; unfold th_state; by rewrite (ts_thr _ _ _ _ Hts)).
  assert (th_state s2 u = RT_THREAD_READY) as Hust2.
  { rewrite Est2. unfold th_state. rewrite (su_other _ _ _ Hsu) by done. done. }
  assert (k_current s2 = Some t) as Hc2 by (by rewrite (ts_current _ _ _ _ Hts), (su_current _ _ _ Hsu)).
  assert (k_lock_nest s2 = 0) as Hl2 by (by rewrite (cf_lock _ _ (ts_frame _ _ _ _ Hts)), (cf_lock _ _ (su_frame _ _ _ Hsu))).
  destruct (rt_schedule_spec s2 t) as (v & p & s3 & E3 & Hh & Hc3 & Hsw & _);
    [apply Hok2 | done | done | apply (ready_some_ready _ u); [apply Hok2 | done] |].
  exists s3. split; [done |]. split; [by eapply switched_core_ok |].
  assert (th_state s3 t = RT_THREAD_SUSPEND) as Hst3.
  { unfold th_state. destruct Hsw as (? & ? & ? & ? & ->). simpl. fold (th_state s2 t). by rewrite Est2. }
  split; [done |]. split.
  - exists v. split; [done |]. intros ->. destruct Hh as (_ & (q & Hq) & _).
    destruct Hok2 as [[Ht2 _] _ _].
    assert (th_state s2 t = RT_THREAD_READY) as H.
    { apply (th_listed _ _ Ht2 (LReady p)). rewrite Hq. apply list_elem_of_here. }
    rewrite Est2, Hst1 in H. done.
  - assert (hard s3 = hard s2 /\ k_tmr s3 = k_tmr s2) as [-> ->] by (by destruct Hsw as (? & ? & ? & ? & ->)).
    split; [apply Hts |]. rewrite (ts_tick _ _ _ _ Hts), (cf_tick _ _ (su_frame _ _ _ Hsu)). done.
Qed.


(** [rt_thread_delay_until] arms the timer at the exact tick [*tick + inc_tick] and
    stores that tick back, whatever the current tick, so the period does not
    drift; but when the thread wakes by its timer, the code behind the call
    compares the error with -RT_ETIMEOUT while [rt_thread_timeout] stores
    RT_ETIMEOUT, and leaves the thread with that error, unlike [rt_thread_sleep]. *)
Theorem rt_thread_delay_until_periodic t tick inc s :
  core_ok s -> k_current s = Some t -> th_state s t = RT_THREAD_READY -> k_lock_nest s = 0 ->
  (exists u, u <> t /\ th_state s u = RT_THREAD_READY) ->
  0 <= tick < 2 ^ 32 -> 0 <= inc < RT_TICK_MAX / 2 -> u32 (k_tick s - tick) < inc ->
  (exists s', rt_thread_delay_until tick inc s = Some ((true, u32 (tick + inc)), s') /\ core_ok s' /\
    th_state s' t = RT_THREAD_SUSPEND /\ ThreadTimer t ∈ hard s' /\
    tm_timeout_tick (k_tmr s' (ThreadTimer t)) = u32 (tick + inc)) /\
  forall s2, th_error (k_thr s2 t) = RT_ETIMEOUT ->
    exists s3 s4, rt_thread_delay_until_after t s2 = Some (RT_EOK, s3) /\
      th_error (k_thr s3 t) = RT_ETIMEOUT /\
      rt_thread_sleep_after t s2 = Some (RT_EOK, s4) /\ th_error (k_thr s4 t) = RT_EOK.
Proof.
  intros Hok Hc Hst Hlock Hu Htick Hinc Hlate. split.
  - destruct (co_live _ _ Hok t) as (Hty & _); [by left |].
    pose proof (wrap_range 32 (k_tick s - tick) ltac:(lia)) as Hr.
    assert (u32 (u32 (tick + inc) - k_tick s) = inc - u32 (k_tick s - tick)) as Eleft.
    { transitivity (u32 (inc - u32 (k_tick s - tick))).
      - unfold wrap. rewrite Zminus_mod_idemp_l, Zminus_mod_idemp_r. f_equal. lia.
      - apply wrap_small. change (RT_TICK_MAX / 2) with 2147483647 in Hinc. change (2 ^ 32) with 4294967296. lia. }
    assert (u32 (u32 (tick + inc) - k_tick s) < RT_TICK_MAX / 2) as Hl by (rewrite Eleft; lia).
    destruct (rt_thread_sleep_spec t (u32 (u32 (tick + inc) - k_tick s)) s)
      as (s' & E & Hok' & Hst' & _ & Hin & Htk); try done; [by rewrite wrap_wrap |].
    exists s'. split; [| split; [done |]; split; [done |]; split; [done |]].
    + unfold rt_thread_delay_until. krun. rewrite Hc. krun. unfold assert_type.
      rewrite bind_assert_s by (rewrite Hty; done). krun.
      replace (u32 (k_tick s - tick) <? inc) with true by lia.
      revert E. unfold rt_thread_sleep. krun. rewrite Hc. krun. unfold assert_type.
      rewrite bind_assert_s by (rewrite Hty; done).
      unfold mbind, K_bind. destruct (rt_thread_suspend t s) as [[? sa] |]; [| done].
      destruct (start_thread_timer _ _ sa) as [[? sb] |]; [| done].
      intros ->. done.
    + rewrite Htk, wrap_wrap. unfold wrap. rewrite Zplus_mod_idemp_r.
      replace (k_tick s + ((tick + inc) mod 2 ^ 32 - k_tick s)) with ((tick + inc) mod 2 ^ 32) by lia.
      apply Zmod_mod.
  - intros s2 He. do 2 eexists. split; [reflexivity |]. split; [simpl; rewrite fupd_eq, He; exact He |].
    split; [reflexivity |]. simpl. rewrite fupd_eq, He. done.
Qed.

Lemma start_thread_timer_too_long t tick s :
  RT_TICK_MAX / 2 <= u32 tick -> start_thread_timer t tick s = None.
Proof.
  intros H. unfold start_thread_timer. unfold mbind at 1, K_bind at 1.
  destruct (rt_timer_control _ _ s) as [[r s1] |] eqn:E; [| done].
  assert (tm_init_tick (k_tmr s1 (ThreadTimer t)) = u32 tick) as Ei.
  { revert E. unfold rt_timer_control, assert_type, assert_s. krun.
    destruct (_ =? _); [| done]. krun. unfold modify, mret, K_ret, mbind, K_bind. intros [= _ <-].
    simpl. by rewrite fupd_eq. }
  unfold rt_timer_start, assert_type, assert_s. krun. destruct (_ =? _); [| done]. krun.
  unfold timer_link, _rt_timer_remove, timer_flag_clear. krun.
  simpl (tm_init_tick _). rewrite Ei. replace (u32 tick <? RT_TICK_MAX / 2) with false by lia. done.
Qed.

Lemma tick_from_millisecond_range ms : 0 <= ms < 2 ^ 31 ->
  let tick := rt_tick_from_millisecond ms in
  (tick - 1) * 1000 < ms * RT_TICK_PER_SECOND <= tick * 1000 /\ 0 <= tick < RT_TICK_MAX / 2.
Proof.
  intros Hms. change (RT_TICK_MAX / 2) with 2147483647. unfold rt_tick_from_millisecond, RT_TICK_PER_SECOND.
  replace (ms <? 0) with false by lia.
  rewrite Z.quot_div_nonneg, Z.rem_mod_nonneg by lia.
  pose proof (Z.mod_pos_bound ms 1000). pose proof (Z.div_mod ms 1000).
  rewrite Z.quot_div_nonneg by lia.
  assert (0 <= ms / 1000 <= 2147483) by lia.
  pose proof (Z.div_mod (100 * (ms mod 1000) + 999) 1000). pose proof (Z.mod_pos_bound (100 * (ms mod 1000) + 999) 1000).
  rewrite (wrap_small 32 (100 * (ms / 1000))) by (change (2 ^ 32) with 4294967296; lia).
  rewrite wrap_small by (change (2 ^ 32) with 4294967296; lia). lia.
Qed.

(** [rt_tick_from_millisecond] rounds a non-negative duration up to whole ticks,
    without overflow, to a value [rt_timer_start] accepts; a negative duration
    gives a value that the assertion of [rt_timer_start] rejects, so
    [rt_thread_mdelay] of a negative duration stops the system. *)
Theorem rt_tick_from_millisecond_spec ms :
  - 2 ^ 31 <= ms < 2 ^ 31 ->
  (0 <= ms -> let tick := rt_tick_from_millisecond ms in
     (tick - 1) * 1000 < ms * RT_TICK_PER_SECOND <= tick * 1000 /\ 0 <= tick < RT_TICK_MAX / 2) /\
  (ms < 0 -> forall s, rt_thread_mdelay ms s = None).
Proof.
  intros Hms. split.
  - intros Hp. apply tick_from_millisecond_range. lia.
  - intros Hn s. unfold rt_thread_mdelay, rt_thread_sleep.
    assert (RT_TICK_MAX / 2 <= u32 (rt_tick_from_millisecond ms)) as Hl.
    { unfold rt_tick_from_millisecond. replace (ms <? 0) with true by lia. vm_compute. discriminate. }
    krun. destruct (k_current s) as [t |]; [| done]. krun. unfold assert_type, assert_s. krun.
    destruct (_ =? _); [| done]. krun.
    unfold mbind at 1, K_bind at 1. destruct (rt_thread_suspend t s) as [[r s1] |]; [| done].
    unfold mbind, K_bind. by rewrite start_thread_timer_too_long.
Qed.

(** ** Timers of applications: two limits of the check *)

(** The running hard timer [p], alone in its list, calls the function [f]. *)
Record lone_timer (p : ptr) (f : Z) (s : kstate) : Prop := {
  lt_hard : k_timer_list s = [[p]];
  lt_soft : exists srow, k_soft_timer_list s = [srow] /\ NoDup srow /\ p ∉ srow;
  lt_type : rt_object_get_type p s = RT_Object_Class_Timer;
  lt_is_hard : is_soft p s = false;
  lt_active : timer_active p s = true;
  lt_fn : tm_timeout_func (k_tmr s p) = FnUser f;
  lt_tick : 0 <= k_tick s < 2 ^ 32;
  lt_init : 0 <= tm_init_tick (k_tmr s p) < RT_TICK_MAX / 2
}.

Definition timer_periodic (p : ptr) (s : kstate) : bool :=
  flag_set (o_flag (k_obj s p)) RT_TIMER_FLAG_PERIODIC.

Lemma lone_removed p f s : lone_timer p f s ->
  set_k_timer_list (map (premove p) (k_timer_list s))
    (set_k_soft_timer_list (map (premove p) (k_soft_timer_list s)) s) = set_k_timer_list [[]] s.
Proof.
  intros [Eh (srow & Es & _ & Hp) _ _ _ _ _ _]. rewrite Eh, Es. cbn [map].
  rewrite (RtList.ListQ.remove_id _ srow Hp). rewrite RtList.ListQ.remove_head by apply not_elem_of_nil.
  destruct s. simpl in *. by subst.
Qed.

(** Starting the removed timer again, whatever happened to its other flags. *)
Lemma lone_start p f s s1 :
  lone_timer p f s -> s1 = set_k_obj (k_obj s1) (set_k_timer_list [[]] s) ->
  o_type (k_obj s1 p) = o_type (k_obj s p) -> is_soft p s1 = false ->
  timer_periodic p s1 = timer_periodic p s ->
  exists s', rt_timer_start p s1 = Some (RT_EOK, s') /\ lone_timer p f s' /\
    k_tick s' = k_tick s /\ timer_periodic p s' = timer_periodic p s /\
    tm_init_tick (k_tmr s' p) = tm_init_tick (k_tmr s p) /\
    tm_parameter (k_tmr s' p) = tm_parameter (k_tmr s p) /\
    tm_timeout_tick (k_tmr s' p) = u32 (k_tick s + tm_init_tick (k_tmr s p)).
Proof.
  intros [Eh (srow & Es & Hns & Hp) Hty Hih Hac Hfn Htk Hit] Es1 Ety1 Hsoft1 Hper1.
  assert (rt_object_get_type p s1 = RT_Object_Class_Timer) as Hty1.
  { rewrite <- Hty. unfold rt_object_get_type. by rewrite Ety1. }
  assert (k_tmr s1 = k_tmr s /\ k_tick s1 = k_tick s /\ k_timer_list s1 = [[]] /\ k_soft_timer_list s1 = [srow])
    as (Etm1 & Etk1 & Eh1 & Es1') by (by rewrite Es1).
  destruct (timer_link_spec p s1 [] srow) as (s2 & E2 & Eh2 & Es2 & Etick & Efn & Eobj & Efr);
    [done | done | constructor | done | rewrite Etm1; apply Hit |]. cbv zeta in *.
  rewrite Hsoft1 in Eh2, Es2. rewrite (RtList.ListQ.remove_id _ srow Hp) in Es2.
  destruct (Efn p) as (Ef1 & Ef2 & Ef3).
  assert (o_flag (k_obj s2 p) = Z.lor (clear_bits 8 (o_flag (k_obj s1 p)) RT_TIMER_FLAG_ACTIVATED)
            RT_TIMER_FLAG_ACTIVATED) as Eflag2 by (by rewrite Eobj, decide_True).
  assert (is_soft p s2 = false) as Hsoft2.
  { unfold is_soft. rewrite Eflag2, set_flag_other, flag_clear_other by done. exact Hsoft1. }
  exists s2. split.
  { unfold rt_timer_start, assert_type. rewrite bind_assert_s by (rewrite Hty1; done).
    rewrite (run_bind _ _ _ _ _ E2). krun. rewrite Hsoft2. done. }
  assert (k_tick s2 = k_tick s) as Etk2 by (by rewrite Efr).
  rewrite Etm1 in *. split; [split | split; [done |]; split; [| split; [done |]; split; [done |]]].
  - done.
  - exists srow. done.
  - unfold rt_object_get_type. rewrite Eobj, decide_True by done. exact Hty1.
  - done.
  - unfold timer_active. rewrite Eflag2. apply set_flag_active.
  - by rewrite Ef1.
  - by rewrite Etk2.
  - by rewrite Ef3.
  - rewrite <- Hper1. unfold timer_periodic. rewrite Eflag2, set_flag_other, flag_clear_other by done. done.
  - by rewrite Etick, new_tick_eq, decide_True, Etk1, Etm1.
Qed.

(** A periodic hard timer with period 0, which [rt_timer_start] accepts, hangs
    the clock interrupt: once it has expired [rt_timer_check] runs it again
    and again and never returns, even when its function does nothing. *)
Theorem rt_timer_check_zero_period user_timeout p f s fuel :
  lone_timer p f s -> timer_periodic p s = true -> tm_init_tick (k_tmr s p) = 0 ->
  tm_timeout_tick (k_tmr s p) = k_tick s ->
  (forall s', user_timeout f (tm_parameter (k_tmr s p)) s' = Some (tt, s')) ->
  rt_timer_check user_timeout fuel s = None.
Proof.
  intros Hl Hper Hit Htk Hcb. unfold rt_timer_check, rt_tick_get. krun.
  remember (tm_parameter (k_tmr s p)) as a eqn:Ea. symmetry in Ea.
  revert s Hl Hper Hit Htk Ea. induction fuel as [| fuel IH]; intros s Hl Hper Hit Htk Ea; [done |].
  simpl timer_check_loop. krun. rewrite (lt_hard _ _ _ Hl). change ([[p]] !! _) with (Some [p]). krun.
  unfold expired at 1. rewrite Htk, Z.sub_diag. change (u32 0 <? RT_TICK_MAX / 2) with true. cbv iota.
  unfold timer_fire, _rt_timer_remove, call_timeout, rt_tick_get, timer_flag_clear. krun.
  rewrite (lone_removed _ _ _ Hl). change (k_tmr (set_k_timer_list _ s)) with (k_tmr s).
  rewrite (lt_fn _ _ _ Hl), Ea. rewrite (run_bind _ _ _ _ _ (Hcb _)). krun.
  change (k_obj (set_k_timer_list [[]] s) p) with (k_obj s p).
  fold (timer_periodic p s) (timer_active p s). rewrite Hper, (lt_active _ _ _ Hl). cbn [andb].
  match goal with |- context [alter_obj p ?g (set_k_timer_list [[]] s)] =>
    destruct (lone_start p f s (alter_obj p g (set_k_timer_list [[]] s)) Hl)
      as (s2 & E2 & Hl2 & Etk & Eper & Eit & Epar & Eto) end;
    [done | simpl; by rewrite fupd_eq
    | unfold is_soft; simpl; rewrite fupd_eq; simpl; rewrite flag_clear_other by done; apply (lt_is_hard _ _ _ Hl)
    | unfold timer_periodic; simpl; rewrite fupd_eq; simpl; by rewrite flag_clear_other |].
  krun. rewrite (run_bind _ _ _ _ _ E2). krun.
  change (k_tick (set_k_timer_list [[]] s)) with (k_tick s). rewrite <- Etk.
  apply IH; [done | congruence | congruence | | congruence].
  rewrite Eto, Hit, Z.add_0_r, Etk. apply wrap_small. apply (lt_tick _ _ _ Hl).
Qed.

(** A one-shot timer whose function starts it again is left running but marked
    as stopped: the check clears the ACTIVATED flag behind the callback, so
    [rt_timer_stop] fails and cannot take the timer out of the list. *)
Theorem rt_timer_check_restart_unstoppable user_timeout p f s :
  lone_timer p f s -> timer_periodic p s = false -> 0 < tm_init_tick (k_tmr s p) ->
  tm_timeout_tick (k_tmr s p) = k_tick s ->
  (forall s', user_timeout f (tm_parameter (k_tmr s p)) s' = (_ ← rt_timer_start p; skip) s') ->
  exists s', rt_timer_check user_timeout 2 s = Some (tt, s') /\
    k_timer_list s' = [[p]] /\ rt_timer_stop p s' = Some (- RT_ERROR, s').
Proof.
  intros Hl Hper Hit Htk Hcb. unfold rt_timer_check, rt_tick_get. krun.
  assert (exists m, m = 1%nat) as [m Em] by eauto. replace 2%nat with (S m) by lia.
  simpl timer_check_loop. krun. rewrite (lt_hard _ _ _ Hl). change ([[p]] !! _) with (Some [p]). krun.
  unfold expired at 1. rewrite Htk, Z.sub_diag. change (u32 0 <? RT_TICK_MAX / 2) with true. cbv iota.
  unfold timer_fire, _rt_timer_remove, call_timeout, rt_tick_get, timer_flag_clear. krun.
  rewrite (lone_removed _ _ _ Hl). change (k_tmr (set_k_timer_list _ s)) with (k_tmr s).
  rewrite (lt_fn _ _ _ Hl).
  destruct (lone_start p f s (set_k_timer_list [[]] s) Hl) as (s2 & E2 & Hl2 & Etk & Eper & Eit & Epar & Eto);
    [by destruct s | done | apply (lt_is_hard _ _ _ Hl) | done |].
  assert (user_timeout f (tm_parameter (k_tmr s p)) (set_k_timer_list [[]] s) = Some (tt, s2)) as Ecb.
  { rewrite Hcb. rewrite (run_bind _ _ _ _ _ E2). done. }
  rewrite (run_bind _ _ _ _ _ Ecb). krun. fold (timer_periodic p s2). rewrite Eper, Hper. cbn [andb]. krun.
  rewrite Em. set (s3 := alter_obj p _ s2).
  assert (expired (k_tick s2) p s3 = false) as He.
  { unfold expired. change (k_tmr s3) with (k_tmr s2). rewrite Eto, Etk.
    pose proof (lt_init _ _ _ Hl) as Hi. revert Hi. change (RT_TICK_MAX / 2) with 2147483647. intros Hi.
    assert (u32 (k_tick s - u32 (k_tick s + tm_init_tick (k_tmr s p))) = 4294967296 - tm_init_tick (k_tmr s p)) as ->.
    { unfold wrap. rewrite Zminus_mod_idemp_r. change (2 ^ 32) with 4294967296.
      rewrite <- (Z.mod_add _ 1) by lia. rewrite Z.mod_small; lia. }
    lia. }
  exists s3. split; [| split; [exact (lt_hard _ _ _ Hl2) |]].
  - simpl timer_check_loop. krun. change (k_timer_list s3) with (k_timer_list s2). rewrite (lt_hard _ _ _ Hl2).
    change ([[p]] !! _) with (Some [p]). krun. by rewrite He.
  - unfold rt_timer_stop, assert_type. rewrite bind_assert_s.
    2: { unfold rt_object_get_type. simpl. rewrite fupd_eq. simpl. apply Z.eqb_eq, (lt_type _ _ _ Hl2). }
    krun. assert (timer_active p s3 = false) as ->; [| done].
    unfold timer_active. simpl. rewrite fupd_eq. simpl. unfold flag_set. apply negb_false_iff, Z.eqb_eq.
    apply Z.bits_inj'. intros i Hi. rewrite Z.land_spec, Z.bits_0. change RT_TIMER_FLAG_ACTIVATED with (Z.ones 1).
    destruct (Z.ltb_spec i 1); [| rewrite Z.ones_spec_high, andb_false_r by lia; done].
    rewrite clear_bits_spec, Z.ones_spec_low by lia. by rewrite andb_false_r.
Qed.

(** ** Witnesses *)

Lemma core_set_tick v s : core_ok s -> core_ok (set_k_tick v s).
Proof. intros [H1 H2 H3]. split; [by eapply sched_frame | by eapply timers_frame | exact H3]. Qed.

Lemma tmr_set_tick v s : k_tmr (set_k_tick v s) = k_tmr s.
Proof. done. Qed.

(** Thread 2 of the example sleeps for 5 ticks, which have gone by. *)
Definition sleeping : kstate := run (rt_thread_sleep 5) example.
Definition sleeping_over : kstate := set_k_tick 105 sleeping.

Lemma example_other_ready : exists u, u <> 2%nat /\ th_state example u = RT_THREAD_READY.
Proof. exists 3%nat. done. Qed.

Lemma sleeping_over_core : core_ok sleeping_over.
Proof.
  apply core_set_tick. unfold sleeping, run.
  destruct (rt_thread_sleep_spec 2 5 example) as (s' & E & Hok & _);
    [apply example_core | reflexivity | reflexivity | reflexivity | reflexivity | apply example_other_ready |].
  by rewrite E.
Qed.

Lemma rt_timer_check_fires_witness :
  exists s', rt_timer_check (fun _ _ => fail) 2 sleeping_over = Some (tt, s') /\ core_ok s' /\
    k_timer_list s' = [[]] /\ timed_out [2%nat] sleeping_over s'.
Proof.
  apply (rt_timer_check_fires (fun _ _ => fail) [2%nat] [] sleeping_over 2).
  - apply sleeping_over_core.
  - reflexivity.
  - eexists. reflexivity.
  - intros t Ht. apply list_elem_of_singleton in Ht as ->. reflexivity.
  - discriminate.
  - simpl. lia.
Defined.


Lemma rt_thread_delay_until_periodic_witness :
  (exists s', rt_thread_delay_until 98 5 example = Some ((true, 103), s') /\ core_ok s' /\
    th_state s' 2%nat = RT_THREAD_SUSPEND /\ ThreadTimer 2 ∈ hard s' /\
    tm_timeout_tick (k_tmr s' (ThreadTimer 2)) = 103) /\
  forall s2, th_error (k_thr s2 2%nat) = RT_ETIMEOUT ->
    exists s3 s4, rt_thread_delay_until_after 2 s2 = Some (RT_EOK, s3) /\
      th_error (k_thr s3 2%nat) = RT_ETIMEOUT /\
      rt_thread_sleep_after 2 s2 = Some (RT_EOK, s4) /\ th_error (k_thr s4 2%nat) = RT_EOK.
Proof.
  apply (rt_thread_delay_until_periodic 2 98 5 example);
    [apply example_core | reflexivity | reflexivity | reflexivity | apply example_other_ready | lia
    | vm_compute; intuition discriminate | reflexivity].
Defined.

Lemma rt_tick_from_millisecond_spec_witness :
  (0 <= 25 -> let tick := rt_tick_from_millisecond 25 in
     (tick - 1) * 1000 < 25 * RT_TICK_PER_SECOND <= tick * 1000 /\ 0 <= tick < RT_TICK_MAX / 2) /\
  (25 < 0 -> forall s, rt_thread_mdelay 25 s = None).
Proof. apply (rt_tick_from_millisecond_spec 25). lia. Defined.

(** Timer object 15 of the example, running alone, its time over. *)
Definition lone_example (flags init : Z) : kstate :=
  set_k_timer_list [[Obj 15]]
    (alter_obj (Obj 15) (set_o_flag flags)
      (alter_tmr (Obj 15) (fun _ => Timer (FnUser 0) 0 init 100) example)).

Lemma lone_example_ok flags init :
  flag_set flags RT_TIMER_FLAG_SOFT_TIMER = false -> flag_set flags RT_TIMER_FLAG_ACTIVATED = true ->
  0 <= init < RT_TICK_MAX / 2 -> lone_timer (Obj 15) 0 (lone_example flags init).
Proof.
  intros H1 H2 H3. split; try done. exists []. split; [done |]. split; [constructor | set_solver].
Qed.

Lemma rt_timer_check_zero_period_witness :
  rt_timer_check (fun _ _ => skip) 1000 (lone_example 3 0) = None.
Proof.
  apply (rt_timer_check_zero_period (fun _ _ => skip) (Obj 15) 0 (lone_example 3 0) 1000);
    [apply lone_example_ok; done | reflexivity ..].
Defined.

Lemma rt_timer_check_restart_unstoppable_witness :
  exists s', rt_timer_check (fun _ _ => _ ← rt_timer_start (Obj 15); skip) 2 (lone_example 1 10) = Some (tt, s') /\
    k_timer_list s' = [[Obj 15]] /\ rt_timer_stop (Obj 15) s' = Some (- RT_ERROR, s').
Proof.
  apply (rt_timer_check_restart_unstoppable (fun _ _ => _ ← rt_timer_start (Obj 15); skip) (Obj 15) 0 (lone_example 1 10));
    [apply lone_example_ok; done | reflexivity ..].
Defined.

End TimerRun.
