(* ===== verification/IpcList.v ===== *)
(** * Waiting lists of IPC objects: [src/kernel/src/ipc.c], lines 55-183

    Every IPC object has a list of suspended threads; a thread waits in it in
    arrival order or in the order of priorities, as the flag of the object says.
    The specifications are shared by the files of the IPC objects. *)

From Stdlib Require Import Sorted.
From S2P Require Import Prelude KernelTypes Kservice RtList Scheduler Object Timer Thread TimerRun.
Import Scheduler KObject Timer Thread TimerRun.

Local Open Scope Z_scope.

Module IpcList.

(** ** Operations *)

(** What a call that can wait answers: a result, or that it has reached its
    [rt_schedule] with the calling thread suspended.  The code behind the
    [rt_schedule] is the routine's [_after] definition; the thread runs it when it is
    current again (at once, when the scheduler is locked). *)
Inductive outcome (A : Type) :=
  | Done (a : A)
  | Waits.
Arguments Done {A} a.
Arguments Waits {A}.

(** [rt_list_init(&(ipc->suspend_thread))] *)
Definition rt_ipc_object_init (n : nat) : K Z :=
  modify (alter_list (LSuspend n) (fun _ => []));; mret RT_EOK.

(** The [RT_IPC_FLAG_PRIO] case: before the first thread of a greater priority number. *)
Fixpoint prio_insert (prio : nat -> Z) (t : nat) (l : list nat) : list nat :=
  match l with
  | [] => [t]
  | u :: l => if prio t <? prio u then t :: u :: l else u :: prio_insert prio t l
  end.

(** The result of the [switch] of [rt_ipc_list_suspend]; another flag inserts nothing. *)
Definition wait_insert (flag : Z) (prio : nat -> Z) (t : nat) (l : list nat) : list nat :=
  if flag =? RT_IPC_FLAG_FIFO then push_back l t
  else if flag =? RT_IPC_FLAG_PRIO then prio_insert prio t l
  else l.

Definition current_priorities (s : kstate) (u : nat) : Z := th_current_priority (k_thr s u).

Definition rt_ipc_list_suspend (h : lhead) (t : nat) (flag : Z) : K Z :=
  _ ← rt_thread_suspend t;
  modify (fun s => alter_list h (wait_insert flag (current_priorities s) t) s);;
  mret RT_EOK.

Definition rt_ipc_list_resume (h : lhead) : K Z :=
  t ← tlist_first h;
  _ ← rt_thread_resume t;
  mret RT_EOK.

Fixpoint resume_all_loop (fuel : nat) (h : lhead) : K unit :=
  match fuel with
  | O => fail
  | S fuel =>
      q ← gets (fun s => k_lists s h);
      match q with
      | [] => skip
      | t :: _ =>
          modify (alter_thr t (set_th_error RT_ERROR));;
          _ ← rt_thread_resume t;
          resume_all_loop fuel h
      end
  end.

(** Every round takes the first thread out of the list, or the loop does not end. *)
Definition rt_ipc_list_resume_all (h : lhead) : K Z :=
  n ← gets (fun s => length (k_lists s h));
  resume_all_loop (S n) h;;
  mret RT_EOK.

Definition RT_WAITING_FOREVER : Z := -1.

(** ** Waiting orders *)

Definition wait_flag (flag : Z) : Prop := flag = RT_IPC_FLAG_FIFO \/ flag = RT_IPC_FLAG_PRIO.

Definition prio_sorted (prio : nat -> Z) (l : list nat) : Prop :=
  StronglySorted (fun t u => prio t <= prio u) l.

Lemma prio_insert_perm prio t l : prio_insert prio t l ≡ₚ t :: l.
Proof.
  induction l as [| u l IH]; simpl; [done |]. destruct (prio t <? prio u); [done |].
  rewrite IH. constructor.
Qed.

Lemma wait_insert_perm flag prio t l : wait_flag flag -> wait_insert flag prio t l ≡ₚ t :: l.
Proof.
  intros [-> | ->]; simpl.
  - symmetry. apply Permutation_cons_append.
  - apply prio_insert_perm.
Qed.

Lemma prio_insert_ext p1 p2 t l : (forall u, u ∈ t :: l -> p1 u = p2 u) -> prio_insert p1 t l = prio_insert p2 t l.
Proof.
  induction l as [| u l IH]; simpl; intros H; [done |].
  rewrite (H t), (H u), IH by set_solver. done.
Qed.

Lemma wait_insert_ext flag p1 p2 t l : (forall u, p1 u = p2 u) -> wait_insert flag p1 t l = wait_insert flag p2 t l.
Proof.
  intros H. unfold wait_insert. destruct (flag =? _); [done |]. destruct (flag =? _); [| done].
  by apply prio_insert_ext.
Qed.

(** Where the new thread goes: behind the threads that are as urgent, before the others. *)
Lemma prio_insert_split prio t l : prio_sorted prio l ->
  exists l1 l2, l = l1 ++ l2 /\ prio_insert prio t l = l1 ++ t :: l2 /\
    Forall (fun u => prio u <= prio t) l1 /\ Forall (fun u => prio t < prio u) l2.
Proof.
  induction l as [| u l IH]; simpl; intros Hs; [by exists [], [] |].
  apply StronglySorted_inv in Hs as [Hs Hu]. destruct (Z.ltb_spec (prio t) (prio u)) as [Hlt | Hge].
  - exists [], (u :: l). split; [done |]. split; [done |]. split; [done |]. constructor; [done |].
    eapply Forall_impl; [exact Hu |]. simpl. lia.
  - destruct (IH Hs) as (l1 & l2 & -> & -> & H1 & H2). exists (u :: l1), l2.
    repeat split; [constructor |]; done.
Qed.

Lemma prio_sorted_insert prio t l : prio_sorted prio l -> prio_sorted prio (prio_insert prio t l).
Proof.
  induction l as [| u l IH]; simpl; intros Hs; [by repeat constructor |].
  pose proof Hs as Hs'. apply StronglySorted_inv in Hs' as [Hl Hu].
  destruct (Z.ltb_spec (prio t) (prio u)) as [Hlt | Hge].
  - constructor; [done |]. constructor; [lia |]. eapply Forall_impl; [exact Hu |]. simpl. lia.
  - constructor; [by apply IH |]. rewrite prio_insert_perm. constructor; [lia | done].
Qed.

(** ** Specifications *)

(** The heads of waiting lists. *)
Definition wait_head (h : lhead) : Prop :=
  match h with LSuspend _ | LSender _ => True | _ => False end.

Lemma wait_head_state s h t : core_ok s -> wait_head h -> t ∈ k_lists s h -> th_state s t = RT_THREAD_SUSPEND.
Proof.
  intros Hok Hh Hin. pose proof (th_listed _ _ (proj1 (co_sched _ _ Hok)) h t Hin) as H. by destruct h.
Qed.

Lemma wait_head_not_ready h p : wait_head h -> h <> LReady p.
Proof. by destruct h. Qed.

(** Thread [t] has gone from the ready queue to the waiting list [h]. *)
Record put_waiting (t : nat) (h : lhead) (flag : Z) (s s' : kstate) : Prop := {
  pw_list : k_lists s' h = wait_insert flag (current_priorities s) t (k_lists s h);
  pw_lists : forall k, k <> h -> k_lists s' k = lremove t (k_lists s k);
  pw_self : k_thr s' t = set_state RT_THREAD_SUSPEND (k_thr s t);
  pw_other : forall u, u <> t -> k_thr s' u = k_thr s u;
  pw_frame : core_frame s s';
  pw_tmr : k_tmr s' = k_tmr s;
  pw_timer : ThreadTimer t ∉ hard s';
  pw_current : k_current s' = k_current s
}.

Lemma put_waiting_state t h flag s s' u : put_waiting t h flag s s' ->
  th_state s' u = if decide (u = t) then RT_THREAD_SUSPEND else th_state s u.
Proof.
  intros H. unfold th_state. case_decide as Hu.
  - subst. rewrite (pw_self _ _ _ _ _ H). by apply stat_set.
  - by rewrite (pw_other _ _ _ _ _ H).
Qed.

Lemma ipc_list_suspend_spec h t flag s :
  core_ok s -> th_state s t = RT_THREAD_READY -> wait_head h -> wait_flag flag ->
  exists s', rt_ipc_list_suspend h t flag s = Some (RT_EOK, s') /\ core_ok s' /\ put_waiting t h flag s s'.
Proof.
  intros Hok Hst Hh Hf. destruct (thread_suspend_spec t s Hok Hst) as (s1 & E1 & [H1 H2 H3] & Hsu & Hst1).
  unfold rt_ipc_list_suspend. rewrite (run_bind _ _ _ _ _ E1). krun.
  assert (forall u, current_priorities s1 u = current_priorities s u) as Ep.
  { intros u. unfold current_priorities. destruct (decide (u = t)) as [-> |].
    - by rewrite (su_self _ _ _ Hsu).
    - by rewrite (su_other _ _ _ Hsu). }
  assert (k_lists s1 h = k_lists s h) as Eh.
  { rewrite (su_lists _ _ _ Hsu). apply lremove_id. intros Hin.
    rewrite (wait_head_state s h t Hok Hh Hin) in Hst. done. }
  eexists. split; [reflexivity |]. set (s2 := alter_list _ _ _).
  assert (k_lists s2 h = wait_insert flag (current_priorities s) t (k_lists s h)) as E2.
  { transitivity (wait_insert flag (current_priorities s1) t (k_lists s1 h)); [| rewrite Eh; by apply wait_insert_ext].
    simpl. by rewrite fupd_eq. }
  split; [split |].
  - eapply (sched_link t h s1); try done.
    + rewrite E2, Eh. by apply wait_insert_perm.
    + intros k Hk. simpl. by rewrite fupd_ne.
    + intros p. by apply wait_head_not_ready.
    + by destruct h.
    + intros _. rewrite (su_self _ _ _ Hsu). destruct Hok as [[Ht _] _ _]. split.
      * apply set_state_masks, (th_masks _ _ Ht); [done | by left].
      * rewrite set_state_stack. apply (th_stack _ _ Ht); [done | by left].
  - by eapply timers_frame.
  - by eapply live_frame.
  - split; [exact E2 | | apply Hsu | apply Hsu | | apply Hsu | apply Hsu | apply Hsu].
    + intros k Hk. simpl. rewrite fupd_ne by done. apply Hsu.
    + eapply core_frame_trans; [apply Hsu |]. by split.
Qed.

Lemma ipc_list_resume_spec h t q s :
  core_ok s -> wait_head h -> k_lists s h = t :: q ->
  exists s', rt_ipc_list_resume h s = Some (RT_EOK, s') /\ core_ok s' /\ made_ready t id s s' /\
    k_lists s' h = q.
Proof.
  intros Hok Hh Hq.
  assert (th_state s t = RT_THREAD_SUSPEND) as Hst.
  { apply (wait_head_state s h); [done.. |]. rewrite Hq. apply list_elem_of_here. }
  destruct (thread_resume_spec t s Hok Hst) as (s' & E & Hok' & Hmr).
  unfold rt_ipc_list_resume, tlist_first. krun. rewrite Hq. change (head (t :: q)) with (Some t). krun.
  rewrite (run_bind _ _ _ _ _ E). exists s'. split; [done |]. split; [done |]. split; [done |].
  rewrite (mr_lists _ _ _ _ Hmr), decide_False by (by apply wait_head_not_ready).
  rewrite Hq. apply lremove_head. pose proof (th_nodup _ _ (proj1 (co_sched _ _ Hok)) h) as Hnd.
  rewrite Hq in Hnd. by apply NoDup_cons in Hnd as [? _].
Qed.

(** A thread is in one list at most. *)
Lemma lremove_other s h k t : core_ok s -> t ∈ k_lists s h -> k <> h -> lremove t (k_lists s k) = k_lists s k.
Proof.
  intros Hok Hin Hk. apply lremove_id. intros Hin'. apply Hk.
  by eapply (th_disj _ _ (proj1 (co_sched _ _ Hok))).
Qed.

(** The threads of the waiting list [h] have all become ready, with an error. *)
Record all_resumed (h : lhead) (s s' : kstate) : Prop := {
  ra_list : k_lists s' h = [];
  ra_ready : forall p, k_lists s' (LReady p)
    = k_lists s (LReady p) ++ filter (fun t => current_priorities s t = p) (k_lists s h);
  ra_lists : forall k, k <> h -> (forall p, k <> LReady p) -> k_lists s' k = k_lists s k;
  ra_thr : forall t, k_thr s' t = if decide (t ∈ k_lists s h)
    then set_state RT_THREAD_READY (set_th_error RT_ERROR (k_thr s t)) else k_thr s t;
  ra_frame : core_frame s s';
  ra_current : k_current s' = k_current s
}.

Lemma resume_all_loop_spec h q s fuel :
  core_ok s -> wait_head h -> k_lists s h = q -> (length q < fuel)%nat ->
  exists s', resume_all_loop fuel h s = Some (tt, s') /\ core_ok s' /\ all_resumed h s s'.
Proof.
  revert s fuel. induction q as [| t q IH]; intros s fuel Hok Hh Hq Hf; (destruct fuel as [| fuel]; [simpl in Hf; lia |]).
  - simpl. krun. rewrite Hq. exists s. split; [done |]. split; [done |].
    split; try done; intros x; rewrite Hq.
    + by rewrite app_nil_r.
    + by rewrite decide_False by apply not_elem_of_nil.
  - simpl. krun. rewrite Hq. krun. set (s0 := alter_thr t (set_th_error RT_ERROR) s).
    assert (t ∈ k_lists s h) as Hin by (rewrite Hq; apply list_elem_of_here).
    assert (core_ok s0) as Hok0 by (apply core_alter_same; [apply same_error | done]).
    assert (t ∉ q) as Htq.
    { pose proof (th_nodup _ _ (proj1 (co_sched _ _ Hok)) h) as H. rewrite Hq in H. by apply NoDup_cons in H as [? _]. }
    assert (forall u, k_thr s0 u = if decide (u = t) then set_th_error RT_ERROR (k_thr s t) else k_thr s u) as E0
      by (intros u; apply alter_thr_lookup).
    destruct (thread_resume_spec t s0 Hok0) as (s1 & E1 & Hok1 & Hmr).
    { by apply (wait_head_state s0 h). }
    rewrite (run_bind _ _ _ _ _ E1).
    assert (forall k, k_lists s1 k = if decide (k = LReady (current_priorities s t)) then k_lists s k ++ [t]
       else lremove t (k_lists s k)) as El1.
    { intros k. rewrite (mr_lists _ _ _ _ Hmr), (E0 t), (decide_True _ _ (eq_refl t)). change (k_lists s0) with (k_lists s).
      change (th_current_priority (set_th_error RT_ERROR (k_thr s t))) with (current_priorities s t).
      case_decide; [subst k | done]. rewrite (lremove_other s h); try done. intros E. subst h. done. }
    assert (k_lists s1 h = q) as Eq1.
    { rewrite El1, decide_False by (by apply wait_head_not_ready). by rewrite Hq, lremove_head. }
    destruct (IH s1 fuel Hok1 Hh Eq1) as (s2 & E2 & Hok2 & Hra); [simpl in Hf; lia |].
    exists s2. split; [done |]. split; [done |].
    assert (forall u, k_thr s1 u = if decide (u = t) then set_state RT_THREAD_READY (set_th_error RT_ERROR (k_thr s t))
      else k_thr s u) as Et1.
    { intros u. case_decide as Hu; [subst; rewrite (mr_self _ _ _ _ Hmr), E0, decide_True by done; done |].
      by rewrite (mr_other _ _ _ _ Hmr), E0, decide_False by done. }
    split.
    + apply Hra.
    + intros p. rewrite (ra_ready _ _ _ Hra), El1, Eq1, Hq, filter_cons.
      rewrite (list_filter_iff _ (fun u => current_priorities s u = p) q).
      2: { intros u. unfold current_priorities. rewrite Et1. by case_decide; subst. }
      destruct (decide (current_priorities s t = p)) as [<- | Hp].
      * rewrite decide_True by done. by rewrite <- app_assoc.
      * rewrite decide_False by congruence. rewrite (lremove_other s h); try done. by destruct h.
    + intros k Hk Hkp. rewrite (ra_lists _ _ _ Hra), El1, decide_False by auto. by apply (lremove_other s h).
    + intros u. rewrite (ra_thr _ _ _ Hra), Eq1, Et1, Hq.
      destruct (decide (u = t)) as [-> |].
      * rewrite decide_False by done. by rewrite decide_True by apply list_elem_of_here.
      * destruct (decide (u ∈ q)); [rewrite decide_True by set_solver | rewrite decide_False by set_solver]; done.
    + eapply core_frame_trans; [| apply Hra]. eapply core_frame_trans; [| apply Hmr]. by split.
    + rewrite (ra_current _ _ _ Hra), (mr_current _ _ _ _ Hmr). done.
Qed.

Lemma ipc_list_resume_all_spec h s :
  core_ok s -> wait_head h ->
  exists s', rt_ipc_list_resume_all h s = Some (RT_EOK, s') /\ core_ok s' /\ all_resumed h s s'.
Proof.
  intros Hok Hh. unfold rt_ipc_list_resume_all. krun.
  destruct (resume_all_loop_spec h (k_lists s h) s (S (length (k_lists s h))) Hok Hh eq_refl) as (s' & E & H); [lia |].
  rewrite (run_bind _ _ _ _ _ E). by exists s'.
Qed.

(** Emptying a waiting list leaves its threads suspended, in no list. *)
Lemma core_clear_list h s : core_ok s -> wait_head h -> core_ok (alter_list h (fun _ => []) s).
Proof.
  intros [[Ht Hb] Htm Hl] Hh. set (s' := alter_list h _ s).
  assert (forall k t, t ∈ k_lists s' k -> t ∈ k_lists s k) as Hin.
  { intros k t. simpl. unfold fupd. case_decide; [intros Hk; by apply elem_of_nil in Hk | done]. }
  assert (forall p, k_lists s' (LReady p) = k_lists s (LReady p)) as Er.
  { intros p. simpl. rewrite fupd_ne; [done |]. intros <-. by apply (wait_head_not_ready (LReady p) p). }
  split; [split | by eapply timers_frame | exact Hl].
  - destruct Ht. split; try done.
    + intros k. simpl. unfold fupd. case_decide; [constructor | auto].
    + intros k l t Hk Hl'. eapply th_disj0; eauto.
    + intros k t Hk. exact (th_listed0 k t (Hin k t Hk)).
    + intros t Hx Hst. change (k_thr s' t) with (k_thr s t). rewrite Er. by apply th_ready0.
  - eapply bitmap_same; [done | done | done |]. intros q _. by rewrite Er.
Qed.

(** ** Waiting *)

(** The blocks of the [take], [send] and [recv] routines that make the current
    thread [t] wait: [rt_ipc_list_suspend], the thread timer if the waiting time is
    limited, [rt_schedule]. *)
Definition wait_on (h : lhead) (t : nat) (flag time : Z) : K unit :=
  _ ← rt_ipc_list_suspend h t flag;
  (if 0 <? time then start_thread_timer t time else skip);;
  rt_schedule.

(** The current thread [t] may wait: the scheduler is not locked and another
    thread (the idle thread at least) is ready. *)
Record may_wait (t : nat) (s : kstate) : Prop := {
  mw_current : k_current s = Some t;
  mw_ready : th_state s t = RT_THREAD_READY;
  mw_lock : k_lock_nest s = 0;
  mw_irq : k_interrupt_nest s = 0;
  mw_other : exists u, u <> t /\ th_state s u = RT_THREAD_READY
}.

(** Thread [t] waits in the list [h] for [time] ticks, or for ever; another thread runs. *)
Record now_waits (t : nat) (h : lhead) (flag time : Z) (s s' : kstate) : Prop := {
  nw_list : k_lists s' h = wait_insert flag (current_priorities s) t (k_lists s h);
  nw_lists : forall k, k <> h -> k_lists s' k = lremove t (k_lists s k);
  nw_self : k_thr s' t = set_state RT_THREAD_SUSPEND (k_thr s t);
  nw_other : forall u, u <> t -> k_thr s' u = k_thr s u;
  nw_frame : core_frame s s';
  nw_timer : if 0 <? time
    then ThreadTimer t ∈ hard s' /\ tm_timeout_tick (k_tmr s' (ThreadTimer t)) = u32 (k_tick s + u32 time)
    else ThreadTimer t ∉ hard s';
  nw_current : exists u, k_current s' = Some u /\ u <> t
}.

Lemma now_waits_state t h flag time s s' u : now_waits t h flag time s s' ->
  th_state s' u = if decide (u = t) then RT_THREAD_SUSPEND else th_state s u.
Proof.
  intros H. unfold th_state. case_decide as Hu.
  - subst. rewrite (nw_self _ _ _ _ _ _ H). by apply stat_set.
  - by rewrite (nw_other _ _ _ _ _ _ H).
Qed.

(** The optional thread timer of [wait_on]. *)
Lemma wait_timer_spec t time s :
  core_ok s -> th_state s t = RT_THREAD_SUSPEND -> ThreadTimer t ∉ hard s -> time < RT_TICK_MAX / 2 ->
  exists s', (if 0 <? time then start_thread_timer t time else skip) s = Some (tt, s') /\ core_ok s' /\
    k_lists s' = k_lists s /\ k_thr s' = k_thr s /\ k_current s' = k_current s /\ core_frame s s' /\
    (if 0 <? time
     then ThreadTimer t ∈ hard s' /\ tm_timeout_tick (k_tmr s' (ThreadTimer t)) = u32 (k_tick s + u32 time)
     else ThreadTimer t ∉ hard s').
Proof.
  intros Hok Hst Hno Ht. destruct (Z.ltb_spec 0 time) as [Hp | Hp].
  - destruct (start_thread_timer_spec None t time s Hok Hst) as (s' & E & Hok' & []).
    { rewrite wrap_small; [done |]. revert Ht. change (RT_TICK_MAX / 2) with 2147483647.
      change (2 ^ 32) with 4294967296. lia. }
    by exists s'.
  - exists s. split; [done |]. split; [done |]. do 3 (split; [done |]). split; [apply core_frame_refl | done].
Qed.

(** Thread [t], suspended and linked where it waits, starts its timer and gives
    up the processor. *)
Definition block (t : nat) (time : Z) : K unit :=
  (if 0 <? time then start_thread_timer t time else skip);;
  rt_schedule.

(** The effect of [block]. *)
Record blocked (t : nat) (time : Z) (s s' : kstate) : Prop := {
  bk_lists : k_lists s' = k_lists s;
  bk_thr : k_thr s' = k_thr s;
  bk_frame : core_frame s s';
  bk_timer : if 0 <? time
    then ThreadTimer t ∈ hard s' /\ tm_timeout_tick (k_tmr s' (ThreadTimer t)) = u32 (k_tick s + u32 time)
    else ThreadTimer t ∉ hard s';
  bk_current : exists u, k_current s' = Some u /\ u <> t
}.

Lemma block_spec t time u s :
  core_ok s -> th_state s t = RT_THREAD_SUSPEND -> ThreadTimer t ∉ hard s -> k_current s = Some t ->
  k_lock_nest s = 0 -> th_state s u = RT_THREAD_READY -> time < RT_TICK_MAX / 2 ->
  exists s', block t time s = Some (tt, s') /\ core_ok s' /\ blocked t time s s'.
Proof.
  intros Hok Hst Hno Hc Hl Hu Ht. unfold block.
  destruct (wait_timer_spec t time s Hok Hst Hno Ht) as (s2 & E2 & Hok2 & El2 & Et2 & Ec2 & Hf2 & Htm2).
  rewrite (run_bind _ _ _ _ _ E2).
  assert (forall v, th_state s2 v = th_state s v) as Est by (intros v; unfold th_state; by rewrite Et2).
  destruct (rt_schedule_spec s2 t) as (v & p & s3 & E3 & Hhr & Hc3 & Hsw & _).
  { apply Hok2. } { by rewrite (cf_lock _ _ Hf2). } { by rewrite Ec2. }
  { apply (ready_some_ready _ u); [apply Hok2 | by rewrite Est]. }
  exists s3. split; [done |]. split; [by eapply switched_core_ok |].
  assert (k_lists s3 = k_lists s2 /\ k_thr s3 = k_thr s2 /\ hard s3 = hard s2 /\ k_tmr s3 = k_tmr s2)
    as (El3 & Et3 & Eh3 & Em3) by (by destruct Hsw as (? & ? & ? & ? & ->)).
  split; rewrite ?El3, ?Et3, ?Eh3, ?Em3; try done.
  - eapply core_frame_trans; [exact Hf2 | by apply switched_core].
  - exists v. split; [done |]. intros ->. destruct Hhr as (_ & (q & Hq) & _).
    assert (th_state s2 t = RT_THREAD_READY) as Hr.
    { apply (th_listed _ _ (proj1 (co_sched _ _ Hok2)) (LReady p)). rewrite Hq. apply list_elem_of_here. }
    rewrite Est, Hst in Hr. done.
Qed.

(** A thread put in a waiting list blocks. *)
Lemma put_waiting_block h t flag time s s1 :
  core_ok s1 -> put_waiting t h flag s s1 -> may_wait t s -> time < RT_TICK_MAX / 2 ->
  exists s', block t time s1 = Some (tt, s') /\ core_ok s' /\ now_waits t h flag time s s'.
Proof.
  intros Hok1 Hpw [Hc Hst Hl _ (u & Hu & Hust)] Ht. pose proof (pw_frame _ _ _ _ _ Hpw) as Hf.
  destruct (block_spec t time u s1) as (s' & E & Hok' & [El Et Hfb Htm Hcb]); [done | | apply Hpw | | | | done |].
  - by rewrite (put_waiting_state _ _ _ _ _ _ Hpw), decide_True.
  - by rewrite (pw_current _ _ _ _ _ Hpw).
  - by rewrite (cf_lock _ _ Hf).
  - by rewrite (put_waiting_state _ _ _ _ _ _ Hpw), decide_False.
  - exists s'. split; [exact E |]. split; [done |].
    split; rewrite ?El, ?Et; try apply Hpw; [by eapply core_frame_trans | | done].
    by rewrite <- (cf_tick _ _ Hf).
Qed.

Lemma wait_on_spec h t flag time s :
  core_ok s -> may_wait t s -> wait_head h -> wait_flag flag -> time < RT_TICK_MAX / 2 ->
  exists s', wait_on h t flag time s = Some (tt, s') /\ core_ok s' /\ now_waits t h flag time s s'.
Proof.
  intros Hok Hmw Hh Hfl Ht.
  destruct (ipc_list_suspend_spec h t flag s Hok (mw_ready _ _ Hmw) Hh Hfl) as (s1 & E1 & Hok1 & Hpw).
  unfold wait_on. rewrite (run_bind _ _ _ _ _ E1). exact (put_waiting_block h t flag time s s1 Hok1 Hpw Hmw Ht).
Qed.

(** [rt_thread_suspend(thread)] and [rt_list_insert_before(head, &(thread->tlist))],
    the start of a wait in the utilities above the kernel core. *)
Definition suspend_back (h : lhead) (t : nat) : K unit :=
  _ ← rt_thread_suspend t;
  tlist_append h t.

Lemma suspend_back_spec h t s :
  core_ok s -> th_state s t = RT_THREAD_READY -> wait_head h ->
  exists s', suspend_back h t s = Some (tt, s') /\ core_ok s' /\ put_waiting t h RT_IPC_FLAG_FIFO s s'.
Proof.
  intros Hok Hst Hh. destruct (ipc_list_suspend_spec h t RT_IPC_FLAG_FIFO s Hok Hst Hh ltac:(by left)) as (s' & E & Hok' & Hpw).
  exists s'. split; [| done]. unfold rt_ipc_list_suspend in E. unfold suspend_back, mbind, K_bind in *.
  destruct (rt_thread_suspend t s) as [[r s1] |]; [| done]. injection E as <-. done.
Qed.

(** The current thread waits at the end of the list [h]. *)
Lemma wait_back_spec h t time s :
  core_ok s -> may_wait t s -> wait_head h -> time < RT_TICK_MAX / 2 ->
  exists s1 s', suspend_back h t s = Some (tt, s1) /\ k_interrupt_nest s1 = 0 /\ block t time s1 = Some (tt, s') /\
    core_ok s' /\ now_waits t h RT_IPC_FLAG_FIFO time s s'.
Proof.
  intros Hok Hmw Hh Ht.
  destruct (suspend_back_spec h t s Hok (mw_ready _ _ Hmw) Hh) as (s1 & E1 & Hok1 & Hpw).
  destruct (put_waiting_block h t RT_IPC_FLAG_FIFO time s s1 Hok1 Hpw Hmw Ht) as (s' & E & Hok' & Hnw).
  exists s1, s'. split; [done |]. split; [by rewrite (cf_irq _ _ (pw_frame _ _ _ _ _ Hpw)), (mw_irq _ _ Hmw) | done].
Qed.

(** The same after the reset of its error, [thread->error = RT_EOK]. *)
Lemma wait_reset_spec h t time s :
  core_ok s -> may_wait t s -> wait_head h -> time < RT_TICK_MAX / 2 ->
  exists s1 s', suspend_back h t (alter_thr t (set_th_error RT_EOK) s) = Some (tt, s1) /\ k_interrupt_nest s1 = 0 /\
    block t time s1 = Some (tt, s') /\ core_ok s' /\
    now_waits t h RT_IPC_FLAG_FIFO time (alter_thr t (set_th_error RT_EOK) s) s' /\
    th_error (k_thr s' t) = RT_EOK /\ core_frame s s'.
Proof.
  intros Hok [H1 H2 H3 H4 (u & Hu & Hur)] Hh Ht. set (s0 := alter_thr t (set_th_error RT_EOK) s).
  destruct (wait_back_spec h t time s0) as (s1 & s' & E1 & Hi & E & Hok' & Hnw); [ | | done | done |].
  { by apply core_alter_same; [apply same_error |]. }
  { split; try done.
    - unfold th_state, s0. by rewrite alter_thr_lookup, decide_True.
    - exists u. split; [done |]. unfold th_state, s0. by rewrite alter_thr_lookup, decide_False. }
  exists s1, s'. do 5 (split; [done |]). split.
  - rewrite (nw_self _ _ _ _ _ _ Hnw). unfold s0. by rewrite alter_thr_lookup, decide_True.
  - eapply core_frame_trans; [| apply Hnw]. by split.
Qed.

(** Waking the first thread of a waiting list, and scheduling. *)
Lemma resume_schedule_spec h t q s :
  core_ok s -> wait_head h -> k_lists s h = t :: q -> is_Some (k_current s) ->
  exists s1 s', rt_ipc_list_resume h s = Some (RT_EOK, s1) /\ core_ok s1 /\ made_ready t id s s1 /\
    k_lists s1 h = q /\ rt_schedule s1 = Some (tt, s') /\ core_ok s' /\ switched s1 s' /\ is_Some (k_current s').
Proof.
  intros Hok Hh Hq Hc. destruct (ipc_list_resume_spec h t q s Hok Hh Hq) as (s1 & E & Hok1 & Hmr & Hl).
  destruct (made_ready_switched_ok t id s s1 Hok1 Hmr Hc) as (s' & E' & Hsw & Hok' & Hc').
  by exists s1, s'.
Qed.

(** The end of the [send], [urgent] and [recv] routines of mailboxes and message
    queues: the first thread of the list [h] is resumed, if there is one. *)
Definition wake_first (h : lhead) : K unit :=
  q ← gets (fun s => k_lists s h);
  match q with
  | [] => skip
  | _ :: _ => _ ← rt_ipc_list_resume h; rt_schedule
  end.

Record woken_first (h : lhead) (s s' : kstate) : Prop := {
  wf_list : k_lists s' h = tail (k_lists s h);
  wf_lists : forall k, wait_head k -> k <> h -> k_lists s' k = k_lists s k;
  wf_head : forall t, head (k_lists s h) = Some t -> th_state s' t = RT_THREAD_READY;
  wf_error : forall u, th_error (k_thr s' u) = th_error (k_thr s u);
  wf_other : forall u, head (k_lists s h) <> Some u -> k_thr s' u = k_thr s u;
  wf_frame : core_frame s s';
  wf_current : is_Some (k_current s')
}.

Lemma wake_first_spec h s :
  core_ok s -> wait_head h -> is_Some (k_current s) ->
  exists s', wake_first h s = Some (tt, s') /\ core_ok s' /\ woken_first h s s'.
Proof.
  intros Hok Hh Hc. unfold wake_first. krun. destruct (k_lists s h) as [| t q] eqn:Hq.
  - exists s. split; [done |]. split; [done |].
    split; try done; [by rewrite Hq | by rewrite Hq].
  - destruct (resume_schedule_spec h t q s Hok Hh Hq Hc) as (s1 & s' & E1 & Hok1 & Hmr & Hl1 & E' & Hok' & Hsw & Hc').
    rewrite (run_bind _ _ _ _ _ E1). exists s'. split; [done |]. split; [done |].
    assert (k_lists s' = k_lists s1 /\ k_thr s' = k_thr s1) as [El Et] by (by destruct Hsw as (? & ? & ? & ? & ->)).
    split; rewrite ?El, ?Et, ?Hq.
    + done.
    + intros k Hk Hkh. rewrite ?El, (mr_lists _ _ _ _ Hmr), decide_False by (by apply wait_head_not_ready).
      apply (lremove_other s h); [done | rewrite Hq; apply list_elem_of_here | done].
    + intros u [= <-]. unfold th_state. rewrite Et. fold (th_state s1 t).
      by rewrite (made_ready_state _ _ _ _ _ Hmr), decide_True.
    + intros u. rewrite ?Et. destruct (decide (u = t)) as [-> |].
      * by rewrite (mr_self _ _ _ _ Hmr).
      * by rewrite (mr_other _ _ _ _ Hmr).
    + intros u Hu. rewrite ?Et. apply Hmr. intros ->. by apply Hu.
    + eapply core_frame_trans; [apply Hmr | by apply switched_core].
    + done.
Qed.

(** ** Theorems *)

(** C4: a thread that starts to wait leaves the ready queue and enters the waiting
    list at the place its flag asks for: at the end (FIFO), or behind the
    threads that are at least as urgent and before the others (PRIO), which
    keeps the list ordered by priority, first come first served among equals. *)
Theorem rt_ipc_list_suspend_order h t flag s :
  core_ok s -> th_state s t = RT_THREAD_READY -> wait_head h -> wait_flag flag ->
  (flag = RT_IPC_FLAG_PRIO -> prio_sorted (current_priorities s) (k_lists s h)) ->
  exists s' l1 l2, rt_ipc_list_suspend h t flag s = Some (RT_EOK, s') /\ core_ok s' /\
    th_state s' t = RT_THREAD_SUSPEND /\ (forall p, t ∉ k_lists s' (LReady p)) /\
    k_lists s h = l1 ++ l2 /\ k_lists s' h = l1 ++ t :: l2 /\
    (flag = RT_IPC_FLAG_FIFO -> l2 = []) /\
    (flag = RT_IPC_FLAG_PRIO ->
      Forall (fun u => current_priorities s u <= current_priorities s t) l1 /\
      Forall (fun u => current_priorities s t < current_priorities s u) l2 /\
      prio_sorted (current_priorities s') (k_lists s' h)).
Proof.
  intros Hok Hst Hh Hf Hs. destruct (ipc_list_suspend_spec h t flag s Hok Hst Hh Hf) as (s' & E & Hok' & Hpw).
  assert (th_state s' t = RT_THREAD_SUSPEND) as Hst' by (by rewrite (put_waiting_state _ _ _ _ _ _ Hpw), decide_True).
  assert (forall p, t ∉ k_lists s' (LReady p)) as Hr.
  { intros p Hin. apply (th_listed _ _ (proj1 (co_sched _ _ Hok'))) in Hin as [Hin _]. by rewrite Hst' in Hin. }
  assert (forall u, current_priorities s' u = current_priorities s u) as Ep.
  { intros u. unfold current_priorities. destruct (decide (u = t)) as [-> |].
    - by rewrite (pw_self _ _ _ _ _ Hpw).
    - by rewrite (pw_other _ _ _ _ _ Hpw). }
  pose proof (pw_list _ _ _ _ _ Hpw) as El. destruct Hf as [-> | ->]; unfold wait_insert in El; simpl in El.
  - exists s', (k_lists s h), []. rewrite app_nil_r. by repeat (split; [done |]).
  - specialize (Hs eq_refl).
    destruct (prio_insert_split (current_priorities s) t _ Hs) as (l1 & l2 & E1 & E2 & H1 & H2).
    exists s', l1, l2. rewrite <- E2, <- El. do 6 (split; [done |]). split; [done |].
    intros _. split; [done |]. split; [done |]. rewrite El.
    pose proof (prio_sorted_insert (current_priorities s) t _ Hs) as Hsi.
    clear -Hsi Ep. induction Hsi as [| u l Hl IH Hu]; constructor; [done |].
    eapply Forall_impl; [exact Hu |]. intros w. by rewrite !Ep.
Qed.

(** C15: waking all the waiting threads of an object terminates and leaves nobody
    waiting: every one of them is ready with the error RT_ERROR, so its call
    fails, and has been appended to the ready list of its priority in the
    order of the waiting list; no other thread and no other list changes. *)
Theorem rt_ipc_list_resume_all_wakes h s :
  core_ok s -> wait_head h ->
  exists s', rt_ipc_list_resume_all h s = Some (RT_EOK, s') /\ core_ok s' /\ k_lists s' h = [] /\
    (forall t, t ∈ k_lists s h -> th_state s' t = RT_THREAD_READY /\ th_error (k_thr s' t) = RT_ERROR) /\
    (forall t, t ∉ k_lists s h -> k_thr s' t = k_thr s t) /\
    (forall p, k_lists s' (LReady p)
      = k_lists s (LReady p) ++ filter (fun t => th_current_priority (k_thr s t) = p) (k_lists s h)) /\
    (forall k, k <> h -> wait_head k -> k_lists s' k = k_lists s k).
Proof.
  intros Hok Hh. destruct (ipc_list_resume_all_spec h s Hok Hh) as (s' & E & Hok' & Hra).
  exists s'. split; [done |]. split; [done |]. split; [apply Hra |]. split; [| split; [| split]].
  - intros t Ht. unfold th_state. rewrite (ra_thr _ _ _ Hra), decide_True by done.
    split; [by apply stat_set | done].
  - intros t Ht. by rewrite (ra_thr _ _ _ Hra), decide_False.
  - apply Hra.
  - intros k Hk Hw. apply (ra_lists _ _ _ Hra); [done |]. by intros p ->.
Qed.

(** ** Witnesses *)

Lemma run_suspend_core h t flag s :
  core_ok s -> th_state s t = RT_THREAD_READY -> wait_head h -> wait_flag flag ->
  core_ok (run (rt_ipc_list_suspend h t flag) s).
Proof.
  intros. destruct (ipc_list_suspend_spec h t flag s) as (s' & E & Hok & _); try done.
  unfold run. by rewrite E.
Qed.

(** Threads 4 (priority 20) and 3 (priority 10) of the example wait for the object [n]. *)
Definition example_waiters (n : nat) : kstate :=
  run (rt_ipc_list_suspend (LSuspend n) 3 RT_IPC_FLAG_PRIO)
    (run (rt_ipc_list_suspend (LSuspend n) 4 RT_IPC_FLAG_PRIO) example).

Lemma example_waiters_core n : core_ok (example_waiters n).
Proof.
  unfold example_waiters. apply run_suspend_core; [| vm_compute; reflexivity | done | by right].
  apply run_suspend_core; [apply example_core | vm_compute; reflexivity | done | by right].
Qed.

Lemma example_may_wait : may_wait 2 example.
Proof. split; try reflexivity. exists 3%nat. split; [lia | reflexivity]. Qed.

Lemma rt_ipc_list_suspend_order_witness :
  exists s' l1 l2, rt_ipc_list_suspend (LSuspend 10) 2 RT_IPC_FLAG_PRIO (example_waiters 10) = Some (RT_EOK, s') /\
    core_ok s' /\
    th_state s' 2 = RT_THREAD_SUSPEND /\ (forall p, 2%nat ∉ k_lists s' (LReady p)) /\
    [3; 4]%nat = l1 ++ l2 /\ k_lists s' (LSuspend 10) = l1 ++ 2%nat :: l2 /\
    (RT_IPC_FLAG_PRIO = RT_IPC_FLAG_FIFO -> l2 = []) /\
    (RT_IPC_FLAG_PRIO = RT_IPC_FLAG_PRIO ->
      Forall (fun u => current_priorities (example_waiters 10) u <= 10) l1 /\
      Forall (fun u => 10 < current_priorities (example_waiters 10) u) l2 /\
      prio_sorted (current_priorities s') (k_lists s' (LSuspend 10))).
Proof.
  apply (rt_ipc_list_suspend_order (LSuspend 10) 2 RT_IPC_FLAG_PRIO (example_waiters 10)).
  - apply example_waiters_core.
  - vm_compute. reflexivity.
  - exact I.
  - right. reflexivity.
  - intros _. replace (k_lists (example_waiters 10) (LSuspend 10)) with [3; 4]%nat by (vm_compute; reflexivity).
    constructor; [constructor; constructor | constructor; [vm_compute; discriminate | constructor]].
Defined.

Lemma rt_ipc_list_resume_all_wakes_witness :
  exists s', rt_ipc_list_resume_all (LSuspend 10) (example_waiters 10) = Some (RT_EOK, s') /\ core_ok s' /\
    k_lists s' (LSuspend 10) = [] /\
    (forall t, t ∈ k_lists (example_waiters 10) (LSuspend 10) ->
       th_state s' t = RT_THREAD_READY /\ th_error (k_thr s' t) = RT_ERROR) /\
    (forall t, t ∉ k_lists (example_waiters 10) (LSuspend 10) -> k_thr s' t = k_thr (example_waiters 10) t) /\
    (forall p, k_lists s' (LReady p)
      = k_lists (example_waiters 10) (LReady p) ++ filter (fun t => th_current_priority (k_thr (example_waiters 10) t) = p)
          (k_lists (example_waiters 10) (LSuspend 10))) /\
    (forall k, k <> LSuspend 10 -> wait_head k -> k_lists s' k = k_lists (example_waiters 10) k).
Proof. apply (rt_ipc_list_resume_all_wakes (LSuspend 10)); [apply example_waiters_core | exact I]. Defined.

End IpcList.
