(* ===== verification/Sem.v ===== *)
(** * Semaphores: [src/kernel/src/ipc.c], lines 185-514

    The value counts free permits; a release with waiting threads hands the
    permit to the first of them and leaves the value alone. *)

From S2P Require Import Prelude KernelTypes Kservice RtList Scheduler Object Timer Thread TimerRun IpcList.
Import Scheduler KObject Timer Thread TimerRun IpcList.

Local Open Scope Z_scope.

Module Sem.

(** ** Operations *)

Definition set_sem (n : nat) (v : Z) (s : kstate) : kstate := set_k_sem (fupd n v (k_sem s)) s.

Definition rt_sem_init (sem : nat) (name : list Z) (value flag : Z) : K Z :=
  RT_ASSERT (value <? 0x10000);;
  rt_object_init (Obj sem) RT_Object_Class_Semaphore name;;
  _ ← rt_ipc_object_init sem;
  modify (set_sem sem (u16 value));;
  modify (alter_obj (Obj sem) (set_o_flag flag));;
  mret RT_EOK.

Definition rt_sem_detach (sem : nat) : K Z :=
  assert_type (Obj sem) RT_Object_Class_Semaphore;;
  assert_s (rt_object_is_systemobject (Obj sem));;
  _ ← rt_ipc_list_resume_all (LSuspend sem);
  rt_object_detach (Obj sem);;
  mret RT_EOK.

Definition rt_sem_create (name : list Z) (value flag : Z) : K (option nat) :=
  RT_DEBUG_NOT_IN_INTERRUPT;;
  RT_ASSERT (value <? 0x10000);;
  sem ← rt_object_allocate RT_Object_Class_Semaphore name;
  match sem with
  | None => mret None
  | Some sem =>
      _ ← rt_ipc_object_init sem;
      modify (set_sem sem (u16 value));;
      modify (alter_obj (Obj sem) (set_o_flag flag));;
      mret (Some sem)
  end.

Definition rt_sem_delete (sem : nat) : K Z :=
  RT_DEBUG_NOT_IN_INTERRUPT;;
  assert_type (Obj sem) RT_Object_Class_Semaphore;;
  assert_s (fun s => negb (rt_object_is_systemobject (Obj sem) s));;
  _ ← rt_ipc_list_resume_all (LSuspend sem);
  rt_object_delete (Obj sem);;
  mret RT_EOK.

Definition rt_sem_take (sem : nat) (time : Z) : K (outcome Z) :=
  assert_type (Obj sem) RT_Object_Class_Semaphore;;
  value ← gets (fun s => k_sem s sem);
  if 0 <? value then
    modify (set_sem sem (value - 1));;
    mret (Done RT_EOK)
  else if time =? 0 then mret (Done (- RT_ETIMEOUT))
  else
    RT_DEBUG_IN_THREAD_CONTEXT;;
    self ← rt_thread_self;
    t ← lift self;
    modify (alter_thr t (set_th_error RT_EOK));;
    flag ← gets (fun s => o_flag (k_obj s (Obj sem)));
    wait_on (LSuspend sem) t flag time;;
    mret Waits.

(** What thread [t] does behind the [rt_schedule] of [rt_sem_take]. *)
Definition rt_sem_take_after (t : nat) : K Z :=
  error ← gets (fun s => th_error (k_thr s t));
  mret (if negb (error =? RT_EOK) then - error else RT_EOK).

Definition rt_sem_trytake (sem : nat) : K (outcome Z) := rt_sem_take sem 0.

Definition rt_sem_release (sem : nat) : K Z :=
  assert_type (Obj sem) RT_Object_Class_Semaphore;;
  waiting ← gets (fun s => k_lists s (LSuspend sem));
  match waiting with
  | _ :: _ =>
      _ ← rt_ipc_list_resume (LSuspend sem);
      rt_schedule;;
      mret RT_EOK
  | [] =>
      modify (fun s => set_sem sem (u16 (k_sem s sem + 1)) s);;
      mret RT_EOK
  end.

(** [value] is the third parameter of the call. *)
Definition rt_sem_control (sem : nat) (cmd value : Z) : K Z :=
  assert_type (Obj sem) RT_Object_Class_Semaphore;;
  if cmd =? RT_IPC_CMD_RESET then
    _ ← rt_ipc_list_resume_all (LSuspend sem);
    modify (set_sem sem (u16 value));;
    rt_schedule;;
    mret RT_EOK
  else mret (- RT_ERROR).

(** ** The invariant *)

(** Nobody waits while permits are free. *)
Record sem_ok (n : nat) (s : kstate) : Prop := {
  so_type : rt_object_get_type (Obj n) s = RT_Object_Class_Semaphore;
  so_flag : wait_flag (o_flag (k_obj s (Obj n)));
  so_range : 0 <= k_sem s n < 2 ^ 16;
  so_free : 0 < k_sem s n -> k_lists s (LSuspend n) = []
}.

Lemma sem_core v n s : core_ok s -> core_ok (set_sem n v s).
Proof. intros [H1 H2 H3]. split; [by eapply sched_frame | by eapply timers_frame | exact H3]. Qed.

(** The semaphore after an operation of the kernel core. *)
Lemma sem_ok_frame n s s' :
  sem_ok n s -> core_frame s s' -> (0 < k_sem s n -> k_lists s' (LSuspend n) = []) -> sem_ok n s'.
Proof.
  intros [] Hf Hl. split; rewrite ?(core_get_type _ _ _ Hf), ?(cf_flag _ _ Hf), ?(cf_sem _ _ Hf); done.
Qed.

Lemma sem_value n v s : k_sem (set_sem n v s) n = v.
Proof. unfold set_sem. simpl. by rewrite fupd_eq. Qed.

Lemma may_wait_error t e s : may_wait t s -> may_wait t (alter_thr t (set_th_error e) s).
Proof.
  intros [Hc Hr Hl Hi (u & Hu & Hur)]. split; try done.
  - unfold th_state. by rewrite alter_thr_lookup, decide_True.
  - exists u. split; [done |]. by rewrite state_alter_ne.
Qed.

(** ** Taking and releasing *)

Lemma sem_take_free n time s :
  rt_object_get_type (Obj n) s = RT_Object_Class_Semaphore -> 0 < k_sem s n ->
  rt_sem_take n time s = Some (Done RT_EOK, set_sem n (k_sem s n - 1) s).
Proof.
  intros Hty Hv. unfold rt_sem_take, assert_type. rewrite bind_assert_s by (by rewrite Hty). krun.
  by rewrite (proj2 (Z.ltb_lt 0 _)).
Qed.

Lemma sem_take_none n s :
  rt_object_get_type (Obj n) s = RT_Object_Class_Semaphore -> k_sem s n = 0 ->
  rt_sem_take n 0 s = Some (Done (- RT_ETIMEOUT), s).
Proof.
  intros Hty Hv. unfold rt_sem_take, assert_type. rewrite bind_assert_s by (by rewrite Hty). krun. by rewrite Hv.
Qed.

Lemma sem_take_waits n t time s :
  core_ok s -> sem_ok n s -> may_wait t s -> time < RT_TICK_MAX / 2 -> k_sem s n = 0 -> time <> 0 ->
  exists s', rt_sem_take n time s = Some (Waits, s') /\ core_ok s' /\ sem_ok n s' /\ k_sem s' n = 0 /\
    now_waits t (LSuspend n) (o_flag (k_obj s (Obj n))) time (alter_thr t (set_th_error RT_EOK) s) s' /\
    core_frame s s'.
Proof.
  intros Hok Hso Hmw Htime Hv Ht. pose proof Hso as [Hty Hfl Hr Hfree].
  unfold rt_sem_take, assert_type. rewrite bind_assert_s by (rewrite Hty; done). krun.
  rewrite Hv. replace (0 <? 0) with false by lia. replace (time =? 0) with false by lia.
  unfold RT_DEBUG_IN_THREAD_CONTEXT, RT_DEBUG_NOT_IN_INTERRUPT, rt_thread_self. krun.
  rewrite bind_assert_s by (by rewrite (mw_current _ _ Hmw)).
  rewrite bind_assert_s by (by rewrite (mw_irq _ _ Hmw)). krun.
  rewrite (mw_current _ _ Hmw). krun.
  set (s0 := alter_thr t (set_th_error RT_EOK) s).
  destruct (wait_on_spec (LSuspend n) t (o_flag (k_obj s (Obj n))) time s0) as (s' & E & Hok' & Hnw);
    [by apply core_alter_same; [apply same_error |] | by apply may_wait_error | done | done | done |].
  change (k_obj s0) with (k_obj s). rewrite (run_bind _ _ _ _ _ E). exists s'. split; [done |]. split; [done |].
  assert (core_frame s s') as Hf by (eapply core_frame_trans; [| apply Hnw]; by split).
  split; [apply (sem_ok_frame n s); [done | done | lia] |].
  split; [by rewrite (cf_sem _ _ Hf) | done].
Qed.

Lemma sem_release_idle n s :
  rt_object_get_type (Obj n) s = RT_Object_Class_Semaphore -> k_lists s (LSuspend n) = [] ->
  rt_sem_release n s = Some (RT_EOK, set_sem n (u16 (k_sem s n + 1)) s).
Proof.
  intros Hty Hq. unfold rt_sem_release, assert_type. rewrite bind_assert_s by (by rewrite Hty). krun. by rewrite Hq.
Qed.

(** ** Theorems *)

(** C13: [rt_sem_take]: with a free permit the value goes down by one and nothing
    else changes; without one, a call that does not wait fails with
    -RT_ETIMEOUT and changes nothing, and the caller of any other call is
    suspended in the waiting list of the semaphore, at the place its flag asks
    for, its timer armed when the waiting time is limited, and another thread
    runs.  The invariants of the kernel and of the semaphore are kept. *)
Theorem rt_sem_take_spec n t time s :
  core_ok s -> sem_ok n s -> may_wait t s -> time < RT_TICK_MAX / 2 ->
  (0 < k_sem s n -> exists s', rt_sem_take n time s = Some (Done RT_EOK, s') /\
     s' = set_sem n (k_sem s n - 1) s /\ core_ok s' /\ sem_ok n s') /\
  (k_sem s n = 0 -> time = 0 -> rt_sem_take n time s = Some (Done (- RT_ETIMEOUT), s)) /\
  (k_sem s n = 0 -> time <> 0 -> exists s', rt_sem_take n time s = Some (Waits, s') /\
     core_ok s' /\ sem_ok n s' /\ k_sem s' n = 0 /\
     now_waits t (LSuspend n) (o_flag (k_obj s (Obj n))) time (alter_thr t (set_th_error RT_EOK) s) s' /\
     th_state s' t = RT_THREAD_SUSPEND /\ th_error (k_thr s' t) = RT_EOK).
Proof.
  intros Hok Hso Hmw Htime. pose proof Hso as [Hty Hfl Hr Hfree]. split; [| split].
  - intros Hv. eexists. split; [by apply sem_take_free |]. split; [done |]. split; [by apply sem_core |].
    split; try done; rewrite sem_value; [lia |]. intros _. by apply Hfree.
  - intros Hv ->. by apply sem_take_none.
  - intros Hv Ht. destruct (sem_take_waits n t time s Hok Hso Hmw Htime Hv Ht) as (s' & E & Hok' & Hso' & Hv' & Hnw & _).
    exists s'. do 5 (split; [done |]). split; [by rewrite (now_waits_state _ _ _ _ _ _ _ Hnw), decide_True |].
    rewrite (nw_self _ _ _ _ _ _ Hnw). by rewrite alter_thr_lookup, decide_True.
Qed.


(** ** Witnesses *)

Lemma example_sem_ok : sem_ok 10 example.
Proof. split; [reflexivity | by left | split; reflexivity || discriminate | reflexivity]. Qed.

Lemma rt_sem_take_spec_witness :
  exists s', rt_sem_take 10 5 example = Some (Waits, s') /\ core_ok s' /\ sem_ok 10 s' /\ k_sem s' 10%nat = 0 /\
    now_waits 2 (LSuspend 10) 0 5 (alter_thr 2 (set_th_error RT_EOK) example) s' /\
    th_state s' 2 = RT_THREAD_SUSPEND /\ th_error (k_thr s' 2%nat) = RT_EOK.
Proof.
  apply (rt_sem_take_spec 10 2 5 example);
    [apply example_core | apply example_sem_ok | apply example_may_wait | reflexivity | reflexivity | lia].
Defined.


End Sem.
