(* ===== verification/Mutex.v ===== *)
(** * Mutexes: [src/kernel/src/ipc.c], lines 516-935

    A mutex has an owner, counts nested takes in [hold], and lends the owner
    the priority of a more urgent waiting thread. *)

From Stdlib Require Import Sorted.
From S2P Require Import Prelude KernelTypes Kservice RtList Scheduler Object Timer Thread TimerRun IpcList Sem.
Import Scheduler KObject Timer Thread TimerRun IpcList.

Local Open Scope Z_scope.

Module Mutex.

(** ** Operations *)

Definition mutex_fresh (m : nat) : K unit :=
  modify (alter_mtx m (fun _ => Mutex 1 0xFF 0 None));;
  modify (alter_obj (Obj m) (set_o_flag RT_IPC_FLAG_PRIO)).

Definition rt_mutex_init (m : nat) (name : list Z) (flag : Z) : K Z :=
  rt_object_init (Obj m) RT_Object_Class_Mutex name;;
  _ ← rt_ipc_object_init m;
  mutex_fresh m;;
  mret RT_EOK.

Definition rt_mutex_detach (m : nat) : K Z :=
  assert_type (Obj m) RT_Object_Class_Mutex;;
  assert_s (rt_object_is_systemobject (Obj m));;
  _ ← rt_ipc_list_resume_all (LSuspend m);
  rt_object_detach (Obj m);;
  mret RT_EOK.

Definition rt_mutex_create (name : list Z) (flag : Z) : K (option nat) :=
  RT_DEBUG_NOT_IN_INTERRUPT;;
  mutex ← rt_object_allocate RT_Object_Class_Mutex name;
  match mutex with
  | None => mret None
  | Some m =>
      _ ← rt_ipc_object_init m;
      mutex_fresh m;;
      mret (Some m)
  end.

Definition rt_mutex_delete (m : nat) : K Z :=
  RT_DEBUG_NOT_IN_INTERRUPT;;
  assert_type (Obj m) RT_Object_Class_Mutex;;
  assert_s (fun s => negb (rt_object_is_systemobject (Obj m) s));;
  _ ← rt_ipc_list_resume_all (LSuspend m);
  rt_object_delete (Obj m);;
  mret RT_EOK.

(** The code behind the label [__again]: thread [t] is not the owner. *)
Definition mutex_again (m t : nat) (time : Z) : K (outcome Z) :=
  mutex ← gets (fun s => k_mtx s m);
  prio ← gets (fun s => th_current_priority (k_thr s t));
  if 0 <? mx_value mutex then
    modify (alter_mtx m (fun x => Mutex (mx_value x - 1) prio (u8 (mx_hold x + 1)) (Some t)));;
    mret (Done RT_EOK)
  else if time =? 0 then
    modify (alter_thr t (set_th_error RT_ETIMEOUT));;
    mret (Done (- RT_ETIMEOUT))
  else
    match mx_owner mutex with
    | None => mret (Done (- RT_ERROR))
    | Some owner =>
        owner_prio ← gets (fun s => th_current_priority (k_thr s owner));
        (if prio <? owner_prio then thread_change_priority owner prio else skip);;
        flag ← gets (fun s => o_flag (k_obj s (Obj m)));
        wait_on (LSuspend m) t flag time;;
        mret Waits
    end.

Definition rt_mutex_take (m : nat) (time : Z) : K (outcome Z) :=
  RT_DEBUG_IN_THREAD_CONTEXT;;
  assert_type (Obj m) RT_Object_Class_Mutex;;
  self ← rt_thread_self;
  match self with
  | None => mret (Done RT_EOK)
  | Some t =>
      modify (alter_thr t (set_th_error RT_EOK));;
      mutex ← gets (fun s => k_mtx s m);
      if decide (mx_owner mutex = Some t) then
        modify (alter_mtx m (fun x => set_mx_hold (u8 (mx_hold x + 1)) x));;
        mret (Done RT_EOK)
      else mutex_again m t time
  end.

(** What thread [t] does behind the [rt_schedule] of [rt_mutex_take]. *)
Definition rt_mutex_take_after (m t : nat) (time : Z) : K (outcome Z) :=
  error ← gets (fun s => th_error (k_thr s t));
  if error =? RT_EOK then mret (Done RT_EOK)
  else if error =? RT_EINTR then mutex_again m t time
  else mret (Done (- error)).

Definition rt_mutex_trytake (m : nat) : K (outcome Z) := rt_mutex_take m 0.

Definition rt_mutex_release (m : nat) : K Z :=
  assert_type (Obj m) RT_Object_Class_Mutex;;
  RT_DEBUG_IN_THREAD_CONTEXT;;
  self ← rt_thread_self;
  match self with
  | None => mret RT_EOK
  | Some t =>
      mutex ← gets (fun s => k_mtx s m);
      if negb (bool_decide (mx_owner mutex = Some t)) then
        modify (alter_thr t (set_th_error RT_ERROR));;
        mret (- RT_ERROR)
      else
        modify (alter_mtx m (fun x => set_mx_hold (u8 (mx_hold x - 1)) x));;
        hold ← gets (fun s => mx_hold (k_mtx s m));
        if hold =? 0 then
          prio ← gets (fun s => th_current_priority (k_thr s t));
          (if negb (mx_original_priority mutex =? prio)
           then thread_change_priority t (mx_original_priority mutex) else skip);;
          waiting ← gets (fun s => k_lists s (LSuspend m));
          match waiting with
          | thread :: _ =>
              prio ← gets (fun s => th_current_priority (k_thr s thread));
              modify (alter_mtx m (fun x => Mutex (mx_value x) prio (u8 (mx_hold x + 1)) (Some thread)));;
              _ ← rt_ipc_list_resume (LSuspend m);
              rt_schedule;;
              mret RT_EOK
          | [] =>
              modify (alter_mtx m (fun x => Mutex (u16 (mx_value x + 1)) 0xff (mx_hold x) None));;
              mret RT_EOK
          end
        else mret RT_EOK
  end.

Definition rt_mutex_control (m : nat) (cmd : Z) : K Z :=
  assert_type (Obj m) RT_Object_Class_Mutex;; mret (- RT_ERROR).

(** ** The invariant *)

(** A free mutex has no owner and no waiting thread; a taken one lends its owner
    the priority of the most urgent waiting thread at least. *)
Record mutex_ok (m : nat) (s : kstate) : Prop := {
  xo_type : rt_object_get_type (Obj m) s = RT_Object_Class_Mutex;
  xo_flag : o_flag (k_obj s (Obj m)) = RT_IPC_FLAG_PRIO;
  xo_sorted : prio_sorted (current_priorities s) (k_lists s (LSuspend m));
  xo_orig : 0 <= mx_original_priority (k_mtx s m) < 256;
  xo_owner : match mx_owner (k_mtx s m) with
    | None => mx_value (k_mtx s m) = 1 /\ mx_hold (k_mtx s m) = 0 /\ k_lists s (LSuspend m) = []
    | Some o =>
        mx_value (k_mtx s m) = 0 /\ 0 < mx_hold (k_mtx s m) < 256 /\
        rt_object_get_type (Obj o) s = RT_Object_Class_Thread /\ o ∉ k_lists s (LSuspend m) /\
        forall w, w ∈ k_lists s (LSuspend m) -> current_priorities s o <= current_priorities s w
    end
}.

Lemma mtx_core m f s : core_ok s -> core_ok (alter_mtx m f s).
Proof. intros [H1 H2 H3]. split; [by eapply sched_frame | by eapply timers_frame | exact H3]. Qed.

Lemma mtx_lookup m f s : k_mtx (alter_mtx m f s) m = f (k_mtx s m).
Proof. simpl. by rewrite fupd_eq. Qed.

Lemma may_wait_mtx t m f s : may_wait t s -> may_wait t (alter_mtx m f s).
Proof. intros [Hc Hr Hl Hi Ho]. by split. Qed.

Lemma prio_sorted_ext p1 p2 l : (forall u, u ∈ l -> p1 u = p2 u) -> prio_sorted p1 l -> prio_sorted p2 l.
Proof.
  intros E Hs. induction Hs as [| u l Hl IH Hu]; constructor.
  - apply IH. intros v Hv. apply E. by apply list_elem_of_further.
  - rewrite Forall_forall in *. intros v Hv. rewrite <- !E; [by apply Hu | | ].
    + by apply list_elem_of_further.
    + apply list_elem_of_here.
Qed.

(** [current_priorities] reads nothing else of a thread. *)
Lemma prio_alter_same t f s u : sched_same f -> current_priorities (alter_thr t f s) u = current_priorities s u.
Proof.
  intros Hf. unfold current_priorities. rewrite alter_thr_lookup. case_decide; [| done].
  subst. by destruct (Hf (k_thr s t)) as (_ & -> & _).
Qed.

(** ** Changing a priority *)

(** The priority of thread [o] is [p]; the waiting lists and the states are as before. *)
Record priority_set (o : nat) (p : Z) (s s' : kstate) : Prop := {
  ps_lists : forall h, wait_head h -> k_lists s' h = k_lists s h;
  ps_state : forall u, th_state s' u = th_state s u;
  ps_error : forall u, th_error (k_thr s' u) = th_error (k_thr s u);
  ps_prio : forall u, current_priorities s' u = if decide (u = o) then p else current_priorities s u;
  ps_frame : core_frame s s';
  ps_current : k_current s' = k_current s
}.

Lemma priority_set_refl o s : priority_set o (current_priorities s o) s s.
Proof. split; try done. intros u. by case_decide; subst. Qed.

Lemma change_priority_set o p s :
  core_ok s -> rt_object_get_type (Obj o) s = RT_Object_Class_Thread -> 0 <= p < 256 ->
  exists s', thread_change_priority o p s = Some (tt, s') /\ core_ok s' /\ priority_set o p s s'.
Proof.
  intros Hok Hty Hp. destruct (change_priority_spec o p s Hok Hty) as (s' & E & Hok' & Hl & Hst & He & Hpr & Hf & Hc & _).
  exists s'. split; [done |]. split; [done |]. rewrite (wrap_small 8 p) in * by (change (2 ^ 8) with 256; lia).
  split; try done. intros h Hh. rewrite Hl. case_decide as Hs; [| done].
  rewrite decide_False by (by apply wait_head_not_ready). apply lremove_id. intros Hin.
  rewrite (wait_head_state s h o Hok Hh Hin) in Hs. done.
Qed.

(** The owner gets the priority [p] if that is more urgent than its own. *)
Lemma lend_spec o p s :
  core_ok s -> rt_object_get_type (Obj o) s = RT_Object_Class_Thread -> 0 <= p < 256 ->
  exists s', (if p <? th_current_priority (k_thr s o) then thread_change_priority o p else skip) s = Some (tt, s') /\
    core_ok s' /\ priority_set o (Z.min p (current_priorities s o)) s s'.
Proof.
  intros Hok Hty Hp. fold (current_priorities s o). destruct (Z.ltb_spec p (current_priorities s o)).
  - rewrite Z.min_l by lia. by apply change_priority_set.
  - exists s. split; [done |]. split; [done |]. rewrite Z.min_r by lia. apply priority_set_refl.
Qed.

(** The owner gets its own priority back. *)
Lemma give_back_spec o p s :
  core_ok s -> rt_object_get_type (Obj o) s = RT_Object_Class_Thread -> 0 <= p < 256 ->
  exists s', (if negb (p =? th_current_priority (k_thr s o)) then thread_change_priority o p else skip) s = Some (tt, s') /\
    core_ok s' /\ priority_set o p s s'.
Proof.
  intros Hok Hty Hp. fold (current_priorities s o). destruct (Z.eqb_spec p (current_priorities s o)) as [-> |].
  - exists s. split; [done |]. split; [done |]. apply priority_set_refl.
  - by apply change_priority_set.
Qed.

Lemma priority_set_may_wait o p t s s' : priority_set o p s s' -> may_wait t s -> may_wait t s'.
Proof.
  intros Hp [Hc Hr Hl Hi (u & Hu & Hur)]. split.
  - by rewrite (ps_current _ _ _ _ Hp).
  - by rewrite (ps_state _ _ _ _ Hp).
  - by rewrite (cf_lock _ _ (ps_frame _ _ _ _ Hp)).
  - by rewrite (cf_irq _ _ (ps_frame _ _ _ _ Hp)).
  - exists u. by rewrite (ps_state _ _ _ _ Hp).
Qed.

Lemma thread_prio_range t s : core_ok s -> schedulable s t -> 0 <= current_priorities s t < 256.
Proof. intros Hok Ht. apply mk_prio, (th_masks _ _ (proj1 (co_sched _ _ Hok))); done. Qed.

Lemma now_waits_prio t h flag time s s' u : now_waits t h flag time s s' ->
  current_priorities s' u = current_priorities s u.
Proof.
  intros H. unfold current_priorities. destruct (decide (u = t)) as [-> |].
  - by rewrite (nw_self _ _ _ _ _ _ H).
  - by rewrite (nw_other _ _ _ _ _ _ H).
Qed.

Lemma made_ready_prio t s s' u : made_ready t id s s' -> current_priorities s' u = current_priorities s u.
Proof.
  intros H. unfold current_priorities. destruct (decide (u = t)) as [-> |].
  - by rewrite (mr_self _ _ _ _ H).
  - by rewrite (mr_other _ _ _ _ H).
Qed.

(** ** Waiting for a mutex *)

Lemma mutex_wait_spec m t o time s :
  core_ok s -> mutex_ok m s -> may_wait t s -> mx_owner (k_mtx s m) = Some o -> o <> t ->
  time <> 0 -> time < RT_TICK_MAX / 2 ->
  exists s', mutex_again m t time s = Some (Waits, s') /\ core_ok s' /\ mutex_ok m s' /\
    k_mtx s' = k_mtx s /\ th_state s' t = RT_THREAD_SUSPEND /\ th_error (k_thr s' t) = th_error (k_thr s t) /\
    k_lists s' (LSuspend m) = prio_insert (current_priorities s) t (k_lists s (LSuspend m)) /\
    (forall u, current_priorities s' u = if decide (u = o)
       then Z.min (current_priorities s t) (current_priorities s o) else current_priorities s u).
Proof.
  intros Hok Hm Hmw Eo Hot Ht0 Ht. pose proof Hm as [Hty Hfl Hsort Horig Hown]. rewrite Eo in Hown.
  destruct Hown as (Hv & Hh & Hoty & Hol & Hpi). unfold mutex_again. krun. rewrite Hv.
  change (0 <? 0) with false. replace (time =? 0) with false by lia. rewrite Eo. krun.
  fold (current_priorities s t).
  assert (0 <= current_priorities s t < 256) as Hp by (apply thread_prio_range; [done | left; apply Hmw]).
  destruct (lend_spec o (current_priorities s t) s Hok Hoty Hp) as (s1 & E1 & Hok1 & Hps).
  rewrite (run_bind _ _ _ _ _ E1). krun.
  assert (o_flag (k_obj s1 (Obj m)) = RT_IPC_FLAG_PRIO) as Hfl1 by (by rewrite (cf_flag _ _ (ps_frame _ _ _ _ Hps))).
  rewrite Hfl1.
  destruct (wait_on_spec (LSuspend m) t RT_IPC_FLAG_PRIO time s1 Hok1) as (s' & E' & Hok' & Hnw);
    [by eapply priority_set_may_wait | done | by right | done |].
  rewrite (run_bind _ _ _ _ _ E'). exists s'. split; [done |]. split; [done |].
  assert (core_frame s s') as Hf by (eapply core_frame_trans; [apply Hps | apply Hnw]).
  assert (t ∉ k_lists s (LSuspend m)) as Htl.
  { intros Hin. pose proof (wait_head_state s (LSuspend m) t Hok I Hin) as H. by rewrite (mw_ready _ _ Hmw) in H. }
  assert (k_lists s' (LSuspend m) = prio_insert (current_priorities s) t (k_lists s (LSuspend m))) as El.
  { rewrite (nw_list _ _ _ _ _ _ Hnw), (ps_lists _ _ _ _ Hps) by done. unfold wait_insert. simpl.
    apply prio_insert_ext. intros u Hu. rewrite (ps_prio _ _ _ _ Hps), decide_False; [done |].
    intros ->. apply elem_of_cons in Hu as [-> |]; done. }
  assert (forall u, current_priorities s' u = if decide (u = o)
       then Z.min (current_priorities s t) (current_priorities s o) else current_priorities s u) as Epr.
  { intros u. rewrite (now_waits_prio _ _ _ _ _ _ _ Hnw). apply Hps. }
  split; [| split; [apply Hf |]; split; [by rewrite (now_waits_state _ _ _ _ _ _ _ Hnw), decide_True |];
    split; [rewrite (nw_self _ _ _ _ _ _ Hnw); apply Hps | done]].
  assert (forall u, u ∈ k_lists s' (LSuspend m) <-> u = t \/ u ∈ k_lists s (LSuspend m)) as Hin.
  { intros u. rewrite El, prio_insert_perm. set_solver. }
  split.
  - by rewrite (core_get_type _ _ _ Hf).
  - by rewrite (cf_flag _ _ Hf).
  - rewrite El. apply (prio_sorted_ext (current_priorities s)); [| by apply prio_sorted_insert].
    intros u Hu. rewrite Epr, decide_False; [done |]. intros ->. rewrite prio_insert_perm in Hu.
    apply elem_of_cons in Hu as [-> |]; done.
  - by rewrite (cf_mtx _ _ Hf).
  - rewrite (cf_mtx _ _ Hf), Eo, (core_get_type _ _ _ Hf), Hin. do 3 (split; [done |]). split; [tauto |].
    intros w Hw. rewrite !Epr, decide_True by done. apply Hin in Hw.
    rewrite decide_False by (intros ->; destruct Hw; done).
    destruct Hw as [-> | Hw]; [lia |]. specialize (Hpi w Hw). lia.
Qed.

Lemma mutex_ok_error m t e s : mutex_ok m s -> mutex_ok m (alter_thr t (set_th_error e) s).
Proof.
  intros [H1 H2 H3 H4 H5].
  assert (forall u, current_priorities (alter_thr t (set_th_error e) s) u = current_priorities s u) as E
    by (intros u; apply prio_alter_same, same_error).
  split; try done.
  - apply (prio_sorted_ext (current_priorities s)); [| done]. intros u _. by rewrite E.
  - change (k_mtx (alter_thr t (set_th_error e) s)) with (k_mtx s). destruct (mx_owner (k_mtx s m)); [| done].
    destruct H5 as (? & ? & ? & ? & Hp). do 4 (split; [done |]). intros w. rewrite !E. apply Hp.
Qed.

(** [rt_mutex_take] up to the test of the owner. *)
Lemma mutex_take_enter m t time s :
  rt_object_get_type (Obj m) s = RT_Object_Class_Mutex -> may_wait t s ->
  rt_mutex_take m time s =
    (if decide (mx_owner (k_mtx s m) = Some t) then
       modify (alter_mtx m (fun x => set_mx_hold (u8 (mx_hold x + 1)) x));; mret (Done RT_EOK)
     else mutex_again m t time) (alter_thr t (set_th_error RT_EOK) s).
Proof.
  intros Hty [Hc _ _ Hi _]. unfold rt_mutex_take, RT_DEBUG_IN_THREAD_CONTEXT, RT_DEBUG_NOT_IN_INTERRUPT, assert_type. krun.
  rewrite bind_assert_s by (by rewrite Hc). rewrite bind_assert_s by (by rewrite Hi).
  rewrite bind_assert_s by (rewrite Hty; done). unfold rt_thread_self. krun. rewrite Hc. krun. done.
Qed.

(** ** Releasing *)

Lemma mutex_release_enter m t s :
  mutex_ok m s -> may_wait t s -> mx_owner (k_mtx s m) = Some t -> mx_hold (k_mtx s m) = 1 -> core_ok s ->
  exists s1, core_ok s1 /\ priority_set t (mx_original_priority (k_mtx s m))
      (alter_mtx m (fun x => set_mx_hold 0 x) s) s1 /\
    rt_mutex_release m s =
    (match k_lists s (LSuspend m) with
     | thread :: _ =>
         prio ← gets (fun s => th_current_priority (k_thr s thread));
         modify (alter_mtx m (fun x => Mutex (mx_value x) prio (u8 (mx_hold x + 1)) (Some thread)));;
         _ ← rt_ipc_list_resume (LSuspend m); rt_schedule;; mret RT_EOK
     | [] => modify (alter_mtx m (fun x => Mutex (u16 (mx_value x + 1)) 0xff (mx_hold x) None));; mret RT_EOK
     end) s1.
Proof.
  intros [Hty Hfl Hsort Horig Hown] [Hc Hr _ Hi _] Eo Eh Hok. rewrite Eo in Hown.
  destruct Hown as (Hv & _ & Hoty & _).
  set (s0 := alter_mtx m (fun x => set_mx_hold 0 x) s).
  destruct (give_back_spec t (mx_original_priority (k_mtx s m)) s0) as (s1 & E1 & Hok1 & Hps);
    [by apply mtx_core | done | done |].
  exists s1. split; [done |]. split; [done |].
  unfold rt_mutex_release, RT_DEBUG_IN_THREAD_CONTEXT, RT_DEBUG_NOT_IN_INTERRUPT, assert_type, rt_thread_self.
  rewrite bind_assert_s by (rewrite Hty; done). krun.
  rewrite bind_assert_s by (by rewrite Hc). rewrite bind_assert_s by (by rewrite Hi). krun. rewrite Hc. krun.
  rewrite Eo, bool_decide_eq_true_2 by done. cbn [negb]. krun.
  assert (alter_mtx m (fun x => set_mx_hold (u8 (mx_hold x - 1)) x) s = s0) as ->.
  { unfold s0, alter_mtx. by rewrite Eh. }
  assert (mx_hold (k_mtx s0 m) = 0) as -> by (unfold s0; by rewrite mtx_lookup).
  change (0 =? 0) with true. cbv iota. krun. change (k_thr s0) with (k_thr s) in E1.
  rewrite (run_bind _ _ _ _ _ E1). krun. rewrite (ps_lists _ _ _ _ Hps) by done. done.
Qed.

Lemma mutex_handoff_spec m t w q s :
  core_ok s -> mutex_ok m s -> may_wait t s -> mx_owner (k_mtx s m) = Some t -> mx_hold (k_mtx s m) = 1 ->
  k_lists s (LSuspend m) = w :: q ->
  exists s', rt_mutex_release m s = Some (RT_EOK, s') /\ core_ok s' /\ mutex_ok m s' /\
    k_mtx s' m = Mutex 0 (current_priorities s w) 1 (Some w) /\ k_lists s' (LSuspend m) = q /\
    th_state s' w = RT_THREAD_READY /\ (forall u, th_error (k_thr s' u) = th_error (k_thr s u)) /\
    (forall u, current_priorities s' u = if decide (u = t)
       then mx_original_priority (k_mtx s m) else current_priorities s u).
Proof.
  intros Hok Hm Hmw Eo Eh Hq. destruct (mutex_release_enter m t s Hm Hmw Eo Eh Hok) as (s1 & Hok1 & Hps & ->).
  pose proof Hm as [Hty Hfl Hsort Horig Hown]. rewrite Eo in Hown. destruct Hown as (Hv & _ & Hoty & Htl & Hpi).
  rewrite Hq. krun. fold (current_priorities s1 w).
  assert (forall u, current_priorities s1 u = if decide (u = t) then mx_original_priority (k_mtx s m)
    else current_priorities s u) as Ep1 by apply Hps.
  assert (w <> t) as Hwt by (intros ->; apply Htl; rewrite Hq; apply list_elem_of_here).
  set (s2 := alter_mtx m _ s1).
  assert (core_ok s2) as Hok2 by by apply mtx_core.
  assert (k_lists s2 (LSuspend m) = w :: q) as Hq2.
  { change (k_lists s1 (LSuspend m) = w :: q). by rewrite (ps_lists _ _ _ _ Hps). }
  assert (th_state s w = RT_THREAD_SUSPEND) as Hws.
  { apply (wait_head_state s (LSuspend m)); [done.. |]. rewrite Hq. apply list_elem_of_here. }
  destruct (resume_schedule_spec (LSuspend m) w q s2 Hok2 I Hq2) as (s3 & s' & E3 & Hok3 & Hmr & Hl3 & E' & Hok' & Hsw & _).
  { change (is_Some (k_current s1)). rewrite (ps_current _ _ _ _ Hps). change (is_Some (k_current s)).
    rewrite (mw_current _ _ Hmw). eauto. }
  rewrite (run_bind _ _ _ _ _ E3), (run_bind _ _ _ _ _ E'). exists s'. split; [done |]. split; [done |].
  pose proof (ps_frame _ _ _ _ Hps) as Hf1.
  assert (core_frame s2 s') as Hf by (eapply core_frame_trans; [apply Hmr | by apply switched_core]).
  assert (k_lists s' = k_lists s3 /\ k_thr s' = k_thr s3) as [El Et] by (by destruct Hsw as (? & ? & ? & ? & ->)).
  assert (k_mtx s' m = Mutex 0 (current_priorities s w) 1 (Some w)) as Emx.
  { rewrite (cf_mtx _ _ Hf). unfold s2. rewrite mtx_lookup, (cf_mtx _ _ Hf1), mtx_lookup. simpl.
    rewrite Hv, Ep1, decide_False by done. done. }
  assert (forall u, current_priorities s' u = if decide (u = t)
       then mx_original_priority (k_mtx s m) else current_priorities s u) as Epr.
  { intros u. unfold current_priorities at 1. rewrite Et. fold (current_priorities s3 u).
    rewrite (made_ready_prio _ _ _ _ Hmr). apply Ep1. }
  rewrite Hq in Hsort, Htl, Hpi. apply StronglySorted_inv in Hsort as [Hsort Hw].
  assert (forall p, rt_object_get_type p s' = rt_object_get_type p s) as Ety.
  { intros p. rewrite (core_get_type _ _ _ Hf). change (rt_object_get_type p s1 = rt_object_get_type p s).
    by rewrite (core_get_type _ _ _ Hf1). }
  pose proof (th_nodup _ _ (proj1 (co_sched _ _ Hok)) (LSuspend m)) as Hnd. rewrite Hq in Hnd.
  apply NoDup_cons in Hnd as [Hwq _].
  split; [| split; [done |]; split; [by rewrite El |];
    split; [unfold th_state; rewrite Et; fold (th_state s3 w); by rewrite (made_ready_state _ _ _ _ _ Hmr), decide_True |];
    split; [| done]].
  - split.
    + by rewrite Ety.
    + rewrite (cf_flag _ _ Hf). change (o_flag (k_obj s1 (Obj m)) = RT_IPC_FLAG_PRIO). by rewrite (cf_flag _ _ Hf1).
    + rewrite El, Hl3. apply (prio_sorted_ext (current_priorities s)); [| done].
      intros u Hu. rewrite Epr, decide_False; [done |]. intros ->. set_solver.
    + rewrite Emx. apply thread_prio_range; [done | by right].
    + rewrite Emx, El, Hl3. cbn [mx_owner mx_value mx_hold]. rewrite Ety. do 2 (split; [done |]).
      split; [apply (co_live _ _ Hok); by right |]. split; [done |].
      intros u Hu. rewrite !Epr, !decide_False by (try done; intros ->; set_solver).
      rewrite Forall_forall in Hw. by apply Hw.
  - intros u. rewrite Et. transitivity (th_error (k_thr s1 u)); [| apply Hps].
    destruct (decide (u = w)) as [-> |].
    + by rewrite (mr_self _ _ _ _ Hmr).
    + by rewrite (mr_other _ _ _ _ Hmr).
Qed.

Lemma mutex_free_spec m t s :
  core_ok s -> mutex_ok m s -> may_wait t s -> mx_owner (k_mtx s m) = Some t -> mx_hold (k_mtx s m) = 1 ->
  k_lists s (LSuspend m) = [] ->
  exists s', rt_mutex_release m s = Some (RT_EOK, s') /\ core_ok s' /\ mutex_ok m s' /\
    k_mtx s' m = Mutex 1 0xff 0 None /\
    (forall u, current_priorities s' u = if decide (u = t)
       then mx_original_priority (k_mtx s m) else current_priorities s u).
Proof.
  intros Hok Hm Hmw Eo Eh Hq. destruct (mutex_release_enter m t s Hm Hmw Eo Eh Hok) as (s1 & Hok1 & Hps & ->).
  pose proof Hm as [Hty Hfl Hsort Horig Hown]. rewrite Eo in Hown. destruct Hown as (Hv & _).
  rewrite Hq. krun. set (s2 := alter_mtx m _ s1). exists s2. split; [done |]. split; [by apply mtx_core |].
  pose proof (ps_frame _ _ _ _ Hps) as Hf1.
  assert (k_mtx s2 m = Mutex 1 0xff 0 None) as Emx.
  { unfold s2. rewrite mtx_lookup, (cf_mtx _ _ Hf1), mtx_lookup. simpl. by rewrite Hv. }
  assert (k_lists s2 (LSuspend m) = []) as El.
  { change (k_lists s1 (LSuspend m) = []). by rewrite (ps_lists _ _ _ _ Hps). }
  split; [| split; [done | apply Hps]]. split.
  - change (rt_object_get_type (Obj m) s1 = RT_Object_Class_Mutex). by rewrite (core_get_type _ _ _ Hf1).
  - change (o_flag (k_obj s1 (Obj m)) = RT_IPC_FLAG_PRIO). by rewrite (cf_flag _ _ Hf1).
  - rewrite El. constructor.
  - by rewrite Emx.
  - by rewrite Emx.
Qed.

(** ** Theorems *)


(** C5: priority inheritance: a caller that waits for the mutex of another
    thread is suspended at its place in the waiting list ordered by priority,
    and the owner gets the caller's priority when that is more urgent, so
    that the owner stays as urgent as every thread that waits for it
    (part of [mutex_ok]); no other priority changes. *)
Theorem rt_mutex_take_inherits m t o time s :
  core_ok s -> mutex_ok m s -> may_wait t s -> mx_owner (k_mtx s m) = Some o -> o <> t ->
  time <> 0 -> time < RT_TICK_MAX / 2 ->
  exists s', rt_mutex_take m time s = Some (Waits, s') /\ core_ok s' /\ mutex_ok m s' /\
    k_mtx s' = k_mtx s /\ th_state s' t = RT_THREAD_SUSPEND /\ th_error (k_thr s' t) = RT_EOK /\
    k_lists s' (LSuspend m) = prio_insert (current_priorities s) t (k_lists s (LSuspend m)) /\
    current_priorities s' o = Z.min (current_priorities s t) (current_priorities s o) /\
    (forall u, u <> o -> current_priorities s' u = current_priorities s u) /\
    (forall w, w ∈ k_lists s' (LSuspend m) -> current_priorities s' o <= current_priorities s' w).
Proof.
  intros Hok Hm Hmw Eo Hot H0 Ht. rewrite (mutex_take_enter m t time s (xo_type _ _ Hm) Hmw).
  rewrite Eo, decide_False by congruence. set (s0 := alter_thr t (set_th_error RT_EOK) s).
  assert (forall u, current_priorities s0 u = current_priorities s u) as Ep
    by (intros u; apply prio_alter_same, same_error).
  destruct (mutex_wait_spec m t o time s0) as (s' & E & Hok' & Hm' & Emx & Hst & He & El & Epr); try done.
  { apply core_alter_same; [apply same_error | done]. } { by apply mutex_ok_error. }
  { by apply Sem.may_wait_error. }
  exists s'. split; [done |]. split; [done |]. split; [done |]. split; [done |]. split; [done |].
  split; [rewrite He; unfold s0; by rewrite alter_thr_lookup, decide_True |].
  split; [rewrite El; by apply prio_insert_ext |].
  split; [by rewrite Epr, decide_True, !Ep by done |].
  split; [intros u Hu; by rewrite Epr, decide_False, Ep by done |].
  destruct Hm' as [_ _ _ _ Hown]. rewrite Emx in Hown. change (k_mtx s0) with (k_mtx s) in Hown. rewrite Eo in Hown.
  apply Hown.
Qed.

(** C6: [rt_mutex_release]: only the owner may release; a nested release counts
    down; the last one gives the owner the priority it had when it took
    the mutex, and hands the mutex to the most urgent waiting thread, which is
    ready and whose call succeeds, or frees it when nobody waits. *)
Theorem rt_mutex_release_spec m t s :
  core_ok s -> mutex_ok m s -> may_wait t s ->
  (mx_owner (k_mtx s m) <> Some t -> exists s', rt_mutex_release m s = Some (- RT_ERROR, s') /\
     k_mtx s' = k_mtx s /\ k_lists s' = k_lists s /\ th_error (k_thr s' t) = RT_ERROR) /\
  (mx_owner (k_mtx s m) = Some t -> 1 < mx_hold (k_mtx s m) ->
     exists s', rt_mutex_release m s = Some (RT_EOK, s') /\ core_ok s' /\ mutex_ok m s' /\
     s' = alter_mtx m (set_mx_hold (mx_hold (k_mtx s m) - 1)) s) /\
  (mx_owner (k_mtx s m) = Some t -> mx_hold (k_mtx s m) = 1 ->
     exists s', rt_mutex_release m s = Some (RT_EOK, s') /\ core_ok s' /\ mutex_ok m s' /\
     current_priorities s' t = mx_original_priority (k_mtx s m) /\
     match k_lists s (LSuspend m) with
     | [] => k_mtx s' m = Mutex 1 0xff 0 None
     | w :: q => k_mtx s' m = Mutex 0 (current_priorities s w) 1 (Some w) /\ k_lists s' (LSuspend m) = q /\
         (forall u, u ∈ q -> current_priorities s w <= current_priorities s u) /\
         th_state s' w = RT_THREAD_READY /\
         (th_error (k_thr s w) = RT_EOK -> rt_mutex_take_after m w 0 s' = Some (Done RT_EOK, s'))
     end).
Proof.
  intros Hok Hm Hmw. pose proof Hm as [Hty Hfl Hsort Horig Hown].
  split; [| split].
  - intros Eo. destruct Hmw as [Hc _ _ Hi _].
    unfold rt_mutex_release, RT_DEBUG_IN_THREAD_CONTEXT, RT_DEBUG_NOT_IN_INTERRUPT, assert_type, rt_thread_self.
    rewrite bind_assert_s by (rewrite Hty; done). krun. rewrite bind_assert_s by (by rewrite Hc).
    rewrite bind_assert_s by (by rewrite Hi). krun. rewrite Hc. krun. rewrite bool_decide_eq_false_2 by done.
    eexists. split; [reflexivity |]. split; [done |]. split; [done |].
    rewrite alter_thr_lookup. by rewrite decide_True.
  - intros Eo Hh. destruct Hmw as [Hc _ _ Hi _]. rewrite Eo in Hown.
    unfold rt_mutex_release, RT_DEBUG_IN_THREAD_CONTEXT, RT_DEBUG_NOT_IN_INTERRUPT, assert_type, rt_thread_self.
    rewrite bind_assert_s by (rewrite Hty; done). krun. rewrite bind_assert_s by (by rewrite Hc).
    rewrite bind_assert_s by (by rewrite Hi). krun. rewrite Hc. krun. rewrite Eo, bool_decide_eq_true_2 by done.
    cbn [negb]. krun. set (s1 := alter_mtx m _ s).
    assert (s1 = alter_mtx m (set_mx_hold (mx_hold (k_mtx s m) - 1)) s) as E1.
    { unfold s1, alter_mtx. rewrite wrap_small; [done |]. change (2 ^ 8) with 256. lia. }
    rewrite E1, mtx_lookup.
    change (mx_hold (set_mx_hold (mx_hold (k_mtx s m) - 1) (k_mtx s m))) with (mx_hold (k_mtx s m) - 1).
    replace (mx_hold (k_mtx s m) - 1 =? 0) with false by lia.
    eexists. split; [reflexivity |]. split; [by apply mtx_core |]. split; [| done].
    split; try done; rewrite mtx_lookup; [done |]. simpl mx_owner. rewrite Eo. simpl mx_value. simpl mx_hold.
    split; [apply Hown |]. split; [lia | apply Hown].
  - intros Eo Hh. destruct (k_lists s (LSuspend m)) as [| w q] eqn:Hq.
    + destruct (mutex_free_spec m t s Hok Hm Hmw Eo Hh Hq) as (s' & E & Hok' & Hm' & Emx & Epr).
      exists s'. split; [done |]. split; [done |]. split; [done |]. split; [by rewrite Epr, decide_True | done].
    + destruct (mutex_handoff_spec m t w q s Hok Hm Hmw Eo Hh Hq)
        as (s' & E & Hok' & Hm' & Emx & El & Hst & He & Epr).
      exists s'. split; [done |]. split; [done |]. split; [done |]. split; [by rewrite Epr, decide_True |].
      split; [done |]. split; [done |]. apply StronglySorted_inv in Hsort as [_ Hw]. rewrite Forall_forall in Hw.
      split; [done |]. split; [done |]. intros Hew. unfold rt_mutex_take_after. krun. rewrite He, Hew. done.
Qed.

(** [hold] is 8 bits wide: after 255 nested takes two more bring it to 1,
    and then a single release gives the mutex away, although its owner has taken it 257 times
    and released it once. *)
Theorem rt_mutex_hold_overflow m t s :
  core_ok s -> mutex_ok m s -> may_wait t s -> mx_owner (k_mtx s m) = Some t -> mx_hold (k_mtx s m) = 255 ->
  k_lists s (LSuspend m) = [] ->
  exists s', (_ ← rt_mutex_take m 0; _ ← rt_mutex_take m 0; rt_mutex_release m) s = Some (RT_EOK, s') /\
    k_mtx s' m = Mutex 1 0xff 0 None.
Proof.
  intros Hok Hm Hmw Eo Hh Hq. pose proof Hm as [Hty Hfl Hsort Horig Hown]. rewrite Eo in Hown.
  assert (forall s1, rt_object_get_type (Obj m) s1 = RT_Object_Class_Mutex -> may_wait t s1 ->
    mx_owner (k_mtx s1 m) = Some t -> exists s2, rt_mutex_take m 0 s1 = Some (Done RT_EOK, s2) /\
      s2 = alter_mtx m (fun x => set_mx_hold (u8 (mx_hold x + 1)) x) (alter_thr t (set_th_error RT_EOK) s1)) as Htake.
  { intros s1 Hty1 Hmw1 Eo1. rewrite (mutex_take_enter m t 0 s1 Hty1 Hmw1). rewrite Eo1, decide_True by done. krun.
    eexists. split; reflexivity. }
  destruct (Htake s Hty Hmw Eo) as (s1 & E1 & Es1). rewrite (run_bind _ _ _ _ _ E1).
  assert (may_wait t s1) as Hmw1.
  { rewrite Es1. by apply may_wait_mtx, Sem.may_wait_error. }
  assert (k_mtx s1 m = set_mx_hold 0 (k_mtx s m)) as Em1 by (rewrite Es1, mtx_lookup; change (k_mtx (alter_thr t (set_th_error RT_EOK) s)) with (k_mtx s); by rewrite Hh).
  destruct (Htake s1) as (s2 & E2 & Es2); [by rewrite Es1 | done | by rewrite Em1 |].
  rewrite (run_bind _ _ _ _ _ E2).
  assert (k_mtx s2 m = set_mx_hold 1 (k_mtx s m)) as Em2 by (rewrite Es2, mtx_lookup; change (k_mtx (alter_thr t (set_th_error RT_EOK) s1)) with (k_mtx s1); by rewrite Em1).
  assert (may_wait t s2) as Hmw2.
  { rewrite Es2. by apply may_wait_mtx, Sem.may_wait_error. }
  assert (core_ok s2) as Hok2.
  { rewrite Es2. apply mtx_core, core_alter_same; [apply same_error |].
    rewrite Es1. apply mtx_core, core_alter_same; [apply same_error | done]. }
  assert (k_lists s2 = k_lists s) as El2 by by rewrite Es2, Es1.
  assert (mutex_ok m s2) as Hm2.
  { split.
    - by rewrite Es2, Es1.
    - by rewrite Es2, Es1.
    - rewrite El2, Hq. constructor.
    - by rewrite Em2.
    - rewrite Em2. simpl mx_owner. rewrite Eo, El2, Hq. split; [apply Hown |]. split; [done |].
      split; [rewrite Es2, Es1; apply Hown |]. split; [apply not_elem_of_nil |].
      intros w Hw. by apply elem_of_nil in Hw. }
  destruct (mutex_free_spec m t s2) as (s' & E & _ & _ & Emx & _); try done; [by rewrite Em2 | by rewrite Em2 | by rewrite El2 |].
  by exists s'.
Qed.

(** ** Witnesses *)

(** Thread [o] holds mutex 11 of the example [hold] times. *)
Definition held (o : nat) (hold : Z) (s : kstate) : kstate :=
  alter_mtx 11 (fun _ => Mutex 0 (example_prio o) hold (Some o)) s.

Lemma example_mutex_ok : mutex_ok 11 example.
Proof. split; [reflexivity | reflexivity | constructor | done | done]. Qed.

Lemma held_ok_gen o hold s :
  0 < hold < 256 -> (o < 5)%nat ->
  rt_object_get_type (Obj 11) s = RT_Object_Class_Mutex -> o_flag (k_obj s (Obj 11)) = RT_IPC_FLAG_PRIO ->
  rt_object_get_type (Obj o) s = RT_Object_Class_Thread ->
  prio_sorted (current_priorities s) (k_lists s (LSuspend 11)) -> o ∉ k_lists s (LSuspend 11) ->
  (forall w, w ∈ k_lists s (LSuspend 11) -> current_priorities s o <= current_priorities s w) ->
  mutex_ok 11 (held o hold s).
Proof.
  intros Hh Ho Hty Hfl Hoty Hs Hn Hpi. unfold held. split; [done | done | done | |].
  - rewrite mtx_lookup. do 5 (destruct o as [| o]; [done |]). lia.
  - rewrite mtx_lookup. done.
Qed.

Lemma held_ok o hold : 0 < hold < 256 -> (o < 5)%nat -> mutex_ok 11 (held o hold example).
Proof.
  intros Hh Ho. apply held_ok_gen; [done | done | reflexivity | reflexivity | | constructor | apply not_elem_of_nil |].
  - do 5 (destruct o as [| o]; [reflexivity |]). lia.
  - intros w Hw. by apply elem_of_nil in Hw.
Qed.

Lemma held_waiters_ok : mutex_ok 11 (held 2 1 (example_waiters 11)).
Proof.
  assert (k_lists (example_waiters 11) (LSuspend 11) = [3; 4]%nat) as E by (vm_compute; reflexivity).
  apply held_ok_gen; rewrite ?E; clear E.
  - split; reflexivity.
  - apply Nat.ltb_lt. reflexivity.
  - vm_compute. reflexivity.
  - vm_compute. reflexivity.
  - vm_compute. reflexivity.
  - constructor; [constructor; constructor | constructor; [vm_compute; discriminate | constructor]].
  - set_solver.
  - intros w Hw. rewrite elem_of_cons, list_elem_of_singleton in Hw.
    destruct Hw as [-> | ->]; vm_compute; discriminate.
Qed.

Lemma example_waiters_may_wait n : may_wait 2 (example_waiters n).
Proof. split; [vm_compute; reflexivity .. |]. exists 0%nat. split; [lia | vm_compute; reflexivity]. Qed.

Lemma held_core o hold : core_ok (held o hold example).
Proof. apply mtx_core, example_core. Qed.

Lemma held_may_wait o hold : may_wait 2 (held o hold example).
Proof. apply may_wait_mtx, example_may_wait. Qed.


Lemma rt_mutex_take_inherits_witness :
  exists s', rt_mutex_take 11 (-1) (held 4 1 example) = Some (Waits, s') /\ core_ok s' /\ mutex_ok 11 s' /\
    k_mtx s' = k_mtx (held 4 1 example) /\ th_state s' 2 = RT_THREAD_SUSPEND /\ th_error (k_thr s' 2%nat) = RT_EOK /\
    k_lists s' (LSuspend 11) = [2%nat] /\ current_priorities s' 4 = 10 /\
    (forall u, u <> 4%nat -> current_priorities s' u = current_priorities (held 4 1 example) u) /\
    (forall w, w ∈ k_lists s' (LSuspend 11) -> current_priorities s' 4 <= current_priorities s' w).
Proof.
  apply (rt_mutex_take_inherits 11 2 4 (-1) (held 4 1 example));
    [apply held_core | apply held_ok; lia | apply held_may_wait | reflexivity | discriminate | discriminate | reflexivity].
Defined.

Lemma rt_mutex_release_spec_witness :
  exists s', rt_mutex_release 11 (held 2 1 (example_waiters 11)) = Some (RT_EOK, s') /\ core_ok s' /\ mutex_ok 11 s' /\
     current_priorities s' 2 = 10 /\
     match k_lists (held 2 1 (example_waiters 11)) (LSuspend 11) with
     | [] => k_mtx s' 11%nat = Mutex 1 0xff 0 None
     | w :: q => k_mtx s' 11%nat = Mutex 0 (current_priorities (held 2 1 (example_waiters 11)) w) 1 (Some w) /\
         k_lists s' (LSuspend 11) = q /\
         (forall u, u ∈ q -> current_priorities (held 2 1 (example_waiters 11)) w
            <= current_priorities (held 2 1 (example_waiters 11)) u) /\
         th_state s' w = RT_THREAD_READY /\
         (th_error (k_thr (held 2 1 (example_waiters 11)) w) = RT_EOK ->
            rt_mutex_take_after 11 w 0 s' = Some (Done RT_EOK, s'))
     end.
Proof.
  apply (rt_mutex_release_spec 11 2 (held 2 1 (example_waiters 11))).
  - apply mtx_core, example_waiters_core.
  - apply held_waiters_ok.
  - apply may_wait_mtx, example_waiters_may_wait.
  - reflexivity.
  - reflexivity.
Defined.

Lemma rt_mutex_hold_overflow_witness :
  exists s', (_ ← rt_mutex_take 11 0; _ ← rt_mutex_take 11 0; rt_mutex_release 11) (held 2 255 example)
      = Some (RT_EOK, s') /\
    k_mtx s' 11%nat = Mutex 1 0xff 0 None.
Proof.
  apply (rt_mutex_hold_overflow 11 2 (held 2 255 example));
    [apply held_core | apply held_ok; lia | apply held_may_wait | reflexivity ..].
Defined.

End Mutex.
