(* ===== verification/Event.v ===== *)
(** * Events: [src/kernel/src/ipc.c], lines 937-1311

    A set of 32 flags; a thread waits for all or for one of the flags it names,
    and may have them cleared when it gets them. *)

From S2P Require Import Prelude KernelTypes Kservice RtList Scheduler Object Timer Thread TimerRun IpcList Sem.
Import Scheduler KObject Timer Thread TimerRun IpcList.

Local Open Scope Z_scope.

Module Event.

(** ** Operations *)

Definition set_evt (n : nat) (v : Z) (s : kstate) : kstate := set_k_evt (fupd n v (k_evt s)) s.

Definition rt_event_init (event : nat) (name : list Z) (flag : Z) : K Z :=
  rt_object_init (Obj event) RT_Object_Class_Event name;;
  modify (alter_obj (Obj event) (set_o_flag flag));;
  _ ← rt_ipc_object_init event;
  modify (set_evt event 0);;
  mret RT_EOK.

Definition rt_event_detach (event : nat) : K Z :=
  assert_type (Obj event) RT_Object_Class_Event;;
  assert_s (rt_object_is_systemobject (Obj event));;
  _ ← rt_ipc_list_resume_all (LSuspend event);
  rt_object_detach (Obj event);;
  mret RT_EOK.

Definition rt_event_create (name : list Z) (flag : Z) : K (option nat) :=
  RT_DEBUG_NOT_IN_INTERRUPT;;
  event ← rt_object_allocate RT_Object_Class_Event name;
  match event with
  | None => mret None
  | Some event =>
      modify (alter_obj (Obj event) (set_o_flag flag));;
      _ ← rt_ipc_object_init event;
      modify (set_evt event 0);;
      mret (Some event)
  end.

Definition rt_event_delete (event : nat) : K Z :=
  assert_type (Obj event) RT_Object_Class_Event;;
  assert_s (fun s => negb (rt_object_is_systemobject (Obj event) s));;
  RT_DEBUG_NOT_IN_INTERRUPT;;
  _ ← rt_ipc_list_resume_all (LSuspend event);
  rt_object_delete (Obj event);;
  mret RT_EOK.

(** Whether the flags [ev] satisfy a wait for [want] with the option [info]. *)
Definition event_match (info want ev : Z) : bool :=
  if flag_set info RT_EVENT_FLAG_AND then Z.land want ev =? want
  else if flag_set info RT_EVENT_FLAG_OR then negb (Z.land want ev =? 0)
  else false.

(** [n->next] in the waiting list; [None] is the list head. *)
Fixpoint list_next (t : nat) (l : list nat) : option nat :=
  match l with
  | [] => None
  | u :: l => if decide (u = t) then head l else list_next t l
  end.

(** The loop of [rt_event_send] at the node [n]; it answers [need_schedule]. *)
Fixpoint event_send_loop (fuel : nat) (event : nat) (n : option nat) (need_schedule : bool) : K bool :=
  match n with
  | None => mret need_schedule
  | Some t =>
      match fuel with
      | O => fail
      | S fuel =>
          th ← gets (fun s => k_thr s t);
          ev ← gets (fun s => k_evt s event);
          let ok := event_match (th_event_info th) (th_event_set th) ev in
          (if ok && negb (flag_set (th_event_info th) RT_EVENT_FLAG_AND)
           then modify (alter_thr t (set_th_event_set (Z.land (th_event_set th) ev))) else skip);;
          n ← gets (fun s => list_next t (k_lists s (LSuspend event)));
          if ok then
            (if flag_set (th_event_info th) RT_EVENT_FLAG_CLEAR
             then modify (fun s => set_evt event (clear_bits 32 (k_evt s event) (th_event_set (k_thr s t))) s)
             else skip);;
            _ ← rt_thread_resume t;
            event_send_loop fuel event n true
          else event_send_loop fuel event n need_schedule
      end
  end.

(** No node is visited twice: the length of the list is enough fuel. *)
Definition rt_event_send (event : nat) (set : Z) : K Z :=
  assert_type (Obj event) RT_Object_Class_Event;;
  if set =? 0 then mret (- RT_ERROR)
  else
    modify (fun s => set_evt event (Z.lor (k_evt s event) set) s);;
    q ← gets (fun s => k_lists s (LSuspend event));
    need_schedule ← event_send_loop (length q) event (head q) false;
    (if need_schedule : bool then rt_schedule else skip);;
    mret RT_EOK.

(** The result is the return value and the value stored in [*recved], if one is. *)
Definition rt_event_recv (event : nat) (set option timeout : Z) : K (outcome (Z * Datatypes.option Z)) :=
  RT_DEBUG_IN_THREAD_CONTEXT;;
  assert_type (Obj event) RT_Object_Class_Event;;
  if set =? 0 then mret (Done (- RT_ERROR, None))
  else
    self ← rt_thread_self;
    t ← lift self;
    modify (alter_thr t (set_th_error RT_EOK));;
    ev ← gets (fun s => k_evt s event);
    RT_ASSERT (flag_set option RT_EVENT_FLAG_AND || flag_set option RT_EVENT_FLAG_OR);;
    if event_match option set ev then
      (if flag_set option RT_EVENT_FLAG_CLEAR then modify (set_evt event (clear_bits 32 ev set)) else skip);;
      error ← gets (fun s => th_error (k_thr s t));
      mret (Done (- error, Some (Z.land ev set)))
    else if timeout =? 0 then
      modify (alter_thr t (set_th_error RT_ETIMEOUT));;
      error ← gets (fun s => th_error (k_thr s t));
      mret (Done (- error, None))
    else
      modify (alter_thr t (set_th_event_set set));;
      modify (alter_thr t (set_th_event_info option));;
      flag ← gets (fun s => o_flag (k_obj s (Obj event)));
      wait_on (LSuspend event) t flag timeout;;
      mret Waits.

Definition rt_event_recv_after (t : nat) : K (Z * option Z) :=
  error ← gets (fun s => th_error (k_thr s t));
  if negb (error =? RT_EOK) then mret (- error, None)
  else
    set ← gets (fun s => th_event_set (k_thr s t));
    mret (- error, Some set).

Definition rt_event_control (event : nat) (cmd : Z) : K Z :=
  assert_type (Obj event) RT_Object_Class_Event;;
  if cmd =? RT_IPC_CMD_RESET then
    _ ← rt_ipc_list_resume_all (LSuspend event);
    modify (set_evt event 0);;
    rt_schedule;;
    mret RT_EOK
  else mret (- RT_ERROR).

(** ** The flags *)

(** A wait that the flags do not satisfy is not satisfied by fewer flags. *)
Lemma event_match_clear info want ev e :
  event_match info want ev = false -> event_match info want (clear_bits 32 ev e) = false.
Proof.
  assert (forall i, 0 <= i -> Z.testbit (clear_bits 32 ev e) i = true -> Z.testbit ev i = true) as Hsub.
  { intros i Hi. unfold clear_bits, wrap. rewrite <- Z.land_ones by lia. rewrite !Z.land_spec.
    destruct (Z.testbit ev i); done. }
  unfold event_match. destruct (flag_set info RT_EVENT_FLAG_AND); [| destruct (flag_set info RT_EVENT_FLAG_OR); [| done]].
  - rewrite !Z.eqb_neq. intros H E. apply H. apply Z.bits_inj'. intros i Hi.
    pose proof (f_equal (fun z => Z.testbit z i) E) as Ei. cbv beta in Ei. rewrite Z.land_spec in *.
    destruct (Z.testbit want i); [| done]. simpl in *. apply Hsub; done.
  - rewrite !negb_false_iff, !Z.eqb_eq. intros H. apply Z.bits_inj'. intros i Hi.
    pose proof (f_equal (fun z => Z.testbit z i) H) as Ei. cbv beta in Ei. rewrite Z.land_spec, Z.bits_0 in *.
    destruct (Z.testbit want i); [| done]. simpl in *. apply not_true_iff_false. intros Ht.
    apply Hsub in Ht; [congruence | done].
Qed.

(** ** What [rt_event_send] is to do *)

(** The wait of a thread. *)
Definition wants (th : rt_thread) (ev : Z) : bool := event_match (th_event_info th) (th_event_set th) ev.

(** The flags a satisfied thread gets. *)
Definition received (th : rt_thread) (ev : Z) : Z :=
  if flag_set (th_event_info th) RT_EVENT_FLAG_AND then th_event_set th else Z.land (th_event_set th) ev.

(** The flags that are left when it has got them. *)
Definition left_over (th : rt_thread) (ev : Z) : Z :=
  if flag_set (th_event_info th) RT_EVENT_FLAG_CLEAR then clear_bits 32 ev (received th ev) else ev.

(** The waiting threads are served in order, each from the flags those before it
    have left: the flags left over, the threads served and the threads left waiting. *)
Fixpoint serve (thr : nat -> rt_thread) (ev : Z) (l : list nat) : Z * list (nat * Z) * list nat :=
  match l with
  | [] => (ev, [], [])
  | t :: l =>
      if wants (thr t) ev then
        let '(ev', woken, rest) := serve thr (left_over (thr t) ev) l in
        (ev', (t, received (thr t) ev) :: woken, rest)
      else
        let '(ev', woken, rest) := serve thr ev l in (ev', woken, t :: rest)
  end.

Lemma wants_left_over th u ev : wants u ev = false -> wants u (left_over th ev) = false.
Proof. unfold wants, left_over. destruct (flag_set _ _); [apply event_match_clear | done]. Qed.

(** Nobody who is left waiting could be served, before or after. *)
Lemma serve_unsatisfied thr u ev l : wants u ev = false -> wants u (serve thr ev l).1.1 = false.
Proof.
  revert ev. induction l as [| t l IH]; simpl; intros ev H; [done |].
  destruct (wants (thr t) ev).
  - specialize (IH (left_over (thr t) ev) (wants_left_over _ _ _ H)).
    by destruct (serve thr (left_over (thr t) ev) l) as [[ev' woken] rest].
  - specialize (IH ev H). by destruct (serve thr ev l) as [[ev' woken] rest].
Qed.

Lemma serve_rest thr ev l t : t ∈ (serve thr ev l).2 -> t ∈ l /\ wants (thr t) (serve thr ev l).1.1 = false.
Proof.
  revert ev. induction l as [| u l IH]; simpl; intros ev; [intros H; by apply elem_of_nil in H |].
  destruct (wants (thr u) ev) eqn:Hw.
  - specialize (IH (left_over (thr u) ev)).
    destruct (serve thr (left_over (thr u) ev) l) as [[ev' woken] rest]. simpl in *. intros Ht.
    destruct (IH Ht). split; [by apply list_elem_of_further | done].
  - specialize (IH ev). pose proof (serve_unsatisfied thr (thr u) ev l Hw) as Hu.
    destruct (serve thr ev l) as [[ev' woken] rest]. simpl in *. rewrite elem_of_cons. intros [-> | Ht].
    + split; [apply list_elem_of_here | done].
    + destruct (IH Ht). split; [by apply list_elem_of_further | done].
Qed.

(** The threads served and the threads left over are those that waited. *)
Lemma serve_perm thr ev l : (map fst (serve thr ev l).1.2 ++ (serve thr ev l).2) ≡ₚ l.
Proof.
  revert ev. induction l as [| u l IH]; simpl; intros ev; [done |].
  destruct (wants (thr u) ev).
  - specialize (IH (left_over (thr u) ev)).
    destruct (serve thr (left_over (thr u) ev) l) as [[ev' woken] rest]. simpl in *. by constructor.
  - specialize (IH ev). destruct (serve thr ev l) as [[ev' woken] rest]. simpl in *.
    rewrite <- Permutation_middle. by constructor.
Qed.

Lemma serve_ext thr1 thr2 ev l : (forall t, t ∈ l -> thr1 t = thr2 t) -> serve thr1 ev l = serve thr2 ev l.
Proof.
  revert ev. induction l as [| u l IH]; simpl; intros ev H; [done |].
  rewrite (H u) by apply list_elem_of_here. rewrite !IH; [done | |]; intros t Ht; apply H; by apply list_elem_of_further.
Qed.

Lemma lremove_app (t : nat) l1 l2 : lremove t (l1 ++ l2) = lremove t l1 ++ lremove t l2.
Proof. unfold lremove, RtList.ListQ.remove. by rewrite filter_app. Qed.

Lemma list_next_split t pre l : t ∉ pre -> list_next t (pre ++ t :: l) = head l.
Proof.
  induction pre as [| u pre IH]; simpl; intros H; [by rewrite decide_True |].
  rewrite decide_False by set_solver. apply IH. set_solver.
Qed.

(** ** The loop of [rt_event_send] serves the waiting threads *)

Record served (n : nat) (ev : Z) (woken : list (nat * Z)) (rest : list nat) (s s' : kstate) : Prop := {
  sv_evt : k_evt s' n = ev;
  sv_evts : forall m, m <> n -> k_evt s' m = k_evt s m;
  sv_list : k_lists s' (LSuspend n) = rest;
  sv_lists : forall h, wait_head h -> h <> LSuspend n -> k_lists s' h = k_lists s h;
  sv_woken : forall t e, (t, e) ∈ woken -> th_state s' t = RT_THREAD_READY /\
    th_event_set (k_thr s' t) = e /\ th_error (k_thr s' t) = th_error (k_thr s t);
  sv_other : forall t, t ∉ map fst woken -> k_thr s' t = k_thr s t;
  sv_frame : core_frame (set_k_evt (k_evt s') s) s';
  sv_current : k_current s' = k_current s
}.

Lemma evt_core v n s : core_ok s -> core_ok (set_evt n v s).
Proof. intros [H1 H2 H3]. split; [by eapply sched_frame | by eapply timers_frame | exact H3]. Qed.

(** The flags of a satisfied thread, and the flags it leaves. *)
Lemma take_flags_spec n t s :
  core_ok s -> wants (k_thr s t) (k_evt s n) = true ->
  let m : K unit :=
    (if wants (k_thr s t) (k_evt s n) && negb (flag_set (th_event_info (k_thr s t)) RT_EVENT_FLAG_AND)
     then modify (alter_thr t (set_th_event_set (Z.land (th_event_set (k_thr s t)) (k_evt s n)))) else skip) in
  exists s1, m s = Some (tt, s1) /\ core_ok s1 /\ s1 = set_k_thr (k_thr s1) s /\
    th_event_set (k_thr s1 t) = received (k_thr s t) (k_evt s n) /\ th_error (k_thr s1 t) = th_error (k_thr s t) /\
    (forall u, th_state s1 u = th_state s u) /\ forall u, u <> t -> k_thr s1 u = k_thr s u.
Proof.
  intros Hok Hw. cbv zeta. rewrite Hw. unfold received. destruct (flag_set _ RT_EVENT_FLAG_AND) eqn:Ha; cbn [negb andb].
  - exists s. split; [done |]. split; [done |]. split; [by destruct s | done].
  - eexists. split; [reflexivity |]. split; [apply core_alter_same; [apply same_event_set | done] |].
    split; [done |]. rewrite !alter_thr_lookup, decide_True by done. split; [done |]. split; [done |].
    split; [| intros u Hu; by rewrite alter_thr_lookup, decide_False].
    intros u. destruct (decide (u = t)) as [-> |]; [| by rewrite state_alter_ne].
    unfold th_state. by rewrite alter_thr_lookup, decide_True.
Qed.

Lemma leave_flags_spec n t ev s1 :
  core_ok s1 -> k_evt s1 n = ev ->
  exists s2, (if flag_set (th_event_info (k_thr s1 t)) RT_EVENT_FLAG_CLEAR
     then modify (fun s => set_evt n (clear_bits 32 (k_evt s n) (th_event_set (k_thr s t))) s) else skip) s1
     = Some (tt, s2) /\ core_ok s2 /\ s2 = set_k_evt (k_evt s2) s1 /\
    k_evt s2 n = (if flag_set (th_event_info (k_thr s1 t)) RT_EVENT_FLAG_CLEAR
                  then clear_bits 32 ev (th_event_set (k_thr s1 t)) else ev) /\
    forall m, m <> n -> k_evt s2 m = k_evt s1 m.
Proof.
  intros Hok Hev. destruct (flag_set (th_event_info (k_thr s1 t)) RT_EVENT_FLAG_CLEAR).
  - eexists. split; [reflexivity |]. split; [by apply evt_core |]. split; [done |].
    split; [simpl; by rewrite fupd_eq, Hev |]. intros m Hm. simpl. by rewrite fupd_ne.
  - exists s1. split; [done |]. split; [done |]. split; [by destruct s1 | done].
Qed.

Lemma send_loop_spec n l : forall pre s fuel need,
  core_ok s -> k_lists s (LSuspend n) = pre ++ l -> (length l <= fuel)%nat ->
  exists s', let r := serve (k_thr s) (k_evt s n) l in
    event_send_loop fuel n (head l) need s = Some (need || negb (bool_decide (r.1.2 = [])), s') /\ core_ok s' /\
    served n r.1.1 r.1.2 (pre ++ r.2) s s'.
Proof.
  induction l as [| t l IH]; intros pre s fuel need Hok Hl Hf.
  - exists s. simpl. destruct fuel; simpl; (split; [by rewrite orb_false_r |]); (split; [done |]);
      split; try done; intros t e H; by apply elem_of_nil in H.
  - destruct fuel as [| fuel]; [simpl in Hf; lia |]. simpl event_send_loop. krun.
    pose proof (th_nodup _ _ (proj1 (co_sched _ _ Hok)) (LSuspend n)) as Hnd. rewrite Hl in Hnd.
    apply NoDup_app in Hnd as (_ & Hpre & Hnd). apply NoDup_cons in Hnd as [Htl _].
    assert (t ∉ pre) as Htp by (intros H; apply (Hpre t H), list_elem_of_here).
    fold (wants (k_thr s t) (k_evt s n)).
    assert (t ∈ k_lists s (LSuspend n)) as Hin by (rewrite Hl; set_solver).
    destruct (wants (k_thr s t) (k_evt s n)) eqn:Hw.
    + destruct (take_flags_spec n t s Hok Hw) as (s1 & E1 & Hok1 & Es1 & Eset1 & Eerr1 & Est1 & Eo1).
      cbv zeta in E1. rewrite Hw in E1. rewrite (run_bind _ _ _ _ _ E1). krun.
      assert (k_lists s1 = k_lists s /\ k_evt s1 = k_evt s) as [El1 Ev1] by by rewrite Es1.
      rewrite El1, Hl, list_next_split by done.
      assert (th_event_info (k_thr s1 t) = th_event_info (k_thr s t)) as Einf.
      { revert E1. destruct (true && _); intros [= <-]; [| done]. by rewrite alter_thr_lookup, decide_True. }
      destruct (leave_flags_spec n t (k_evt s n) s1 Hok1) as (s2 & E2 & Hok2 & Es2 & Ev2 & Eo2); [by rewrite Ev1 |].
      rewrite Einf in E2, Ev2. rewrite Eset1 in Ev2. fold (left_over (k_thr s t) (k_evt s n)) in Ev2.
      rewrite (run_bind _ _ _ _ _ E2).
      assert (k_lists s2 = k_lists s1 /\ k_thr s2 = k_thr s1) as [El2 Et2] by by rewrite Es2.
      assert (forall u, th_state s2 u = th_state s u) as Est2.
      { intros u. unfold th_state at 1. rewrite Et2. apply Est1. }
      destruct (thread_resume_spec t s2 Hok2) as (s3 & E3 & Hok3 & Hmr).
      { rewrite Est2. by apply (wait_head_state s (LSuspend n)). }
      rewrite (run_bind _ _ _ _ _ E3). pose proof (mr_frame _ _ _ _ Hmr) as Hf3.
      assert (k_lists s3 (LSuspend n) = pre ++ l) as El3.
      { rewrite (mr_lists _ _ _ _ Hmr), decide_False by done. rewrite El2, El1, Hl.
        rewrite lremove_app, lremove_head, lremove_id by done. done. }
      destruct (IH pre s3 fuel true Hok3 El3) as (s' & E' & Hok' & Hsv); [simpl in Hf; lia |].
      cbv zeta in *. simpl serve. rewrite Hw.
      assert (serve (k_thr s3) (k_evt s3 n) l = serve (k_thr s) (left_over (k_thr s t) (k_evt s n)) l) as Eserve.
      { rewrite (cf_evt _ _ Hf3), Ev2. apply serve_ext. intros u Hu. assert (u <> t) by (intros ->; done).
        rewrite (mr_other _ _ _ _ Hmr), Et2 by done. by apply Eo1. }
      rewrite Eserve in *. destruct (serve (k_thr s) (left_over (k_thr s t) (k_evt s n)) l) as [[ev' woken] rest] eqn:Es.
      simpl in Hsv, E'. simpl. exists s'. split; [rewrite E'; simpl; by rewrite orb_true_r |]. split; [done |].
      assert (t ∉ map fst woken) as Htw.
      { intros H. apply Htl. pose proof (serve_perm (k_thr s) (left_over (k_thr s t) (k_evt s n)) l) as Hp.
        rewrite Es in Hp. simpl in Hp. rewrite <- Hp. apply elem_of_app. by left. }
      split.
      * apply Hsv.
      * intros m Hm. rewrite (sv_evts _ _ _ _ _ _ Hsv), (cf_evt _ _ Hf3), Eo2, Ev1 by done. done.
      * apply Hsv.
      * intros h Hh Hne. rewrite (sv_lists _ _ _ _ _ _ Hsv), (mr_lists _ _ _ _ Hmr) by done.
        rewrite decide_False by (by apply wait_head_not_ready). rewrite El2, El1.
        by apply (lremove_other s (LSuspend n)).
      * intros u e Hu. apply elem_of_cons in Hu as [[= -> ->] | Hu].
        { unfold th_state. rewrite (sv_other _ _ _ _ _ _ Hsv t Htw). fold (th_state s3 t).
          rewrite (made_ready_state _ _ _ _ _ Hmr), decide_True, (mr_self _ _ _ _ Hmr) by done.
          split; [done |]. unfold id. simpl. rewrite Et2. by rewrite Eset1, Eerr1. }
        assert (u <> t) as Hne.
        { intros ->. apply Htw. change t with (fst (t, e)). by apply list_elem_of_fmap_2. }
        destruct (sv_woken _ _ _ _ _ _ Hsv u e Hu) as (H1 & H2 & H3). split; [done |]. split; [done |].
        rewrite H3, (mr_other _ _ _ _ Hmr), Et2, Eo1 by done. done.
      * intros u Hu. apply not_elem_of_cons in Hu as [Hne Hu].
        rewrite (sv_other _ _ _ _ _ _ Hsv), (mr_other _ _ _ _ Hmr), Et2, Eo1 by done. done.
      * eapply core_frame_trans; [| apply Hsv].
        destruct Hf3. rewrite Es2, Es1 in *. split; simpl in *; congruence.
      * rewrite (sv_current _ _ _ _ _ _ Hsv), (mr_current _ _ _ _ Hmr), Es2. simpl. by rewrite Es1.
    + cbn [andb]. krun. rewrite Hl, list_next_split by done.
      destruct (IH (pre ++ [t]) s fuel need Hok) as (s' & E' & Hok' & Hsv); [by rewrite <- app_assoc | simpl in Hf; lia |].
      exists s'. cbv zeta in *. simpl serve. rewrite Hw.
      destruct (serve (k_thr s) (k_evt s n) l) as [[ev' woken] rest] eqn:Es. simpl in *.
      rewrite <- app_assoc in Hsv. by split.
Qed.

(** ** The invariant *)

(** No thread waits for flags that are there. *)
Record event_ok (n : nat) (s : kstate) : Prop := {
  eo_type : rt_object_get_type (Obj n) s = RT_Object_Class_Event;
  eo_flag : wait_flag (o_flag (k_obj s (Obj n)));
  eo_wait : forall t, t ∈ k_lists s (LSuspend n) -> wants (k_thr s t) (k_evt s n) = false
}.

(** Without waiters that clear flags, exactly the satisfied threads are served. *)
Lemma serve_no_clear thr ev l :
  (forall t, t ∈ l -> flag_set (th_event_info (thr t)) RT_EVENT_FLAG_CLEAR = false) ->
  serve thr ev l = (ev, map (fun t => (t, received (thr t) ev)) (filter (fun t => wants (thr t) ev = true) l),
    filter (fun t => wants (thr t) ev = false) l).
Proof.
  induction l as [| t l IH]; intros H; [done |].
  assert (forall u, u ∈ l -> flag_set (th_event_info (thr u)) RT_EVENT_FLAG_CLEAR = false) as Hl
    by (intros u Hu; apply H; by apply list_elem_of_further).
  simpl serve. unfold left_over. rewrite (H t) by apply list_elem_of_here. rewrite !(IH Hl).
  rewrite !filter_cons. by destruct (wants (thr t) ev).
Qed.

(** ** Theorems *)



(** ** Witnesses *)

(** Thread 3 waits for the flags 1 and 4, all of them, thread 4 for one of the
    flags 4 and 8, which it clears. *)
Definition example_event : kstate :=
  alter_thr 4 (set_th_event_info 6) (alter_thr 4 (set_th_event_set 12)
    (alter_thr 3 (set_th_event_info 1) (alter_thr 3 (set_th_event_set 5) (example_waiters 12)))).

Lemma example_event_core : core_ok example_event.
Proof.
  unfold example_event. do 2 (apply core_alter_same; [apply same_event_info |]; apply core_alter_same; [apply same_event_set |]).
  apply example_waiters_core.
Qed.

Lemma example_event_ok : event_ok 12 example_event.
Proof.
  assert (k_lists example_event (LSuspend 12) = [3; 4]%nat) as E by (vm_compute; reflexivity).
  split; [vm_compute; reflexivity | left; vm_compute; reflexivity |].
  rewrite E. intros t Ht. rewrite elem_of_cons, list_elem_of_singleton in Ht.
  destruct Ht as [-> | ->]; vm_compute; reflexivity.
Qed.

(** Flag 4 wakes thread 4 and is cleared; thread 3 keeps waiting. *)
Example example_event_serve :
  serve (k_thr example_event) 4 (k_lists example_event (LSuspend 12)) = (0, [(4%nat, 4)], [3%nat]).
Proof. vm_compute. reflexivity. Qed.



End Event.
