(* ===== verification/Mailbox.v ===== *)
(** * Mailboxes: [src/kernel/src/ipc.c], lines 1313-1867

    A ring of 32-bit words with two waiting lists: the receivers of the IPC
    object and the senders of [suspend_sender_thread].  [mbox_queue] is the
    queue a mailbox stands for. *)

From S2P Require Import Prelude KernelTypes Kservice RtList Scheduler Object Timer Thread TimerRun IpcList Sem.
Import Scheduler KObject Timer Thread TimerRun IpcList.

Local Open Scope Z_scope.

Module Mailbox.

(** ** Operations *)

(** [msgpool]: the words of the pool; [mb->size] has 16 bits. *)
Definition rt_mb_init (m : nat) (name : list Z) (msgpool : list Z) (size flag : Z) : K Z :=
  rt_object_init (Obj m) RT_Object_Class_MailBox name;;
  modify (alter_obj (Obj m) (set_o_flag flag));;
  _ ← rt_ipc_object_init m;
  modify (alter_mb m (fun _ => Mailbox msgpool (u16 size) 0 0 0));;
  modify (alter_list (LSender m) (fun _ => []));;
  mret RT_EOK.

Definition rt_mb_detach (m : nat) : K Z :=
  assert_type (Obj m) RT_Object_Class_MailBox;;
  assert_s (rt_object_is_systemobject (Obj m));;
  _ ← rt_ipc_list_resume_all (LSuspend m);
  _ ← rt_ipc_list_resume_all (LSender m);
  rt_object_detach (Obj m);;
  mret RT_EOK.

(** [garbage]: what the words of the allocated pool hold. *)
Definition rt_mb_create (name : list Z) (garbage : list Z) (size flag : Z) : K (option nat) :=
  RT_DEBUG_NOT_IN_INTERRUPT;;
  mb ← rt_object_allocate RT_Object_Class_MailBox name;
  match mb with
  | None => mret None
  | Some m =>
      modify (alter_obj (Obj m) (set_o_flag flag));;
      _ ← rt_ipc_object_init m;
      modify (alter_mb m (set_mb_size (u16 size)));;
      pool ← rt_malloc;
      match pool with
      | None => rt_object_delete (Obj m);; mret None
      | Some _ =>
          modify (alter_mb m (fun x => Mailbox (take (Z.to_nat (mb_size x)) garbage) (mb_size x) 0 0 0));;
          modify (alter_list (LSender m) (fun _ => []));;
          mret (Some m)
      end
  end.

Definition rt_mb_delete (m : nat) : K Z :=
  RT_DEBUG_NOT_IN_INTERRUPT;;
  assert_type (Obj m) RT_Object_Class_MailBox;;
  assert_s (fun s => negb (rt_object_is_systemobject (Obj m) s));;
  _ ← rt_ipc_list_resume_all (LSuspend m);
  _ ← rt_ipc_list_resume_all (LSender m);
  rt_object_delete (Obj m);;
  mret RT_EOK.

(** Storing a word behind the others, before the others; taking the first. *)
Definition mbox_put (value : Z) (x : rt_mailbox) : option rt_mailbox :=
  pool ← zset (mb_msg_pool x) (mb_in_offset x) value;
  let i := u16 (mb_in_offset x + 1) in
  Some (Mailbox pool (mb_size x) (u16 (mb_entry x + 1)) (if mb_size x <=? i then 0 else i) (mb_out_offset x)).

Definition mbox_urgent (value : Z) (x : rt_mailbox) : option rt_mailbox :=
  let i := if 0 <? mb_out_offset x then mb_out_offset x - 1 else u16 (mb_size x - 1) in
  pool ← zset (mb_msg_pool x) i value;
  Some (Mailbox pool (mb_size x) (u16 (mb_entry x + 1)) (mb_in_offset x) i).

Definition mbox_get (x : rt_mailbox) : option (Z * rt_mailbox) :=
  value ← zget (mb_msg_pool x) (mb_out_offset x);
  let i := u16 (mb_out_offset x + 1) in
  Some (value, Mailbox (mb_msg_pool x) (mb_size x) (if 0 <? mb_entry x then mb_entry x - 1 else mb_entry x)
                 (mb_in_offset x) (if mb_size x <=? i then 0 else i)).

(** What is left of the waiting time after a wait that began at the tick [tick_delta]. *)
Definition remaining_timeout (timeout tick tick_delta : Z) : Z :=
  if 0 <? timeout then
    let timeout := i32 (timeout - u32 (tick - tick_delta)) in
    if timeout <? 0 then 0 else timeout
  else timeout.

(** [rt_mb_send_wait] from the test of its loop. *)
Definition mb_send_loop (m : nat) (value timeout : Z) : K (outcome Z) :=
  mb ← gets (fun s => k_mb s m);
  if mb_entry mb =? mb_size mb then
    self ← rt_thread_self;
    t ← lift self;
    modify (alter_thr t (set_th_error RT_EOK));;
    if timeout =? 0 then mret (Done (- RT_EFULL))
    else
      RT_DEBUG_IN_THREAD_CONTEXT;;
      flag ← gets (fun s => o_flag (k_obj s (Obj m)));
      wait_on (LSender m) t flag timeout;;
      mret Waits
  else
    mb ← lift (mbox_put value mb);
    modify (alter_mb m (fun _ => mb));;
    wake_first (LSuspend m);;
    mret (Done RT_EOK).

Definition rt_mb_send_wait (m : nat) (value timeout : Z) : K (outcome Z) :=
  assert_type (Obj m) RT_Object_Class_MailBox;;
  mb ← gets (fun s => k_mb s m);
  if (mb_entry mb =? mb_size mb) && (timeout =? 0) then mret (Done (- RT_EFULL))
  else mb_send_loop m value timeout.

(** What thread [t] does behind the [rt_schedule] of [rt_mb_send_wait]; its wait
    began at the tick [tick_delta]. *)
Definition rt_mb_send_wait_after (m t : nat) (value timeout tick_delta : Z) : K (outcome Z) :=
  error ← gets (fun s => th_error (k_thr s t));
  if negb (error =? RT_EOK) then mret (Done (- error))
  else
    tick ← rt_tick_get;
    mb_send_loop m value (remaining_timeout timeout tick tick_delta).

Definition rt_mb_send (m : nat) (value : Z) : K (outcome Z) := rt_mb_send_wait m value 0.

Definition rt_mb_urgent (m : nat) (value : Z) : K Z :=
  assert_type (Obj m) RT_Object_Class_MailBox;;
  mb ← gets (fun s => k_mb s m);
  if mb_entry mb =? mb_size mb then mret (- RT_EFULL)
  else
    mb ← lift (mbox_urgent value mb);
    modify (alter_mb m (fun _ => mb));;
    wake_first (LSuspend m);;
    mret RT_EOK.

(** The result is the return value and the word stored in [*value], if one is. *)
Definition mb_recv_loop (m : nat) (timeout : Z) : K (outcome (Z * option Z)) :=
  mb ← gets (fun s => k_mb s m);
  if mb_entry mb =? 0 then
    self ← rt_thread_self;
    t ← lift self;
    modify (alter_thr t (set_th_error RT_EOK));;
    if timeout =? 0 then
      modify (alter_thr t (set_th_error RT_ETIMEOUT));;
      mret (Done (- RT_ETIMEOUT, None))
    else
      RT_DEBUG_IN_THREAD_CONTEXT;;
      flag ← gets (fun s => o_flag (k_obj s (Obj m)));
      wait_on (LSuspend m) t flag timeout;;
      mret Waits
  else
    '(value, mb) ← lift (mbox_get mb);
    modify (alter_mb m (fun _ => mb));;
    wake_first (LSender m);;
    mret (Done (RT_EOK, Some value)).

Definition rt_mb_recv (m : nat) (timeout : Z) : K (outcome (Z * option Z)) :=
  assert_type (Obj m) RT_Object_Class_MailBox;;
  mb ← gets (fun s => k_mb s m);
  if (mb_entry mb =? 0) && (timeout =? 0) then mret (Done (- RT_ETIMEOUT, None))
  else mb_recv_loop m timeout.

Definition rt_mb_recv_after (m t : nat) (timeout tick_delta : Z) : K (outcome (Z * option Z)) :=
  error ← gets (fun s => th_error (k_thr s t));
  if negb (error =? RT_EOK) then mret (Done (- error, None))
  else
    tick ← rt_tick_get;
    mb_recv_loop m (remaining_timeout timeout tick tick_delta).

Definition rt_mb_control (m : nat) (cmd : Z) : K Z :=
  assert_type (Obj m) RT_Object_Class_MailBox;;
  if cmd =? RT_IPC_CMD_RESET then
    _ ← rt_ipc_list_resume_all (LSuspend m);
    _ ← rt_ipc_list_resume_all (LSender m);
    modify (alter_mb m (fun x => Mailbox (mb_msg_pool x) (mb_size x) 0 0 0));;
    rt_schedule;;
    mret RT_EOK
  else mret (- RT_ERROR).

(** ** The ring as a queue *)

Record mbox_ok (x : rt_mailbox) : Prop := {
  mbo_size : 0 < mb_size x < 2 ^ 16;
  mbo_pool : zlen (mb_msg_pool x) = mb_size x;
  mbo_entry : 0 <= mb_entry x <= mb_size x;
  mbo_out : 0 <= mb_out_offset x < mb_size x;
  mbo_in : mb_in_offset x = (mb_out_offset x + mb_entry x) mod mb_size x
}.

Definition mbox_queue (x : rt_mailbox) : list Z :=
  map (fun i => znth (mb_msg_pool x) ((mb_out_offset x + Z.of_nat i) mod mb_size x)) (seq 0 (Z.to_nat (mb_entry x))).

Lemma mbox_queue_len x : mbox_ok x -> zlen (mbox_queue x) = mb_entry x.
Proof. intros []. unfold mbox_queue. rewrite length_map, length_seq. lia. Qed.

(** Stepping an offset around the ring. *)
Lemma ring_next size i : 0 < size < 2 ^ 16 -> 0 <= i < size ->
  (if size <=? u16 (i + 1) then 0 else u16 (i + 1)) = (i + 1) mod size.
Proof.
  intros Hs Hi. rewrite (wrap_small 16 (i + 1)) by lia. destruct (Z.leb_spec size (i + 1)).
  - replace (i + 1) with size by lia. by rewrite Z.mod_same by lia.
  - by rewrite Z.mod_small by lia.
Qed.

Lemma ring_prev size i : 0 < size < 2 ^ 16 -> 0 <= i < size ->
  (if 0 <? i then i - 1 else u16 (size - 1)) = (i - 1) mod size.
Proof.
  intros Hs Hi. destruct (Z.ltb_spec 0 i).
  - by rewrite Z.mod_small by lia.
  - rewrite (wrap_small 16 (size - 1)) by lia. replace (i - 1) with (size - 1 + (-1) * size) by lia.
    rewrite Z.mod_add by lia. by rewrite Z.mod_small by lia.
Qed.

(** Different positions of the ring are different words of the pool. *)
Lemma ring_ne size o i j : 0 < size -> 0 <= i < size -> 0 <= j < size -> i <> j ->
  (o + i) mod size <> (o + j) mod size.
Proof.
  intros Hs Hi Hj Hn E. apply Hn.
  assert ((i - j) mod size = 0) as Hd.
  { replace (i - j) with ((o + i) - (o + j)) by lia. rewrite Zminus_mod, E, Z.sub_diag. apply Z.mod_0_l. lia. }
  apply Z.mod_divide in Hd as [k Hk]; [| lia]. assert (k = 0) by nia. lia.
Qed.

Lemma mbox_put_spec v x : mbox_ok x -> mb_entry x < mb_size x ->
  exists y, mbox_put v x = Some y /\ mbox_ok y /\ mb_size y = mb_size x /\ mbox_queue y = mbox_queue x ++ [v].
Proof.
  intros [Hs Hp He Ho Hi] Hfull. unfold mbox_put.
  assert (0 <= mb_in_offset x < mb_size x) as Hin by (rewrite Hi; apply Z.mod_pos_bound; lia).
  destruct (zset_Some (mb_msg_pool x) (mb_in_offset x) v) as (pool & -> & Hl & Hget); [lia |].
  cbn [mbind option_bind]. eexists. split; [reflexivity |].
  rewrite ring_next by lia. rewrite (wrap_small 16 (mb_entry x + 1)) by lia. split; [| split; [done |]].
  - split; simpl; try lia. rewrite Hi, Zplus_mod_idemp_l. f_equal. lia.
  - unfold mbox_queue. simpl. replace (Z.to_nat (mb_entry x + 1)) with (S (Z.to_nat (mb_entry x))) by lia.
    rewrite seq_S, map_app. f_equal.
    + apply map_ext_in. intros i Hii. apply in_seq in Hii.
      pose proof (Z.mod_pos_bound (mb_out_offset x + Z.of_nat i) (mb_size x) ltac:(lia)).
      rewrite Hget by lia. rewrite Hi.
      pose proof (ring_ne (mb_size x) (mb_out_offset x) (Z.of_nat i) (mb_entry x) ltac:(lia) ltac:(lia) ltac:(lia) ltac:(lia)).
      by rewrite (proj2 (Z.eqb_neq _ _)).
    + simpl. rewrite Z2Nat.id by lia. rewrite <- Hi, Hget, Z.eqb_refl by lia. done.
Qed.

Lemma mbox_urgent_spec v x : mbox_ok x -> mb_entry x < mb_size x ->
  exists y, mbox_urgent v x = Some y /\ mbox_ok y /\ mb_size y = mb_size x /\ mbox_queue y = v :: mbox_queue x.
Proof.
  intros [Hs Hp He Ho Hi] Hfull. unfold mbox_urgent. rewrite ring_prev by lia.
  pose proof (Z.mod_pos_bound (mb_out_offset x - 1) (mb_size x) ltac:(lia)) as Hb.
  destruct (zset_Some (mb_msg_pool x) ((mb_out_offset x - 1) mod mb_size x) v) as (pool & -> & Hl & Hget); [lia |].
  cbn [mbind option_bind]. eexists. split; [reflexivity |].
  rewrite (wrap_small 16 (mb_entry x + 1)) by lia. split; [| split; [done |]].
  - split; simpl; try lia. rewrite Hi, Zplus_mod_idemp_l. f_equal. lia.
  - unfold mbox_queue. simpl. replace (Z.to_nat (mb_entry x + 1)) with (S (Z.to_nat (mb_entry x))) by lia.
    rewrite <- cons_seq. cbn [map]. f_equal.
    + rewrite Z.add_0_r, Z.mod_mod by lia. by rewrite Hget, Z.eqb_refl by lia.
    + rewrite <- seq_shift, map_map. apply map_ext_in. intros i Hii. apply in_seq in Hii.
      rewrite Zplus_mod_idemp_l. replace (mb_out_offset x - 1 + Z.of_nat (S i)) with (mb_out_offset x + Z.of_nat i) by lia.
      pose proof (Z.mod_pos_bound (mb_out_offset x + Z.of_nat i) (mb_size x) ltac:(lia)).
      rewrite Hget by lia. rewrite (proj2 (Z.eqb_neq _ _)); [done |].
      pose proof (ring_ne (mb_size x) (mb_out_offset x - 1) (Z.of_nat (S i)) 0 ltac:(lia) ltac:(lia) ltac:(lia) ltac:(lia)) as H1.
      rewrite Z.add_0_r in H1. replace (mb_out_offset x + Z.of_nat i) with (mb_out_offset x - 1 + Z.of_nat (S i)) by lia. done.
Qed.

Lemma mbox_get_spec x : mbox_ok x -> 0 < mb_entry x ->
  exists v y, mbox_get x = Some (v, y) /\ mbox_ok y /\ mb_size y = mb_size x /\ mbox_queue x = v :: mbox_queue y.
Proof.
  intros [Hs Hp He Ho Hi] Hne. unfold mbox_get. rewrite zget_Some by lia. cbn [mbind option_bind].
  rewrite ring_next by lia. replace (0 <? mb_entry x) with true by lia.
  do 2 eexists. split; [reflexivity |].
  pose proof (Z.mod_pos_bound (mb_out_offset x + 1) (mb_size x) ltac:(lia)).
  split; [| split; [done |]].
  - split; simpl; try lia. rewrite Hi, Zplus_mod_idemp_l. f_equal. lia.
  - unfold mbox_queue. simpl. replace (Z.to_nat (mb_entry x)) with (S (Z.to_nat (mb_entry x - 1))) by lia.
    rewrite <- cons_seq. cbn [map]. f_equal.
    + rewrite Z.add_0_r, Z.mod_small by lia. done.
    + rewrite <- seq_shift, map_map. apply map_ext_in. intros i _. rewrite Zplus_mod_idemp_l. do 2 f_equal. lia.
Qed.

(** ** The invariant *)

Record mb_ok (m : nat) (s : kstate) : Prop := {
  mo_type : rt_object_get_type (Obj m) s = RT_Object_Class_MailBox;
  mo_flag : wait_flag (o_flag (k_obj s (Obj m)));
  mo_mbox : mbox_ok (k_mb s m)
}.

Definition mb_queue (m : nat) (s : kstate) : list Z := mbox_queue (k_mb s m).
Definition mb_full (m : nat) (s : kstate) : Prop := mb_entry (k_mb s m) = mb_size (k_mb s m).
Definition mb_empty (m : nat) (s : kstate) : Prop := mb_entry (k_mb s m) = 0.

Lemma mb_core m f s : core_ok s -> core_ok (alter_mb m f s).
Proof. intros [H1 H2 H3]. split; [by eapply sched_frame | by eapply timers_frame | exact H3]. Qed.

Lemma mb_lookup m f s : k_mb (alter_mb m f s) m = f (k_mb s m).
Proof. simpl. by rewrite fupd_eq. Qed.

Lemma mb_ok_frame m s s' : mb_ok m s -> core_frame s s' -> mb_ok m s'.
Proof. intros [] Hf. split; rewrite ?(core_get_type _ _ _ Hf), ?(cf_flag _ _ Hf), ?(cf_mb _ _ Hf); done. Qed.

Lemma mb_ok_set m y s : mb_ok m s -> mbox_ok y -> mb_ok m (alter_mb m (fun _ => y) s).
Proof. intros [] Hy. split; rewrite ?mb_lookup; done. Qed.

(** The mailbox holds [y] now, and the first thread of the list [h] is woken. *)
Lemma mb_store_wake m y h s :
  core_ok s -> mb_ok m s -> mbox_ok y -> wait_head h -> is_Some (k_current s) ->
  exists s', wake_first h (alter_mb m (fun _ => y) s) = Some (tt, s') /\ core_ok s' /\ mb_ok m s' /\
    k_mb s' m = y /\ k_lists s' h = tail (k_lists s h) /\
    (forall t, head (k_lists s h) = Some t -> th_state s' t = RT_THREAD_READY) /\
    (forall u, th_error (k_thr s' u) = th_error (k_thr s u)).
Proof.
  intros Hok Hm Hy Hh Hc.
  destruct (wake_first_spec h (alter_mb m (fun _ => y) s)) as (s' & E & Hok' & Hw); [by apply mb_core | done | done |].
  exists s'. split; [done |]. split; [done |].
  split; [eapply mb_ok_frame; [by apply mb_ok_set | apply Hw] |].
  split; [rewrite (cf_mb _ _ (wf_frame _ _ _ Hw)); by rewrite mb_lookup |].
  split; [apply Hw |]. split; apply Hw.
Qed.

Lemma mb_send_room m v timeout s :
  core_ok s -> mb_ok m s -> ~ mb_full m s -> is_Some (k_current s) ->
  exists s', mb_send_loop m v timeout s = Some (Done RT_EOK, s') /\ core_ok s' /\ mb_ok m s' /\
    mb_queue m s' = mb_queue m s ++ [v] /\ k_lists s' (LSuspend m) = tail (k_lists s (LSuspend m)) /\
    (forall t, head (k_lists s (LSuspend m)) = Some t -> th_state s' t = RT_THREAD_READY) /\
    (forall u, th_error (k_thr s' u) = th_error (k_thr s u)).
Proof.
  unfold mb_full. intros Hok Hm Hf Hc. pose proof (mo_mbox _ _ Hm) as Hx.
  destruct (mbox_put_spec v (k_mb s m) Hx) as (y & Ey & Hy & Hsz & Hq); [pose proof (mbo_entry _ Hx); lia |].
  unfold mb_send_loop. krun. rewrite (proj2 (Z.eqb_neq _ _) Hf), Ey. krun.
  destruct (mb_store_wake m y (LSuspend m) s Hok Hm Hy I Hc) as (s' & E & Hok' & Hm' & Emb & Hrest).
  rewrite (run_bind _ _ _ _ _ E). exists s'. split; [done |]. split; [done |]. split; [done |].
  unfold mb_queue. by rewrite Emb.
Qed.

Lemma mb_recv_some m timeout s :
  core_ok s -> mb_ok m s -> ~ mb_empty m s -> is_Some (k_current s) ->
  exists v s', mb_recv_loop m timeout s = Some (Done (RT_EOK, Some v), s') /\ core_ok s' /\ mb_ok m s' /\
    mb_queue m s = v :: mb_queue m s' /\ k_lists s' (LSender m) = tail (k_lists s (LSender m)) /\
    (forall t, head (k_lists s (LSender m)) = Some t -> th_state s' t = RT_THREAD_READY) /\
    (forall u, th_error (k_thr s' u) = th_error (k_thr s u)).
Proof.
  unfold mb_empty. intros Hok Hm Hf Hc. pose proof (mo_mbox _ _ Hm) as Hx.
  destruct (mbox_get_spec (k_mb s m) Hx) as (v & y & Ey & Hy & Hsz & Hq); [pose proof (mbo_entry _ Hx); lia |].
  unfold mb_recv_loop. krun. rewrite (proj2 (Z.eqb_neq _ _) Hf), Ey. krun.
  destruct (mb_store_wake m y (LSender m) s Hok Hm Hy I Hc) as (s' & E & Hok' & Hm' & Emb & Hrest).
  rewrite (run_bind _ _ _ _ _ E). exists v, s'. split; [done |]. split; [done |]. split; [done |].
  unfold mb_queue. by rewrite Emb.
Qed.

(** ** Waiting *)

(** A thread that is to wait in the list [h], its error reset. *)
Lemma mb_wait_spec m h t timeout s :
  core_ok s -> mb_ok m s -> may_wait t s -> wait_head h -> timeout < RT_TICK_MAX / 2 ->
  exists s', (RT_DEBUG_IN_THREAD_CONTEXT;; flag ← gets (fun s => o_flag (k_obj s (Obj m))); wait_on h t flag timeout)
      (alter_thr t (set_th_error RT_EOK) s) = Some (tt, s') /\ core_ok s' /\ mb_ok m s' /\ k_mb s' = k_mb s /\
    th_state s' t = RT_THREAD_SUSPEND /\ t ∈ k_lists s' h /\ th_error (k_thr s' t) = RT_EOK /\
    (if 0 <? timeout
     then ThreadTimer t ∈ hard s' /\ tm_timeout_tick (k_tmr s' (ThreadTimer t)) = u32 (k_tick s + u32 timeout)
     else ThreadTimer t ∉ hard s').
Proof.
  intros Hok Hm Hmw Hh Ht. set (s0 := alter_thr t (set_th_error RT_EOK) s).
  destruct (wait_on_spec h t (o_flag (k_obj s (Obj m))) timeout s0) as (s' & E & Hok' & Hnw);
    [by apply core_alter_same; [apply same_error |] | by apply Sem.may_wait_error | done | apply Hm | done |].
  assert (core_frame s s') as Hf by (eapply core_frame_trans; [| apply Hnw]; by split).
  exists s'. split.
  { unfold RT_DEBUG_IN_THREAD_CONTEXT, RT_DEBUG_NOT_IN_INTERRUPT. krun.
    rewrite bind_assert_s by (change (k_current s0) with (k_current s); by rewrite (mw_current _ _ Hmw)).
    rewrite bind_assert_s by (change (k_interrupt_nest s0) with (k_interrupt_nest s); by rewrite (mw_irq _ _ Hmw)).
    krun. done. }
  split; [done |]. split; [by eapply mb_ok_frame |]. split; [apply Hf |].
  split; [by rewrite (now_waits_state _ _ _ _ _ _ _ Hnw), decide_True |].
  split; [rewrite (nw_list _ _ _ _ _ _ Hnw), wait_insert_perm by apply Hm; apply list_elem_of_here |].
  split; [rewrite (nw_self _ _ _ _ _ _ Hnw); unfold s0; by rewrite alter_thr_lookup, decide_True |].
  apply (nw_timer _ _ _ _ _ _ Hnw).
Qed.

(** Thread [t] waits in the list [h] for [timeout] ticks; the mailbox is as before. *)
Record mb_waits (m : nat) (h : lhead) (t : nat) (timeout : Z) (s s' : kstate) : Prop := {
  mbw_core : core_ok s';
  mbw_ok : mb_ok m s';
  mbw_same : k_mb s' = k_mb s;
  mbw_state : th_state s' t = RT_THREAD_SUSPEND;
  mbw_list : t ∈ k_lists s' h;
  mbw_error : th_error (k_thr s' t) = RT_EOK;
  mbw_timer : if 0 <? timeout
    then ThreadTimer t ∈ hard s' /\ tm_timeout_tick (k_tmr s' (ThreadTimer t)) = u32 (k_tick s + u32 timeout)
    else ThreadTimer t ∉ hard s'
}.

Lemma mb_send_full m t v timeout s :
  core_ok s -> mb_ok m s -> mb_full m s -> may_wait t s -> timeout < RT_TICK_MAX / 2 ->
  (timeout = 0 -> exists s', mb_send_loop m v timeout s = Some (Done (- RT_EFULL), s') /\ core_ok s' /\ mb_ok m s' /\
     k_mb s' = k_mb s /\ k_lists s' = k_lists s) /\
  (timeout <> 0 -> exists s', mb_send_loop m v timeout s = Some (Waits, s') /\ mb_waits m (LSender m) t timeout s s').
Proof.
  unfold mb_full. intros Hok Hm Hf Hmw Ht. unfold mb_send_loop, rt_thread_self. krun.
  rewrite (proj2 (Z.eqb_eq _ _) Hf). krun. rewrite (mw_current _ _ Hmw). krun. split.
  - intros ->. eexists. split; [reflexivity |]. split; [apply core_alter_same; [apply same_error | done] |].
    split; [| done]. eapply mb_ok_frame; [done | by split].
  - intros Hne. rewrite (proj2 (Z.eqb_neq _ _) Hne).
    destruct (mb_wait_spec m (LSender m) t timeout s Hok Hm Hmw I Ht) as (s' & E & H1 & H2 & H3 & H4 & H5 & H6 & H7).
    exists s'. split; [| by split]. revert E. unfold mbind, K_bind.
    destruct (RT_DEBUG_IN_THREAD_CONTEXT _) as [[[] s1] |]; [| done]. unfold gets.
    destruct (wait_on _ _ _ _ s1) as [[[] s2] |]; [| done]. by intros [= ->].
Qed.

Lemma mb_recv_empty m t timeout s :
  core_ok s -> mb_ok m s -> mb_empty m s -> may_wait t s -> timeout < RT_TICK_MAX / 2 ->
  (timeout = 0 -> exists s', mb_recv_loop m timeout s = Some (Done (- RT_ETIMEOUT, None), s') /\ core_ok s' /\ mb_ok m s' /\
     k_mb s' = k_mb s /\ k_lists s' = k_lists s) /\
  (timeout <> 0 -> exists s', mb_recv_loop m timeout s = Some (Waits, s') /\ mb_waits m (LSuspend m) t timeout s s').
Proof.
  unfold mb_empty. intros Hok Hm Hf Hmw Ht. unfold mb_recv_loop, rt_thread_self. krun.
  rewrite (proj2 (Z.eqb_eq _ _) Hf). krun. rewrite (mw_current _ _ Hmw). krun. split.
  - intros ->. change (0 =? 0) with true. cbv iota. krun. eexists. split; [reflexivity |].
    split; [do 2 (apply core_alter_same; [apply same_error |]); done |].
    split; [| done]. eapply mb_ok_frame; [done | by split].
  - intros Hne. rewrite (proj2 (Z.eqb_neq _ _) Hne).
    destruct (mb_wait_spec m (LSuspend m) t timeout s Hok Hm Hmw I Ht) as (s' & E & H1 & H2 & H3 & H4 & H5 & H6 & H7).
    exists s'. split; [| by split]. revert E. unfold mbind, K_bind.
    destruct (RT_DEBUG_IN_THREAD_CONTEXT _) as [[[] s1] |]; [| done]. unfold gets.
    destruct (wait_on _ _ _ _ s1) as [[[] s2] |]; [| done]. by intros [= ->].
Qed.

Lemma remaining_spec timeout tick0 tick :
  timeout < 2 ^ 31 -> 0 <= tick0 < 2 ^ 32 -> 0 <= tick < 2 ^ 32 -> u32 (tick - tick0) < 2 ^ 31 ->
  remaining_timeout timeout tick tick0 = if 0 <? timeout then Z.max 0 (timeout - u32 (tick - tick0)) else timeout.
Proof.
  intros Ht H0 H1 He. unfold remaining_timeout. destruct (Z.ltb_spec 0 timeout); [| done].
  pose proof (wrap_range 32 (tick - tick0) ltac:(lia)). change (2 ^ 31) with 2147483648 in *.
  change (2 ^ 32) with 4294967296 in *.
  rewrite swrap_small by (change (2 ^ (32 - 1)) with 2147483648; lia).
  zcases; lia.
Qed.

(** ** Theorems *)

(** C12: a mailbox is a bounded queue: [rt_mb_send_wait] with room appends the word,
    [rt_mb_urgent] puts it in front, [rt_mb_recv] takes the first word; each
    wakes the first thread that waits at the other end; a full mailbox refuses
    with -RT_EFULL and an empty one with -RT_ETIMEOUT, the state unchanged, when
    the call does not wait.  The invariants of kernel and mailbox are kept. *)
Theorem rt_mb_refines_queue m v timeout s :
  core_ok s -> mb_ok m s -> is_Some (k_current s) ->
  (zlen (mb_queue m s) < mb_size (k_mb s m) ->
    (exists s', rt_mb_send_wait m v timeout s = Some (Done RT_EOK, s') /\ core_ok s' /\ mb_ok m s' /\
       mb_queue m s' = mb_queue m s ++ [v] /\ k_lists s' (LSuspend m) = tail (k_lists s (LSuspend m)) /\
       (forall t, head (k_lists s (LSuspend m)) = Some t -> th_state s' t = RT_THREAD_READY)) /\
    (exists s', rt_mb_urgent m v s = Some (RT_EOK, s') /\ core_ok s' /\ mb_ok m s' /\
       mb_queue m s' = v :: mb_queue m s /\ k_lists s' (LSuspend m) = tail (k_lists s (LSuspend m)) /\
       (forall t, head (k_lists s (LSuspend m)) = Some t -> th_state s' t = RT_THREAD_READY))) /\
  (mb_queue m s <> [] -> exists w s', rt_mb_recv m timeout s = Some (Done (RT_EOK, Some w), s') /\ core_ok s' /\ mb_ok m s' /\
     mb_queue m s = w :: mb_queue m s' /\ k_lists s' (LSender m) = tail (k_lists s (LSender m)) /\
     (forall t, head (k_lists s (LSender m)) = Some t -> th_state s' t = RT_THREAD_READY)) /\
  (zlen (mb_queue m s) = mb_size (k_mb s m) ->
     rt_mb_send_wait m v 0 s = Some (Done (- RT_EFULL), s) /\ rt_mb_urgent m v s = Some (- RT_EFULL, s)) /\
  (mb_queue m s = [] -> rt_mb_recv m 0 s = Some (Done (- RT_ETIMEOUT, None), s)).
Proof.
  intros Hok Hm Hc. pose proof (mo_mbox _ _ Hm) as Hx. pose proof (mbox_queue_len _ Hx) as Hlen.
  fold (mb_queue m s) in Hlen. rewrite Hlen. pose proof (mo_type _ _ Hm) as Hty.
  unfold rt_mb_send_wait, rt_mb_urgent, rt_mb_recv, assert_type.
  rewrite !bind_assert_s by (rewrite Hty; done). krun. split; [| split; [| split]].
  - intros Hroom. rewrite (proj2 (Z.eqb_neq _ _)) by lia. cbn [andb]. split.
    + destruct (mb_send_room m v timeout s Hok Hm) as (s' & E & H1 & H2 & H3 & H4 & H5 & _); [unfold mb_full; lia | done |].
      by exists s'.
    + destruct (mbox_urgent_spec v (k_mb s m) Hx) as (y & Ey & Hy & _ & Hq); [lia |]. rewrite Ey. krun.
      destruct (mb_store_wake m y (LSuspend m) s Hok Hm Hy I Hc) as (s' & E & Hok' & Hm' & Emb & H1 & H2 & _).
      rewrite (run_bind _ _ _ _ _ E). exists s'. do 3 (split; [done |]). unfold mb_queue. by rewrite Emb.
  - intros Hne. assert (mb_entry (k_mb s m) <> 0) as He.
    { intros E. rewrite E in Hlen. by destruct (mb_queue m s). }
    rewrite (proj2 (Z.eqb_neq _ _) He). cbn [andb].
    destruct (mb_recv_some m timeout s Hok Hm He Hc) as (w & s' & E & H1 & H2 & H3 & H4 & H5 & _). by exists w, s'.
  - intros Hf. rewrite (proj2 (Z.eqb_eq _ _) Hf). done.
  - intros Hq. rewrite Hq in Hlen. rewrite <- Hlen. done.
Qed.

(** A send to a full mailbox with time to wait suspends the caller among the
    senders, its timer armed when the time is limited, the words untouched.
    When it runs again it fails with its error, if it has one; with room it
    stores its word; without room it waits for the rest of its time, the
    elapsed ticks subtracted, and fails with -RT_EFULL when none is left:
    however often it is overtaken, it never waits longer than asked. *)
Theorem rt_mb_send_wait_retries m t v timeout s :
  core_ok s -> mb_ok m s -> may_wait t s -> timeout < RT_TICK_MAX / 2 -> timeout <> 0 ->
  zlen (mb_queue m s) = mb_size (k_mb s m) -> 0 <= k_tick s < 2 ^ 32 ->
  exists s1, rt_mb_send_wait m v timeout s = Some (Waits, s1) /\ mb_waits m (LSender m) t timeout s s1 /\
  forall s2, core_ok s2 -> mb_ok m s2 -> may_wait t s2 -> 0 <= k_tick s2 < 2 ^ 32 -> u32 (k_tick s2 - k_tick s) < 2 ^ 31 ->
    let rest := if 0 <? timeout then Z.max 0 (timeout - u32 (k_tick s2 - k_tick s)) else timeout in
    (th_error (k_thr s2 t) <> RT_EOK ->
       rt_mb_send_wait_after m t v timeout (k_tick s) s2 = Some (Done (- th_error (k_thr s2 t)), s2)) /\
    (th_error (k_thr s2 t) = RT_EOK -> zlen (mb_queue m s2) < mb_size (k_mb s2 m) -> exists s3,
       rt_mb_send_wait_after m t v timeout (k_tick s) s2 = Some (Done RT_EOK, s3) /\
       mb_queue m s3 = mb_queue m s2 ++ [v]) /\
    (th_error (k_thr s2 t) = RT_EOK -> zlen (mb_queue m s2) = mb_size (k_mb s2 m) -> exists s3,
       rt_mb_send_wait_after m t v timeout (k_tick s) s2
         = Some (if rest =? 0 then Done (- RT_EFULL) else Waits, s3) /\
       mb_queue m s3 = mb_queue m s2 /\
       (rest <> 0 -> mb_waits m (LSender m) t rest s2 s3)).
Proof.
  intros Hok Hm Hmw Htime Hne Hfull Htick. pose proof (mo_mbox _ _ Hm) as Hx.
  rewrite (mbox_queue_len _ Hx : zlen (mb_queue m s) = _) in Hfull.
  destruct (mb_send_full m t v timeout s Hok Hm Hfull Hmw Htime) as [_ Hw]. destruct (Hw Hne) as (s1 & E1 & Hs1).
  exists s1. split; [| split; [done |]].
  { unfold rt_mb_send_wait, assert_type. rewrite bind_assert_s by (rewrite (mo_type _ _ Hm); done). krun.
    rewrite (proj2 (Z.eqb_neq timeout 0) Hne), andb_false_r. done. }
  intros s2 Hok2 Hm2 Hmw2 Htick2 Hel. cbv zeta.
  assert (remaining_timeout timeout (k_tick s2) (k_tick s)
    = if 0 <? timeout then Z.max 0 (timeout - u32 (k_tick s2 - k_tick s)) else timeout) as Er.
  { apply remaining_spec; try done. revert Htime. change (RT_TICK_MAX / 2) with 2147483647. change (2 ^ 31) with 2147483648. lia. }
  pose proof (mo_mbox _ _ Hm2) as Hx2. rewrite (mbox_queue_len _ Hx2 : zlen (mb_queue m s2) = _).
  unfold rt_mb_send_wait_after, rt_tick_get. krun. split; [| split].
  - intros He. rewrite (proj2 (Z.eqb_neq _ _) He). done.
  - intros He Hroom. rewrite He. change (negb (RT_EOK =? RT_EOK)) with false. cbv iota. krun.
    edestruct (mb_send_room m v (remaining_timeout timeout (k_tick s2) (k_tick s)) s2) as (s3 & E3 & _ & _ & Hq & _);
      [done | done | unfold mb_full; lia | rewrite (mw_current _ _ Hmw2); eauto |]. by exists s3.
  - intros He Hf2. rewrite He. change (negb (RT_EOK =? RT_EOK)) with false. cbv iota. krun. rewrite Er.
    set (rest := if 0 <? timeout then _ else timeout).
    assert (rest < RT_TICK_MAX / 2) as Hrest.
    { unfold rest. pose proof (wrap_range 32 (k_tick s2 - k_tick s) ltac:(lia)).
      revert Htime. change (RT_TICK_MAX / 2) with 2147483647. destruct (0 <? timeout); lia. }
    destruct (mb_send_full m t v rest s2 Hok2 Hm2 Hf2 Hmw2 Hrest) as [H0 H1].
    destruct (Z.eqb_spec rest 0) as [E0 | E0].
    + destruct (H0 E0) as (s3 & E3 & _ & _ & Emb & _). exists s3. split; [done |].
      split; [unfold mb_queue; by rewrite Emb | done].
    + destruct (H1 E0) as (s3 & E3 & Hws). exists s3. split; [done |].
      split; [unfold mb_queue; by rewrite (mbw_same _ _ _ _ _ _ Hws) | done].
Qed.

(** Likewise a receive from an empty mailbox with time to wait suspends the
    caller among the receivers; when it runs again it fails with its error, or takes
    the first word, or waits for the rest of its time, or, with no time left,
    fails with -RT_ETIMEOUT. *)
Theorem rt_mb_recv_retries m t timeout s :
  core_ok s -> mb_ok m s -> may_wait t s -> timeout < RT_TICK_MAX / 2 -> timeout <> 0 ->
  mb_queue m s = [] -> 0 <= k_tick s < 2 ^ 32 ->
  exists s1, rt_mb_recv m timeout s = Some (Waits, s1) /\ mb_waits m (LSuspend m) t timeout s s1 /\
  forall s2, core_ok s2 -> mb_ok m s2 -> may_wait t s2 -> 0 <= k_tick s2 < 2 ^ 32 -> u32 (k_tick s2 - k_tick s) < 2 ^ 31 ->
    let rest := if 0 <? timeout then Z.max 0 (timeout - u32 (k_tick s2 - k_tick s)) else timeout in
    (th_error (k_thr s2 t) <> RT_EOK ->
       rt_mb_recv_after m t timeout (k_tick s) s2 = Some (Done (- th_error (k_thr s2 t), None), s2)) /\
    (forall w q, th_error (k_thr s2 t) = RT_EOK -> mb_queue m s2 = w :: q -> exists s3,
       rt_mb_recv_after m t timeout (k_tick s) s2 = Some (Done (RT_EOK, Some w), s3) /\ mb_queue m s3 = q) /\
    (th_error (k_thr s2 t) = RT_EOK -> mb_queue m s2 = [] -> exists s3,
       rt_mb_recv_after m t timeout (k_tick s) s2
         = Some (if rest =? 0 then Done (- RT_ETIMEOUT, None) else Waits, s3) /\
       mb_queue m s3 = [] /\ (rest <> 0 -> mb_waits m (LSuspend m) t rest s2 s3)).
Proof.
  intros Hok Hm Hmw Htime Hne Hq Htick. pose proof (mo_mbox _ _ Hm) as Hx.
  pose proof (mbox_queue_len _ Hx : zlen (mb_queue m s) = _) as Hlen. rewrite Hq in Hlen.
  assert (mb_empty m s) as He0 by (unfold mb_empty; simpl in Hlen; lia).
  destruct (mb_recv_empty m t timeout s Hok Hm He0 Hmw Htime) as [_ Hw]. destruct (Hw Hne) as (s1 & E1 & Hs1).
  exists s1. split; [| split; [done |]].
  { unfold rt_mb_recv, assert_type. rewrite bind_assert_s by (rewrite (mo_type _ _ Hm); done). krun.
    rewrite (proj2 (Z.eqb_neq timeout 0) Hne), andb_false_r. done. }
  intros s2 Hok2 Hm2 Hmw2 Htick2 Hel. cbv zeta.
  assert (remaining_timeout timeout (k_tick s2) (k_tick s)
    = if 0 <? timeout then Z.max 0 (timeout - u32 (k_tick s2 - k_tick s)) else timeout) as Er.
  { apply remaining_spec; try done. revert Htime. change (RT_TICK_MAX / 2) with 2147483647. change (2 ^ 31) with 2147483648. lia. }
  pose proof (mo_mbox _ _ Hm2) as Hx2. pose proof (mbox_queue_len _ Hx2 : zlen (mb_queue m s2) = _) as Hlen2.
  unfold rt_mb_recv_after, rt_tick_get. krun. split; [| split].
  - intros He. rewrite (proj2 (Z.eqb_neq _ _) He). done.
  - intros w q He Eq. rewrite He. change (negb (RT_EOK =? RT_EOK)) with false. cbv iota. krun.
    edestruct (mb_recv_some m (remaining_timeout timeout (k_tick s2) (k_tick s)) s2) as (v & s3 & E3 & _ & _ & Hq3 & _);
      [done | done | | rewrite (mw_current _ _ Hmw2); eauto |].
    + unfold mb_empty. rewrite Eq in Hlen2. cbn [length] in Hlen2. lia.
    + rewrite Eq in Hq3. injection Hq3 as <- ->. by exists s3.
  - intros He Eq. rewrite He. change (negb (RT_EOK =? RT_EOK)) with false. cbv iota. krun. rewrite Er.
    set (rest := if 0 <? timeout then _ else timeout).
    assert (rest < RT_TICK_MAX / 2) as Hrest.
    { unfold rest. pose proof (wrap_range 32 (k_tick s2 - k_tick s) ltac:(lia)).
      revert Htime. change (RT_TICK_MAX / 2) with 2147483647. destruct (0 <? timeout); lia. }
    assert (mb_empty m s2) as Hf2 by (unfold mb_empty; rewrite Eq in Hlen2; simpl in Hlen2; lia).
    destruct (mb_recv_empty m t rest s2 Hok2 Hm2 Hf2 Hmw2 Hrest) as [H0 H1].
    destruct (Z.eqb_spec rest 0) as [E0 | E0].
    + destruct (H0 E0) as (s3 & E3 & _ & _ & Emb & _). exists s3. split; [done |].
      split; [unfold mb_queue; rewrite Emb; exact Eq | done].
    + destruct (H1 E0) as (s3 & E3 & Hws). exists s3. split; [done |].
      split; [unfold mb_queue; rewrite (mbw_same _ _ _ _ _ _ Hws); exact Eq | done].
Qed.

(** ** Witnesses *)

(** Mailbox 13 of the example, holding 7 in one of its two places, or full. *)
Definition example_mb (entry : Z) : kstate :=
  alter_mb 13 (fun _ => Mailbox [7; 9] 2 entry ((1 + entry) mod 2) 1) example.

Lemma example_mb_core entry : core_ok (example_mb entry).
Proof. apply mb_core, example_core. Qed.

Lemma example_mb_ok entry : 0 <= entry <= 2 -> mb_ok 13 (example_mb entry).
Proof.
  intros He. apply mb_ok_set.
  - split; [reflexivity | by left |]. split; try done; simpl; lia.
  - split; try done; simpl; lia.
Qed.

Lemma may_wait_mb t m f s : may_wait t s -> may_wait t (alter_mb m f s).
Proof. intros [Hc Hr Hl Hi Ho]. by split. Qed.

Lemma example_mb_may_wait entry : may_wait 2 (example_mb entry).
Proof. apply may_wait_mb, example_may_wait. Qed.

Lemma rt_mb_refines_queue_witness :
  (exists s', rt_mb_send_wait 13 5 0 (example_mb 1) = Some (Done RT_EOK, s') /\ core_ok s' /\ mb_ok 13 s' /\
     mb_queue 13 s' = mb_queue 13 (example_mb 1) ++ [5] /\
     k_lists s' (LSuspend 13) = tail (k_lists (example_mb 1) (LSuspend 13)) /\
     (forall t, head (k_lists (example_mb 1) (LSuspend 13)) = Some t -> th_state s' t = RT_THREAD_READY)) /\
  rt_mb_urgent 13 5 (example_mb 2) = Some (- RT_EFULL, example_mb 2).
Proof.
  split.
  - apply (rt_mb_refines_queue 13 5 0 (example_mb 1));
      [apply example_mb_core | apply example_mb_ok; lia | eexists; reflexivity | reflexivity].
  - apply (rt_mb_refines_queue 13 5 0 (example_mb 2));
      [apply example_mb_core | apply example_mb_ok; lia | eexists; reflexivity | reflexivity].
Defined.

Lemma rt_mb_send_wait_retries_witness :
  exists s1, rt_mb_send_wait 13 5 20 (example_mb 2) = Some (Waits, s1) /\
    mb_waits 13 (LSender 13) 2 20 (example_mb 2) s1.
Proof.
  destruct (rt_mb_send_wait_retries 13 2 5 20 (example_mb 2)) as (s1 & E & Hw & _);
    [apply example_mb_core | apply example_mb_ok; lia | apply example_mb_may_wait | reflexivity | discriminate
    | reflexivity | split; [discriminate | reflexivity] |].
  exists s1. split; [exact E | exact Hw].
Defined.

Lemma rt_mb_recv_retries_witness :
  exists s1, rt_mb_recv 13 20 (example_mb 0) = Some (Waits, s1) /\
    mb_waits 13 (LSuspend 13) 2 20 (example_mb 0) s1.
Proof.
  destruct (rt_mb_recv_retries 13 2 20 (example_mb 0)) as (s1 & E & Hw & _);
    [apply example_mb_core | apply example_mb_ok; lia | apply example_mb_may_wait | reflexivity | discriminate
    | reflexivity | split; [discriminate | reflexivity] |].
  exists s1. split; [exact E | exact Hw].
Defined.

End Mailbox.
