(* ===== verification/MessageQueue.v ===== *)
(** * Message queues: [src/kernel/src/ipc.c], lines 1869-2481

    The message blocks of the pool are in the free list, in the queue of
    messages, or in the hands of a [send], [urgent] or [recv] that copies a
    message with interrupts enabled.  [mq_repr] says which; the critical sections
    are definitions of their own, so that they can be interleaved ([mq_step]). *)

From stdpp Require Import relations.
From S2P Require Import Prelude KernelTypes Kservice RtList Scheduler Object Timer Thread TimerRun IpcList Sem Mailbox.
Import Scheduler KObject Timer Thread TimerRun IpcList.

Local Open Scope Z_scope.

Module MessageQueue.

(** ** Operations on the blocks *)

(** The loop that links the blocks [temp], [temp + 1], ... in the free list. *)
Fixpoint mq_free_loop (k temp : nat) (x : rt_messagequeue) : rt_messagequeue :=
  match k with
  | O => x
  | S k => mq_free_loop k (S temp)
      (set_mq_queue_free (Some temp) (set_mq_next (fupd temp (mq_queue_free x) (mq_next x)) x))
  end.

(** The empty queue of [max_msgs] blocks; [next] and [data] are what the pool holds. *)
Definition mq_fresh (next : nat -> option nat) (data : nat -> list Z) (msg_size max_msgs : Z) : rt_messagequeue :=
  mq_free_loop (Z.to_nat max_msgs) 0 (MessageQueue next data msg_size max_msgs 0 None None None).

(** The first block of the free list. *)
Definition mq_take_free (x : rt_messagequeue) : option (nat * rt_messagequeue) :=
  msg ← mq_queue_free x; Some (msg, set_mq_queue_free (mq_next x msg) x).

(** [msg->next = RT_NULL] *)
Definition mq_clear_next (msg : nat) (x : rt_messagequeue) : rt_messagequeue :=
  set_mq_next (fupd msg None (mq_next x)) x.

(** [rt_memcpy(msg + 1, buffer, size)], or [rt_memset(msg + 1, 0, mq->msg_size)]
    when there is no buffer. *)
Definition mq_write (msg : nat) (buffer : option (list Z)) (size : Z) (x : rt_messagequeue) : option rt_messagequeue :=
  match buffer with
  | Some b => d ← memcpy (mq_data x msg) 0 b 0 size; Some (set_mq_data (fupd msg d (mq_data x)) x)
  | None => Some (set_mq_data (fupd msg (replicate (Z.to_nat (mq_msg_size x)) 0) (mq_data x)) x)
  end.

Definition mq_link_tail (msg : nat) (x : rt_messagequeue) : rt_messagequeue :=
  let x := match mq_queue_tail x with
           | Some t => set_mq_next (fupd t (Some msg) (mq_next x)) x
           | None => x
           end in
  let x := set_mq_queue_tail (Some msg) x in
  let x := match mq_queue_head x with None => set_mq_queue_head (Some msg) x | Some _ => x end in
  set_mq_entry (u16 (mq_entry x + 1)) x.

Definition mq_link_head (msg : nat) (x : rt_messagequeue) : rt_messagequeue :=
  let x := set_mq_next (fupd msg (mq_queue_head x) (mq_next x)) x in
  let x := set_mq_queue_head (Some msg) x in
  let x := match mq_queue_tail x with None => set_mq_queue_tail (Some msg) x | Some _ => x end in
  set_mq_entry (u16 (mq_entry x + 1)) x.

(** The first message leaves the queue. *)
Definition mq_unlink (x : rt_messagequeue) : option (nat * rt_messagequeue) :=
  msg ← mq_queue_head x;
  let x := set_mq_queue_head (mq_next x msg) x in
  let x := if decide (mq_queue_tail x = Some msg) then set_mq_queue_tail None x else x in
  let x := if 0 <? mq_entry x then set_mq_entry (mq_entry x - 1) x else x in
  Some (msg, x).

Definition mq_put_free (msg : nat) (x : rt_messagequeue) : rt_messagequeue :=
  set_mq_queue_free (Some msg) (set_mq_next (fupd msg (mq_queue_free x) (mq_next x)) x).

(** The bytes [rt_mq_recv] copies. *)
Definition mq_read (msg : nat) (size : Z) (x : rt_messagequeue) : list Z :=
  take (Z.to_nat (if mq_msg_size x <? size then mq_msg_size x else size)) (mq_data x msg).

(** The loop of [rt_mq_control]: the messages go back to the free list. *)
Fixpoint mq_reset_loop (fuel : nat) (x : rt_messagequeue) : option rt_messagequeue :=
  match mq_queue_head x with
  | None => Some x
  | Some msg =>
      match fuel with
      | O => None
      | S fuel =>
          let x := set_mq_queue_head (mq_next x msg) x in
          let x := if decide (mq_queue_tail x = Some msg) then set_mq_queue_tail None x else x in
          mq_reset_loop fuel (mq_put_free msg x)
      end
  end.

(** ** Operations of message queues *)

Definition update_mq (m : nat) (f : rt_messagequeue -> rt_messagequeue) : K unit := modify (alter_mq m f).

Definition rt_mq_init (m : nat) (name : list Z) (next : nat -> option nat) (data : nat -> list Z)
    (msg_size pool_size flag : Z) : K Z :=
  rt_object_init (Obj m) RT_Object_Class_MessageQueue name;;
  modify (alter_obj (Obj m) (set_o_flag flag));;
  _ ← rt_ipc_object_init m;
  let msg_size := u16 (RT_ALIGN4 msg_size) in
  let max_msgs := u16 (pool_size / (msg_size + 4)) in
  update_mq m (fun _ => mq_fresh next data msg_size max_msgs);;
  modify (alter_list (LSender m) (fun _ => []));;
  mret RT_EOK.

Definition rt_mq_detach (m : nat) : K Z :=
  assert_type (Obj m) RT_Object_Class_MessageQueue;;
  assert_s (rt_object_is_systemobject (Obj m));;
  _ ← rt_ipc_list_resume_all (LSender m);
  rt_object_detach (Obj m);;
  mret RT_EOK.

Definition rt_mq_create (name : list Z) (next : nat -> option nat) (data : nat -> list Z)
    (msg_size max_msgs flag : Z) : K (option nat) :=
  RT_DEBUG_NOT_IN_INTERRUPT;;
  mq ← rt_object_allocate RT_Object_Class_MessageQueue name;
  match mq with
  | None => mret None
  | Some m =>
      modify (alter_obj (Obj m) (set_o_flag flag));;
      _ ← rt_ipc_object_init m;
      pool ← rt_malloc;
      match pool with
      | None => rt_object_delete (Obj m);; mret None
      | Some _ =>
          update_mq m (fun _ => mq_fresh next data (u16 (RT_ALIGN4 msg_size)) (u16 max_msgs));;
          modify (alter_list (LSender m) (fun _ => []));;
          mret (Some m)
      end
  end.

Definition rt_mq_delete (m : nat) : K Z :=
  RT_DEBUG_NOT_IN_INTERRUPT;;
  assert_type (Obj m) RT_Object_Class_MessageQueue;;
  assert_s (fun s => negb (rt_object_is_systemobject (Obj m) s));;
  _ ← rt_ipc_list_resume_all (LSuspend m);
  _ ← rt_ipc_list_resume_all (LSender m);
  rt_object_delete (Obj m);;
  mret RT_EOK.

(** [size] is not negative ([rt_size_t]). *)
Definition rt_mq_send (m : nat) (buffer : option (list Z)) (size : Z) : K Z :=
  assert_type (Obj m) RT_Object_Class_MessageQueue;;
  mq ← gets (fun s => k_mq s m);
  if mq_msg_size mq <? size then mret (- RT_ERROR)
  else
    match mq_take_free mq with
    | None => mret (- RT_EFULL)
    | Some (msg, mq) =>
        update_mq m (fun _ => mq);;
        update_mq m (mq_clear_next msg);;
        mq ← gets (fun s => k_mq s m);
        mq ← lift (mq_write msg buffer size mq);
        update_mq m (fun _ => mq);;
        update_mq m (mq_link_tail msg);;
        wake_first (LSuspend m);;
        mret RT_EOK
    end.

Definition rt_mq_urgent (m : nat) (buffer : option (list Z)) (size : Z) : K Z :=
  assert_type (Obj m) RT_Object_Class_MessageQueue;;
  mq ← gets (fun s => k_mq s m);
  if mq_msg_size mq <? size then mret (- RT_ERROR)
  else
    match mq_take_free mq with
    | None => mret (- RT_EFULL)
    | Some (msg, mq) =>
        update_mq m (fun _ => mq);;
        mq ← gets (fun s => k_mq s m);
        mq ← lift (mq_write msg buffer size mq);
        update_mq m (fun _ => mq);;
        update_mq m (mq_link_head msg);;
        wake_first (LSuspend m);;
        mret RT_EOK
    end.

(** [rt_mq_recv] from the test of its loop; the result is the return value and
    the bytes copied to the buffer. *)
Definition mq_recv_loop (m : nat) (size timeout : Z) : K (outcome (Z * list Z)) :=
  mq ← gets (fun s => k_mq s m);
  if mq_entry mq =? 0 then
    RT_DEBUG_IN_THREAD_CONTEXT;;
    self ← rt_thread_self;
    t ← lift self;
    modify (alter_thr t (set_th_error RT_EOK));;
    if timeout =? 0 then
      modify (alter_thr t (set_th_error RT_ETIMEOUT));;
      mret (Done (- RT_ETIMEOUT, []))
    else
      flag ← gets (fun s => o_flag (k_obj s (Obj m)));
      wait_on (LSuspend m) t flag timeout;;
      mret Waits
  else
    '(msg, mq) ← lift (mq_unlink mq);
    update_mq m (fun _ => mq);;
    bytes ← gets (fun s => mq_read msg size (k_mq s m));
    update_mq m (mq_put_free msg);;
    wake_first (LSender m);;
    mret (Done (RT_EOK, bytes)).

Definition rt_mq_recv (m : nat) (size timeout : Z) : K (outcome (Z * list Z)) :=
  assert_type (Obj m) RT_Object_Class_MessageQueue;;
  RT_ASSERT (negb (size =? 0));;
  mq ← gets (fun s => k_mq s m);
  if (mq_entry mq =? 0) && (timeout =? 0) then mret (Done (- RT_ETIMEOUT, []))
  else mq_recv_loop m size timeout.

Definition rt_mq_recv_after (m t : nat) (size timeout tick_delta : Z) : K (outcome (Z * list Z)) :=
  error ← gets (fun s => th_error (k_thr s t));
  if negb (error =? RT_EOK) then mret (Done (- error, []))
  else
    tick ← rt_tick_get;
    mq_recv_loop m size (Mailbox.remaining_timeout timeout tick tick_delta).

(** The loop takes a block out of the queue at each round: as many rounds as
    there are blocks are enough. *)
Definition rt_mq_control (m : nat) (cmd : Z) : K Z :=
  assert_type (Obj m) RT_Object_Class_MessageQueue;;
  if cmd =? RT_IPC_CMD_RESET then
    _ ← rt_ipc_list_resume_all (LSuspend m);
    _ ← rt_ipc_list_resume_all (LSender m);
    mq ← gets (fun s => k_mq s m);
    mq ← lift (mq_reset_loop (Z.to_nat (mq_max_msgs mq)) mq);
    update_mq m (fun _ => set_mq_entry 0 mq);;
    rt_schedule;;
    mret RT_EOK
  else mret (- RT_ERROR).

(** ** Chains of blocks *)

Fixpoint chain (next : nat -> option nat) (h : option nat) (l : list nat) : Prop :=
  match l with
  | [] => h = None
  | b :: l => h = Some b /\ chain next (next b) l
  end.

Lemma chain_ext next next' h l : (forall b, b ∈ l -> next' b = next b) -> chain next h l -> chain next' h l.
Proof.
  revert h. induction l as [| b l IH]; simpl; intros h H; [done |]. intros [-> Hc]. split; [done |].
  rewrite H by apply list_elem_of_here. apply IH; [| done]. intros c Hin. apply H. by apply list_elem_of_further.
Qed.

Lemma chain_fupd next b v h l : b ∉ l -> chain next h l -> chain (fupd b v next) h l.
Proof. intros Hb. apply chain_ext. intros c Hc. apply fupd_ne. by intros ->. Qed.

(** A block linked behind the last one. *)
Lemma chain_snoc next h l t b :
  chain next h (l ++ [t]) -> NoDup (l ++ [t]) -> b ∉ l ++ [t] -> next b = None ->
  chain (fupd t (Some b) next) h (l ++ [t; b]).
Proof.
  revert h. induction l as [| a l IH]; simpl; intros h [-> Hc] Hnd Hb Hn.
  - rewrite fupd_eq. split; [done |]. split; [done |]. rewrite fupd_ne by set_solver. done.
  - apply NoDup_cons in Hnd as [Ha Hnd]. split; [done |]. rewrite fupd_ne by set_solver. apply IH; [done | done | set_solver | done].
Qed.

Lemma chain_fun next h l k : chain next h l -> chain next h k -> l = k.
Proof.
  revert h k. induction l as [| b l IH]; intros h [| c k]; simpl; intros H1 H2.
  - done.
  - destruct H2. congruence.
  - destruct H1. congruence.
  - destruct H1 as [-> H1], H2 as [[= ->] H2]. f_equal. by eapply IH.
Qed.

(** The blocks of a message queue: the free ones, the queue, those in flight. *)
Record mq_repr (x : rt_messagequeue) (fr q fl : list nat) : Prop := {
  mqr_free : chain (mq_next x) (mq_queue_free x) fr;
  mqr_queue : chain (mq_next x) (mq_queue_head x) q;
  mqr_tail : mq_queue_tail x = last q;
  mqr_entry : mq_entry x = zlen q;
  mqr_blocks : fr ++ q ++ fl ≡ₚ seq 0 (Z.to_nat (mq_max_msgs x));
  mqr_max : 0 <= mq_max_msgs x < 2 ^ 16;
  mqr_size : 0 <= mq_msg_size x < 2 ^ 16;
  mqr_data : forall b, (b < Z.to_nat (mq_max_msgs x))%nat -> zlen (mq_data x b) = mq_msg_size x
}.

(** ** The critical sections *)

Lemma mqr_nodup x fr q fl : mq_repr x fr q fl -> NoDup (fr ++ q ++ fl).
Proof. intros H. rewrite (mqr_blocks _ _ _ _ H). apply NoDup_ListNoDup, seq_NoDup. Qed.

Lemma mqr_bound x fr q fl b : mq_repr x fr q fl -> b ∈ fr ++ q ++ fl -> (b < Z.to_nat (mq_max_msgs x))%nat.
Proof. intros H Hb. rewrite (mqr_blocks _ _ _ _ H) in Hb. apply elem_of_seq in Hb. lia. Qed.

Lemma mqr_len x fr q fl : mq_repr x fr q fl -> zlen fr + zlen q + zlen fl = mq_max_msgs x.
Proof.
  intros H. pose proof (f_equal Z.of_nat (Permutation_length (mqr_blocks _ _ _ _ H))) as E.
  rewrite !length_app, length_seq in E. pose proof (mqr_max _ _ _ _ H). lia.
Qed.

Lemma mqr_perm x fr q fl fl' : fl ≡ₚ fl' -> mq_repr x fr q fl -> mq_repr x fr q fl'.
Proof. intros Hp []. split; try done. by rewrite <- Hp. Qed.

(** A block in flight is in no list. *)
Lemma mqr_flying x fr q fl b : mq_repr x fr q fl -> b ∈ fl -> b ∉ fr /\ b ∉ q.
Proof.
  intros H Hb. pose proof (mqr_nodup _ _ _ _ H) as Hnd.
  apply NoDup_app in Hnd as (_ & H1 & H2). apply NoDup_app in H2 as (_ & H2 & _).
  split; intros Hin; [apply (H1 b Hin) | apply (H2 b Hin)]; set_solver.
Qed.

Lemma mq_take_free_spec x b fr q fl : mq_repr x (b :: fr) q fl ->
  exists y, mq_take_free x = Some (b, y) /\ mq_repr y fr q (b :: fl) /\ mq_data y = mq_data x /\
    mq_msg_size y = mq_msg_size x.
Proof.
  intros [[Ef Hf] ? ? ? Hb]. unfold mq_take_free. rewrite Ef. eexists. split; [reflexivity |]. split; [| done].
  split; try done. rewrite <- Hb. simpl. by rewrite <- !Permutation_middle.
Qed.

Lemma mq_take_free_none x q fl : mq_repr x [] q fl -> mq_take_free x = None.
Proof. intros [Hf]. unfold mq_take_free. simpl in Hf. by rewrite Hf. Qed.

Lemma mq_clear_next_spec x b fr q fl : mq_repr x fr q fl -> b ∈ fl ->
  mq_repr (mq_clear_next b x) fr q fl /\ mq_next (mq_clear_next b x) b = None.
Proof.
  intros H Hb. destruct (mqr_flying _ _ _ _ b H Hb) as [Hnf Hnq]. destruct H. split; [| simpl; by rewrite fupd_eq].
  split; try done; by apply chain_fupd.
Qed.

Lemma mq_data_spec x b d fr q fl : mq_repr x fr q fl -> zlen d = mq_msg_size x ->
  mq_repr (set_mq_data (fupd b d (mq_data x)) x) fr q fl.
Proof.
  intros [] Hd. split; try done. intros c Hc. simpl. unfold fupd. case_decide; [done |]. by apply mqr_data0.
Qed.

Lemma mq_write_buffer x b buf size fr q fl : mq_repr x fr q fl -> b ∈ fl ->
  0 <= size <= mq_msg_size x -> size <= zlen buf ->
  exists y, mq_write b (Some buf) size x = Some y /\ mq_repr y fr q fl /\
    mq_data y = fupd b (take (Z.to_nat size) buf ++ drop (Z.to_nat size) (mq_data x b)) (mq_data x) /\
    mq_next y = mq_next x /\ mq_msg_size y = mq_msg_size x.
Proof.
  intros H Hb Hs Hl. pose proof (mqr_data _ _ _ _ H b) as Hd.
  assert (b < Z.to_nat (mq_max_msgs x))%nat as Hbm by (apply (mqr_bound _ fr q fl); [done | set_solver]).
  specialize (Hd Hbm). unfold mq_write, memcpy.
  replace ((0 <=? size) && (0 <=? 0) && (0 + size <=? zlen (mq_data x b)) && (0 <=? 0) && (0 + size <=? zlen buf))
    with true by lia.
  rewrite take_0, drop_0, app_nil_l. cbn [mbind option_bind]. rewrite Z.add_0_l. eexists. split; [reflexivity |].
  split; [| done]. apply mq_data_spec; [done |]. rewrite length_app, length_take, length_drop. lia.
Qed.

Lemma mq_write_zero x b size fr q fl : mq_repr x fr q fl -> b ∈ fl ->
  exists y, mq_write b None size x = Some y /\ mq_repr y fr q fl /\
    mq_data y = fupd b (replicate (Z.to_nat (mq_msg_size x)) 0) (mq_data x) /\
    mq_next y = mq_next x /\ mq_msg_size y = mq_msg_size x.
Proof.
  intros H Hb. eexists. split; [reflexivity |]. split; [| done]. apply mq_data_spec; [done |].
  rewrite length_replicate. pose proof (mqr_size _ _ _ _ H). lia.
Qed.

(** The entry count after one more message. *)
Lemma mqr_entry_succ x fr q b fl : mq_repr x fr q (b :: fl) -> u16 (mq_entry x + 1) = zlen q + 1.
Proof.
  intros H. rewrite (mqr_entry _ _ _ _ H). apply wrap_small.
  pose proof (mqr_len _ _ _ _ H) as Hl. pose proof (mqr_max _ _ _ _ H). simpl in Hl. lia.
Qed.

Lemma mq_link_tail_spec x b fr q fl : mq_repr x fr q (b :: fl) -> mq_next x b = None ->
  mq_repr (mq_link_tail b x) fr (q ++ [b]) fl /\ mq_data (mq_link_tail b x) = mq_data x /\
  mq_msg_size (mq_link_tail b x) = mq_msg_size x.
Proof.
  intros H Hn. pose proof (mqr_entry_succ _ _ _ _ _ H) as He. pose proof (mqr_nodup _ _ _ _ H) as Hnd.
  destruct (mqr_flying _ _ _ _ b H ltac:(apply list_elem_of_here)) as [Hbf Hbq].
  apply NoDup_app in Hnd as (_ & Hd & Hnd). apply NoDup_app in Hnd as (Hndq & _ & _).
  destruct H as [Hfr Hq Ht Hen Hbl Hm Hs Hdt]. unfold mq_link_tail. rewrite Ht.
  destruct q as [| c q _] using rev_ind.
  - simpl in Hq. simpl. rewrite Hq. simpl. split; [| done]. rewrite He. split; try done.
  - rewrite last_snoc. cbn [mq_queue_head set_mq_queue_tail set_mq_next].
    assert (exists h, mq_queue_head x = Some h) as [h Eh] by (destruct q; simpl in Hq; destruct Hq; eauto).
    rewrite Eh. cbn [mq_entry set_mq_queue_tail set_mq_next]. rewrite He. split; [| done].
    split; try done; simpl.
    + apply chain_fupd; [intros Hin; apply (Hd c Hin); set_solver | done].
    + rewrite <- app_assoc. by apply chain_snoc.
    + by rewrite last_snoc.
    + rewrite !length_app. simpl. lia.
    + rewrite <- Hbl. by rewrite <- !app_assoc.
Qed.

Lemma mq_link_head_spec x b fr q fl : mq_repr x fr q (b :: fl) ->
  mq_repr (mq_link_head b x) fr (b :: q) fl /\ mq_data (mq_link_head b x) = mq_data x /\
  mq_msg_size (mq_link_head b x) = mq_msg_size x.
Proof.
  intros H. pose proof (mqr_entry_succ _ _ _ _ _ H) as He.
  destruct (mqr_flying _ _ _ _ b H ltac:(apply list_elem_of_here)) as [Hbf Hbq].
  destruct H as [Hfr Hq Ht Hen Hbl Hm Hs Hdt]. unfold mq_link_head.
  cbn [mq_queue_tail set_mq_queue_head set_mq_next]. rewrite Ht.
  assert (last (b :: q) = match last q with None => Some b | c => c end) as El by (rewrite list_basics.list.last_cons; by destruct (last q)).
  assert (chain (fupd b (mq_queue_head x) (mq_next x)) (Some b) (b :: q)) as Hq'.
  { simpl. rewrite fupd_eq. split; [done | by apply chain_fupd]. }
  assert (fr ++ (b :: q) ++ fl ≡ₚ seq 0 (Z.to_nat (mq_max_msgs x))) as Hbl'.
  { rewrite <- Hbl. simpl. by rewrite Permutation_middle. }
  assert (zlen q + 1 = zlen (b :: q)) as Hlen by (cbn [length]; lia).
  destruct (last q) as [c |]; cbn [mq_entry set_mq_queue_tail set_mq_queue_head set_mq_next]; rewrite He; split; try done;
    (split; try done; first [by apply chain_fupd | by rewrite El]).
Qed.

Lemma mq_unlink_spec x b fr q fl : mq_repr x fr (b :: q) fl ->
  exists y, mq_unlink x = Some (b, y) /\ mq_repr y fr q (b :: fl) /\ mq_data y = mq_data x /\
    mq_msg_size y = mq_msg_size x.
Proof.
  intros H. pose proof (mqr_nodup _ _ _ _ H) as Hnd. apply NoDup_app in Hnd as (_ & _ & Hnd).
  simpl in Hnd. apply NoDup_cons in Hnd as [Hbq _].
  destruct H as [Hfr [Eh Hq] Ht Hen Hbl Hm Hs Hdt]. unfold mq_unlink. rewrite Eh. cbn [mbind option_bind].
  eexists. split; [reflexivity |].
  cbn [mq_queue_tail set_mq_queue_head]. cbn [length] in Hen.
  assert (fr ++ q ++ b :: fl ≡ₚ seq 0 (Z.to_nat (mq_max_msgs x))) as Hbl'.
  { rewrite <- Hbl. simpl. by rewrite <- Permutation_middle. }
  case_decide as Hd.
  - assert (q = []) as ->.
    { rewrite Ht in Hd. destruct q as [| c q _] using rev_ind; [done |]. exfalso. apply Hbq.
      change (b :: q ++ [c]) with ((b :: q) ++ [c]) in Hd. rewrite last_snoc in Hd. injection Hd as ->. set_solver. }
    cbn [mq_entry set_mq_queue_tail set_mq_queue_head]. replace (0 <? mq_entry x) with true by (simpl in Hen; lia).
    split; [| done]. split; try done. simpl in *. lia.
  - cbn [mq_entry set_mq_queue_tail set_mq_queue_head]. replace (0 <? mq_entry x) with true by lia.
    split; [| done]. split; try done; simpl; [| lia]. rewrite Ht. destruct q as [| c q]; [| done].
    exfalso. apply Hd. by rewrite Ht.
Qed.

Lemma mq_put_free_spec x b fr q fl : mq_repr x fr q (b :: fl) ->
  mq_repr (mq_put_free b x) (b :: fr) q fl /\ mq_data (mq_put_free b x) = mq_data x /\
  mq_msg_size (mq_put_free b x) = mq_msg_size x.
Proof.
  intros H. destruct (mqr_flying _ _ _ _ b H ltac:(apply list_elem_of_here)) as [Hbf Hbq].
  destruct H. split; [| done]. split; try done; simpl.
  - rewrite fupd_eq. split; [done |]. by apply chain_fupd.
  - by apply chain_fupd.
  - rewrite <- mqr_blocks0. by rewrite <- !Permutation_middle.
Qed.

(** The initial free list holds every block, the last one first. *)
Lemma mq_free_loop_spec k : forall temp x,
  chain (mq_next x) (mq_queue_free x) (rev (seq 0 temp)) ->
  let y := mq_free_loop k temp x in
  chain (mq_next y) (mq_queue_free y) (rev (seq 0 (temp + k))) /\
  mq_data y = mq_data x /\ mq_msg_size y = mq_msg_size x /\ mq_max_msgs y = mq_max_msgs x /\
  mq_entry y = mq_entry x /\ mq_queue_head y = mq_queue_head x /\ mq_queue_tail y = mq_queue_tail x.
Proof.
  induction k as [| k IH]; intros temp x Hc; cbv zeta; [by rewrite Nat.add_0_r |]. simpl mq_free_loop.
  set (x1 := set_mq_queue_free _ _).
  destruct (IH (S temp) x1) as (H1 & H2).
  - rewrite seq_S, rev_app_distr. simpl. rewrite fupd_eq. split; [done |]. apply chain_fupd; [| done].
    rewrite <- in_rev || rewrite list_elem_of_In, <- in_rev, in_seq; lia.
  - rewrite Nat.add_succ_r. split; [done |]. exact H2.
Qed.

Lemma mq_fresh_repr next data msg_size max_msgs :
  0 <= max_msgs < 2 ^ 16 -> 0 <= msg_size < 2 ^ 16 -> (forall b, zlen (data b) = msg_size) ->
  mq_repr (mq_fresh next data msg_size max_msgs) (rev (seq 0 (Z.to_nat max_msgs))) [] [].
Proof.
  intros Hm Hs Hd. unfold mq_fresh.
  destruct (mq_free_loop_spec (Z.to_nat max_msgs) 0 (MessageQueue next data msg_size max_msgs 0 None None None))
    as (H1 & H2 & H3 & H4 & H5 & H6 & H7); [done |]. cbv zeta in *. set (y := mq_free_loop _ _ _) in *. simpl in *.
  split; rewrite ?H2, ?H3, ?H4, ?H5, ?H6, ?H7; try done.
  rewrite !app_nil_r. symmetry. apply Permutation_rev.
Qed.

Lemma mq_reset_spec q : forall x fr fl fuel,
  mq_repr (set_mq_entry (zlen q) x) fr q fl -> (length q <= fuel)%nat ->
  exists y, mq_reset_loop fuel x = Some y /\ mq_repr (set_mq_entry 0 y) (rev q ++ fr) [] fl /\
    (forall b, b ∈ fl -> mq_next y b = mq_next x b).
Proof.
  induction q as [| b q IH]; intros x fr fl fuel H Hf.
  - exists x. pose proof (mqr_queue _ _ _ _ H) as Hq. simpl in Hq. destruct fuel; simpl; by rewrite Hq.
  - destruct fuel as [| fuel]; [simpl in Hf; lia |].
    destruct (mq_unlink_spec _ b fr q fl H) as (y & Ey & Hy & _).
    destruct (mq_put_free_spec y b fr q fl Hy) as [Hz _].
    pose proof (mqr_queue _ _ _ _ H) as [Eh _]. simpl in Eh. simpl mq_reset_loop. rewrite Eh.
    revert Ey. unfold mq_unlink. simpl mq_queue_head. rewrite Eh. cbn [mbind option_bind]. intros [= Ey].
    set (z := mq_put_free b _).
    assert (mq_put_free b y = set_mq_entry (zlen q) z) as E.
    { assert (0 <? Z.of_nat (S (length q)) = true) as Hpos by (apply Z.ltb_lt; lia).
      assert (zlen q = Z.of_nat (S (length q)) - 1) as Hlen by lia. rewrite Hlen, <- Ey. unfold z, mq_put_free.
      cbn [mq_queue_tail set_mq_entry set_mq_queue_head mq_next mq_queue_head].
      case_decide; cbn [mq_entry set_mq_entry set_mq_queue_head set_mq_queue_tail]; rewrite Hpos; done. }
    rewrite E in Hz. destruct (IH z (b :: fr) fl fuel Hz) as (w & Ew & Hw & Hn); [simpl in Hf; lia |].
    exists w. split; [done |]. split; [simpl; by rewrite <- app_assoc |].
    intros c Hc. rewrite Hn by done. unfold z, mq_put_free. simpl.
    assert (c <> b) as Hcb.
    { intros ->. destruct (mqr_flying _ _ _ _ b H Hc) as [_ Hb]. apply Hb, list_elem_of_here. }
    rewrite fupd_ne by done. by case_decide.
Qed.

(** ** Interleaved calls *)

(** A block in the hands of a call: taken from the free list; with its [next] set to
    RT_NULL; taken from the queue. *)
Inductive flight :=
  | Taken (b : nat)
  | Cleared (b : nat)
  | Unlinked (b : nat).

Definition block (f : flight) : nat := match f with Taken b | Cleared b | Unlinked b => b end.

(** The critical sections and the copies of the routines, one at a time, in any order. *)
Inductive mq_step : rt_messagequeue * list flight -> rt_messagequeue * list flight -> Prop :=
  | step_take x y b fs : mq_take_free x = Some (b, y) -> mq_step (x, fs) (y, Taken b :: fs)
  | step_clear x b fs1 fs2 : mq_step (x, fs1 ++ Taken b :: fs2) (mq_clear_next b x, fs1 ++ Cleared b :: fs2)
  | step_write x y f buffer size fs :
      f ∈ fs -> (forall b, f <> Unlinked b) -> size <= mq_msg_size x -> mq_write (block f) buffer size x = Some y ->
      mq_step (x, fs) (y, fs)
  | step_tail x b fs1 fs2 : mq_step (x, fs1 ++ Cleared b :: fs2) (mq_link_tail b x, fs1 ++ fs2)
  | step_head x b fs1 fs2 : mq_step (x, fs1 ++ Taken b :: fs2) (mq_link_head b x, fs1 ++ fs2)
  | step_unlink x y b fs : mq_entry x <> 0 -> mq_unlink x = Some (b, y) -> mq_step (x, fs) (y, Unlinked b :: fs)
  | step_put x b fs1 fs2 : mq_step (x, fs1 ++ Unlinked b :: fs2) (mq_put_free b x, fs1 ++ fs2)
  | step_reset x y fs : mq_reset_loop (Z.to_nat (mq_max_msgs x)) x = Some y -> mq_step (x, fs) (set_mq_entry 0 y, fs).

(** What a queue of messages may do. *)
Inductive queue_step : list (list Z) -> list (list Z) -> Prop :=
  | queue_stay q : queue_step q q
  | queue_push m q : queue_step q (q ++ [m])
  | queue_urgent m q : queue_step q (m :: q)
  | queue_pop m q : queue_step (m :: q) q
  | queue_reset q : queue_step q [].

(** The queue of messages that a message queue and the blocks in flight stand for. *)
Definition mq_rel (st : rt_messagequeue * list flight) (msgs : list (list Z)) : Prop :=
  exists fr q, mq_repr st.1 fr q (map block st.2) /\ (forall b, Cleared b ∈ st.2 -> mq_next st.1 b = None) /\
    msgs = map (mq_data st.1) q.

Lemma flight_middle fs1 f fs2 : map block (fs1 ++ f :: fs2) ≡ₚ block f :: map block (fs1 ++ fs2).
Proof. rewrite !map_app. simpl. by rewrite Permutation_middle. Qed.

(** A cleared block other than the one at hand. *)
Lemma cleared_ne x fr q b fs c : mq_repr x fr q (b :: map block fs) -> Cleared c ∈ fs -> c <> b.
Proof.
  intros H Hc ->. pose proof (mqr_nodup _ _ _ _ H) as Hnd.
  apply NoDup_app in Hnd as (_ & _ & Hnd). apply NoDup_app in Hnd as (_ & _ & Hnd).
  apply NoDup_cons in Hnd as [Hb _]. apply Hb. change b with (block (Cleared b)). by apply list_elem_of_fmap_2.
Qed.

Lemma cleared_flying fs b : Cleared b ∈ fs -> b ∈ map block fs.
Proof. intros H. change b with (block (Cleared b)). by apply list_elem_of_fmap_2. Qed.

Lemma mq_write_any x f buffer size y fs fr q :
  mq_repr x fr q (map block fs) -> f ∈ fs -> size <= mq_msg_size x -> mq_write (block f) buffer size x = Some y ->
  mq_repr y fr q (map block fs) /\ mq_next y = mq_next x /\ (forall b, b ∈ q -> mq_data y b = mq_data x b).
Proof.
  intros H Hf Hs E. assert (block f ∈ map block fs) as Hb by by apply list_elem_of_fmap_2.
  destruct (mqr_flying _ _ _ _ _ H Hb) as [_ Hq].
  assert (forall b d, b ∈ q -> fupd (block f) d (mq_data x) b = mq_data x b) as Hother
    by (intros b d Hin; apply fupd_ne; by intros ->).
  destruct buffer as [buf |].
  - assert (0 <= size /\ size <= zlen buf) as [H0 H1].
    { revert E. unfold mq_write, memcpy. destruct (_ && _) eqn:Eb; [lia | done]. }
    destruct (mq_write_buffer x (block f) buf size fr q _ H Hb) as (z & Ez & Hz & Hd & Hn & _); [lia | done |].
    rewrite E in Ez. injection Ez as <-. split; [done |]. split; [done |]. intros b Hin. rewrite Hd. by apply Hother.
  - destruct (mq_write_zero x (block f) size fr q _ H Hb) as (z & Ez & Hz & Hd & Hn & _).
    rewrite E in Ez. injection Ez as <-. split; [done |]. split; [done |]. intros b Hin. rewrite Hd. by apply Hother.
Qed.

(** Every step of the routines is a step of the queue. *)
Lemma mq_step_sim st st' msgs : mq_step st st' -> mq_rel st msgs ->
  exists msgs', mq_rel st' msgs' /\ queue_step msgs msgs'.
Proof.
  intros Hstep (fr & q & H & Hcl & ->). destruct Hstep as [x y b fs E | x b fs1 fs2 | x y f buffer size fs Hf Hnu Hs E
    | x b fs1 fs2 | x b fs1 fs2 | x y b fs He E | x b fs1 fs2 | x y fs E]; simpl in *.
  - destruct fr as [| c fr]; [rewrite (mq_take_free_none _ _ _ H) in E; done |].
    destruct (mq_take_free_spec x c fr q _ H) as (z & Ez & Hz & Hd & _). rewrite Ez in E. injection E as <- <-.
    eexists. split; [| apply queue_stay]. exists fr, q. cbn [fst snd]. split; [done |]. split; [| by rewrite Hd].
    intros d Hin. apply elem_of_cons in Hin as [? | Hin]; [done |].
    revert Ez. unfold mq_take_free. destruct (mq_queue_free x); [| done]. intros [= _ <-]. by apply Hcl.
  - eexists. split; [| apply queue_stay]. exists fr, q. simpl.
    assert (map block (fs1 ++ Cleared b :: fs2) = map block (fs1 ++ Taken b :: fs2)) as -> by by rewrite !map_app.
    destruct (mq_clear_next_spec x b fr q _ H) as [H1 H2].
    { rewrite map_app. simpl. set_solver. }
    split; [done |]. split; [| done]. intros d Hin. simpl. unfold fupd. case_decide as Hd; [done |]. apply Hcl.
    rewrite !elem_of_app, !elem_of_cons in *. destruct Hin as [? | [[= ->] | ?]]; tauto.
  - destruct (mq_write_any _ _ _ _ _ _ _ _ H Hf Hs E) as (H1 & H2 & H3).
    eexists. split; [| apply queue_stay]. exists fr, q. cbn [fst snd]. rewrite H2. split; [done |]. split; [done |].
    apply map_ext_in. intros b Hb. symmetry. apply H3. by apply list_elem_of_In.
  - assert (mq_repr x fr q (b :: map block (fs1 ++ fs2))) as H' by (exact (mqr_perm _ _ _ _ _ (flight_middle fs1 (Cleared b) fs2) H)).
    destruct (mq_link_tail_spec x b fr q _ H') as (H1 & H2 & _); [apply Hcl; set_solver |].
    exists (map (mq_data x) q ++ [mq_data x b]). split; [| apply queue_push].
    exists fr, (q ++ [b]). cbn [fst snd]. split; [done |]. split; [| by rewrite H2, map_app].
    intros c Hin. rewrite <- (Hcl c) by set_solver. pose proof (cleared_ne _ _ _ _ _ _ H' Hin) as Hne.
    destruct (mqr_flying _ _ _ _ c H' ltac:(apply list_elem_of_further, cleared_flying; done)) as [_ Hcq].
    unfold mq_link_tail. rewrite (mqr_tail _ _ _ _ H'). destruct (last q) as [t |] eqn:El; simpl.
    + case_match; simpl; apply fupd_ne; intros ->; by apply Hcq, last_Some_elem_of.
    + by case_match.
  - assert (mq_repr x fr q (b :: map block (fs1 ++ fs2))) as H' by (exact (mqr_perm _ _ _ _ _ (flight_middle fs1 (Taken b) fs2) H)).
    destruct (mq_link_head_spec x b fr q _ H') as (H1 & H2 & _).
    exists (mq_data x b :: map (mq_data x) q). split; [| apply queue_urgent].
    exists fr, (b :: q). cbn [fst snd]. split; [done |]. split; [| by rewrite H2].
    intros c Hin. rewrite <- (Hcl c) by set_solver. pose proof (cleared_ne _ _ _ _ _ _ H' Hin) as Hne.
    unfold mq_link_head. simpl. case_match; simpl; by apply fupd_ne.
  - destruct q as [| c q]; [by rewrite (mqr_entry _ _ _ _ H) in He |].
    destruct (mq_unlink_spec x c fr q _ H) as (z & Ez & Hz & Hd & _). rewrite Ez in E. injection E as <- <-.
    eexists. split; [| apply queue_pop]. exists fr, q. cbn [fst snd]. split; [done |]. split; [| by rewrite Hd].
    intros d Hin. apply elem_of_cons in Hin as [? | Hin]; [done |]. rewrite <- (Hcl d Hin).
    revert Ez. unfold mq_unlink. destruct (mq_queue_head x); [| done]. cbn [mbind option_bind]. intros [= _ <-].
    case_match; case_decide; done.
  - assert (mq_repr x fr q (b :: map block (fs1 ++ fs2))) as H' by (exact (mqr_perm _ _ _ _ _ (flight_middle fs1 (Unlinked b) fs2) H)).
    destruct (mq_put_free_spec x b fr q _ H') as (H1 & H2 & _).
    eexists. split; [| apply queue_stay]. exists (b :: fr), q. cbn [fst snd]. split; [done |]. split; [| done].
    intros c Hin. rewrite <- (Hcl c) by set_solver. pose proof (cleared_ne _ _ _ _ _ _ H' Hin) as Hne.
    by apply fupd_ne.
  - assert (set_mq_entry (zlen q) x = x) as Ex by (rewrite <- (mqr_entry _ _ _ _ H); by destruct x).
    destruct (mq_reset_spec q x fr (map block fs) (Z.to_nat (mq_max_msgs x))) as (z & Ez & Hz & Hn); [by rewrite Ex | |].
    { pose proof (mqr_len _ _ _ _ H). lia. }
    rewrite E in Ez. injection Ez as <-. exists []. split; [| apply queue_reset].
    exists (rev q ++ fr), []. cbn [fst snd]. split; [done |]. split; [| done].
    intros c Hin. change (mq_next y c = None). rewrite Hn by by apply cleared_flying. by apply Hcl.
Qed.

Lemma mq_reset_max fuel : forall x y, mq_reset_loop fuel x = Some y -> mq_max_msgs y = mq_max_msgs x.
Proof.
  induction fuel as [| fuel IH]; intros x y; simpl; destruct (mq_queue_head x) as [b |]; try (by intros [= <-]).
  intros E. rewrite (IH _ _ E). unfold mq_put_free. simpl. by case_decide.
Qed.

Lemma mq_step_max st st' : mq_step st st' -> mq_max_msgs st'.1 = mq_max_msgs st.1.
Proof.
  intros [x y b fs E | x b fs1 fs2 | x y f buffer size fs Hf Hnu Hs E
    | x b fs1 fs2 | x b fs1 fs2 | x y b fs He E | x b fs1 fs2 | x y fs E]; simpl; try done.
  - revert E. unfold mq_take_free. destruct (mq_queue_free x); [| done]. by intros [= _ <-].
  - revert E. unfold mq_write. destruct buffer; [destruct (memcpy _ _ _ _ _); [| done] |]; by intros [= <-].
  - unfold mq_link_tail. destruct (mq_queue_tail x); simpl; by case_match.
  - unfold mq_link_head. simpl. by case_match.
  - revert E. unfold mq_unlink. destruct (mq_queue_head x); [| done]. cbn [mbind option_bind]. intros [= _ <-].
    repeat case_match; done.
  - by apply (mq_reset_max _ _ _ E).
Qed.

(** ** Sequential calls *)

Record mq_ok (m : nat) (s : kstate) : Prop := {
  qo_type : rt_object_get_type (Obj m) s = RT_Object_Class_MessageQueue;
  qo_flag : wait_flag (o_flag (k_obj s (Obj m)))
}.

Lemma mq_core m f s : core_ok s -> core_ok (alter_mq m f s).
Proof. intros [H1 H2 H3]. split; [by eapply sched_frame | by eapply timers_frame | exact H3]. Qed.

Lemma mq_lookup m f s : k_mq (alter_mq m f s) m = f (k_mq s m).
Proof. simpl. by rewrite fupd_eq. Qed.

Lemma mq_alter_alter m f g s : alter_mq m f (alter_mq m g s) = set_k_mq (fupd m (f (g (k_mq s m))) (fupd m (g (k_mq s m)) (k_mq s))) s.
Proof. unfold alter_mq. simpl. by rewrite fupd_eq. Qed.

(** The end of the routines: the queue is [y], the first waiting thread is woken. *)
Lemma mq_wake_spec m y h s s1 :
  core_ok s -> mq_ok m s -> wait_head h -> is_Some (k_current s) -> s1 = set_k_mq (k_mq s1) s -> k_mq s1 m = y ->
  exists s', wake_first h s1 = Some (tt, s') /\ core_ok s' /\ mq_ok m s' /\ k_mq s' m = y /\
    k_lists s' h = tail (k_lists s h) /\ (forall t, head (k_lists s h) = Some t -> th_state s' t = RT_THREAD_READY).
Proof.
  intros Hok [Hty Hfl] Hh Hc Es Ey.
  assert (core_ok s1) as Hok1.
  { rewrite Es. destruct Hok as [H1 H2 H3]. split; [by eapply sched_frame | by eapply timers_frame | exact H3]. }
  assert (k_lists s1 = k_lists s /\ k_obj s1 = k_obj s /\ k_current s1 = k_current s) as (El & Eo & Ec) by by rewrite Es.
  destruct (wake_first_spec h s1 Hok1 Hh) as (s' & E & Hok' & Hw); [by rewrite Ec |].
  pose proof (wf_frame _ _ _ Hw) as Hf. exists s'. split; [done |]. split; [done |].
  split; [split; rewrite ?(core_get_type _ _ _ Hf), ?(cf_flag _ _ Hf); unfold rt_object_get_type; rewrite Eo; done |].
  split; [by rewrite (cf_mq _ _ Hf) |]. split; [rewrite (wf_list _ _ _ Hw); by rewrite El |].
  rewrite <- El. apply Hw.
Qed.

(** ** Theorems *)


(** C11: a call that is not interleaved is an operation of a bounded queue of messages:
    [rt_mq_send] appends the buffer's bytes as a message, [rt_mq_urgent] puts
    them in front, [rt_mq_recv] copies the first message, cut to the size asked
    for, and frees its block; each wakes the first thread that waits at the other
    end; a message too long gives -RT_ERROR, no free block -RT_EFULL, an empty
    queue -RT_ETIMEOUT when the call does not wait, and nothing changes. *)
Theorem rt_mq_refines_queue m buf size timeout fr q s :
  core_ok s -> mq_ok m s -> mq_repr (k_mq s m) fr q [] -> is_Some (k_current s) -> 0 <= size <= zlen buf ->
  (mq_msg_size (k_mq s m) < size ->
     rt_mq_send m (Some buf) size s = Some (- RT_ERROR, s) /\ rt_mq_urgent m (Some buf) size s = Some (- RT_ERROR, s)) /\
  (size <= mq_msg_size (k_mq s m) -> fr = [] ->
     rt_mq_send m (Some buf) size s = Some (- RT_EFULL, s) /\ rt_mq_urgent m (Some buf) size s = Some (- RT_EFULL, s)) /\
  (forall b fr', size <= mq_msg_size (k_mq s m) -> fr = b :: fr' ->
     let bytes := take (Z.to_nat size) buf ++ drop (Z.to_nat size) (mq_data (k_mq s m) b) in
     (exists s', rt_mq_send m (Some buf) size s = Some (RT_EOK, s') /\ core_ok s' /\ mq_ok m s' /\
        mq_repr (k_mq s' m) fr' (q ++ [b]) [] /\
        map (mq_data (k_mq s' m)) (q ++ [b]) = map (mq_data (k_mq s m)) q ++ [bytes] /\
        (forall t, head (k_lists s (LSuspend m)) = Some t -> th_state s' t = RT_THREAD_READY)) /\
     (exists s', rt_mq_urgent m (Some buf) size s = Some (RT_EOK, s') /\ core_ok s' /\ mq_ok m s' /\
        mq_repr (k_mq s' m) fr' (b :: q) [] /\
        map (mq_data (k_mq s' m)) (b :: q) = bytes :: map (mq_data (k_mq s m)) q /\
        (forall t, head (k_lists s (LSuspend m)) = Some t -> th_state s' t = RT_THREAD_READY))) /\
  (forall b q', size <> 0 -> q = b :: q' -> exists s',
     rt_mq_recv m size timeout s
       = Some (Done (RT_EOK, take (Z.to_nat (Z.min size (mq_msg_size (k_mq s m)))) (mq_data (k_mq s m) b)), s') /\
     core_ok s' /\ mq_ok m s' /\ mq_repr (k_mq s' m) (b :: fr) q' [] /\ mq_data (k_mq s' m) = mq_data (k_mq s m) /\
     (forall t, head (k_lists s (LSender m)) = Some t -> th_state s' t = RT_THREAD_READY)) /\
  (size <> 0 -> q = [] -> rt_mq_recv m size 0 s = Some (Done (- RT_ETIMEOUT, []), s)).
Proof.
  intros Hok Hm Hr Hc Hsz. pose proof (qo_type _ _ Hm) as Hty.
  unfold rt_mq_send, rt_mq_urgent, rt_mq_recv, assert_type, update_mq.
  rewrite !bind_assert_s by (rewrite Hty; done). krun. split; [| split; [| split; [| split]]].
  - intros Hl. replace (mq_msg_size (k_mq s m) <? size) with true by lia. done.
  - intros Hl ->. replace (mq_msg_size (k_mq s m) <? size) with false by lia.
    by rewrite (mq_take_free_none _ _ _ Hr).
  - intros b fr' Hl ->. cbv zeta. replace (mq_msg_size (k_mq s m) <? size) with false by lia.
    destruct (mq_take_free_spec _ b fr' q [] Hr) as (y & Ey & Hy & Hdy & Hsy). rewrite Ey. krun.
    rewrite !mq_lookup. split.
    + destruct (mq_clear_next_spec y b fr' q [b] Hy ltac:(set_solver)) as [H1 Hn1].
      destruct (mq_write_buffer (mq_clear_next b y) b buf size fr' q [b] H1 ltac:(set_solver)) as (z & Ez & Hz & Hdz & Hnz & Hsz');
        [change (mq_msg_size (mq_clear_next b y)) with (mq_msg_size y); lia | lia |].
      rewrite Ez. krun. change (mq_data (mq_clear_next b y)) with (mq_data y) in Hdz.
      destruct (mq_link_tail_spec z b fr' q [] Hz) as (H2 & Hd2 & _); [by rewrite Hnz |].
      set (s1 := alter_mq m (mq_link_tail b) _).
      assert (k_mq s1 m = mq_link_tail b z) as Es1 by (unfold s1; by rewrite !mq_lookup).
      destruct (mq_wake_spec m _ (LSuspend m) s s1 Hok Hm I Hc eq_refl Es1) as (s' & E & Hok' & Hm' & Emq & _ & Hw).
      rewrite (run_bind _ _ _ _ _ E). exists s'. split; [done |]. split; [done |]. split; [done |].
      rewrite Emq. split; [done |]. split; [| done].
      rewrite Hd2, Hdz, map_app. simpl. rewrite fupd_eq, Hdy. f_equal.
      apply map_ext_in. intros c Hcin. apply list_elem_of_In in Hcin. apply fupd_ne. intros ->.
      by destruct (mqr_flying _ _ _ _ b Hy ltac:(set_solver)).
    + destruct (mq_write_buffer y b buf size fr' q [b] Hy ltac:(set_solver)) as (z & Ez & Hz & Hdz & Hnz & Hsz'); [lia | lia |].
      rewrite Ez. krun.
      destruct (mq_link_head_spec z b fr' q [] Hz) as (H2 & Hd2 & _).
      set (s1 := alter_mq m (mq_link_head b) _).
      assert (k_mq s1 m = mq_link_head b z) as Es1 by (unfold s1; by rewrite !mq_lookup).
      destruct (mq_wake_spec m _ (LSuspend m) s s1 Hok Hm I Hc eq_refl Es1) as (s' & E & Hok' & Hm' & Emq & _ & Hw).
      rewrite (run_bind _ _ _ _ _ E). exists s'. split; [done |]. split; [done |]. split; [done |].
      rewrite Emq. split; [done |]. split; [| done].
      rewrite Hd2, Hdz. simpl. rewrite fupd_eq, Hdy. f_equal.
      apply map_ext_in. intros c Hcin. apply list_elem_of_In in Hcin. apply fupd_ne. intros ->.
      by destruct (mqr_flying _ _ _ _ b Hy ltac:(set_solver)).
  - intros b q' Hs0 ->. rewrite (proj2 (Z.eqb_neq _ _) Hs0). cbn [negb]. krun.
    pose proof (mqr_entry _ _ _ _ Hr) as He. rewrite length_cons in He.
    replace (mq_entry (k_mq s m) =? 0) with false by lia. cbn [andb]. unfold mq_recv_loop, update_mq. krun.
    replace (mq_entry (k_mq s m) =? 0) with false by lia.
    destruct (mq_unlink_spec _ b fr q' [] Hr) as (y & Ey & Hy & Hdy & Hsy). rewrite Ey. krun. rewrite mq_lookup.
    destruct (mq_put_free_spec y b fr q' [] Hy) as (H1 & Hd1 & _).
    set (s1 := alter_mq m (mq_put_free b) _).
    assert (k_mq s1 m = mq_put_free b y) as Es1 by (unfold s1; by rewrite !mq_lookup).
    destruct (mq_wake_spec m _ (LSender m) s s1 Hok Hm I Hc eq_refl Es1) as (s' & E & Hok' & Hm' & Emq & _ & Hw).
    rewrite (run_bind _ _ _ _ _ E). exists s'. split.
    { unfold mq_read. rewrite Hdy, Hsy. replace (if mq_msg_size (k_mq s m) <? size then mq_msg_size (k_mq s m) else size)
        with (Z.min size (mq_msg_size (k_mq s m))) by (destruct (Z.ltb_spec (mq_msg_size (k_mq s m)) size); lia). done. }
    split; [done |]. split; [done |]. rewrite Emq. split; [done |]. split; [by rewrite Hd1 | done].
  - intros Hs0 ->. rewrite (proj2 (Z.eqb_neq _ _) Hs0). cbn [negb]. krun.
    rewrite (mqr_entry _ _ _ _ Hr). done.
Qed.

(** [rt_mq_detach] wakes the senders only: a thread that waits for a message stays
    suspended in the list of a queue that is no longer an object, so that no
    later [rt_mq_send] can wake it ([rt_mq_delete] does wake it). *)
Theorem rt_mq_detach_strands_receivers m t s :
  core_ok s -> rt_object_get_type (Obj m) s = RT_Object_Class_MessageQueue ->
  rt_object_is_systemobject (Obj m) s = true -> t ∈ k_lists s (LSuspend m) ->
  exists s', rt_mq_detach m s = Some (RT_EOK, s') /\ k_lists s' (LSender m) = [] /\
    t ∈ k_lists s' (LSuspend m) /\ th_state s' t = RT_THREAD_SUSPEND /\
    o_type (k_obj s' (Obj m)) = 0 /\ (forall buffer size, rt_mq_send m buffer size s' = None).
Proof.
  intros Hok Hty Hsys Hin. unfold rt_mq_detach, assert_type.
  rewrite bind_assert_s by (rewrite Hty; done). rewrite bind_assert_s by done.
  destruct (ipc_list_resume_all_spec (LSender m) s Hok I) as (s1 & E1 & Hok1 & Hra).
  rewrite (run_bind _ _ _ _ _ E1). unfold rt_object_detach. krun. eexists. split; [reflexivity |].
  assert (k_lists s1 (LSuspend m) = k_lists s (LSuspend m)) as El by by apply (ra_lists _ _ _ Hra).
  split; [apply Hra |]. split; [simpl; by rewrite El |]. split.
  - change (th_state s1 t = RT_THREAD_SUSPEND). apply (wait_head_state s1 (LSuspend m)); [done | done |]. by rewrite El.
  - split; [simpl; by rewrite fupd_eq |]. intros buffer size. unfold rt_mq_send, assert_type, assert_s, gets, RT_ASSERT.
    unfold mbind, K_bind, rt_object_get_type. simpl. by rewrite fupd_eq.
Qed.

(** ** Witnesses *)

Definition example_mq : rt_messagequeue := mq_fresh (fun _ => None) (fun _ => [0; 0; 0; 0]) 4 2.
Definition example_mq_state : kstate := alter_mq 14 (fun _ => example_mq) example.

Lemma example_mq_repr : mq_repr example_mq [1; 0]%nat [] [].
Proof. apply (mq_fresh_repr (fun _ => None) (fun _ => [0; 0; 0; 0]) 4 2); [lia | lia | done]. Qed.

Lemma example_mq_ok : mq_ok 14 example_mq_state.
Proof. split; [reflexivity | by left]. Qed.

(** A call has taken block 1, cleared its [next] and linked it. *)
Definition example_sent : rt_messagequeue :=
  mq_link_tail 1 (mq_clear_next 1 (set_mq_queue_free (mq_next example_mq 1%nat) example_mq)).


Lemma rt_mq_refines_queue_witness :
  exists s', rt_mq_send 14 (Some [5; 6; 7]) 2 example_mq_state = Some (RT_EOK, s') /\ core_ok s' /\ mq_ok 14 s' /\
    mq_repr (k_mq s' 14%nat) [0]%nat ([] ++ [1])%nat [] /\
    map (mq_data (k_mq s' 14%nat)) ([] ++ [1])%nat = [[5; 6; 0; 0]] /\
    (forall t, head (k_lists example_mq_state (LSuspend 14)) = Some t -> th_state s' t = RT_THREAD_READY).
Proof.
  destruct (rt_mq_refines_queue 14 [5; 6; 7] 2 0 [1; 0]%nat [] example_mq_state) as (_ & _ & H & _).
  - apply mq_core, example_core.
  - apply example_mq_ok.
  - unfold example_mq_state. rewrite mq_lookup. apply example_mq_repr.
  - eexists. reflexivity.
  - split; discriminate.
  - destruct (H 1%nat [0]%nat) as [(s' & E & H1 & H2 & H3 & H4 & H5) _]; [discriminate | reflexivity |].
    exists s'. split; [exact E |]. split; [exact H1 |]. split; [exact H2 |]. split; [exact H3 |].
    split; [| exact H5]. rewrite H4. vm_compute. reflexivity.
Defined.

Lemma rt_mq_detach_strands_receivers_witness :
  exists s', rt_mq_detach 14 (example_waiters 14) = Some (RT_EOK, s') /\ k_lists s' (LSender 14) = [] /\
    3%nat ∈ k_lists s' (LSuspend 14) /\ th_state s' 3%nat = RT_THREAD_SUSPEND /\
    o_type (k_obj s' (Obj 14)) = 0 /\ (forall buffer size, rt_mq_send 14 buffer size s' = None).
Proof.
  apply (rt_mq_detach_strands_receivers 14 3 (example_waiters 14)).
  - apply example_waiters_core.
  - vm_compute. reflexivity.
  - vm_compute. reflexivity.
  - replace (k_lists (example_waiters 14) (LSuspend 14)) with [3; 4]%nat by (vm_compute; reflexivity). set_solver.
Defined.

End MessageQueue.
