(* ===== verification/ThreadLife.v ===== *)
(** * Threads, part 2: the life of a thread

    Initialisation, creation and start of threads ([src/kernel/src/thread.c])
    and the first stack frame ([src/platform/cpu/armv6/stack.c]). *)

From S2P Require Import Prelude KernelTypes Kservice RtList Scheduler Object Timer Thread TimerRun IpcList Sem.
Import Kservice Scheduler KObject Timer Thread TimerRun IpcList Sem.

Local Open Scope Z_scope.

Module ThreadLife.

(** ** The first frame of a stack *)

Definition SVCMODE : Z := 0x13.

(** The words of the frame, the one at the lowest address first: the saved
    program status, the VFP registers, r0, r1 to r12, the return address and the
    entry. *)
Definition stack_frame (tentry parameter texit : Z) : list Z :=
  [if negb (Z.land tentry 0x01 =? 0) then Z.lor SVCMODE 0x20 else SVCMODE]
  ++ [0x40000000; 0x0] ++ replicate 32 0xdeadbeef
  ++ [parameter] ++ replicate 12 0xdeadbeef ++ [texit; tentry].

(** The stack pointer and the frame that starts there. *)
Definition rt_hw_stack_init (tentry parameter stack_addr texit : Z) : Z * list Z :=
  let top := clear_bits 32 (u32 (stack_addr + 4)) 7 in
  let frame := stack_frame tentry parameter texit in
  (u32 (top - 4 * zlen frame), frame).

(** The byte at address [a] after little-endian words were written at [sp]. *)
Definition frame_byte (sp : Z) (frame : list Z) (a old : Z) : Z :=
  if (sp <=? a) && (a <? sp + 4 * zlen frame) then
    u8 (Z.shiftr (znth frame ((a - sp) / 4)) (8 * ((a - sp) mod 4)))
  else old.

(** ** Creation and start *)

(** The fields [_rt_thread_init] sets, in one record; [number] and [high_mask]
    are computed by [rt_thread_startup]. *)
Definition thread_fields (exit_addr entry parameter stack_start stack_size priority tick : Z)
    (th : rt_thread) : rt_thread :=
  let '(sp, frame) := rt_hw_stack_init entry parameter (u32 (stack_start + stack_size - 4)) exit_addr in
  let guard := if 0 <? stack_size then 35 else th_guard th in
  Thread entry parameter sp stack_start stack_size (frame_byte sp frame stack_start guard)
    RT_EOK RT_THREAD_INIT priority priority 0 0 0 (th_event_set th) (th_event_info th)
    tick tick None (th_lock th) (th_total_ticks th) (th_enter_times th) 0.

Section life.
(** The address of [rt_thread_exit] and the addresses of heap blocks. *)
Variable exit_addr : Z.
Variable heap_addr : nat -> Z.

(** [priority] is an [rt_uint8_t]; the node [tlist] of the thread is in no list
    before and after. *)
Definition _rt_thread_init (t : nat) (name : list Z)
    (entry parameter stack_start stack_size priority tick : Z) : K Z :=
  RT_ASSERT (priority <? RT_THREAD_PRIORITY_MAX);;
  modify (alter_thr t (thread_fields exit_addr entry parameter stack_start stack_size priority tick));;
  lock ← rt_sem_create name 0 0;
  modify (alter_thr t (set_th_lock lock));;
  tname ← gets (fun s => o_name (k_obj s (Obj t)));
  rt_timer_init (ThreadTimer t) tname FnThreadTimeout (Z.of_nat t) 0 RT_TIMER_FLAG_ONE_SHOT;;
  modify (alter_thr t (set_th_enter_times 0));;
  modify (alter_thr t (set_th_total_ticks 0));;
  mret RT_EOK.

Definition rt_thread_init (t : nat) (name : list Z)
    (entry parameter stack_start stack_size priority tick : Z) : K Z :=
  RT_ASSERT (negb (stack_start =? 0));;
  rt_object_init (Obj t) RT_Object_Class_Thread name;;
  _rt_thread_init t name entry parameter stack_start stack_size priority tick.

Definition rt_thread_startup (t : nat) : K Z :=
  assert_s (fun s => th_state s t =? RT_THREAD_INIT);;
  assert_type (Obj t) RT_Object_Class_Thread;;
  modify (alter_thr t (fun th => set_priority (th_init_priority th) th));;
  modify (alter_thr t (set_th_stat RT_THREAD_SUSPEND));;
  _ ← rt_thread_resume t;
  self ← rt_thread_self;
  match self with Some _ => rt_schedule | None => skip end;;
  mret RT_EOK.

Definition rt_thread_create (name : list Z) (entry parameter stack_size priority tick : Z)
  : K (option nat) :=
  thread ← rt_object_allocate RT_Object_Class_Thread name;
  match thread with
  | None => mret None
  | Some t =>
      stack_start ← rt_malloc;
      match stack_start with
      | None => rt_object_delete (Obj t);; mret None
      | Some b =>
          _ ← _rt_thread_init t name entry parameter (heap_addr b) stack_size priority tick;
          mret (Some t)
      end
  end.

End life.


(** ** The stack of a new thread *)

Lemma zlen_frame tentry parameter texit : zlen (stack_frame tentry parameter texit) = 50.
Proof. done. Qed.

Lemma align_down_8 x : 0 <= x < 2 ^ 32 -> clear_bits 32 x 7 = x - x mod 8.
Proof.
  intros H. unfold clear_bits. change 7 with (Z.ones 3). rewrite <- Z.ldiff_land, Z.ldiff_ones_r by lia.
  rewrite Z.shiftr_div_pow2, Z.shiftl_mul_pow2 by lia. change (2 ^ 3) with 8.
  pose proof (Z.div_mod x 8). pose proof (Z.mod_pos_bound x 8). rewrite wrap_small; lia.
Qed.

(** The bounds under which the first frame fits in the stack. *)
Definition stack_fits (stack_start stack_size : Z) : Prop :=
  0 < stack_start /\ 208 <= stack_size /\ stack_start + stack_size < 2 ^ 32.

Lemma thread_fields_stack exit_addr entry parameter stack_start stack_size priority tick th :
  stack_fits stack_start stack_size ->
  stack_overflow (thread_fields exit_addr entry parameter stack_start stack_size priority tick th) = false.
Proof.
  intros (H1 & H2 & H3). unfold thread_fields, rt_hw_stack_init. rewrite zlen_frame.
  rewrite (wrap_small 32 (stack_start + stack_size - 4)) by lia.
  rewrite (wrap_small 32 (stack_start + stack_size - 4 + 4)) by lia.
  rewrite align_down_8 by lia. pose proof (Z.mod_pos_bound (stack_start + stack_size - 4 + 4) 8 ltac:(lia)) as Hm.
  rewrite (wrap_small 32 (_ - _ - _)) by lia. unfold stack_overflow. cbn [th_guard th_sp th_stack_addr th_stack_size].
  rewrite (wrap_small 32 (stack_start + stack_size)) by lia.
  unfold frame_byte. rewrite (proj2 (Z.ltb_lt 0 stack_size)) by lia.
  rewrite (proj2 (Z.leb_gt _ stack_start)) by lia. cbn [andb negb orb].
  change (35 =? 35) with true. cbn [negb orb]. apply Z.ltb_ge. lia.
Qed.

(** ** Addresses in use *)

(** Nothing in the kernel refers to a thread or an object at address [t]. *)
Record unused (t : nat) (s : kstate) : Prop := {
  un_lists : forall h, t ∉ k_lists s h;
  un_head : k_lists s (LSuspend t) = [];
  un_cont : forall c, Obj t ∉ k_cont s c /\ ThreadTimer t ∉ k_cont s c
}.

(** The addresses the heap has not given out. *)
Definition heap_ok (s : kstate) : Prop := forall n, (k_next s <= n)%nat -> unused n s.

Lemma unused_frame t s s' : unused t s -> (forall h, k_lists s' h = k_lists s h) ->
  (forall c p, p = Obj t \/ p = ThreadTimer t -> p ∈ k_cont s' c -> p ∈ k_cont s c) -> unused t s'.
Proof.
  intros [Hl Hh Hc] El Ec. split.
  - intros h. by rewrite El.
  - by rewrite El.
  - intros c. destruct (Hc c). split; intros Hin; apply Ec in Hin; naive_solver.
Qed.

(** A thread in no list, without a registered timer. *)
Record loose (t : nat) (s : kstate) : Prop := {
  lo_lists : forall h, t ∉ k_lists s h;
  lo_obj : Obj t ∉ k_cont s RT_Object_Class_Timer;
  lo_timer : ThreadTimer t ∉ k_cont s RT_Object_Class_Timer
}.

Lemma unused_loose t s : unused t s -> loose t s.
Proof. intros [Hl _ Hc]. split; [done | apply Hc..]. Qed.

Lemma loose_state t s : core_ok s -> loose t s -> ~ schedulable s t.
Proof. intros Hok Hu Hs. destruct (co_live _ _ Hok t Hs) as (_ & _ & Hin). by apply (lo_timer _ _ Hu) in Hin. Qed.

Lemma loose_timers t s : core_ok s -> loose t s ->
  Obj t ∉ hard s /\ Obj t ∉ soft s /\ ThreadTimer t ∉ hard s /\ ThreadTimer t ∉ soft s.
Proof.
  intros Hok [_ H1 H2]. pose proof (tk_reg _ (co_timers _ _ Hok)) as Hr.
  repeat split; intros Hin; [apply H1 | apply H1 | apply H2 | apply H2]; apply Hr; auto.
Qed.

(** A thread outside every list changes to a state outside the scheduler's interest. *)
Lemma sched_alter_off t f s :
  sched_ok s -> (forall h, t ∉ k_lists s h) -> ~ schedulable (alter_thr t f s) t -> sched_ok (alter_thr t f s).
Proof.
  intros Hok Hl Hn. apply (sched_release t); [by apply alter_thr_out, sched_hold | | tauto].
  intros E. apply Hn. by left.
Qed.

Lemma settled_lists s s' :
  settled s -> sched_ok s' -> k_current s' = k_current s ->
  (forall p, k_lists s' (LReady p) = k_lists s (LReady p)) -> settled s'.
Proof.
  intros [E | (_ & c & p & Ec & Hp & (q & Hq) & Hm)] Hok Ecur El; [left; congruence | right].
  split; [done |]. exists c, p. split; [congruence |]. split; [done |].
  split; [exists q; by rewrite El | intros r Hr; rewrite El; auto].
Qed.

(** What the creation of objects leaves alone. *)
Record grown (s s' : kstate) : Prop := {
  gr_lists : forall h, k_lists s' h = k_lists s h;
  gr_ready : k_ready_table s' = k_ready_table s /\ k_ready_group s' = k_ready_group s;
  gr_current : k_current s' = k_current s;
  gr_nest : k_lock_nest s' = k_lock_nest s;
  gr_irq : k_interrupt_nest s' = k_interrupt_nest s;
  gr_tick : k_tick s' = k_tick s;
  gr_timers : k_timer_list s' = k_timer_list s /\ k_soft_timer_list s' = k_soft_timer_list s;
  gr_next : (k_next s <= k_next s')%nat;
  gr_oom : k_oom s' = k_oom s;
  gr_cont : forall c p, p ∈ k_cont s c -> p ∈ k_cont s' c
}.

Lemma grown_refl s : grown s s.
Proof. split; auto. Qed.

Lemma grown_trans s1 s2 s3 : grown s1 s2 -> grown s2 s3 -> grown s1 s3.
Proof.
  intros [? [] ? ? ? ? [] ? ? ?] [? [] ? ? ? ? [] ? ? ?]. split; try (split; congruence); try congruence.
  - lia.
  - auto.
Qed.

Lemma settled_grown s s' : settled s -> grown s s' -> sched_ok s' -> settled s'.
Proof. intros H Hg Hok. eapply settled_lists; [done | done | apply Hg |]. intros p. apply Hg. Qed.

(** Objects other than those at [n] are as before. *)
Definition elsewhere (n : nat) (s s' : kstate) : Prop :=
  (forall p, p <> Obj n -> p <> ThreadTimer n -> k_obj s' p = k_obj s p) /\
  (forall p, p <> Obj n -> p <> ThreadTimer n -> k_tmr s' p = k_tmr s p) /\
  (forall u, u <> n -> k_thr s' u = k_thr s u) /\ (forall u, u <> n -> k_sem s' u = k_sem s u) /\
  (forall c p, p ∈ k_cont s' c -> p = Obj n \/ p = ThreadTimer n \/ p ∈ k_cont s c).

Lemma elsewhere_trans n s1 s2 s3 : elsewhere n s1 s2 -> elsewhere n s2 s3 -> elsewhere n s1 s3.
Proof.
  intros (A1 & A2 & A3 & A4 & A5) (B1 & B2 & B3 & B4 & B5).
  split; [intros; by rewrite B1, A1 |]. split; [intros; by rewrite B2, A2 |].
  split; [intros; by rewrite B3, A3 |]. split; [intros; by rewrite B4, A4 |].
  intros c p Hp. destruct (B5 c p Hp) as [| [|]]; auto.
Qed.

(** A change to the objects of a loose thread leaves the kernel consistent. *)
Lemma core_elsewhere n s s' :
  core_ok s -> loose n s -> grown s s' -> elsewhere n s s' ->
  ~ schedulable s' n ->
  (rt_object_get_type (ThreadTimer n) s' = RT_Object_Class_Timer ->
    tm_timeout_func (k_tmr s' (ThreadTimer n)) = FnThreadTimeout /\
    tm_parameter (k_tmr s' (ThreadTimer n)) = Z.of_nat n /\
    flag_set (o_flag (k_obj s' (ThreadTimer n))) RT_TIMER_FLAG_SOFT_TIMER = false /\
    flag_set (o_flag (k_obj s' (ThreadTimer n))) RT_TIMER_FLAG_PERIODIC = false) -> core_ok s'.
Proof.
  intros Hok Hun Hg (Eo & Etm & Eth & _ & _) Hn Htm.
  pose proof (loose_state _ _ Hok Hun) as Hn0. destruct (loose_timers _ _ Hok Hun) as (U1 & U2 & U3 & U4).
  pose proof Hok as [Hs Ht Hl].
  assert (forall u, u <> n -> th_state s' u = th_state s u) as Est by (intros u Hu; unfold th_state; by rewrite Eth).
  assert (hard s' = hard s /\ soft s' = soft s) as [Eh Es].
  { unfold hard, soft. by destruct (gr_timers _ _ Hg) as [-> ->]. }
  assert (forall p, p <> Obj n -> p <> ThreadTimer n -> rt_object_get_type p s' = rt_object_get_type p s) as Ety.
  { intros p H1 H2. unfold rt_object_get_type. by rewrite Eo. }
  split.
  - destruct Hs as [Hth Hb]. split.
    + destruct Hth. split; try done.
      * intros h. by rewrite (gr_lists _ _ Hg).
      * intros h k u. rewrite !(gr_lists _ _ Hg). apply th_disj0.
      * intros h u. rewrite (gr_lists _ _ Hg). intros Hin.
        assert (u <> n) as Hu by (intros ->; by apply (lo_lists _ _ Hun) in Hin).
        specialize (th_listed0 h u Hin). unfold list_state in *. by rewrite (Est _ Hu), (Eth _ Hu).
      * intros u _ Hu. assert (u <> n) as Hne by (intros ->; apply Hn; by left).
        rewrite (gr_lists _ _ Hg), (Eth _ Hne). apply th_ready0; [done |]. by rewrite <- Est.
      * intros u _ Hu. assert (u <> n) as Hne by (by intros ->).
        rewrite (Eth _ Hne). apply th_masks0; [done |]. unfold schedulable in *. by rewrite <- Est.
      * intros u _ Hu. assert (u <> n) as Hne by (by intros ->).
        rewrite (Eth _ Hne). apply th_stack0; [done |]. unfold schedulable in *. by rewrite <- Est.
    + destruct (gr_ready _ _ Hg) as [E1 E2]. eapply bitmap_same; [done.. |]. intros q _. by rewrite (gr_lists _ _ Hg).
  - destruct Ht as [Hh Hsf Hnd Hreg Hth Hac Hns Hfn]. destruct (gr_timers _ _ Hg) as [E1 E2].
    split; rewrite ?Eh, ?Es, ?E1, ?E2; try done.
    + intros p Hp. destruct (Hreg p Hp) as [H1 H2]. split; [by apply Hg |]. rewrite Ety; [done | |]; intros ->; tauto.
    + intros u Hu. rewrite Est; [auto | by intros ->].
    + intros u Hu. unfold timer_active. rewrite Eo; [by apply Hac | done | intros [= ->]; done].
    + intros u Hu. destruct (decide (u = n)) as [-> | Hne]; [by apply Htm |].
      rewrite Etm, Eo by congruence. apply Hfn. rewrite <- Ety by congruence. done.
  - intros u Hu. assert (u <> n) as Hne by (by intros ->).
    rewrite !Ety by congruence. destruct (Hl u) as (H1 & H2 & H3); [unfold schedulable in *; by rewrite <- Est |].
    split; [done |]. split; [done |]. by apply Hg.
Qed.

(** ** Allocation *)

Lemma heap_next t s s' :
  heap_ok s -> (k_next s <= k_next s')%nat -> (t < k_next s')%nat -> (forall h, k_lists s' h = k_lists s h) ->
  (forall c p, p ∈ k_cont s' c -> p = Obj t \/ p = ThreadTimer t \/ p ∈ k_cont s c) -> heap_ok s'.
Proof.
  intros Hh Hn Ht El Ec n Hle. eapply unused_frame; [apply (Hh n); lia | done |].
  intros c p Hp Hin. destruct (Ec c p Hin) as [-> | [-> |]]; [| | done];
    destruct Hp as [[= ->] | [= ->]]; lia.
Qed.

(** The object [n] that [rt_object_allocate] gave out. *)
Record allocated (n : nat) (type : Z) (s s' : kstate) : Prop := {
  al_core : core_ok s';
  al_grown : grown s s';
  al_else : elsewhere n s s';
  al_heap : heap_ok s';
  al_next : k_next s' = S n;
  al_type : o_type (k_obj s' (Obj n)) = type;
  al_name : length (o_name (k_obj s' (Obj n))) = RT_NAME_MAX;
  al_timer : k_obj s' (ThreadTimer n) = Object (replicate RT_NAME_MAX 0) 0 0;
  al_cont : forall c, k_cont s' c = if decide (c = type) then Obj n :: k_cont s c else k_cont s c;
  al_thr : k_thr s' n = zero_thread
}.

Lemma allocate_spec type name s :
  core_ok s -> heap_ok s -> k_interrupt_nest s = 0 -> In type rt_object_container ->
  readable RT_NAME_MAX name -> bytes name ->
  if k_oom s (k_next s) then rt_object_allocate type name s = Some (None, set_k_next (S (k_next s)) s)
  else exists s', rt_object_allocate type name s = Some (Some (k_next s), s') /\ allocated (k_next s) type s s'.
Proof.
  intros Hok Hh Hi Ht Hr Hb. unfold rt_object_allocate, RT_DEBUG_NOT_IN_INTERRUPT, rt_malloc.
  rewrite !bind_assert_s by (by rewrite Hi). apply has_container_spec in Ht. rewrite Ht. krun.
  set (n := k_next s). change (k_oom _ n) with (k_oom s n).
  destruct (k_oom s n) eqn:Eo; [done |]. krun.
  set (s1 := alter_obj (Obj n) (set_o_flag 0) _).
  assert (o_name (k_obj s1 (Obj n)) = replicate RT_NAME_MAX 0) as En.
  { simpl. rewrite !fupd_eq. simpl. rewrite fupd_ne by done. by rewrite fupd_eq. }
  rewrite (run_bind _ _ _ _ _ (set_name_spec (Obj n) name s1 ltac:(by rewrite En) Hr)).
  unfold container_insert. krun. eexists. split; [reflexivity |].
  set (s' := set_k_cont _ _). pose proof (Hh n ltac:(lia)) as Hun.
  assert (grown s s') as Hg.
  { split; try done; simpl; [lia |]. intros c p Hp. unfold fupd. case_decide; [subst; by apply list_elem_of_further | done]. }
  assert (elsewhere n s s') as He.
  { split; [| split; [| split; [| split]]].
    - intros p H1 H2. simpl. by rewrite !fupd_ne.
    - intros p H1 H2. simpl. by rewrite !fupd_ne.
    - intros u Hu. simpl. by rewrite fupd_ne.
    - intros u Hu. simpl. by rewrite fupd_ne.
    - intros c p. simpl. unfold fupd. case_decide; [| auto]. subst. rewrite elem_of_cons. naive_solver. }
  assert (k_thr s' n = zero_thread) as Ez by (simpl; by rewrite fupd_eq).
  assert (k_obj s' (ThreadTimer n) = Object (replicate RT_NAME_MAX 0) 0 0) as Etm.
  { simpl. rewrite !(fupd_ne (Obj n)) by done. by rewrite fupd_eq. }
  split; try done.
  - eapply core_elsewhere; [exact Hok | apply unused_loose, Hun | exact Hg | exact He | |].
    + unfold schedulable, th_state. rewrite Ez. intros [H | H]; done.
    + unfold rt_object_get_type. rewrite Etm. done.
  - eapply (heap_next n s s'); [done | apply Hg | simpl; lia | done | apply He].
  - simpl. by rewrite !fupd_eq.
  - unfold s'. cbn [k_obj set_k_cont alter_obj set_k_obj]. rewrite fupd_eq. cbn [o_name set_o_name]. rewrite En. by apply padded_ok.
  - intros c. simpl. unfold fupd. case_decide; [by subst | done].
Qed.

Lemma core_set_next v s : core_ok s -> core_ok (set_k_next v s).
Proof. intros [H1 H2 H3]. split; [by eapply sched_frame | by eapply timers_frame | exact H3]. Qed.

Lemma grown_next s : grown s (set_k_next (S (k_next s)) s).
Proof. split; try done; simpl; auto. Qed.

(** [rt_sem_create]: the semaphore is new, or memory ran out; the address it
    took is gone either way. *)
Lemma sem_create_spec name v s :
  core_ok s -> heap_ok s -> k_interrupt_nest s = 0 -> readable RT_NAME_MAX name -> bytes name -> v < 0x10000 ->
  exists r s', rt_sem_create name v RT_IPC_FLAG_FIFO s = Some (r, s') /\ core_ok s' /\ heap_ok s' /\ grown s s' /\
    elsewhere (k_next s) s s' /\
    match r with
    | None => True
    | Some n => n = k_next s /\ o_type (k_obj s' (Obj n)) = RT_Object_Class_Semaphore /\ k_sem s' n = u16 v /\
        Obj n ∈ k_cont s' RT_Object_Class_Semaphore
    end.
Proof.
  intros Hok Hh Hi Hr Hb Hv. unfold rt_sem_create, RT_DEBUG_NOT_IN_INTERRUPT.
  rewrite bind_assert_s by (by rewrite Hi). rewrite (proj2 (Z.ltb_lt v 0x10000)) by done. krun.
  pose proof (allocate_spec RT_Object_Class_Semaphore name s Hok Hh Hi) as Ha.
  destruct (k_oom s (k_next s)).
  - rewrite (run_bind _ _ _ _ _ (Ha ltac:(simpl; tauto) Hr Hb)). do 2 eexists. split; [reflexivity |].
    split; [by apply core_set_next |]. split; [intros n Hn; simpl in Hn; destruct (Hh n) as [? ? ?]; [lia | by split] |].
    split; [apply grown_next |]. split; [| done]. repeat split; auto.
  - destruct Ha as (s1 & E & [Hc Hg He Hh1 Hn Hty Hnm Htm Hct Hth]); [simpl; tauto | done..|].
    rewrite (run_bind _ _ _ _ _ E). unfold rt_ipc_object_init. krun.
    set (n := k_next s) in *. do 2 eexists. split; [reflexivity |].
    set (s' := alter_obj (Obj n) _ _). pose proof (Hh n ltac:(lia)) as Hun.
    assert (grown s s') as Hg'.
    { destruct Hg. split; try done. intros h. simpl. unfold fupd. case_decide; [| done].
      subst. by rewrite (un_head _ _ Hun). }
    assert (elsewhere n s s') as He'.
    { destruct He as (H1 & H2 & H3 & H4 & H5). split; [| split; [| split; [| split]]]; try done.
      - intros p Hp Hp'. simpl. rewrite fupd_ne by done. by apply H1.
      - intros u Hu. simpl. rewrite fupd_ne by done. by apply H4. }
    assert (rt_object_get_type (ThreadTimer n) s' = 0) as Ety.
    { unfold rt_object_get_type. simpl. rewrite fupd_ne by done. by rewrite Htm. }
    split; [| split; [| split; [done |]; split; [done |]; split; [done |]]].
    + eapply core_elsewhere; [exact Hok | apply unused_loose, Hun | exact Hg' | exact He' | |].
      * unfold schedulable, th_state. change (k_thr s' n) with (k_thr s1 n). rewrite Hth. intros [H | H]; done.
      * rewrite Ety. done.
    + eapply (heap_next n s s'); [done | apply Hg' | simpl; lia | apply Hg' | apply He'].
    + split; [simpl; rewrite fupd_eq; done |]. split; [simpl; by rewrite fupd_eq |].
      simpl. rewrite Hct, decide_True by done. apply list_elem_of_here.
Qed.

(** ** Initialisation *)

(** A thread that [_rt_thread_init] set up. *)
Record initialised (t : nat) (th : rt_thread) (s s' : kstate) : Prop := {
  in_core : core_ok s';
  in_heap : heap_ok s';
  in_grown : grown s s';
  in_self : exists lock, k_thr s' t = set_th_total_ticks 0 (set_th_enter_times 0 (set_th_lock lock th)) /\
    (forall n, lock = Some n -> n = k_next s /\ k_sem s' n = 0 /\
       o_type (k_obj s' (Obj n)) = RT_Object_Class_Semaphore);
  in_other : forall u, u <> t -> (u < k_next s)%nat -> k_thr s' u = k_thr s u;
  in_objs : forall p, p <> ThreadTimer t -> p <> Obj (k_next s) -> p <> ThreadTimer (k_next s) -> k_obj s' p = k_obj s p;
  in_timer : o_type (k_obj s' (ThreadTimer t)) = Z.lor RT_Object_Class_Timer RT_Object_Class_Static;
  in_reg : ThreadTimer t ∈ k_cont s' RT_Object_Class_Timer;
  in_cont : forall c p, p ∈ k_cont s' c ->
    p = ThreadTimer t \/ p = Obj (k_next s) \/ p = ThreadTimer (k_next s) \/ p ∈ k_cont s c
}.

Lemma core_loose_alter t f s :
  core_ok s -> loose t s -> ~ schedulable (alter_thr t f s) t -> core_ok (alter_thr t f s).
Proof.
  intros Hok Hlo Hn. pose proof Hok as [Hs Ht Hl]. split.
  - apply sched_alter_off; [done | apply Hlo | done].
  - eapply timers_frame; try done. intros u Hu Hsu. destruct (decide (u = t)) as [-> | Hne].
    + by apply loose_timers in Hlo as (_ & _ & ? & _).
    + by rewrite state_alter_ne.
  - intros u Hu. apply Hl. destruct (decide (u = t)) as [-> | Hne]; [done |].
    unfold schedulable in *. by rewrite state_alter_ne in Hu.
Qed.

Lemma unused_alter n t f s : unused n s -> unused n (alter_thr t f s).
Proof. intros [? ? ?]. by split. Qed.

(** The timer of a thread. *)
Lemma thread_timer_init_spec t name s :
  core_ok s -> settled s -> 0 <= k_lock_nest s < 32767 -> loose t s ->
  length (o_name (k_obj s (ThreadTimer t))) = RT_NAME_MAX -> readable RT_NAME_MAX name ->
  exists s', rt_timer_init (ThreadTimer t) name FnThreadTimeout (Z.of_nat t) 0 RT_TIMER_FLAG_ONE_SHOT s = Some (tt, s') /\
    core_ok s' /\ grown s s' /\ k_thr s' = k_thr s /\ k_sem s' = k_sem s /\ k_next s' = k_next s /\
    (forall p, p <> ThreadTimer t -> k_obj s' p = k_obj s p) /\
    (forall c p, p ∈ k_cont s' c -> p = ThreadTimer t \/ p ∈ k_cont s c) /\
    o_type (k_obj s' (ThreadTimer t)) = Z.lor RT_Object_Class_Timer RT_Object_Class_Static /\
    ThreadTimer t ∈ k_cont s' RT_Object_Class_Timer.
Proof.
  intros Hok Hse Hn Hlo Hl Hr. unfold rt_timer_init.
  destruct (rt_object_init_spec (ThreadTimer t) RT_Object_Class_Timer name s) as (s1 & E1 & Ec & Eo & Es);
    [simpl; tauto | done | done | apply Hlo | done | done |].
  rewrite (run_bind _ _ _ _ _ E1). unfold _rt_timer_init. krun. eexists. split; [reflexivity |].
  set (s' := alter_tmr _ _ _).
  assert (grown s s') as Hg.
  { split; try (rewrite Es; done); try (simpl; rewrite Es; simpl; auto; done).
    intros c p Hp. change (k_cont s' c) with (k_cont s1 c). rewrite Ec. unfold fupd.
    case_decide; [subst; by apply list_elem_of_further | done]. }
  assert (forall p, p <> ThreadTimer t -> k_obj s' p = k_obj s p) as Hobj.
  { intros p Hp. simpl. rewrite !fupd_ne by done. rewrite Eo, decide_False by done. done. }
  assert (forall c p, p ∈ k_cont s' c -> p = ThreadTimer t \/ p ∈ k_cont s c) as Hct.
  { intros c p. change (k_cont s' c) with (k_cont s1 c). rewrite Ec. unfold fupd. case_decide; [| auto].
    subst. rewrite elem_of_cons. tauto. }
  assert (k_thr s' = k_thr s) as Eth by (simpl; by rewrite Es).
  assert (k_sem s' = k_sem s) as Esem by (simpl; by rewrite Es).
  split; [| split; [done |]; split; [done |]; split; [done |]; split; [simpl; by rewrite Es |]; split; [done |]; split; [done |]].
  - eapply core_elsewhere; [exact Hok | exact Hlo | exact Hg | | |].
    + split; [intros p _ Hp; by apply Hobj |]. split; [intros p _ Hp; simpl; rewrite fupd_ne by done; by rewrite Es |].
      split; [intros u _; by rewrite Eth |]. split; [intros u _; by rewrite Esem |].
      intros c p Hp. apply Hct in Hp. tauto.
    + intros Hs. apply (loose_state t s Hok Hlo). unfold schedulable, th_state in *. by rewrite Eth in Hs.
    + intros _. simpl. rewrite !fupd_eq. done.
  - split; [simpl; rewrite !fupd_eq; simpl; by rewrite Eo, decide_True |].
    change (k_cont s' ?c) with (k_cont s1 c). rewrite Ec, fupd_eq. apply list_elem_of_here.
Qed.

Lemma not_sched_init t s : th_state s t = RT_THREAD_INIT -> ~ schedulable s t.
Proof. intros E [H | H]; rewrite E in H; done. Qed.

Lemma unused_new_thread t th s s' :
  initialised t th s s' -> forall u, u <> t -> (u < k_next s)%nat -> th_state s' u = th_state s u.
Proof. intros H u Hu Hn. unfold th_state. by rewrite (in_other _ _ _ _ H). Qed.

Section specs.
Variable exit_addr : Z.

Lemma _thread_init_spec t name entry parameter start size prio tick s :
  core_ok s -> settled s -> heap_ok s -> k_interrupt_nest s = 0 -> 0 <= k_lock_nest s < 32767 ->
  (t < k_next s)%nat -> loose t s ->
  length (o_name (k_obj s (Obj t))) = RT_NAME_MAX -> length (o_name (k_obj s (ThreadTimer t))) = RT_NAME_MAX ->
  readable RT_NAME_MAX name -> bytes name -> prio < 256 ->
  exists s', _rt_thread_init exit_addr t name entry parameter start size prio tick s = Some (RT_EOK, s') /\
    initialised t (thread_fields exit_addr entry parameter start size prio tick (k_thr s t)) s s'.
Proof.
  intros Hok Hse Hh Hi Hn Ht Hlo Hln Hlt Hr Hb Hp. unfold _rt_thread_init.
  rewrite (proj2 (Z.ltb_lt prio RT_THREAD_PRIORITY_MAX)) by done. krun.
  set (th := thread_fields _ _ _ _ _ _ _). set (s1 := alter_thr t th s).
  assert (k_thr s1 t = th (k_thr s t)) as E1 by (unfold s1; by rewrite alter_thr_lookup, decide_True).
  assert (core_ok s1) as Hok1.
  { apply core_loose_alter; [done | done |]. apply not_sched_init. unfold th_state. fold s1. rewrite E1. done. }
  assert (heap_ok s1) as Hh1 by (intros n Hle; apply unused_alter, Hh, Hle).
  destruct (sem_create_spec name 0 s1 Hok1 Hh1 Hi Hr Hb ltac:(lia)) as (lk & s2 & E2 & Hok2 & Hh2 & Hg2 & He2 & Hlk).
  rewrite (run_bind _ _ _ _ _ E2). krun. change (k_next s1) with (k_next s) in *.
  destruct He2 as (O2 & T2 & R2 & M2 & C2).
  assert (k_thr s2 t = th (k_thr s t)) as Et2 by (rewrite R2; [done | lia]).
  set (s3 := alter_thr t (set_th_lock lk) s2).
  assert (loose t s2) as Hlo2.
  { destruct Hlo as [H1 H2 H3]. split.
    - intros h. rewrite (gr_lists _ _ Hg2). apply H1.
    - intros Hin. apply C2 in Hin as [[= ->] | [|]]; [lia | done | done].
    - intros Hin. apply C2 in Hin as [| [[= ->] |]]; [done | lia | done]. }
  assert (core_ok s3) as Hok3.
  { apply core_loose_alter; [done | done |]. apply not_sched_init. unfold th_state.
    rewrite alter_thr_lookup, decide_True, Et2 by done. done. }
  assert (grown s s3) as Hg3 by (by destruct Hg2).
  assert (k_obj s3 (Obj t) = k_obj s (Obj t) /\ k_obj s3 (ThreadTimer t) = k_obj s (ThreadTimer t)) as [Eo Eot].
  { split; (change (k_obj s3) with (k_obj s2); rewrite O2; [done | intros [= E]; lia | intros [= E]; lia]). }
  destruct (thread_timer_init_spec t (o_name (k_obj s3 (Obj t))) s3) as
    (s4 & E4 & Hok4 & Hg4 & Et4 & Es4 & En4 & Ob4 & Ct4 & Ty4 & Rg4).
  { done. }
  { eapply settled_grown; [done | done | apply Hok3]. }
  { rewrite (gr_nest _ _ Hg3). done. }
  { by destruct Hlo2. }
  { congruence. }
  { left. rewrite Eo, Hln. done. }
  rewrite (run_bind _ _ _ _ _ E4). krun. eexists. split; [reflexivity |].
  set (s5 := alter_thr t (set_th_total_ticks 0) _).
  assert (forall u, k_thr s5 u = if decide (u = t) then set_th_total_ticks 0 (set_th_enter_times 0 (set_th_lock lk (th (k_thr s t))))
     else k_thr s2 u) as E5.
  { intros u. unfold s5. rewrite !alter_thr_lookup, Et4. unfold s3. rewrite !alter_thr_lookup, !(decide_True _ _ (eq_refl t)), Et2. case_decide; done. }
  assert (core_ok s5) as Hok5.
  { apply core_alter_same; [by intros [] | apply core_alter_same; [by intros [] | done]]. }
  assert (grown s s5) as Hg5 by (eapply grown_trans; [exact Hg3 |]; by destruct Hg4).
  split; try done.
  - assert (k_next s5 = k_next s2) as En by exact En4. intros n Hle. eapply (unused_frame _ s2); [apply Hh2; lia | |].
    + intros h. exact (gr_lists _ _ Hg4 h).
    + intros c p Hpn Hin. apply Ct4 in Hin as [-> |]; [| done]. destruct Hpn as [| [= ->]]; [done |].
      assert (k_next s <= k_next s5)%nat by apply Hg5. lia.
  - exists lk. split; [by rewrite E5, decide_True |]. intros n ->. destruct Hlk as (-> & Hty & Hsem & _).
    split; [done |]. split; [change (k_sem s5) with (k_sem s4); rewrite Es4; exact Hsem |].
    change (k_obj s5) with (k_obj s4). by rewrite Ob4.
  - intros u Hu Hun. rewrite E5, decide_False by done. rewrite R2 by lia. unfold s1.
    by rewrite alter_thr_lookup, decide_False.
  - intros p H1 H2 H3. change (k_obj s5) with (k_obj s4). rewrite Ob4 by done. by apply O2.
  - intros c p Hin. apply Ct4 in Hin as [-> | Hin]; [auto |]. apply C2 in Hin. tauto.
Qed.

(** [settled] again behind a scheduling with the scheduler unlocked. *)
Lemma schedule_settles s :
  sched_ok s -> k_lock_nest s = 0 -> is_Some (k_current s) -> some_ready s ->
  exists s', rt_schedule s = Some (tt, s') /\ switched s s' /\ settled s'.
Proof.
  intros Hok Hn [c Hc] Hr. destruct (rt_schedule_spec s c Hok Hn Hc Hr) as (t & p & s' & E & Hh & Hc' & Hsw & _).
  exists s'. split; [done |]. split; [done |]. right. split; [by eapply switched_sched |]. exists t, p.
  split; [done |]. destruct Hsw as (? & ? & ? & ? & ->). exact Hh.
Qed.

(** A thread that was started, before the scheduling. *)
Record started (t : nat) (s s' : kstate) : Prop := {
  sd_lists : forall h, k_lists s' h =
    if decide (h = LReady (th_init_priority (k_thr s t))) then k_lists s h ++ [t] else k_lists s h;
  sd_self : k_thr s' t = set_state RT_THREAD_READY (set_th_stat RT_THREAD_SUSPEND
    (set_priority (th_init_priority (k_thr s t)) (k_thr s t)));
  sd_other : forall u, u <> t -> k_thr s' u = k_thr s u;
  sd_frame : core_frame s s';
  sd_current : k_current s' = k_current s
}.

(** What [rt_thread_startup] needs of a thread. *)
Record startable (t : nat) (s : kstate) : Prop := {
  sb_state : th_state s t = RT_THREAD_INIT;
  sb_lists : forall h, t ∉ k_lists s h;
  sb_type : rt_object_get_type (Obj t) s = RT_Object_Class_Thread;
  sb_timer : rt_object_get_type (ThreadTimer t) s = RT_Object_Class_Timer;
  sb_reg : ThreadTimer t ∈ k_cont s RT_Object_Class_Timer;
  sb_prio : 0 <= th_init_priority (k_thr s t) < 256;
  sb_stack : stack_overflow (k_thr s t) = false
}.

Lemma set_priority_ok p th : 0 <= p < 256 -> masks_ok (set_priority p th).
Proof.
  intros H. destruct (prio_split p H) as (H1 & H2 & _). unfold set_priority. rewrite (wrap_small 8 p) by lia.
  pose proof (one_range 32 (Z.shiftr p 3) ltac:(lia)) as R1. pose proof (one_range 8 (Z.land p 7) ltac:(lia)) as R2.
  split; cbn [th_current_priority th_number th_number_mask th_high_mask set_th_current_priority set_th_number
    set_th_number_mask set_th_high_mask]; [done | done | by rewrite wrap_small | by rewrite wrap_small].
Qed.

Lemma startup_spec t s :
  core_ok s -> startable t s ->
  exists s1, core_ok s1 /\ started t s s1 /\
    rt_thread_startup t s = (match k_current s with Some _ => rt_schedule | None => skip end;; mret RT_EOK) s1.
Proof.
  intros Hok [Hst Hl Hty Htt Htr Hp Hso]. pose proof Hok as [Hs Ht Hlv].
  unfold rt_thread_startup, assert_type. rewrite bind_assert_s by (by rewrite Hst).
  rewrite bind_assert_s by (by rewrite Hty). krun.
  set (p := th_init_priority (k_thr s t)) in *.
  set (s1 := alter_thr t (set_th_stat RT_THREAD_SUSPEND) _).
  assert (k_thr s1 t = set_th_stat RT_THREAD_SUSPEND (set_priority p (k_thr s t))) as E1.
  { unfold s1. rewrite !alter_thr_lookup, !(decide_True _ _ (eq_refl t)). done. }
  assert (forall u, u <> t -> k_thr s1 u = k_thr s u) as Eo.
  { intros u Hu. unfold s1. by rewrite !alter_thr_lookup, !decide_False by done. }
  assert (th_state s1 t = RT_THREAD_SUSPEND) as Hst1 by (unfold th_state; by rewrite E1).
  assert (core_ok s1) as Hok1.
  { split.
    - apply (sched_release t); [do 2 apply alter_thr_out; by apply sched_hold | by rewrite Hst1 |].
      intros _. rewrite E1. split; [by destruct (set_priority_ok p (k_thr s t) Hp) | exact Hso].
    - eapply timers_frame; try done. intros u Hu Hsu. destruct (decide (u = t)) as [-> | Hne]; [done |].
      unfold th_state. by rewrite Eo.
    - intros u Hu. destruct (decide (u = t)) as [-> | Hne]; [done |]. apply Hlv.
      unfold schedulable, th_state in *. by rewrite Eo in Hu. }
  destruct (thread_resume_spec t s1 Hok1 Hst1) as (s2 & E2 & Hok2 & Hmr).
  rewrite (run_bind _ _ _ _ _ E2). unfold rt_thread_self. krun.
  exists s2. split; [done |]. split.
  - split.
    + intros h. rewrite (mr_lists _ _ _ _ Hmr), E1. cbn [th_current_priority set_th_stat set_priority set_th_current_priority].
      rewrite (wrap_small 8 p) by lia. change (k_lists s1) with (k_lists s). by rewrite lremove_id.
    + by rewrite (mr_self _ _ _ _ Hmr), E1.
    + intros u Hu. by rewrite (mr_other _ _ _ _ Hmr), Eo.
    + eapply core_frame_trans; [| apply Hmr]. by split.
    + by rewrite (mr_current _ _ _ _ Hmr).
  - by rewrite (mr_current _ _ _ _ Hmr).
Qed.

(** The start as a whole. *)
Lemma thread_startup_spec t s :
  core_ok s -> startable t s -> k_lock_nest s = 0 -> settled s ->
  exists s1 s', rt_thread_startup t s = Some (RT_EOK, s') /\ core_ok s' /\ settled s' /\
    started t s s1 /\ switched s1 s' /\ th_state s' t = RT_THREAD_READY.
Proof.
  intros Hok Hsb Hn Hse. destruct (startup_spec t s Hok Hsb) as (s1 & Hok1 & Hsd & E).
  assert (th_state s1 t = RT_THREAD_READY) as Hst by (unfold th_state; rewrite (sd_self _ _ _ Hsd); by apply stat_set).
  exists s1. rewrite E. destruct (k_current s) as [c |] eqn:Ec.
  - destruct (schedule_settles s1) as (s' & E' & Hsw & Hse').
    + apply Hok1.
    + by rewrite (cf_lock _ _ (sd_frame _ _ _ Hsd)).
    + rewrite (sd_current _ _ _ Hsd), Ec. eauto.
    + apply (ready_some_ready _ t); [apply Hok1 | done].
    + exists s'. rewrite (run_bind _ _ _ _ _ E'). split; [done |]. split; [by eapply switched_core_ok |].
      split; [done |]. split; [done |]. split; [done |]. by destruct Hsw as (? & ? & ? & ? & ->).
  - exists s1. split; [done |]. split; [done |].
    split; [left; by rewrite (sd_current _ _ _ Hsd) |]. split; [done |]. split; [apply switched_refl | done].
Qed.

Lemma thread_fields_prio entry parameter start size prio tick th :
  th_init_priority (thread_fields exit_addr entry parameter start size prio tick th) = prio /\
  th_stat (thread_fields exit_addr entry parameter start size prio tick th) = RT_THREAD_INIT.
Proof. done. Qed.

(** The threads and objects at the addresses below [m], but [t], are as before. *)
Definition others_same (t m : nat) (s s' : kstate) : Prop := forall n, n <> t -> (n < m)%nat ->
  k_thr s' n = k_thr s n /\ k_obj s' (Obj n) = k_obj s (Obj n) /\ k_obj s' (ThreadTimer n) = k_obj s (ThreadTimer n) /\
  forall c, (Obj n ∈ k_cont s' c -> Obj n ∈ k_cont s c) /\ (ThreadTimer n ∈ k_cont s' c -> ThreadTimer n ∈ k_cont s c).

Lemma others_trans t m s1 s2 s3 : others_same t m s1 s2 -> others_same t m s2 s3 -> others_same t m s1 s3.
Proof.
  intros A B n Hn Hm. destruct (A n Hn Hm) as (A1 & A2 & A3 & A4), (B n Hn Hm) as (B1 & B2 & B3 & B4).
  split; [congruence |]. split; [congruence |]. split; [congruence |]. intros c. destruct (A4 c), (B4 c). auto.
Qed.

Lemma others_le t m k s s' : others_same t m s s' -> (k <= m)%nat -> others_same t k s s'.
Proof. intros H Hk n Hn Hm. apply H; [done | lia]. Qed.

Lemma elsewhere_others t n s s' : elsewhere n s s' -> others_same t n s s'.
Proof.
  intros (A1 & A2 & A3 & A4 & A5) m _ Hm. rewrite !A1, A3 by (congruence || lia || (intros [= E]; lia)).
  split; [done |]. split; [done |]. split; [done |].
  intros c. split; intros Hin; apply A5 in Hin as [[= E] | [[= E] |]]; lia || done.
Qed.

Lemma initialised_others t th s s' : initialised t th s s' -> others_same t (k_next s) s s'.
Proof.
  intros H n Hn Hm. rewrite (in_other _ _ _ _ H) by done.
  rewrite !(in_objs _ _ _ _ H) by (congruence || (intros [= E]; lia)).
  split; [done |]. split; [done |]. split; [done |].
  intros c. split; intros Hin; apply (in_cont _ _ _ _ H) in Hin as [[= E] | [[= E] | [[= E] |]]]; lia || congruence || done.
Qed.

Lemma unused_others t m n s s' : others_same t m s s' -> n <> t -> (n < m)%nat ->
  (forall h, k_lists s' h = k_lists s h) -> unused n s -> unused n s'.
Proof.
  intros Ho Hn Hm Hl Hu. destruct (Ho n Hn Hm) as (_ & _ & _ & Hc). eapply unused_frame; [exact Hu | exact Hl |].
  intros c p [-> | ->]; apply Hc.
Qed.

(** What [_rt_thread_init] makes can be started. *)
Lemma initialised_startable t entry parameter start size prio tick th s s' :
  initialised t (thread_fields exit_addr entry parameter start size prio tick th) s s' ->
  loose t s -> (t < k_next s)%nat -> rt_object_get_type (Obj t) s = RT_Object_Class_Thread ->
  0 <= prio < 256 -> stack_fits start size -> startable t s'.
Proof.
  intros Hin Hlo Ht Hty Hp Hst. destruct (in_self _ _ _ _ Hin) as (lk & Eth & _). split.
  - unfold th_state. by rewrite Eth.
  - intros h. rewrite (gr_lists _ _ (in_grown _ _ _ _ Hin)). apply Hlo.
  - unfold rt_object_get_type. rewrite (in_objs _ _ _ _ Hin); [done | done | intros [= E]; lia | done].
  - unfold rt_object_get_type. by rewrite (in_timer _ _ _ _ Hin).
  - exact (in_reg _ _ _ _ Hin).
  - rewrite Eth. done.
  - rewrite Eth. by apply (thread_fields_stack exit_addr entry parameter start size prio tick th).
Qed.

(** Registration of the object of a static thread at an unused address. *)
Lemma thread_register_spec t name s :
  core_ok s -> settled s -> heap_ok s -> 0 <= k_lock_nest s < 32767 -> (t < k_next s)%nat -> unused t s ->
  length (o_name (k_obj s (Obj t))) = RT_NAME_MAX -> readable RT_NAME_MAX name -> bytes name ->
  exists s1, rt_object_init (Obj t) RT_Object_Class_Thread name s = Some (tt, s1) /\
    core_ok s1 /\ settled s1 /\ heap_ok s1 /\ grown s s1 /\ loose t s1 /\ k_next s1 = k_next s /\ k_thr s1 = k_thr s /\
    k_obj s1 (Obj t) = Object (padded_name name (o_name (k_obj s (Obj t)))) 0x81 (o_flag (k_obj s (Obj t))) /\
    (forall p, p <> Obj t -> k_obj s1 p = k_obj s p) /\ Obj t ∈ k_cont s1 RT_Object_Class_Thread /\
    (forall c p, p ∈ k_cont s1 c -> p = Obj t \/ p ∈ k_cont s c).
Proof.
  intros Hok Hse Hh Hn Ht Hun Hl Hr Hb.
  destruct (rt_object_init_spec (Obj t) RT_Object_Class_Thread name s) as (s1 & E1 & Ec & Eo & Es);
    [simpl; tauto | done | done | apply (un_cont _ _ Hun) | done | done |].
  exists s1. split; [done |].
  assert (k_thr s1 = k_thr s) as Eth by by rewrite Es.
  assert (grown s s1) as Hg.
  { split; try (rewrite Es; done); try (rewrite Es; simpl; auto; done).
    intros c p Hp. rewrite Ec. unfold fupd. case_decide; [subst; by apply list_elem_of_further | done]. }
  assert (elsewhere t s s1) as He.
  { split; [intros p Hp _; by rewrite Eo, decide_False |]. split; [by rewrite Es |]. split; [by rewrite Es |].
    split; [by rewrite Es |]. intros c p. rewrite Ec. unfold fupd. case_decide; [| auto]. subst. rewrite elem_of_cons. naive_solver. }
  assert (forall c, ThreadTimer t ∉ k_cont s1 c) as Hct.
  { intros c. rewrite Ec. unfold fupd. destruct (un_cont _ _ Hun c). case_decide; [| done]. subst.
    rewrite elem_of_cons. naive_solver. }
  assert (core_ok s1) as Hok1.
  { eapply core_elsewhere; [exact Hok | by apply unused_loose | done | done | |].
    - pose proof (loose_state t s Hok (unused_loose _ _ Hun)) as H. unfold schedulable, th_state in *. by rewrite Eth.
    - intros Hty. unfold rt_object_get_type in Hty. rewrite Eo, decide_False in * by done.
      replace (k_tmr s1) with (k_tmr s) by by rewrite Es. by apply (tk_fn _ (co_timers _ _ Hok)). }
  split; [done |]. split; [eapply settled_grown; [done.. | apply Hok1] |].
  split; [eapply (heap_next t s s1); [done | rewrite Es; simpl; lia | rewrite Es; simpl; lia | apply Hg | apply He] |].
  split; [done |]. split.
  { split; [intros h; rewrite (gr_lists _ _ Hg); apply Hun | | apply Hct].
    rewrite Ec. unfold fupd. rewrite decide_False by done. apply (un_cont _ _ Hun). }
  split; [by rewrite Es |]. split; [done |]. split; [by rewrite Eo, decide_True |].
  split; [intros p Hp; by rewrite Eo, decide_False |]. split; [rewrite Ec, fupd_eq; apply list_elem_of_here |].
  intros c p. rewrite Ec. unfold fupd. case_decide; [| auto]. subst. rewrite elem_of_cons. tauto.
Qed.

(** [rt_thread_init] as a whole. *)
Lemma thread_init_spec t name entry parameter start size prio tick s :
  core_ok s -> settled s -> heap_ok s -> k_interrupt_nest s = 0 -> 0 <= k_lock_nest s < 32767 ->
  (t < k_next s)%nat -> unused t s ->
  length (o_name (k_obj s (Obj t))) = RT_NAME_MAX -> length (o_name (k_obj s (ThreadTimer t))) = RT_NAME_MAX ->
  readable RT_NAME_MAX name -> bytes name -> 0 <= prio < 256 -> stack_fits start size ->
  exists s', rt_thread_init exit_addr t name entry parameter start size prio tick s = Some (RT_EOK, s') /\
    core_ok s' /\ settled s' /\ heap_ok s' /\ grown s s' /\ startable t s' /\
    rt_object_is_systemobject (Obj t) s' = true /\ Obj t ∈ k_cont s' RT_Object_Class_Thread /\
    cname RT_NAME_MAX (o_name (k_obj s' (Obj t))) = cname RT_NAME_MAX name /\
    th_init_priority (k_thr s' t) = prio /\ th_cleanup (k_thr s' t) = None /\
    others_same t (k_next s) s s'.
Proof.
  intros Hok Hse Hh Hi Hn Ht Hun Hl1 Hl2 Hr Hb Hp Hst. pose proof Hst as (Hs0 & _).
  unfold rt_thread_init. rewrite (proj2 (Z.eqb_neq start 0)) by lia. change (negb false) with true. krun.
  destruct (thread_register_spec t name s) as (s1 & E1 & Hok1 & Hse1 & Hh1 & Hg1 & Hlo1 & En1 & Et1 & Eo1 & Ob1 & Rg1 & Ct1); [done.. |].
  rewrite (run_bind _ _ _ _ _ E1).
  destruct (_thread_init_spec t name entry parameter start size prio tick s1) as (s2 & E2 & Hin);
    try done.
  { by rewrite (gr_irq _ _ Hg1). }
  { by rewrite (gr_nest _ _ Hg1). }
  { by rewrite En1. }
  { rewrite Eo1. cbn [o_name]. by apply padded_ok. }
  { by rewrite Ob1. }
  { lia. }
  assert (startable t s2) as Hsb.
  { eapply initialised_startable; [done | done | by rewrite En1 | | done | done].
    unfold rt_object_get_type. rewrite Eo1. done. }
  assert (k_obj s2 (Obj t) = k_obj s1 (Obj t)) as Eo2.
  { apply (in_objs _ _ _ _ Hin); [done | intros [= E]; lia | done]. }
  assert (grown s s2) as Hg by (eapply grown_trans; [exact Hg1 | apply Hin]).
  destruct (in_self _ _ _ _ Hin) as (lk & Eth & _).
  exists s2. split; [done |]. split; [apply Hin |].
  split; [eapply settled_grown; [exact Hse | exact Hg | apply Hin] |]. split; [apply Hin |]. split; [done |].
  split; [done |]. split; [unfold rt_object_is_systemobject; rewrite Eo2, Eo1; done |].
  split; [by apply (in_grown _ _ _ _ Hin) |]. split; [rewrite Eo2, Eo1; apply padded_cname |].
  split; [by rewrite Eth |]. split; [by rewrite Eth |].
  apply (others_trans t _ s s1); [| rewrite <- En1; by eapply initialised_others].
  intros n Hne _. rewrite Et1, !Ob1 by congruence. split; [done |]. split; [done |]. split; [done |].
  intros c. split; intros Hc; apply Ct1 in Hc as [[=] |]; congruence || done.
Qed.

(** ** Forgetting objects *)

(** The fields of the kernel state that closing a thread leaves alone. *)
Record close_frame (s s' : kstate) : Prop := {
  cl_current : k_current s' = k_current s;
  cl_nest : k_lock_nest s' = k_lock_nest s;
  cl_irq : k_interrupt_nest s' = k_interrupt_nest s;
  cl_tick : k_tick s' = k_tick s;
  cl_ipc : k_sem s' = k_sem s /\ k_mtx s' = k_mtx s /\ k_evt s' = k_evt s /\ k_mb s' = k_mb s /\ k_mq s' = k_mq s;
  cl_heap : k_next s' = k_next s /\ k_oom s' = k_oom s
}.

Lemma close_frame_trans s1 s2 s3 : close_frame s1 s2 -> close_frame s2 s3 -> close_frame s1 s3.
Proof.
  intros [? ? ? ? (? & ? & ? & ? & ?) []] [? ? ? ? (? & ? & ? & ? & ?) []].
  split; try congruence; repeat split; congruence.
Qed.

(** The objects of a state from which [p] was detached or deleted. *)
Record forgotten (p : ptr) (s s' : kstate) : Prop := {
  fg_type : o_type (k_obj s' p) = 0;
  fg_obj : forall q, q <> p -> k_obj s' q = k_obj s q;
  fg_cont : forall c, k_cont s' c = premove p (k_cont s c)
}.

Lemma forget_types p s s' q : forgotten p s s' -> q <> p -> rt_object_get_type q s' = rt_object_get_type q s.
Proof. intros H Hq. unfold rt_object_get_type. by rewrite (fg_obj _ _ _ H). Qed.

Lemma core_close_frame s s' : core_frame s s' -> k_current s' = k_current s -> close_frame s s'.
Proof. intros [] ?. split; try done. Qed.

(** [rt_object_delete] and [rt_object_detach] forget the object. *)
Lemma object_delete_spec p s :
  rt_object_is_systemobject p s = false ->
  exists s', rt_object_delete p s = Some (tt, s') /\ forgotten p s s' /\ close_frame s s' /\
    k_thr s' = k_thr s /\ k_lists s' = k_lists s /\ k_ready_table s' = k_ready_table s /\
    k_ready_group s' = k_ready_group s /\ k_timer_list s' = k_timer_list s /\ k_soft_timer_list s' = k_soft_timer_list s /\ k_tmr s' = k_tmr s.
Proof.
  intros H. unfold rt_object_delete, container_remove. rewrite bind_assert_s by (by rewrite H). krun.
  eexists. split; [reflexivity |]. split; [| by repeat split].
  split; [simpl; by rewrite fupd_eq | intros q Hq; simpl; by rewrite fupd_ne | done].
Qed.

Lemma object_detach_spec p s :
  exists s', rt_object_detach p s = Some (tt, s') /\ forgotten p s s' /\ close_frame s s' /\
    k_thr s' = k_thr s /\ k_lists s' = k_lists s /\ k_ready_table s' = k_ready_table s /\
    k_ready_group s' = k_ready_group s /\ k_timer_list s' = k_timer_list s /\ k_soft_timer_list s' = k_soft_timer_list s /\ k_tmr s' = k_tmr s.
Proof.
  unfold rt_object_detach, container_remove. krun.
  eexists. split; [reflexivity |]. split; [| by repeat split].
  split; [simpl; by rewrite fupd_eq | intros q Hq; simpl; by rewrite fupd_ne | done].
Qed.

Lemma dyn_type p s ty : o_type (k_obj s p) = ty -> 0 <= ty < 16 ->
  rt_object_get_type p s = ty /\ rt_object_is_systemobject p s = false.
Proof.
  intros E H. unfold rt_object_get_type, rt_object_is_systemobject. rewrite E. clear E.
  assert (ty = 0 \/ ty = 1 \/ ty = 2 \/ ty = 3 \/ ty = 4 \/ ty = 5 \/ ty = 6 \/ ty = 7 \/ ty = 8 \/ ty = 9 \/
    ty = 10 \/ ty = 11 \/ ty = 12 \/ ty = 13 \/ ty = 14 \/ ty = 15) as Hc by lia.
  repeat (destruct Hc as [-> | Hc]; [done |]). by subst.
Qed.

(** ** Creation on the heap *)

Lemma allocated_loose n s s1 : heap_ok s -> n = k_next s -> allocated n RT_Object_Class_Thread s s1 -> loose n s1.
Proof.
  intros Hh -> [_ Hg _ _ _ _ _ _ Hct _]. pose proof (Hh (k_next s) ltac:(lia)) as [U1 _ U3].
  destruct (U3 RT_Object_Class_Timer). split; [intros h; by rewrite (gr_lists _ _ Hg) | by rewrite Hct, decide_False..].
Qed.

Lemma heap_set_next n s : heap_ok s -> (k_next s <= n)%nat -> heap_ok (set_k_next n s).
Proof. intros H Hn m Hm. simpl in Hm. destruct (H m) as [? ? ?]; [lia |]. by split. Qed.


(** ** Theorems *)


(** The addresses of heap blocks. *)
Variable heap_addr : nat -> Z.

(** [rt_thread_create] as a whole. *)
Lemma thread_create_spec name entry parameter size prio tick s :
  core_ok s -> settled s -> heap_ok s -> k_interrupt_nest s = 0 -> 0 <= k_lock_nest s < 32767 ->
  readable RT_NAME_MAX name -> bytes name -> 0 <= prio < 256 ->
  let n := k_next s in
  exists r s', rt_thread_create exit_addr heap_addr name entry parameter size prio tick s = Some (r, s') /\
    core_ok s' /\ heap_ok s' /\ settled s' /\ grown s s' /\ others_same n n s s' /\
    if k_oom s n then r = None /\ s' = set_k_next (S n) s
    else if k_oom s (S n) then r = None /\ o_type (k_obj s' (Obj n)) = 0 /\ forall c, k_cont s' c = k_cont s c
    else r = Some n /\ rt_object_get_type (Obj n) s' = RT_Object_Class_Thread /\
      rt_object_is_systemobject (Obj n) s' = false /\ Obj n ∈ k_cont s' RT_Object_Class_Thread /\
      th_init_priority (k_thr s' n) = prio /\ (stack_fits (heap_addr (S n)) size -> startable n s').
Proof.
  intros Hok Hse Hh Hi Hn Hr Hb Hp n. unfold rt_thread_create.
  pose proof (allocate_spec RT_Object_Class_Thread name s Hok Hh Hi ltac:(simpl; tauto) Hr Hb) as Ha. fold n in Ha.
  destruct (k_oom s n) eqn:Eo1.
  { rewrite (run_bind _ _ _ _ _ Ha). do 2 eexists. split; [reflexivity |]. split; [by apply core_set_next |].
    split; [apply heap_set_next; [done | fold n; lia] |].
    split; [eapply settled_grown; [exact Hse | apply grown_next | apply core_set_next, Hok] |].
    split; [apply grown_next |]. split; [by intros m _ _ | done]. }
  destruct Ha as (s1 & E1 & Hal). rewrite (run_bind _ _ _ _ _ E1).
  pose proof (allocated_loose n s s1 Hh eq_refl Hal) as Hlo. destruct Hal as [Hok1 Hg1 He1 Hh1 Hn1 Hty1 Hnm1 Htm1 Hct1 Hth1].
  unfold rt_malloc. krun. change (k_oom (set_k_next _ s1)) with (k_oom s1). rewrite Hn1, (gr_oom _ _ Hg1).
  set (s2 := set_k_next (S (S n)) s1).
  assert (core_ok s2) as Hok2 by (by apply core_set_next).
  assert (heap_ok s2) as Hh2 by (apply heap_set_next; [done | lia]).
  assert (grown s s2) as Hg2.
  { eapply grown_trans; [exact Hg1 |]. split; try done. simpl. rewrite Hn1. lia. }
  assert (settled s2) as Hse2 by (eapply settled_grown; [done.. | apply Hok2]).
  destruct (dyn_type (Obj n) s2 RT_Object_Class_Thread Hty1 ltac:(done)) as [Hty2 Hsys2].
  destruct (k_oom s (S n)) eqn:Eo2; krun.
  - destruct (object_delete_spec (Obj n) s2 Hsys2) as (s3 & E3 & Hfg & Hf & F1 & F2 & F3 & F4 & F5 & F6 & F7).
    rewrite (run_bind _ _ _ _ _ E3). pose proof (Hh n ltac:(done)) as Hun.
    assert (forall c, k_cont s3 c = k_cont s c) as Ec.
    { intros c. rewrite (fg_cont _ _ _ Hfg). change (k_cont s2) with (k_cont s1). rewrite Hct1.
      destruct (un_cont _ _ Hun c). case_decide; [by apply RtList.ListQ.remove_head | by apply RtList.ListQ.remove_id]. }
    assert (grown s s3) as Hg3.
    { destruct Hg2 as [? [] ? ? ? ? [] ? ? ?], Hf as [? ? ? ? ? []]. split; try (split; congruence); try congruence; try lia. }
    assert (core_ok s3) as Hok3.
    { eapply core_elsewhere; [exact Hok | apply unused_loose, Hun | exact Hg3 | | |].
      - destruct He1 as (A1 & A2 & A3 & A4 & A5). split; [intros p Hq Hq'; rewrite (fg_obj _ _ _ Hfg) by done; by apply A1 |].
        split; [intros p Hq Hq'; rewrite F7; by apply A2 |]. split; [intros u Hu; rewrite F1; by apply A3 |].
        split; [intros u Hu; rewrite (proj1 (cl_ipc _ _ Hf)); by apply A4 |].
        intros c p Hin. rewrite Ec in Hin. auto.
      - unfold schedulable, th_state. rewrite F1. change (k_thr s2 n) with (k_thr s1 n). rewrite Hth1. intros [H | H]; done.
      - unfold rt_object_get_type. rewrite (fg_obj _ _ _ Hfg) by done. change (k_obj s2) with (k_obj s1). rewrite Htm1. done. }
    do 2 eexists. split; [reflexivity |]. split; [done |]. split.
    { intros m Hm. eapply unused_frame; [apply (Hh m) | intros h; apply Hg3 | intros c p _; by rewrite Ec].
      assert (k_next s <= k_next s3)%nat by apply Hg3. lia. }
    split; [eapply settled_grown; [exact Hse | exact Hg3 | apply Hok3] |]. split; [done |].
    split.
    { intros m Hm Hlt. destruct (elsewhere_others n n s s1 He1 m Hm Hlt) as (A1 & A2 & A3 & _).
      rewrite F1, !(fg_obj _ _ _ Hfg) by congruence. split; [done |]. split; [done |]. split; [done |].
      intros c. by rewrite Ec. }
    split; [done |]. split; [apply Hfg | done].
  - destruct (_thread_init_spec n name entry parameter (heap_addr (S n)) size prio tick s2) as (s3 & E3 & Hin); try done.
    { by rewrite (gr_irq _ _ Hg2). }
    { by rewrite (gr_nest _ _ Hg2). }
    { simpl. lia. }
    { by destruct Hlo. }
    { change (k_obj s2) with (k_obj s1). by rewrite Htm1. }
    { lia. }
    rewrite (run_bind _ _ _ _ _ E3). pose proof (in_grown _ _ _ _ Hin) as Hg3.
    assert (grown s s3) as Hg by (by eapply grown_trans).
    do 2 eexists. split; [reflexivity |]. split; [apply Hin |]. split; [apply Hin |].
    split; [eapply settled_grown; [exact Hse | exact Hg | apply Hin] |]. split; [done |].
    split.
    { apply (others_trans n _ s s2); [by apply elsewhere_others |].
      eapply others_le; [by eapply initialised_others | simpl; lia]. }
    split; [done |].
    assert (k_obj s3 (Obj n) = k_obj s2 (Obj n)) as Eobj.
    { apply (in_objs _ _ _ _ Hin); [done | intros [= E]; simpl in E; lia | done]. }
    unfold rt_object_get_type, rt_object_is_systemobject in *. rewrite Eobj. split; [done |]. split; [done |]. split.
    + apply Hg3. change (k_cont s2) with (k_cont s1). rewrite Hct1, decide_True by done. apply list_elem_of_here.
    + split; [destruct (in_self _ _ _ _ Hin) as (lk & -> & _); done |]. intros Hfit. eapply initialised_startable; [exact Hin | by destruct Hlo | simpl; lia | done | done | done].
Qed.

(** C36: [rt_thread_create]: without memory for the object the call returns
    NULL and changes nothing; without memory for the stack it returns NULL and
    the object is gone again; otherwise the thread is registered with its
    priority and, with a stack of 208 bytes or more, ready to be started; in every case the
    invariant of the kernel and of the heap is kept. *)
Theorem rt_thread_create_spec name entry parameter size prio tick s :
  core_ok s -> settled s -> heap_ok s -> k_interrupt_nest s = 0 -> 0 <= k_lock_nest s < 32767 ->
  readable RT_NAME_MAX name -> bytes name -> 0 <= prio < 256 ->
  let n := k_next s in
  exists r s', rt_thread_create exit_addr heap_addr name entry parameter size prio tick s = Some (r, s') /\
    core_ok s' /\ heap_ok s' /\ settled s' /\ grown s s' /\
    if k_oom s n then r = None /\ s' = set_k_next (S n) s
    else if k_oom s (S n) then r = None /\ o_type (k_obj s' (Obj n)) = 0 /\ forall c, k_cont s' c = k_cont s c
    else r = Some n /\ rt_object_get_type (Obj n) s' = RT_Object_Class_Thread /\
      rt_object_is_systemobject (Obj n) s' = false /\ Obj n ∈ k_cont s' RT_Object_Class_Thread /\
      th_init_priority (k_thr s' n) = prio /\ (stack_fits (heap_addr (S n)) size -> startable n s').
Proof.
  intros Hok Hse Hh Hi Hn Hr Hb Hp n.
  destruct (thread_create_spec name entry parameter size prio tick s) as (r & s' & E & H1 & H2 & H3 & H4 & _ & H5); try done.
  exists r, s'. done.
Qed.

End specs.
(** ** Witnesses *)

Lemma example_unused n : (16 <= n)%nat -> unused n example.
Proof.
  intros Hn. split.
  - intros h. simpl. unfold fupd. repeat (case_decide; subst; simpl); unfold push_back; cbn [app]; rewrite ?elem_of_cons, ?elem_of_nil; lia.
  - simpl. unfold fupd. repeat (case_decide; subst; simpl); done.
  - intros c. simpl. unfold example_cont. repeat case_match; cbn [map]; split;
      rewrite ?elem_of_cons, ?elem_of_nil; intros Hin; repeat (destruct Hin as [[= Hin] | Hin]; [lia |]); try (by destruct Hin as [[=]|]); naive_solver lia.
Qed.

Lemma example_heap : heap_ok example.
Proof. intros n Hn. apply example_unused. change (k_next example) with 100%nat in Hn. lia. Qed.


Lemma rt_thread_create_spec_witness :
  exists r s', rt_thread_create 0x8000 (fun n => 0x10000 + Z.of_nat n) [109; 0] 0x4000 0 1024 9 10 example = Some (r, s') /\
    core_ok s' /\ heap_ok s' /\ settled s' /\ grown example s' /\
    r = Some 100%nat /\ rt_object_get_type (Obj 100) s' = RT_Object_Class_Thread /\
    rt_object_is_systemobject (Obj 100) s' = false /\ Obj 100 ∈ k_cont s' RT_Object_Class_Thread /\
    th_init_priority (k_thr s' 100%nat) = 9 /\ (stack_fits 0x10065 1024 -> startable 100 s').
Proof.
  apply (rt_thread_create_spec 0x8000 (fun n => 0x10000 + Z.of_nat n) [109; 0] 0x4000 0 1024 9 10 example).
  - apply example_core.
  - apply example_settled.
  - apply example_heap.
  - reflexivity.
  - change (k_lock_nest example) with 0. lia.
  - right. apply list_elem_of_further, list_elem_of_here.
  - repeat constructor; lia.
  - lia.
Defined.

End ThreadLife.
