(* ===== verification/ThreadEnd.v ===== *)
(** * Threads, part 3: the end of a thread

    Exit, detachment and deletion of threads ([src/kernel/src/thread.c]), the
    queue of defunct threads, which the idle thread empties, and the idle
    hooks ([src/kernel/src/idle.c]). *)

From S2P Require Import Prelude KernelTypes Kservice RtList Scheduler Object Timer Thread TimerRun IpcList Sem ThreadLife.
Import Kservice Scheduler KObject Timer Thread TimerRun IpcList Sem ThreadLife.

Local Open Scope Z_scope.

Module ThreadEnd.

Section life.
(** The cleanup functions of the application. *)
Variable user_cleanup : Z -> nat -> K unit.

(** ** The end of a thread *)

Definition rt_thread_defunct_enqueue (t : nat) : K unit := modify (alter_list LDefunct (cons t)).

Definition rt_thread_defunct_dequeue : K (option nat) :=
  q ← gets (fun s => k_lists s LDefunct);
  match q with
  | [] => mret None
  | t :: _ => tlist_remove t;; mret (Some t)
  end.

Definition _thread_cleanup_execute (t : nat) : K unit :=
  cleanup ← gets (fun s => th_cleanup (k_thr s t));
  match cleanup with Some f => user_cleanup f t | None => skip end.

(** The blocks under [RT_USING_THREAD_LOCK]. *)
Definition thread_lock_delete (t : nat) : K unit :=
  para ← gets (fun s => th_lock (k_thr s t));
  modify (alter_thr t (set_th_lock None));;
  match para with Some n => _ ← rt_sem_delete n; skip | None => skip end.

(** The condition that ends [rt_thread_exit] and [rt_thread_detach]. *)
Definition thread_retire (t : nat) : K unit :=
  static ← gets (rt_object_is_systemobject (Obj t));
  cleanup ← gets (fun s => th_cleanup (k_thr s t));
  match cleanup with
  | None => if static : bool then rt_object_detach (Obj t) else rt_thread_defunct_enqueue t
  | Some _ => rt_thread_defunct_enqueue t
  end.

(** The steps of [rt_thread_exit] inside the critical section. *)
Definition thread_exit_close (t : nat) : K unit :=
  _thread_cleanup_execute t;;
  rt_schedule_remove_thread t;;
  modify (alter_thr t (set_th_stat RT_THREAD_CLOSE));;
  _ ← rt_timer_detach (ThreadTimer t);
  thread_retire t.

(** The last call is not reached when [rt_exit_critical] switches away. *)
Definition rt_thread_exit : K unit :=
  self ← rt_thread_self;
  t ← lift self;
  thread_lock_delete t;;
  rt_enter_critical;;
  thread_exit_close t;;
  rt_exit_critical;;
  self ← rt_thread_self;
  if decide (self = Some t) then rt_schedule else skip.

(** The steps [rt_thread_detach] and [rt_thread_delete] share. *)
Definition thread_close (t : nat) : K unit :=
  stat ← gets (fun s => th_state s t);
  (if negb (stat =? RT_THREAD_INIT) then rt_schedule_remove_thread t else skip);;
  _thread_cleanup_execute t;;
  _ ← rt_timer_detach (ThreadTimer t);
  thread_lock_delete t;;
  modify (alter_thr t (set_th_stat RT_THREAD_CLOSE)).

Definition rt_thread_detach (t : nat) : K Z :=
  assert_type (Obj t) RT_Object_Class_Thread;;
  assert_s (rt_object_is_systemobject (Obj t));;
  stat ← gets (fun s => th_state s t);
  if stat =? RT_THREAD_CLOSE then mret RT_EOK
  else thread_close t;; thread_retire t;; mret RT_EOK.

Definition rt_thread_delete (t : nat) : K Z :=
  assert_type (Obj t) RT_Object_Class_Thread;;
  assert_s (fun s => negb (rt_object_is_systemobject (Obj t) s));;
  stat ← gets (fun s => th_state s t);
  if stat =? RT_THREAD_CLOSE then mret RT_EOK
  else thread_close t;; rt_thread_defunct_enqueue t;; mret RT_EOK.

Inductive thread_cmd :=
  | RT_THREAD_CTRL_STARTUP
  | RT_THREAD_CTRL_CLOSE
  | RT_THREAD_CTRL_CHANGE_PRIORITY (prio : Z)
  | RT_THREAD_CTRL_OTHER.

Definition rt_thread_control (t : nat) (cmd : thread_cmd) : K Z :=
  assert_type (Obj t) RT_Object_Class_Thread;;
  match cmd with
  | RT_THREAD_CTRL_CHANGE_PRIORITY prio => thread_change_priority t prio;; mret RT_EOK
  | RT_THREAD_CTRL_STARTUP => rt_thread_startup t
  | RT_THREAD_CTRL_CLOSE =>
      static ← gets (rt_object_is_systemobject (Obj t));
      rt_err ← (if static : bool then rt_thread_detach t else rt_thread_delete t);
      rt_schedule;;
      mret rt_err
  | RT_THREAD_CTRL_OTHER => mret RT_EOK
  end.

(** ** The idle thread *)

Definition RT_IDEL_HOOK_LIST_SIZE : nat := 4.
Definition RT_ENOSYS : Z := 6.

(** One iteration of the loop: whether there is another. *)
Definition rt_defunct_execute_step : K bool :=
  RT_DEBUG_NOT_IN_INTERRUPT;;
  thread ← rt_thread_defunct_dequeue;
  match thread with
  | None => mret false
  | Some t =>
      _thread_cleanup_execute t;;
      static ← gets (rt_object_is_systemobject (Obj t));
      if static : bool then
        rt_object_detach (Obj t);;
        rt_exit_critical;;
        mret false
      else rt_object_delete (Obj t);; mret true
  end.

Fixpoint rt_defunct_execute (fuel : nat) : K unit :=
  match fuel with
  | O => fail
  | S fuel => more ← rt_defunct_execute_step; if more : bool then rt_defunct_execute fuel else skip
  end.

(** [idle_hook_list], one hook per slot; hooks take and return the list, which
    they may change. *)
Variable user_hook : Z -> list (option Z) -> K (list (option Z)).

Fixpoint call_hooks (n i : nat) (hooks : list (option Z)) : K (list (option Z)) :=
  match n with
  | O => mret hooks
  | S n =>
      hook ← lift (hooks !! i);
      hooks ← (match hook with Some f => user_hook f hooks | None => mret hooks end);
      call_hooks n (S i) hooks
  end.

(** One round of the loop of [rt_thread_idle_entry], up to [rt_hw_cpu_go_idle]. *)
Definition rt_thread_idle_round (fuel : nat) (hooks : list (option Z)) : K (list (option Z)) :=
  hooks ← call_hooks RT_IDEL_HOOK_LIST_SIZE 0 hooks;
  rt_defunct_execute fuel;;
  mret hooks.

End life.

(** The result and the list after [rt_thread_idle_sethook] and
    [rt_thread_idle_delhook]; a NULL hook is [None]. *)
Fixpoint rt_thread_idle_sethook (hook : option Z) (hooks : list (option Z)) : Z * list (option Z) :=
  match hooks with
  | [] => (- RT_EFULL, [])
  | None :: hooks => (RT_EOK, hook :: hooks)
  | Some f :: hooks => let '(r, hooks) := rt_thread_idle_sethook hook hooks in (r, Some f :: hooks)
  end.

Fixpoint rt_thread_idle_delhook (hook : option Z) (hooks : list (option Z)) : Z * list (option Z) :=
  match hooks with
  | [] => (- RT_ENOSYS, [])
  | h :: hooks =>
      if decide (h = hook) then (RT_EOK, None :: hooks)
      else let '(r, hooks) := rt_thread_idle_delhook hook hooks in (r, h :: hooks)
  end.

Section specs.
Variable user_cleanup : Z -> nat -> K unit.

(** ** The end of a thread *)

(** Consistency in the middle of closing thread [t]. *)
Record closing (t : nat) (s : kstate) : Prop := {
  cg_sched : sched_ok_but (Some t) s;
  cg_timers : timers_ok s;
  cg_live : forall u, u <> t -> schedulable s u ->
    rt_object_get_type (Obj u) s = RT_Object_Class_Thread /\
    rt_object_get_type (ThreadTimer u) s = RT_Object_Class_Timer /\
    ThreadTimer u ∈ k_cont s RT_Object_Class_Timer
}.

Lemma closing_alter t f s : closing t s -> ThreadTimer t ∉ hard s -> closing t (alter_thr t f s).
Proof.
  intros [Hs Ht Hl] Hno. split; [by apply alter_thr_out | |].
  - eapply timers_frame; try done. intros u Hu Hst. rewrite state_alter_ne; [done | by intros ->].
  - intros u Hu Hsu. apply Hl; [done |]. unfold schedulable in *. by rewrite state_alter_ne in Hsu.
Qed.

Lemma closing_lock t f s : sched_same f -> closing t s -> closing t (alter_thr t f s).
Proof.
  intros Hf [Hs Ht Hl]. destruct (Hf (k_thr s t)) as (E & _).
  assert (forall u, th_state (alter_thr t f s) u = th_state s u) as Est.
  { intros u. unfold th_state. rewrite alter_thr_lookup. case_decide; subst; congruence. }
  split; [by apply alter_thr_out | |].
  - eapply timers_frame; try done. intros u _. by rewrite Est.
  - intros u Hu. unfold schedulable. rewrite Est. by apply Hl.
Qed.

(** Taking the thread out of its list. *)
Lemma close_unlink t s :
  core_ok s -> schedulable s t ->
  exists s', rt_schedule_remove_thread t s = Some (tt, s') /\ closing t s' /\
    (forall h, k_lists s' h = lremove t (k_lists s h)) /\ close_frame s s' /\
    k_thr s' = k_thr s /\ k_obj s' = k_obj s /\ k_cont s' = k_cont s /\ k_timer_list s' = k_timer_list s.
Proof.
  intros [Hs Ht Hl] Hsc. pose proof (th_masks _ _ (proj1 Hs) t ltac:(done) Hsc) as Hm.
  destruct (remove_thread_spec t s Hs Hm) as (T & G & E & Hok). cbv zeta in *.
  eexists. split; [exact E |]. split; [| by repeat split].
  split; [done | by eapply timers_frame | intros u _; apply Hl].
Qed.

Lemma close_unlinked t s : core_ok s -> (forall h, t ∉ k_lists s h) -> closing t s.
Proof. intros [Hs Ht Hl] Hno. split; [by apply sched_hold | done | intros u _; apply Hl]. Qed.

(** An object that is not a running timer can be forgotten; a thread timer is
    none of the timers any more. *)
Lemma timers_forget p s s' :
  timers_ok s -> forgotten p s s' -> p ∉ hard s -> p ∉ soft s ->
  k_timer_list s' = k_timer_list s -> k_soft_timer_list s' = k_soft_timer_list s -> k_tmr s' = k_tmr s ->
  k_thr s' = k_thr s -> timers_ok s'.
Proof.
  intros [Hh Hs Hnd Hreg Hth Hac Hns Hfn] Hf Hp1 Hp2 E1 E2 E3 E4.
  assert (hard s' = hard s) as Eh by (unfold hard; by rewrite E1).
  assert (soft s' = soft s) as Es by (unfold soft; by rewrite E2).
  split; rewrite ?E1, ?E2, ?Eh, ?Es, ?E3; try done.
  - intros q Hq. assert (q <> p) as Hne by (intros ->; tauto). destruct (Hreg q Hq) as [H1 H2].
    rewrite (fg_cont _ _ _ Hf), RtList.ListQ.elem_remove, (forget_types _ _ _ _ Hf Hne). done.
  - intros u Hu. unfold th_state. rewrite E4. by apply Hth.
  - intros u Hu. unfold timer_active. rewrite (fg_obj _ _ _ Hf); [by apply Hac | by intros <-].
  - intros u Hu. destruct (decide (ThreadTimer u = p)) as [<- | Hne].
    + unfold rt_object_get_type in Hu. rewrite (fg_type _ _ _ Hf) in Hu. done.
    + rewrite (fg_obj _ _ _ Hf) by done. apply Hfn. by rewrite <- (forget_types _ _ _ _ Hf Hne).
Qed.

(** Detaching the timer of a thread. *)
Lemma timer_detach_spec t s :
  timers_ok s -> rt_object_get_type (ThreadTimer t) s = RT_Object_Class_Timer ->
  rt_object_is_systemobject (ThreadTimer t) s = true ->
  exists s', rt_timer_detach (ThreadTimer t) s = Some (RT_EOK, s') /\ timers_ok s' /\ close_frame s s' /\
    forgotten (ThreadTimer t) s s' /\ hard s' = premove (ThreadTimer t) (hard s) /\
    k_thr s' = k_thr s /\ k_lists s' = k_lists s /\ k_ready_table s' = k_ready_table s /\ k_ready_group s' = k_ready_group s.
Proof.
  intros Hok Ht Hsys. unfold rt_timer_detach, assert_type. krun. rewrite Ht. cbn [Z.eqb RT_Object_Class_Timer].
  rewrite bind_assert_s by (by rewrite Ht). rewrite bind_assert_s by done.
  unfold _rt_timer_remove, timer_flag_clear, rt_object_detach, container_remove. krun.
  set (s1 := timer_unlinked (ThreadTimer t) s).
  eexists. split; [reflexivity |]. set (s' := set_k_cont _ _).
  assert (forgotten (ThreadTimer t) s s') as Hf.
  { split; [simpl; by rewrite fupd_eq | | done]. intros q Hq. simpl. by rewrite !fupd_ne. }
  pose proof (timers_unlinked (ThreadTimer t) s Hok) as H1. fold s1 in H1.
  split; [| split; [done |]; split; [done |]; split; [apply concat_premove | done]].
  eapply (timers_forget (ThreadTimer t) s1); [done | | | | done..].
  - split; [apply Hf | | done]. intros q Hq. simpl. by rewrite !fupd_ne.
  - unfold s1. rewrite hard_unlinked, RtList.ListQ.elem_remove. tauto.
  - unfold s1. rewrite soft_unlinked, RtList.ListQ.elem_remove. tauto.
Qed.

Lemma closing_forget t p s s' :
  closing t s -> timers_ok s' -> forgotten p s s' -> close_frame s s' -> k_thr s' = k_thr s -> k_lists s' = k_lists s ->
  k_ready_table s' = k_ready_table s -> k_ready_group s' = k_ready_group s ->
  (forall u, u <> t -> schedulable s u -> p <> Obj u /\ p <> ThreadTimer u) -> closing t s'.
Proof.
  intros [Hs _ Hl] Ht Hf _ E1 E2 E3 E4 Hp. split; [by eapply sched_frame | done |].
  intros u Hu Hsu. assert (schedulable s u) as Hsu0 by (unfold schedulable, th_state in *; by rewrite <- E1).
  destruct (Hp u Hu Hsu0), (Hl u Hu Hsu0) as (H1 & H2 & H3).
  rewrite !(forget_types _ _ _ _ Hf), (fg_cont _ _ _ Hf), RtList.ListQ.elem_remove by done. auto.
Qed.

(** An object that is neither a thread nor a timer may be forgotten. *)
Lemma closing_forget_obj t n s s' :
  closing t s -> forgotten (Obj n) s s' -> close_frame s s' -> k_thr s' = k_thr s -> k_lists s' = k_lists s ->
  k_ready_table s' = k_ready_table s -> k_ready_group s' = k_ready_group s ->
  k_timer_list s' = k_timer_list s -> k_soft_timer_list s' = k_soft_timer_list s -> k_tmr s' = k_tmr s ->
  (n = t \/ rt_object_get_type (Obj n) s <> RT_Object_Class_Thread) ->
  rt_object_get_type (Obj n) s <> RT_Object_Class_Timer -> closing t s'.
Proof.
  intros Hcg Hf Hcf E1 E2 E3 E4 E5 E6 E7 Hn Hty. eapply closing_forget; eauto.
  - pose proof (tk_reg _ (cg_timers _ _ Hcg) (Obj n)) as Hr.
    eapply timers_forget; [apply Hcg | exact Hf | | | done | done | done | done]; intros Hin; apply Hty, Hr; auto.
  - intros u Hu Hsu. split; [intros [= ->] | done]. destruct Hn as [-> | Hn]; [done |].
    by apply Hn, (cg_live _ _ Hcg).
Qed.

(** The semaphore a thread owns: its lock. *)
Definition lock_ok (t : nat) (s : kstate) : Prop := forall n, th_lock (k_thr s t) = Some n ->
  o_type (k_obj s (Obj n)) = RT_Object_Class_Semaphore.

(** The blocks that delete the lock of the thread, when nobody waits for it. *)
Lemma lock_delete_quiet t s :
  closing t s -> lock_ok t s -> k_interrupt_nest s = 0 ->
  (forall n, th_lock (k_thr s t) = Some n -> k_lists s (LSuspend n) = []) ->
  exists s', thread_lock_delete t s = Some (tt, s') /\ closing t s' /\ close_frame s s' /\
    k_thr s' t = set_th_lock None (k_thr s t) /\ (forall u, u <> t -> k_thr s' u = k_thr s u) /\
    k_lists s' = k_lists s /\ k_timer_list s' = k_timer_list s /\
    match th_lock (k_thr s t) with
    | Some n => forgotten (Obj n) s s'
    | None => k_obj s' = k_obj s /\ k_cont s' = k_cont s
    end.
Proof.
  intros Hcg Hlk Hi Hq. unfold thread_lock_delete. krun.
  set (s1 := alter_thr t (set_th_lock None) s).
  assert (closing t s1) as Hcg1 by (apply closing_lock; [by intros [] | done]).
  assert (k_thr s1 t = set_th_lock None (k_thr s t)) as Et by (unfold s1; by rewrite alter_thr_lookup, decide_True).
  assert (forall u, u <> t -> k_thr s1 u = k_thr s u) as Eo by (intros u Hu; unfold s1; by rewrite alter_thr_lookup, decide_False).
  destruct (th_lock (k_thr s t)) as [n |] eqn:El.
  - destruct (dyn_type (Obj n) s1 _ (Hlk n El) ltac:(done)) as [Hty Hsys].
    unfold rt_sem_delete, RT_DEBUG_NOT_IN_INTERRUPT, assert_type.
    rewrite bind_assoc. rewrite bind_assert_s by (change (k_interrupt_nest s1) with (k_interrupt_nest s); by rewrite Hi).
    rewrite bind_assoc. rewrite bind_assert_s by (by rewrite Hty). rewrite bind_assoc.
    rewrite bind_assert_s by (by rewrite Hsys). unfold rt_ipc_list_resume_all. krun.
    change (k_lists s1) with (k_lists s). rewrite (Hq n eq_refl). cbn [length resume_all_loop]. krun.
    change (k_lists s1) with (k_lists s). rewrite (Hq n eq_refl). krun.
    destruct (object_delete_spec (Obj n) s1 Hsys) as (s2 & E2 & Hf & Hcf & E3 & E4 & E5 & E6 & E7 & E8 & E9).
    rewrite (run_bind _ _ _ _ _ E2). krun. exists s2. split; [done |]. split.
    { eapply closing_forget_obj; eauto; [right |]; rewrite Hty; done. }
    split; [by destruct Hcf |]. rewrite E3, E4. split; [done |]. split; [done |]. split; [done |]. split; [by rewrite E7 |].
    destruct Hf. by split.
  - exists s1. split; [done |]. split; [done |]. split; [by split |]. split; [exact Et |]. split; [exact Eo | done].
Qed.

(** With waiting threads, on a consistent state: they are resumed with an error. *)
Lemma lock_delete_spec t s :
  core_ok s -> lock_ok t s -> k_interrupt_nest s = 0 -> th_state s t = RT_THREAD_READY ->
  let waiting := match th_lock (k_thr s t) with Some n => k_lists s (LSuspend n) | None => [] end in
  exists s', thread_lock_delete t s = Some (tt, s') /\ core_ok s' /\ close_frame s s' /\
    k_thr s' t = set_th_lock None (k_thr s t) /\
    (forall u, u <> t -> k_thr s' u = if decide (u ∈ waiting)
       then set_state RT_THREAD_READY (set_th_error RT_ERROR (k_thr s u)) else k_thr s u) /\
    (forall p, k_lists s' (LReady p)
       = k_lists s (LReady p) ++ filter (fun u => current_priorities s u = p) waiting) /\
    (forall k, (forall p, k <> LReady p) -> k_lists s' k =
       if decide (Some k = LSuspend <$> th_lock (k_thr s t)) then [] else k_lists s k) /\
    match th_lock (k_thr s t) with
    | Some n => o_type (k_obj s' (Obj n)) = 0 /\ (forall c, Obj n ∉ k_cont s' c) /\
        (forall p, p <> Obj n -> o_type (k_obj s' p) = o_type (k_obj s p)) /\
        (forall p c, p <> Obj n -> p ∈ k_cont s' c <-> p ∈ k_cont s c)
    | None => k_obj s' = k_obj s /\ k_cont s' = k_cont s
    end.
Proof.
  intros Hok Hlk Hi Hst. unfold thread_lock_delete. krun.
  set (s1 := alter_thr t (set_th_lock None) s).
  assert (core_ok s1) as Hok1 by (apply core_alter_same; [by intros [] | done]).
  assert (forall u, k_thr s1 u = if decide (u = t) then set_th_lock None (k_thr s t) else k_thr s u) as Eu by done.
  destruct (th_lock (k_thr s t)) as [n |] eqn:El.
  - destruct (dyn_type (Obj n) s1 _ (Hlk n El) ltac:(done)) as [Hty Hsys].
    unfold rt_sem_delete, RT_DEBUG_NOT_IN_INTERRUPT, assert_type.
    rewrite bind_assoc. rewrite bind_assert_s by (change (k_interrupt_nest s1) with (k_interrupt_nest s); by rewrite Hi).
    rewrite bind_assoc. rewrite bind_assert_s by (by rewrite Hty). rewrite bind_assoc.
    rewrite bind_assert_s by (by rewrite Hsys). rewrite bind_assoc.
    destruct (ipc_list_resume_all_spec (LSuspend n) s1 Hok1 I) as (s2 & E2 & Hok2 & Hra).
    rewrite (run_bind _ _ _ _ _ E2). krun.
    assert (forall p, o_type (k_obj s2 p) = o_type (k_obj s p)) as Eot by apply (cf_type _ _ (ra_frame _ _ _ Hra)).
    destruct (object_delete_spec (Obj n) s2) as (s3 & E3 & Hf & Hcf & F3 & F4 & F5 & F6 & F7 & F8 & F9).
    { unfold rt_object_is_systemobject in *. by rewrite Eot. }
    rewrite (run_bind _ _ _ _ _ E3). krun. exists s3. split; [done |].
    assert (t ∉ k_lists s (LSuspend n)) as Htw.
    { intros Hin. apply (wait_head_state s (LSuspend n)) in Hin; [| done | done]. rewrite Hst in Hin. done. }
    split.
    { destruct Hok2 as [H1 H2 H3]. assert (rt_object_get_type (Obj n) s2 = RT_Object_Class_Semaphore) as Hty2.
      { unfold rt_object_get_type in *. by rewrite Eot. }
      split; [by eapply sched_frame | |].
      - eapply timers_forget; [exact H2 | exact Hf | | | done..];
          intros Hin; destruct (tk_reg _ H2 (Obj n)) as [_ Hty3]; auto; rewrite Hty2 in Hty3; done.
      - intros u Hu. assert (schedulable s2 u) as Hu2 by (unfold schedulable, th_state in *; by rewrite <- F3).
        destruct (H3 u Hu2) as (G1 & G2 & G3). assert (Obj u <> Obj n) as Hne by (intros [= ->]; rewrite Hty2 in G1; done).
        rewrite !(forget_types _ _ _ _ Hf), (fg_cont _ _ _ Hf), RtList.ListQ.elem_remove by done. done. }
    split; [eapply close_frame_trans; [| exact Hcf]; apply core_close_frame; [by destruct (ra_frame _ _ _ Hra) | by rewrite (ra_current _ _ _ Hra)] |].
    assert (k_lists s1 = k_lists s) as El1 by done.
    split; [| split; [| split; [| split]]].
    + rewrite F3, (ra_thr _ _ _ Hra), El1, decide_False by done. by rewrite Eu, decide_True.
    + intros u Hu. rewrite F3, (ra_thr _ _ _ Hra), El1, Eu, (decide_False _ _ Hu). done.
    + intros p. rewrite F4, (ra_ready _ _ _ Hra), El1. f_equal. apply list_filter_iff. intros u.
      unfold current_priorities. rewrite Eu. case_decide; [by subst | done].
    + intros k Hk. rewrite F4. case_decide as Hd.
      * injection Hd as ->. apply Hra.
      * rewrite (ra_lists _ _ _ Hra); [done | intros ->; by apply Hd | done].
    + split; [apply Hf |]. split; [intros c; rewrite (fg_cont _ _ _ Hf), RtList.ListQ.elem_remove; tauto |].
      split; [intros p Hp; by rewrite (fg_obj _ _ _ Hf), Eot |].
      intros p c Hp. rewrite (fg_cont _ _ _ Hf), RtList.ListQ.elem_remove, (cf_cont _ _ (ra_frame _ _ _ Hra)). naive_solver.
  - exists s1. split; [done |]. split; [done |]. split; [by split |]. split; [by rewrite Eu, decide_True |].
    split; [intros u Hu; by rewrite Eu, decide_False |]. split; [intros p; by rewrite app_nil_r |].
    split; [intros k _; by rewrite decide_False | done].
Qed.

(** Cleanup functions of the application that leave the kernel alone. *)
Definition cleanup_ok (t : nat) (s : kstate) : Prop := forall f, th_cleanup (k_thr s t) = Some f ->
  forall s, user_cleanup f t s = Some (tt, s).

Lemma cleanup_run t s0 s : cleanup_ok t s0 -> th_cleanup (k_thr s t) = th_cleanup (k_thr s0 t) ->
  _thread_cleanup_execute user_cleanup t s = Some (tt, s).
Proof.
  intros H E. unfold _thread_cleanup_execute. krun. rewrite E.
  destruct (th_cleanup (k_thr s0 t)) as [f |] eqn:Ef; [by apply H | done].
Qed.

(** The thread has its own timer object, and its lock is a semaphore. *)
Record closable (t : nat) (s : kstate) : Prop := {
  ca_type : rt_object_get_type (Obj t) s = RT_Object_Class_Thread;
  ca_timer : o_type (k_obj s (ThreadTimer t)) = Z.lor RT_Object_Class_Timer RT_Object_Class_Static;
  ca_lock : lock_ok t s;
  ca_cleanup : cleanup_ok t s
}.

(** What closing a thread does to the objects: its timer and its lock are gone. *)
Record objects_closed (t : nat) (s s' : kstate) : Prop := {
  oc_timer : o_type (k_obj s' (ThreadTimer t)) = 0 /\ forall c, ThreadTimer t ∉ k_cont s' c;
  oc_lock : forall n, th_lock (k_thr s t) = Some n ->
    o_type (k_obj s' (Obj n)) = 0 /\ forall c, Obj n ∉ k_cont s' c;
  oc_other : forall p, p <> ThreadTimer t -> Some p <> Obj <$> th_lock (k_thr s t) ->
    o_type (k_obj s' p) = o_type (k_obj s p) /\ forall c, p ∈ k_cont s' c <-> p ∈ k_cont s c
}.

(** A thread that was closed, before it is unregistered or queued. *)
Record closed (t : nat) (s s' : kstate) : Prop := {
  cd_closing : closing t s';
  cd_state : th_state s' t = RT_THREAD_CLOSE;
  cd_cleanup : th_cleanup (k_thr s' t) = th_cleanup (k_thr s t);
  cd_lists : forall h, k_lists s' h = lremove t (k_lists s h);
  cd_other : forall u, u <> t -> k_thr s' u = k_thr s u;
  cd_frame : close_frame s s';
  cd_objs : objects_closed t s s'
}.

Lemma closable_lock_ne t n s : closable t s -> th_lock (k_thr s t) = Some n -> n <> t.
Proof.
  intros H Hn ->. destruct (dyn_type _ _ _ (ca_lock _ _ H t Hn) ltac:(done)) as [Hty _].
  rewrite (ca_type _ _ H) in Hty. done.
Qed.

Lemma closable_timer t s : closable t s ->
  rt_object_get_type (ThreadTimer t) s = RT_Object_Class_Timer /\ rt_object_is_systemobject (ThreadTimer t) s = true.
Proof. intros H. unfold rt_object_get_type, rt_object_is_systemobject. by rewrite (ca_timer _ _ H). Qed.

(** [thread_close] on a thread nobody waits for. *)
Lemma thread_close_spec t s :
  core_ok s -> closable t s -> k_interrupt_nest s = 0 ->
  (th_state s t = RT_THREAD_INIT /\ (forall h, t ∉ k_lists s h) \/ schedulable s t) ->
  (forall n, th_lock (k_thr s t) = Some n -> k_lists s (LSuspend n) = []) ->
  exists s', thread_close user_cleanup t s = Some (tt, s') /\ closed t s s'.
Proof.
  intros Hok Hca Hi Hst Hq. unfold thread_close. krun.
  assert (exists s1, (if negb (th_state s t =? RT_THREAD_INIT) then rt_schedule_remove_thread t else skip) s = Some (tt, s1) /\
    closing t s1 /\ (forall h, k_lists s1 h = lremove t (k_lists s h)) /\ close_frame s s1 /\
    k_thr s1 = k_thr s /\ k_obj s1 = k_obj s /\ k_cont s1 = k_cont s) as (s1 & E1 & Hc1 & Hl1 & Hf1 & Et1 & Eo1 & Ec1).
  { destruct Hst as [[-> Hno] | Hsc].
    - exists s. split; [done |]. split; [by apply close_unlinked |]. split; [intros h; by rewrite lremove_id |]. by split.
    - destruct (close_unlink t s Hok Hsc) as (s1 & E & Hc & Hl & Hf & H1 & H2 & H3 & _). exists s1.
      split; [by destruct Hsc as [-> | ->] |]. done. }
  rewrite (run_bind _ _ _ _ _ E1).
  rewrite (run_bind _ _ _ _ _ (cleanup_run t s s1 (ca_cleanup _ _ Hca) ltac:(by rewrite Et1))).
  destruct (closable_timer t s Hca) as [Hty Hsys].
  destruct (timer_detach_spec t s1) as (s2 & E2 & Ht2 & Hf2 & Hfg2 & Eh2 & Et2 & El2 & Er2 & Eg2);
    [apply Hc1 | unfold rt_object_get_type in *; by rewrite Eo1 | unfold rt_object_is_systemobject in *; by rewrite Eo1 |].
  rewrite (run_bind _ _ _ _ _ E2).
  assert (closing t s2) as Hc2.
  { eapply closing_forget; [exact Hc1 | done | exact Hfg2 | done..|]. intros u Hu _. split; [done | by intros [= ->]]. }
  destruct (lock_delete_quiet t s2) as (s3 & E3 & Hc3 & Hf3 & Eq3 & Et3 & El3 & Eh3 & Hfg3); [done | | | |].
  { intros n Hn. rewrite Et2, Et1 in Hn. rewrite (fg_obj _ _ _ Hfg2), Eo1 by done. by apply (ca_lock _ _ Hca). }
  { by rewrite (cl_irq _ _ Hf2), (cl_irq _ _ Hf1). }
  { intros n Hn. rewrite Et2, Et1 in Hn. by rewrite El2, Hl1, (Hq n Hn). }
  rewrite (run_bind _ _ _ _ _ E3). unfold modify. eexists. split; [reflexivity |].
  set (s4 := alter_thr t (set_th_stat RT_THREAD_CLOSE) s3).
  rewrite Et2, Et1 in Hfg3, Eq3.
  split.
  - apply closing_alter; [done |]. unfold hard. rewrite Eh3. fold (hard s2). rewrite Eh2, RtList.ListQ.elem_remove. tauto.
  - unfold th_state, s4. rewrite alter_thr_lookup, decide_True by done. done.
  - unfold s4. rewrite alter_thr_lookup, decide_True, Eq3 by done. done.
  - intros h. change (k_lists s4 h) with (k_lists s3 h). by rewrite El3, El2, Hl1.
  - intros u Hu. unfold s4. by rewrite alter_thr_lookup, decide_False, Et3, Et2, Et1.
  - eapply close_frame_trans; [exact Hf1 |]. eapply close_frame_trans; [exact Hf2 |]. by destruct Hf3.
  - assert (forall p, p <> ThreadTimer t -> k_obj s2 p = k_obj s p) as Eo2 by (intros p Hp; by rewrite (fg_obj _ _ _ Hfg2), Eo1).
    assert (forall c, k_cont s2 c = premove (ThreadTimer t) (k_cont s c)) as Ec2 by (intros c; by rewrite (fg_cont _ _ _ Hfg2), Ec1).
    split; change (k_obj s4) with (k_obj s3); change (k_cont s4) with (k_cont s3).
    + destruct (th_lock (k_thr s t)) as [n |]; [| destruct Hfg3 as [-> ->]].
      * rewrite (fg_obj _ _ _ Hfg3) by done. split; [apply Hfg2 |]. intros c.
        rewrite (fg_cont _ _ _ Hfg3), RtList.ListQ.elem_remove, Ec2, RtList.ListQ.elem_remove. tauto.
      * split; [apply Hfg2 |]. intros c. rewrite Ec2, RtList.ListQ.elem_remove. tauto.
    + intros n Hn. rewrite Hn in Hfg3. split; [apply Hfg3 |]. intros c.
      rewrite (fg_cont _ _ _ Hfg3), RtList.ListQ.elem_remove. tauto.
    + intros p Hp Hpl. destruct (th_lock (k_thr s t)) as [n |]; [| destruct Hfg3 as [-> ->]].
      * assert (p <> Obj n) as Hpn by (by intros ->). rewrite (fg_obj _ _ _ Hfg3), Eo2 by done. split; [done |].
        intros c. rewrite (fg_cont _ _ _ Hfg3), RtList.ListQ.elem_remove, Ec2, RtList.ListQ.elem_remove. tauto.
      * rewrite Eo2 by done. split; [done |]. intros c. rewrite Ec2, RtList.ListQ.elem_remove. tauto.
Qed.

(** A thread that is neither ready nor suspended may be outside every list. *)
Lemma closing_done t s : closing t s -> th_state s t = RT_THREAD_CLOSE -> core_ok s.
Proof.
  intros [Hs Ht Hl] Hst. assert (~ schedulable s t) as Hn by (intros [H | H]; rewrite Hst in H; done).
  split; [| done |].
  - apply (sched_release t); [done | by rewrite Hst | tauto].
  - intros u Hu. apply Hl; [by intros -> | done].
Qed.

(** [rt_object_detach] of the thread. *)
Lemma retire_detach t s :
  closing t s -> th_state s t = RT_THREAD_CLOSE -> rt_object_get_type (Obj t) s = RT_Object_Class_Thread ->
  exists s', rt_object_detach (Obj t) s = Some (tt, s') /\ core_ok s' /\ forgotten (Obj t) s s' /\ close_frame s s' /\
    k_thr s' = k_thr s /\ k_lists s' = k_lists s.
Proof.
  intros Hcg Hst Hty. destruct (object_detach_spec (Obj t) s) as (s' & E & Hf & Hcf & E1 & E2 & E3 & E4 & E5 & E6 & E7).
  exists s'. split; [done |]. split; [| done].
  apply (closing_done t); [| unfold th_state; by rewrite E1].
  eapply closing_forget_obj; eauto. by rewrite Hty.
Qed.

(** [rt_thread_defunct_enqueue]. *)
Lemma retire_enqueue t s :
  closing t s -> th_state s t = RT_THREAD_CLOSE ->
  exists s', rt_thread_defunct_enqueue t s = Some (tt, s') /\ core_ok s' /\ close_frame s s' /\
    k_thr s' = k_thr s /\ k_obj s' = k_obj s /\ k_cont s' = k_cont s /\
    forall h, k_lists s' h = if decide (h = LDefunct) then t :: k_lists s h else k_lists s h.
Proof.
  intros [Hs Ht Hl] Hst. eexists. split; [reflexivity |]. set (s' := alter_list _ _ _).
  assert (forall h, k_lists s' h = if decide (h = LDefunct) then t :: k_lists s h else k_lists s h) as El.
  { intros h. simpl. unfold fupd. case_decide; by subst. }
  assert (~ schedulable s t) as Hn by (intros [H | H]; rewrite Hst in H; done).
  split; [| by repeat split]. split.
  - eapply (sched_link t LDefunct s); try done. intros k Hk. by rewrite El, decide_False.
  - by eapply timers_frame.
  - intros u Hu. apply Hl; [by intros -> | done].
Qed.

(** The thread [t] of [s] is gone: unregistered, or in the queue of defunct threads. *)
Record ended (t : nat) (queued : bool) (s s' : kstate) : Prop := {
  en_core : core_ok s';
  en_state : th_state s' t = RT_THREAD_CLOSE;
  en_lists : forall h, k_lists s' h =
    if decide (h = LDefunct /\ queued = true) then t :: k_lists s h else lremove t (k_lists s h);
  en_other : forall u, u <> t -> k_thr s' u = k_thr s u;
  en_timer : o_type (k_obj s' (ThreadTimer t)) = 0;
  en_lock : forall n, th_lock (k_thr s t) = Some n -> o_type (k_obj s' (Obj n)) = 0;
  en_obj : if queued then o_type (k_obj s' (Obj t)) = o_type (k_obj s (Obj t)) /\ (forall c, Obj t ∈ k_cont s' c <-> Obj t ∈ k_cont s c)
           else o_type (k_obj s' (Obj t)) = 0 /\ forall c, Obj t ∉ k_cont s' c;
  en_objs : forall p, p <> Obj t -> p <> ThreadTimer t -> Some p <> Obj <$> th_lock (k_thr s t) ->
    o_type (k_obj s' p) = o_type (k_obj s p) /\ forall c, p ∈ k_cont s' c <-> p ∈ k_cont s c;
  en_frame : close_frame s s'
}.

Lemma defunct_state t s : core_ok s -> t ∈ k_lists s LDefunct -> th_state s t = RT_THREAD_CLOSE.
Proof. intros Hok Hin. exact (th_listed _ _ (proj1 (co_sched _ _ Hok)) LDefunct t Hin). Qed.

Lemma closed_obj t s s' : closed t s s' -> closable t s ->
  o_type (k_obj s' (Obj t)) = o_type (k_obj s (Obj t)) /\ forall c, Obj t ∈ k_cont s' c <-> Obj t ∈ k_cont s c.
Proof.
  intros Hcd Hca. apply (oc_other _ _ _ (cd_objs _ _ _ Hcd)); [done |].
  destruct (th_lock (k_thr s t)) as [n |] eqn:El; [| done]. intros [= E]. by apply (closable_lock_ne t n s).
Qed.

Lemma ended_queue t s s1 :
  closed t s s1 -> closable t s -> th_state s t <> RT_THREAD_CLOSE -> core_ok s ->
  exists s', rt_thread_defunct_enqueue t s1 = Some (tt, s') /\ ended t true s s'.
Proof.
  intros Hcd Hca Hst Hok. destruct (retire_enqueue t s1) as (s' & E & Hok' & Hf & Et & Eo & Ec & El);
    [apply Hcd | apply Hcd |].
  exists s'. split; [done |]. pose proof (closed_obj _ _ _ Hcd Hca) as Hob. pose proof (cd_objs _ _ _ Hcd) as Hobs. split.
  - done.
  - unfold th_state. rewrite Et. apply Hcd.
  - intros h. rewrite El. case_decide as Hd.
    + subst. rewrite decide_True by done. rewrite (cd_lists _ _ _ Hcd), lremove_id; [done |].
      intros Hin. by apply (defunct_state t s Hok) in Hin.
    + rewrite decide_False by tauto. apply Hcd.
  - intros u Hu. rewrite Et. by apply Hcd.
  - rewrite Eo. apply Hobs.
  - intros n Hn. rewrite Eo. by apply Hobs.
  - rewrite Eo, Ec. exact Hob.
  - intros p _ Hp Hpl. rewrite Eo, Ec. by apply Hobs.
  - eapply close_frame_trans; [apply Hcd | done].
Qed.

Lemma ended_detach t s s1 :
  closed t s s1 -> closable t s ->
  exists s', rt_object_detach (Obj t) s1 = Some (tt, s') /\ ended t false s s'.
Proof.
  intros Hcd Hca. pose proof (closed_obj _ _ _ Hcd Hca) as [Hob _]. pose proof (cd_objs _ _ _ Hcd) as Hobs.
  destruct (retire_detach t s1) as (s' & E & Hok' & Hfg & Hf & Et & El); [apply Hcd | apply Hcd | |].
  { unfold rt_object_get_type. rewrite Hob. apply Hca. }
  exists s'. split; [done |]. split.
  - done.
  - unfold th_state. rewrite Et. apply Hcd.
  - intros h. rewrite El. case_decide as Hd; [by destruct Hd |]. apply Hcd.
  - intros u Hu. rewrite Et. by apply Hcd.
  - rewrite (fg_obj _ _ _ Hfg) by done. apply Hobs.
  - intros n Hn. destruct (decide (n = t)) as [-> |]; [apply Hfg |]. rewrite (fg_obj _ _ _ Hfg) by congruence. by apply Hobs.
  - split; [apply Hfg |]. intros c. rewrite (fg_cont _ _ _ Hfg), RtList.ListQ.elem_remove. tauto.
  - intros p Hp Hpt Hpl. destruct (oc_other _ _ _ Hobs p Hpt Hpl) as [<- H]. rewrite (fg_obj _ _ _ Hfg) by done.
    split; [done |]. intros c. rewrite (fg_cont _ _ _ Hfg), RtList.ListQ.elem_remove, H. tauto.
  - eapply close_frame_trans; [apply Hcd | done].
Qed.

Lemma retire_ended t s s1 :
  closed t s s1 -> closable t s -> th_state s t <> RT_THREAD_CLOSE -> core_ok s ->
  exists s', thread_retire t s1 = Some (tt, s') /\
    ended t (negb (rt_object_is_systemobject (Obj t) s) || match th_cleanup (k_thr s t) with Some _ => true | None => false end) s s'.
Proof.
  intros Hcd Hca Hst Hok. pose proof (closed_obj _ _ _ Hcd Hca) as [Hob _].
  unfold thread_retire. krun. rewrite (cd_cleanup _ _ _ Hcd).
  assert (rt_object_is_systemobject (Obj t) s1 = rt_object_is_systemobject (Obj t) s) as Es
    by (unfold rt_object_is_systemobject; by rewrite Hob).
  rewrite Es. destruct (th_cleanup (k_thr s t)) as [f |]; [rewrite orb_true_r; by apply ended_queue |].
  rewrite orb_false_r. destruct (rt_object_is_systemobject (Obj t) s); cbn [negb];
    [by apply ended_detach | by apply ended_queue].
Qed.

(** The steps of [rt_thread_exit] between the two critical-section calls. *)
Lemma exit_close_spec t s :
  core_ok s -> closable t s -> th_state s t = RT_THREAD_READY -> th_lock (k_thr s t) = None ->
  exists s', thread_exit_close user_cleanup t s = Some (tt, s') /\
    ended t (negb (rt_object_is_systemobject (Obj t) s) || match th_cleanup (k_thr s t) with Some _ => true | None => false end) s s'.
Proof.
  intros Hok Hca Hst Hlk. unfold thread_exit_close. rewrite (run_bind _ _ _ _ _ (cleanup_run t s s (ca_cleanup _ _ Hca) eq_refl)).
  destruct (close_unlink t s Hok ltac:(by left)) as (s1 & E1 & Hc1 & Hl1 & Hf1 & Et1 & Eo1 & Ec1 & Eh1).
  rewrite (run_bind _ _ _ _ _ E1). krun. set (s2 := alter_thr t (set_th_stat RT_THREAD_CLOSE) s1).
  assert (closing t s2) as Hc2.
  { apply closing_alter; [done |]. intros Hin. unfold hard in Hin. rewrite Eh1 in Hin.
    apply (tk_thread _ (co_timers _ _ Hok)) in Hin. rewrite Hst in Hin. done. }
  destruct (closable_timer t s Hca) as [Hty Hsys].
  destruct (timer_detach_spec t s2) as (s3 & E3 & Ht3 & Hf3 & Hfg3 & Eh3 & Et3 & El3 & Er3 & Eg3);
    [apply Hc2 | unfold rt_object_get_type in *; simpl; by rewrite Eo1 | unfold rt_object_is_systemobject in *; simpl; by rewrite Eo1 |].
  rewrite (run_bind _ _ _ _ _ E3). apply retire_ended; [| done | by rewrite Hst | done].
  assert (k_thr s2 t = set_th_stat RT_THREAD_CLOSE (k_thr s t)) as Es2
    by (unfold s2; rewrite alter_thr_lookup, Et1, decide_True; done).
  split.
  - eapply closing_forget; [exact Hc2 | done | exact Hfg3 | done..|]. intros u Hu _. split; [done | by intros [= ->]].
  - unfold th_state. by rewrite Et3, Es2.
  - by rewrite Et3, Es2.
  - intros h. rewrite El3. apply Hl1.
  - intros u Hu. rewrite Et3. unfold s2. by rewrite alter_thr_lookup, decide_False, Et1.
  - eapply close_frame_trans; [exact Hf1 |]. by destruct Hf3.
  - assert (forall c, k_cont s3 c = premove (ThreadTimer t) (k_cont s c)) as Ec3
      by (intros c; rewrite (fg_cont _ _ _ Hfg3); simpl; by rewrite Ec1).
    split.
    + split; [apply Hfg3 |]. intros c. rewrite Ec3, RtList.ListQ.elem_remove. tauto.
    + intros n Hn. congruence.
    + intros p Hp _. rewrite (fg_obj _ _ _ Hfg3) by done. simpl. rewrite Eo1. split; [done |].
      intros c. rewrite Ec3, RtList.ListQ.elem_remove. tauto.
Qed.

(** ** The queue of defunct threads *)

(** The threads of the queue are thread objects; their cleanup functions leave the kernel alone. *)
Definition defunct_ok (q : list nat) (s : kstate) : Prop := forall t, t ∈ q ->
  rt_object_get_type (Obj t) s = RT_Object_Class_Thread /\ cleanup_ok t s.

(** The threads [ts] have been taken out of the queue and forgotten. *)
Record buried (ts : list nat) (s s' : kstate) : Prop := {
  bu_core : core_ok s';
  bu_queue : k_lists s LDefunct = ts ++ k_lists s' LDefunct;
  bu_lists : forall h, h <> LDefunct -> k_lists s' h = k_lists s h;
  bu_thr : k_thr s' = k_thr s;
  bu_gone : forall t, t ∈ ts -> o_type (k_obj s' (Obj t)) = 0 /\ forall c, Obj t ∉ k_cont s' c;
  bu_obj : forall p, (forall t, t ∈ ts -> p <> Obj t) -> k_obj s' p = k_obj s p;
  bu_cont : forall c p, p ∈ k_cont s' c -> p ∈ k_cont s c;
  bu_frame : close_frame s s'
}.

Lemma buried_refl s : core_ok s -> buried [] s s.
Proof. intros Hok. split; try done; try (by intros t Ht%elem_of_nil). Qed.

Lemma buried_trans ts us s1 s2 s3 : buried ts s1 s2 -> buried us s2 s3 -> buried (ts ++ us) s1 s3.
Proof.
  intros A B. split.
  - apply B.
  - rewrite (bu_queue _ _ _ A), (bu_queue _ _ _ B). by rewrite app_assoc.
  - intros h Hh. by rewrite (bu_lists _ _ _ B), (bu_lists _ _ _ A).
  - by rewrite (bu_thr _ _ _ B), (bu_thr _ _ _ A).
  - intros t Ht. destruct (decide (t ∈ us)) as [Hu | Hu]; [by apply B |].
    apply elem_of_app in Ht as [Ht |]; [| done]. destruct (bu_gone _ _ _ A t Ht) as [H1 H2]. split.
    + rewrite (bu_obj _ _ _ B); [done |]. by intros u Hin [= ->].
    + intros c Hin. by apply (bu_cont _ _ _ B), H2 in Hin.
  - intros p Hp. rewrite (bu_obj _ _ _ B), (bu_obj _ _ _ A); [done | |]; intros t Ht; apply Hp, elem_of_app; auto.
  - intros c p Hp. by apply (bu_cont _ _ _ A), (bu_cont _ _ _ B).
  - eapply close_frame_trans; [apply A | apply B].
Qed.

(** The first thread of the queue, after [rt_thread_defunct_dequeue] and the cleanup. *)
Lemma dequeue_spec t q s :
  core_ok s -> k_lists s LDefunct = t :: q ->
  exists s1, rt_thread_defunct_dequeue s = Some (Some t, s1) /\ closing t s1 /\ th_state s1 t = RT_THREAD_CLOSE /\
    k_lists s1 LDefunct = q /\ (forall h, h <> LDefunct -> k_lists s1 h = k_lists s h) /\
    k_thr s1 = k_thr s /\ k_obj s1 = k_obj s /\ k_cont s1 = k_cont s /\ close_frame s s1.
Proof.
  intros Hok Hq. unfold rt_thread_defunct_dequeue, tlist_remove. krun. rewrite Hq. krun. eexists. split; [reflexivity |].
  assert (t ∈ k_lists s LDefunct) as Hin by (rewrite Hq; apply list_elem_of_here).
  pose proof (defunct_state t s Hok Hin) as Hst. pose proof Hok as [Hs Ht Hl].
  split; [| split; [done |]; split; [| split; [| by repeat split]]].
  - split; [apply sched_unlink; [done | by rewrite Hst] | by eapply timers_frame | intros u _; apply Hl].
  - simpl. rewrite Hq. apply lremove_head. pose proof (th_nodup _ _ (proj1 Hs) LDefunct) as Hnd. rewrite Hq in Hnd.
    by apply NoDup_cons in Hnd as [? _].
  - intros h Hh. simpl. by apply (lremove_other s LDefunct).
Qed.

Lemma bury_first t q s s1 s2 :
  core_ok s -> k_lists s LDefunct = t :: q -> closing t s1 -> th_state s1 t = RT_THREAD_CLOSE ->
  k_lists s1 LDefunct = q -> (forall h, h <> LDefunct -> k_lists s1 h = k_lists s h) ->
  k_thr s1 = k_thr s -> k_obj s1 = k_obj s -> k_cont s1 = k_cont s -> close_frame s s1 ->
  rt_object_get_type (Obj t) s = RT_Object_Class_Thread ->
  forgotten (Obj t) s1 s2 -> close_frame s1 s2 -> k_thr s2 = k_thr s1 -> k_lists s2 = k_lists s1 ->
  k_ready_table s2 = k_ready_table s1 -> k_ready_group s2 = k_ready_group s1 ->
  k_timer_list s2 = k_timer_list s1 -> k_soft_timer_list s2 = k_soft_timer_list s1 -> k_tmr s2 = k_tmr s1 ->
  buried [t] s s2.
Proof.
  intros Hok Hq Hcg Hst Hl1 Hl2 Et Eo Ec Hf1 Hty Hfg Hf2 E1 E2 E3 E4 E5 E6 E7.
  assert (rt_object_get_type (Obj t) s1 = RT_Object_Class_Thread) as Hty1 by (unfold rt_object_get_type in *; by rewrite Eo).
  split.
  - apply (closing_done t); [| unfold th_state; by rewrite E1].
    eapply closing_forget_obj; eauto. by rewrite Hty1.
  - by rewrite E2, Hl1, Hq.
  - intros h Hh. by rewrite E2, Hl2.
  - by rewrite E1.
  - intros u ->%list_elem_of_singleton. split; [apply Hfg |]. intros c.
    rewrite (fg_cont _ _ _ Hfg), RtList.ListQ.elem_remove. tauto.
  - intros p Hp. rewrite (fg_obj _ _ _ Hfg), Eo; [done |]. apply Hp, list_elem_of_here.
  - intros c p. rewrite (fg_cont _ _ _ Hfg), RtList.ListQ.elem_remove, Ec. tauto.
  - by eapply close_frame_trans.
Qed.

(** The iterations over dynamic threads. *)
Lemma defunct_step_dynamic t q s :
  core_ok s -> k_interrupt_nest s = 0 -> k_lists s LDefunct = t :: q -> defunct_ok [t] s ->
  rt_object_is_systemobject (Obj t) s = false ->
  exists s', rt_defunct_execute_step user_cleanup s = Some (true, s') /\ buried [t] s s'.
Proof.
  intros Hok Hi Hq Hd Hsys. destruct (Hd t (list_elem_of_here _ _)) as [Hty Hcl].
  unfold rt_defunct_execute_step, RT_DEBUG_NOT_IN_INTERRUPT. rewrite bind_assert_s by (by rewrite Hi).
  destruct (dequeue_spec t q s Hok Hq) as (s1 & E1 & Hcg & Hst & Hl1 & Hl2 & Et & Eo & Ec & Hf).
  rewrite (run_bind _ _ _ _ _ E1), (run_bind _ _ _ _ _ (cleanup_run t s s1 Hcl ltac:(by rewrite Et))). krun.
  assert (rt_object_is_systemobject (Obj t) s1 = false) as Hsys1 by (unfold rt_object_is_systemobject in *; by rewrite Eo).
  rewrite Hsys1. destruct (object_delete_spec (Obj t) s1 Hsys1) as (s2 & E2 & Hfg & Hf2 & F1 & F2 & F3 & F4 & F5 & F6 & F7).
  rewrite (run_bind _ _ _ _ _ E2). exists s2. split; [done |]. by eapply bury_first.
Qed.

Lemma defunct_ok_buried ts q s s' : buried ts s s' -> defunct_ok (ts ++ q) s -> NoDup (ts ++ q) -> defunct_ok q s'.
Proof.
  intros H Hd Hnd t Ht. destruct (Hd t) as [H1 H2]; [apply elem_of_app; auto |].
  assert (forall u, u ∈ ts -> Obj t <> Obj u) as Hne.
  { intros u Hu [= ->]. apply NoDup_app in Hnd as (_ & Hdis & _). by apply (Hdis u). }
  split; [unfold rt_object_get_type; by rewrite (bu_obj _ _ _ H _ Hne) |].
  unfold cleanup_ok. by rewrite (bu_thr _ _ _ H).
Qed.

Lemma defunct_dynamic_spec dyn rest s fuel :
  core_ok s -> k_interrupt_nest s = 0 -> k_lists s LDefunct = dyn ++ rest -> defunct_ok (dyn ++ rest) s ->
  (forall t, t ∈ dyn -> rt_object_is_systemobject (Obj t) s = false) ->
  exists s', rt_defunct_execute user_cleanup (length dyn + fuel) s = rt_defunct_execute user_cleanup fuel s' /\
    buried dyn s s' /\ k_lists s' LDefunct = rest /\ defunct_ok rest s'.
Proof.
  revert s. induction dyn as [| t dyn IH]; intros s Hok Hi Hq Hd Hdyn.
  - exists s. split; [done |]. split; [by apply buried_refl | done].
  - assert (NoDup (t :: dyn ++ rest)) as Hnd.
    { pose proof (th_nodup _ _ (proj1 (co_sched _ _ Hok)) LDefunct) as H. by rewrite Hq in H. }
    destruct (defunct_step_dynamic t (dyn ++ rest) s) as (s1 & E1 & Hb1); [done.. | | |].
    { intros u Hu. apply Hd. apply list_elem_of_singleton in Hu as ->. apply list_elem_of_here. }
    { apply Hdyn, list_elem_of_here. }
    assert (k_lists s1 LDefunct = dyn ++ rest) as Hq1.
    { pose proof (bu_queue _ _ _ Hb1) as H. rewrite Hq in H. by injection H. }
    destruct (IH s1) as (s2 & E2 & Hb2 & Hq2 & Hd2).
    + apply Hb1.
    + by rewrite (cl_irq _ _ (bu_frame _ _ _ Hb1)).
    + done.
    + by apply (defunct_ok_buried [t] (dyn ++ rest) s).
    + intros u Hu. unfold rt_object_is_systemobject. rewrite (bu_obj _ _ _ Hb1).
      * apply Hdyn. by apply list_elem_of_further.
      * intros v ->%list_elem_of_singleton [= ->]. apply NoDup_cons in Hnd as [Hni _]. apply Hni, elem_of_app. auto.
    + exists s2. split.
      { cbn [length Nat.add rt_defunct_execute]. rewrite (run_bind _ _ _ _ _ E1). exact E2. }
      split; [by apply (buried_trans [t] dyn s s1) | done].
Qed.

(** The last iteration: a static thread leaves the rest of the queue for the next call. *)
Lemma defunct_step_static t q s :
  core_ok s -> settled s -> is_Some (k_current s) -> k_lock_nest s = 0 -> k_interrupt_nest s = 0 ->
  k_lists s LDefunct = t :: q -> defunct_ok [t] s -> rt_object_is_systemobject (Obj t) s = true ->
  exists s', rt_defunct_execute_step user_cleanup s = Some (false, s') /\ buried [t] s s'.
Proof.
  intros Hok Hse Hcur Hn Hi Hq Hd Hsys. destruct (Hd t (list_elem_of_here _ _)) as [Hty Hcl].
  unfold rt_defunct_execute_step, RT_DEBUG_NOT_IN_INTERRUPT. rewrite bind_assert_s by (by rewrite Hi).
  destruct (dequeue_spec t q s Hok Hq) as (s1 & E1 & Hcg & Hst & Hl1 & Hl2 & Et & Eo & Ec & Hf).
  rewrite (run_bind _ _ _ _ _ E1), (run_bind _ _ _ _ _ (cleanup_run t s s1 Hcl ltac:(by rewrite Et))). krun.
  assert (rt_object_is_systemobject (Obj t) s1 = true) as Hsys1 by (unfold rt_object_is_systemobject in *; by rewrite Eo).
  rewrite Hsys1. destruct (object_detach_spec (Obj t) s1) as (s2 & E2 & Hfg & Hf2 & F1 & F2 & F3 & F4 & F5 & F6 & F7).
  rewrite (run_bind _ _ _ _ _ E2).
  assert (buried [t] s s2) as Hb by (by eapply bury_first).
  assert (k_lock_nest s2 = 0) as Hn2 by by rewrite (cl_nest _ _ (bu_frame _ _ _ Hb)).
  assert (rt_exit_critical s2 = Some (tt, s2)) as E3.
  { unfold rt_exit_critical. krun. rewrite Hn2. change (swrap 16 (0 - 1)) with (-1).
    set (s3 := set_k_lock_nest _ s2). change (k_lock_nest s3 <=? 0) with true. cbv iota. krun.
    change (set_k_lock_nest 0 s3) with (set_k_lock_nest 0 s2). rewrite (set_lock_nest_id s2 0 Hn2).
    assert (is_Some (k_current s2)) as Hc2 by by rewrite (cl_current _ _ (bu_frame _ _ _ Hb)).
    destruct (k_current s2) as [c |] eqn:Ec2; [| done]. apply rt_schedule_settled; [| by rewrite Ec2 | done].
    eapply settled_lists; [exact Hse | apply Hb | by rewrite Ec2, <- (cl_current _ _ (bu_frame _ _ _ Hb)) |].
    intros p. by apply Hb. }
  rewrite (run_bind _ _ _ _ _ E3). by exists s2.
Qed.


Lemma core_set_nest v s : core_ok s -> core_ok (set_k_lock_nest v s).
Proof. intros [H1 H2 H3]. split; [by eapply sched_frame | by eapply timers_frame | exact H3]. Qed.

(** [rt_exit_critical] at the end of the only critical section schedules. *)
Lemma exit_critical_one s c :
  core_ok s -> k_lock_nest s = 1 -> k_current s = Some c -> some_ready s ->
  exists t p s', rt_exit_critical s = Some (tt, s') /\ switched (set_k_lock_nest 0 s) s' /\
    highest_ready s t p /\ k_current s' = Some t.
Proof.
  intros Hok Hn Hc Hr. unfold rt_exit_critical. krun. rewrite Hn. change (swrap 16 (1 - 1)) with 0.
  set (s1 := set_k_lock_nest 0 _). change (k_lock_nest s1 <=? 0) with true. cbv iota. krun.
  change (k_current (set_k_lock_nest 0 s1)) with (k_current s). rewrite Hc.
  change (set_k_lock_nest 0 s1) with s1.
  destruct (rt_schedule_spec s1 c) as (t & p & s' & E & Hh & Hc' & Hsw & _); [by apply core_set_nest | done | done | done |].
  exists t, p, s'. done.
Qed.

(** The waiting threads of a semaphore that is the lock of [t]. *)
Definition lock_waiters (t : nat) (s : kstate) : list nat :=
  match th_lock (k_thr s t) with Some n => k_lists s (LSuspend n) | None => [] end.

(** [rt_thread_delete] of a dynamic thread. *)
Lemma thread_delete_spec t s :
  core_ok s -> closable t s -> k_interrupt_nest s = 0 ->
  (th_state s t = RT_THREAD_INIT /\ (forall h, t ∉ k_lists s h) \/ schedulable s t) ->
  (forall n, th_lock (k_thr s t) = Some n -> k_lists s (LSuspend n) = []) ->
  rt_object_is_systemobject (Obj t) s = false ->
  exists s', rt_thread_delete user_cleanup t s = Some (RT_EOK, s') /\ ended t true s s'.
Proof.
  intros Hok Hca Hi Hst Hq Hsys. destruct (thread_close_spec t s Hok Hca Hi Hst Hq) as (s1 & E1 & Hcd).
  assert (th_state s t <> RT_THREAD_CLOSE) as Hne by (destruct Hst as [[-> _] | [-> | ->]]; done).
  destruct (ended_queue t s s1 Hcd Hca Hne Hok) as (s2 & E2 & Hen). exists s2. split; [| done].
  unfold rt_thread_delete, assert_type. rewrite bind_assert_s by (by rewrite (ca_type _ _ Hca)).
  rewrite bind_assert_s by (by rewrite Hsys). krun. rewrite (proj2 (Z.eqb_neq _ _) Hne).
  rewrite (run_bind _ _ _ _ _ E1), (run_bind _ _ _ _ _ E2). done.
Qed.

(** ** Theorems *)




End specs.

(** A hook is set in the first free slot and fails with -RT_EFULL when
    there is none; deleting it restores the list; deleting a hook that is not
    set fails with -RT_ENOSYS and changes nothing. *)
Theorem rt_thread_idle_hooks f hooks :
  Some f ∉ hooks ->
  rt_thread_idle_delhook (Some f) hooks = (- RT_ENOSYS, hooks) /\
  (None ∉ hooks -> rt_thread_idle_sethook (Some f) hooks = (- RT_EFULL, hooks)) /\
  (None ∈ hooks -> exists l1 l2, hooks = l1 ++ None :: l2 /\ None ∉ l1 /\
     rt_thread_idle_sethook (Some f) hooks = (RT_EOK, l1 ++ Some f :: l2) /\
     rt_thread_idle_delhook (Some f) (l1 ++ Some f :: l2) = (RT_EOK, hooks)).
Proof.
  induction hooks as [| h hooks IH]; intros Hf.
  { split; [done |]. split; [done |]. by intros H%elem_of_nil. }
  apply not_elem_of_cons in Hf as [Hh Hf]. destruct (IH Hf) as (H1 & H2 & H3). cbn [rt_thread_idle_delhook rt_thread_idle_sethook].
  rewrite decide_False, H1 by done. split; [done |]. destruct h as [g |].
  - split.
    + intros Hn. rewrite H2; [done |]. intros Hin. apply Hn. by apply list_elem_of_further.
    + rewrite elem_of_cons. intros [| Hin]; [done |]. destruct (H3 Hin) as (l1 & l2 & -> & Hno & -> & E).
      exists (Some g :: l1), l2. split; [done |]. split; [rewrite not_elem_of_cons; done |]. split; [done |].
      cbn [app rt_thread_idle_delhook]. rewrite decide_False, E by done. done.
  - split; [intros Hn; destruct Hn; apply list_elem_of_here |]. intros _. exists [], hooks.
    split; [done |]. split; [apply not_elem_of_nil |]. split; [done |]. cbn [app rt_thread_idle_delhook]. by rewrite decide_True.
Qed.
(** ** Witnesses *)

Definition no_cleanup (f : Z) (t : nat) : K unit := skip.

Lemma example_no_lock t n : th_lock (k_thr example t) <> Some n.
Proof. simpl. unfold fupd. by repeat case_decide. Qed.

Lemma example_cleanup t : lock_ok t example /\ cleanup_ok no_cleanup t example.
Proof.
  assert (th_lock (k_thr example t) = None /\ th_cleanup (k_thr example t) = None) as [E1 E2].
  { simpl. unfold fupd. by repeat case_decide. }
  split; intros x Hx; congruence.
Qed.

Lemma example_closable t : rt_object_get_type (Obj t) example = RT_Object_Class_Thread -> closable no_cleanup t example.
Proof. intros Hty. destruct (example_cleanup t). by split. Qed.

Lemma example_other : exists u, u <> 2%nat /\ th_state example u = RT_THREAD_READY.
Proof. exists 3%nat. split; [lia | reflexivity]. Qed.


(** Thread 3 of the example as a dynamic thread. *)
Definition example_dynamic : kstate := alter_obj (Obj 3) (set_o_type 1) example.

Lemma dynamic_type p : rt_object_get_type p example_dynamic = rt_object_get_type p example.
Proof. unfold rt_object_get_type, example_dynamic. simpl. unfold fupd. case_decide as E; [by subst | done]. Qed.

Lemma dynamic_timer u : k_obj example_dynamic (ThreadTimer u) = k_obj example (ThreadTimer u).
Proof. simpl. by rewrite fupd_ne. Qed.

Lemma core_types s s' :
  core_ok s -> s' = set_k_obj (k_obj s') s -> (forall p, rt_object_get_type p s' = rt_object_get_type p s) ->
  (forall u, k_obj s' (ThreadTimer u) = k_obj s (ThreadTimer u)) -> core_ok s'.
Proof.
  intros [Hs [Hh Hsf Hnd Hreg Hth Hac Hns Hfn] Hl] E Ety Eob.
  assert (k_thr s' = k_thr s /\ k_lists s' = k_lists s /\ k_timer_list s' = k_timer_list s /\
    k_soft_timer_list s' = k_soft_timer_list s /\ k_cont s' = k_cont s /\ k_tmr s' = k_tmr s) as (E1 & E2 & E3 & E4 & E5 & E6)
    by (by rewrite E).
  split; [by eapply sched_frame; [exact Hs | rewrite E..] | |].
  - unfold hard, soft, timer_active, th_state in *.
    split; unfold hard, soft, timer_active, th_state; rewrite ?E1, ?E3, ?E4, ?E5, ?E6; try done.
    + intros p. rewrite Ety. apply Hreg.
    + intros u. rewrite Eob. apply Hac.
    + intros u. rewrite Ety, Eob. apply Hfn.
  - intros u. unfold schedulable, th_state. rewrite !Ety, E1, E5. apply Hl.
Qed.

Lemma thr_alter_obj p f s : k_thr (alter_obj p f s) = k_thr s.
Proof. done. Qed.

Lemma lists_alter_obj p f s : k_lists (alter_obj p f s) = k_lists s.
Proof. done. Qed.

Lemma dynamic_lists : k_lists example_dynamic = k_lists example.
Proof. apply lists_alter_obj. Qed.

Lemma dynamic_current : k_current example_dynamic = Some 2%nat.
Proof. vm_compute. reflexivity. Qed.

Lemma dynamic_thr : k_thr example_dynamic = k_thr example.
Proof. apply thr_alter_obj. Qed.

Lemma dynamic_ready : th_state example_dynamic 3 = RT_THREAD_READY.
Proof. vm_compute. reflexivity. Qed.

Lemma dynamic_quiet n : th_lock (k_thr example_dynamic 3%nat) = Some n -> k_lists example_dynamic (LSuspend n) = [].
Proof. rewrite dynamic_thr. intros H. by apply (example_no_lock 3) in H. Qed.

Lemma dynamic_irq : k_interrupt_nest example_dynamic = 0.
Proof. vm_compute. reflexivity. Qed.

Lemma dynamic_core : core_ok example_dynamic.
Proof. apply (core_types example); [apply example_core | reflexivity | apply dynamic_type | apply dynamic_timer]. Qed.

Lemma dynamic_closable : closable no_cleanup 3 example_dynamic.
Proof.
  destruct (example_cleanup 3) as [H1 H2]. unfold cleanup_ok, lock_ok in *.
  split; [by rewrite dynamic_type | by rewrite dynamic_timer | |]; unfold cleanup_ok, lock_ok; rewrite dynamic_thr; [| exact H2].
  intros n Hn. by apply (example_no_lock 3) in Hn.
Qed.


(** The example with thread 3 deleted: it waits for the idle thread. *)
Definition example_deleted : kstate := run (rt_thread_delete no_cleanup 3) example_dynamic.

Lemma deleted_ended : ended 3 true example_dynamic example_deleted.
Proof.
  destruct (thread_delete_spec no_cleanup 3 example_dynamic) as (s' & E & Hen);
    [apply dynamic_core | apply dynamic_closable | apply dynamic_irq | right; left; apply dynamic_ready | apply dynamic_quiet | vm_compute; reflexivity |].
  unfold example_deleted, run. by rewrite E.
Qed.

Lemma deleted_queue : k_lists example_deleted LDefunct = [3]%nat.
Proof. rewrite (en_lists _ _ _ _ deleted_ended), dynamic_lists. vm_compute. reflexivity. Qed.

Lemma deleted_settled : settled example_deleted.
Proof.
  pose proof deleted_ended as H. right. split; [apply H |]. exists 2%nat, 10.
  split; [rewrite (cl_current _ _ (en_frame _ _ _ _ H)); apply dynamic_current |]. split; [lia |].
  assert (forall p, k_lists example_deleted (LReady p) = lremove 3%nat (k_lists example (LReady p))) as E.
  { intros p. rewrite (en_lists _ _ _ _ H), decide_False by (by intros [? _]). by rewrite dynamic_lists. }
  split; [exists []; rewrite E; vm_compute; reflexivity |]. intros r Hr. rewrite E. simpl. unfold fupd.
  repeat (case_decide as He; [injection He as ->; lia | clear He]). done.
Qed.


Lemma rt_thread_idle_hooks_witness :
  rt_thread_idle_delhook (Some 5) [Some 7; None; Some 8; None] = (- RT_ENOSYS, [Some 7; None; Some 8; None]) /\
  (None ∉ [Some 7; None; Some 8; None] ->
     rt_thread_idle_sethook (Some 5) [Some 7; None; Some 8; None] = (- RT_EFULL, [Some 7; None; Some 8; None])) /\
  (None ∈ [Some 7; None; Some 8; None] -> exists l1 l2, [Some 7; None; Some 8; None] = l1 ++ None :: l2 /\ None ∉ l1 /\
     rt_thread_idle_sethook (Some 5) [Some 7; None; Some 8; None] = (RT_EOK, l1 ++ Some 5 :: l2) /\
     rt_thread_idle_delhook (Some 5) (l1 ++ Some 5 :: l2) = (RT_EOK, [Some 7; None; Some 8; None])).
Proof. apply (rt_thread_idle_hooks 5 [Some 7; None; Some 8; None]). rewrite !not_elem_of_cons. repeat split; try done. apply not_elem_of_nil. Defined.

End ThreadEnd.
