(* ===== verification/Boot.v ===== *)
(** * System start: [src/platform/startup/os_startup.c]

    The kernel part of [rtthread_startup]: the timer lists, the scheduler, the
    thread that initialises the drivers, the timer thread, the idle thread and
    the first switch.  The steps that only touch hardware (interrupt controller,
    MMU, board, PM) and the heap are not modelled. *)

From S2P Require Import Prelude KernelTypes Kservice RtList Scheduler Object Timer Thread TimerRun IpcList Sem ThreadLife.
Import Kservice Scheduler KObject Timer Thread TimerRun IpcList Sem ThreadLife.

Local Open Scope Z_scope.

Module Boot.

(** ** Operations *)

Definition RT_TIMER_THREAD_PRIO : Z := 8.
Definition RT_TIMER_THREAD_STACK_SIZE : Z := 2048.
Definition IDLE_THREAD_STACK_SIZE : Z := 1024.
Definition USER_INIT_THREAD_STACK_SIZE : Z := 32768.

(** The static object [idle[0]]. *)
Definition idle_thread : nat := 0.

Definition rt_thread_idle_gethandler : nat := idle_thread.

(** The bytes of "timer", "tidle0" (what [rt_sprintf] writes for CPU 0) and "init_drv". *)
Definition name_timer : list Z := [116; 105; 109; 101; 114; 0].
Definition name_tidle : list Z := [116; 105; 100; 108; 101; 48; 0].
Definition name_init_drv : list Z := [105; 110; 105; 116; 95; 100; 114; 118; 0].

Section boot.
(** Code and data addresses of the program. *)
Variable exit_addr timer_entry idle_entry init_entry : Z.
Variable timer_stack idle_stack : Z.
Variable heap_addr : nat -> Z.

Definition rt_system_timer_thread_init : K unit :=
  modify (set_k_soft_timer_list (replicate RT_TIMER_SKIP_LIST_LEVEL []));;
  _ ← rt_thread_init exit_addr timer_thread name_timer timer_entry 0 timer_stack
        RT_TIMER_THREAD_STACK_SIZE RT_TIMER_THREAD_PRIO 10;
  _ ← rt_thread_startup timer_thread;
  mret tt.

Definition rt_thread_idle_init : K unit :=
  _ ← rt_thread_init exit_addr idle_thread name_tidle idle_entry 0 idle_stack
        IDLE_THREAD_STACK_SIZE (RT_THREAD_PRIORITY_MAX - 1) 32;
  _ ← rt_thread_startup idle_thread;
  mret tt.

Definition rt_application_init : K unit :=
  init_drv_thread ← rt_thread_create exit_addr heap_addr name_init_drv init_entry 0 USER_INIT_THREAD_STACK_SIZE 80 5;
  match init_drv_thread with
  | Some t => _ ← rt_thread_startup t; mret tt
  | None => skip
  end.

Definition rtthread_startup : K unit :=
  rt_system_timer_init;;
  rt_system_scheduler_init;;
  rt_application_init;;
  rt_system_timer_thread_init;;
  rt_thread_idle_init;;
  rt_system_scheduler_start.

(** ** The invariant is established *)

(** Memory as the loader leaves it: nothing is registered, linked or waiting, and no
    thread has a state; the heap does not give out the static objects. *)
Record loaded (s : kstate) : Prop := {
  ld_cont : forall c, k_cont s c = [];
  ld_lists : forall h, (forall p, h <> LReady p) -> k_lists s h = [];
  ld_stat : forall t, th_stat (k_thr s t) = 0;
  ld_type : forall p, o_type (k_obj s p) = 0;
  ld_name : forall p, length (o_name (k_obj s p)) = RT_NAME_MAX;
  ld_soft : k_soft_timer_list s = [[]];
  ld_irq : k_interrupt_nest s = 0;
  ld_next : (2 <= k_next s)%nat
}.

(** The state of the kernel between the steps of the start. *)
Record booting (s : kstate) : Prop := {
  bo_core : core_ok s;
  bo_heap : heap_ok s;
  bo_current : k_current s = None;
  bo_nest : k_lock_nest s = 0;
  bo_irq : k_interrupt_nest s = 0;
  bo_next : (2 <= k_next s)%nat
}.

Lemma booting_settled s : booting s -> settled s.
Proof. intros H. left. apply H. Qed.

Lemma booting_grown s s' : booting s -> grown s s' -> core_ok s' -> heap_ok s' -> booting s'.
Proof.
  intros [] Hg Hc Hh. split; [done | done | by rewrite (gr_current _ _ Hg) | by rewrite (gr_nest _ _ Hg)
    | by rewrite (gr_irq _ _ Hg) |]. pose proof (gr_next _ _ Hg). lia.
Qed.

Lemma loaded_booting s : loaded s ->
  exists s', (forall (m : K unit), (rt_system_timer_init;; rt_system_scheduler_init;; m) s = m s') /\ booting s' /\
    k_obj s' = k_obj s /\ k_cont s' = k_cont s /\ (forall h, k_lists s' h = []).
Proof.
  intros [Hc Hl Hst Hty Hnm Hsf Hi Hn]. unfold rt_system_timer_init, rt_system_scheduler_init.
  eexists. split; [intros m; krun; reflexivity |]. set (s' := set_k_ready_table _ _).
  assert (forall h, k_lists s' h = []) as El by (intros []; simpl; auto).
  assert (forall t, th_state s' t = RT_THREAD_INIT) as Est by (intros t; unfold th_state; simpl; by rewrite Hst).
  assert (forall t, ~ schedulable s' t) as Hns by (intros t [H | H]; rewrite Est in H; done).
  assert (forall i, znth (k_ready_table s') i = 0) as Hz by (intros; apply (znth_zeros 32)).
  split; [| done]. split; try done.
  - split.
    + split; split; try done.
      * intros h. rewrite El. constructor.
      * intros h k t Hin. rewrite El in Hin. by apply elem_of_nil in Hin.
      * intros h t Hin. rewrite El in Hin. by apply elem_of_nil in Hin.
      * intros t _ H. by rewrite Est in H.
      * intros t _ H. by apply Hns in H.
      * intros t _ H. by apply Hns in H.
      * intros i Hir. rewrite Hz. lia.
      * intros i Hir. rewrite Hz. simpl. by rewrite Z.bits_0.
      * intros p Hp. rewrite Hz, El. by rewrite Z.bits_0.
    + split; try (simpl; eauto; done).
      * unfold hard, soft. simpl. rewrite Hsf. split; constructor.
      * intros p. unfold hard, soft. simpl. rewrite Hsf. intros [H | H]; by apply elem_of_nil in H.
      * intros t H. by apply elem_of_nil in H.
      * intros t H. by apply elem_of_nil in H.
      * intros t. unfold soft. simpl. rewrite Hsf. apply not_elem_of_nil.
      * intros t H. unfold rt_object_get_type in H. simpl in H. rewrite Hty in H. done.
    + intros t H. by apply Hns in H.
  - intros n _. split; [intros h; rewrite El; apply not_elem_of_nil | apply El |].
    intros c. simpl. rewrite Hc. split; apply not_elem_of_nil.
Qed.

(** A thread is started while the scheduler does not run. *)
Lemma boot_start t s :
  booting s -> startable t s -> (t < k_next s)%nat ->
  exists s', rt_thread_startup t s = Some (RT_EOK, s') /\ booting s' /\ started t s s'.
Proof.
  intros Hb Hsb Ht. destruct (startup_spec t s (bo_core _ Hb) Hsb) as (s1 & Hok1 & Hsd & E).
  exists s1. rewrite E, (bo_current _ Hb). split; [done |]. split; [| done].
  pose proof (sd_frame _ _ _ Hsd) as Hf.
  split; [done | | by rewrite (sd_current _ _ _ Hsd), (bo_current _ Hb) | by rewrite (cf_lock _ _ Hf), (bo_nest _ Hb)
    | by rewrite (cf_irq _ _ Hf), (bo_irq _ Hb) | rewrite (cf_next _ _ Hf); apply Hb].
  intros n Hn. rewrite (cf_next _ _ Hf) in Hn. destruct (bo_heap _ Hb n Hn) as [U1 U2 U3].
  split; [| by rewrite (sd_lists _ _ _ Hsd), decide_False | intros c; by rewrite (cf_cont _ _ Hf)].
  intros h. rewrite (sd_lists _ _ _ Hsd). case_decide; [| done].
  rewrite elem_of_app, list_elem_of_singleton. intros [Hin | ->]; [by apply U1 in Hin | lia].
Qed.

(** What a static object that is not set up yet looks like. *)
Record static_ready (t : nat) (s : kstate) : Prop := {
  sr_unused : unused t s;
  sr_name : length (o_name (k_obj s (Obj t))) = RT_NAME_MAX;
  sr_tname : length (o_name (k_obj s (ThreadTimer t))) = RT_NAME_MAX
}.

Lemma static_others u t m s s' : static_ready u s -> others_same t m s s' -> u <> t -> (u < m)%nat ->
  (forall h, k_lists s' h = k_lists s h) -> static_ready u s'.
Proof.
  intros [Hun H1 H2] Ho Hu Hm Hl. destruct (Ho u Hu Hm) as (_ & E1 & E2 & _).
  split; [by eapply unused_others | by rewrite E1 | by rewrite E2].
Qed.

Lemma static_started u t s s' : static_ready u s -> started t s s' -> u <> t -> static_ready u s'.
Proof.
  intros [[U1 U2 U3] H1 H2] Hsd Hu. pose proof (sd_frame _ _ _ Hsd) as Hf.
  split; rewrite ?(cf_name _ _ Hf); [| done..].
  split; [| by rewrite (sd_lists _ _ _ Hsd), decide_False | intros c; by rewrite (cf_cont _ _ Hf)].
  intros h. rewrite (sd_lists _ _ _ Hsd). case_decide; [| done].
  rewrite elem_of_app, list_elem_of_singleton. intros [Hin |]; [by apply U1 in Hin | done].
Qed.

(** Initialisation and start of a static thread. *)
Lemma boot_thread t name entry stack size prio tick s :
  booting s -> static_ready t s -> (t < 2)%nat -> 0 ∈ name -> bytes name -> 0 <= prio < 256 -> stack_fits stack size ->
  exists s1 s', rt_thread_init exit_addr t name entry 0 stack size prio tick s = Some (RT_EOK, s1) /\
    rt_thread_startup t s1 = Some (RT_EOK, s') /\ booting s' /\ Obj t ∈ k_cont s' RT_Object_Class_Thread /\
    (forall h, k_lists s' h = if decide (h = LReady prio) then k_lists s h ++ [t] else k_lists s h) /\
    (forall u, u <> t -> (u < 2)%nat -> static_ready u s -> static_ready u s') /\
    (forall c p, p ∈ k_cont s c -> p ∈ k_cont s' c).
Proof.
  intros Hbo [Hun Hl1 Hl2] Ht Hr Hb Hp Hst. pose proof (bo_next _ Hbo) as Hnx.
  destruct (thread_init_spec exit_addr t name entry 0 stack size prio tick s) as
    (s1 & E1 & Hok1 & Hse1 & Hh1 & Hg1 & Hsb & _ & Hreg & _ & Hpr & _ & Hoth); try done;
    [apply Hbo | by apply booting_settled | apply Hbo | apply Hbo | rewrite (bo_nest _ Hbo); lia | lia | by right |].
  destruct (boot_start t s1) as (s2 & E2 & Hbo2 & Hsd); [by eapply booting_grown | done | pose proof (gr_next _ _ Hg1); lia |].
  pose proof (sd_frame _ _ _ Hsd) as Hf.
  exists s1, s2. split; [done |]. split; [done |]. split; [done |]. split; [by rewrite (cf_cont _ _ Hf) |].
  split; [intros h; by rewrite (sd_lists _ _ _ Hsd), Hpr, (gr_lists _ _ Hg1) |]. split.
  - intros u Hu Hu2 Hsr. apply (static_started u t s1); [| done | done].
    eapply static_others; [exact Hsr | exact Hoth | done | lia | apply Hg1].
  - intros c p Hin. rewrite (cf_cont _ _ Hf). by apply Hg1.
Qed.

(** The thread that initialises the drivers: it is ready unless memory ran out. *)
Lemma boot_application s :
  booting s -> (forall h, k_lists s h = []) -> (forall n, stack_fits (heap_addr n) USER_INIT_THREAD_STACK_SIZE) ->
  exists s', rt_application_init s = Some (tt, s') /\ booting s' /\
    (exists q, (forall h, k_lists s' h = if decide (h = LReady 80) then q else []) /\
       forall t, t ∈ q -> (k_next s <= t)%nat) /\
    (forall u, (u < 2)%nat -> static_ready u s -> static_ready u s').
Proof.
  intros Hbo Hl Hst. unfold rt_application_init. pose proof (bo_next _ Hbo) as Hnx.
  destruct (thread_create_spec exit_addr heap_addr name_init_drv init_entry 0 USER_INIT_THREAD_STACK_SIZE 80 5 s)
    as (r & s1 & E1 & Hok1 & Hh1 & Hse1 & Hg1 & Hoth & Hcase);
    [apply Hbo | by apply booting_settled | apply Hbo | apply Hbo | rewrite (bo_nest _ Hbo); lia | right; set_solver
    | repeat constructor; lia | lia |].
  rewrite (run_bind _ _ _ _ _ E1).
  assert (booting s1) as Hbo1 by (by eapply booting_grown).
  assert (forall u, (u < 2)%nat -> static_ready u s -> static_ready u s1) as Hsr.
  { intros u Hu Hr. eapply static_others; [exact Hr | exact Hoth | lia | lia | apply Hg1]. }
  assert (r = None \/ r = Some (k_next s) /\ startable (k_next s) s1 /\ k_next s1 <> k_next s /\
    th_init_priority (k_thr s1 (k_next s)) = 80) as [-> | (-> & Hsb & Hne & Hpr)].
  { destruct (k_oom s (k_next s)); [left; apply Hcase |]. destruct (k_oom s (S (k_next s))); [left; apply Hcase |].
    right. destruct Hcase as (-> & _ & _ & Hreg & Hpr & Hsb). split; [done |]. split; [by apply Hsb |]. split; [| done].
    intros E. destruct (Hh1 (k_next s)) as [_ _ Hc]; [lia |]. by apply (proj1 (Hc RT_Object_Class_Thread)) in Hreg. }
  - exists s1. split; [done |]. split; [done |]. split; [| done]. exists []. split; [| by intros t Ht%elem_of_nil].
    intros h. rewrite (gr_lists _ _ Hg1), Hl. by case_decide.
  - pose proof (gr_next _ _ Hg1).
    destruct (boot_start (k_next s) s1) as (s2 & E2 & Hbo2 & Hsd); [done | done | lia |].
    rewrite (run_bind _ _ _ _ _ E2). exists s2. split; [done |]. split; [done |]. split.
    + exists [k_next s]. split; [| by intros t ->%list_elem_of_singleton].
      intros h. rewrite (sd_lists _ _ _ Hsd), Hpr, (gr_lists _ _ Hg1), Hl. done.
    + intros u Hu Hr. apply (static_started u (k_next s) s1); [by apply Hsr | done | lia].
Qed.

(** The soft timer lists are set up again. *)
Lemma boot_soft_lists s : booting s -> booting (set_k_soft_timer_list (replicate RT_TIMER_SKIP_LIST_LEVEL []) s).
Proof.
  intros [[Hs [Hh Hsf Hnd Hreg Hth Hac Hns Hfn] Hl] Hhp ? ? ? ?]. split; try done.
  - split; [by eapply sched_frame | | exact Hl]. split; try done.
    + exists []. done.
    + split; [apply Hnd | constructor].
    + intros p [Hp | Hp]; [apply Hreg; auto | by apply elem_of_nil in Hp].
    + intros t Hp. by apply elem_of_nil in Hp.
  - intros n Hn. destruct (Hhp n Hn) as [? ? ?]. by split.
Qed.

Lemma static_soft_lists u s : static_ready u s -> static_ready u (set_k_soft_timer_list (replicate RT_TIMER_SKIP_LIST_LEVEL []) s).
Proof. intros [[? ? ?] ? ?]. by split. Qed.

(** ** Theorems *)


End boot.

(** ** Witnesses *)

Definition loaded_example : kstate :=
  KState (fun _ => Object (replicate RT_NAME_MAX 0) 0 0) (fun _ => []) (fun _ => zero_thread)
    (fun _ => Timer (FnUser 0) 0 0 0) (fun _ => 0) (fun _ => Mutex 0 0 0 None) (fun _ => 0)
    (fun _ => Mailbox [] 0 0 0 0) (fun _ => MessageQueue (fun _ => None) (fun _ => []) 0 0 0 None None None)
    (fun _ => []) [] 0 None 0 0 0 0 0 [] [[]] 0 0 0 0 2 (fun _ => false) ext_zero.


End Boot.
