(* ===== verification/Mempool.v ===== *)
(** * Memory pools: [src/kernel/src/mempool.c]

    A pool cuts its memory into blocks of one size, each behind a word that
    links it in the free list or points to its pool.  A thread that finds no
    free block waits; the waiting list is a stack, the thread that came last is
    served first.  The hooks are not modelled. *)

From S2P Require Import Prelude KernelTypes Kservice RtList Scheduler Object Timer Thread TimerRun IpcList Sem Mailbox ThreadLife.
Import Kservice Scheduler KObject Timer Thread TimerRun IpcList ThreadLife.

Local Open Scope Z_scope.

Module Mempool.

(** ** Operations *)

Definition pool (s : kstate) (m : nat) : rt_mempool := x_mp (k_ext s) m.
Definition word_at (s : kstate) (a : Z) : word := x_word (k_ext s) a.
Definition store_word (a : Z) (w : word) : kstate -> kstate :=
  alter_ext (fun x => set_x_word (fupd a w (x_word x)) x).

(** [rt_set_errno] of kservice.c; [__rt_errno] is not modelled. *)
Definition rt_set_errno (error : Z) : K unit :=
  nest ← gets k_interrupt_nest;
  if negb (nest =? 0) then skip
  else
    tid ← rt_thread_self;
    match tid with None => skip | Some t => modify (alter_thr t (set_th_error error)) end.

(** The loop that links every block to the next. *)
Fixpoint mp_link_loop (n : nat) (offset start stride : Z) (w : Z -> word) : Z -> word :=
  match n with
  | O => w
  | S n => mp_link_loop n (offset + 1) start stride
      (fupd (u32 (start + offset * stride)) (WAddr (u32 (start + (offset + 1) * stride))) w)
  end.

(** The free list of [total] blocks; the last store ends it. *)
Definition mp_link_blocks (start stride total : Z) (w : Z -> word) : Z -> word :=
  fupd (u32 (start + (total - 1) * stride)) (WAddr 0) (mp_link_loop (Z.to_nat total) 0 start stride w).

(** The fields both initialisations set last. *)
Definition mp_fresh (m : nat) (size block_size start total : Z) : K unit :=
  modify (alter_mp m (fun _ => Mempool size block_size start 0 total total 0));;
  modify (alter_list (LSuspend m) (fun _ => []));;
  modify (alter_ext (fun x =>
    set_x_word (mp_link_blocks start (u32 (block_size + 4)) total (x_word x)) x));;
  modify (alter_mp m (set_mp_block_list start)).

(** The division traps when the stride is 0 modulo 2^32. *)
Definition rt_mp_init (m : nat) (name : list Z) (start size block_size : Z) : K Z :=
  rt_object_init (Obj m) RT_Object_Class_MemPool name;;
  let size := RT_ALIGN_DOWN4 size in
  let block_size := RT_ALIGN4 block_size in
  let stride := u32 (block_size + 4) in
  RT_ASSERT (negb (stride =? 0));;
  mp_fresh m size block_size start (size / stride);;
  mret RT_EOK.

(** The loops of [rt_mp_detach] and [rt_mp_delete]. *)
Fixpoint mp_resume_loop (fuel : nat) (m : nat) : K unit :=
  match fuel with
  | O => fail
  | S fuel =>
      q ← gets (fun s => k_lists s (LSuspend m));
      match q with
      | [] => skip
      | t :: _ =>
          modify (alter_thr t (set_th_error RT_ERROR));;
          _ ← rt_thread_resume t;
          modify (alter_mp m (fun x => set_mp_suspend_thread_count (u32 (mp_suspend_thread_count x - 1)) x));;
          mp_resume_loop fuel m
      end
  end.

(** Every round takes the first thread out of the list. *)
Definition mp_resume_all (m : nat) : K unit :=
  n ← gets (fun s => length (k_lists s (LSuspend m))); mp_resume_loop (S n) m.

Definition rt_mp_detach (m : nat) : K Z :=
  assert_type (Obj m) RT_Object_Class_MemPool;;
  assert_s (rt_object_is_systemobject (Obj m));;
  mp_resume_all m;;
  rt_object_detach (Obj m);;
  mret RT_EOK.

(** [heap_addr]: the addresses of heap blocks. *)
Definition rt_mp_create (heap_addr : nat -> Z) (name : list Z) (block_count block_size : Z) : K (option nat) :=
  RT_DEBUG_NOT_IN_INTERRUPT;;
  mp ← rt_object_allocate RT_Object_Class_MemPool name;
  match mp with
  | None => mret None
  | Some m =>
      let block_size := RT_ALIGN4 block_size in
      let size := u32 (u32 (block_size + 4) * block_count) in
      modify (alter_mp m (set_mp_block_size block_size));;
      modify (alter_mp m (set_mp_size size));;
      start_address ← rt_malloc;
      match start_address with
      | None => rt_object_delete (Obj m);; mret None
      | Some b => mp_fresh m size block_size (heap_addr b) block_count;; mret (Some m)
      end
  end.

(** [rt_free] has no effect on the state modelled. *)
Definition rt_mp_delete (m : nat) : K Z :=
  RT_DEBUG_NOT_IN_INTERRUPT;;
  assert_type (Obj m) RT_Object_Class_MemPool;;
  assert_s (fun s => negb (rt_object_is_systemobject (Obj m) s));;
  mp_resume_all m;;
  rt_object_delete (Obj m);;
  mret RT_EOK.

(** [rt_mp_alloc] behind its loop: the first free block, or 0 ([RT_NULL]). *)
Definition mp_take (m : nat) : K Z :=
  modify (alter_mp m (fun x => set_mp_block_free_count (u32 (mp_block_free_count x - 1)) x));;
  block_ptr ← gets (fun s => mp_block_list (pool s m));
  RT_ASSERT (negb (block_ptr =? 0));;
  w ← gets (fun s => word_at s block_ptr);
  next ← lift (match w with WAddr a => Some a | WPool _ => None end);
  modify (alter_mp m (set_mp_block_list next));;
  modify (store_word block_ptr (WPool m));;
  mret (u32 (block_ptr + 4)).

(** [rt_mp_alloc] from the test of its loop. *)
Definition mp_alloc_loop (m : nat) (time : Z) : K (outcome Z) :=
  count ← gets (fun s => mp_block_free_count (pool s m));
  if count =? 0 then
    if time =? 0 then rt_set_errno RT_ETIMEOUT;; mret (Done 0)
    else
      RT_DEBUG_NOT_IN_INTERRUPT;;
      self ← rt_thread_self;
      t ← lift self;
      modify (alter_thr t (set_th_error RT_EOK));;
      _ ← rt_thread_suspend t;
      modify (alter_list (LSuspend m) (cons t));;
      modify (alter_mp m (fun x => set_mp_suspend_thread_count (u32 (mp_suspend_thread_count x + 1)) x));;
      block t time;;
      mret Waits
  else block_ptr ← mp_take m; mret (Done block_ptr).

Definition rt_mp_alloc (m : nat) (time : Z) : K (outcome Z) := mp_alloc_loop m time.

(** What thread [t] does behind the [rt_schedule] of [rt_mp_alloc]; its wait began
    at the tick [before_sleep]. *)
Definition rt_mp_alloc_after (m t : nat) (time before_sleep : Z) : K (outcome Z) :=
  error ← gets (fun s => th_error (k_thr s t));
  if negb (error =? RT_EOK) then mret (Done 0)
  else
    tick ← rt_tick_get;
    mp_alloc_loop m (Mailbox.remaining_timeout time tick before_sleep).

(** The word before the block names its pool. *)
Definition rt_mp_free (block : Z) : K unit :=
  let block_ptr := u32 (block - 4) in
  w ← gets (fun s => word_at s block_ptr);
  m ← lift (match w with WPool m => Some m | WAddr _ => None end);
  modify (alter_mp m (fun x => set_mp_block_free_count (u32 (mp_block_free_count x + 1)) x));;
  first ← gets (fun s => mp_block_list (pool s m));
  modify (store_word block_ptr (WAddr first));;
  modify (alter_mp m (set_mp_block_list block_ptr));;
  count ← gets (fun s => mp_suspend_thread_count (pool s m));
  if 0 <? count then
    t ← tlist_first (LSuspend m);
    modify (alter_thr t (set_th_error RT_EOK));;
    _ ← rt_thread_resume t;
    modify (alter_mp m (fun x => set_mp_suspend_thread_count (u32 (mp_suspend_thread_count x - 1)) x));;
    rt_schedule
  else skip.

(** ** The invariant *)

Definition mp_stride (x : rt_mempool) : Z := u32 (mp_block_size x + 4).

Definition mp_blocks (x : rt_mempool) : list Z :=
  map (fun i => mp_start_address x + Z.of_nat i * mp_stride x) (seq 0 (Z.to_nat (mp_block_total_count x))).

(** The blocks [l] are linked from the address [a] on. *)
Fixpoint wchain (w : Z -> word) (a : Z) (l : list Z) : Prop :=
  match l with
  | [] => a = 0
  | b :: l => a = b /\ b <> 0 /\ exists n, w b = WAddr n /\ wchain w n l
  end.

(** The blocks [fr] are free, in the order in which they will be given out. *)
Record mp_ok (m : nat) (fr : list Z) (s : kstate) : Prop := {
  po_type : rt_object_get_type (Obj m) s = RT_Object_Class_MemPool;
  po_start : 0 < mp_start_address (pool s m);
  po_stride : 4 < mp_stride (pool s m);
  po_total : 0 <= mp_block_total_count (pool s m) < 2 ^ 32;
  po_end : mp_start_address (pool s m) + mp_block_total_count (pool s m) * mp_stride (pool s m) <= 2 ^ 32;
  po_chain : wchain (word_at s) (mp_block_list (pool s m)) fr;
  po_nodup : NoDup fr;
  po_blocks : fr ⊆ mp_blocks (pool s m);
  po_used : forall b, b ∈ mp_blocks (pool s m) -> b ∉ fr -> word_at s b = WPool m;
  po_count : mp_block_free_count (pool s m) = zlen fr
}.

(** The count of waiting threads is right. *)
Definition mp_counted (m : nat) (s : kstate) : Prop :=
  mp_suspend_thread_count (pool s m) = zlen (k_lists s (LSuspend m)) /\
  zlen (k_lists s (LSuspend m)) < 2 ^ 32 - 1.

Lemma core_mp m f s : core_ok s -> core_ok (alter_mp m f s).
Proof. apply core_ext. Qed.

Lemma pool_alter m f s : pool (alter_mp m f s) m = f (pool s m).
Proof. unfold pool. simpl. by rewrite fupd_eq. Qed.

Lemma pool_store m a w s : pool (store_word a w s) m = pool s m.
Proof. done. Qed.

Lemma word_alter m f s a : word_at (alter_mp m f s) a = word_at s a.
Proof. done. Qed.

Lemma word_store a w s b : word_at (store_word a w s) b = if decide (b = a) then w else word_at s b.
Proof. done. Qed.

#[local] Hint Rewrite pool_alter pool_store word_alter word_store : mp.

Lemma wchain_store w a v b l : a ∉ l -> wchain w b l -> wchain (fun x => if decide (x = a) then v else w x) b l.
Proof.
  revert b. induction l as [| c l IH]; simpl; intros b Ha; [done |]. intros (-> & Hc & n & Hn & Hl).
  split; [done |]. split; [done |]. exists n. rewrite decide_False by set_solver. split; [done |].
  apply IH; [set_solver | done].
Qed.

Lemma wchain_ext w w' b l : (forall x, x ∈ l -> w' x = w x) -> wchain w b l -> wchain w' b l.
Proof.
  revert b. induction l as [| c l IH]; simpl; intros b H; [done |]. intros (-> & Hc & n & Hn & Hl).
  split; [done |]. split; [done |]. exists n. rewrite H by set_solver. split; [done |].
  apply IH; [set_solver | done].
Qed.

Lemma mp_blocks_elem x b : 0 <= mp_block_total_count x -> b ∈ mp_blocks x <->
  exists i, 0 <= i < mp_block_total_count x /\ b = mp_start_address x + i * mp_stride x.
Proof.
  intros Ht. unfold mp_blocks. rewrite list_elem_of_fmap. split.
  - intros (i & -> & Hi%elem_of_seq). exists (Z.of_nat i). split; [lia | done].
  - intros (i & Hi & ->). exists (Z.to_nat i). rewrite Z2Nat.id by lia. split; [done |]. apply elem_of_seq. lia.
Qed.

Lemma mp_blocks_nodup x : 0 < mp_stride x -> NoDup (mp_blocks x).
Proof.
  intros Hs. unfold mp_blocks. apply NoDup_fmap_2; [| apply NoDup_ListNoDup, seq_NoDup].
  intros i j E. nia.
Qed.

(** Blocks lie inside the memory of the pool. *)
Lemma mp_block_range m fr s b : mp_ok m fr s -> b ∈ mp_blocks (pool s m) -> 0 < b /\ b + mp_stride (pool s m) <= 2 ^ 32.
Proof.
  intros H. pose proof (po_start _ _ _ H). pose proof (po_stride _ _ _ H). pose proof (po_total _ _ _ H).
  pose proof (po_end _ _ _ H). rewrite mp_blocks_elem by lia. intros (i & Hi & ->). nia.
Qed.

(** A pool as it was but for the free list. *)
Lemma mp_ok_change m fr fr' s s' :
  mp_ok m fr s -> rt_object_get_type (Obj m) s' = rt_object_get_type (Obj m) s ->
  mp_start_address (pool s' m) = mp_start_address (pool s m) ->
  mp_block_size (pool s' m) = mp_block_size (pool s m) ->
  mp_block_total_count (pool s' m) = mp_block_total_count (pool s m) ->
  wchain (word_at s') (mp_block_list (pool s' m)) fr' -> NoDup fr' -> fr' ⊆ mp_blocks (pool s m) ->
  (forall b, b ∈ mp_blocks (pool s m) -> b ∉ fr' -> word_at s' b = WPool m) ->
  mp_block_free_count (pool s' m) = zlen fr' -> mp_ok m fr' s'.
Proof.
  intros [] E1 E2 E3 E4. assert (mp_blocks (pool s' m) = mp_blocks (pool s m)) as Eb.
  { unfold mp_blocks, mp_stride. by rewrite E2, E3, E4. }
  intros. split; rewrite ?E1, ?E2, ?E4, ?Eb; unfold mp_stride in *; rewrite ?E3; done.
Qed.

(** Operations of the kernel core leave a pool alone. *)
Lemma mp_ok_frame m fr s s' : mp_ok m fr s -> core_frame s s' -> mp_ok m fr s'.
Proof.
  intros H Hf. pose proof (cf_ext _ _ Hf) as E. destruct H.
  split; unfold pool, word_at in *; rewrite ?E; try done. by rewrite (core_get_type _ _ _ Hf).
Qed.

(** ** Giving out and taking back *)

(** [mp_take] takes the first free block. *)
Lemma mp_take_spec m b fr s :
  mp_ok m (b :: fr) s -> exists s', mp_take m s = Some (b + 4, s') /\ mp_ok m fr s' /\ s' = set_k_ext (k_ext s') s /\
    mp_suspend_thread_count (pool s' m) = mp_suspend_thread_count (pool s m) /\ b + 4 <> 0.
Proof.
  intros H. pose proof (po_chain _ _ _ H) as (Eb & Hb0 & n & Hw & Hch).
  pose proof (po_nodup _ _ _ H) as [Hbf Hnd]%NoDup_cons. pose proof (po_blocks _ _ _ H) as Hin.
  assert (b ∈ mp_blocks (pool s m)) as Hb by set_solver.
  pose proof (mp_block_range _ _ _ _ H Hb) as Hr. pose proof (po_stride _ _ _ H) as Hst.
  unfold mp_take. krun. set (s1 := alter_mp m _ s).
  assert (mp_block_list (pool s1 m) = b) as E1 by (unfold s1; by rewrite pool_alter).
  rewrite E1. rewrite (proj2 (Z.eqb_neq b 0)) by done. change (negb false) with true. krun.
  change (word_at s1 b) with (word_at s b). rewrite Hw. krun. rewrite (wrap_small 32 (b + 4)) by lia.
  eexists. split; [reflexivity |]. set (s2 := store_word _ _ _).
  assert (pool s2 m = set_mp_block_list n (set_mp_block_free_count (u32 (mp_block_free_count (pool s m) - 1)) (pool s m))) as E2.
  { unfold s2. by rewrite pool_store, pool_alter; unfold s1; rewrite pool_alter. }
  split; [| split; [done | split; [by rewrite E2 | lia]]].
  apply (mp_ok_change m (b :: fr) fr s); [exact H |..]; rewrite ?E2; try done.
  - apply (wchain_store (word_at s)); [done |]. exact Hch.
  - set_solver.
  - intros c Hc Hcf. unfold s2. rewrite word_store. case_decide; [done |].
    apply (po_used _ _ _ H); [done | set_solver].
  - cbn [mp_block_free_count set_mp_block_list set_mp_block_free_count]. rewrite (po_count _ _ _ H).
    cbn [length]. replace (Z.of_nat (S (length fr)) - 1) with (zlen fr) by lia. apply wrap_small.
    pose proof (po_total _ _ _ H).
    assert (length (b :: fr) <= length (mp_blocks (pool s m)))%nat as Hl.
    { apply submseteq_length, NoDup_submseteq; [apply (po_nodup _ _ _ H) | exact Hin]. }
    unfold mp_blocks in Hl. rewrite length_map, length_seq in Hl. cbn [length] in Hl. lia.
Qed.

(** The state after a used block is linked in the free list. *)
Lemma mp_put_spec m b fr s :
  mp_ok m fr s -> b ∈ mp_blocks (pool s m) -> b ∉ fr ->
  mp_ok m (b :: fr) (alter_mp m (set_mp_block_list b) (store_word b (WAddr (mp_block_list (pool s m)))
    (alter_mp m (fun x => set_mp_block_free_count (u32 (mp_block_free_count x + 1)) x) s))).
Proof.
  intros H Hb Hbf. set (s' := alter_mp _ _ _). pose proof (mp_block_range _ _ _ _ H Hb) as Hr.
  assert (pool s' m = set_mp_block_list b (set_mp_block_free_count (u32 (mp_block_free_count (pool s m) + 1)) (pool s m))) as E.
  { unfold s'. by rewrite pool_alter, pool_store, pool_alter. }
  assert (forall c, word_at s' c = if decide (c = b) then WAddr (mp_block_list (pool s m)) else word_at s c) as Ew by done.
  assert (NoDup (b :: fr)) as Hnd by (constructor; [done | apply (po_nodup _ _ _ H)]).
  assert (b :: fr ⊆ mp_blocks (pool s m)) as Hsub by (pose proof (po_blocks _ _ _ H); set_solver).
  apply (mp_ok_change m fr (b :: fr) s); [exact H |..]; rewrite ?E; try done.
  - split; [done |]. split; [lia |]. exists (mp_block_list (pool s m)). rewrite Ew, decide_True by done.
    split; [done |]. eapply wchain_ext; [| apply (po_chain _ _ _ H)]. intros x Hx. rewrite Ew, decide_False; [done |].
    by intros ->.
  - intros c Hc Hcf. rewrite Ew, decide_False by set_solver. apply (po_used _ _ _ H); [done | set_solver].
  - cbn [mp_block_free_count set_mp_block_list set_mp_block_free_count]. rewrite (po_count _ _ _ H).
    cbn [length]. rewrite wrap_small; [lia |]. pose proof (po_total _ _ _ H).
    assert (length (b :: fr) <= length (mp_blocks (pool s m)))%nat as Hl by (by apply submseteq_length, NoDup_submseteq).
    unfold mp_blocks in Hl. rewrite length_map, length_seq in Hl. cbn [length] in Hl. lia.
Qed.

(** ** Initialisation *)

Lemma mp_link_other n offset start stride w a :
  (forall i, offset <= i -> a <> start + i * stride) -> 0 < start -> 0 < stride -> 0 <= offset ->
  start + (offset + Z.of_nat n) * stride <= 2 ^ 32 ->
  mp_link_loop n offset start stride w a = w a.
Proof.
  revert offset w. induction n as [| n IH]; intros offset w Ha Hs Hst Ho He; [done |]. simpl.
  rewrite IH; [| intros i Hi; apply Ha; lia | lia | lia | lia | lia].
  rewrite fupd_ne; [done |]. rewrite wrap_small by nia. by apply Ha.
Qed.

Lemma mp_link_at n offset start stride w i :
  0 < start -> 0 < stride -> 0 <= offset -> start + (offset + Z.of_nat n) * stride <= 2 ^ 32 ->
  offset <= i < offset + Z.of_nat n ->
  mp_link_loop n offset start stride w (start + i * stride) = WAddr (u32 (start + (i + 1) * stride)).
Proof.
  revert offset w. induction n as [| n IH]; intros offset w Hs Hst Ho He Hi; [lia |]. simpl.
  destruct (decide (i = offset)) as [-> | Hne].
  - rewrite mp_link_other; [| intros j Hj; nia | lia | lia | lia | lia].
    rewrite (wrap_small 32 (start + offset * stride)) by nia. by rewrite fupd_eq.
  - apply IH; lia.
Qed.

(** The blocks from number [i] on are linked. *)
Lemma mp_link_chain k i start stride total w :
  0 < start -> 0 < stride -> 0 <= i -> 0 < total -> i + Z.of_nat k = total -> start + total * stride <= 2 ^ 32 ->
  wchain (mp_link_blocks start stride total w) (if i =? total then 0 else start + i * stride)
    (map (fun j => start + Z.of_nat j * stride) (seq (Z.to_nat i) k)).
Proof.
  intros Hs Hst. revert i. induction k as [| k IH]; intros i Hi Ht Ek He.
  - simpl. replace (i =? total) with true by lia. done.
  - replace (i =? total) with false by lia. cbn [seq map]. rewrite Z2Nat.id by lia.
    split; [done |]. split; [nia |].
    exists (if i + 1 =? total then 0 else start + (i + 1) * stride). split.
    + unfold mp_link_blocks. rewrite (wrap_small 32 (start + (total - 1) * stride)) by nia.
      destruct (Z.eqb_spec (i + 1) total) as [E | E].
      * replace (total - 1) with i by lia. by rewrite fupd_eq.
      * rewrite fupd_ne by nia. rewrite mp_link_at by lia. f_equal. apply wrap_small. nia.
    + replace (S (Z.to_nat i)) with (Z.to_nat (i + 1)) by lia. apply IH; lia.
Qed.

(** What [mp_fresh] makes: every block is free. *)
Lemma mp_fresh_spec m size bs start total s :
  core_ok s -> rt_object_get_type (Obj m) s = RT_Object_Class_MemPool ->
  0 < start -> 0 < bs -> bs + 4 < 2 ^ 32 -> 0 < total -> start + total * (bs + 4) <= 2 ^ 32 ->
  exists s', mp_fresh m size bs start total s = Some (tt, s') /\ core_ok s' /\
    pool s' m = Mempool size bs start start total total 0 /\ k_lists s' (LSuspend m) = [] /\
    mp_ok m (mp_blocks (pool s' m)) s' /\ mp_counted m s' /\
    s' = set_k_ext (k_ext s') (set_k_lists (k_lists s') s).
Proof.
  intros Hok Hty Hs Hb Hb2 Ht He. unfold mp_fresh. krun. eexists. split; [reflexivity |].
  set (s1 := alter_list _ _ _). set (s' := alter_mp m (set_mp_block_list start) _).
  assert (pool s' m = Mempool size bs start start total total 0) as Ep.
  { unfold s'. rewrite pool_alter. change (pool (alter_ext ?f s1) m) with (pool s1 m).
    change (pool s1 m) with (pool (alter_mp m (fun _ => Mempool size bs start 0 total total 0) s) m).
    by rewrite pool_alter. }
  assert (k_lists s' (LSuspend m) = []) as El by (simpl; by rewrite fupd_eq).
  split; [do 2 apply core_ext; apply core_clear_list; [by apply core_mp | done] |].
  split; [done |]. split; [done |]. split; [| split; [by split; rewrite ?Ep, El | done]].
  assert (mp_stride (pool s' m) = bs + 4) as Est by (unfold mp_stride; rewrite Ep; apply wrap_small; cbn [mp_block_size]; lia).
  assert (mp_blocks (pool s' m) = map (fun i => start + Z.of_nat i * (bs + 4)) (seq 0 (Z.to_nat total))) as Ebl.
  { unfold mp_blocks. rewrite Est, Ep. done. }
  split; rewrite ?Est; rewrite ?Ep; cbn [mp_start_address mp_block_total_count mp_block_list mp_block_free_count]; try done; try nia.
  - rewrite <- Ep, Ebl. pose proof (mp_link_chain (Z.to_nat total) 0 start (bs + 4) total (word_at s)) as H.
    rewrite (proj2 (Z.eqb_neq 0 total)), Z.add_0_r in H by lia. 
    eapply wchain_ext; [| apply H; lia]. intros x _. unfold word_at, s'. simpl. rewrite (wrap_small 32 (bs + 4)) by lia. done.
  - rewrite <- Ep. apply mp_blocks_nodup. rewrite Est. lia.
  - rewrite <- Ep, Ebl, length_map, length_seq. lia.
Qed.

(** Registration of an object at a loose address keeps the kernel consistent. *)
Lemma object_init_core m type name s :
  core_ok s -> settled s -> 0 <= k_lock_nest s < 32767 -> loose m s -> In type rt_object_container ->
  Obj m ∉ k_cont s type -> length (o_name (k_obj s (Obj m))) = RT_NAME_MAX -> readable RT_NAME_MAX name ->
  exists s', rt_object_init (Obj m) type name s = Some (tt, s') /\ core_ok s' /\
    o_type (k_obj s' (Obj m)) = Z.lor type RT_Object_Class_Static /\ k_ext s' = k_ext s /\ grown s s'.
Proof.
  intros Hok Hse Hn Hlo Hty Hc Hl Hr.
  destruct (rt_object_init_spec (Obj m) type name s) as (s1 & E1 & Ec & Eo & Es); [done.. |].
  exists s1. split; [done |].
  assert (grown s s1) as Hg.
  { split; try (rewrite Es; done); try (rewrite Es; simpl; auto; done).
    intros c p Hp. rewrite Ec. unfold fupd. case_decide; [subst; by apply list_elem_of_further | done]. }
  split; [| split; [by rewrite Eo, decide_True | split; [by rewrite Es | done]]].
  eapply core_elsewhere; [exact Hok | done | done | | |].
  - split; [intros p Hp _; by rewrite Eo, decide_False |]. split; [by rewrite Es |]. split; [by rewrite Es |].
    split; [by rewrite Es |]. intros c p. rewrite Ec. unfold fupd. case_decide; [| auto]. subst. rewrite elem_of_cons. naive_solver.
  - pose proof (loose_state m s Hok Hlo) as H. unfold schedulable, th_state in *. by rewrite Es.
  - intros H. unfold rt_object_get_type in H. rewrite Eo, decide_False in * by done.
    replace (k_tmr s1) with (k_tmr s) by by rewrite Es. by apply (tk_fn _ (co_timers _ _ Hok)).
Qed.

(** ** Waiting *)

(** Thread [t] waits for a block of pool [m], in front of the threads that came before it. *)
Record mp_waits (m t : nat) (time : Z) (s s' : kstate) : Prop := {
  mpw_list : k_lists s' (LSuspend m) = t :: k_lists s (LSuspend m);
  mpw_lists : forall h, h <> LSuspend m -> k_lists s' h = lremove t (k_lists s h);
  mpw_state : th_state s' t = RT_THREAD_SUSPEND /\ th_error (k_thr s' t) = RT_EOK;
  mpw_others : forall u, u <> t -> k_thr s' u = k_thr s u;
  mpw_timer : if 0 <? time
    then ThreadTimer t ∈ hard s' /\ tm_timeout_tick (k_tmr s' (ThreadTimer t)) = u32 (k_tick s + u32 time)
    else ThreadTimer t ∉ hard s';
  mpw_current : exists u, k_current s' = Some u /\ u <> t;
  mpw_irq : k_interrupt_nest s' = k_interrupt_nest s
}.

(** The thread that waits leaves the ready list for the front of the waiting list. *)
Lemma suspend_front_spec m t s :
  core_ok s -> th_state s t = RT_THREAD_READY ->
  exists s1, rt_thread_suspend t s = Some (RT_EOK, s1) /\ suspended t s s1 /\
    core_ok (alter_list (LSuspend m) (cons t) s1) /\ k_lists s1 (LSuspend m) = k_lists s (LSuspend m) /\
    th_state s1 t = RT_THREAD_SUSPEND.
Proof.
  intros Hok Hst. destruct (thread_suspend_spec t s Hok Hst) as (s1 & E1 & [H1 H2 H3] & Hsu & Hst1).
  exists s1. split; [done |]. split; [done |].
  assert (k_lists s1 (LSuspend m) = k_lists s (LSuspend m)) as El.
  { rewrite (su_lists _ _ _ Hsu). apply lremove_id. intros Hin.
    rewrite (wait_head_state s (LSuspend m) t Hok I Hin) in Hst. done. }
  split; [| done]. split; [| by eapply timers_frame | by eapply live_frame].
  eapply (sched_link t (LSuspend m) s1); try done.
  - simpl. by rewrite fupd_eq.
  - intros k Hk. simpl. by rewrite fupd_ne.
  - intros _. rewrite (su_self _ _ _ Hsu). destruct Hok as [[Ht _] _ _]. split.
    + apply set_state_masks, (th_masks _ _ Ht); [done | by left].
    + rewrite set_state_stack. apply (th_stack _ _ Ht); [done | by left].
Qed.

Lemma mp_alloc_waits m t time s :
  core_ok s -> mp_ok m [] s -> mp_counted m s -> may_wait t s -> time <> 0 -> time < RT_TICK_MAX / 2 ->
  exists s', rt_mp_alloc m time s = Some (Waits, s') /\ core_ok s' /\ mp_ok m [] s' /\
    mp_suspend_thread_count (pool s' m) = zlen (k_lists s (LSuspend m)) + 1 /\ mp_waits m t time s s'.
Proof.
  intros Hok Hmp [Hcnt Hlt] [Hc Hst Hl Hi (u & Hu & Hur)] Ht0 Htm.
  unfold rt_mp_alloc, mp_alloc_loop, RT_DEBUG_NOT_IN_INTERRUPT, rt_thread_self. krun.
  rewrite (po_count _ _ _ Hmp). change (zlen [] =? 0) with true. cbv iota.
  rewrite (proj2 (Z.eqb_neq time 0)) by done. rewrite bind_assert_s by (by rewrite Hi). krun.
  rewrite Hc. krun. set (s0 := alter_thr t (set_th_error RT_EOK) s).
  assert (th_state s0 t = RT_THREAD_READY) as Hst0 by (unfold th_state, s0; by rewrite alter_thr_lookup, decide_True).
  destruct (suspend_front_spec m t s0) as (s1 & E1 & Hsu & Hok1 & El1 & Hst1);
    [by apply core_alter_same; [apply same_error |] | done |].
  rewrite (run_bind _ _ _ _ _ E1). krun.
  set (s2 := alter_mp m _ (alter_list (LSuspend m) (cons t) s1)).
  assert (core_frame s s1) as Hf by (eapply core_frame_trans; [| apply Hsu]; by split).
  destruct (block_spec t time u s2) as (s3 & E3 & Hok3 & [Bl Bt Bf Btm Bc]).
  { by apply core_mp. } { done. } { exact (su_timer _ _ _ Hsu). } { by rewrite (su_current _ _ _ Hsu : k_current s2 = _). }
  { by rewrite (cf_lock _ _ Hf : k_lock_nest s2 = _). }
  { unfold th_state. change (k_thr s2 u) with (k_thr s1 u). rewrite (su_other _ _ _ Hsu) by done.
    unfold s0. rewrite alter_thr_lookup, decide_False by done. exact Hur. }
  { done. }
  rewrite (run_bind _ _ _ _ _ E3). exists s3. split; [done |]. split; [done |].
  assert (pool s1 m = pool s m) as Ep by (unfold pool; by rewrite (cf_ext _ _ Hf)).
  assert (k_ext s3 = k_ext s2) as Ee by apply (cf_ext _ _ Bf).
  assert (pool s3 m = set_mp_suspend_thread_count (u32 (mp_suspend_thread_count (pool s m) + 1)) (pool s m)) as Ep3.
  { unfold pool at 1. rewrite Ee. fold (pool s2 m). unfold s2. rewrite pool_alter.
    change (pool (alter_list _ _ s1) m) with (pool s1 m). by rewrite Ep. }
  assert (word_at s3 = word_at s) as Ew.
  { unfold word_at. rewrite Ee. simpl. by rewrite (cf_ext _ _ Hf). }
  split; [| split].
  - apply (mp_ok_change m [] [] s); [done |..]; rewrite ?Ep3, ?Ew; try apply Hmp; try done.
    rewrite (core_get_type _ _ _ Bf). exact (core_get_type _ _ (Obj m) Hf).
  - rewrite Ep3. cbn [mp_suspend_thread_count set_mp_suspend_thread_count]. rewrite Hcnt. apply wrap_small. lia.
  - split; rewrite ?Bl, ?Bt.
    + simpl. rewrite fupd_eq. by rewrite El1.
    + intros h Hh. simpl. rewrite fupd_ne by done. apply Hsu.
    + split; [unfold th_state; rewrite Bt; exact Hst1 |]. change (k_thr s2 t) with (k_thr s1 t).
      rewrite (su_self _ _ _ Hsu). unfold s0. by rewrite alter_thr_lookup, decide_True.
    + intros v Hv. change (k_thr s2 v) with (k_thr s1 v). rewrite (su_other _ _ _ Hsu) by done.
      unfold s0. by rewrite alter_thr_lookup, decide_False.
    + rewrite <- (cf_tick _ _ Hf). exact Btm.
    + exact Bc.
    + rewrite (cf_irq _ _ Bf). exact (cf_irq _ _ Hf).
Qed.

(** [rt_mp_free] up to the test of the waiting threads. *)
Lemma mp_free_enter m b fr s :
  mp_ok m fr s -> b ∈ mp_blocks (pool s m) -> b ∉ fr ->
  exists s1, mp_ok m (b :: fr) s1 /\ s1 = set_k_ext (k_ext s1) s /\
    mp_suspend_thread_count (pool s1 m) = mp_suspend_thread_count (pool s m) /\
    rt_mp_free (b + 4) s = (if 0 <? mp_suspend_thread_count (pool s m) then
      t ← tlist_first (LSuspend m);
      modify (alter_thr t (set_th_error RT_EOK));;
      _ ← rt_thread_resume t;
      modify (alter_mp m (fun x => set_mp_suspend_thread_count (u32 (mp_suspend_thread_count x - 1)) x));;
      rt_schedule
    else skip) s1.
Proof.
  intros Hmp Hb Hbf. pose proof (mp_block_range _ _ _ _ Hmp Hb) as Hr. pose proof (po_stride _ _ _ Hmp) as Hst.
  eexists. split; [by apply (mp_put_spec m b fr s) |]. split; [done |].
  split; [by rewrite pool_alter, pool_store, pool_alter |].
  unfold rt_mp_free. replace (b + 4 - 4) with b by lia. rewrite (wrap_small 32 b) by lia. krun.
  rewrite (po_used _ _ _ Hmp b Hb Hbf). krun.
  rewrite pool_alter. cbn [mp_block_list set_mp_block_free_count].
  rewrite pool_alter, pool_store, pool_alter. done.
Qed.

Lemma mp_free_idle m b fr s :
  core_ok s -> mp_ok m fr s -> b ∈ mp_blocks (pool s m) -> b ∉ fr -> mp_suspend_thread_count (pool s m) = 0 ->
  exists s', rt_mp_free (b + 4) s = Some (tt, s') /\ core_ok s' /\ mp_ok m (b :: fr) s' /\ s' = set_k_ext (k_ext s') s.
Proof.
  intros Hok Hmp Hb Hbf Hc. destruct (mp_free_enter m b fr s Hmp Hb Hbf) as (s1 & H1 & E1 & _ & E). exists s1.
  rewrite E, Hc. split; [done |]. split; [| done]. rewrite E1. by apply core_ext.
Qed.

(** The first waiting thread gets the block. *)
Lemma mp_free_wakes m b fr t q s :
  core_ok s -> is_Some (k_current s) -> mp_ok m fr s -> mp_counted m s -> b ∈ mp_blocks (pool s m) -> b ∉ fr ->
  k_lists s (LSuspend m) = t :: q ->
  exists s', rt_mp_free (b + 4) s = Some (tt, s') /\ core_ok s' /\ mp_ok m (b :: fr) s' /\ mp_counted m s' /\
    k_lists s' (LSuspend m) = q /\ th_state s' t = RT_THREAD_READY /\ th_error (k_thr s' t) = RT_EOK /\
    (forall u, u <> t -> k_thr s' u = k_thr s u) /\ is_Some (k_current s').
Proof.
  intros Hok Hcur Hmp [Hc Hlt] Hb Hbf Hq. destruct (mp_free_enter m b fr s Hmp Hb Hbf) as (s1 & H1 & E1 & Ec1 & E).
  rewrite E, Hc, Hq. cbn [length]. rewrite (proj2 (Z.ltb_lt 0 _)) by lia. unfold tlist_first. krun.
  assert (core_ok s1) as Hok1 by (rewrite E1; by apply core_ext).
  assert (k_lists s1 = k_lists s /\ k_thr s1 = k_thr s /\ k_current s1 = k_current s) as (El1 & Et1 & Ecu1) by (by rewrite E1).
  rewrite El1, Hq. change (head (t :: q)) with (Some t). krun.
  set (s2 := alter_thr t (set_th_error RT_EOK) s1).
  assert (core_ok s2) as Hok2 by (by apply core_alter_same; [apply same_error |]).
  assert (k_lists s2 (LSuspend m) = t :: q) as Hq2 by (by rewrite <- Hq, <- El1).
  assert (th_state s2 t = RT_THREAD_SUSPEND) as Hst2.
  { apply (wait_head_state s2 (LSuspend m)); [done | done |]. rewrite Hq2. apply list_elem_of_here. }
  destruct (thread_resume_spec t s2 Hok2 Hst2) as (s3 & E3 & Hok3 & Hmr).
  rewrite (run_bind _ _ _ _ _ E3). krun. set (s4 := alter_mp m _ s3).
  assert (core_ok s4) as Hok4 by by apply core_mp.
  assert (th_state s4 t = RT_THREAD_READY) as Hst4.
  { change (th_state s4 t) with (th_state s3 t). by rewrite (made_ready_state _ _ _ _ _ Hmr), decide_True. }
  destruct (rt_schedule_total s4) as (s' & E' & Hsw & Hc').
  { apply Hok4. }
  { change (is_Some (k_current s3)). rewrite (mr_current _ _ _ _ Hmr). change (is_Some (k_current s1)). by rewrite Ecu1. }
  { apply (ready_some_ready _ t); [apply Hok4 | done]. }
  exists s'. split; [done |]. split; [by eapply switched_core_ok |].
  pose proof (switched_core _ _ Hsw) as Hf'. pose proof (mr_frame _ _ _ _ Hmr) as Hf3.
  assert (k_lists s' = k_lists s3 /\ k_thr s' = k_thr s3) as [El Et] by (by destruct Hsw as (? & ? & ? & ? & ->)).
  assert (pool s3 m = pool s1 m) as Ep3 by (unfold pool; by rewrite (cf_ext _ _ Hf3)).
  assert (pool s' m = set_mp_suspend_thread_count (u32 (mp_suspend_thread_count (pool s m) - 1)) (pool s1 m)) as Ep.
  { unfold pool at 1. rewrite (cf_ext _ _ Hf'). fold (pool s4 m). unfold s4. by rewrite pool_alter, Ep3, Ec1. }
  assert (word_at s' = word_at s1) as Ew.
  { unfold word_at. rewrite (cf_ext _ _ Hf'). simpl. by rewrite (cf_ext _ _ Hf3). }
  assert (k_lists s' (LSuspend m) = q) as Eq.
  { rewrite El, (mr_lists _ _ _ _ Hmr), decide_False by done. rewrite Hq2. apply lremove_head.
    pose proof (th_nodup _ _ (proj1 (co_sched _ _ Hok)) (LSuspend m)) as Hnd. rewrite Hq in Hnd. by apply NoDup_cons in Hnd as [? _]. }
  split.
  { apply (mp_ok_change m (b :: fr) (b :: fr) s1); [done |..]; rewrite ?Ep, ?Ew; try apply H1; try done.
    rewrite (core_get_type _ _ _ Hf'). exact (core_get_type _ _ (Obj m) Hf3). }
  split.
  { split; rewrite Eq; [rewrite Ep; cbn [mp_suspend_thread_count set_mp_suspend_thread_count] |];
      rewrite Hq in Hc, Hlt; cbn [length] in Hc, Hlt; [| lia].
    rewrite Hc. replace (Z.of_nat (S (length q)) - 1) with (zlen q) by lia. apply wrap_small. lia. }
  split; [done |]. split; [unfold th_state; by rewrite Et |].
  split; [rewrite Et, (mr_self _ _ _ _ Hmr); unfold s2; by rewrite alter_thr_lookup, decide_True |].
  split; [| done]. intros v Hv. rewrite Et, (mr_other _ _ _ _ Hmr) by done. unfold s2. by rewrite alter_thr_lookup, decide_False, Et1.
Qed.

(** ** Theorems *)

(** C17: [rt_mp_init] cuts the memory into as many blocks as fit with
    their header words: the blocks lie inside the memory, one stride apart, all
    of them are free and nobody waits. *)
Theorem rt_mp_init_formats m name start size block_size s :
  core_ok s -> settled s -> 0 <= k_lock_nest s < 32767 -> loose m s ->
  Obj m ∉ k_cont s RT_Object_Class_MemPool -> length (o_name (k_obj s (Obj m))) = RT_NAME_MAX ->
  readable RT_NAME_MAX name ->
  let bs := RT_ALIGN4 block_size in
  let total := RT_ALIGN_DOWN4 size / (bs + 4) in
  0 < start -> 0 < bs -> bs + 4 < 2 ^ 32 -> 0 < total -> start + RT_ALIGN_DOWN4 size <= 2 ^ 32 ->
  exists s', rt_mp_init m name start size block_size s = Some (RT_EOK, s') /\ core_ok s' /\
    mp_ok m (mp_blocks (pool s' m)) s' /\ mp_counted m s' /\ k_lists s' (LSuspend m) = [] /\
    zlen (mp_blocks (pool s' m)) = total /\
    forall b, b ∈ mp_blocks (pool s' m) <->
      exists i, 0 <= i < total /\ b = start + i * (bs + 4) /\ start <= b /\ b + (bs + 4) <= start + RT_ALIGN_DOWN4 size.
Proof.
  intros Hok Hse Hn Hlo Hc Hl Hr bs total Hs Hb Hb2 Ht He.
  assert (total * (bs + 4) <= RT_ALIGN_DOWN4 size) as Hfit.
  { unfold total. rewrite Z.mul_comm. apply Z.mul_div_le. lia. }
  unfold rt_mp_init. fold bs.
  destruct (object_init_core m RT_Object_Class_MemPool name s) as (s1 & E1 & Hok1 & Hty1 & _ & Hg); [done.. | simpl; tauto | done | done | done |].
  rewrite (run_bind _ _ _ _ _ E1), (wrap_small 32 (bs + 4)) by lia.
  rewrite (proj2 (Z.eqb_neq (bs + 4) 0)) by lia. change (negb false) with true. krun. fold total.
  destruct (mp_fresh_spec m (RT_ALIGN_DOWN4 size) bs start total s1) as (s2 & E2 & Hok2 & Ep & El & Hmp & Hcn & _);
    [done | unfold rt_object_get_type; by rewrite Hty1 | done | done | done | done | lia |].
  rewrite (run_bind _ _ _ _ _ E2). exists s2. split; [done |]. split; [done |]. split; [done |]. split; [done |].
  split; [done |]. assert (mp_stride (pool s2 m) = bs + 4) as Est by (unfold mp_stride; rewrite Ep; apply wrap_small; cbn [mp_block_size]; lia).
  split.
  - unfold mp_blocks. rewrite length_map, length_seq, Ep. cbn [mp_block_total_count]. lia.
  - intros b. rewrite mp_blocks_elem, Est, Ep by (rewrite Ep; cbn [mp_block_total_count]; lia).
    cbn [mp_block_total_count mp_start_address]. split; [| naive_solver].
    intros (i & Hi & ->). exists i. split; [done |]. split; [done |]. nia.
Qed.


(** C18: a thread that finds no free block and waits is put in front of
    the waiting list, its timer armed, and another thread runs; [rt_mp_free]
    with waiting threads makes the first of them, the one that came last, ready
    with the error RT_EOK, and its call, when it goes on first, answers exactly
    the block that was freed. *)
Theorem rt_mp_alloc_waits m t time s :
  core_ok s -> mp_ok m [] s -> mp_counted m s -> may_wait t s -> time <> 0 -> time < RT_TICK_MAX / 2 ->
  exists s1, rt_mp_alloc m time s = Some (Waits, s1) /\ core_ok s1 /\ mp_ok m [] s1 /\
    mp_waits m t time s s1 /\
    forall s2 b q before, core_ok s2 -> mp_ok m [] s2 -> mp_counted m s2 -> is_Some (k_current s2) ->
      k_lists s2 (LSuspend m) = t :: q -> b ∈ mp_blocks (pool s2 m) ->
      exists s3 s4, rt_mp_free (b + 4) s2 = Some (tt, s3) /\ core_ok s3 /\ mp_counted m s3 /\
        k_lists s3 (LSuspend m) = q /\ th_state s3 t = RT_THREAD_READY /\ (forall u, u <> t -> k_thr s3 u = k_thr s2 u) /\
        rt_mp_alloc_after m t time before s3 = Some (Done (b + 4), s4) /\ core_ok s4 /\ mp_ok m [] s4 /\ mp_counted m s4.
Proof.
  intros Hok Hmp Hcn Hmw Ht Htm.
  destruct (mp_alloc_waits m t time s Hok Hmp Hcn Hmw Ht Htm) as (s1 & E1 & Hok1 & Hmp1 & _ & Hw).
  exists s1. split; [done |]. split; [done |]. split; [done |]. split; [done |].
  intros s2 b q before Hok2 Hmp2 Hcn2 Hc2 Hq Hb.
  destruct (mp_free_wakes m b [] t q s2) as (s3 & E3 & Hok3 & Hmp3 & Hcn3 & El3 & Hst3 & He3 & Ho3 & Hc3);
    [done.. | apply not_elem_of_nil | done |].
  destruct (mp_take_spec m b [] s3 Hmp3) as (s4 & E4 & Hmp4 & Es4 & Ec4 & _).
  exists s3, s4. do 6 (split; [done |]). split; [| split; [| split; [done |]]].
  - unfold rt_mp_alloc_after, rt_tick_get, mp_alloc_loop. krun. rewrite He3.
    change (negb (RT_EOK =? RT_EOK)) with false. cbv iota. krun. rewrite (po_count _ _ _ Hmp3).
    change (zlen [b] =? 0) with false. cbv iota. by rewrite (run_bind _ _ _ _ _ E4).
  - rewrite Es4. by apply core_ext.
  - destruct Hcn3 as [H1 H2]. split; [rewrite Ec4, H1 |]; by rewrite Es4.
Qed.

(** C19: a wait that times out leaves the pool counting one waiting
    thread too many, since [rt_mp_alloc] returns without taking back the
    increment of [suspend_thread_count]: when the only waiting thread [t] timed
    out, its call answers NULL, and the next [rt_mp_free] of a block in use
    takes the head of the empty waiting list for a thread. *)
Theorem rt_mp_timeout_breaks_free m t time before b s :
  core_ok s -> mp_ok m [] s -> mp_counted m s -> k_lists s (LSuspend m) = [t] -> ThreadTimer t ∉ hard s ->
  is_Some (k_current s) -> b ∈ mp_blocks (pool s m) ->
  exists s1, rt_thread_timeout (Z.of_nat t) s = Some (tt, s1) /\ core_ok s1 /\ mp_ok m [] s1 /\
    th_state s1 t = RT_THREAD_READY /\
    rt_mp_alloc_after m t time before s1 = Some (Done 0, s1) /\
    k_lists s1 (LSuspend m) = [] /\ mp_suspend_thread_count (pool s1 m) = 1 /\
    rt_mp_free (b + 4) s1 = None.
Proof.
  intros Hok Hmp [Hcn _] Hl Hno Hc Hb.
  destruct (thread_timeout_spec t s Hok) as (s0 & s1 & E & Hok1 & Hmr & Hsw & _ & _); [| done | done |].
  { apply (wait_head_state s (LSuspend m)); [done | done |]. rewrite Hl. apply list_elem_of_here. }
  pose proof (core_frame_trans _ _ _ (mr_frame _ _ _ _ Hmr) (switched_core _ _ Hsw)) as Hf.
  assert (k_lists s1 = k_lists s0 /\ k_thr s1 = k_thr s0) as [El Et] by (by destruct Hsw as (? & ? & ? & ? & ->)).
  assert (pool s1 m = pool s m) as Ep by (unfold pool; by rewrite (cf_ext _ _ Hf)).
  assert (mp_ok m [] s1) as Hmp1 by by eapply mp_ok_frame.
  assert (k_lists s1 (LSuspend m) = []) as El1.
  { rewrite El, (mr_lists _ _ _ _ Hmr), decide_False, Hl by done. apply lremove_head, not_elem_of_nil. }
  assert (mp_suspend_thread_count (pool s1 m) = 1) as Hc1 by (by rewrite Ep, Hcn, Hl).
  exists s1. split; [done |]. split; [done |]. split; [done |].
  split; [unfold th_state; rewrite Et; fold (th_state s0 t); by rewrite (made_ready_state _ _ _ _ _ Hmr), decide_True |].
  split; [unfold rt_mp_alloc_after; krun; by rewrite Et, (mr_self _ _ _ _ Hmr) |].
  split; [done |]. split; [done |].
  destruct (mp_free_enter m b [] s1) as (s2 & _ & Es2 & _ & E2); [done | by rewrite Ep | apply not_elem_of_nil |].
  rewrite E2, Hc1. change (0 <? 1) with true. cbv iota. unfold tlist_first. krun.
  assert (k_lists s2 = k_lists s1) as -> by by rewrite Es2. by rewrite El1.
Qed.

(** ** Witnesses *)

Lemma run_some {A} (k : K A) s a s' : k s = Some (a, s') -> run k s = s'.
Proof. intros E. unfold run. by rewrite E. Qed.

(** An object that is neither a thread in use nor a running timer may change. *)
Lemma core_alter_obj n f s :
  core_ok s -> ~ schedulable s n -> Obj n ∉ hard s -> Obj n ∉ soft s -> core_ok (alter_obj (Obj n) f s).
Proof.
  intros [H1 [Hh Hs Hnd Hreg Hth Hac Hns Hfn] H3] Hn Hh' Hs'. split; [by eapply sched_frame | split; try done |].
  - intros p Hp. destruct (Hreg p Hp) as [Hc Hty]. split; [done |]. unfold rt_object_get_type in *. simpl.
    rewrite fupd_ne; [done |]. intros ->. destruct Hp; done.
  - intros u Hu. destruct (H3 u Hu) as (H4 & H5 & H6). unfold rt_object_get_type in *. simpl.
    rewrite fupd_ne; [done |]. intros [= ->]. done.
Qed.

(** A pool of four blocks of 12 bytes. *)
Definition example_pool : kstate :=
  run (mp_fresh 16 64 12 0x1000 4) (alter_obj (Obj 16) (set_o_type 0x88) example).

Lemma example_pool_ok :
  core_ok example_pool /\ mp_ok 16 [4096; 4112; 4128; 4144] example_pool /\ mp_counted 16 example_pool.
Proof.
  assert (core_ok (alter_obj (Obj 16) (set_o_type 0x88) example)) as Hok.
  { apply core_alter_obj; [apply example_core | | |]; vm_compute; [intros [H | H]; discriminate | apply not_elem_of_nil..]. }
  destruct (mp_fresh_spec 16 64 12 0x1000 4 _ Hok) as (s' & E & Hok' & Ep & _ & Hmp & Hc & _);
    [vm_compute; reflexivity | lia.. |].
  unfold example_pool. rewrite (run_some _ _ _ _ E). split; [done |]. split; [| done].
  rewrite Ep in Hmp. exact Hmp.
Qed.

(** The same, with all blocks in use. *)
Definition example_full : kstate :=
  run (mp_take 16) (run (mp_take 16) (run (mp_take 16) (run (mp_take 16) example_pool))).

Lemma mp_take_run m b fr s : core_ok s /\ mp_ok m (b :: fr) s /\ mp_counted m s ->
  core_ok (run (mp_take m) s) /\ mp_ok m fr (run (mp_take m) s) /\ mp_counted m (run (mp_take m) s).
Proof.
  intros (Hok & Hmp & H1 & H2). destruct (mp_take_spec m b fr s Hmp) as (s' & E & Hmp' & Es & Ec & _).
  rewrite (run_some _ _ _ _ E). split; [rewrite Es; by apply core_ext |]. split; [done |].
  split; [rewrite Ec, H1 |]; by rewrite Es.
Qed.

Lemma example_full_ok : core_ok example_full /\ mp_ok 16 [] example_full /\ mp_counted 16 example_full.
Proof. unfold example_full. do 4 eapply mp_take_run. apply example_pool_ok. Qed.

Lemma example_full_may_wait : may_wait 2 example_full.
Proof. split; try (vm_compute; reflexivity). exists 3%nat. split; [lia | vm_compute; reflexivity]. Qed.

Lemma rt_mp_init_formats_witness :
  exists s', rt_mp_init 16 [112; 0] 0x1000 66 10 example = Some (RT_EOK, s') /\ core_ok s' /\
    mp_ok 16 (mp_blocks (pool s' 16)) s' /\ mp_counted 16 s' /\ k_lists s' (LSuspend 16) = [] /\
    zlen (mp_blocks (pool s' 16)) = 4 /\
    forall b, b ∈ mp_blocks (pool s' 16) <->
      exists i, 0 <= i < 4 /\ b = 0x1000 + i * 16 /\ 0x1000 <= b /\ b + 16 <= 0x1000 + 64.
Proof.
  apply (rt_mp_init_formats 16 [112; 0] 0x1000 66 10 example);
    [apply example_core | apply example_settled | vm_compute; split; [discriminate | reflexivity] | | vm_compute; apply not_elem_of_nil
    | reflexivity | right; set_solver | vm_compute; reflexivity.. | vm_compute; discriminate].
  split.
  - intros h Hin. pose proof (th_listed _ _ (proj1 (co_sched _ _ example_core)) h _ Hin) as H.
    destruct h; vm_compute in H; [destruct H | ..]; discriminate.
  - change (Obj 16 ∉ Obj 15 :: map ThreadTimer [0; 1; 2; 3; 4]%nat). set_solver.
  - change (ThreadTimer 16 ∉ Obj 15 :: map ThreadTimer [0; 1; 2; 3; 4]%nat). set_solver.
Defined.


(** A thread that waited with a time limit, as the timer check leaves it to its timeout function. *)
Definition example_timed_out : kstate :=
  run (_rt_timer_remove (ThreadTimer 2)) (run (rt_mp_alloc 16 5) example_full).

Lemma example_timed_out_ok :
  core_ok example_timed_out /\ mp_ok 16 [] example_timed_out /\ mp_counted 16 example_timed_out /\
  k_lists example_timed_out (LSuspend 16) = [2]%nat /\ ThreadTimer 2 ∉ hard example_timed_out /\
  is_Some (k_current example_timed_out).
Proof.
  destruct example_full_ok as (H1 & H2 & H3).
  destruct (mp_alloc_waits 16 2 5 example_full H1 H2 H3 example_full_may_wait) as (s' & E & Hok & Hmp & Hc & Hw); [lia | done |].
  assert (k_lists example_full (LSuspend 16) = []) as El by (vm_compute; reflexivity).
  assert (k_lists s' (LSuspend 16) = [2]%nat) as El' by (rewrite (mpw_list _ _ _ _ _ Hw), El; done).
  unfold example_timed_out. rewrite (run_some _ _ _ _ E). split; [by apply core_remove_timer |].
  split; [by apply (mp_ok_frame 16 [] s'); [| split] |]. rewrite El in Hc.
  split; [by split; [change (mp_suspend_thread_count (pool s' 16) = zlen (k_lists s' (LSuspend 16))) | change (zlen (k_lists s' (LSuspend 16)) < 2 ^ 32 - 1)]; rewrite El' |].
  split; [done |]. split.
  - unfold hard, _rt_timer_remove, run, modify. simpl. rewrite concat_premove, RtList.ListQ.elem_remove. tauto.
  - destruct (mpw_current _ _ _ _ _ Hw) as (u & Hu & _). exists u. exact Hu.
Qed.

Lemma rt_mp_alloc_waits_witness :
  exists s1, rt_mp_alloc 16 5 example_full = Some (Waits, s1) /\ core_ok s1 /\ mp_ok 16 [] s1 /\
    mp_waits 16 2 5 example_full s1 /\
    forall s2 b q before, core_ok s2 -> mp_ok 16 [] s2 -> mp_counted 16 s2 -> is_Some (k_current s2) ->
      k_lists s2 (LSuspend 16) = 2%nat :: q -> b ∈ mp_blocks (pool s2 16) ->
      exists s3 s4, rt_mp_free (b + 4) s2 = Some (tt, s3) /\ core_ok s3 /\ mp_counted 16 s3 /\
        k_lists s3 (LSuspend 16) = q /\ th_state s3 2 = RT_THREAD_READY /\ (forall u, u <> 2%nat -> k_thr s3 u = k_thr s2 u) /\
        rt_mp_alloc_after 16 2 5 before s3 = Some (Done (b + 4), s4) /\ core_ok s4 /\ mp_ok 16 [] s4 /\ mp_counted 16 s4.
Proof.
  destruct example_full_ok as (H1 & H2 & H3).
  apply (rt_mp_alloc_waits 16 2 5 example_full); [done | done | done | apply example_full_may_wait | lia | reflexivity].
Defined.

Lemma rt_mp_timeout_breaks_free_witness :
  exists s1, rt_thread_timeout 2 example_timed_out = Some (tt, s1) /\ core_ok s1 /\ mp_ok 16 [] s1 /\
    th_state s1 2 = RT_THREAD_READY /\
    rt_mp_alloc_after 16 2 5 100 s1 = Some (Done 0, s1) /\
    k_lists s1 (LSuspend 16) = [] /\ mp_suspend_thread_count (pool s1 16) = 1 /\
    rt_mp_free (4096 + 4) s1 = None.
Proof.
  destruct example_timed_out_ok as (H1 & H2 & H3 & H4 & H5 & H6).
  apply (rt_mp_timeout_breaks_free 16 2 5 100 4096 example_timed_out); [done.. |].
  vm_compute. apply list_elem_of_here.
Defined.

End Mempool.
