(* ===== verification/Completion.v ===== *)
(** * Completions: [src/kernel/utilities/completion.c]

    A completion counts the [rt_completion_done]s that no wait has used yet; the
    largest count, set by [rt_completion_all], stands for any number of them.  A
    thread that waits for a count of 0 is put at the end of the waiting list. *)

From S2P Require Import Prelude KernelTypes RtList Scheduler Object Timer Thread TimerRun IpcList.
Import Scheduler KObject Timer Thread TimerRun IpcList.

Local Open Scope Z_scope.

Module Completion.

(** ** Operations *)

Definition UINT_MAX : Z := 2 ^ 32 - 1.

Definition flag (s : kstate) (c : nat) : Z := x_cpl (k_ext s) c.
Definition set_flag (c : nat) (v : Z) : kstate -> kstate :=
  alter_ext (fun x => set_x_cpl (fupd c v (x_cpl x)) x).

Definition rt_completion_init (c : nat) : K unit :=
  modify (set_flag c 0);;
  modify (alter_list (LSuspend c) (fun _ => [])).

(** The end of [rt_completion_wait], "clean completed flag". *)
Definition completion_clean (c : nat) : K unit :=
  f ← gets (fun s => flag s c);
  if f =? UINT_MAX then skip else modify (set_flag c (u32 (f - 1))).

Definition rt_completion_wait (c : nat) (timeout : Z) : K (outcome Z) :=
  self ← rt_thread_self;
  f ← gets (fun s => flag s c);
  if f =? 0 then
    if timeout =? 0 then mret (Done (- RT_ETIMEOUT))
    else
      thread ← lift self;
      modify (alter_thr thread (set_th_error RT_EOK));;
      suspend_back (LSuspend c) thread;;
      RT_DEBUG_NOT_IN_INTERRUPT;;
      block thread timeout;;
      mret Waits
  else completion_clean c;; mret (Done RT_EOK).

(** What [thread] does behind the [rt_schedule] of [rt_completion_wait]. *)
Definition rt_completion_wait_after (c thread : nat) : K Z :=
  error ← gets (fun s => th_error (k_thr s thread));
  f ← gets (fun s => flag s c);
  if f =? 0 then mret (- error) else completion_clean c;; mret (- error).

Definition rt_completion_done (c : nat) : K unit :=
  f ← gets (fun s => flag s c);
  (if f =? UINT_MAX then skip else modify (set_flag c (u32 (f + 1))));;
  wake_first (LSuspend c).

(** The loop of [rt_completion_all]; every round takes the first thread out of the list. *)
Fixpoint completion_resume_loop (fuel : nat) (c : nat) : K unit :=
  match fuel with
  | O => fail
  | S fuel =>
      q ← gets (fun s => k_lists s (LSuspend c));
      match q with
      | [] => skip
      | t :: _ => _ ← rt_thread_resume t; completion_resume_loop fuel c
      end
  end.

Definition rt_completion_all (c : nat) : K unit :=
  modify (set_flag c UINT_MAX);;
  q ← gets (fun s => k_lists s (LSuspend c));
  completion_resume_loop (S (length q)) c;;
  match q with [] => skip | _ :: _ => rt_schedule end.

Definition rt_reinit_completion (c : nat) : K unit := modify (set_flag c 0).

(** ** The state of a completion *)

(** The kernel is consistent and the completion [c] counts [v]. *)
Definition counts (c : nat) (v : Z) (s : kstate) : Prop := core_ok s /\ flag s c = v.

Lemma flag_set c v s : flag (set_flag c v s) c = v.
Proof. unfold flag, set_flag. simpl. by rewrite fupd_eq. Qed.

Lemma flag_set_ne c d v s : d <> c -> flag (set_flag c v s) d = flag s d.
Proof. intros H. unfold flag, set_flag. simpl. by rewrite fupd_ne. Qed.

Lemma flag_frame c s s' : core_frame s s' -> flag s' c = flag s c.
Proof. intros Hf. unfold flag. by rewrite (cf_ext _ _ Hf). Qed.

Lemma core_set_flag c v s : core_ok s -> core_ok (set_flag c v s).
Proof. apply core_ext. Qed.

(** *** Taking one *)

Lemma completion_clean_spec c v s :
  counts c v s -> 0 < v <= UINT_MAX ->
  exists s', completion_clean c s = Some (tt, s') /\ s' = set_k_ext (k_ext s') s /\
    counts c (if v =? UINT_MAX then v else v - 1) s' /\ forall d, d <> c -> flag s' d = flag s d.
Proof.
  intros [Hok Hv] Hr. unfold completion_clean. krun. rewrite Hv. destruct (v =? UINT_MAX) eqn:E; cbv iota.
  - exists s. by destruct s.
  - eexists. split; [reflexivity |]. split; [done |]. rewrite wrap_small by (unfold UINT_MAX in *; lia).
    split; [split; [by apply core_set_flag | apply flag_set] | intros d Hd; by apply flag_set_ne].
Qed.

(** The thread whose wait is over. *)
Lemma wait_after_spec c t v s :
  counts c v s -> 0 <= v <= UINT_MAX ->
  exists s', rt_completion_wait_after c t s = Some (- th_error (k_thr s t), s') /\ s' = set_k_ext (k_ext s') s /\
    counts c (if v =? UINT_MAX then v else Z.max 0 (v - 1)) s'.
Proof.
  intros [Hok Hv] Hr. unfold rt_completion_wait_after. krun. rewrite Hv. destruct (Z.eqb_spec v 0) as [E | E].
  - exists s. subst v. rewrite E. change (0 =? UINT_MAX) with false. by destruct s.
  - destruct (completion_clean_spec c v s) as (s' & E1 & Es & Hc & _); [done | lia |].
    exists s'. rewrite (run_bind _ _ _ _ _ E1). split; [done |]. split; [done |].
    destruct (v =? UINT_MAX); [done |]. by replace (Z.max 0 (v - 1)) with (v - 1) by lia.
Qed.

(** *** Waiting *)

Lemma completion_waits c t time s :
  counts c 0 s -> may_wait t s -> time <> 0 -> time < RT_TICK_MAX / 2 ->
  exists s', rt_completion_wait c time s = Some (Waits, s') /\ counts c 0 s' /\
    now_waits t (LSuspend c) RT_IPC_FLAG_FIFO time (alter_thr t (set_th_error RT_EOK) s) s' /\
    th_error (k_thr s' t) = RT_EOK.
Proof.
  intros [Hok Hv] Hmw Ht0 Ht.
  destruct (wait_reset_spec (LSuspend c) t time s Hok Hmw I Ht) as (s1 & s' & E1 & Hi & E & Hok' & Hnw & He & Hf).
  exists s'. split; [| split; [split; [done | by rewrite (flag_frame _ _ _ Hf)] | by split]].
  unfold rt_completion_wait, RT_DEBUG_NOT_IN_INTERRUPT, rt_thread_self. krun.
  rewrite Hv. change (0 =? 0) with true. cbv iota. rewrite (proj2 (Z.eqb_neq time 0)) by done. cbv iota.
  rewrite (mw_current _ _ Hmw). krun. rewrite (run_bind _ _ _ _ _ E1).
  rewrite bind_assert_s by (by rewrite Hi). by rewrite (run_bind _ _ _ _ _ E).
Qed.

(** *** Completing *)

Lemma completion_done_spec c v s :
  counts c v s -> 0 <= v <= UINT_MAX -> is_Some (k_current s) ->
  exists s0 s', rt_completion_done c s = Some (tt, s') /\ counts c (Z.min (v + 1) UINT_MAX) s' /\
    s0 = set_k_ext (k_ext s0) s /\ woken_first (LSuspend c) s0 s'.
Proof.
  intros [Hok Hv] Hr Hc. unfold rt_completion_done. krun. rewrite Hv.
  set (s0 := if v =? UINT_MAX then s else set_flag c (v + 1) s).
  assert (core_ok s0 /\ flag s0 c = Z.min (v + 1) UINT_MAX /\ s0 = set_k_ext (k_ext s0) s) as (Hok0 & Hv0 & Es0).
  { unfold s0. destruct (Z.eqb_spec v UINT_MAX); [split; [done |]; split; [lia | by destruct s] |].
    split; [by apply core_set_flag |]. split; [rewrite flag_set; lia | done]. }
  destruct (wake_first_spec (LSuspend c) s0) as (s' & E & Hok' & Hw); [done | done | by rewrite Es0 |].
  exists s0, s'. split; [| split; [split; [done |] | done]].
  - rewrite <- E. unfold s0. destruct (Z.eqb_spec v UINT_MAX); krun; [done |].
    by rewrite wrap_small by (unfold UINT_MAX in *; lia).
  - by rewrite (flag_frame _ _ _ (wf_frame _ _ _ Hw)).
Qed.

(** Every waiting thread is ready, and keeps its error. *)
Record all_woken (c : nat) (s s' : kstate) : Prop := {
  aw_list : k_lists s' (LSuspend c) = [];
  aw_ready : forall t, t ∈ k_lists s (LSuspend c) -> th_state s' t = RT_THREAD_READY;
  aw_error : forall t, th_error (k_thr s' t) = th_error (k_thr s t);
  aw_other : forall t, t ∉ k_lists s (LSuspend c) -> k_thr s' t = k_thr s t;
  aw_frame : core_frame s s';
  aw_current : k_current s' = k_current s
}.

Lemma completion_resume_loop_spec c q s fuel :
  core_ok s -> k_lists s (LSuspend c) = q -> (length q < fuel)%nat ->
  exists s', completion_resume_loop fuel c s = Some (tt, s') /\ core_ok s' /\ all_woken c s s' /\
    (forall t, t ∈ q -> th_state s' t = RT_THREAD_READY).
Proof.
  revert s fuel. induction q as [| t q IH]; intros s fuel Hok Hq Hf; (destruct fuel as [| fuel]; [simpl in Hf; lia |]);
    simpl; krun; rewrite Hq.
  - exists s. split; [done |]. split; [done |]. split; [| intros t Ht; by apply elem_of_nil in Ht].
    split; try done. rewrite Hq. intros t Ht. by apply elem_of_nil in Ht.
  - assert (t ∈ k_lists s (LSuspend c)) as Hin by (rewrite Hq; apply list_elem_of_here).
    destruct (thread_resume_spec t s Hok) as (s1 & E1 & Hok1 & Hmr); [by apply (wait_head_state s (LSuspend c)) |].
    rewrite (run_bind _ _ _ _ _ E1).
    assert (k_lists s1 (LSuspend c) = q) as Hq1 by (by rewrite (mr_lists _ _ _ _ Hmr), decide_False, Hq, lremove_head
      by (try done; pose proof (th_nodup _ _ (proj1 (co_sched _ _ Hok)) (LSuspend c)) as H; rewrite Hq in H; by apply NoDup_cons in H as [? _])).
    destruct (IH s1 fuel Hok1 Hq1) as (s2 & E2 & Hok2 & Haw & Hr); [simpl in Hf; lia |].
    exists s2. split; [done |]. split; [done |].
    assert (forall u, u ∈ t :: q -> th_state s2 u = RT_THREAD_READY) as Hall.
    { intros u [-> |]%elem_of_cons; [| by apply Hr]. destruct (decide (t ∈ q)); [by apply Hr |].
      unfold th_state. rewrite (aw_other _ _ _ Haw) by (by rewrite Hq1). fold (th_state s1 t).
      by rewrite (made_ready_state _ _ _ _ _ Hmr), decide_True. }
    split; [| done]. split.
    + apply Haw.
    + rewrite Hq. done.
    + intros u. rewrite (aw_error _ _ _ Haw). destruct (decide (u = t)) as [-> |].
      * by rewrite (mr_self _ _ _ _ Hmr).
      * by rewrite (mr_other _ _ _ _ Hmr).
    + intros u Hu. rewrite Hq in Hu. apply not_elem_of_cons in Hu as [Hut Huq].
      rewrite (aw_other _ _ _ Haw) by (by rewrite Hq1). by apply Hmr.
    + eapply core_frame_trans; [apply Hmr | apply Haw].
    + rewrite (aw_current _ _ _ Haw). apply Hmr.
Qed.

Lemma completion_all_spec c s :
  core_ok s -> is_Some (k_current s) ->
  exists s', rt_completion_all c s = Some (tt, s') /\ counts c UINT_MAX s' /\
    k_lists s' (LSuspend c) = [] /\ (forall t, t ∈ k_lists s (LSuspend c) -> th_state s' t = RT_THREAD_READY) /\
    (forall t, th_error (k_thr s' t) = th_error (k_thr s t)).
Proof.
  intros Hok Hc. unfold rt_completion_all. krun. set (s0 := set_flag c UINT_MAX s).
  change (k_lists s0) with (k_lists s).
  destruct (completion_resume_loop_spec c (k_lists s (LSuspend c)) s0 (S (length (k_lists s (LSuspend c)))))
    as (s1 & E1 & Hok1 & Haw & Hr); [by apply core_set_flag | done | lia |].
  rewrite (run_bind _ _ _ _ _ E1).
  assert (flag s1 c = UINT_MAX) as Hf1 by (by rewrite (flag_frame _ _ _ (aw_frame _ _ _ Haw)); apply flag_set).
  destruct (k_lists s (LSuspend c)) as [| t q] eqn:Hq.
  - exists s1. split; [done |]. split; [done |]. split; [apply Haw |]. split; [done | apply Haw].
  - destruct (rt_schedule_total s1) as (s' & E' & Hsw & Hc'); [apply Hok1 | by rewrite (aw_current _ _ _ Haw) | |].
    { apply (ready_some_ready _ t); [apply Hok1 | apply Hr, list_elem_of_here]. }
    assert (k_lists s' = k_lists s1 /\ k_thr s' = k_thr s1) as [El Et] by (by destruct Hsw as (? & ? & ? & ? & ->)).
    exists s'. split; [done |]. split; [split; [by eapply switched_core_ok |] |].
    { by rewrite (flag_frame _ _ _ (switched_core _ _ Hsw)). }
    rewrite El. split; [apply Haw |]. unfold th_state in *. rewrite Et. split; [done | apply Haw].
Qed.

(** ** Theorems *)


(** [rt_completion_all] makes every waiting thread ready; all their waits
    answer success without using anything up, and so does every later wait,
    whatever its time limit, until the completion is initialised again. *)
Theorem rt_completion_all_releases c s :
  core_ok s -> is_Some (k_current s) ->
  exists s', rt_completion_all c s = Some (tt, s') /\ counts c UINT_MAX s' /\ k_lists s' (LSuspend c) = [] /\
    (forall t, t ∈ k_lists s (LSuspend c) -> th_error (k_thr s t) = RT_EOK ->
       th_state s' t = RT_THREAD_READY /\ rt_completion_wait_after c t s' = Some (RT_EOK, s')) /\
    (forall time, rt_completion_wait c time s' = Some (Done RT_EOK, s')) /\
    exists s'', rt_reinit_completion c s' = Some (tt, s'') /\ counts c 0 s'' /\
      rt_completion_wait c 0 s'' = Some (Done (- RT_ETIMEOUT), s'').
Proof.
  intros Hok Hc. destruct (completion_all_spec c s Hok Hc) as (s' & E & [Hok' Hf] & Hl & Hr & He).
  assert (completion_clean c s' = Some (tt, s')) as Ecl.
  { unfold completion_clean. krun. rewrite Hf. change (UINT_MAX =? UINT_MAX) with true. done. }
  exists s'. split; [done |]. split; [done |]. split; [done |]. split; [| split].
  - intros t Ht Ht0. split; [by apply Hr |]. unfold rt_completion_wait_after. krun. rewrite He, Ht0, Hf.
    change (UINT_MAX =? 0) with false. cbv iota. by rewrite (run_bind _ _ _ _ _ Ecl).
  - intros time. unfold rt_completion_wait, rt_thread_self. krun. rewrite Hf.
    change (UINT_MAX =? 0) with false. cbv iota. by rewrite (run_bind _ _ _ _ _ Ecl).
  - exists (set_flag c 0 s'). split; [done |]. split; [split; [by apply core_set_flag | apply flag_set] |].
    unfold rt_completion_wait, rt_thread_self. krun. by rewrite flag_set.
Qed.

(** C21: two orders of events for the only thread [t] waiting for a completion.
    When the wait times out and the completion comes before [t] runs again, [t]
    answers -RT_ETIMEOUT and still uses the completion up: it is lost.  When
    the completion comes first and another thread takes it before [t] runs,
    both waits answer success for one [rt_completion_done]. *)
Theorem rt_completion_races c t s :
  counts c 0 s -> k_lists s (LSuspend c) = [t] -> th_error (k_thr s t) = RT_EOK -> ThreadTimer t ∉ hard s ->
  is_Some (k_current s) ->
  (exists s1 s2 s3, rt_thread_timeout (Z.of_nat t) s = Some (tt, s1) /\ rt_completion_done c s1 = Some (tt, s2) /\
     counts c 1 s2 /\ rt_completion_wait_after c t s2 = Some (- RT_ETIMEOUT, s3) /\ counts c 0 s3) /\
  (exists s1 s2 s3, rt_completion_done c s = Some (tt, s1) /\ th_state s1 t = RT_THREAD_READY /\
     rt_completion_wait c 0 s1 = Some (Done RT_EOK, s2) /\ counts c 0 s2 /\
     rt_completion_wait_after c t s2 = Some (RT_EOK, s3) /\ counts c 0 s3).
Proof.
  intros Hcn Hl He Hno Hc. pose proof (proj1 Hcn) as Hok.
  assert (th_state s t = RT_THREAD_SUSPEND) as Hst.
  { apply (wait_head_state s (LSuspend c)); [done | done |]. rewrite Hl. apply list_elem_of_here. }
  split.
  - destruct (thread_timeout_spec t s Hok Hst Hno Hc) as (s0 & s1 & E1 & Hok1 & Hmr & Hsw & Hc1 & _).
    pose proof (core_frame_trans _ _ _ (mr_frame _ _ _ _ Hmr) (switched_core _ _ Hsw)) as Hf.
    assert (th_error (k_thr s1 t) = RT_ETIMEOUT) as He1.
    { destruct Hsw as (? & ? & ? & ? & ->). simpl. by rewrite (mr_self _ _ _ _ Hmr). }
    destruct (completion_done_spec c 0 s1) as (s0' & s2 & E2 & Hcn2 & Es & Hw);
      [split; [done | by rewrite (flag_frame _ _ _ Hf); apply Hcn] | done | done |].
    destruct (wait_after_spec c t 1 s2) as (s3 & E3 & _ & Hcn3); [done | done |].
    exists s1, s2, s3. split; [done |]. split; [done |]. split; [done |].
    rewrite E3, (wf_error _ _ _ Hw). assert (k_thr s0' = k_thr s1) as -> by (by rewrite Es). by rewrite He1.
  - destruct (completion_done_spec c 0 s Hcn) as (s0 & s1 & E1 & Hcn1 & Es & Hw); [done | done |].
    assert (k_lists s0 = k_lists s /\ k_thr s0 = k_thr s) as [El0 Et0] by (by rewrite Es).
    destruct (completion_clean_spec c 1 s1) as (s2 & E2 & Es2 & Hcn2 & _); [done | done |].
    exists s1, s2. eexists. split; [done |]. split; [by apply (wf_head _ _ _ Hw); rewrite El0, Hl |]. split.
    + unfold rt_completion_wait, rt_thread_self. krun. rewrite (proj2 Hcn1). change (Z.min (0 + 1) UINT_MAX =? 0) with false.
      cbv iota. by rewrite (run_bind _ _ _ _ _ E2).
    + split; [done |]. split; [| exact Hcn2]. unfold rt_completion_wait_after. krun. rewrite (proj2 Hcn2).
      change ((if 1 =? UINT_MAX then 1 else 1 - 1) =? 0) with true. cbv iota.
      assert (k_thr s2 = k_thr s1) as -> by (by rewrite Es2). by rewrite (wf_error _ _ _ Hw), Et0, He.
Qed.

(** ** Witnesses *)

Lemma example_completion c : counts c 0 (set_flag c 0 example).
Proof. split; [apply core_set_flag, example_core | apply flag_set]. Qed.

Lemma may_wait_flag t c v s : may_wait t s -> may_wait t (set_flag c v s).
Proof. intros [H1 H2 H3 H4 H5]. by split. Qed.


(** Thread 2 waits for the completion 16 with a time limit that its timer has reached. *)
Definition example_waited : kstate :=
  run (_rt_timer_remove (ThreadTimer 2)) (run (rt_completion_wait 16 5) (set_flag 16 0 example)).

Lemma example_waited_ok :
  counts 16 0 example_waited /\ k_lists example_waited (LSuspend 16) = [2]%nat /\
  th_error (k_thr example_waited 2) = RT_EOK /\ ThreadTimer 2 ∉ hard example_waited /\ is_Some (k_current example_waited).
Proof.
  destruct (completion_waits 16 2 5 (set_flag 16 0 example)) as (s' & E & [Hok Hf] & Hnw & He);
    [apply example_completion | apply may_wait_flag, example_may_wait | lia | reflexivity |].
  unfold example_waited. replace (run (rt_completion_wait 16 5) (set_flag 16 0 example)) with s' by (unfold run; by rewrite E).
  split; [split; [by apply core_remove_timer | exact Hf] |].
  split; [exact (nw_list _ _ _ _ _ _ Hnw) |]. split; [exact He |]. split.
  - unfold hard, _rt_timer_remove, run, modify. simpl. rewrite concat_premove, RtList.ListQ.elem_remove. tauto.
  - destruct (nw_current _ _ _ _ _ _ Hnw) as (u & Hu & _). exists u. exact Hu.
Qed.

Lemma rt_completion_all_releases_witness :
  exists s', rt_completion_all 16 example_waited = Some (tt, s') /\ counts 16 UINT_MAX s' /\ k_lists s' (LSuspend 16) = [] /\
    (forall t, t ∈ k_lists example_waited (LSuspend 16) -> th_error (k_thr example_waited t) = RT_EOK ->
       th_state s' t = RT_THREAD_READY /\ rt_completion_wait_after 16 t s' = Some (RT_EOK, s')) /\
    (forall time, rt_completion_wait 16 time s' = Some (Done RT_EOK, s')) /\
    exists s'', rt_reinit_completion 16 s' = Some (tt, s'') /\ counts 16 0 s'' /\
      rt_completion_wait 16 0 s'' = Some (Done (- RT_ETIMEOUT), s'').
Proof.
  destruct example_waited_ok as ([H1 H2] & H3 & H4 & H5 & H6).
  exact (rt_completion_all_releases 16 example_waited H1 H6).
Defined.

Lemma rt_completion_races_witness :
  (exists s1 s2 s3, rt_thread_timeout 2 example_waited = Some (tt, s1) /\ rt_completion_done 16 s1 = Some (tt, s2) /\
     counts 16 1 s2 /\ rt_completion_wait_after 16 2 s2 = Some (- RT_ETIMEOUT, s3) /\ counts 16 0 s3) /\
  (exists s1 s2 s3, rt_completion_done 16 example_waited = Some (tt, s1) /\ th_state s1 2 = RT_THREAD_READY /\
     rt_completion_wait 16 0 s1 = Some (Done RT_EOK, s2) /\ counts 16 0 s2 /\
     rt_completion_wait_after 16 2 s2 = Some (RT_EOK, s3) /\ counts 16 0 s3).
Proof.
  destruct example_waited_ok as (H1 & H2 & H3 & H4 & H5).
  exact (rt_completion_races 16 2 example_waited H1 H2 H3 H4 H5).
Defined.

End Completion.
