(* ===== verification/DataQueue.v ===== *)
(** * Data queues: [src/kernel/utilities/dataqueue.c]

    A ring of items between pushing and popping threads; [LSender n] and
    [LSuspend n] are [suspended_push_list] and [suspended_pop_list] of the queue
    [n].  The indices count items modulo 2^16 and are reduced modulo the size at
    every access.  The event function is a parameter. *)

From S2P Require Import Prelude KernelTypes RtList Scheduler Object Timer Thread TimerRun IpcList Sem ThreadLife ThreadEnd.
Import Scheduler KObject Timer Thread TimerRun IpcList ThreadEnd.

Local Open Scope Z_scope.

Module DataQueue.

(** ** Operations *)

Definition RT_DATAQUEUE_EVENT_POP : Z := 1.
Definition RT_DATAQUEUE_EVENT_PUSH : Z := 2.
Definition RT_DATAQUEUE_EVENT_LWM : Z := 3.

Definition dq (s : kstate) (n : nat) : rt_data_queue := x_dq (k_ext s) n.

(** The stores of [rt_data_queue_push] and the loads of [rt_data_queue_pop]; a
    size of 0 traps, a missing array is empty. *)
Definition dq_put (item : Z * Z) (x : rt_data_queue) : option rt_data_queue :=
  if dq_size x =? 0 then None
  else
    let i := Z.to_nat (dq_put_index x mod dq_size x) in
    if decide (i < length (dq_items x))%nat
    then Some (set_dq_put_index (u16 (dq_put_index x + 1)) (set_dq_items (<[i := item]> (dq_items x)) x))
    else None.

Definition dq_peek (x : rt_data_queue) : option (Z * Z) :=
  if dq_size x =? 0 then None else dq_items x !! Z.to_nat (dq_get_index x mod dq_size x).

(** [queue->put_index - queue->get_index], in [int]. *)
Definition dq_used (x : rt_data_queue) : Z := dq_put_index x - dq_get_index x.

Section Notify.

(** The functions behind the pointer [evt_notify]. *)
Variable evt_notify : Z -> nat -> Z -> K unit.

Definition dq_event (n : nat) (event : Z) : K unit :=
  f ← gets (fun s => dq_evt_notify (dq s n));
  match f with None => skip | Some f => evt_notify f n event end.

(** [garbage]: what the heap block holds. *)
Definition rt_data_queue_init (n : nat) (garbage : list (Z * Z)) (size lwm : Z) (notify : option Z) : K Z :=
  modify (alter_dq n (set_dq_evt_notify notify));;
  modify (alter_dq n (set_dq_size (u16 size)));;
  modify (alter_dq n (set_dq_lwm (u16 lwm)));;
  modify (alter_dq n (set_dq_get_index 0));;
  modify (alter_dq n (set_dq_put_index 0));;
  modify (alter_list (LSender n) (fun _ => []));;
  modify (alter_list (LSuspend n) (fun _ => []));;
  queue ← rt_malloc;
  match queue with
  | None => modify (alter_dq n (set_dq_items []));; mret (- RT_ENOMEM)
  | Some _ => modify (alter_dq n (set_dq_items (take (Z.to_nat (u16 size)) garbage)));; mret RT_EOK
  end.

(** The wait of both loops. *)
Definition dq_wait (h : lhead) (timeout : Z) : K unit :=
  RT_DEBUG_NOT_IN_INTERRUPT;;
  self ← rt_thread_self;
  thread ← lift self;
  modify (alter_thr thread (set_th_error RT_EOK));;
  suspend_back h thread;;
  block thread timeout.

Definition rt_data_queue_push (n : nat) (data_ptr data_size timeout : Z) : K (outcome Z) :=
  x ← gets (fun s => dq s n);
  if dq_used x =? dq_size x then
    if timeout =? 0 then mret (Done (- RT_ETIMEOUT))
    else dq_wait (LSender n) timeout;; mret Waits
  else
    x ← lift (dq_put (data_ptr, data_size) x);
    modify (alter_dq n (fun _ => x));;
    q ← gets (fun s => k_lists s (LSuspend n));
    match q with
    | [] => dq_event n RT_DATAQUEUE_EVENT_PUSH
    | _ :: _ => wake_first (LSuspend n)
    end;;
    mret (Done RT_EOK).

(** What [thread] does behind the [rt_schedule] of the push; every new wait has the
    whole time limit. *)
Definition rt_data_queue_push_after (n thread : nat) (data_ptr data_size timeout : Z) : K (outcome Z) :=
  error ← gets (fun s => th_error (k_thr s thread));
  if negb (- error =? RT_EOK) then mret (Done (- error))
  else rt_data_queue_push n data_ptr data_size timeout.

(** The result is the return value and the item stored through the pointers. *)
Definition rt_data_queue_pop (n : nat) (timeout : Z) : K (outcome (Z * option (Z * Z))) :=
  x ← gets (fun s => dq s n);
  if dq_get_index x =? dq_put_index x then
    if timeout =? 0 then mret (Done (- RT_ETIMEOUT, None))
    else dq_wait (LSuspend n) timeout;; mret Waits
  else
    item ← lift (dq_peek x);
    modify (alter_dq n (set_dq_get_index (u16 (dq_get_index x + 1))));;
    x ← gets (fun s => dq s n);
    (if dq_used x <=? dq_lwm x then
       wake_first (LSender n);;
       dq_event n RT_DATAQUEUE_EVENT_LWM
     else dq_event n RT_DATAQUEUE_EVENT_POP);;
    mret (Done (RT_EOK, Some item)).

Definition rt_data_queue_pop_after (n thread : nat) (timeout : Z) : K (outcome (Z * option (Z * Z))) :=
  error ← gets (fun s => th_error (k_thr s thread));
  if negb (- error =? RT_EOK) then mret (Done (- error, None))
  else rt_data_queue_pop n timeout.

Definition rt_data_queue_peak (n : nat) : K (Z * option (Z * Z)) :=
  x ← gets (fun s => dq s n);
  if dq_get_index x =? dq_put_index x then mret (- RT_EEMPTY, None)
  else item ← lift (dq_peek x); mret (RT_EOK, Some item).

(** The loops are those of [rt_ipc_list_resume_all]. *)
Definition rt_data_queue_reset (n : nat) : K unit :=
  rt_enter_critical;;
  _ ← rt_ipc_list_resume_all (LSuspend n);
  _ ← rt_ipc_list_resume_all (LSender n);
  rt_exit_critical;;
  rt_schedule.

(** ** The queue that the ring holds *)

(** The ring [x] holds the items [q], the oldest first, and has not come to the
    end of its 16-bit indices. *)
Record ring_ok (x : rt_data_queue) (q : list (Z * Z)) : Prop := {
  ro_size : 0 < dq_size x < 2 ^ 16;
  ro_items : zlen (dq_items x) = dq_size x;
  ro_index : 0 <= dq_get_index x /\ dq_put_index x = dq_get_index x + zlen q /\ dq_put_index x < 2 ^ 16;
  ro_room : zlen q <= dq_size x;
  ro_queue : forall i v, q !! i = Some v ->
    dq_items x !! Z.to_nat ((dq_get_index x + Z.of_nat i) mod dq_size x) = Some v
}.

Lemma ring_slot x q i : ring_ok x q -> (Z.to_nat (i mod dq_size x) < length (dq_items x))%nat.
Proof. intros H. pose proof (ro_size _ _ H). pose proof (ro_items _ _ H). pose proof (Z.mod_pos_bound i (dq_size x)). lia. Qed.

Lemma mod_apart a b m : 0 < m -> a <> b -> Z.abs (a - b) < m -> a mod m <> b mod m.
Proof.
  intros Hm Hab Hd E. pose proof (Z.div_mod a m). pose proof (Z.div_mod b m).
  assert (a - b = m * (a / m - b / m)) as Eab by (rewrite Z.mul_sub_distr_l; lia).
  assert (a / m - b / m <> 0) by nia. nia.
Qed.

Lemma dq_put_spec x q v :
  ring_ok x q -> zlen q < dq_size x -> dq_put_index x < 2 ^ 16 - 1 ->
  exists x', dq_put v x = Some x' /\ ring_ok x' (q ++ [v]) /\ dq_evt_notify x' = dq_evt_notify x /\
    dq_size x' = dq_size x /\ dq_lwm x' = dq_lwm x.
Proof.
  intros H Hr Hp. pose proof (ring_slot x q (dq_put_index x) H) as Hs. destruct H as [H1 H2 (H3 & H4 & H5) H6 H7].
  unfold dq_put. rewrite (proj2 (Z.eqb_neq _ _)) by lia. rewrite decide_True by done.
  eexists. split; [reflexivity |]. split; [| done].
  split; cbn [dq_size dq_items dq_get_index dq_put_index set_dq_put_index set_dq_items]; try done.
  - by rewrite length_insert.
  - rewrite wrap_small by lia. rewrite length_app. cbn [length]. lia.
  - rewrite length_app. cbn [length]. lia.
  - intros i w Hi. apply lookup_app_Some in Hi as [Hi | [Hle Hi]].
    + apply lookup_lt_Some in Hi as Hlt. rewrite list_lookup_insert_ne; [by apply H7 |].
      intros E. apply Z2Nat.inj in E; [| apply Z.mod_pos_bound; lia..].
      revert E. apply mod_apart; lia.
    + apply list_lookup_singleton_Some in Hi as [Hi <-].
      replace (dq_get_index x + Z.of_nat i) with (dq_put_index x) by lia.
      by apply list_lookup_insert_eq.
Qed.

Lemma dq_get_spec x q v :
  ring_ok x (v :: q) ->
  dq_peek x = Some v /\ ring_ok (set_dq_get_index (u16 (dq_get_index x + 1)) x) q /\
  dq_used (set_dq_get_index (u16 (dq_get_index x + 1)) x) = zlen q.
Proof.
  intros [H1 H2 (H3 & H4 & H5) H6 H7]. cbn [length] in *.
  assert (u16 (dq_get_index x + 1) = dq_get_index x + 1) as E by (apply wrap_small; lia).
  split; [| split].
  - unfold dq_peek. rewrite (proj2 (Z.eqb_neq _ _)) by lia.
    pose proof (H7 0%nat v eq_refl) as H. by rewrite Z.add_0_r in H.
  - rewrite E. split; cbn [dq_size dq_items dq_get_index dq_put_index set_dq_get_index]; try done; try lia.
    intros i w Hi. specialize (H7 (S i) w Hi). rewrite <- H7. do 3 f_equal. lia.
  - rewrite E. unfold dq_used. cbn [dq_get_index dq_put_index set_dq_get_index]. lia.
Qed.

(** ** The operations *)

Definition dq_ok (n : nat) (q : list (Z * Z)) (s : kstate) : Prop := core_ok s /\ ring_ok (dq s n) q.

Lemma dq_alter n f s : dq (alter_dq n f s) n = f (dq s n).
Proof. unfold dq. simpl. by rewrite fupd_eq. Qed.

Lemma dq_frame n s s' : core_frame s s' -> dq s' n = dq s n.
Proof. intros Hf. unfold dq. by rewrite (cf_ext _ _ Hf). Qed.

Lemma core_dq n f s : core_ok s -> core_ok (alter_dq n f s).
Proof. apply core_ext. Qed.

Lemma ring_used x q : ring_ok x q -> dq_used x = zlen q.
Proof. intros H. pose proof (ro_index _ _ H). unfold dq_used. lia. Qed.

Lemma dq_wait_spec n h q t timeout s :
  dq_ok n q s -> may_wait t s -> wait_head h -> timeout < RT_TICK_MAX / 2 ->
  exists s', dq_wait h timeout s = Some (tt, s') /\ dq_ok n q s' /\
    now_waits t h RT_IPC_FLAG_FIFO timeout (alter_thr t (set_th_error RT_EOK) s) s'.
Proof.
  intros [Hok Hr] Hmw Hh Ht.
  destruct (wait_reset_spec h t timeout s Hok Hmw Hh Ht) as (s1 & s' & E1 & _ & E & Hok' & Hnw & _ & Hf).
  exists s'. split; [| split; [split; [done | by rewrite (dq_frame _ _ _ Hf)] | done]].
  unfold dq_wait, RT_DEBUG_NOT_IN_INTERRUPT, rt_thread_self. rewrite bind_assert_s by (by rewrite (mw_irq _ _ Hmw)).
  krun. rewrite (mw_current _ _ Hmw). krun. by rewrite (run_bind _ _ _ _ _ E1).
Qed.

Lemma push_room_spec n q p z timeout s :
  dq_ok n q s -> zlen q < dq_size (dq s n) -> dq_put_index (dq s n) < 2 ^ 16 - 1 ->
  exists s1, dq_ok n (q ++ [(p, z)]) s1 /\ s1 = set_k_ext (k_ext s1) s /\
    dq_evt_notify (dq s1 n) = dq_evt_notify (dq s n) /\
    rt_data_queue_push n p z timeout s =
      (match k_lists s (LSuspend n) with
       | [] => dq_event n RT_DATAQUEUE_EVENT_PUSH
       | _ :: _ => wake_first (LSuspend n)
       end;; mret (Done RT_EOK)) s1.
Proof.
  intros [Hok Hr] Hq Hp. destruct (dq_put_spec _ _ (p, z) Hr Hq Hp) as (x & Ex & Hx & En & _).
  set (s1 := alter_dq n (fun _ => x) s). assert (dq s1 n = x) as E1 by apply (dq_alter n (fun _ => x)).
  exists s1. rewrite E1.
  split; [split; [by apply core_dq | by rewrite E1] |]. split; [done |]. split; [done |].
  unfold rt_data_queue_push. krun. rewrite (ring_used _ _ Hr), (proj2 (Z.eqb_neq _ _)) by lia. by rewrite Ex.
Qed.

Lemma pop_item_spec n v q timeout s :
  dq_ok n (v :: q) s ->
  exists s1, dq_ok n q s1 /\ s1 = set_k_ext (k_ext s1) s /\
    rt_data_queue_pop n timeout s =
      ((if zlen q <=? dq_lwm (dq s n) then wake_first (LSender n);; dq_event n RT_DATAQUEUE_EVENT_LWM
        else dq_event n RT_DATAQUEUE_EVENT_POP);; mret (Done (RT_EOK, Some v))) s1.
Proof.
  intros [Hok Hr]. destruct (dq_get_spec _ _ _ Hr) as (E & Hr' & Eu).
  set (s1 := alter_dq n (set_dq_get_index (u16 (dq_get_index (dq s n) + 1))) s). exists s1.
  assert (dq s1 n = set_dq_get_index (u16 (dq_get_index (dq s n) + 1)) (dq s n)) as E1
    by apply (dq_alter n).
  split; [split; [by apply core_dq | by rewrite E1] |]. split; [done |].
  unfold rt_data_queue_pop. krun.
  rewrite (proj2 (Z.eqb_neq _ _)) by (pose proof (ro_index _ _ Hr) as H; cbn [length] in H; lia).
  rewrite E. krun. fold s1. rewrite E1, Eu. done.
Qed.

(** ** Theorems *)



(** C24: once [put_index] has come round to 0 and [get_index] has not, the
    test for a full queue compares a negative number with the size.  A push to
    a full ring, whose size divides 2^16, then succeeds whatever its time limit
    and replaces the oldest item, which no thread has taken. *)
Theorem rt_data_queue_push_overflows n p z timeout s :
  core_ok s -> k_lists s (LSuspend n) = [] ->
  let x := dq s n in
  0 < dq_size x -> (dq_size x | 2 ^ 16) -> zlen (dq_items x) = dq_size x ->
  0 <= dq_put_index x -> dq_put_index x < dq_get_index x < 2 ^ 16 -> dq_put_index x + 2 ^ 16 - dq_get_index x = dq_size x ->
  exists s1, rt_data_queue_push n p z timeout s = (dq_event n RT_DATAQUEUE_EVENT_PUSH;; mret (Done RT_EOK)) s1 /\
    core_ok s1 /\ dq_get_index (dq s1 n) = dq_get_index x /\ dq_peek (dq s1 n) = Some (p, z) /\
    dq_put_index (dq s1 n) = dq_put_index x + 1.
Proof.
  intros Hok Hl x Hs Hdiv Hi Hp Hg Hfull.
  assert (dq_put_index x mod dq_size x = dq_get_index x mod dq_size x) as Em.
  { replace (dq_put_index x) with (dq_get_index x + (dq_size x - 2 ^ 16)) by lia. destruct Hdiv as (k & Hk).
    rewrite Hk. replace (dq_get_index x + (dq_size x - k * dq_size x)) with (dq_get_index x + (1 - k) * dq_size x) by lia.
    apply Z.mod_add. lia. }
  assert (Z.to_nat (dq_put_index x mod dq_size x) < length (dq_items x))%nat as Hlt.
  { pose proof (Z.mod_pos_bound (dq_put_index x) (dq_size x) Hs). lia. }
  set (x' := set_dq_put_index (u16 (dq_put_index x + 1))
    (set_dq_items (<[Z.to_nat (dq_put_index x mod dq_size x) := (p, z)]> (dq_items x)) x)).
  assert (dq_put (p, z) x = Some x') as Ex.
  { unfold dq_put. rewrite (proj2 (Z.eqb_neq _ _)) by lia. by rewrite decide_True. }
  exists (alter_dq n (fun _ => x') s). rewrite (dq_alter n (fun _ => x')).
  split; [| split; [by apply core_dq | split; [done | split]]].
  - unfold rt_data_queue_push. krun. fold x. unfold dq_used. rewrite (proj2 (Z.eqb_neq _ _)) by lia.
    rewrite Ex. krun. change (k_lists (alter_dq n (fun _ => x') s) (LSuspend n)) with (k_lists s (LSuspend n)). by rewrite Hl.
  - unfold dq_peek. change (dq_size x') with (dq_size x). rewrite (proj2 (Z.eqb_neq _ _)) by lia.
    change (dq_get_index x') with (dq_get_index x). rewrite <- Em. by apply list_lookup_insert_eq.
  - cbn [dq_put_index x' set_dq_put_index]. apply wrap_small. lia.
Qed.

Lemma ipc_all_both n s :
  core_ok s ->
  exists s1 s2, rt_ipc_list_resume_all (LSuspend n) s = Some (RT_EOK, s1) /\
    rt_ipc_list_resume_all (LSender n) s1 = Some (RT_EOK, s2) /\ core_ok s2 /\ core_frame s s2 /\
    k_current s2 = k_current s /\ k_lists s2 (LSuspend n) = [] /\ k_lists s2 (LSender n) = [] /\
    (forall t, t ∈ k_lists s (LSuspend n) ++ k_lists s (LSender n) ->
       th_state s2 t = RT_THREAD_READY /\ th_error (k_thr s2 t) = RT_ERROR) /\
    (forall t, th_state s t = RT_THREAD_READY -> th_state s2 t = RT_THREAD_READY).
Proof.
  intros Hok.
  destruct (ipc_list_resume_all_spec (LSuspend n) s Hok I) as (s1 & E1 & Hok1 & H1).
  destruct (ipc_list_resume_all_spec (LSender n) s1 Hok1 I) as (s2 & E2 & Hok2 & H2).
  assert (k_lists s1 (LSender n) = k_lists s (LSender n)) as Es by (by apply H1).
  assert (forall t, t ∈ k_lists s (LSuspend n) -> th_state s1 t = RT_THREAD_READY /\ th_error (k_thr s1 t) = RT_ERROR) as R1.
  { intros t Ht. unfold th_state. rewrite (ra_thr _ _ _ H1), decide_True by done. split; [by apply stat_set | done]. }
  assert (forall t, th_state s1 t = RT_THREAD_READY -> k_thr s2 t = k_thr s1 t) as K2.
  { intros t Ht. rewrite (ra_thr _ _ _ H2), decide_False; [done |]. intros Hin.
    by rewrite (wait_head_state s1 (LSender n) t Hok1 I Hin) in Ht. }
  exists s1, s2. do 3 (split; [done |]). split; [eapply core_frame_trans; [apply H1 | apply H2] |].
  split; [by rewrite (ra_current _ _ _ H2), (ra_current _ _ _ H1) |].
  split; [rewrite (ra_lists _ _ _ H2) by done; apply H1 |]. split; [apply H2 |]. split.
  - intros t [Ht | Ht]%elem_of_app; [destruct (R1 t Ht) as [Hr He]; unfold th_state in *; by rewrite (K2 t Hr) |].
    unfold th_state. rewrite (ra_thr _ _ _ H2), decide_True by (by rewrite Es). split; [by apply stat_set | done].
  - intros t Ht. assert (th_state s1 t = RT_THREAD_READY) as Ht1.
    { unfold th_state. rewrite (ra_thr _ _ _ H1). case_decide; [by apply stat_set | done]. }
    unfold th_state in *. by rewrite (K2 t Ht1).
Qed.

(** Resetting a queue makes all the threads that wait for it ready; their
    calls answer -RT_ERROR.  The items stay in the queue. *)
Theorem rt_data_queue_reset_frees n q s :
  dq_ok n q s -> is_Some (k_current s) -> some_ready s -> k_lock_nest s = 0 ->
  exists s', rt_data_queue_reset n s = Some (tt, s') /\ dq_ok n q s' /\
    k_lists s' (LSuspend n) = [] /\ k_lists s' (LSender n) = [] /\
    (forall t, t ∈ k_lists s (LSuspend n) ++ k_lists s (LSender n) -> th_state s' t = RT_THREAD_READY /\
       (forall timeout, rt_data_queue_pop_after n t timeout s' = Some (Done (- RT_ERROR, None), s')) /\
       (forall p z timeout, rt_data_queue_push_after n t p z timeout s' = Some (Done (- RT_ERROR), s'))).
Proof.
  intros [Hok Hr] [c Hc] (p & Hp & Hne) Hn. unfold rt_data_queue_reset, rt_enter_critical. krun.
  rewrite Hn. change (swrap 16 (0 + 1)) with 1. set (s0 := set_k_lock_nest 1 s).
  assert (core_ok s0) as Hok0 by (by apply core_set_nest).
  destruct (ipc_all_both n s0 Hok0) as (s1 & s2 & E1 & E2 & Hok2 & Hf & Hc2 & L1 & L2 & Hall & Hk).
  rewrite (run_bind _ _ _ _ _ E1), (run_bind _ _ _ _ _ E2).
  assert (some_ready s2) as Hr2.
  { destruct (k_lists s (LReady p)) as [| u r] eqn:Hq; [done |].
    apply (ready_some_ready _ u); [apply Hok2 |]. apply Hk.
    apply (th_listed _ _ (proj1 (co_sched _ _ Hok0)) (LReady p)). change (u ∈ k_lists s (LReady p)).
    rewrite Hq. apply list_elem_of_here. }
  destruct (exit_critical_one s2 c) as (t & p' & s3 & E3 & Hsw & _ & Hc3); [done | by rewrite (cf_lock _ _ Hf) | by rewrite Hc2 | done |].
  rewrite (run_bind _ _ _ _ _ E3).
  assert (core_ok s3) as Hok3 by (eapply switched_core_ok; [exact Hsw | by apply core_set_nest]).
  assert (k_lists s3 = k_lists s2 /\ k_thr s3 = k_thr s2) as [El3 Et3] by (by destruct Hsw as (? & ? & ? & ? & ->)).
  destruct (rt_schedule_total s3) as (s4 & E4 & Hsw4 & _).
  { apply Hok3. } { by rewrite Hc3. } { destruct Hr2 as (p2 & Hp2 & Hne2). exists p2. by rewrite El3. }
  assert (k_lists s4 = k_lists s3 /\ k_thr s4 = k_thr s3) as [El4 Et4] by (by destruct Hsw4 as (? & ? & ? & ? & ->)).
  exists s4. split; [done |].
  assert (dq s4 n = dq s n) as Ed.
  { rewrite (dq_frame n s3 s4 (switched_core _ _ Hsw4)), (dq_frame n _ s3 (switched_core _ _ Hsw)).
    exact (dq_frame n s0 s2 Hf). }
  split; [split; [by eapply switched_core_ok | by rewrite Ed] |].
  rewrite El4, El3. split; [done |]. split; [done |]. intros u Hu. destruct (Hall u Hu) as [Hru Heu].
  rewrite <- Et3, <- Et4 in Heu.
  split; [unfold th_state in *; by rewrite Et4, Et3 |].
  split; intros; [unfold rt_data_queue_pop_after | unfold rt_data_queue_push_after]; krun; by rewrite Heu.
Qed.

End Notify.

(** ** Witnesses *)

(** A ring of four places that holds the items [q], at the index [i]. *)
Definition example_ring (i : Z) (items : list (Z * Z)) (n : Z) : rt_data_queue := DataQueue 4 1 i (i + n) items None.

Definition example_dq (i : Z) (items : list (Z * Z)) (n : Z) : kstate := alter_dq 16 (fun _ => example_ring i items n) example.

Lemma may_wait_dq t n f s : may_wait t s -> may_wait t (alter_dq n f s).
Proof. intros [H1 H2 H3 H4 H5]. by split. Qed.

Definition items4 : list (Z * Z) := [(10, 1); (11, 1); (12, 1); (13, 1)].

Lemma example_dq_ok i k : 0 <= i < 100 -> (k <= 4)%nat ->
  i mod 4 = 0 -> dq_ok 16 (take k items4) (example_dq i items4 (Z.of_nat k)).
Proof.
  intros Hi Hk Hm. split; [apply core_dq, example_core |]. unfold example_dq. rewrite (dq_alter 16 (fun _ => _)).
  assert (zlen (take k items4) = Z.of_nat k) as El by (rewrite length_take; cbn [length items4]; lia).
  split; cbn [dq_size dq_items dq_get_index dq_put_index example_ring]; rewrite ?El; try done; try lia.
  intros j v Hj. apply lookup_take_Some in Hj as [Hj Hjk].
  assert ((i + Z.of_nat j) mod 4 = Z.of_nat j) as E.
  { rewrite <- Zplus_mod_idemp_l, Hm. apply Z.mod_small. lia. }
  by rewrite E, Nat2Z.id.
Qed.

Definition no_notify (f : Z) (n : nat) (event : Z) : K unit := skip.



(** All four places in use, [put_index] come round. *)
Definition example_wrapped : kstate := alter_dq 16 (fun _ => DataQueue 4 1 65534 2 items4 None) example.

Lemma rt_data_queue_push_overflows_witness :
  exists s1, rt_data_queue_push no_notify 16 20 8 0 example_wrapped =
      (dq_event no_notify 16 RT_DATAQUEUE_EVENT_PUSH;; mret (Done RT_EOK)) s1 /\
    core_ok s1 /\ dq_get_index (dq s1 16) = 65534 /\ dq_peek (dq s1 16) = Some (20, 8) /\ dq_put_index (dq s1 16) = 2 + 1.
Proof.
  apply (rt_data_queue_push_overflows no_notify 16 20 8 0 example_wrapped);
    [apply core_dq, example_core | reflexivity | reflexivity | exists 16384; reflexivity | reflexivity | discriminate
    | split; reflexivity | reflexivity].
Defined.

Lemma rt_data_queue_reset_frees_witness :
  exists s', rt_data_queue_reset 16 (example_dq 8 items4 2) = Some (tt, s') /\ dq_ok 16 (take 2 items4) s' /\
    k_lists s' (LSuspend 16) = [] /\ k_lists s' (LSender 16) = [] /\
    (forall t, t ∈ k_lists (example_dq 8 items4 2) (LSuspend 16) ++ k_lists (example_dq 8 items4 2) (LSender 16) ->
       th_state s' t = RT_THREAD_READY /\
       (forall timeout, rt_data_queue_pop_after no_notify 16 t timeout s' = Some (Done (- RT_ERROR, None), s')) /\
       (forall p z timeout, rt_data_queue_push_after no_notify 16 t p z timeout s' = Some (Done (- RT_ERROR), s'))).
Proof.
  apply (rt_data_queue_reset_frees no_notify 16 (take 2 items4) (example_dq 8 items4 2));
    [apply (example_dq_ok 8 2); [lia.. | reflexivity] | exists 2%nat; reflexivity | | reflexivity].
  exists 10. split; [lia | vm_compute; discriminate].
Defined.

End DataQueue.
