(* ===== verification/WaitQueue.v ===== *)
(** * Wait queues: [src/kernel/utilities/waitqueue.c], [src/kernel/include/ipc/waitqueue.h]

    A wait queue holds nodes, each of a thread that polls; a wakeup takes the
    first node whose function accepts the key.  The flag of the queue remembers a
    wakeup until the next wait ends. *)

From S2P Require Import Prelude KernelTypes RtList Scheduler Object Timer Thread TimerRun IpcList.
Import Scheduler KObject Timer Thread TimerRun IpcList.

Local Open Scope Z_scope.

Module WaitQueue.

(** ** Operations *)

Definition RT_WQ_FLAG_CLEAN : Z := 0.
Definition RT_WQ_FLAG_WAKEUP : Z := 1.

Definition wq (s : kstate) (q : nat) : rt_wqueue := x_wq (k_ext s) q.
Definition wnode (s : kstate) (n : nat) : rt_wqueue_node := x_wnode (k_ext s) n.
Definition alter_node (n : nat) (f : rt_wqueue_node -> rt_wqueue_node) : kstate -> kstate :=
  alter_ext (fun x => set_x_wnode (fupd n (f (x_wnode x n)) (x_wnode x)) x).

Definition rt_wqueue_init (q : nat) : K unit :=
  modify (alter_wq q (set_wq_flag RT_WQ_FLAG_CLEAN));;
  modify (alter_wq q (set_wq_waiting_list [])).

Definition rt_wqueue_add (q n : nat) : K unit :=
  modify (alter_wq q (fun x => set_wq_waiting_list (wq_waiting_list x ++ [n]) x)).

(** The node is unlinked from whatever list holds it. *)
Definition rt_wqueue_remove (n : nat) : K unit :=
  modify (alter_ext (fun x =>
    set_x_wq (fun q => set_wq_waiting_list (lremove n (wq_waiting_list (x_wq x q))) (x_wq x q)) x)).

Definition __wqueue_default_wake (n : nat) (key : Z) : K Z := mret 0.

Section Wake.

(** The functions other than [__wqueue_default_wake] that nodes point to; they do not
    link or unlink nodes. *)
Variable wakeup : Z -> nat -> Z -> K Z.

Definition wake_function (f : option Z) : nat -> Z -> K Z :=
  match f with None => __wqueue_default_wake | Some f => wakeup f end.

(** The loop of [rt_wqueue_wakeup]; the result is [need_schedule]. *)
Fixpoint wakeup_loop (key : Z) (nodes : list nat) : K bool :=
  match nodes with
  | [] => mret false
  | entry :: rest =>
      x ← gets (fun s => wnode s entry);
      result ← wake_function (wn_wakeup x) entry key;
      if result =? 0 then
        _ ← rt_thread_resume (wn_polling_thread x);
        rt_wqueue_remove entry;;
        mret true
      else wakeup_loop key rest
  end.

Definition rt_wqueue_wakeup (q : nat) (key : Z) : K unit :=
  modify (alter_wq q (set_wq_flag RT_WQ_FLAG_WAKEUP));;
  nodes ← gets (fun s => wq_waiting_list (wq s q));
  need_schedule ← wakeup_loop key nodes;
  if (need_schedule : bool) then rt_schedule else skip.

(** The label [__exit_wakeup]. *)
Definition exit_wakeup (q wait : nat) : K Z :=
  modify (alter_wq q (set_wq_flag 0));;
  rt_wqueue_remove wait;;
  mret 0.

(** [wait]: the address of the node [__wait] on the stack. *)
Definition rt_wqueue_wait (q wait : nat) (condition : bool) (msec : Z) : K (outcome Z) :=
  self ← rt_thread_self;
  RT_DEBUG_NOT_IN_INTERRUPT;;
  let tick := i32 (rt_tick_from_millisecond msec) in
  if condition || (tick =? 0) then mret (Done 0)
  else
    tid ← lift self;
    modify (alter_node wait (fun _ => WqueueNode tid None 0));;
    rt_wqueue_remove wait;;
    flag ← gets (fun s => wq_flag (wq s q));
    if flag =? RT_WQ_FLAG_WAKEUP then r ← exit_wakeup q wait; mret (Done r)
    else
      rt_wqueue_add q wait;;
      _ ← rt_thread_suspend tid;
      (if tick =? RT_WAITING_FOREVER then skip else start_thread_timer tid tick);;
      rt_schedule;;
      mret Waits.

(** What the thread does behind the [rt_schedule]. *)
Definition rt_wqueue_wait_after (q wait : nat) : K Z := exit_wakeup q wait.

(** ** The state of a wait queue *)

Lemma wq_alter q f s : wq (alter_wq q f s) q = f (wq s q).
Proof. unfold wq. simpl. by rewrite fupd_eq. Qed.

Lemma wq_frame q s s' : core_frame s s' -> wq s' q = wq s q.
Proof. intros Hf. unfold wq. by rewrite (cf_ext _ _ Hf). Qed.

Definition removed (n : nat) (s : kstate) : kstate :=
  alter_ext (fun x =>
    set_x_wq (fun q => set_wq_waiting_list (lremove n (wq_waiting_list (x_wq x q))) (x_wq x q)) x) s.

Lemma wq_removed n q s : wq (removed n s) q = set_wq_waiting_list (lremove n (wq_waiting_list (wq s q))) (wq s q).
Proof. done. Qed.

(** The tick count of a wait: positive, none, or for ever. *)
Lemma wait_ticks msec : - 2 ^ 31 <= msec < 2 ^ 31 -> msec <> 0 ->
  let tick := i32 (rt_tick_from_millisecond msec) in
  (msec < 0 /\ tick = RT_WAITING_FOREVER) \/
  (0 < msec /\ 0 < tick < RT_TICK_MAX / 2 /\ (tick - 1) * 1000 < msec * RT_TICK_PER_SECOND <= tick * 1000).
Proof.
  intros Hm H0. destruct (decide (msec < 0)) as [Hn | Hn].
  - left. split; [done |]. unfold rt_tick_from_millisecond. by replace (msec <? 0) with true by lia.
  - right. split; [lia |]. destruct (tick_from_millisecond_range msec) as (H1 & H2); [lia |].
    change (RT_TICK_MAX / 2) with 2147483647 in *. unfold RT_TICK_PER_SECOND in *.
    assert (i32 (rt_tick_from_millisecond msec) = rt_tick_from_millisecond msec) as ->.
    { unfold swrap. change (2 ^ (32 - 1)) with 2147483648. change (2 ^ 32) with 4294967296.
      rewrite Z.mod_small; lia. }
    lia.
Qed.

Lemma wait_block tid tick s : tick = RT_WAITING_FOREVER \/ 0 < tick ->
  ((if tick =? RT_WAITING_FOREVER then skip else start_thread_timer tid tick);; rt_schedule) s = block tid tick s.
Proof.
  intros [-> | H]; unfold block.
  - change (RT_WAITING_FOREVER =? RT_WAITING_FOREVER) with true. by change (0 <? RT_WAITING_FOREVER) with false.
  - unfold RT_WAITING_FOREVER. rewrite (proj2 (Z.eqb_neq tick (-1))) by lia. by rewrite (proj2 (Z.ltb_lt 0 tick)).
Qed.

(** The thread [t] sleeps on the node [n] of the queue. *)
Record sleeps_on (q n t : nat) (tick : Z) (s s' : kstate) : Prop := {
  so_list : wq_waiting_list (wq s' q) = lremove n (wq_waiting_list (wq s q)) ++ [n];
  so_flag : wq_flag (wq s' q) = wq_flag (wq s q);
  so_node : wnode s' n = WqueueNode t None 0;
  so_nodes : forall m, m <> n -> wnode s' m = wnode s m;
  so_state : th_state s' t = RT_THREAD_SUSPEND;
  so_other : forall u, u <> t -> k_thr s' u = k_thr s u;
  so_lists : forall h, k_lists s' h = lremove t (k_lists s h);
  so_timer : if 0 <? tick
    then ThreadTimer t ∈ hard s' /\ tm_timeout_tick (k_tmr s' (ThreadTimer t)) = u32 (k_tick s + u32 tick)
    else ThreadTimer t ∉ hard s';
  so_current : exists u, k_current s' = Some u /\ u <> t
}.

Lemma wqueue_wait_spec q n t msec s :
  core_ok s -> may_wait t s -> - 2 ^ 31 <= msec < 2 ^ 31 -> msec <> 0 -> wq_flag (wq s q) = RT_WQ_FLAG_CLEAN ->
  exists s', rt_wqueue_wait q n false msec s = Some (Waits, s') /\ core_ok s' /\
    sleeps_on q n t (i32 (rt_tick_from_millisecond msec)) s s'.
Proof.
  intros Hok [Hc Hst Hl Hi (u & Hu & Hur)] Hm H0 Hfl. set (tick := i32 (rt_tick_from_millisecond msec)).
  assert ((tick = RT_WAITING_FOREVER \/ 0 < tick) /\ tick < RT_TICK_MAX / 2) as [Htk Hlt].
  { pose proof (wait_ticks msec Hm H0) as H. cbv zeta in H. fold tick in H.
    destruct H as [[_ ->] | (_ & H & _)]; split; [by left | done | right; lia | lia]. }
  set (s0 := alter_wq q (fun x => set_wq_waiting_list (wq_waiting_list x ++ [n]) x)
    (removed n (alter_node n (fun _ => WqueueNode t None 0) s))).
  assert (core_ok s0) as Hok0 by (by do 3 apply core_ext).
  destruct (thread_suspend_core t s0 Hok0 Hst) as (s1 & E1 & Hok1 & Hsu & Hst1).
  destruct (block_spec t tick u s1 Hok1 Hst1 (su_timer _ _ _ Hsu)) as (s' & E & Hok' & [Bl Bt Bf Btm Bc]).
  { by rewrite (su_current _ _ _ Hsu). } { by rewrite (cf_lock _ _ (su_frame _ _ _ Hsu)). }
  { unfold th_state. by rewrite (su_other _ _ _ Hsu). } { done. }
  assert (core_frame s0 s') as Hf by (eapply core_frame_trans; [apply Hsu | done]).
  assert (wq s0 q = set_wq_waiting_list (lremove n (wq_waiting_list (wq s q)) ++ [n]) (wq s q)) as Eq.
  { unfold s0. rewrite wq_alter. done. }
  exists s'. split; [| split; [done |]].
  - unfold rt_wqueue_wait, rt_thread_self, RT_DEBUG_NOT_IN_INTERRUPT. krun. rewrite bind_assert_s by (by rewrite Hi).
    cbv zeta. fold tick. replace (tick =? 0) with false by (destruct Htk as [-> |]; [done | lia]). cbn [orb].
    rewrite Hc. krun. unfold rt_wqueue_remove. krun. fold (removed n (alter_node n (fun _ => WqueueNode t None 0) s)).
    change (wq_flag (wq (removed n (alter_node n (fun _ => WqueueNode t None 0) s)) q)) with (wq_flag (wq s q)).
    rewrite Hfl. change (RT_WQ_FLAG_CLEAN =? RT_WQ_FLAG_WAKEUP) with false. cbv iota.
    unfold rt_wqueue_add. krun. fold s0. rewrite (run_bind _ _ _ _ _ E1).
    rewrite <- bind_assoc. rewrite (run_bind _ _ _ tt s'); [done |]. by rewrite wait_block.
  - split.
    + rewrite (wq_frame _ _ _ Hf), Eq. done.
    + rewrite (wq_frame _ _ _ Hf), Eq. done.
    + unfold wnode. rewrite (cf_ext _ _ Hf). simpl. by rewrite fupd_eq.
    + intros m Hmn. unfold wnode. rewrite (cf_ext _ _ Hf). simpl. by rewrite fupd_ne.
    + unfold th_state. rewrite Bt. exact Hst1.
    + intros v Hv. rewrite Bt. by rewrite (su_other _ _ _ Hsu).
    + intros h. rewrite Bl. apply Hsu.
    + rewrite <- (cf_tick _ _ (su_frame _ _ _ Hsu) : k_tick s1 = k_tick s). exact Btm.
    + exact Bc.
Qed.

Lemma core_removed n s : core_ok s -> core_ok (removed n s).
Proof. apply core_ext. Qed.

Lemma exit_wakeup_spec q n s :
  core_ok s -> exists s', exit_wakeup q n s = Some (0, s') /\ core_ok s' /\ s' = set_k_ext (k_ext s') s /\
    wq_flag (wq s' q) = RT_WQ_FLAG_CLEAN /\ wq_waiting_list (wq s' q) = lremove n (wq_waiting_list (wq s q)).
Proof.
  intros Hok. eexists. unfold exit_wakeup, rt_wqueue_remove. krun. split; [reflexivity |].
  split; [by do 2 apply core_ext |]. split; [done |].
  set (s1 := alter_wq q (set_wq_flag 0) s). fold (removed n s1). rewrite wq_removed.
  unfold s1. by rewrite wq_alter.
Qed.

(** The wakeup that takes the first node, whose thread sleeps. *)
Lemma wakeup_first_spec q key n rest t s :
  core_ok s -> is_Some (k_current s) -> wq_waiting_list (wq s q) = n :: rest -> n ∉ rest ->
  wn_wakeup (wnode s n) = None -> wn_polling_thread (wnode s n) = t -> th_state s t = RT_THREAD_SUSPEND ->
  exists s', rt_wqueue_wakeup q key s = Some (tt, s') /\ core_ok s' /\
    wq_waiting_list (wq s' q) = rest /\ wq_flag (wq s' q) = RT_WQ_FLAG_WAKEUP /\
    th_state s' t = RT_THREAD_READY /\ (forall u, u <> t -> k_thr s' u = k_thr s u) /\ is_Some (k_current s').
Proof.
  intros Hok Hc Hl Hn Hw Hp Hst. set (s0 := alter_wq q (set_wq_flag RT_WQ_FLAG_WAKEUP) s).
  assert (wq s0 q = set_wq_flag RT_WQ_FLAG_WAKEUP (wq s q)) as E0 by apply wq_alter.
  destruct (thread_resume_spec t s0) as (s1 & E1 & Hok1 & Hmr); [by apply core_ext | done |].
  set (s2 := removed n s1). assert (core_ok s2) as Hok2 by by apply core_removed.
  assert (k_current s2 = k_current s /\ k_thr s2 = k_thr s1) as [Hc2 Et2] by (split; [exact (mr_current _ _ _ _ Hmr) | done]).
  assert (th_state s2 t = RT_THREAD_READY) as Hst2.
  { unfold th_state. rewrite Et2. fold (th_state s1 t). by rewrite (made_ready_state _ _ _ _ _ Hmr), decide_True. }
  destruct (schedule_core s2) as (s' & E' & Hok' & Hsw & Hc'); [done | by rewrite Hc2 | apply (ready_some_ready _ t); [apply Hok2 | done] |].
  assert (k_thr s' = k_thr s2 /\ k_ext s' = k_ext s2) as [Et' Ee'] by (by destruct Hsw as (? & ? & ? & ? & ->)).
  assert (wq s' q = set_wq_waiting_list rest (set_wq_flag RT_WQ_FLAG_WAKEUP (wq s q))) as Eq.
  { unfold wq at 1. rewrite Ee'. fold (wq s2 q). unfold s2. rewrite wq_removed, (wq_frame _ _ _ (mr_frame _ _ _ _ Hmr)), E0.
    cbn [wq_waiting_list set_wq_flag]. rewrite Hl. by rewrite lremove_head. }
  exists s'. split; [| split; [done |]].
  - unfold rt_wqueue_wakeup. krun. fold s0. rewrite E0. cbn [wq_waiting_list set_wq_flag]. rewrite Hl. cbn [wakeup_loop].
    krun. change (wnode s0 n) with (wnode s n). rewrite Hw, Hp. cbn [wake_function]. unfold __wqueue_default_wake. krun.
    change (0 =? 0) with true. cbv iota. rewrite (run_bind _ _ _ true s2); [exact E' |].
    rewrite (run_bind _ _ _ _ _ E1). done.
  - rewrite Eq. split; [done |]. split; [done |]. unfold th_state in *. rewrite Et'. split; [done |].
    split; [| done]. intros u Hu. rewrite Et2. by rewrite (mr_other _ _ _ _ Hmr).
Qed.

(** ** Theorems *)

(** C25: a thread that waits on a clean queue sleeps on its node, linked behind the
    others, with the time limit of [msec] rounded up to ticks.  When its node is
    the first of the queue, a wakeup makes the thread ready and unlinks the
    node, and the wait that then ends answers 0 and leaves the queue clean. *)
Theorem rt_wqueue_wait_wakeup q n t msec key s :
  core_ok s -> may_wait t s -> - 2 ^ 31 <= msec < 2 ^ 31 -> msec <> 0 -> wq_flag (wq s q) = RT_WQ_FLAG_CLEAN ->
  n ∉ wq_waiting_list (wq s q) ->
  exists s1, rt_wqueue_wait q n false msec s = Some (Waits, s1) /\ core_ok s1 /\
    sleeps_on q n t (i32 (rt_tick_from_millisecond msec)) s s1 /\
    wq_waiting_list (wq s1 q) = wq_waiting_list (wq s q) ++ [n] /\
    forall s2 rest, core_ok s2 -> is_Some (k_current s2) -> wq_waiting_list (wq s2 q) = n :: rest -> n ∉ rest ->
      wnode s2 n = wnode s1 n -> th_state s2 t = RT_THREAD_SUSPEND ->
      exists s3 s4, rt_wqueue_wakeup q key s2 = Some (tt, s3) /\ core_ok s3 /\ th_state s3 t = RT_THREAD_READY /\
        wq_waiting_list (wq s3 q) = rest /\ (forall u, u <> t -> k_thr s3 u = k_thr s2 u) /\
        rt_wqueue_wait_after q n s3 = Some (0, s4) /\ core_ok s4 /\
        wq_flag (wq s4 q) = RT_WQ_FLAG_CLEAN /\ wq_waiting_list (wq s4 q) = rest.
Proof.
  intros Hok Hmw Hm H0 Hfl Hn. destruct (wqueue_wait_spec q n t msec s Hok Hmw Hm H0 Hfl) as (s1 & E1 & Hok1 & Hso).
  exists s1. split; [done |]. split; [done |]. split; [done |].
  split; [rewrite (so_list _ _ _ _ _ _ Hso); by rewrite lremove_id |].
  intros s2 rest Hok2 Hc2 Hl2 Hnr Hno Hst2. rewrite (so_node _ _ _ _ _ _ Hso) in Hno.
  destruct (wakeup_first_spec q key n rest t s2) as (s3 & E3 & Hok3 & Hl3 & Hf3 & Hst3 & Ho3 & _); [done.. | by rewrite Hno | by rewrite Hno | done |].
  destruct (exit_wakeup_spec q n s3 Hok3) as (s4 & E4 & Hok4 & _ & Hf4 & Hl4).
  exists s3, s4. do 8 (split; [done |]).
  rewrite Hl4, Hl3. by rewrite lremove_id.
Qed.

(** A wakeup that finds no node is remembered: the next wait does not sleep,
    and cleans the flag. *)
Theorem rt_wqueue_wakeup_remembered q n key msec s :
  core_ok s -> k_current s <> None -> k_interrupt_nest s = 0 -> wq_waiting_list (wq s q) = [] ->
  - 2 ^ 31 <= msec < 2 ^ 31 -> msec <> 0 ->
  exists s1 s2, rt_wqueue_wakeup q key s = Some (tt, s1) /\ rt_wqueue_wait q n false msec s1 = Some (Done 0, s2) /\
    core_ok s2 /\ k_thr s2 = k_thr s /\ k_lists s2 = k_lists s /\ k_current s2 = k_current s /\
    wq_flag (wq s2 q) = RT_WQ_FLAG_CLEAN /\ wq_waiting_list (wq s2 q) = [].
Proof.
  intros Hok Hc Hi Hl Hm H0. set (s1 := alter_wq q (set_wq_flag RT_WQ_FLAG_WAKEUP) s).
  assert (wq s1 q = set_wq_flag RT_WQ_FLAG_WAKEUP (wq s q)) as E1 by apply wq_alter.
  destruct (k_current s) as [t |] eqn:Ec; [| done].
  set (s1' := removed n (alter_node n (fun _ => WqueueNode t None 0) s1)).
  destruct (exit_wakeup_spec q n s1') as (s2 & E2 & Hok2 & Es2 & Hf2 & Hl2); [by do 3 apply core_ext |].
  assert (k_thr s2 = k_thr s /\ k_lists s2 = k_lists s /\ k_current s2 = k_current s) as (Et & El & Ecu) by (by rewrite Es2).
  exists s1, s2. split; [| split].
  - unfold rt_wqueue_wakeup. krun. fold s1. rewrite E1. cbn [wq_waiting_list set_wq_flag]. rewrite Hl. cbn [wakeup_loop].
    by krun.
  - unfold rt_wqueue_wait, rt_thread_self, RT_DEBUG_NOT_IN_INTERRUPT. krun. rewrite bind_assert_s by (exact (proj2 (Z.eqb_eq _ _) Hi)).
    cbv zeta. replace (i32 (rt_tick_from_millisecond msec) =? 0) with false.
    2: { destruct (wait_ticks msec Hm H0) as [[_ ->] | (_ & H & _)]; [done | lia]. }
    cbn [orb]. change (k_current s1) with (k_current s). rewrite Ec. krun. unfold rt_wqueue_remove. krun.
    fold (removed n (alter_node n (fun _ => WqueueNode t None 0) s1)). fold s1'.
    change (wq_flag (wq s1' q)) with (wq_flag (wq s1 q)). rewrite E1. cbn [wq_flag set_wq_flag].
    change (RT_WQ_FLAG_WAKEUP =? RT_WQ_FLAG_WAKEUP) with true. cbv iota. by rewrite (run_bind _ _ _ _ _ E2).
  - split; [done |]. split; [done |]. split; [done |]. split; [by rewrite Ecu |]. split; [done |].
    rewrite Hl2. unfold s1'. rewrite wq_removed. cbn [wq_waiting_list set_wq_waiting_list].
    change (wq (alter_node n (fun _ => WqueueNode t None 0) s1) q) with (wq s1 q). rewrite E1.
    cbn [wq_waiting_list set_wq_flag]. by rewrite Hl.
Qed.

(** C26: a wakeup is lost on a thread whose wait has timed out but which has not run
    since: its node is still the first of the queue, the wakeup takes it, no
    thread becomes ready, and the thread [u] behind it stays asleep; when the
    first thread ends its wait the flag is clean, so nothing remembers the wakeup. *)
Theorem rt_wqueue_wakeup_lost q key a b rest t u s :
  core_ok s -> is_Some (k_current s) -> wq_waiting_list (wq s q) = a :: b :: rest -> NoDup (a :: b :: rest) ->
  wn_wakeup (wnode s a) = None -> wn_polling_thread (wnode s a) = t -> th_state s t = RT_THREAD_READY ->
  th_state s u = RT_THREAD_SUSPEND ->
  exists s1 s2, rt_wqueue_wakeup q key s = Some (tt, s1) /\ k_thr s1 = k_thr s /\
    wq_waiting_list (wq s1 q) = b :: rest /\
    rt_wqueue_wait_after q a s1 = Some (0, s2) /\ core_ok s2 /\ th_state s2 u = RT_THREAD_SUSPEND /\
    wq_flag (wq s2 q) = RT_WQ_FLAG_CLEAN /\ wq_waiting_list (wq s2 q) = b :: rest.
Proof.
  intros Hok Hc Hl [Ha Hnd]%NoDup_cons Hw Hp Hst Hu.
  set (s0 := alter_wq q (set_wq_flag RT_WQ_FLAG_WAKEUP) s).
  assert (wq s0 q = set_wq_flag RT_WQ_FLAG_WAKEUP (wq s q)) as E0 by apply wq_alter.
  assert (rt_thread_resume t s0 = Some (- RT_ERROR, s0)) as E1 by (apply thread_resume_ready; [by apply core_ext | done]).
  set (s1 := removed a s0). assert (core_ok s1) as Hok1 by (by do 2 apply core_ext).
  destruct (schedule_core s1 Hok1 Hc) as (s2 & E2 & Hok2 & Hsw & _).
  { by apply (ready_some_ready _ t); [apply Hok1 |]. }
  assert (k_thr s2 = k_thr s1 /\ k_ext s2 = k_ext s1) as [Et2 Ee2] by (by destruct Hsw as (? & ? & ? & ? & ->)).
  assert (wq_waiting_list (wq s2 q) = b :: rest) as Hl2.
  { unfold wq. rewrite Ee2. fold (wq s1 q). unfold s1. rewrite wq_removed, E0. cbn [wq_waiting_list set_wq_flag set_wq_waiting_list].
    rewrite Hl. by rewrite lremove_head. }
  destruct (exit_wakeup_spec q a s2 Hok2) as (s3 & E3 & Hok3 & Es3 & Hf3 & Hl3).
  exists s2, s3. split; [| split; [done | split; [done | split; [done | split; [done |]]]]].
  - unfold rt_wqueue_wakeup. krun. fold s0. rewrite E0. cbn [wq_waiting_list set_wq_flag]. rewrite Hl. cbn [wakeup_loop].
    krun. change (wnode s0 a) with (wnode s a). rewrite Hw, Hp. cbn [wake_function]. unfold __wqueue_default_wake. krun.
    change (0 =? 0) with true. cbv iota. rewrite (run_bind _ _ _ true s1); [exact E2 |].
    by rewrite (run_bind _ _ _ _ _ E1).
  - unfold th_state. replace (k_thr s3) with (k_thr s) by (rewrite Es3; done). split; [done |].
    split; [done |]. rewrite Hl3, Hl2. by rewrite lremove_id.
Qed.

End Wake.

(** ** Witnesses *)

Definition no_wake (f : Z) (n : nat) (key : Z) : K Z := mret 1.

Lemma rt_wqueue_wait_wakeup_witness :
  exists s1, rt_wqueue_wait 16 17 false 25 example = Some (Waits, s1) /\ core_ok s1 /\
    sleeps_on 16 17 2 (i32 (rt_tick_from_millisecond 25)) example s1 /\
    wq_waiting_list (wq s1 16) = wq_waiting_list (wq example 16) ++ [17]%nat /\
    forall s2 rest, core_ok s2 -> is_Some (k_current s2) -> wq_waiting_list (wq s2 16) = 17%nat :: rest -> 17%nat ∉ rest ->
      wnode s2 17 = wnode s1 17 -> th_state s2 2 = RT_THREAD_SUSPEND ->
      exists s3 s4, rt_wqueue_wakeup no_wake 16 0 s2 = Some (tt, s3) /\ core_ok s3 /\ th_state s3 2 = RT_THREAD_READY /\
        wq_waiting_list (wq s3 16) = rest /\ (forall u, u <> 2%nat -> k_thr s3 u = k_thr s2 u) /\
        rt_wqueue_wait_after 16 17 s3 = Some (0, s4) /\ core_ok s4 /\
        wq_flag (wq s4 16) = RT_WQ_FLAG_CLEAN /\ wq_waiting_list (wq s4 16) = rest.
Proof.
  apply (rt_wqueue_wait_wakeup no_wake 16 17 2 25 0 example);
    [apply example_core | apply example_may_wait | lia | lia | reflexivity | vm_compute; apply not_elem_of_nil].
Defined.

Lemma rt_wqueue_wakeup_remembered_witness :
  exists s1 s2, rt_wqueue_wakeup no_wake 16 0 example = Some (tt, s1) /\
    rt_wqueue_wait 16 17 false 25 s1 = Some (Done 0, s2) /\
    core_ok s2 /\ k_thr s2 = k_thr example /\ k_lists s2 = k_lists example /\ k_current s2 = k_current example /\
    wq_flag (wq s2 16) = RT_WQ_FLAG_CLEAN /\ wq_waiting_list (wq s2 16) = [].
Proof.
  apply (rt_wqueue_wakeup_remembered no_wake 16 17 0 25 example);
    [apply example_core | discriminate | reflexivity | reflexivity | lia | lia].
Defined.

(** Thread 3 is ready behind the node 17, thread 1 is suspended behind the node 18. *)
Definition example_two : kstate :=
  alter_wq 16 (set_wq_waiting_list [17; 18]%nat)
    (alter_node 17 (fun _ => WqueueNode 3 None 0) (alter_node 18 (fun _ => WqueueNode 1 None 0) example)).

Lemma rt_wqueue_wakeup_lost_witness :
  exists s1 s2, rt_wqueue_wakeup no_wake 16 0 example_two = Some (tt, s1) /\ k_thr s1 = k_thr example_two /\
    wq_waiting_list (wq s1 16) = [18]%nat /\
    rt_wqueue_wait_after 16 17 s1 = Some (0, s2) /\ core_ok s2 /\ th_state s2 1 = RT_THREAD_SUSPEND /\
    wq_flag (wq s2 16) = RT_WQ_FLAG_CLEAN /\ wq_waiting_list (wq s2 16) = [18]%nat.
Proof.
  apply (rt_wqueue_wakeup_lost no_wake 16 0 17 18 [] 3 1 example_two);
    [do 3 apply core_ext; apply example_core | exists 2%nat; reflexivity | reflexivity | | reflexivity | reflexivity
    | vm_compute; reflexivity | vm_compute; reflexivity].
  apply (bool_decide_unpack _). vm_compute. exact I.
Defined.

End WaitQueue.
