(* ===== verification/WorkQueue.v ===== *)
(** * Work queues: [src/kernel/utilities/workqueue.c]

    A thread of its own does the works of a queue one after the other.  The block
    that [rt_workqueue_create] allocates names the queue and the semaphore inside
    it; a work is known by its address, and its function is a parameter. *)

From S2P Require Import Prelude KernelTypes RtList Scheduler Object Timer Thread TimerRun IpcList Sem ThreadLife ThreadEnd.
Import Scheduler KObject Timer Thread TimerRun IpcList Sem ThreadLife ThreadEnd.

Local Open Scope Z_scope.

Module WorkQueue.

(** ** Operations *)

Definition wk (s : kstate) (q : nat) : rt_workqueue := x_wk (k_ext s) q.

(** [rt_list_remove(&(work->list))]: from whatever list holds the work. *)
Definition work_unlink (w : nat) : K unit :=
  modify (alter_ext (fun x =>
    set_x_wk (fun q => set_wk_work_list (lremove w (wk_work_list (x_wk x q))) (x_wk x q)) x)).

Definition rt_work_init (w : nat) : K unit := work_unlink w.

(** The loop of [_workqueue_work_completion]; [rt_sem_trytake] does not wait. *)
Fixpoint work_completion_loop (fuel : nat) (sem : nat) : K Z :=
  match fuel with
  | O => fail
  | S fuel =>
      r ← rt_sem_trytake sem;
      match r with
      | Waits => fail
      | Done result =>
          if result =? - RT_ETIMEOUT then _ ← rt_sem_release sem; work_completion_loop fuel sem
          else if result =? RT_EOK then mret RT_EOK
          else mret (- RT_ERROR)
      end
  end.

(** Every release takes a thread out of the waiting list, or makes the next
    [rt_sem_trytake] succeed. *)
Definition _workqueue_work_completion (q : nat) : K Z :=
  rt_enter_critical;;
  n ← gets (fun s => length (k_lists s (LSuspend q)));
  result ← work_completion_loop (S (S n)) q;
  rt_exit_critical;;
  mret result.

Section Works.

(** [work->work_func(work, work->work_data)] *)
Variable work_func : nat -> K unit.

(** The parts of a round of [_workqueue_thread_entry]: the wait for work, of which the
    test and the suspension are separate steps, *)
Definition workqueue_idle (q : nat) : K bool := gets (fun s => bool_decide (wk_work_list (wk s q) = [])).

Definition workqueue_sleep : K unit :=
  self ← rt_thread_self;
  t ← lift self;
  _ ← rt_thread_suspend t;
  rt_schedule.

(** the first work, which there must be one, *)
Definition workqueue_take (q : nat) : K nat :=
  x ← gets (fun s => wk s q);
  w ← lift (head (wk_work_list x));
  work_unlink w;;
  modify (alter_wk q (set_wk_work_current (Some w)));;
  mret w.

(** and the work itself. *)
Definition workqueue_do (q w : nat) : K unit :=
  work_func w;;
  modify (alter_wk q (set_wk_work_current None));;
  _ ← _workqueue_work_completion q;
  skip.

(** Behind the [rt_schedule]; also the round of a queue that has work. *)
Definition workqueue_round_after (q : nat) : K unit := w ← workqueue_take q; workqueue_do q w.

Definition _workqueue_thread_entry (q : nat) : K (outcome unit) :=
  idle ← workqueue_idle q;
  if (idle : bool) then workqueue_sleep;; mret Waits
  else workqueue_round_after q;; mret (Done tt).

End Works.

Definition WQUEUE_NAME : list Z := [119; 113; 117; 101; 117; 101; 0].

(** [exit_addr], [heap_addr], [entry]: addresses that [rt_thread_create] stores in the stack;
    [rt_free] has no effect on the state modelled. *)
Definition rt_workqueue_create (exit_addr : Z) (heap_addr : nat -> Z) (entry : Z) (name : list Z)
    (stack_size priority : Z) : K (option nat) :=
  queue ← rt_malloc;
  match queue with
  | None => mret None
  | Some q =>
      modify (alter_wk q (set_wk_work_list []));;
      modify (alter_wk q (set_wk_work_current None));;
      _ ← rt_sem_init q WQUEUE_NAME 0 RT_IPC_FLAG_FIFO;
      thread ← rt_thread_create exit_addr heap_addr name entry (heap_addr q) stack_size priority 10;
      match thread with
      | None => mret None
      | Some t =>
          modify (alter_wk q (set_wk_work_thread t));;
          _ ← rt_thread_startup t;
          mret (Some q)
      end
  end.

Definition rt_workqueue_destroy (user_cleanup : Z -> nat -> K unit) (q : nat) : K Z :=
  t ← gets (fun s => wk_work_thread (wk s q));
  _ ← rt_thread_delete user_cleanup t;
  mret RT_EOK.

Definition rt_workqueue_dowork (q w : nat) : K Z :=
  x ← gets (fun s => wk s q);
  if bool_decide (wk_work_current x = Some w) then mret (- RT_EBUSY)
  else
    work_unlink w;;
    modify (alter_wk q (fun x => set_wk_work_list (wk_work_list x ++ [w]) x));;
    match wk_work_current x with
    | None =>
        _ ← rt_thread_resume (wk_work_thread x);
        rt_schedule;;
        mret RT_EOK
    | Some _ => mret RT_EOK
    end.

(** The same code as [rt_workqueue_dowork]: the work goes to the end of the queue. *)
Definition rt_workqueue_critical_work (q w : nat) : K Z :=
  x ← gets (fun s => wk s q);
  if bool_decide (wk_work_current x = Some w) then mret (- RT_EBUSY)
  else
    work_unlink w;;
    modify (alter_wk q (fun x => set_wk_work_list (wk_work_list x ++ [w]) x));;
    match wk_work_current x with
    | None =>
        _ ← rt_thread_resume (wk_work_thread x);
        rt_schedule;;
        mret RT_EOK
    | Some _ => mret RT_EOK
    end.

Definition rt_workqueue_cancel_work (q w : nat) : K Z :=
  x ← gets (fun s => wk s q);
  if bool_decide (wk_work_current x = Some w) then mret (- RT_EBUSY)
  else work_unlink w;; mret RT_EOK.

(** The call waits until the round of its work is over. *)
Definition rt_workqueue_cancel_work_sync (q w : nat) : K (outcome Z) :=
  x ← gets (fun s => wk s q);
  if bool_decide (wk_work_current x = Some w) then
    r ← rt_sem_take q RT_WAITING_FOREVER;
    match r with Waits => mret Waits | Done _ => mret (Done RT_EOK) end
  else work_unlink w;; mret (Done RT_EOK).

(** Every node of the list is initialised. *)
Definition rt_workqueue_cancel_all_work (q : nat) : K Z :=
  rt_enter_critical;;
  modify (alter_wk q (set_wk_work_list []));;
  rt_exit_critical;;
  mret RT_EOK.

(** ** The queue *)

Lemma wk_alter q f s : wk (alter_wk q f s) q = f (wk s q).
Proof. unfold wk. simpl. by rewrite fupd_eq. Qed.

Lemma wk_frame q s s' : core_frame s s' -> wk s' q = wk s q.
Proof. intros Hf. unfold wk. by rewrite (cf_ext _ _ Hf). Qed.

Definition unlinked (w : nat) (s : kstate) : kstate :=
  alter_ext (fun x =>
    set_x_wk (fun q => set_wk_work_list (lremove w (wk_work_list (x_wk x q))) (x_wk x q)) x) s.

Lemma wk_unlinked w q s : wk (unlinked w s) q = set_wk_work_list (lremove w (wk_work_list (wk s q))) (wk s q).
Proof. done. Qed.

(** What [rt_workqueue_dowork] stores. *)
Definition queued (q w : nat) (s : kstate) : kstate :=
  alter_wk q (fun x => set_wk_work_list (wk_work_list x ++ [w]) x) (unlinked w s).

Lemma wk_queued q w s : wk (queued q w s) q = set_wk_work_list (lremove w (wk_work_list (wk s q)) ++ [w]) (wk s q).
Proof. unfold queued. by rewrite wk_alter, wk_unlinked. Qed.

Lemma core_queued q w s : core_ok s -> core_ok (queued q w s).
Proof. intros H. by do 2 apply core_ext. Qed.

(** ** The end of a work *)

(** Inside a critical section, a release makes the first waiting thread ready. *)
Lemma sem_release_locked n t r s :
  core_ok s -> rt_object_get_type (Obj n) s = RT_Object_Class_Semaphore -> k_lock_nest s <> 0 ->
  k_lists s (LSuspend n) = t :: r ->
  exists s', rt_sem_release n s = Some (RT_EOK, s') /\ core_ok s' /\ made_ready t id s s' /\ k_lists s' (LSuspend n) = r.
Proof.
  intros Hok Hty Hl Hq. unfold rt_sem_release, assert_type. rewrite bind_assert_s by (by rewrite Hty). krun. rewrite Hq.
  destruct (ipc_list_resume_spec (LSuspend n) t r s Hok I Hq) as (s1 & E1 & Hok1 & Hmr & Hl1).
  rewrite (run_bind _ _ _ _ _ E1). exists s1. split; [| done].
  rewrite (run_bind _ _ _ tt s1); [done |]. unfold rt_schedule. krun.
  rewrite (proj2 (Z.eqb_neq _ _)); [done |]. by rewrite (cf_lock _ _ (mr_frame _ _ _ _ Hmr)).
Qed.

(** The semaphore [n] is inside a critical section, and has no permit. *)
Record section_sem (n : nat) (s : kstate) : Prop := {
  ss_core : core_ok s;
  ss_type : rt_object_get_type (Obj n) s = RT_Object_Class_Semaphore;
  ss_lock : k_lock_nest s <> 0;
  ss_value : k_sem s n = 0
}.

(** The threads [r] that wait for the end of the work all become ready; the
    semaphore stays without a permit. *)
Lemma work_completion_loop_spec n r s fuel :
  section_sem n s -> k_lists s (LSuspend n) = r -> (S (length r) < fuel)%nat ->
  exists s', work_completion_loop fuel n s = Some (RT_EOK, s') /\ section_sem n s' /\
    k_lists s' (LSuspend n) = [] /\ (forall t, t ∈ r -> th_state s' t = RT_THREAD_READY) /\
    (forall t, t ∉ r -> k_thr s' t = k_thr s t) /\ (forall t, th_error (k_thr s' t) = th_error (k_thr s t)) /\
    k_current s' = k_current s /\ k_ext s' = k_ext s /\ k_lock_nest s' = k_lock_nest s.
Proof.
  revert s fuel. induction r as [| t r IH]; intros s fuel [Hok Hty Hlk Hv] Hq Hf;
    (destruct fuel as [| fuel]; [simpl in Hf; lia |]); cbn [work_completion_loop].
  - rewrite (run_bind _ _ _ _ _ (sem_take_none n s Hty Hv : rt_sem_trytake n s = _)). change (- RT_ETIMEOUT =? - RT_ETIMEOUT) with true. cbv iota.
    destruct fuel as [| fuel]; [simpl in Hf; lia |].
    set (s1 := set_sem n 1 s).
    assert (rt_sem_release n s = Some (RT_EOK, s1)) as E1 by (rewrite (sem_release_idle n s Hty Hq); by rewrite Hv).
    rewrite (run_bind _ _ _ _ _ E1). cbn [work_completion_loop].
    assert (rt_sem_trytake n s1 = Some (Done RT_EOK, set_sem n 0 s1)) as E2.
    { unfold rt_sem_trytake. rewrite (sem_take_free n 0 s1); [by unfold s1; rewrite sem_value | done | by unfold s1; rewrite sem_value]. }
    rewrite (run_bind _ _ _ _ _ E2). exists (set_sem n 0 s1). split; [done |].
    split; [split; [by do 2 apply sem_core | done | done | by rewrite sem_value] |].
    split; [exact Hq |]. split; [intros t Ht; by apply elem_of_nil in Ht |]. done.
  - rewrite (run_bind _ _ _ _ _ (sem_take_none n s Hty Hv : rt_sem_trytake n s = _)). change (- RT_ETIMEOUT =? - RT_ETIMEOUT) with true. cbv iota.
    destruct (sem_release_locked n t r s Hok Hty Hlk Hq) as (s1 & E1 & Hok1 & Hmr & Hq1).
    rewrite (run_bind _ _ _ _ _ E1). pose proof (mr_frame _ _ _ _ Hmr) as Hfr.
    destruct (IH s1 fuel) as (s2 & E2 & Hss & Hl2 & Hr2 & Ho2 & He2 & Hc2 & Hx2 & Hn2).
    { split; [done | by rewrite (core_get_type _ _ _ Hfr) | by rewrite (cf_lock _ _ Hfr) | by rewrite (cf_sem _ _ Hfr)]. }
    { done. } { simpl in Hf. lia. }
    assert (t ∉ r) as Htr.
    { pose proof (th_nodup _ _ (proj1 (co_sched _ _ Hok)) (LSuspend n)) as H. rewrite Hq in H. by apply NoDup_cons in H as [? _]. }
    exists s2. split; [done |]. split; [done |]. split; [done |]. split; [| split; [| split; [| split; [| split]]]].
    + intros u [-> | Hu]%elem_of_cons; [| by apply Hr2]. unfold th_state. rewrite (Ho2 t Htr). fold (th_state s1 t).
      by rewrite (made_ready_state _ _ _ _ _ Hmr), decide_True.
    + intros u [Hut Hur]%not_elem_of_cons. rewrite (Ho2 u Hur). by apply Hmr.
    + intros u. rewrite He2. destruct (decide (u = t)) as [-> |]; [by rewrite (mr_self _ _ _ _ Hmr) | by rewrite (mr_other _ _ _ _ Hmr)].
    + rewrite Hc2. apply Hmr.
    + rewrite Hx2. apply (cf_ext _ _ Hfr).
    + rewrite Hn2. apply (cf_lock _ _ Hfr).
Qed.

Lemma work_completion_spec q s :
  core_ok s -> rt_object_get_type (Obj q) s = RT_Object_Class_Semaphore -> k_sem s q = 0 -> k_lock_nest s = 0 ->
  is_Some (k_current s) -> some_ready s ->
  exists s', _workqueue_work_completion q s = Some (RT_EOK, s') /\ core_ok s' /\ k_sem s' q = 0 /\
    k_lists s' (LSuspend q) = [] /\ k_ext s' = k_ext s /\ k_lock_nest s' = 0 /\
    (forall t, t ∈ k_lists s (LSuspend q) -> th_state s' t = RT_THREAD_READY) /\
    (forall t, t ∉ k_lists s (LSuspend q) -> k_thr s' t = k_thr s t) /\
    (forall t, th_error (k_thr s' t) = th_error (k_thr s t)).
Proof.
  intros Hok Hty Hv Hl [c Hc] (p & Hp & Hne). unfold _workqueue_work_completion, rt_enter_critical. krun.
  rewrite Hl. change (swrap 16 (0 + 1)) with 1. set (s0 := set_k_lock_nest 1 s). change (k_lists s0) with (k_lists s).
  destruct (work_completion_loop_spec q (k_lists s (LSuspend q)) s0 (S (S (length (k_lists s (LSuspend q))))))
    as (s1 & E1 & [Hok1 Hty1 Hlk1 Hv1] & Hl1 & Hr1 & Ho1 & He1 & Hc1 & Hx1 & Hn1);
    [by split; [apply core_set_nest | ..] | done | lia |].
  rewrite (run_bind _ _ _ _ _ E1).
  assert (some_ready s1) as Hsr.
  { destruct (k_lists s (LReady p)) as [| u r] eqn:Hq; [done |]. apply (ready_some_ready _ u); [apply Hok1 |].
    assert (th_state s u = RT_THREAD_READY) as Hu.
    { apply (th_listed _ _ (proj1 (co_sched _ _ Hok)) (LReady p)). rewrite Hq. apply list_elem_of_here. }
    unfold th_state. rewrite Ho1; [exact Hu |]. intros Hin.
    by rewrite (wait_head_state s (LSuspend q) u Hok I Hin) in Hu. }
  destruct (exit_critical_one s1 c) as (t & p' & s2 & E2 & Hsw & _); [done | by rewrite Hn1 | by rewrite Hc1 | done |].
  rewrite (run_bind _ _ _ _ _ E2). exists s2. split; [done |].
  split; [eapply switched_core_ok; [exact Hsw | by apply core_set_nest] |].
  assert (k_lists s2 = k_lists s1 /\ k_thr s2 = k_thr s1 /\ k_sem s2 = k_sem s1 /\ k_ext s2 = k_ext s1 /\ k_lock_nest s2 = 0)
    as (El & Et & Es & Ex & En) by (by destruct Hsw as (? & ? & ? & ? & ->)).
  rewrite El, Es, Ex, En. unfold th_state in *. rewrite Et. split_and!; try done.
Qed.

(** ** Queuing *)

(** A work given to an idle queue, whose thread is suspended or ready. *)
Lemma dowork_idle q w s :
  core_ok s -> is_Some (k_current s) -> wk_work_current (wk s q) = None -> schedulable s (wk_work_thread (wk s q)) ->
  exists s', rt_workqueue_dowork q w s = Some (RT_EOK, s') /\ core_ok s' /\
    wk s' q = set_wk_work_list (lremove w (wk_work_list (wk s q)) ++ [w]) (wk s q) /\
    th_state s' (wk_work_thread (wk s q)) = RT_THREAD_READY /\
    (forall u, u <> wk_work_thread (wk s q) -> k_thr s' u = k_thr s u).
Proof.
  intros Hok Hc Hcur Hst. set (t := wk_work_thread (wk s q)) in *.
  assert (exists s1 r, rt_thread_resume t (queued q w s) = Some (r, s1) /\ core_ok s1 /\ k_ext s1 = k_ext (queued q w s) /\
    th_state s1 t = RT_THREAD_READY /\ (forall u, u <> t -> k_thr s1 u = k_thr s u) /\ k_current s1 = k_current s)
    as (s1 & r & E1 & Hok1 & Ex1 & Hr1 & Ho1 & Hc1).
  { destruct Hst as [Hst | Hst].
    - exists (queued q w s), (- RT_ERROR). split; [apply thread_resume_ready; [by apply core_queued | done] |].
      split; [by apply core_queued | done].
    - destruct (thread_resume_spec t (queued q w s)) as (s1 & E1 & Hok1 & Hmr); [by apply core_queued | done |].
      exists s1, RT_EOK. split; [done |]. split; [done |]. split; [apply (cf_ext _ _ (mr_frame _ _ _ _ Hmr)) |].
      split; [by rewrite (made_ready_state _ _ _ _ _ Hmr), decide_True |]. split; [apply Hmr | apply (mr_current _ _ _ _ Hmr)]. }
  destruct (schedule_core s1) as (s' & E' & Hok' & Hsw & _); [done | by rewrite Hc1 | by apply (ready_some_ready _ t); [apply Hok1 |] |].
  assert (k_thr s' = k_thr s1 /\ k_ext s' = k_ext s1) as [Et Ex] by (by destruct Hsw as (? & ? & ? & ? & ->)).
  exists s'. split; [| split; [done | split; [| split]]].
  - unfold rt_workqueue_dowork, work_unlink. krun. rewrite bool_decide_eq_false_2 by (by rewrite Hcur). krun.
    rewrite Hcur. fold (unlinked w s). fold (queued q w s). rewrite (run_bind _ _ _ _ _ E1). by rewrite (run_bind _ _ _ _ _ E').
  - unfold wk. rewrite Ex, Ex1. fold (wk (queued q w s) q). apply wk_queued.
  - unfold th_state. by rewrite Et.
  - intros u Hu. rewrite Et. by apply Ho1.
Qed.

(** ** Theorems *)


(** A work given to a sleeping queue and cancelled before the thread of the
    queue runs leaves that thread ready with nothing to do.  The code behind its wait
    does not look again: it takes the head of the empty list for a work. *)
Theorem rt_workqueue_cancel_breaks_thread (work_func : nat -> K unit) q w s :
  core_ok s -> is_Some (k_current s) -> wk_work_list (wk s q) = [] -> wk_work_current (wk s q) = None ->
  th_state s (wk_work_thread (wk s q)) = RT_THREAD_SUSPEND ->
  exists s1 s2, rt_workqueue_dowork q w s = Some (RT_EOK, s1) /\
    th_state s1 (wk_work_thread (wk s q)) = RT_THREAD_READY /\
    rt_workqueue_cancel_work q w s1 = Some (RT_EOK, s2) /\ core_ok s2 /\
    th_state s2 (wk_work_thread (wk s q)) = RT_THREAD_READY /\ wk_work_list (wk s2 q) = [] /\
    workqueue_round_after work_func q s2 = None.
Proof.
  intros Hok Hc Hl Hcur Hst. destruct (dowork_idle q w s Hok Hc Hcur) as (s1 & E1 & Hok1 & Ew & Hr & _); [by right |].
  assert (wk_work_list (wk (unlinked w s1) q) = []) as Hl2.
  { rewrite wk_unlinked, Ew, Hl. cbn [wk_work_list set_wk_work_list]. by rewrite (lremove_head w []) by apply not_elem_of_nil. }
  exists s1, (unlinked w s1). split; [done |]. split; [done |]. split.
  - unfold rt_workqueue_cancel_work, work_unlink. krun. rewrite bool_decide_eq_false_2 by (rewrite Ew; change (wk_work_current (wk s q) <> Some w); by rewrite Hcur). by krun.
  - split; [by apply core_ext |]. split; [done |]. split; [done |].
    unfold workqueue_round_after, workqueue_take. krun. by rewrite Hl2.
Qed.

(** C28: a work given between the test of the empty queue and the suspension of the
    thread of the queue finds that thread ready; the thread then suspends itself,
    and sleeps although there is a work and none is being done. *)
Theorem rt_workqueue_sleeps_on_work q w s :
  core_ok s -> is_Some (k_current s) -> wk_work_list (wk s q) = [] -> wk_work_current (wk s q) = None ->
  let t := wk_work_thread (wk s q) in
  th_state s t = RT_THREAD_READY ->
  workqueue_idle q s = Some (true, s) /\
  exists s1, rt_workqueue_dowork q w s = Some (RT_EOK, s1) /\ core_ok s1 /\ wk_work_list (wk s1 q) = [w] /\
    forall s2, core_ok s2 -> wk s2 q = wk s1 q -> may_wait t s2 ->
      exists s3, workqueue_sleep s2 = Some (tt, s3) /\ core_ok s3 /\ th_state s3 t = RT_THREAD_SUSPEND /\
        (forall h, t ∉ k_lists s3 h) /\ ThreadTimer t ∉ hard s3 /\
        wk_work_list (wk s3 q) = [w] /\ wk_work_current (wk s3 q) = None.
Proof.
  intros Hok Hc Hl Hcur t Hst. split; [unfold workqueue_idle; krun; unfold gets; by rewrite bool_decide_eq_true_2 |].
  destruct (dowork_idle q w s Hok Hc Hcur) as (s1 & E1 & Hok1 & Ew & _ & _); [by left |]. fold t in Ew.
  rewrite Hl in Ew. exists s1. split; [done |]. split; [done |]. split; [by rewrite Ew |].
  intros s2 Hok2 Ew2 [Hc2 Hst2 Hl2 _ (u & Hu & Hur)].
  destruct (thread_suspend_core t s2 Hok2 Hst2) as (s3 & E3 & Hok3 & Hsu & Hst3).
  destruct (schedule_core s3) as (s4 & E4 & Hok4 & Hsw & _); [done | by rewrite (su_current _ _ _ Hsu) | |].
  { apply (ready_some_ready _ u); [apply Hok3 |]. unfold th_state. by rewrite (su_other _ _ _ Hsu). }
  assert (k_lists s4 = k_lists s3 /\ k_thr s4 = k_thr s3 /\ hard s4 = hard s3 /\ k_ext s4 = k_ext s3) as (El & Et & Eh & Ex)
    by (by destruct Hsw as (? & ? & ? & ? & ->)).
  assert (wk s4 q = wk s2 q) as E4w by (unfold wk; by rewrite Ex, (cf_ext _ _ (su_frame _ _ _ Hsu))).
  exists s4. split; [| split; [done |]].
  - unfold workqueue_sleep, rt_thread_self. krun. rewrite Hc2. krun. by rewrite (run_bind _ _ _ _ _ E3).
  - split; [unfold th_state; by rewrite Et |]. split.
    { intros h. rewrite El, (su_lists _ _ _ Hsu), elem_lremove. tauto. }
    split; [rewrite Eh; apply Hsu |]. rewrite E4w, Ew2, Ew. by rewrite <- Hcur.
Qed.

(** ** Witnesses *)

(** Queue 16, with the works [l] and the thread [t]. *)
Definition example_wk (l : list nat) (t : nat) : kstate := alter_wk 16 (fun _ => Workqueue l None t) example.


Lemma rt_workqueue_cancel_breaks_thread_witness :
  exists s1 s2, rt_workqueue_dowork 16 17 (example_wk [] 1) = Some (RT_EOK, s1) /\ th_state s1 1 = RT_THREAD_READY /\
    rt_workqueue_cancel_work 16 17 s1 = Some (RT_EOK, s2) /\ core_ok s2 /\ th_state s2 1 = RT_THREAD_READY /\
    wk_work_list (wk s2 16) = [] /\ workqueue_round_after (fun _ => skip) 16 s2 = None.
Proof.
  apply (rt_workqueue_cancel_breaks_thread (fun _ => skip) 16 17 (example_wk [] 1));
    [apply core_ext, example_core | exists 2%nat; reflexivity | reflexivity | reflexivity | vm_compute; reflexivity].
Defined.

Lemma rt_workqueue_sleeps_on_work_witness :
  workqueue_idle 16 (example_wk [] 2) = Some (true, example_wk [] 2) /\
  exists s1, rt_workqueue_dowork 16 17 (example_wk [] 2) = Some (RT_EOK, s1) /\ core_ok s1 /\ wk_work_list (wk s1 16) = [17]%nat /\
    forall s2, core_ok s2 -> wk s2 16 = wk s1 16 -> may_wait 2 s2 ->
      exists s3, workqueue_sleep s2 = Some (tt, s3) /\ core_ok s3 /\ th_state s3 2 = RT_THREAD_SUSPEND /\
        (forall h, 2%nat ∉ k_lists s3 h) /\ ThreadTimer 2 ∉ hard s3 /\
        wk_work_list (wk s3 16) = [17]%nat /\ wk_work_current (wk s3 16) = None.
Proof.
  apply (rt_workqueue_sleeps_on_work 16 17 (example_wk [] 2));
    [apply core_ext, example_core | exists 2%nat; reflexivity | reflexivity | reflexivity | vm_compute; reflexivity].
Defined.

(** When the thread cannot be created, [rt_workqueue_create] gives the block of the queue
    back with the semaphore inside it still registered. *)
Definition example_no_thread : kstate := set_k_oom (fun n => bool_decide (n = 101%nat)) example.

Example rt_workqueue_create_leaves_semaphore :
  match rt_workqueue_create 0x8000 (fun n => 0x10000 + Z.of_nat n) 0x4000 [119; 0] 1024 9 example_no_thread with
  | Some (r, s') => (r, bool_decide (Obj 100 ∈ k_cont s' RT_Object_Class_Semaphore))
  | None => (Some 0%nat, false)
  end = (None, true).
Proof. vm_compute. reflexivity. Qed.

End WorkQueue.
